(* ===== verification/_CoqProject ===== *)
-Q . S2P
Prelude.v
Memory.v
Alloc.v
Dlist.v
ListMerge.v
Arena.v
CString.v
Machine.v
Multiboot.v
Pmm.v
Vmm.v
VmmSpec.v
VmmCopy.v
VmmInit.v
Kheap.v
KheapSpec.v
KheapAlloc.v
KheapFree.v
KheapRealloc.v
Ksbrk.v
Spinlock.v
Io.v
Serial.v
Keyboard.v
Vga.v
Terminal.v
Display.v
IoMem.v
Clock.v
FsNode.v
Rootfs.v
Tarfs.v
TarMount.v
VfsMount.v
DevFiles.v
Tree.v
Task.v
Pci.v
Board.v
Acpi.v
Elf.v
ElfLoad.v
Syscall.v
Asm.v
Stubs.v
IntStub.v
CtxSwitch.v
Preempt.v
BootAsm.v
Features.v
Boot.v
DescTables.v
WitnessMem.v
WitnessDev.v
WitnessFs.v
WitnessSys.v
WitnessAsm.v
