(* ===== verification/Prelude.v ===== *)
(** * piggyOS: a verification library for the kernel

    piggyOS is a small kernel for the i686: a boot loader hands it a chain of
    multiboot tags, from which it sets up a physical memory manager, paging, a
    heap, interrupts, drivers, file systems, tasks and system calls.  This library
    models the C code and the assembly of the kernel as functions in Rocq and
    proves what they do.  All file names below are relative to src/kernel/.

    ** Parts of the program

    - entry.asm enters the higher half with its own page directory and calls
      [kernel_main] of kernel.c, which initialises everything else in order.
    - memory/pmm.c hands out 4096-byte blocks from a bitmap.  memory/vmm.c maps
      pages to blocks, allocates page tables (during boot from a bump pointer,
      later from the heap) and moves the heap break.  memory/kheap.c is the heap:
      it grows through [ksbrk] of vmm.c, which allocates pages, which may
      allocate a page table from the heap again.
    - utils/dsa/list.c needs [kcalloc] and [kfree] only; utils/dsa/tree.c, the
      file systems (fs/) and the scheduler (sys/task.c) are clients of the lists.
    - cpu/gdt.c, idt.c, tss.c and isr.c build the descriptor tables and dispatch
      interrupts to the handlers the drivers install; the stubs of
      cpu/interrupt.asm save and restore the registers around them.
      sys/context_switch.asm changes the stack of the processor for the
      scheduler, sys/usermode.asm leaves to user mode, and sys/syscall.c runs
      behind int 127.
    - utils/display.c prints through drivers/serial.c, whose receive queue is
      filled by an interrupt, and through drivers/vga.c; drivers/keyboard.c turns
      scan codes into characters; drivers/rtc.c and timer.c keep the time,
      drivers/pci.c scans the buses, drivers/acpi/ parses tables and powers off.

    ** How the code is modelled

    Machine integers are [Z] with the wrap-around of their type written out
    ([u8], [u16], [u32], [s32], and [+32], [-32], [*32]).  Code is a function of
    the monad [M S A] over a state [S]: it returns, panics ([kpanic] never
    returns) or runs out of fuel.  [wp c Q s] says that [c] returns from [s] with
    [Q]; it excludes the other two outcomes, so a theorem of the form
    [exists s', c s = Done (a, s') /\ ...] is total correctness.  [stuck] says
    that no amount of fuel lets the code return.  Loops that the code does not
    bound take a fuel argument; theorems ask for the fuel that the data need
    (the length of a list or string, the number of pages, of status polls or of
    instructions), or hold for every fuel where they state divergence.

    Memory is a finite map from addresses to bytes ([Memory.v]), a C pointer is
    the address, and a struct is the words at its field offsets, so that pointer
    arithmetic, aliasing and stray writes of the code are those of the model.  A
    state with a memory is an instance of [HasMem], one with port accesses of
    [HasIo], and code that needs no more is written against these classes.  A
    component that calls another one is written against a class that states what
    it relies on ([Allocator], [Switching], [Terminal], [FsCalls], [Boot] and the
    like); the instances are in the file of the other component or in the
    witnesses.

    The assembly runs on a processor ([Asm.v]) with general, segment and control
    registers, flags, instruction pointer and memory; programs are lists of
    instructions with labels, transcribed line by line in [Stubs.v].

    ** Files

    - [Prelude]: words, bit fields, counting, the monad and its rules.
      [Memory]: loads, stores, memory equality.  [Io]: ports with the answers of
      the devices as input and a trace of the accesses; [IoMem], [Board]: states
      with both.  [CString]: utils/string.c.
    - [Alloc]: what a client expects of a heap: the classes [Allocator],
      [CallocLaws] and [KfreeLaws].  [Dlist]: utils/dsa/list.c against these
      classes, [ListMerge]: its [list_merge].  [Tree]: utils/dsa/tree.c.  [Arena]: a reference implementation.
    - [Machine]: include/system.h and the globals of the three memory managers,
      in one record [kernel].  [Multiboot]: multiboot2.c.  [Pmm]: memory/pmm.c.
      [Vmm]: the code of memory/vmm.c.  [VmmSpec]: the translation of a page
      directory and what the page functions do to it.  [VmmCopy]: copies of a
      directory.  [VmmInit]: the address space [vmm_init] builds.
    - [Kheap]: the code of memory/kheap.c.  [KheapSpec]: the free list.
      [KheapAlloc]: [malloc] and [kcalloc], and the instances of [Allocator] and
      [CallocLaws] for the kernel heap.  [KheapFree]: [free] and coalescing.
      [KheapRealloc]: growing a block.  [Ksbrk]: the break.
    - [Serial], [Keyboard], [Vga], [Clock]: drivers/serial.c, keyboard.c, vga.c,
      rtc.c and timer.c.  [Terminal], [Display]: utils/display.c on the serial
      line, with the console in front of it in the configuration TEXTMODE.
      [Pci], [Acpi]: drivers/pci.c and drivers/acpi/.
    - [Spinlock]: sys/spinlock.c and threads that use it.  [FsNode]: fs/vfs.c.
      [Rootfs]: fs/rootfs.c and devfs.c.  [Tarfs]: fs/tarfs.c.  [TarMount]: what
      [tarfs_init] mounts.  [VfsMount]: the calls of vfs.c into the file systems.
      [DevFiles]: fs/devices/.
    - [Task]: sys/task.c and the system calls on tasks.  [Syscall]: sys/syscall.c.
      [Elf]: sys/elf.c.  [ElfLoad]: [elf_load] on a file of the ramdisk.
      [DescTables]: cpu/gdt.c, idt.c, tss.c and isr.c.  [Features]: cpu/cpuid.c
      and fpu.c.  [Boot]: kernel.c.
    - [Asm]: the processor.  [Stubs]: the assembly files.  [IntStub]: the
      interrupt stubs.  [CtxSwitch]: the switch of stacks.  [Preempt]: both
      together.  [BootAsm]: entry.asm, usermode.asm and the start code of user
      programs.
    - [WitnessMem], [WitnessDev], [WitnessFs], [WitnessSys], [WitnessAsm]: the
      theorems at concrete states.

    ** What the theorems show

    - Physical memory: the invariant [pmm_inv] ([used_blocks] counts the marked
      blocks of the bitmap) is established by [pmm_init] and kept by allocation
      and by the release of an allocated block; allocation finds the lowest free
      block; exhaustion and double release are described exactly.
    - Paging: [virt2phys] computes [translate], the meaning of a directory;
      [allocate_page] and [free_page] change it at one page; [vmm_init] builds a
      particular address space, stated in full; a copy of a directory with the
      kernel's page tables shares them; [allocate_region] may loop.
    - Heap: the free list operations and the best-fit search against a list;
      [malloc] by extension and by reuse; [free] with every combination of free
      neighbours; [ksbrk]; the contract of [Alloc] for small requests; and the
      defects of the layout: overlapping payloads, the wrong block released,
      endless recursion, the shrinking break.
    - Lists and trees: insertion, removal, lookup, merging and destruction against
      Coq lists, searches against preorder traversals of rose trees, for any allocator
      with the laws, with the frame of all other live objects.
    - Output and input: [__itoa] can be read back; [kprintf] sends to the serial
      line, and shows on the screen, what [kformat] specifies; the console refines
      a screen of cells; the receive queue refines a bounded queue over every
      sequence of interrupts and reads; the keyboard prints the text typed.
    - File systems: registration refines a finite map; [tarfs_init] makes a node
      for every file of the archive, which is found by its name and read through
      the virtual file system from the root directory on; the generator behind the random device;
      spinlocks exclude, and the code that releases one it does not hold breaks it.
    - Tasks: a queue of ready tasks is scheduled in order within as many
      interrupts as it has tasks; a zombie in the middle is never passed.  The
      assembly of the switch implements the switch of that model, a task that is
      switched to again goes on with its registers, and code whose interrupt
      switched to other tasks goes on as if nothing had happened.
    - Interrupts: gates, segments and the dispatch of handlers; every stub hands
      the handler a frame with all registers and restores them; a system call runs
      from int 127 to the dispatcher and back with its result in eax.
    - Boot: the page directory of entry.asm, the state in which [kernel_main] is
      called, the order of its initialisations; the ELF loader, on memory and on a file of the
      ramdisk, against a reference loader; the scan of the PCI buses; the ACPI tables.

    ** Bounds and abstractions

    [klog] and [kprintf] called from other components are recorded as events or
    are operations of an interface, with their format strings; [Display] models
    the functions themselves.  Inline assembly is modelled by its effect; the
    linker symbols are the class [Linker], other addresses of globals classes of
    their own.  Allocation of page directory entries uses the bit positions of the
    C structures.  The assembly runs on unmapped memory: what paging does to its
    accesses is left out, except for the directory that entry.asm builds.  The
    processor checks privilege levels at [iret] and at the delivery of interrupts
    only; descriptors are the class [Processor].  Interrupts that arrive while
    other code runs are modelled for spinlocks, [sleep], the scheduler and the
    receive queue, as explicit steps or events; elsewhere code is not interrupted.

    ** Not modelled

    The fields and constants of headers that no code reads, the function
    declarations, linker scripts, Makefiles and the patches of the cross compiler.
    These have definitions, but no theorem of their own: [copy_page_table],
    [free_region], [memcmp], [strncpy], [list_pop] and the peeks, the releasing
    functions of tree.c other than [tree_break_off], [tarfs_readdir],
    [acpi_init], [acpi_enable], [shutdown], and the branches of [realloc] that do
    not grow into the following block. *)

From stdpp Require Export base gmap list numbers strings.
From Stdlib Require Export ZArith Lia Ascii.

#[export] Set Default Goal Selector "!".

Declare Scope word_scope.
Delimit Scope word_scope with W.
Open Scope Z_scope.

(** ** Machine integers *)

(** The kernel is compiled for i686: [uint8_t], [uint16_t], [uint32_t] and
    pointers are integers modulo 2^8, 2^16 and 2^32.  Arithmetic is written on
    [Z] and every place where the C code stores a result in a typed object
    applies the wrap-around of its type. *)
Definition u8 (z : Z) : Z := z mod 256.
Definition u16 (z : Z) : Z := z mod 65536.
Definition u32 (z : Z) : Z := z mod 4294967296.
Definition u64 (z : Z) : Z := z mod 18446744073709551616.

(** The value of a 32-bit pattern read as a C [int] (two's complement). *)
Definition s32 (z : Z) : Z :=
  if u32 z <? 2147483648 then u32 z else u32 z - 4294967296.

(** The value of a byte read as a C [char]. *)
Definition s8 (z : Z) : Z := if u8 z <? 128 then u8 z else u8 z - 256.

Arguments s8 : simpl never.
Arguments u8 : simpl never.
Arguments u16 : simpl never.
Arguments u32 : simpl never.
Arguments u64 : simpl never.
Arguments s32 : simpl never.

Notation "a +32 b" := (u32 (a + b)) (at level 50, left associativity) : word_scope.
Notation "a -32 b" := (u32 (a - b)) (at level 50, left associativity) : word_scope.
Notation "a *32 b" := (u32 (a * b)) (at level 40, left associativity) : word_scope.
Open Scope word_scope.

(** [lia] on goals that contain [/] and [mod] by literals and the wrap
    functions above. *)
Ltac words := unfold s32, u8, u16, u32, u64 in *.
Ltac word_lia := words; Z.div_mod_to_equations; lia.

Lemma u8_range z : 0 <= u8 z < 256.
Proof. word_lia. Qed.

Lemma u16_range z : 0 <= u16 z < 65536.
Proof. word_lia. Qed.

Lemma s8_range z : -128 <= s8 z < 128.
Proof. unfold s8. pose proof (u8_range z). destruct (Z.ltb_spec (u8 z) 128); lia. Qed.

Lemma u32_range z : 0 <= u32 z < 4294967296.
Proof. word_lia. Qed.

Lemma u8_small z : 0 <= z < 256 -> u8 z = z.
Proof. intros. apply Z.mod_small. lia. Qed.

Lemma u16_small z : 0 <= z < 65536 -> u16 z = z.
Proof. intros. apply Z.mod_small. lia. Qed.

Lemma u32_small z : 0 <= z < 4294967296 -> u32 z = z.
Proof. intros. apply Z.mod_small. lia. Qed.

Lemma u8_idemp z : u8 (u8 z) = u8 z.
Proof. apply u8_small, u8_range. Qed.

Lemma u16_idemp z : u16 (u16 z) = u16 z.
Proof. apply u16_small, u16_range. Qed.

Lemma u32_idemp z : u32 (u32 z) = u32 z.
Proof. apply u32_small, u32_range. Qed.

Lemma u32_add_l a b : u32 (u32 a + b) = u32 (a + b).
Proof. unfold u32. by rewrite Zplus_mod_idemp_l. Qed.

Lemma u32_add_r a b : u32 (a + u32 b) = u32 (a + b).
Proof. unfold u32. by rewrite Zplus_mod_idemp_r. Qed.

Lemma u32_sub_l a b : u32 (u32 a - b) = u32 (a - b).
Proof. unfold u32. by rewrite Zminus_mod_idemp_l. Qed.

(** Closes [u32 e = e'] when the bounds in the context show that [e] does not
    wrap. *)
Ltac u32_simpl := repeat (rewrite u32_small by lia).

(** ** Bit fields *)

(** [field w lo len] is the value of the [len]-bit C bit field that starts at
    bit [lo] of the storage unit [w]; [set_field w lo len v] is [w] after the
    assignment of [v] to that field. *)
Definition field (w lo len : Z) : Z := Z.land (Z.shiftr w lo) (Z.ones len).
Definition set_field (w lo len v : Z) : Z :=
  Z.lor (Z.ldiff w (Z.shiftl (Z.ones len) lo)) (Z.shiftl (Z.land v (Z.ones len)) lo).

Arguments field : simpl never.
Arguments set_field : simpl never.

Lemma testbit_ones n i : 0 <= n -> 0 <= i -> Z.testbit (Z.ones n) i = (i <? n).
Proof.
  intros Hn Hi. destruct (Z.ltb_spec i n).
  - by apply Z.ones_spec_low.
  - apply Z.ones_spec_high; lia.
Qed.

(** Reduces a goal on [Z.testbit] of the bitwise operators to a boolean
    goal on comparisons of the bit index. *)
Ltac bits_push :=
  repeat first
    [ rewrite Z.lor_spec | rewrite Z.land_spec | rewrite Z.ldiff_spec
    | rewrite Z.lxor_spec
    | rewrite Z.shiftl_spec by lia | rewrite Z.shiftr_spec by lia
    | rewrite testbit_ones by lia ].

Lemma testbit_neg_idx z i : i < 0 -> Z.testbit z i = false.
Proof. apply Z.testbit_neg_r. Qed.

Lemma field_mod w lo len : 0 <= lo -> 0 <= len -> field w lo len = (w / 2 ^ lo) mod 2 ^ len.
Proof. intros. unfold field. by rewrite Z.land_ones, Z.shiftr_div_pow2 by lia. Qed.

Lemma field_testbit w lo len i :
  0 <= lo -> 0 <= len -> 0 <= i ->
  Z.testbit (field w lo len) i = Z.testbit w (i + lo) && (i <? len).
Proof. intros. unfold field. by bits_push. Qed.

Lemma set_field_testbit w lo len v i :
  0 <= lo -> 0 <= len -> 0 <= i ->
  Z.testbit (set_field w lo len v) i =
    if (lo <=? i) && (i <? lo + len) then Z.testbit v (i - lo) else Z.testbit w i.
Proof.
  intros. unfold set_field. bits_push.
  destruct (Z.leb_spec lo i); simpl.
  - rewrite testbit_ones by lia.
    replace (i - lo <? len) with (i <? lo + len) by lia.
    destruct (i <? lo + len); simpl.
    + by rewrite andb_false_r, andb_true_r.
    + by rewrite andb_true_r, andb_false_r, orb_false_r.
  - rewrite !(testbit_neg_idx _ (i - lo)) by lia. simpl.
    by rewrite andb_true_r, orb_false_r.
Qed.

Lemma field_set_eq w lo len v :
  0 <= lo -> 0 <= len -> field (set_field w lo len v) lo len = v mod 2 ^ len.
Proof.
  intros. apply Z.bits_inj'. intros i Hi.
  rewrite field_testbit, set_field_testbit by lia.
  rewrite Z.testbit_mod_pow2 by lia.
  replace (lo <=? i + lo) with true by lia.
  replace (i + lo <? lo + len) with (i <? len) by lia.
  replace (i + lo - lo) with i by lia. simpl.
  destruct (i <? len); simpl; [by rewrite andb_true_r | by rewrite andb_false_r].
Qed.

Lemma field_set_ne w lo len v lo' len' :
  0 <= lo -> 0 <= len -> 0 <= lo' -> 0 <= len' ->
  lo' + len' <= lo \/ lo + len <= lo' ->
  field (set_field w lo len v) lo' len' = field w lo' len'.
Proof.
  intros. apply Z.bits_inj'. intros i Hi.
  rewrite !field_testbit, set_field_testbit by lia.
  destruct (Z.ltb_spec i len'); [|by rewrite !andb_false_r].
  rewrite !andb_true_r.
  replace ((lo <=? i + lo') && (i + lo' <? lo + len)) with false by lia. done.
Qed.

Lemma set_field_nonneg w lo len v :
  0 <= w -> 0 <= lo -> 0 <= len -> 0 <= set_field w lo len v.
Proof.
  intros. unfold set_field. apply Z.lor_nonneg. split.
  - apply Z.ldiff_nonneg. lia.
  - apply Z.shiftl_nonneg, Z.land_nonneg. right. rewrite Z.ones_equiv.
    pose proof (Z.pow_pos_nonneg 2 len). lia.
Qed.

(** A number below 2^n is determined by its [n] low bits. *)
Lemma lt_pow2_testbit z n :
  0 <= n -> 0 <= z -> (forall i, n <= i -> Z.testbit z i = false) -> z < 2 ^ n.
Proof.
  intros Hn Hz Hb. destruct (decide (z = 0)) as [->|Hz0]; [lia|].
  apply Z.log2_lt_pow2; [lia|]. apply Z.nle_gt. intros Hle.
  specialize (Hb (Z.log2 z) Hle). rewrite Z.bit_log2 in Hb; [done | lia].
Qed.

Lemma testbit_high z n i : 0 <= z < 2 ^ n -> n <= i -> Z.testbit z i = false.
Proof.
  intros Hz Hi. destruct (decide (n < 0)) as [Hn|Hn].
  { rewrite Z.pow_neg_r in Hz by lia. lia. }
  rewrite <- (Z.mod_small z (2 ^ n)) by lia. apply Z.mod_pow2_bits_high. lia.
Qed.

Lemma set_field_range w lo len v n :
  0 <= w < 2 ^ n -> 0 <= lo -> 0 <= len -> lo + len <= n ->
  0 <= set_field w lo len v < 2 ^ n.
Proof.
  intros Hw Hlo Hlen Hn. split; [apply set_field_nonneg; lia|].
  apply lt_pow2_testbit; [lia | apply set_field_nonneg; lia |].
  intros i Hi. rewrite set_field_testbit by lia.
  replace ((lo <=? i) && (i <? lo + len)) with false by lia.
  eapply testbit_high; eauto.
Qed.

Lemma testbit_u32 z i : 0 <= i < 32 -> Z.testbit (u32 z) i = Z.testbit z i.
Proof. intros. unfold u32. change 4294967296 with (2 ^ 32). by rewrite Z.mod_pow2_bits_low by lia. Qed.

Lemma ldiff_range a b : 0 <= a < 4294967296 -> 0 <= Z.ldiff a b < 4294967296.
Proof.
  intros Ha. assert (H0 : 0 <= Z.ldiff a b) by (apply Z.ldiff_nonneg; lia). split; [done|].
  change 4294967296 with (2 ^ 32) in *. apply lt_pow2_testbit; [lia | done |]. intros i Hi.
  by rewrite Z.ldiff_spec, (testbit_high a 32) by lia.
Qed.

(** The mask of a single bit. *)
Lemma testbit_bit j i : 0 <= j -> 0 <= i -> Z.testbit (Z.shiftl 1 j) i = (i =? j).
Proof.
  intros. rewrite Z.shiftl_mul_pow2, Z.mul_1_l, Z.pow2_bits_eqb by lia. apply Z.eqb_sym.
Qed.

Lemma land_bit_eqb w j : 0 <= j -> (Z.land w (Z.shiftl 1 j) =? 0) = negb (Z.testbit w j).
Proof.
  intros Hj. destruct (Z.testbit w j) eqn:Hb; simpl.
  - apply Z.eqb_neq. intros H0. apply (f_equal (fun z => Z.testbit z j)) in H0.
    rewrite Z.land_spec, testbit_bit, Z.eqb_refl, Hb, Z.testbit_0_l in H0 by lia. done.
  - apply Z.eqb_eq, Z.bits_inj'. intros i Hi.
    rewrite Z.land_spec, testbit_bit, Z.testbit_0_l by lia.
    destruct (Z.eqb_spec i j) as [->|]; [by rewrite Hb | apply andb_false_r].
Qed.

(** ** Counting *)

(** The number of [i] below [n] with [P i]. *)
Fixpoint countb (P : Z -> bool) (n : nat) : Z :=
  match n with
  | O => 0
  | S n' => (if P (Z.of_nat n') then 1 else 0) + countb P n'
  end.

Lemma countb_range P n : 0 <= countb P n <= Z.of_nat n.
Proof. induction n as [|n IH]; simpl; [lia|]. destruct (P (Z.of_nat n)); lia. Qed.

Lemma countb_ext P Q n :
  (forall i, 0 <= i < Z.of_nat n -> P i = Q i) -> countb P n = countb Q n.
Proof.
  induction n as [|n IH]; intros H; simpl; [done|].
  rewrite H, IH by (lia || (intros; apply H; lia)). done.
Qed.

Lemma countb_all P n : (forall i, 0 <= i < Z.of_nat n -> P i = true) -> countb P n = Z.of_nat n.
Proof.
  induction n as [|n IH]; intros H; simpl; [done|].
  rewrite H, IH by (lia || (intros; apply H; lia)). lia.
Qed.

Lemma countb_none P n : (forall i, 0 <= i < Z.of_nat n -> P i = false) -> countb P n = 0.
Proof.
  induction n as [|n IH]; intros H; simpl; [done|].
  rewrite H, IH by (lia || (intros; apply H; lia)). lia.
Qed.

(** Turning one false value into true adds one. *)
Lemma countb_flip P Q n b :
  0 <= b < Z.of_nat n -> P b = false -> Q b = true ->
  (forall i, 0 <= i < Z.of_nat n -> i <> b -> Q i = P i) ->
  countb Q n = countb P n + 1.
Proof.
  induction n as [|n IH]; intros Hb HPb HQb HPQ; [simpl in *; lia|]. simpl.
  destruct (decide (b = Z.of_nat n)) as [->|Hne].
  - rewrite HPb, HQb, (countb_ext Q P); [lia|]. intros i Hi. apply HPQ; lia.
  - rewrite HPQ, IH; [lia | lia | done | done | | lia | done].
    intros i Hi. apply HPQ. lia.
Qed.

Lemma countb_full P n i : countb P n = Z.of_nat n -> 0 <= i < Z.of_nat n -> P i = true.
Proof.
  induction n as [|n IH]; simpl; [lia|]. intros H Hi. pose proof (countb_range P n).
  destruct (P (Z.of_nat n)) eqn:HP; [|lia].
  destruct (decide (i = Z.of_nat n)) as [->|]; [done|]. apply IH; lia.
Qed.

Lemma countb_mono P Q n :
  (forall i, 0 <= i < Z.of_nat n -> P i = true -> Q i = true) -> countb P n <= countb Q n.
Proof.
  induction n as [|n IH]; intros H; simpl; [lia|].
  assert (countb P n <= countb Q n) by (apply IH; intros i Hi; apply H; lia).
  destruct (P (Z.of_nat n)) eqn:HP; [rewrite H by (done || lia); lia|].
  destruct (Q (Z.of_nat n)); lia.
Qed.

(** The numbers below [u]. *)
Lemma countb_below u n : 0 <= u <= Z.of_nat n -> countb (fun c => c <? u) n = u.
Proof.
  revert u. induction n as [|n IH]; intros u Hu; simpl; [lia|].
  destruct (Z.ltb_spec (Z.of_nat n) u).
  - replace u with (Z.of_nat n + 1) by lia.
    rewrite countb_all by (intros i Hi; apply Z.ltb_lt; lia). lia.
  - rewrite IH by lia. lia.
Qed.

(** The least index with a false value. *)
Lemma least_false (P : Z -> bool) n :
  countb P n < Z.of_nat n ->
  exists i, 0 <= i < Z.of_nat n /\ P i = false /\ forall j, 0 <= j < i -> P j = true.
Proof.
  induction n as [|n IH]; [simpl; lia|]. intros Hlt.
  destruct (decide (countb P n < Z.of_nat n)) as [Hex|Hno].
  - destruct (IH Hex) as (j & Hj & ?). exists j. split; [lia | done].
  - pose proof (countb_range P n). exists (Z.of_nat n). simpl in Hlt.
    destruct (P (Z.of_nat n)) eqn:HP; [lia|]. split_and!; [lia | lia | done |].
    intros j Hj. apply (countb_full P n); lia.
Qed.

(** ** The kernel monad *)

(** What running a piece of kernel code can end in: a value ([Done]), the
    endless loop of [kpanic] ([Panic]), or the exhaustion of the fuel of a loop
    whose termination the code does not guarantee ([NoFuel]). *)
Inductive outcome (A : Type) :=
  | Done (a : A)
  | Panic (msg : string)
  | NoFuel.
Arguments Done {A} a.
Arguments Panic {A} msg.
Arguments NoFuel {A}.

(** Stateful kernel code over a state [S] that returns an [A]. *)
Definition M (S A : Type) : Type := S -> outcome (A * S).

#[export] Instance M_ret S : MRet (M S) := fun A a s => Done (a, s).
#[export] Instance M_bind S : MBind (M S) := fun A B f c s =>
  match c s with
  | Done (a, s') => f a s'
  | Panic msg => Panic msg
  | NoFuel => NoFuel
  end.

Section operations.
Context {S : Type}.

Definition gets {A} (f : S -> A) : M S A := fun s => Done (f s, s).
Definition modify (f : S -> S) : M S unit := fun s => Done (tt, f s).
Definition panic {A} (msg : string) : M S A := fun _ => Panic msg.
Definition out_of_fuel {A} : M S A := fun _ => NoFuel.

(** [for (i = lo; i < lo + n; i++) body(i)] *)
Fixpoint for_loop (n : nat) (lo : Z) (body : Z -> M S unit) : M S unit :=
  match n with
  | O => mret tt
  | Datatypes.S n' => body lo ;; for_loop n' (lo + 1) body
  end.

(** ** Total weakest preconditions *)

(** [wp c Q s]: from state [s] the code [c] returns (it neither panics nor
    runs out of fuel) and its result and final state satisfy [Q]. *)
Definition wp {A} (c : M S A) (Q : A -> S -> Prop) (s : S) : Prop :=
  match c s with
  | Done (a, s') => Q a s'
  | _ => False
  end.

Lemma wp_run {A} (c : M S A) Q s :
  wp c Q s <-> exists a s', c s = Done (a, s') /\ Q a s'.
Proof.
  unfold wp. split.
  - destruct (c s) as [[a s']| |]; [eauto | done | done].
  - by intros (a & s' & -> & HQ).
Qed.

Lemma wp_done {A} (c : M S A) (Q : A -> S -> Prop) s a s' :
  c s = Done (a, s') -> Q a s' -> wp c Q s.
Proof. unfold wp. by intros ->. Qed.

Lemma wp_done_inv {A} (c : M S A) s a s' :
  wp c (fun a1 s1 => a1 = a /\ s1 = s') s -> c s = Done (a, s').
Proof. unfold wp. by destruct (c s) as [[a1 s1]| |]; [intros [-> ->] | intros [] | intros []]. Qed.

Lemma wp_unit (c : M S unit) (P : S -> Prop) s :
  wp c (fun _ => P) s -> exists s', c s = Done (tt, s') /\ P s'.
Proof. intros (a & s' & Hc & HP)%wp_run. destruct a. eauto. Qed.

Lemma wp_value {A} (c : M S A) a (P : S -> Prop) s :
  wp c (fun a' s' => a' = a /\ P s') s -> exists s', c s = Done (a, s') /\ P s'.
Proof. intros (a' & s' & Hc & -> & HP)%wp_run. eauto. Qed.

Lemma wp_ret {A} (a : A) (Q : A -> S -> Prop) s : Q a s -> wp (mret a) Q s.
Proof. done. Qed.

Lemma wp_bind {A B} (c : M S A) (f : A -> M S B) (Q : B -> S -> Prop) s :
  wp c (fun a s' => wp (f a) Q s') s -> wp (c ≫= f) Q s.
Proof. unfold wp, mbind, M_bind. by destruct (c s) as [[a s']| |]. Qed.

Lemma wp_bind_inv {A B} (c : M S A) (f : A -> M S B) (Q : B -> S -> Prop) s :
  wp (c ≫= f) Q s -> wp c (fun a s' => wp (f a) Q s') s.
Proof. unfold wp, mbind, M_bind. by destruct (c s) as [[a s']| |]. Qed.

Lemma wp_gets {A} (f : S -> A) (Q : A -> S -> Prop) s : Q (f s) s -> wp (gets f) Q s.
Proof. done. Qed.

Lemma wp_modify (f : S -> S) (Q : unit -> S -> Prop) s : Q tt (f s) -> wp (modify f) Q s.
Proof. done. Qed.

Lemma wp_mono {A} (c : M S A) (P Q : A -> S -> Prop) s :
  wp c P s -> (forall a s', P a s' -> Q a s') -> wp c Q s.
Proof. unfold wp. destruct (c s) as [[a s']| |]; [eauto | done | done]. Qed.

(** [stuck c s]: from state [s] the code [c] never returns, whatever its fuel. *)
Definition stuck {A} (c : M S A) (s : S) : Prop := forall a s', c s <> Done (a, s').

Lemma stuck_bind {A B} (c : M S A) (f : A -> M S B) s :
  wp c (fun a s' => stuck (f a) s') s -> stuck (c ≫= f) s.
Proof. unfold wp, stuck, mbind, M_bind. destruct (c s) as [[a s']| |]; [done | done | done]. Qed.

Lemma stuck_bind_l {A B} (c : M S A) (f : A -> M S B) s : stuck c s -> stuck (c ≫= f) s.
Proof.
  unfold stuck, mbind, M_bind. destruct (c s) as [[a s']| |]; [|done|done].
  intros H. by destruct (H a s').
Qed.

(** The invariant rule of [for_loop]. *)
Lemma wp_for_loop (I : Z -> S -> Prop) body (n : nat) lo (Q : unit -> S -> Prop) s :
  I lo s ->
  (forall i s', lo <= i < lo + Z.of_nat n -> I i s' ->
     wp (body i) (fun _ => I (i + 1)) s') ->
  (forall s', I (lo + Z.of_nat n) s' -> Q tt s') ->
  wp (for_loop n lo body) Q s.
Proof.
  revert lo s. induction n as [|n IH]; intros lo s HI Hbody HQ; simpl.
  - apply wp_ret, HQ. by replace (lo + Z.of_nat 0) with lo by lia.
  - apply wp_bind. eapply wp_mono; [apply Hbody; [lia | done]|].
    intros [] s' HI'. apply IH; [done | |].
    + intros i s'' Hi. apply Hbody. lia.
    + intros s''. replace (lo + 1 + Z.of_nat n) with (lo + Z.of_nat (Datatypes.S n)) by lia.
      apply HQ.
Qed.
End operations.

Arguments wp : simpl never.

(** One step of symbolic execution of monadic code under [wp]. *)
Create HintDb wp_rules.
#[export] Hint Resolve wp_ret wp_gets wp_modify : wp_rules.

Ltac wp_step :=
  lazymatch goal with
  | |- wp (mbind _ _) _ _ => apply wp_bind
  | |- wp (mret _) _ _ => apply wp_ret
  | |- wp (gets _) _ _ => apply wp_gets
  | |- wp (modify _) _ _ => apply wp_modify
  | |- wp (if ?x =? ?x then _ else _) _ _ => rewrite (Z.eqb_refl x)
  | |- wp (if negb (?x =? ?x) then _ else _) _ _ => rewrite (Z.eqb_refl x); cbn [negb]
  | |- wp (if negb true then _ else _) _ _ => cbn [negb]
  | |- wp (if negb false then _ else _) _ _ => cbn [negb]
  | |- wp (if true then _ else _) _ _ => idtac
  | |- wp (if false then _ else _) _ _ => idtac
  | |- wp (match Some _ with _ => _ end) _ _ => idtac
  | |- wp (match None with _ => _ end) _ _ => idtac
  end; cbn beta match.

