(* ===== verification/Memory.v ===== *)
(** * Byte-addressed memory

    The kernel's view of memory: one byte per address, with the little-endian
    16- and 32-bit accesses of the i386, the bulk operations the components
    share, the frame vocabulary ([disjoint], [same_on]) and the monadic
    loads and stores of any state that carries a memory. *)

From S2P Require Export Prelude.

Notation memory := (gmap Z Z).

(** ** Loads and stores *)

(** An address that was never written holds an unspecified byte; any content
    can be put in the finite map, so 0 is only the value of the addresses that
    the map leaves out. *)
Definition ld8 (m : memory) (a : Z) : Z := u8 (default 0 (m !! a)).
Definition st8 (m : memory) (a v : Z) : memory := <[a := u8 v]> m.

Definition ld16 (m : memory) (a : Z) : Z := ld8 m a + 256 * ld8 m (a + 1).

Definition ld32 (m : memory) (a : Z) : Z :=
  ld8 m a + 256 * ld8 m (a + 1) + 65536 * ld8 m (a + 2) + 16777216 * ld8 m (a + 3).
Definition st32 (m : memory) (a v : Z) : memory :=
  st8 (st8 (st8 (st8 m a v) (a + 1) (v / 256)) (a + 2) (v / 65536)) (a + 3) (v / 16777216).

Definition st16 (m : memory) (a v : Z) : memory := st8 (st8 m a v) (a + 1) (v / 256).

Definition disjoint (p n q k : Z) : Prop := p + n <= q \/ q + k <= p.

(** [m] and [m'] agree on every address in [P]. *)
Definition same_on (P : Z -> Prop) (m m' : memory) : Prop :=
  forall a, P a -> ld8 m' a = ld8 m a.

(** Observational equality of memories. *)
Definition mem_eq (m m' : memory) : Prop := forall a, ld8 m a = ld8 m' a.

Arguments ld8 : simpl never.
Arguments st8 : simpl never.
Arguments ld16 : simpl never.
Arguments st16 : simpl never.
Arguments ld32 : simpl never.
Arguments st32 : simpl never.

(** [n] bytes from [p]. *)
Definition ld_bytes (m : memory) (p : Z) (n : nat) : list Z :=
  (fun i => ld8 m (p + Z.of_nat i)) <$> seq 0 n.

(** The bytes [l] stored from [p] on. *)
Fixpoint st_bytes (m : memory) (p : Z) (l : list Z) : memory :=
  match l with
  | [] => m
  | b :: l' => st_bytes (st8 m p b) (p + 1) l'
  end.

(** ** Lemmas *)

Create HintDb mem.

Lemma ld8_range m a : 0 <= ld8 m a < 256.
Proof. apply u8_range. Qed.

Lemma ld8_st8 m a b v : ld8 (st8 m a v) b = if decide (a = b) then u8 v else ld8 m b.
Proof.
  unfold ld8, st8. rewrite lookup_insert. case_decide; [|done].
  simpl. apply Z.mod_mod. lia.
Qed.

Lemma ld8_st8_eq m a v : ld8 (st8 m a v) a = u8 v.
Proof. rewrite ld8_st8. by rewrite decide_True. Qed.

Lemma ld8_st8_ne m a b v : a <> b -> ld8 (st8 m a v) b = ld8 m b.
Proof. intros. rewrite ld8_st8. by rewrite decide_False. Qed.

Lemma ld32_range m a : 0 <= ld32 m a < 4294967296.
Proof.
  unfold ld32. pose proof (ld8_range m a). pose proof (ld8_range m (a + 1)).
  pose proof (ld8_range m (a + 2)). pose proof (ld8_range m (a + 3)). lia.
Qed.

Lemma u32_ld32 m a : u32 (ld32 m a) = ld32 m a.
Proof. apply u32_small, ld32_range. Qed.

Lemma ld8_st32_ne m a b v : b < a \/ a + 4 <= b -> ld8 (st32 m a v) b = ld8 m b.
Proof. intros. unfold st32. by rewrite !ld8_st8_ne by lia. Qed.

Lemma ld32_ext m m' a :
  (forall b, a <= b < a + 4 -> ld8 m b = ld8 m' b) -> ld32 m a = ld32 m' a.
Proof. intros H. unfold ld32. by rewrite !H by lia. Qed.

Lemma ld32_st32_eq m a v : ld32 (st32 m a v) a = u32 v.
Proof.
  unfold ld32, st32.
  repeat (rewrite ld8_st8_eq || rewrite (ld8_st8_ne _ _ _ _) by lia). word_lia.
Qed.

Lemma ld32_st32_ne m a b v : disjoint a 4 b 4 -> ld32 (st32 m a v) b = ld32 m b.
Proof.
  unfold disjoint. intros. apply ld32_ext. intros c Hc. apply ld8_st32_ne. lia.
Qed.

Lemma ld32_st8_ne m a b v : disjoint a 1 b 4 -> ld32 (st8 m a v) b = ld32 m b.
Proof.
  unfold disjoint. intros. apply ld32_ext. intros c Hc. apply ld8_st8_ne. lia.
Qed.

Lemma ld16_range m a : 0 <= ld16 m a < 65536.
Proof. unfold ld16. pose proof (ld8_range m a). pose proof (ld8_range m (a + 1)). lia. Qed.

Lemma ld8_st16_ne m a b v : b < a \/ a + 2 <= b -> ld8 (st16 m a v) b = ld8 m b.
Proof. intros. unfold st16. by rewrite !ld8_st8_ne by lia. Qed.

Lemma ld16_st16_eq m a v : ld16 (st16 m a v) a = u16 v.
Proof. unfold ld16, st16. rewrite (ld8_st8_ne _ (a + 1)), !ld8_st8_eq by lia. word_lia. Qed.

Lemma ld16_st16_ne m a b v : disjoint a 2 b 2 -> ld16 (st16 m a v) b = ld16 m b.
Proof. unfold disjoint, ld16. intros. by rewrite !ld8_st16_ne by lia. Qed.

Lemma ld32_same_on P m m' a :
  same_on P m m' -> (forall b, a <= b < a + 4 -> P b) -> ld32 m' a = ld32 m a.
Proof. intros Hs HP. apply ld32_ext. intros b Hb. by apply Hs, HP. Qed.

(** A 32-bit word is zero exactly when its four bytes are. *)
Lemma ld32_zero m a : (forall b, a <= b < a + 4 -> ld8 m b = 0) -> ld32 m a = 0.
Proof. intros H. unfold ld32. rewrite !H by lia. done. Qed.

Lemma ld8_st_bytes_ne m p l b :
  b < p \/ p + Z.of_nat (length l) <= b -> ld8 (st_bytes m p l) b = ld8 m b.
Proof.
  revert m p. induction l as [|x l IH]; intros m p Hb; [done|]. simpl in *.
  rewrite IH by lia. apply ld8_st8_ne. lia.
Qed.

Lemma ld8_st_bytes_eq m p l i x :
  l !! i = Some x -> ld8 (st_bytes m p l) (p + Z.of_nat i) = u8 x.
Proof.
  revert m p i. induction l as [|y l IH]; intros m p i Hi; [done|].
  destruct i as [|i]; simplify_eq/=.
  - rewrite Z.add_0_r, ld8_st_bytes_ne by lia. apply ld8_st8_eq.
  - replace (p + Z.of_nat (S i)) with (p + 1 + Z.of_nat i) by lia. by apply IH.
Qed.

Lemma ld32_st_bytes_ne m p l b :
  disjoint p (Z.of_nat (length l)) b 4 -> ld32 (st_bytes m p l) b = ld32 m b.
Proof.
  unfold disjoint. intros. apply ld32_ext. intros c Hc. apply ld8_st_bytes_ne. lia.
Qed.

Lemma length_ld_bytes m p n : length (ld_bytes m p n) = n.
Proof. unfold ld_bytes. by rewrite length_fmap, length_seq. Qed.

Lemma lookup_ld_bytes m p n i :
  (i < n)%nat -> ld_bytes m p n !! i = Some (ld8 m (p + Z.of_nat i)).
Proof.
  intros Hi. unfold ld_bytes. rewrite list_lookup_fmap, lookup_seq_lt by done. done.
Qed.

#[export] Hint Rewrite ld8_st8_eq ld16_st16_eq ld32_st32_eq : mem.
#[export] Hint Rewrite ld8_st16_ne using lia : mem.
#[export] Hint Rewrite ld16_st16_ne using (unfold disjoint; lia) : mem.
#[export] Hint Rewrite ld8_st8_ne ld8_st32_ne ld8_st_bytes_ne using lia : mem.
#[export] Hint Rewrite ld32_st32_ne ld32_st8_ne ld32_st_bytes_ne
  using (unfold disjoint; lia) : mem.

(** Resolves the loads of the goal through the stores under them. *)
Tactic Notation "mem_simpl" := autorewrite with mem.
Tactic Notation "mem_simpl" "in" hyp(H) := autorewrite with mem in H.

(** ** The setoid of memories *)

#[export] Instance mem_eq_equivalence : Equivalence mem_eq.
Proof.
  split; [by intros m a | by intros m m' H a | intros m1 m2 m3 H H' a; congruence].
Qed.

#[export] Instance ld8_proper : Proper (mem_eq ==> eq ==> eq) ld8.
Proof. intros m m' H a b ->. apply H. Qed.

#[export] Instance ld32_proper : Proper (mem_eq ==> eq ==> eq) ld32.
Proof. intros m m' H a b ->. apply ld32_ext. intros c _. apply H. Qed.

#[export] Instance st8_proper : Proper (mem_eq ==> eq ==> eq ==> mem_eq) st8.
Proof. intros m m' H a b -> v w -> c. rewrite !ld8_st8. by case_decide. Qed.

#[export] Instance st32_proper : Proper (mem_eq ==> eq ==> eq ==> mem_eq) st32.
Proof. intros m m' H a b -> v w ->. unfold st32. by rewrite H. Qed.

(** The bytes of a word that is 0. *)
Lemma st32_zero_again m a v : ld32 m a = 0 -> mem_eq (st32 (st32 m a v) a 0) m.
Proof.
  intros Hw b. destruct (decide (a <= b < a + 4)) as [Hb|Hb]; [|by rewrite !ld8_st32_ne by lia].
  unfold ld32 in Hw. pose proof (ld8_range m a). pose proof (ld8_range m (a + 1)).
  pose proof (ld8_range m (a + 2)). pose proof (ld8_range m (a + 3)).
  assert (Hz : ld8 m b = 0).
  { assert (b = a \/ b = a + 1 \/ b = a + 2 \/ b = a + 3) as [->|[->|[->| ->]]] by lia; lia. }
  rewrite Hz. unfold st32. assert (b = a \/ b = a + 1 \/ b = a + 2 \/ b = a + 3) as [->|[->|[->| ->]]] by lia;
    mem_simpl; done.
Qed.

Lemma st32_zero_same m a : ld32 m a = 0 -> mem_eq (st32 m a 0) m.
Proof.
  intros Hw b. rewrite <- (st32_zero_again m a 0 Hw b). destruct (decide (a <= b < a + 4)) as [Hb|Hb].
  - assert (b = a \/ b = a + 1 \/ b = a + 2 \/ b = a + 3) as [->|[->|[->| ->]]] by lia; unfold st32; mem_simpl; done.
  - by rewrite !ld8_st32_ne by lia.
Qed.

#[export] Instance same_on_refl P : Reflexive (same_on P).
Proof. by intros m a. Qed.

#[export] Instance same_on_trans P : Transitive (same_on P).
Proof. intros m1 m2 m3 H H' a Ha. by rewrite H', H. Qed.

Lemma same_on_weaken (P Q : Z -> Prop) m m' :
  same_on Q m m' -> (forall a, P a -> Q a) -> same_on P m m'.
Proof. intros H HPQ a Ha. by apply H, HPQ. Qed.

Lemma same_on_st8 (P : Z -> Prop) m a v : ~ P a -> same_on P m (st8 m a v).
Proof. intros Ha b Hb. apply ld8_st8_ne. by intros ->. Qed.

Lemma same_on_st32 (P : Z -> Prop) m a v :
  (forall b, a <= b < a + 4 -> ~ P b) -> same_on P m (st32 m a v).
Proof.
  intros Ha b Hb. apply ld8_st32_ne.
  destruct (decide (a <= b < a + 4)) as [H|H]; [by apply Ha in H | lia].
Qed.

(** The same store to memories that agree. *)
Lemma same_on_st32_both (P : Z -> Prop) m m' a v : same_on P m m' -> same_on P (st32 m a v) (st32 m' a v).
Proof.
  intros Hs b Hb. unfold st32. destruct (decide (a <= b < a + 4)) as [Hin|Hout]; [|rewrite !ld8_st8_ne by lia; by apply Hs].
  assert (Hc : b = a \/ b = a + 1 \/ b = a + 2 \/ b = a + 3) by lia.
  destruct Hc as [->|[->|[->| ->]]]; repeat (rewrite ld8_st8_eq || rewrite (ld8_st8_ne _ _ _ _) by lia); done.
Qed.

Lemma mem_eq_intro m m' : (forall a, ld8 m a = ld8 m' a) -> mem_eq m m'.
Proof. done. Qed.

(** ** Memory in a state *)

(** A state with a memory in it. *)
Class HasMem (S : Type) := {
  mem : S -> memory;
  set_mem : memory -> S -> S;
}.

(** [mem] and [set_mem] are a lens. *)
Class MemLaws (S : Type) `{HasMem S} := {
  mem_set_mem m s : mem (set_mem m s) = m;
  set_mem_mem s : set_mem (mem s) s = s;
  set_mem_set_mem m m' s : set_mem m (set_mem m' s) = set_mem m s;
}.

(** The memory alone is such a state. *)
#[export] Instance HasMem_memory : HasMem memory := {| mem m := m; set_mem m _ := m |}.
#[export] Instance MemLaws_memory : MemLaws memory.
Proof. by split. Qed.

Section access.
Context {S : Type} `{HasMem S}.

Definition load8 (a : Z) : M S Z := gets (fun s => ld8 (mem s) a).
Definition load16 (a : Z) : M S Z := gets (fun s => ld16 (mem s) a).
Definition load32 (a : Z) : M S Z := gets (fun s => ld32 (mem s) a).
Definition store8 (a v : Z) : M S unit := modify (fun s => set_mem (st8 (mem s) a v) s).
Definition store16 (a v : Z) : M S unit := modify (fun s => set_mem (st16 (mem s) a (u16 v)) s).
Definition store32 (a v : Z) : M S unit := modify (fun s => set_mem (st32 (mem s) a v) s).

Lemma wp_load8 a (Q : Z -> S -> Prop) s : Q (ld8 (mem s) a) s -> wp (load8 a) Q s.
Proof. done. Qed.

Lemma wp_load32 a (Q : Z -> S -> Prop) s : Q (ld32 (mem s) a) s -> wp (load32 a) Q s.
Proof. done. Qed.

Lemma wp_store8 a v (Q : unit -> S -> Prop) s :
  Q tt (set_mem (st8 (mem s) a v) s) -> wp (store8 a v) Q s.
Proof. done. Qed.

Lemma wp_load16 a (Q : Z -> S -> Prop) s : Q (ld16 (mem s) a) s -> wp (load16 a) Q s.
Proof. done. Qed.

Lemma wp_store16 a v (Q : unit -> S -> Prop) s :
  Q tt (set_mem (st16 (mem s) a (u16 v)) s) -> wp (store16 a v) Q s.
Proof. done. Qed.

Lemma wp_store32 a v (Q : unit -> S -> Prop) s :
  Q tt (set_mem (st32 (mem s) a v) s) -> wp (store32 a v) Q s.
Proof. done. Qed.
End access.

#[export] Hint Rewrite @mem_set_mem @set_mem_set_mem using apply _ : mem.

(** Symbolic execution with memory accesses. *)
Ltac mstep :=
  first
    [ wp_step
    | lazymatch goal with
      | |- wp (load8 _) _ _ => apply wp_load8
      | |- wp (load16 _) _ _ => apply wp_load16
      | |- wp (load32 _) _ _ => apply wp_load32
      | |- wp (store8 _ _) _ _ => apply wp_store8
      | |- wp (store16 _ _) _ _ => apply wp_store16
      | |- wp (store32 _ _) _ _ => apply wp_store32
      end; cbn beta ].
Ltac msteps := repeat mstep.
