(* ===== verification/Alloc.v ===== *)
(** * The contract of a kernel allocator

    What the clients of the heap (the lists, the trees, the file systems) rely
    on, as type classes over any state with a memory: small regions that are
    disjoint from the live ones, zeroed on request ([CallocLaws]), regions of any
    size ([KmallocLaws]), and the release of a region ([KfreeLaws]).  [heap_ok n L s] says that in [s] the regions of [L] are live
    and that [n] more small requests can be served. *)

From S2P Require Export Memory.

(** A region is its first address and its number of bytes. *)
Notation region := (Z * Z)%type.

Definition in_region (a : Z) (r : region) : Prop := r.1 <= a < r.1 + r.2.
Definition live (L : list region) (a : Z) : Prop := exists r, r ∈ L /\ in_region a r.
Definition apart (r r' : region) : Prop := disjoint r.1 r.2 r'.1 r'.2.

(** The regions of [L] are pairwise apart. *)
Fixpoint separate (L : list region) : Prop :=
  match L with
  | [] => True
  | r :: L' => (forall r', r' ∈ L' -> apart r r') /\ separate L'
  end.

(** The largest request the contract covers. *)
Definition SMALL : Z := 16.

Class Allocator (S : Type) := {
  kcalloc_op : Z -> Z -> M S Z;
  malloc_op : Z -> M S Z;
  kmalloc_op : Z -> M S Z;
  kmalloc_a_op : Z -> M S Z;
  kfree_op : Z -> M S unit;
  heap_ok : nat -> list region -> S -> Prop;
}.

Class CallocLaws (S : Type) `{HasMem S} `{Allocator S} := {
  heap_ok_regions n L s r : heap_ok n L s -> r ∈ L -> 4 <= r.1 /\ r.1 + r.2 <= 4294967296;
  heap_ok_separate n L s : heap_ok n L s -> separate L;
  heap_ok_permute n L L' s : L ≡ₚ L' -> heap_ok n L s -> heap_ok n L' s;
  (** Stores to live regions, and to the word at address 0. *)
  heap_ok_write n L s m :
    heap_ok n L s -> (forall a, ~ live L a -> ~ (0 <= a < 4) -> ld8 m a = ld8 (mem s) a) ->
    heap_ok n L (set_mem m s);
  wp_kcalloc n L s num size (Q : Z -> S -> Prop) :
    heap_ok (Datatypes.S n) L s -> 0 < num -> 0 < size -> num * size <= SMALL ->
    (forall p s', heap_ok n ((p, num * size) :: L) s' ->
       (forall a, p <= a < p + num * size -> ld8 (mem s') a = 0) ->
       same_on (live L) (mem s) (mem s') -> Q p s') ->
    wp (kcalloc_op num size) Q s;
  wp_malloc n L s size (Q : Z -> S -> Prop) :
    heap_ok (Datatypes.S n) L s -> 0 < size <= SMALL ->
    (forall p s', heap_ok n ((p, size) :: L) s' -> same_on (live L) (mem s) (mem s') -> Q p s') ->
    wp (malloc_op size) Q s;
}.

(** What the clients with larger objects expect of [kmalloc] and [kcalloc].  The kernel's heap
    does not meet it (KheapAlloc.v, [malloc_header_in_payload]). *)
Class KmallocLaws (S : Type) `{HasMem S} `{Allocator S} := {
  wp_kmalloc n L s size (Q : Z -> S -> Prop) :
    heap_ok (Z.to_nat ((size + SMALL - 1) / SMALL) + n) L s -> 0 < size ->
    (forall p s', heap_ok n ((p, size) :: L) s' -> same_on (live L) (mem s) (mem s') -> Q p s') ->
    wp (kmalloc_op size) Q s;
  wp_kcalloc_large n L s num size (Q : Z -> S -> Prop) :
    heap_ok (Z.to_nat ((num * size + SMALL - 1) / SMALL) + n) L s -> 0 < num -> 0 < size ->
    (forall p s', heap_ok n ((p, num * size) :: L) s' ->
       (forall a, p <= a < p + num * size -> ld8 (mem s') a = 0) ->
       same_on (live L) (mem s) (mem s') -> Q p s') ->
    wp (kcalloc_op num size) Q s;
}.

Class KfreeLaws (S : Type) `{HasMem S} `{Allocator S} := {
  wp_kfree n p k L s (Q : unit -> S -> Prop) :
    heap_ok n ((p, k) :: L) s ->
    (forall s', heap_ok n L s' -> same_on (live L) (mem s) (mem s') -> Q tt s') ->
    wp (kfree_op p) Q s;
}.

(** Membership in a list built from [::] and [++]. *)
Ltac elem :=
  first
    [ assumption
    | apply list_elem_of_here
    | apply list_elem_of_further; elem
    | apply elem_of_app; left; elem
    | apply elem_of_app; right; elem ].

(** ** Lemmas on regions *)

Lemma apart_sym r r' : apart r r' -> apart r' r.
Proof. unfold apart, disjoint. lia. Qed.

Lemma separate_permute L L' : L ≡ₚ L' -> separate L -> separate L'.
Proof.
  induction 1 as [| r L L' HP IH | r r' L | L1 L2 L3 _ IH1 _ IH2]; simpl.
  - done.
  - intros [Hr Hs]. split; [|by apply IH]. intros r' Hr'. apply Hr. by rewrite HP.
  - intros [Hr [Hr' Hs]]. split_and!; [| |done].
    + intros x [->|Hx]%elem_of_cons; [apply apart_sym, Hr; by left | by apply Hr'].
    + intros x Hx. apply Hr. by right.
  - intros Hs. by apply IH2, IH1.
Qed.

Lemma live_cons r L a : live (r :: L) a <-> in_region a r \/ live L a.
Proof.
  unfold live. split.
  - intros (x & [->|Hx]%elem_of_cons & Ha); [by left | right; eauto].
  - intros [Ha|(x & Hx & Ha)]; [exists r; split; [by left | done] | exists x; split; [by right | done]].
Qed.

Lemma live_in r L a : r ∈ L -> in_region a r -> live L a.
Proof. intros. by exists r. Qed.

Lemma live_permute L L' a : L ≡ₚ L' -> live L a -> live L' a.
Proof. intros HP (r & Hr & Ha). exists r. by rewrite <- HP. Qed.

Lemma live_app L L' a : live (L ++ L') a <-> live L a \/ live L' a.
Proof.
  unfold live. split.
  - intros (x & [Hx|Hx]%elem_of_app & Ha); [left | right]; eauto.
  - intros [(x & Hx & Ha)|(x & Hx & Ha)]; exists x; split; set_solver.
Qed.

(** A byte of one region of a separate list is in no other. *)
Lemma separate_not_live r L a : separate (r :: L) -> in_region a r -> ~ live L a.
Proof.
  intros [Hr _] Ha (r' & Hr' & Ha'). specialize (Hr r' Hr').
  unfold apart, disjoint, in_region in *. lia.
Qed.

(** A word inside a region that is apart from all of [L]. *)
Lemma same_on_live_st32 r L m a v :
  separate (r :: L) -> r.1 <= a -> a + 4 <= r.1 + r.2 -> same_on (live L) m (st32 m a v).
Proof.
  intros Hs H1 H2. apply same_on_st32. intros b Hb.
  apply (separate_not_live r); [done|]. unfold in_region. lia.
Qed.

Lemma separate_app L L' r r' : separate (L ++ L') -> r ∈ L -> r' ∈ L' -> apart r r'.
Proof.
  induction L as [|x L IH]; intros Hs Hr Hr'; [by apply not_elem_of_nil in Hr|].
  destruct Hs as [Hx Hs]. apply elem_of_cons in Hr as [->|Hr]; [|by apply IH].
  apply Hx, elem_of_app. by right.
Qed.

(** Different regions of a separate list. *)
Lemma separate_elem L r r' : separate L -> r ∈ L -> r' ∈ L -> r <> r' -> apart r r'.
Proof.
  induction L as [|x L IH]; intros Hs Hr Hr' Hne; [by apply not_elem_of_nil in Hr|]. destruct Hs as [Hx Hs].
  apply elem_of_cons in Hr, Hr'. destruct Hr as [->|Hr], Hr' as [->|Hr'].
  - done.
  - by apply Hx.
  - apply apart_sym. by apply Hx.
  - by apply IH.
Qed.

Lemma separate_skip L L' : separate (L ++ L') -> separate L'.
Proof. induction L as [|x L IH]; [done|]. intros [_ Hs]. auto. Qed.

Lemma separate_take L L' : separate (L ++ L') -> separate L.
Proof.
  induction L as [|x L IH]; [done|]. intros [Hx Hs]. split; [|by apply IH].
  intros r Hr. apply Hx, elem_of_app. by left.
Qed.

(** ** What a store changes *)

(** [m'] differs from [m] only in regions of [L] and in the word at address 0. *)
Definition touched (L : list region) (m m' : memory) : Prop :=
  forall a, ~ live L a -> ~ (0 <= a < 4) -> ld8 m' a = ld8 m a.

Lemma touched_refl L m : touched L m m.
Proof. done. Qed.

Lemma touched_st32 L m m' r a v :
  touched L m m' -> r ∈ L -> r.1 <= a -> a + 4 <= r.1 + r.2 -> touched L m (st32 m' a v).
Proof.
  intros Ht Hr H1 H2 b Hb Hb0. rewrite ld8_st32_ne; [by apply Ht|].
  destruct (decide (a <= b < a + 4)) as [Hab|]; [|lia].
  destruct Hb. exists r. split; [done|]. unfold in_region. lia.
Qed.

Lemma touched_bytes L m m' r p l :
  touched L m m' -> r ∈ L -> r.1 <= p -> p + Z.of_nat (length l) <= r.1 + r.2 -> touched L m (st_bytes m' p l).
Proof.
  intros Ht Hr Hp1 Hp2 b Hb Hb0. rewrite ld8_st_bytes_ne; [by apply Ht|].
  destruct (decide (p <= b < p + Z.of_nat (length l))) as [Hin|]; [|lia].
  destruct Hb. exists r. split; [done|]. unfold in_region. lia.
Qed.

Lemma touched_null L m m' v : touched L m m' -> touched L m (st32 m' 0 v).
Proof. intros Ht b Hb Hb0. rewrite ld8_st32_ne; [by apply Ht | lia]. Qed.

Lemma touched_weaken L L' m m' : touched L m m' -> (forall r, r ∈ L -> r ∈ L') -> touched L' m m'.
Proof. intros Ht Hs a Ha. apply Ht. intros (r & Hr & Har). apply Ha. exists r. auto. Qed.

(** Stores to some regions of a separate list leave the others alone. *)
Lemma touched_same L R m m' :
  touched L m m' -> separate (L ++ R) -> (forall r, r ∈ R -> 4 <= r.1) -> same_on (live R) m m'.
Proof.
  intros Ht Hs H4 a (r & Hr & Ha). specialize (H4 r Hr). unfold in_region in Ha. apply Ht; [|lia].
  intros (r' & Hr' & Ha'). pose proof (separate_app _ _ _ _ Hs Hr' Hr).
  unfold apart, disjoint, in_region in *. lia.
Qed.
