(* ===== verification/Dlist.v ===== *)
(** * utils/dsa/list.c: doubly linked lists

    The routines of [list.c] over any state with a memory and an allocator, the
    representation of a list in memory ([dlist]), and the correctness of each
    routine against the Coq list it represents.  The proofs use the contract of
    [Alloc], not a particular heap. *)

From S2P Require Export Alloc.

(** ** include/dsa/list.h *)

Definition SIZEOF_LIST : Z := 12.
Definition SIZEOF_NODE : Z := 12.

Definition l_head (list : Z) : Z := list.
Definition l_tail (list : Z) : Z := list + 4.
Definition l_size (list : Z) : Z := list + 8.
Definition n_prev (node : Z) : Z := node.
Definition n_next (node : Z) : Z := node + 4.
Definition n_value (node : Z) : Z := node + 8.

(** ** The code *)

Section list_c.
Context {S : Type} `{HasMem S} `{Allocator S}.

Definition list_create : M S Z := kcalloc_op SIZEOF_LIST 1.

Definition list_size (list : Z) : M S Z :=
  if list =? 0 then mret 0 else load32 (l_size list).

(** [list->size += d] *)
Definition add_size (list d : Z) : M S unit :=
  n ← load32 (l_size list); store32 (l_size list) (n +32 d).

Definition list_insert_front (list value : Z) : M S Z :=
  t ← kcalloc_op SIZEOF_NODE 1;
  h ← load32 (l_head list);
  store32 (n_prev h) t;;
  h ← load32 (l_head list);
  store32 (n_next t) h;;
  store32 (n_value t) value;;
  h ← load32 (l_head list);
  (if h =? 0 then store32 (l_tail list) t else mret tt);;
  store32 (l_head list) t;;
  add_size list 1;;
  mret t.

Definition list_insert_back (list value : Z) : M S Z :=
  t ← kcalloc_op SIZEOF_NODE 1;
  e ← load32 (l_tail list);
  store32 (n_prev t) e;;
  e ← load32 (l_tail list);
  (if negb (e =? 0) then store32 (n_next e) t else mret tt);;
  store32 (n_value t) value;;
  h ← load32 (l_head list);
  (if h =? 0 then store32 (l_head list) t else mret tt);;
  store32 (l_tail list) t;;
  add_size list 1;;
  mret t.

Definition list_remove_front (list : Z) : M S Z :=
  h ← load32 (l_head list);
  if h =? 0 then mret 0
  else
    t ← load32 (l_head list);
    value ← load32 (n_value t);
    n ← load32 (n_next t);
    store32 (l_head list) n;;
    h ← load32 (l_head list);
    (if negb (h =? 0) then store32 (n_prev h) 0 else mret tt);;
    kfree_op t;;
    add_size list (-1);;
    mret value.

Definition list_remove_back (list : Z) : M S Z :=
  h ← load32 (l_head list);
  if h =? 0 then mret 0
  else
    t ← load32 (l_tail list);
    value ← load32 (n_value t);
    p ← load32 (n_prev t);
    store32 (l_tail list) p;;
    e ← load32 (l_tail list);
    (if negb (e =? 0) then store32 (n_next e) 0 else mret tt);;
    kfree_op t;;
    add_size list (-1);;
    mret value.

Definition list_remove_node (list node : Z) : M S Z :=
  value ← load32 (n_value node);
  h ← load32 (l_head list);
  if h =? node then list_remove_front list
  else
    e ← load32 (l_tail list);
    if e =? node then list_remove_back list
    else
      n ← load32 (n_next node);
      p ← load32 (n_prev node);
      store32 (n_prev n) p;;
      p ← load32 (n_prev node);
      n ← load32 (n_next node);
      store32 (n_next p) n;;
      add_size list (-1);;
      kfree_op node;;
      mret value.

Definition list_peek_front (list : Z) : M S Z :=
  h ← load32 (l_head list);
  if h =? 0 then mret 0 else h ← load32 (l_head list); load32 (n_value h).

Definition list_peek_back (list : Z) : M S Z :=
  e ← load32 (l_tail list);
  if e =? 0 then mret 0 else e ← load32 (l_tail list); load32 (n_value e).

Definition list_pop (list : Z) : M S Z :=
  h ← load32 (l_head list);
  if h =? 0 then mret 0
  else
    t ← load32 (l_tail list);
    p ← load32 (n_prev t);
    store32 (l_tail list) p;;
    e ← load32 (l_tail list);
    (if negb (e =? 0) then store32 (n_next e) 0 else mret tt);;
    add_size list (-1);;
    mret t.

Fixpoint contain_loop (fuel : nat) (node value : Z) : M S Z :=
  match fuel with
  | O => out_of_fuel
  | Datatypes.S fuel' =>
      if node =? 0 then mret 0
      else
        v ← load32 (n_value node);
        if v =? value then mret node
        else n ← load32 (n_next node); contain_loop fuel' n value
  end.

Definition list_contain (fuel : nat) (list value : Z) : M S Z :=
  h ← load32 (l_head list); contain_loop fuel h value.

Fixpoint index_loop (fuel : nat) (node index curr : Z) : M S Z :=
  match fuel with
  | O => out_of_fuel
  | Datatypes.S fuel' =>
      if node =? 0 then mret 0
      else if index =? curr then mret node
      else n ← load32 (n_next node); index_loop fuel' n index (curr +32 1)
  end.

Definition list_get_node_by_index (fuel : nat) (list index : Z) : M S Z :=
  size ← list_size list;
  if size <=? index then mret 0
  else h ← load32 (l_head list); index_loop fuel h index 0.

Definition list_remove_by_index (fuel : nat) (list index : Z) : M S Z :=
  node ← list_get_node_by_index fuel list index;
  list_remove_node list node.

Fixpoint destroy_loop (fuel : nat) (node : Z) : M S unit :=
  match fuel with
  | O => out_of_fuel
  | Datatypes.S fuel' =>
      if node =? 0 then mret tt
      else
        n ← load32 (n_next node);
        kfree_op node;;
        destroy_loop fuel' n
  end.

Definition list_destroy (fuel : nat) (list : Z) : M S unit :=
  node ← load32 (l_head list);
  destroy_loop fuel node;;
  kfree_op list.

Definition listnode_destroy (node : Z) : M S unit := kfree_op node.

Definition list_merge (target source : Z) : M S unit :=
  h ← load32 (l_head source);
  (if negb (h =? 0) then
     h ← load32 (l_head source); e ← load32 (l_tail target); store32 (n_prev h) e
   else mret tt);;
  e ← load32 (l_tail target);
  (if negb (e =? 0) then
     e ← load32 (l_tail target); h ← load32 (l_head source); store32 (n_next e) h
   else h ← load32 (l_head source); store32 (l_head target) h);;
  e ← load32 (l_tail source);
  (if negb (e =? 0) then e ← load32 (l_tail source); store32 (l_tail target) e else mret tt);;
  n ← load32 (l_size source);
  add_size target n;;
  kfree_op source.
End list_c.

(** ** Lists in memory *)

(** [l] are the nodes, with their values, from [p] up to but not including [q];
    [prev] is the predecessor of the first of them. *)
Fixpoint dl_seg (m : memory) (prev p q : Z) (l : list (Z * Z)) : Prop :=
  match l with
  | [] => p = q
  | (n, v) :: l' =>
      p = n /\ ld32 m (n_prev n) = prev /\ ld32 m (n_value n) = v /\
      dl_seg m n (ld32 m (n_next n)) q l'
  end.

(** The last node of a list whose predecessor is [prev]. *)
Definition last_node (prev : Z) (l : list (Z * Z)) : Z := default prev (fst <$> last l).

(** The list object at [lst] represents [l].  An empty list may have a stale
    tail pointer; [dlist_full] excludes that. *)
Record dlist (m : memory) (lst : Z) (l : list (Z * Z)) : Prop := {
  dl_size : ld32 m (l_size lst) = u32 (Z.of_nat (length l));
  dl_nodes : dl_seg m 0 (ld32 m (l_head lst)) 0 l;
  dl_tail : l <> [] -> ld32 m (l_tail lst) = last_node 0 l;
}.

Definition dlist_full (m : memory) (lst : Z) (l : list (Z * Z)) : Prop :=
  dlist m lst l /\ (l = [] -> ld32 m (l_tail lst) = 0).

(** The memory a list occupies. *)
Definition node_region (nv : Z * Z) : region := (nv.1, SIZEOF_NODE).
Definition list_regions (lst : Z) (l : list (Z * Z)) : list region :=
  (lst, SIZEOF_LIST) :: (node_region <$> l).

Ltac unfold_list :=
  unfold l_head, l_tail, l_size, n_prev, n_next, n_value, SIZEOF_LIST, SIZEOF_NODE in *.

Lemma last_node_snoc prev l n v : last_node prev (l ++ [(n, v)]) = n.
Proof. unfold last_node. by rewrite last_snoc. Qed.

Lemma last_node_cons prev n v l : last_node prev ((n, v) :: l) = last_node n l.
Proof. unfold last_node. rewrite last_cons. by destruct (last l) as [[? ?]|]. Qed.

Lemma last_node_app prev l1 l2 : last_node prev (l1 ++ l2) = last_node (last_node prev l1) l2.
Proof.
  revert prev. induction l1 as [|[n v] l1 IH]; intros prev; [done|]. simpl.
  by rewrite !last_node_cons, IH.
Qed.

Lemma dl_seg_app m prev p q l1 l2 :
  dl_seg m prev p q (l1 ++ l2) <->
  exists r, dl_seg m prev p r l1 /\ dl_seg m (last_node prev l1) r q l2.
Proof.
  revert prev p. induction l1 as [|[n v] l1 IH]; intros prev p; simpl.
  - split; [intros Hs; by exists p | by intros (r & -> & Hs)].
  - rewrite IH, last_node_cons.
    split; [intros (? & ? & ? & r & ? & ?); by exists r | intros (r & (? & ? & ? & ?) & ?); split_and!; eauto].
Qed.

(** A segment only depends on the bytes of its nodes. *)
Lemma dl_seg_same m m' prev p q l :
  same_on (live (node_region <$> l)) m m' -> dl_seg m prev p q l -> dl_seg m' prev p q l.
Proof.
  revert prev p. induction l as [|[n v] l IH]; intros prev p Hs; [done|].
  intros (-> & Hp & Hv & Hl).
  assert (Hw : forall a, n <= a -> a + 4 <= n + 12 -> ld32 m' a = ld32 m a).
  { intros a H1 H2. eapply ld32_same_on; [exact Hs|]. intros b Hb. apply live_cons. left.
    unfold in_region, node_region, SIZEOF_NODE. simpl. lia. }
  simpl. unfold_list. rewrite !Hw by lia. split_and!; [done..|]. apply IH; [|done].
  eapply same_on_weaken; [exact Hs|]. intros a Ha. apply live_cons. by right.
Qed.

(** ** Correctness *)

Section list_specs.
Context {S : Type} `{MemLaws S} `{!Allocator S} `{!CallocLaws S}.

(** The list at [lst] and the regions [R] of other objects are live in [s]. *)
Definition list_state (n : nat) (lst : Z) (l : list (Z * Z)) (R : list region) (s : S) : Prop :=
  heap_ok n (list_regions lst l ++ R) s /\ dlist (mem s) lst l.

Lemma heap_ok_start n L s r : heap_ok n L s -> r ∈ L -> 4 <= r.1.
Proof. intros Hs Hr. by destruct (heap_ok_regions _ _ _ _ Hs Hr). Qed.

(** Stores to the first objects of the heap keep it well formed and leave the
    objects behind them alone. *)
Lemma heap_ok_touched n L R s m :
  heap_ok n (L ++ R) s -> touched L (mem s) m ->
  heap_ok n (L ++ R) (set_mem m s) /\ same_on (live R) (mem s) m.
Proof.
  intros Hs Ht. split.
  - apply heap_ok_write; [done|]. eapply touched_weaken; [exact Ht|]. intros r Hr. set_solver.
  - eapply touched_same; [exact Ht | by eapply heap_ok_separate |].
    intros r Hr. eapply heap_ok_start; [exact Hs|]. set_solver.
Qed.

Lemma dlist_same m m' lst l : same_on (live (list_regions lst l)) m m' -> dlist m lst l -> dlist m' lst l.
Proof.
  intros Hs [H1 H2 H3].
  assert (Hw : forall a, lst <= a -> a + 4 <= lst + 12 -> ld32 m' a = ld32 m a).
  { intros a Ha1 Ha2. eapply ld32_same_on; [exact Hs|]. intros b Hb. apply live_cons. left.
    unfold in_region, SIZEOF_LIST. simpl. lia. }
  split; unfold_list; rewrite Hw by lia; [done| |done].
  eapply dl_seg_same; [|done]. eapply same_on_weaken; [exact Hs|]. intros a Ha. apply live_cons. by right.
Qed.

(** Runs loads and stores at fixed addresses, reading through the stores. *)
Ltac lstep := first [ mstep | progress (rewrite ?mem_set_mem, ?set_mem_set_mem) | progress mem_simpl ].
Ltac lsteps := unfold_list; repeat lstep.

(** Where the objects of a heap lie. *)
Definition addr_ok (a : Z) : Prop := 4 <= a /\ a + 12 <= 4294967296.
Definition apart12 (a b : Z) : Prop := a + 12 <= b \/ b + 12 <= a.

Lemma heap_ok_addr n L s a : heap_ok n L s -> (a, 12) ∈ L -> addr_ok a.
Proof. intros Hs Ha. by destruct (heap_ok_regions _ _ _ _ Hs Ha). Qed.

Lemma heap_ok_apart n L s a b : heap_ok n ((a, 12) :: L) s -> (b, 12) ∈ L -> apart12 a b.
Proof.
  intros Hs Hb. pose proof (proj1 (heap_ok_separate _ _ _ Hs) _ Hb) as Hab.
  unfold apart, disjoint in Hab. exact Hab.
Qed.

(** A new node next to a list. *)
Record new_node (n : nat) (p lst : Z) (l : list (Z * Z)) (R : list region) (s s1 : S) : Prop := {
  nn_ok : heap_ok n ((p, 12) :: list_regions lst l ++ R) s1;
  nn_list : dlist (mem s1) lst l /\ ld32 (mem s1) (l_tail lst) = ld32 (mem s) (l_tail lst);
  nn_zero : ld32 (mem s1) (n_prev p) = 0 /\ ld32 (mem s1) (n_next p) = 0;
  nn_rest : same_on (live R) (mem s) (mem s1);
  nn_addr : addr_ok p /\ addr_ok lst /\ apart12 p lst;
}.

Lemma wp_new_node n lst l R s (Q : Z -> S -> Prop) :
  list_state (Datatypes.S n) lst l R s ->
  (forall p s1, new_node n p lst l R s s1 -> Q p s1) -> wp (kcalloc_op SIZEOF_NODE 1) Q s.
Proof.
  intros [Hok Hdl] HQ. eapply wp_kcalloc; [exact Hok | done | done | done |].
  change (SIZEOF_NODE * 1) with 12. intros p s1 Hok1 Hz Hs1. apply HQ. split.
  - exact Hok1.
  - split.
    + eapply dlist_same; [|exact Hdl]. eapply same_on_weaken; [exact Hs1|]. intros a Ha. apply live_app. by left.
    + eapply ld32_same_on; [exact Hs1|]. intros b Hb. apply live_app. left. apply live_cons. left.
      unfold in_region, SIZEOF_LIST. unfold_list. simpl. lia.
  - split; apply ld32_zero; intros a Ha; apply Hz; unfold_list; lia.
  - eapply same_on_weaken; [exact Hs1|]. intros a Ha. apply live_app. by right.
  - split_and!; [eapply heap_ok_addr; [exact Hok1 | by left] | eapply heap_ok_addr; [exact Hok1 | right; by left] |].
    eapply heap_ok_apart; [exact Hok1 | by left].
Qed.

(** The first node of a list next to a new node. *)
Lemma new_node_head n p lst l R s s1 :
  new_node n p lst l R s s1 ->
  let h := ld32 (mem s1) (l_head lst) in
  (l = [] /\ h = 0) \/
  (exists v0 l', l = (h, v0) :: l' /\ addr_ok h /\ apart12 p h /\ apart12 lst h).
Proof.
  intros [Hok [[_ Hn _] _] _ _ _] h. destruct l as [|[n0 v0] l']; [by left | right].
  destruct Hn as (Hh & _). fold h in Hh. exists v0, l'. rewrite Hh. split_and!; [done | | |].
  - eapply heap_ok_addr; [exact Hok|]. set_solver.
  - eapply heap_ok_apart; [exact Hok|]. set_solver.
  - eapply (heap_ok_apart n); [eapply heap_ok_permute; [|exact Hok]; apply perm_swap|]. set_solver.
Qed.

Lemma list_regions_in lst l n v : (n, v) ∈ l -> (n, 12) ∈ list_regions lst l.
Proof. intros Hn. right. apply list_elem_of_fmap. by exists (n, v). Qed.

(** The stores of an insertion give the state with the new node. *)
Lemma insert_done n p lst l l' v R s s1 m :
  new_node n p lst l R s s1 -> l' ≡ₚ (p, v) :: l ->
  touched ((p, 12) :: list_regions lst l) (mem s1) m -> dlist m lst l' ->
  list_state n lst l' R (set_mem m s1) /\ same_on (live R) (mem s) (mem (set_mem m s1)).
Proof.
  intros [Hok _ _ Hr _] HP Ht Hdl.
  destruct (heap_ok_touched n ((p, 12) :: list_regions lst l) R s1 m Hok Ht) as [Hok' Hs].
  rewrite mem_set_mem. split; [|by etransitivity]. split; [|by rewrite mem_set_mem].
  eapply heap_ok_permute; [|exact Hok']. unfold list_regions. rewrite HP. simpl. apply perm_swap.
Qed.

(** Accounts for a store inside the object at [a]. *)
Ltac touch a :=
  simple eapply (touched_st32 _ _ _ (a, 12)); [ | | cbn; lia | cbn; lia]; [|first
    [ by left | by right; left | right; by eapply list_regions_in | by right
    | unfold list_regions; rewrite fmap_app; elem
    | set_solver ]].
(** Each region of an explicit list is one of those of [list_regions]. *)
Ltac each_region :=
  let r := fresh in let Hr := fresh in
  intros r Hr; unfold list_regions; rewrite ?fmap_app;
  repeat (apply elem_of_cons in Hr as [->|Hr]; [cbn [fmap list_fmap]; elem|]);
  by apply not_elem_of_nil in Hr.
Ltac flat := unfold addr_ok, apart12 in *.

Lemma dl_seg_frame m m' prev p q l L :
  touched L m m' -> (forall r, r ∈ node_region <$> l -> 4 <= r.1 /\ forall r', r' ∈ L -> apart r r') ->
  dl_seg m prev p q l -> dl_seg m' prev p q l.
Proof.
  intros Ht Hs. apply dl_seg_same. intros a (r & Hr & Ha). destruct (Hs r Hr) as [H4 Hap].
  apply Ht; [|unfold in_region in Ha; lia]. intros (r' & Hr' & Ha').
  specialize (Hap r' Hr'). unfold apart, disjoint, in_region in *. lia.
Qed.

Lemma wp_insert_front n lst l R v s (Q : Z -> S -> Prop) :
  list_state (Datatypes.S n) lst l R s -> 0 <= v < 4294967296 ->
  (forall t s', list_state n lst ((t, v) :: l) R s' -> same_on (live R) (mem s) (mem s') -> Q t s') ->
  wp (list_insert_front lst v) Q s.
Proof.
  intros Hst Hv HQ. unfold list_insert_front. wp_step. eapply wp_new_node; [exact Hst|].
  intros p s1 Hnn. pose proof (new_node_head _ _ _ _ _ _ _ Hnn) as Hh.
  pose proof Hnn as [Hok [[Hsz Hnd Htl] _] [Hz0 Hz4] _ (Hpa & Hla & Hpl)].
  assert (Hdone : forall m, touched ((p, 12) :: list_regions lst l) (mem s1) m ->
    dlist m lst ((p, v) :: l) -> Q p (set_mem m s1)).
  { intros m Ht Hm. destruct (insert_done n p lst l ((p, v) :: l) v R s s1 m Hnn (reflexivity _) Ht Hm).
    by apply HQ. }
  flat. cbv zeta in Hh. set (h := ld32 (mem s1) (l_head lst)) in *. assert (Hh0 : ld32 (mem s1) (l_head lst) = h) by done.
  clearbody h. destruct Hh as [[-> ->]|(v0 & l' & -> & Hha & Hph & Hlh)]; unfold add_size.
  - lsteps. rewrite Hh0. lsteps. apply Hdone.
    + touch lst. touch lst. touch lst. touch p. touch p. apply touched_null, touched_refl.
    + split; simpl; unfold_list; mem_simpl; rewrite ?u32_small by lia; try done.
      rewrite Hsz. unfold u32. done.
  - lsteps. rewrite !Hh0. lsteps. rewrite ?Hh0, (proj2 (Z.eqb_neq h 0)) by lia. lsteps.
    match goal with |- Q p (set_mem ?m _) => assert (Ht : touched [(p, 12); (lst, 12); (h, 12)] (mem s1) m) end.
    { touch lst. touch lst. touch p. touch p. touch h. apply touched_refl. }
    apply Hdone; [eapply touched_weaken; [exact Ht|]; each_region|].
    pose proof (heap_ok_separate _ _ _ Hok) as Hsep.
    change ((p, 12) :: list_regions lst ((h, v0) :: l') ++ R)
      with ([(p, 12); (lst, 12); (h, 12)] ++ (node_region <$> l') ++ R) in Hsep.
    destruct Hnd as (_ & Hp & Hv0 & Hnd).
    eapply dl_seg_frame in Hnd; [|exact Ht|].
    2: { intros r Hr. split; [eapply heap_ok_start; [exact Hok | unfold list_regions; cbn [fmap list_fmap app]; elem]|]. intros r' Hr'.
         apply apart_sym. eapply separate_app; [exact Hsep | exact Hr' | elem]. }
    split; cbn [length dl_seg]; unfold_list; mem_simpl; rewrite ?(u32_small p), ?(u32_small v), ?(u32_small h) by lia.
    + rewrite Hsz. cbn [length]. rewrite u32_idemp, u32_add_l. f_equal. lia.
    + split_and!; [done..|]. exact Hnd. 
    + intros _. rewrite Htl by done. by rewrite !last_node_cons.
Qed.

(** A node of a list and a new node. *)
Lemma new_node_in n p lst l R s s1 e ve :
  new_node n p lst l R s s1 -> (e, ve) ∈ l -> addr_ok e /\ apart12 p e /\ apart12 lst e.
Proof.
  intros [Hok _ _ _ _] Hin. apply (list_regions_in lst) in Hin as He.
  assert (He' : (e, 12) ∈ (node_region <$> l) ++ R).
  { apply elem_of_app. left. apply list_elem_of_fmap. by exists (e, ve). }
  split_and!.
  - eapply heap_ok_addr; [exact Hok|]. right. apply elem_of_app. by left.
  - eapply heap_ok_apart; [exact Hok|]. by right.
  - eapply (heap_ok_apart n); [eapply heap_ok_permute; [|exact Hok]; apply perm_swap|]. by right.
Qed.

Lemma wp_insert_back n lst l R v s (Q : Z -> S -> Prop) :
  list_state (Datatypes.S n) lst l R s -> (l = [] -> ld32 (mem s) (l_tail lst) = 0) ->
  0 <= v < 4294967296 ->
  (forall t s', list_state n lst (l ++ [(t, v)]) R s' -> same_on (live R) (mem s) (mem s') -> Q t s') ->
  wp (list_insert_back lst v) Q s.
Proof.
  intros Hst Hfull Hv HQ. unfold list_insert_back. wp_step. eapply wp_new_node; [exact Hst|].
  intros p s1 Hnn. pose proof (new_node_in n p lst l R s s1) as Hin. specialize (fun e ve => Hin e ve Hnn).
  pose proof Hnn as [Hok [[Hsz Hnd Htl] Htl1] [Hz0 Hz4] _ (Hpa & Hla & Hpl)].
  assert (Hdone : forall m, touched ((p, 12) :: list_regions lst l) (mem s1) m ->
    dlist m lst (l ++ [(p, v)]) -> Q p (set_mem m s1)).
  { intros m Ht Hm. destruct (insert_done n p lst l (l ++ [(p, v)]) v R s s1 m Hnn
      (Permutation_sym (Permutation_cons_append _ _)) Ht Hm). by apply HQ. }
  unfold add_size. destruct l as [|[e ve] l0 _] using rev_ind.
  - rewrite Hfull in Htl1 by done. simpl in Hnd. flat. lsteps. rewrite Htl1. lsteps. rewrite Hnd. lsteps.
    apply Hdone.
    + touch lst. touch lst. touch lst. touch p. touch p. apply touched_refl.
    + split; simpl; unfold_list; mem_simpl; rewrite ?(u32_small p), ?(u32_small v) by lia; try done.
      rewrite Hsz. done.
  - destruct (Hin e ve ltac:(set_solver)) as (Hea & Hpe & Hle).
    assert (He : ld32 (mem s1) (l_tail lst) = e).
    { rewrite Htl by (by destruct l0). apply last_node_snoc. }
    assert (Hh : ld32 (mem s1) (l_head lst) <> 0).
    { destruct l0 as [|[h vh] l0]; simpl in Hnd; destruct Hnd as [-> _]; [unfold addr_ok in Hea; lia|].
      destruct (Hin h vh ltac:(by left)) as [Hha _]. unfold addr_ok in Hha. lia. }
    flat. lsteps. rewrite He. lsteps. rewrite (proj2 (Z.eqb_neq e 0)) by lia. lsteps.
    rewrite (proj2 (Z.eqb_neq _ 0)) by exact Hh. lsteps.
    match goal with |- Q p (set_mem ?m _) => assert (Ht : touched [(p, 12); (lst, 12); (e, 12)] (mem s1) m) end.
    { touch lst. touch lst. touch p. touch e. touch p. apply touched_refl. }
    apply Hdone; [eapply touched_weaken; [exact Ht|]; each_region|].
    apply dl_seg_app in Hnd as (r & Hnd & -> & Hpe' & Hve & Hend).
    assert (Hsep : separate ([(p, 12); (lst, 12); (e, 12)] ++ (node_region <$> l0) ++ R)).
    { eapply separate_permute; [|eapply heap_ok_separate; exact Hok]. unfold list_regions. rewrite fmap_app. simpl.
      do 2 apply perm_skip. rewrite <- (assoc_L (++)). simpl. by rewrite Permutation_middle. }
    eapply dl_seg_frame in Hnd; [|exact Ht|].
    2: { intros r Hr. split; [eapply heap_ok_start; [exact Hok|]; unfold list_regions; rewrite fmap_app; cbn [fmap list_fmap app]; elem|].
         intros r' Hr'. apply apart_sym. eapply separate_app; [exact Hsep | exact Hr' | elem]. }
    split; unfold_list; mem_simpl; rewrite ?(u32_small p), ?(u32_small v), ?(u32_small e) by lia.
    + rewrite Hsz, !length_app. cbn [length]. rewrite u32_idemp, u32_add_l. f_equal. lia.
    + apply dl_seg_app. exists p. rewrite last_node_snoc. split.
      * apply dl_seg_app. exists e. split; [exact Hnd|]. simpl. unfold_list. mem_simpl.
        by rewrite u32_small by lia.
      * simpl. unfold_list. mem_simpl. rewrite ?(u32_small v), ?(u32_small e) by lia. done.
    + intros _. by rewrite last_node_snoc.
Qed.

(** ** Unlinking a node *)

Definition nodes_of (l : list (Z * Z)) : list region := node_region <$> l.

(** The links of a list, without its size. *)
Definition dl_links (m : memory) (lst : Z) (l : list (Z * Z)) : Prop :=
  dl_seg m 0 (ld32 m (l_head lst)) 0 l /\ (l <> [] -> ld32 m (l_tail lst) = last_node 0 l).

Lemma live_word L n a : (n, 12) ∈ L -> n <= a < n + 12 -> live L a.
Proof. intros Hn Ha. exists (n, 12). split; [done|]. unfold in_region. simpl. lia. Qed.

(** The first node gets another predecessor. *)
Lemma dl_relink_front m m' prev prev' p q l :
  dl_seg m prev p q l -> separate (nodes_of l) ->
  (forall a, live (nodes_of l) a -> ~ (n_prev p <= a < n_prev p + 4) -> ld8 m' a = ld8 m a) ->
  (l <> [] -> ld32 m' (n_prev p) = prev') -> dl_seg m' prev' p q l.
Proof.
  destruct l as [|[n v] l]; [done|]. intros (-> & _ & Hv & Hl) [Hs _] Hsame Hp.
  assert (Hw : forall a, n + 4 <= a <= n + 8 -> ld32 m' a = ld32 m a).
  { intros a Ha. apply ld32_ext. intros b Hb. unfold_list. apply Hsame; [|lia].
    eapply (live_word _ n); [by left|]. lia. }
  simpl. unfold_list. rewrite Hp, (Hw (n + 4)), (Hw (n + 8)) by (done || lia). split_and!; [done..|].
  eapply dl_seg_same; [|exact Hl]. intros a Ha. apply Hsame; [apply live_cons; by right|].
  destruct Ha as (r & Hr & Ha). specialize (Hs r Hr). unfold apart, disjoint, in_region, node_region, SIZEOF_NODE in *.
  simpl in *. lia.
Qed.

(** The last node gets another successor. *)
Lemma dl_relink_back m m' prev p q q' l0 e ve :
  dl_seg m prev p q (l0 ++ [(e, ve)]) -> separate (nodes_of (l0 ++ [(e, ve)])) ->
  (forall a, live (nodes_of (l0 ++ [(e, ve)])) a -> ~ (n_next e <= a < n_next e + 4) -> ld8 m' a = ld8 m a) ->
  ld32 m' (n_next e) = q' -> dl_seg m' prev p q' (l0 ++ [(e, ve)]).
Proof.
  intros Hl Hs Hsame Hq. apply dl_seg_app in Hl as (r & Hl0 & -> & Hp & Hv & _).
  unfold nodes_of in *. rewrite fmap_app in *.
  assert (Hw : forall a, a = e \/ a = e + 8 -> ld32 m' a = ld32 m a).
  { intros a Ha. apply ld32_ext. intros b Hb. unfold_list. apply Hsame; [|lia].
    eapply (live_word _ e); [set_solver|]. lia. }
  apply dl_seg_app. exists e. simpl. unfold_list. rewrite !Hw by lia. split_and!; try done.
  eapply dl_seg_same; [|exact Hl0]. intros a Ha. apply Hsame; [apply live_app; by left|].
  destruct Ha as (r & Hr & Ha). pose proof (separate_app _ _ r (e, 12) Hs Hr ltac:(by left)) as Hap.
  unfold apart, disjoint, in_region in *. simpl in *. lia.
Qed.

(** The links of the list after the node [x] between [l1] and [l2] is
    bypassed. *)
Lemma dl_unlink m m' lst l1 x vx l2 :
  dl_links m lst (l1 ++ (x, vx) :: l2) ->
  separate (nodes_of (l1 ++ (x, vx) :: l2)) ->
  let prv := ld32 m (n_prev x) in
  let nxt := ld32 m (n_next x) in
  (forall a, live (nodes_of (l1 ++ l2)) a ->
     ~ (prv <> 0 /\ n_next prv <= a < n_next prv + 4) ->
     ~ (nxt <> 0 /\ n_prev nxt <= a < n_prev nxt + 4) -> ld8 m' a = ld8 m a) ->
  (nxt <> 0 -> ld32 m' (n_prev nxt) = prv) -> (prv <> 0 -> ld32 m' (n_next prv) = nxt) ->
  ld32 m' (l_head lst) = (if prv =? 0 then nxt else ld32 m (l_head lst)) ->
  (l1 ++ l2 <> [] -> ld32 m' (l_tail lst) = if nxt =? 0 then prv else ld32 m (l_tail lst)) ->
  (forall n v, (n, v) ∈ l1 ++ l2 -> n <> 0) ->
  dl_links m' lst (l1 ++ l2).
Proof.
  intros [Hl Htail] Hsep prv nxt Hsame Hpn Hnp Hh Ht Hnz.
  assert (Hsep' : separate (nodes_of l1 ++ nodes_of l2)).
  { eapply (separate_skip [(x, 12)]). eapply separate_permute; [|exact Hsep].
    unfold nodes_of. rewrite fmap_app. simpl. by rewrite <- Permutation_middle. }
  apply dl_seg_app in Hl as (r & Hl1 & -> & Hp & _ & Hl2). fold prv in Hp. fold nxt in Hl2.
  assert (H2 : dl_seg m' prv nxt 0 l2).
  { eapply dl_relink_front; [exact Hl2 | by eapply separate_skip | |].
    - intros a Ha Hna. apply Hsame; [unfold nodes_of; rewrite fmap_app; apply live_app; by right | | tauto].
      intros [Hp0 Hpa]. destruct l1 as [|[y vy] l0 _] using rev_ind; [done|].
      rewrite last_node_snoc in Hp. destruct Ha as (r' & Hr' & Ha).
      pose proof (separate_app _ _ (y, 12) r' Hsep' ltac:(unfold nodes_of; rewrite fmap_app; set_solver) Hr') as Hap.
      rewrite Hp in Hpa. unfold apart, disjoint, in_region in *. unfold_list. simpl in *. lia.
    - intros Hne. apply Hpn. destruct l2 as [|[z vz] l2]; [done|]. simpl in Hl2. destruct Hl2 as [-> _].
      apply (Hnz z vz). set_solver. }
  assert (Hn0 : nxt = 0 <-> l2 = []).
  { destruct l2 as [|[z vz] l2]; [done|]. simpl in Hl2. destruct Hl2 as [-> _].
    split; [|done]. intros Hz. by destruct (Hnz z vz ltac:(set_solver)). }
  assert (Hp0 : prv = 0 <-> l1 = []).
  { destruct l1 as [|[y vy] l0 _] using rev_ind; [done|]. rewrite Hp, last_node_snoc.
    split; [|by destruct l0]. intros Hz. by destruct (Hnz y vy ltac:(set_solver)). }
  split.
  - rewrite Hh. apply dl_seg_app. exists nxt. rewrite <- Hp. split; [|exact H2].
    destruct l1 as [|[y vy] l0 _] using rev_ind; [by rewrite (proj2 Hp0)|].
    rewrite last_node_snoc in Hp. rewrite (proj2 (Z.eqb_neq prv 0)) by (intros H'; apply Hp0 in H'; by destruct l0).
    eapply dl_relink_back; [exact Hl1 | | |].
    + by eapply separate_take.
    + intros a Ha Hna. apply Hsame; [unfold nodes_of; rewrite fmap_app; apply live_app; by left | rewrite Hp; tauto |].
      intros [Hn' Hna']. destruct l2 as [|[z vz] l2]; [by destruct Hn'; apply Hn0|]. simpl in Hl2.
      destruct Hl2 as [Hz _]. destruct Ha as (r' & Hr' & Ha).
      pose proof (separate_app _ _ r' (z, 12) Hsep' Hr' ltac:(set_solver)) as Hap.
      rewrite Hz in Hna'. unfold apart, disjoint, in_region in *. unfold_list. simpl in *. lia.
    + rewrite <- Hp. apply Hnp. intros H'. apply Hp0 in H'. by destruct l0.
  - intros Hne. rewrite Ht by done. rewrite last_node_app. destruct l2 as [|[z vz] l2].
    + rewrite (proj2 Hn0) by done. simpl. done.
    + rewrite (proj2 (Z.eqb_neq nxt 0)) by (intros H'; by apply Hn0 in H').
      rewrite Htail by (by destruct l1). by rewrite last_node_app, !last_node_cons.
Qed.

(** A node in the middle of a list, with the objects around it. *)
Record at_node (n : nat) (lst : Z) (l1 : list (Z * Z)) (x vx : Z) (l2 : list (Z * Z))
    (R : list region) (s : S) (prv nxt : Z) : Prop := {
  an_ok : heap_ok n ((x, 12) :: list_regions lst (l1 ++ l2) ++ R) s;
  an_links : dl_links (mem s) lst (l1 ++ (x, vx) :: l2);
  an_size : ld32 (mem s) (l_size lst) = u32 (Z.of_nat (length (l1 ++ l2)) + 1);
  an_words : ld32 (mem s) (n_prev x) = prv /\ ld32 (mem s) (n_next x) = nxt /\
             ld32 (mem s) (n_value x) = vx;
  an_addr : addr_ok x /\ addr_ok lst /\ apart12 x lst;
  an_prev : prv = 0 /\ l1 = [] \/
    l1 <> [] /\ (prv, 12) ∈ nodes_of l1 /\ addr_ok prv /\ apart12 x prv /\ apart12 lst prv;
  an_next : nxt = 0 /\ l2 = [] \/
    l2 <> [] /\ (nxt, 12) ∈ nodes_of l2 /\ addr_ok nxt /\ apart12 x nxt /\ apart12 lst nxt;
  an_both : prv = 0 \/ nxt = 0 \/ apart12 prv nxt;
  an_head : ld32 (mem s) (l_head lst) = if prv =? 0 then x else ld32 (mem s) (l_head lst);
  an_head' : prv <> 0 -> ld32 (mem s) (l_head lst) <> x /\ ld32 (mem s) (l_head lst) <> 0;
  an_tail : (nxt = 0 -> ld32 (mem s) (l_tail lst) = x) /\ (nxt <> 0 -> ld32 (mem s) (l_tail lst) <> x);
}.

Lemma in_nodes (l : list (Z * Z)) nv : nv ∈ l -> (nv.1, 12) ∈ nodes_of l.
Proof. intros Hn. apply list_elem_of_fmap. by exists nv. Qed.

Lemma last_node_in prev l : l <> [] -> exists v, (last_node prev l, v) ∈ l.
Proof.
  intros Hl. destruct l as [|[y vy] l0 _] using rev_ind; [done|]. rewrite last_node_snoc.
  exists vy. elem.
Qed.

Lemma first_in m prev p q l : dl_seg m prev p q l -> l <> [] -> exists v, (p, v) ∈ l.
Proof. destruct l as [|[y vy] l]; [done|]. intros (-> & _) _. exists vy. elem. Qed.

Lemma list_at_node n lst l1 x vx l2 R s :
  list_state n lst (l1 ++ (x, vx) :: l2) R s ->
  at_node n lst l1 x vx l2 R s (ld32 (mem s) (n_prev x)) (ld32 (mem s) (n_next x)).
Proof.
  intros [Hok [Hsz Hnd Htl]].
  assert (Hok' : heap_ok n ((x, 12) :: list_regions lst (l1 ++ l2) ++ R) s).
  { eapply heap_ok_permute; [|exact Hok]. unfold list_regions. rewrite !fmap_app. simpl.
    etransitivity; [|apply perm_swap]. apply perm_skip. rewrite <- !(assoc_L (++)). symmetry.
    apply Permutation_middle. }
  assert (Hreg : forall y, (y, 12) ∈ nodes_of (l1 ++ l2) -> addr_ok y /\ apart12 x y /\ apart12 lst y).
  { intros y Hy. split_and!.
    - eapply heap_ok_addr; [exact Hok'|]. right. right. apply elem_of_app. by left.
    - eapply heap_ok_apart; [exact Hok'|]. right. apply elem_of_app. by left.
    - eapply heap_ok_apart; [eapply heap_ok_permute; [apply perm_swap | exact Hok']|].
      right. apply elem_of_app. by left. }
  assert (Hx : addr_ok x /\ addr_ok lst /\ apart12 x lst).
  { split_and!; [eapply heap_ok_addr; [exact Hok'|elem] | eapply heap_ok_addr; [exact Hok'|] | eapply heap_ok_apart; [exact Hok'|]];
      unfold list_regions; cbn [app]; elem. }
  pose proof Hnd as Hseg. apply dl_seg_app in Hseg as (r & Hl1 & -> & Hp & Hv & Hl2).
  assert (Hprev : ld32 (mem s) (n_prev x) = 0 /\ l1 = [] \/
    l1 <> [] /\ (ld32 (mem s) (n_prev x), 12) ∈ nodes_of l1).
  { rewrite Hp. destruct (decide (l1 = [])) as [->|Hne]; [by left | right].
    destruct (last_node_in 0 l1 Hne) as [v Hin]. split; [done|]. by apply (in_nodes _ _ Hin). }
  assert (Hnext : ld32 (mem s) (n_next x) = 0 /\ l2 = [] \/
    l2 <> [] /\ (ld32 (mem s) (n_next x), 12) ∈ nodes_of l2).
  { destruct (decide (l2 = [])) as [->|Hne]; [left; split; [exact Hl2 | done] | right].
    destruct (first_in _ _ _ _ _ Hl2 Hne) as [v Hin]. split; [done|]. by apply (in_nodes _ _ Hin). }
  assert (Hsub1 : forall r, r ∈ nodes_of l1 -> r ∈ nodes_of (l1 ++ l2))
    by (intros r Hr; unfold nodes_of; rewrite fmap_app; apply elem_of_app; by left).
  assert (Hsub2 : forall r, r ∈ nodes_of l2 -> r ∈ nodes_of (l1 ++ l2))
    by (intros r Hr; unfold nodes_of; rewrite fmap_app; apply elem_of_app; by right).
  assert (Hsep : separate (nodes_of l1 ++ nodes_of l2 ++ R)).
  { pose proof (heap_ok_separate _ _ _ Hok') as [_ [_ Hsep]]. fold (nodes_of (l1 ++ l2)) in Hsep.
    unfold nodes_of in *. rewrite fmap_app in Hsep. by rewrite <- (assoc_L (++)) in Hsep. }
  split.
  - exact Hok'.
  - by split.
  - rewrite Hsz, !length_app. cbn [length]. f_equal. lia.
  - done.
  - exact Hx.
  - destruct Hprev as [?|[? Hin]]; [by left | right]. split_and!; [done | done | by apply Hreg, Hsub1..].
  - destruct Hnext as [?|[? Hin]]; [by left | right]. split_and!; [done | done | by apply Hreg, Hsub2..].
  - destruct Hprev as [[? _]|[_ Hin1]]; [by left|]. destruct Hnext as [[? _]|[_ Hin2]]; [by right; left|].
    right. right. pose proof (separate_app _ _ _ _ Hsep Hin1 ltac:(apply elem_of_app; left; exact Hin2)) as Hap.
    unfold apart, disjoint in Hap. exact Hap.
  - destruct Hprev as [[-> ->]|[Hne Hin]]; [exact Hl1|].
    destruct (Hreg _ (Hsub1 _ Hin)) as [Ha _]. unfold addr_ok in Ha. by rewrite (proj2 (Z.eqb_neq _ 0)) by lia.
  - intros Hp0. destruct Hprev as [[? _]|[Hne _]]; [done|].
    destruct (first_in _ _ _ _ _ Hl1 Hne) as [v Hin]. apply in_nodes in Hin. simpl in Hin.
    destruct (Hreg _ (Hsub1 _ Hin)) as (Ha & Hap & _). unfold addr_ok, apart12 in *. lia.
  - rewrite Htl by (by destruct l1). rewrite last_node_app, last_node_cons. split.
    + intros Hn0. destruct Hnext as [[_ ->]|[_ Hin]]; [done|].
      destruct (Hreg _ (Hsub2 _ Hin)) as [Ha _]. unfold addr_ok in Ha. lia.
    + intros Hn0. destruct Hnext as [[? _]|[Hne _]]; [done|].
      destruct (last_node_in x l2 Hne) as [v Hin]. apply in_nodes in Hin. simpl in Hin.
      destruct (Hreg _ (Hsub2 _ Hin)) as (Ha & Hap & _). unfold addr_ok, apart12 in *. lia.
Qed.

(** The links survive stores to the size and anything outside the list. *)
Lemma dl_links_same m m' lst l :
  same_on (live (nodes_of l)) m m' -> ld32 m' (l_head lst) = ld32 m (l_head lst) ->
  ld32 m' (l_tail lst) = ld32 m (l_tail lst) -> dl_links m lst l -> dl_links m' lst l.
Proof. intros Hs Hh Ht [Hl Htl]. split; rewrite ?Hh, ?Ht; [by eapply dl_seg_same | done]. Qed.

Context `{!KfreeLaws S}.

(** The store to the size that ends a removal. *)
Lemma add_size_state n lst l R s m :
  heap_ok n (list_regions lst l ++ R) s -> dl_links (mem s) lst l ->
  m = st32 (mem s) (l_size lst) (Z.of_nat (length l) + 1 +32 -1) ->
  list_state n lst l R (set_mem m s) /\ same_on (live R) (mem s) m.
Proof.
  intros Hok Hl ->.
  assert (Hreg : (lst, 12) ∈ list_regions lst l) by (unfold list_regions; elem).
  destruct (heap_ok_touched n (list_regions lst l) R s
    (st32 (mem s) (l_size lst) (Z.of_nat (length l) + 1 +32 -1))) as [Hok' Hs]; [exact Hok | |].
  { unfold_list. touch lst. apply touched_refl. }
  split; [|exact Hs]. split; [exact Hok'|]. rewrite mem_set_mem.
  assert (Hl' : dl_links (st32 (mem s) (l_size lst) (Z.of_nat (length l) + 1 +32 -1)) lst l).
  { eapply dl_links_same; [| | |exact Hl]; [|by unfold_list; mem_simpl..].
    apply (same_on_live_st32 (lst, 12)); unfold_list; cbn; [|lia..].
    apply heap_ok_separate, separate_take in Hok. exact Hok. }
  destruct Hl' as [Hl1 Hl2]. split; [|exact Hl1 | exact Hl2].
  rewrite ld32_st32_eq, u32_idemp. f_equal. lia.
Qed.

Lemma same_on_live_app L R m m' :
  same_on (live (L ++ R)) m m' -> same_on (live L) m m' /\ same_on (live R) m m'.
Proof. intros Hs. split; (eapply same_on_weaken; [exact Hs|]; intros a Ha; apply live_app; auto). Qed.

(** A release keeps the words of the list object. *)
Lemma list_words_same m m' lst l :
  same_on (live (list_regions lst l)) m m' ->
  same_on (live (nodes_of l)) m m' /\ ld32 m' (l_head lst) = ld32 m (l_head lst) /\
  ld32 m' (l_tail lst) = ld32 m (l_tail lst) /\ ld32 m' (l_size lst) = ld32 m (l_size lst).
Proof.
  intros Hs. split; [eapply same_on_weaken; [exact Hs|]; intros a Ha; apply live_cons; by right|].
  assert (Hw : forall a, lst <= a -> a + 4 <= lst + 12 -> ld32 m' a = ld32 m a).
  { intros a H1 H2. eapply ld32_same_on; [exact Hs|]. intros b Hb. eapply (live_word _ lst); [|lia].
    unfold list_regions. elem. }
  unfold_list. rewrite !Hw by lia. done.
Qed.

(** The two ways a removal ends. *)
Lemma wp_kfree_size n lst l x R v s (Q : Z -> S -> Prop) :
  heap_ok n ((x, 12) :: list_regions lst l ++ R) s -> dl_links (mem s) lst l ->
  ld32 (mem s) (l_size lst) = u32 (Z.of_nat (length l) + 1) ->
  (forall s', list_state n lst l R s' -> same_on (live R) (mem s) (mem s') -> Q v s') ->
  wp (kfree_op x;; add_size lst (-1);; mret v) Q s.
Proof.
  intros Hok Hl Hsz HQ. wp_step. eapply wp_kfree; [exact Hok|]. intros s1 Hok1 Hs1.
  apply same_on_live_app in Hs1 as [Hs1 HsR].
  destruct (list_words_same _ _ _ _ Hs1) as (Hn & Hh & Ht & Hz).
  assert (Hl1 : dl_links (mem s1) lst l) by (eapply dl_links_same; [exact Hn | exact Hh | exact Ht | exact Hl]).
  unfold add_size. msteps. rewrite Hz, Hsz.
  destruct (add_size_state n lst l R s1 _ Hok1 Hl1 eq_refl) as [Hst Hsame].
  rewrite u32_add_l in *. apply HQ; [exact Hst|]. rewrite mem_set_mem. by etransitivity.
Qed.

Lemma wp_size_kfree n lst l x R v s (Q : Z -> S -> Prop) :
  heap_ok n ((x, 12) :: list_regions lst l ++ R) s -> dl_links (mem s) lst l ->
  ld32 (mem s) (l_size lst) = u32 (Z.of_nat (length l) + 1) ->
  (forall s', list_state n lst l R s' -> same_on (live R) (mem s) (mem s') -> Q v s') ->
  wp (add_size lst (-1);; kfree_op x;; mret v) Q s.
Proof.
  intros Hok Hl Hsz HQ. unfold add_size. msteps. rewrite Hsz.
  assert (Hok' : heap_ok n (list_regions lst l ++ (x, 12) :: R) s)
    by (eapply heap_ok_permute; [|exact Hok]; apply Permutation_middle).
  destruct (add_size_state n lst l ((x, 12) :: R) s _ Hok' Hl eq_refl) as [[Hok1 [Hz Hn Ht]] Hsame].
  rewrite u32_add_l in *. match goal with |- wp _ _ ?k => set (s1 := k) in * end.
  assert (Hok2 : heap_ok n ((x, 12) :: list_regions lst l ++ R) s1)
    by (eapply heap_ok_permute; [|exact Hok1]; symmetry; apply Permutation_middle).
  eapply wp_kfree; [exact Hok2|]. intros s2 Hok3 Hs2. mstep.
  apply same_on_live_app in Hs2 as [Hs2 HsR].
  destruct (list_words_same _ _ _ _ Hs2) as (Hn2 & Hh2 & Ht2 & Hz2).
  apply HQ.
  - split; [exact Hok3|]. rewrite <- Hh2 in Hn. 
    split; [by rewrite Hz2 | by eapply dl_seg_same | by rewrite Ht2].
  - etransitivity; [|exact HsR]. unfold s1. rewrite mem_set_mem.
    eapply same_on_weaken; [exact Hsame|]. intros a Ha. apply live_cons. by right.
Qed.

(** The pointer stores of the three removal paths, as one memory. *)
Lemma unlink_done n lst l1 x vx l2 R s prv nxt m :
  at_node n lst l1 x vx l2 R s prv nxt ->
  touched (list_regions lst (l1 ++ l2)) (mem s) m ->
  (forall a, live (nodes_of (l1 ++ l2)) a ->
     ~ (prv <> 0 /\ n_next prv <= a < n_next prv + 4) ->
     ~ (nxt <> 0 /\ n_prev nxt <= a < n_prev nxt + 4) -> ld8 m a = ld8 (mem s) a) ->
  (nxt <> 0 -> ld32 m (n_prev nxt) = prv) -> (prv <> 0 -> ld32 m (n_next prv) = nxt) ->
  ld32 m (l_head lst) = (if prv =? 0 then nxt else ld32 (mem s) (l_head lst)) ->
  (l1 ++ l2 <> [] -> ld32 m (l_tail lst) = if nxt =? 0 then prv else ld32 (mem s) (l_tail lst)) ->
  ld32 m (l_size lst) = ld32 (mem s) (l_size lst) ->
  heap_ok n ((x, 12) :: list_regions lst (l1 ++ l2) ++ R) (set_mem m s) /\
  same_on (live R) (mem s) m /\ dl_links m lst (l1 ++ l2) /\
  ld32 m (l_size lst) = u32 (Z.of_nat (length (l1 ++ l2)) + 1).
Proof.
  intros [Hok Hl Hsz (Hp & Hn & _) _ _ _ _ _ _ _] Ht Hsame Hpn Hnp Hh Htl Hz.
  assert (Hok' : heap_ok n (list_regions lst (l1 ++ l2) ++ (x, 12) :: R) s)
    by (eapply heap_ok_permute; [|exact Hok]; apply Permutation_middle).
  destruct (heap_ok_touched _ _ _ _ _ Hok' Ht) as [Hok1 Hs1]. split_and!.
  - eapply heap_ok_permute; [|exact Hok1]. symmetry. apply Permutation_middle.
  - eapply same_on_weaken; [exact Hs1|]. intros a Ha. apply live_cons. by right.
  - subst prv nxt. eapply dl_unlink; [exact Hl | | exact Hsame | exact Hpn | exact Hnp | exact Hh | exact Htl |].
    + apply heap_ok_separate in Hok. unfold list_regions in Hok. cbn [app] in Hok.
      assert (Hs : separate (((x, 12) :: nodes_of (l1 ++ l2)) ++ (lst, 12) :: R)).
      { eapply separate_permute; [|exact Hok]. unfold nodes_of. simpl. apply perm_skip.
        apply (Permutation_middle (nodes_of (l1 ++ l2)) R (lst, 12)). }
      apply separate_take in Hs. eapply separate_permute; [|exact Hs].
      unfold nodes_of. rewrite !fmap_app. simpl. by rewrite Permutation_middle.
    + intros y vy Hy. apply in_nodes in Hy. simpl in Hy.
      assert (Ha : addr_ok y).
      { eapply heap_ok_addr; [exact Hok|]. right. right. apply elem_of_app. by left. }
      unfold addr_ok in Ha. lia.
  - by rewrite Hz.
Qed.

(** The bytes of the nodes are not in the list object. *)
Lemma node_byte n lst l1 x vx l2 R s prv nxt a :
  at_node n lst l1 x vx l2 R s prv nxt -> live (nodes_of (l1 ++ l2)) a -> a < lst \/ lst + 12 <= a.
Proof.
  intros Han (r & Hr & Ha). pose proof (heap_ok_separate _ _ _ (an_ok _ _ _ _ _ _ _ _ _ _ Han)) as [_ [Hs _]].
  specialize (Hs r ltac:(apply elem_of_app; by left)). unfold apart, disjoint, in_region, SIZEOF_LIST in *. simpl in Hs. lia.
Qed.

Lemma wp_remove_front n lst x vx l2 R s (Q : Z -> S -> Prop) :
  list_state n lst ((x, vx) :: l2) R s ->
  (forall s', list_state n lst l2 R s' -> same_on (live R) (mem s) (mem s') -> Q vx s') ->
  wp (list_remove_front lst) Q s.
Proof.
  intros Hst HQ. pose proof (list_at_node n lst [] x vx l2 R s Hst) as Han.
  pose proof Han as [_ _ _ (_ & _ & Hv) (Hxa & Hla & Hxl) [[Hp0 _]|[? _]] Hnext _ Hhd _ _]; [|done].
  rewrite Hp0 in *. cbn [Z.eqb] in Hhd.
  set (nxt := ld32 (mem s) (n_next x)) in *. assert (Hnx : ld32 (mem s) (n_next x) = nxt) by done. clearbody nxt.
  assert (Hfin : forall m, touched (list_regions lst l2) (mem s) m ->
    (forall a, live (nodes_of l2) a -> ~ (nxt <> 0 /\ n_prev nxt <= a < n_prev nxt + 4) -> ld8 m a = ld8 (mem s) a) ->
    (nxt <> 0 -> ld32 m (n_prev nxt) = 0) -> ld32 m (l_head lst) = nxt ->
    ld32 m (l_tail lst) = ld32 (mem s) (l_tail lst) -> ld32 m (l_size lst) = ld32 (mem s) (l_size lst) ->
    wp (kfree_op x;; add_size lst (-1);; mret vx) Q (set_mem m s)).
  { intros m Ht Hsame Hpn Hh Htl Hz.
    destruct (unlink_done n lst [] x vx l2 R s 0 nxt m Han Ht) as (Hok & HsR & Hl & Hsz); try done.
    - intros a Ha _ Hna. by apply Hsame.
    - intros Hne. rewrite Htl. destruct (Z.eqb_spec nxt 0) as [Hn0|]; [|done].
      destruct Hnext as [[_ ->]|(_ & Hin & Hna & _)]; [done|]. unfold addr_ok in Hna. lia.
    - rewrite <- (mem_set_mem m s) in Hl, Hsz. eapply wp_kfree_size; [exact Hok | exact Hl | exact Hsz |].
      intros s' Hs' Hr'. apply HQ; [done|]. rewrite mem_set_mem in Hr'. by etransitivity. }
  unfold list_remove_front. flat. 
  lsteps. rewrite Hhd, (proj2 (Z.eqb_neq x 0)) by lia. lsteps. rewrite Hhd. lsteps. rewrite Hv, Hnx.
  rewrite (u32_small nxt) by (destruct Hnext as [[-> _]|(_ & _ & ? & _)]; lia).
  destruct Hnext as [[-> Hl2]|(Hl2 & Hin & Hna & Hxn & Hln)].
  - lsteps. simple apply (wp_bind_inv (kfree_op x) (fun _ => add_size lst (-1);; mret vx)). apply Hfin; unfold_list; mem_simpl; try done.
    + touch lst. apply touched_refl.
    + subst l2. intros a (r & Hr & _). by apply not_elem_of_nil in Hr.
  - rewrite (proj2 (Z.eqb_neq nxt 0)) by lia. lsteps.
    simple apply (wp_bind_inv (kfree_op x) (fun _ => add_size lst (-1);; mret vx)). apply Hfin; unfold_list; mem_simpl; try done.
    + touch nxt. touch lst. apply touched_refl.
    + intros a Ha Hna'. pose proof (node_byte _ _ _ _ _ _ _ _ _ _ a Han Ha). mem_simpl. done.
    + apply u32_small. lia.
Qed.

Lemma wp_remove_back n lst l1 x vx R s (Q : Z -> S -> Prop) :
  list_state n lst (l1 ++ [(x, vx)]) R s -> l1 <> [] ->
  (forall s', list_state n lst l1 R s' -> same_on (live R) (mem s) (mem s') -> Q vx s') ->
  wp (list_remove_back lst) Q s.
Proof.
  intros Hst Hl1 HQ. pose proof (list_at_node n lst l1 x vx [] R s Hst) as Han.
  pose proof Han as [_ _ _ (_ & _ & Hv) (Hxa & Hla & Hxl) [[_ ?]|(_ & Hin & Hpa & Hxp & Hlp)] [[Hn0 _]|[? _]] _ _ Hhd [Htl _]];
    [done | done | | done].
  specialize (Htl Hn0). rewrite Hn0 in *.
  set (prv := ld32 (mem s) (n_prev x)) in *. assert (Hpx : ld32 (mem s) (n_prev x) = prv) by done. clearbody prv.
  unfold list_remove_back. flat. destruct (Hhd ltac:(lia)) as [_ Hh0].
  lsteps. rewrite (proj2 (Z.eqb_neq _ 0)) by exact Hh0. lsteps. rewrite Htl. lsteps. rewrite Hv, Hpx.
  rewrite (u32_small prv), (proj2 (Z.eqb_neq prv 0)) by lia. lsteps.
  simple apply (wp_bind_inv (kfree_op x) (fun _ => add_size lst (-1);; mret vx)).
  match goal with |- wp _ _ (set_mem ?m _) =>
    destruct (unlink_done n lst l1 x vx [] R s prv 0 m Han) as (Hok & HsR & Hl & Hsz) end;
    rewrite ?app_nil_r; unfold_list; mem_simpl; rewrite ?(u32_small prv) by lia; try done.
  - touch prv. touch lst. apply touched_refl.
  - intros a Ha Hna _. rewrite <- (app_nil_r l1) in Ha.
    pose proof (node_byte _ _ _ _ _ _ _ _ _ _ a Han Ha). mem_simpl. done.
  - by rewrite (proj2 (Z.eqb_neq prv 0)) by lia.
  - rewrite app_nil_r in *. match goal with |- wp _ _ (set_mem ?m _) => rewrite <- (mem_set_mem m s) in Hl, Hsz end.
    eapply wp_kfree_size; [exact Hok | exact Hl | exact Hsz |].
    intros s' Hs' Hr'. apply HQ; [done|]. rewrite mem_set_mem in Hr'. by etransitivity.
Qed.

Lemma wp_remove_node n lst l1 x vx l2 R s (Q : Z -> S -> Prop) :
  list_state n lst (l1 ++ (x, vx) :: l2) R s ->
  (forall s', list_state n lst (l1 ++ l2) R s' -> same_on (live R) (mem s) (mem s') -> Q vx s') ->
  wp (list_remove_node lst x) Q s.
Proof.
  intros Hst HQ. pose proof (list_at_node n lst l1 x vx l2 R s Hst) as Han.
  pose proof Han as [_ _ _ (_ & _ & Hv) (Hxa & Hla & Hxl) Hprev Hnext Hboth Hhd Hhd' [Htl Htl']].
  unfold list_remove_node. mstep. mstep. rewrite Hv.
  set (prv := ld32 (mem s) (n_prev x)) in *. assert (Hpx : ld32 (mem s) (n_prev x) = prv) by done. clearbody prv.
  set (nxt := ld32 (mem s) (n_next x)) in *. assert (Hnx : ld32 (mem s) (n_next x) = nxt) by done. clearbody nxt.
  mstep. mstep. destruct Hprev as [[-> ->]|(Hl1 & Hinp & Hpa & Hxp & Hlp)].
  { cbn [Z.eqb] in Hhd. rewrite Hhd, Z.eqb_refl. by eapply wp_remove_front. }
  unfold addr_ok in Hpa. rewrite (proj2 (Z.eqb_neq _ x)) by (apply Hhd'; lia). mstep. mstep.
  destruct Hnext as [[-> ->]|(Hl2 & Hinn & Hna & Hxn & Hln)].
  { rewrite Htl, Z.eqb_refl by done. rewrite app_nil_r in HQ. by eapply wp_remove_back. }
  unfold addr_ok in Hna. rewrite (proj2 (Z.eqb_neq _ x)) by (apply Htl'; lia).
  destruct Hboth as [?|[?|Hpn]]; [lia | lia |].
  flat. lsteps. rewrite Hnx, Hpx. lsteps. rewrite ?Hnx, ?Hpx. lsteps.
  simple apply (wp_bind_inv (add_size lst (-1)) (fun _ => kfree_op x;; mret vx)).
  match goal with |- wp _ _ (set_mem ?m _) =>
    destruct (unlink_done n lst l1 x vx l2 R s prv nxt m Han) as (Hok & HsR & Hl & Hsz) end;
    unfold_list; mem_simpl; rewrite ?(u32_small prv), ?(u32_small nxt) by lia; try done.
  - touch prv. touch nxt.
    apply touched_refl.
  - intros a Ha Hnp Hnn. mem_simpl. done.
  - by rewrite (proj2 (Z.eqb_neq prv 0)) by lia.
  - by rewrite (proj2 (Z.eqb_neq nxt 0)) by lia.
  - match goal with |- wp _ _ (set_mem ?m _) => rewrite <- (mem_set_mem m s) in Hl, Hsz end.
    eapply wp_size_kfree; [exact Hok | exact Hl | exact Hsz |].
    intros s' Hs' Hr'. apply HQ; [done|]. rewrite mem_set_mem in Hr'. by etransitivity.
Qed.

(** ** Searching *)

(** The first node of [l] with value [v], or NULL. *)
Fixpoint first_with (v : Z) (l : list (Z * Z)) : Z :=
  match l with
  | [] => 0
  | (n, w) :: l' => if w =? v then n else first_with v l'
  end.

(** The node at position [i] of [l], or NULL. *)
Definition node_at (i : nat) (l : list (Z * Z)) : Z := default 0 (fst <$> l !! i).

(** An entry of a list by its position. *)
Lemma node_at_some l i t v : l !! i = Some (t, v) -> node_at i l = t.
Proof. unfold node_at. by intros ->. Qed.

Lemma dl_seg_value_at m prev p q (l : list (Z * Z)) i t v : dl_seg m prev p q l -> l !! i = Some (t, v) -> ld32 m (n_value t) = v.
Proof.
  revert prev p i. induction l as [|[t' v'] l IH]; intros prev p i Hl Hi; [done|].
  destruct Hl as (_ & _ & Hv & Hl). destruct i as [|i]; simplify_eq/=; [done | by eapply IH].
Qed.

Definition nonnull (l : list (Z * Z)) : Prop := forall n v, (n, v) ∈ l -> n <> 0.

Lemma list_state_nonnull n lst l R s : list_state n lst l R s -> nonnull l.
Proof.
  intros [Hok _] m v Hin. apply (list_regions_in lst) in Hin.
  pose proof (heap_ok_addr n _ s m Hok ltac:(apply elem_of_app; by left)) as Ha. unfold addr_ok in Ha. lia.
Qed.

Lemma wp_contain_loop fuel prev p v l s (Q : Z -> S -> Prop) :
  dl_seg (mem s) prev p 0 l -> nonnull l -> (length l < fuel)%nat ->
  Q (first_with v l) s -> wp (contain_loop fuel p v) Q s.
Proof.
  revert prev p l. induction fuel as [|fuel IH]; intros prev p l Hl Hnz Hf HQ; [lia|]. cbn [contain_loop].
  destruct l as [|[n w] l]; simpl in *.
  - subst p. by msteps.
  - destruct Hl as (-> & _ & Hv & Hl). rewrite (proj2 (Z.eqb_neq n 0)) by (apply (Hnz n w); elem).
    msteps. rewrite Hv. destruct (w =? v); msteps; [done|]. eapply IH; [exact Hl | | lia | exact HQ].
    intros m u Hm. apply (Hnz m u). by right.
Qed.

Lemma wp_index_loop fuel prev p i c l s (Q : Z -> S -> Prop) :
  dl_seg (mem s) prev p 0 l -> nonnull l -> (length l < fuel)%nat ->
  0 <= c <= i -> c + Z.of_nat (length l) < 4294967296 -> i < 4294967296 ->
  Q (node_at (Z.to_nat (i - c)) l) s -> wp (index_loop fuel p i c) Q s.
Proof.
  revert prev p c l. induction fuel as [|fuel IH]; intros prev p c l Hl Hnz Hf Hc Hlen Hi HQ; [lia|].
  cbn [index_loop]. destruct l as [|[n w] l]; simpl in *.
  - subst p. msteps. exact HQ.
  - destruct Hl as (-> & _ & Hv & Hl). rewrite (proj2 (Z.eqb_neq n 0)) by (apply (Hnz n w); elem).
    destruct (Z.eqb_spec i c) as [->|Hne].
    + rewrite Z.sub_diag in HQ. by msteps.
    + msteps. rewrite u32_small by lia.
      eapply IH; [exact Hl | intros m u Hm; apply (Hnz m u); by right | lia | lia | lia | lia |].
      replace (Z.to_nat (i - c)) with (Datatypes.S (Z.to_nat (i - (c + 1)))) in HQ by lia. exact HQ.
Qed.

Lemma wp_get_node fuel n lst l R i s (Q : Z -> S -> Prop) :
  list_state n lst l R s -> (length l < fuel)%nat -> Z.of_nat (length l) < 4294967296 ->
  0 <= i < 4294967296 -> Q (node_at (Z.to_nat i) l) s -> wp (list_get_node_by_index fuel lst i) Q s.
Proof.
  intros Hst Hf Hlen Hi HQ. pose proof (list_state_nonnull _ _ _ _ _ Hst) as Hnz.
  pose proof Hst as [Hok [Hsz Hl _]].
  assert (Ha : addr_ok lst) by (eapply heap_ok_addr; [exact Hok|]; unfold list_regions; elem).
  unfold addr_ok in Ha. unfold list_get_node_by_index, list_size.
  rewrite (proj2 (Z.eqb_neq lst 0)) by lia. msteps. rewrite Hsz, u32_small by lia.
  destruct (Z.leb_spec (Z.of_nat (length l)) i).
  - msteps. unfold node_at in HQ. by rewrite lookup_ge_None_2 in HQ by lia.
  - msteps. eapply wp_index_loop; [exact Hl | exact Hnz | lia | lia | lia | lia |].
    by rewrite Z.sub_0_r.
Qed.

(** ** Destruction *)

Lemma wp_destroy_loop fuel n prev p l R s (Q : unit -> S -> Prop) :
  heap_ok n (nodes_of l ++ R) s -> dl_seg (mem s) prev p 0 l -> (length l < fuel)%nat ->
  (forall s', heap_ok n R s' -> same_on (live R) (mem s) (mem s') -> Q tt s') ->
  wp (destroy_loop fuel p) Q s.
Proof.
  revert prev p l s. induction fuel as [|fuel IH]; intros prev p l s Hok Hl Hf HQ; [lia|].
  cbn [destroy_loop]. destruct l as [|[m w] l]; simpl in *.
  - subst p. msteps. by apply HQ.
  - destruct Hl as (-> & _ & _ & Hl).
    assert (Ha : addr_ok m) by (eapply heap_ok_addr; [exact Hok | elem]). unfold addr_ok in Ha.
    rewrite (proj2 (Z.eqb_neq m 0)) by lia. msteps.
    eapply wp_kfree; [exact Hok|]. intros s1 Hok1 Hs1.
    apply same_on_live_app in Hs1 as [Hs1 HsR].
    eapply IH; [exact Hok1 | eapply dl_seg_same; [exact Hs1 | exact Hl] | lia |].
    intros s' Hok' Hs'. apply HQ; [done|]. by etransitivity.
Qed.

Lemma wp_list_destroy fuel n lst l R s (Q : unit -> S -> Prop) :
  list_state n lst l R s -> (length l < fuel)%nat ->
  (forall s', heap_ok n R s' -> same_on (live R) (mem s) (mem s') -> Q tt s') ->
  wp (list_destroy fuel lst) Q s.
Proof.
  intros [Hok [_ Hl _]] Hf HQ. unfold list_destroy. msteps.
  eapply (wp_destroy_loop _ _ _ _ _ ((lst, 12) :: R)); [| exact Hl | exact Hf |].
  { eapply heap_ok_permute; [|exact Hok]. apply Permutation_middle. }
  intros s1 Hok1 Hs1. eapply wp_kfree; [exact Hok1|]. intros s2 Hok2 Hs2. apply HQ; [done|].
  etransitivity; [|exact Hs2]. eapply same_on_weaken; [exact Hs1|]. intros a Ha. apply live_cons. by right.
Qed.

(** ** Removing the only node from the back *)

Lemma wp_remove_back_last n lst x vx R s (Q : Z -> S -> Prop) :
  list_state n lst [(x, vx)] R s ->
  (forall s', heap_ok n ((lst, 12) :: R) s' -> ld32 (mem s') (l_head lst) = x ->
     ld32 (mem s') (l_tail lst) = 0 -> ld32 (mem s') (l_size lst) = 0 -> Q vx s') ->
  wp (list_remove_back lst) Q s.
Proof.
  intros Hst HQ. pose proof (list_at_node n lst [] x vx [] R s Hst) as Han.
  pose proof Han as [Hok _ Hsz (_ & _ & Hv) (Hxa & Hla & Hxl) [[Hp0 _]|[? _]] [[Hn0 _]|[? _]] _ Hhd _ [Htl _]];
    [| done..].
  specialize (Htl Hn0). rewrite Hp0, Hn0 in *. cbn [Z.eqb] in Hhd. simpl in Hsz.
  unfold list_remove_back. flat.
  lsteps. rewrite Hhd, (proj2 (Z.eqb_neq x 0)) by lia. lsteps. rewrite Htl. lsteps.
  rewrite Hv, Hp0. change (u32 0) with 0. lsteps.
  simple apply (wp_bind_inv (kfree_op x) (fun _ => add_size lst (-1);; mret vx)).
  match goal with |- wp _ _ (set_mem ?m _) => assert (Ht : touched (list_regions lst []) (mem s) m) end.
  { touch lst. apply touched_refl. }
  assert (Hok' : heap_ok n (list_regions lst [] ++ (x, 12) :: R) s)
    by (eapply heap_ok_permute; [|exact Hok]; apply perm_swap).
  destruct (heap_ok_touched _ _ _ _ _ Hok' Ht) as [Hok1 _].
  wp_step. eapply wp_kfree; [eapply heap_ok_permute; [|exact Hok1]; apply perm_swap|].
  intros s1 Hok2 Hs1. apply (same_on_live_app (list_regions lst []) R) in Hs1 as [Hs1 _].
  destruct (list_words_same _ _ _ _ Hs1) as (_ & Hh1 & Ht1 & Hz1). unfold_list.
  rewrite mem_set_mem in Hh1, Ht1, Hz1. mem_simpl in Hh1. mem_simpl in Ht1. mem_simpl in Hz1.
  unfold add_size. lsteps. rewrite Hz1, Hsz.
  match goal with |- Q _ (set_mem ?m _) => destruct (heap_ok_touched n [(lst, 12)] R s1 m) as [Hok3 _] end;
    [exact Hok2 | touch lst; apply touched_refl |].
  apply HQ; [exact Hok3 | unfold_list; rewrite mem_set_mem; mem_simpl; try done; lia ..].
Qed.
(** Stores to other live regions leave a list alone. *)
Lemma list_state_write n lst l R s m :
  list_state n lst l R s -> touched R (mem s) m -> list_state n lst l R (set_mem m s).
Proof.
  intros [Hok Hdl] Ht. assert (Hok' : heap_ok n (R ++ list_regions lst l) s)
    by (eapply heap_ok_permute; [apply Permutation_app_comm | exact Hok]).
  destruct (heap_ok_touched _ _ _ _ _ Hok' Ht) as [Hok2 Hs]. split.
  - eapply heap_ok_permute; [apply Permutation_app_comm | exact Hok2].
  - rewrite mem_set_mem. by eapply dlist_same.
Qed.

Lemma heap_ok_apart_in n L R s r r' : heap_ok n (L ++ R) s -> r ∈ R -> r' ∈ R -> r <> r' -> apart r r'.
Proof. intros Hok. eapply separate_elem, separate_skip, heap_ok_separate. exact Hok. Qed.

(** A zeroed object is an empty list. *)
Lemma dlist_zeroed m p : (forall a, p <= a < p + 12 -> ld8 m a = 0) -> dlist m p [].
Proof.
  intros Hz. assert (Hw : forall a, p <= a -> a + 4 <= p + 12 -> ld32 m a = 0)
    by (intros a Ha1 Ha2; apply ld32_zero; intros b Hb; apply Hz; lia).
  unfold_list. split; unfold_list; [by rewrite Hw by lia | cbn [dl_seg]; by rewrite Hw by lia | done].
Qed.

(** A new list is empty. *)
Lemma wp_list_create n L s (Q : Z -> S -> Prop) :
  heap_ok (Datatypes.S n) L s ->
  (forall lst s', list_state n lst [] L s' -> same_on (live L) (mem s) (mem s') -> Q lst s') -> wp list_create Q s.
Proof.
  intros Hok HQ. unfold list_create. eapply wp_kcalloc; [exact Hok | done | done | done |].
  intros p s' Hok' Hz Hs. apply HQ; [|exact Hs]. split; [exact Hok' | by apply dlist_zeroed].
Qed.
End list_specs.

(** ** The routines of list.c *)

Section list_theorems.
Context {S : Type} `{MemLaws S} `{!Allocator S} `{!CallocLaws S}.

(** [list_insert_front] returns a new node and puts its value in front of
    any well-formed list, the empty one included (there it also stores to
    address 0); no other live object changes. *)
Theorem list_insert_front_cons n lst l R v s :
  list_state (Datatypes.S n) lst l R s -> 0 <= v < 4294967296 ->
  exists t s', list_insert_front lst v s = Done (t, s') /\
    list_state n lst ((t, v) :: l) R s' /\ same_on (live R) (mem s) (mem s').
Proof. intros Hst Hv. apply wp_run. eapply wp_insert_front; [exact Hst | exact Hv | done]. Qed.

(** [list_insert_back] appends its value, provided that an empty list has
    no stale tail pointer. *)
Theorem list_insert_back_snoc n lst l R v s :
  list_state (Datatypes.S n) lst l R s -> (l = [] -> ld32 (mem s) (l_tail lst) = 0) ->
  0 <= v < 4294967296 ->
  exists t s', list_insert_back lst v s = Done (t, s') /\
    list_state n lst (l ++ [(t, v)]) R s' /\ same_on (live R) (mem s) (mem s').
Proof. intros Hst Hf Hv. apply wp_run. eapply wp_insert_back; [exact Hst | exact Hf | exact Hv | done]. Qed.

(** [list_get_node_by_index] returns the node at a position of the list,
    or NULL beyond its end, and changes nothing. *)
Theorem list_get_node_lookup fuel n lst l R i s :
  list_state n lst l R s -> (length l < fuel)%nat -> Z.of_nat (length l) < 4294967296 ->
  0 <= i < 4294967296 ->
  list_get_node_by_index fuel lst i s = Done (node_at (Z.to_nat i) l, s).
Proof. intros Hst Hf Hl Hi. apply wp_done_inv. eapply wp_get_node; [exact Hst | exact Hf | exact Hl | exact Hi | done]. Qed.

(** [list_contain] returns the first node that holds the value, or NULL
    when no node does, and changes nothing. *)
Theorem list_contain_first fuel n lst l R v s :
  list_state n lst l R s -> (length l < fuel)%nat ->
  list_contain fuel lst v s = Done (first_with v l, s).
Proof.
  intros Hst Hf. apply wp_done_inv. unfold list_contain. msteps.
  pose proof (list_state_nonnull _ _ _ _ _ Hst). destruct Hst as [_ [_ Hl _]].
  eapply wp_contain_loop; [exact Hl | done | exact Hf | done].
Qed.

Context `{!KfreeLaws S}.


(** [list_remove_back] on a list of one node releases the node but leaves
    the head pointer on it, while the size says the list is empty. *)
Theorem list_remove_back_dangling n lst x vx R s :
  list_state n lst [(x, vx)] R s ->
  exists s', list_remove_back lst s = Done (vx, s') /\
    heap_ok n ((lst, 12) :: R) s' /\ ld32 (mem s') (l_size lst) = 0 /\
    ld32 (mem s') (l_head lst) = x /\ x <> 0.
Proof.
  intros Hst. assert (Hx : x <> 0) by (apply (list_state_nonnull _ _ _ _ _ Hst x vx); elem).
  apply wp_value. eapply wp_remove_back_last; [exact Hst | done].
Qed.

(** [list_destroy] terminates and releases every node and the list
    object; the other live objects are unchanged. *)
Theorem list_destroy_releases fuel n lst l R s :
  list_state n lst l R s -> (length l < fuel)%nat ->
  exists s', list_destroy fuel lst s = Done (tt, s') /\
    heap_ok n R s' /\ same_on (live R) (mem s) (mem s').
Proof. intros Hst Hf. apply wp_unit. eapply wp_list_destroy; [exact Hst | exact Hf | done]. Qed.
End list_theorems.
