(* ===== verification/ListMerge.v ===== *)
(** * Appending one list to another: list_merge of utils/dsa/list.c *)

From S2P Require Export Dlist.

(** Runs a load or a store, reading through the stores before it. *)
Ltac merge_step := first [ progress (rewrite ?mem_set_mem, ?set_mem_set_mem) | progress mem_simpl | mstep ].

(** Decides a branch on a null pointer. *)
Ltac merge_branch :=
  match goal with |- context [if negb (?x =? 0) then _ else _] =>
    first [rewrite (proj2 (Z.eqb_eq x 0)) by tauto | rewrite (proj2 (Z.eqb_neq x 0)) by tauto]; cbn [negb] end.

(** The end pointers of a list are null exactly when it is empty. *)
Lemma ends_null m lst l : dlist_full m lst l -> nonnull l ->
  (ld32 m (l_head lst) = 0 <-> l = []) /\ (ld32 m (l_tail lst) = 0 <-> l = []).
Proof.
  intros [[_ Hn Ht] Hf] Hnn. destruct (decide (l = [])) as [->|Hl]; [split; split; auto|].
  split; split; intros He; try done; exfalso.
  - destruct (first_in _ _ _ _ _ Hn Hl) as [v Hv]. by apply (Hnn _ v Hv).
  - destruct (last_node_in 0 l Hl) as [v Hv]. apply (Hnn _ v Hv). by rewrite <- Ht.
Qed.

Section merge.
Context {S : Type} `{MemLaws S} `{!Allocator S} `{!CallocLaws S} `{!KfreeLaws S}.
Context (n : nat) (t u : Z) (l1 l2 : list (Z * Z)) (R : list region).

(** The nodes where the two lists meet. *)
Definition last_of_target : Z := last_node 0 l1.
Definition first_of_source (m : memory) : Z := ld32 m (l_head u).

(** The memory after the stores. *)
Record merged (m m' : memory) : Prop := {
  mg_rest b : ~ (t <= b < t + 12) -> (l1 <> [] -> ~ (n_next last_of_target <= b < n_next last_of_target + 4)) ->
    (l2 <> [] -> ~ (n_prev (first_of_source m) <= b < n_prev (first_of_source m) + 4)) -> ld8 m' b = ld8 m b;
  mg_prev : l2 <> [] -> ld32 m' (n_prev (first_of_source m)) = last_of_target;
  mg_next : l1 <> [] -> ld32 m' (n_next last_of_target) = first_of_source m;
  mg_head : ld32 m' (l_head t) = if decide (l1 = []) then first_of_source m else ld32 m (l_head t);
  mg_tail : ld32 m' (l_tail t) = if decide (l2 = []) then ld32 m (l_tail t) else ld32 m (l_tail u);
  mg_size : ld32 m' (l_size t) = ld32 m (l_size t) +32 ld32 m (l_size u);
}.

(** The two lists of the heap. *)
Record two_lists (s : S) : Prop := {
  tl_heap : heap_ok n (list_regions t l1 ++ list_regions u l2 ++ R) s;
  tl_target : dlist_full (mem s) t l1;
  tl_source : dlist_full (mem s) u l2;
}.

(** The objects that the stores reach. *)
Lemma two_lists_apart s : two_lists s ->
  (addr_ok t /\ addr_ok u /\ apart12 t u) /\
  (l1 <> [] -> addr_ok last_of_target /\ apart12 t last_of_target /\ apart12 u last_of_target) /\
  (l2 <> [] -> addr_ok (first_of_source (mem s)) /\ apart12 t (first_of_source (mem s)) /\ apart12 u (first_of_source (mem s)) /\
     (l1 <> [] -> apart12 last_of_target (first_of_source (mem s)))).
Proof.
  intros [Hok _ [[_ Hn2 _] _]]. pose proof (heap_ok_separate _ _ _ Hok) as Hsep.
  assert (Ht : (t, 12) ∈ list_regions t l1) by (unfold list_regions; elem).
  assert (Hu : (u, 12) ∈ list_regions u l2 ++ R) by (unfold list_regions; elem).
  assert (Hlast : l1 <> [] -> (last_of_target, 12) ∈ nodes_of l1).
  { intros Hne. destruct (last_node_in 0 l1 Hne) as [v Hv]. by apply (in_nodes l1 (last_of_target, v)). }
  assert (Hfirst : l2 <> [] -> (first_of_source (mem s), 12) ∈ nodes_of l2).
  { intros Hne. destruct (first_in _ _ _ _ _ Hn2 Hne) as [v Hv]. by apply (in_nodes l2 (first_of_source (mem s), v)). }
  assert (Haddr : forall x, (x, 12) ∈ list_regions t l1 ++ list_regions u l2 ++ R -> addr_ok x) by (intros x Hx; by eapply heap_ok_addr).
  assert (Hcross : forall x y, (x, 12) ∈ list_regions t l1 -> (y, 12) ∈ list_regions u l2 ++ R -> apart12 x y)
    by (intros x y Hx Hy; by apply (separate_app _ _ (x, 12) (y, 12) Hsep)).
  assert (Hin1 : forall x, x ∈ nodes_of l1 -> x ∈ list_regions t l1) by (intros x Hx; by right).
  assert (Hin2 : forall x, x ∈ nodes_of l2 -> x ∈ list_regions u l2 ++ R) by (intros x Hx; apply elem_of_app; left; by right).
  assert (Hsep2 : separate (list_regions u l2)) by (by eapply separate_take, separate_skip).
  split_and!; [apply Haddr; elem | apply Haddr; apply elem_of_app; by right | by apply Hcross | |].
  - intros Hne. specialize (Hlast Hne). split_and!.
    + apply Haddr, elem_of_app. left. auto.
    + apply separate_take in Hsep as [Hs _]. exact (Hs _ Hlast).
    + destruct (Hcross last_of_target u); [by apply Hin1 | exact Hu | by right | by left].
  - intros Hne. specialize (Hfirst Hne). split_and!.
    + apply Haddr, elem_of_app. right. auto.
    + apply Hcross; auto.
    + destruct Hsep2 as [Hs _]. exact (Hs _ Hfirst).
    + intros Hne1. apply Hcross; auto.
Qed.

(** The stores of [list_merge]. *)
Lemma wp_merge_stores s (Q : unit -> S -> Prop) :
  two_lists s ->
  (forall m, merged (mem s) m -> wp (kfree_op u) Q (set_mem m s)) -> wp (list_merge t u) Q s.
Proof.
  intros Htl HQ. destruct (two_lists_apart s Htl) as ((Ht & Hu & Htu) & Hl1 & Hl2). pose proof Htl as [Hok Hd1 Hd2].
  assert (Hnn : nonnull l1 /\ nonnull l2).
  { split; intros x v Hx; (enough (4 <= x) by lia); apply (heap_ok_start _ _ _ (x, 12) Hok), elem_of_app;
      [left | right; apply elem_of_app; left]; by eapply list_regions_in. }
  destruct (ends_null _ _ _ Hd1 (proj1 Hnn)) as [Hh1 Ht1]. destruct (ends_null _ _ _ Hd2 (proj2 Hnn)) as [Hh2 Ht2].
  destruct Hd1 as [[_ _ Htl1] _]. destruct Hd2 as [[_ _ Htl2] _].
  unfold list_merge, add_size, first_of_source, last_of_target, addr_ok, apart12 in *. unfold_list.
  destruct (decide (l1 = [])) as [E1|E1], (decide (l2 = [])) as [E2|E2];
    repeat match goal with Hne : ?l <> [], Hx : ?l <> [] -> _ |- _ => specialize (Hx Hne) end.
  4: destruct Hl2 as (Hl2a & Hl2b & Hl2c & Hl12); specialize (Hl12 E1).
  3-4: rewrite Htl1 in *.
  all: repeat first [match goal with E : l1 <> [] |- _ => rewrite Htl1 end | merge_step | merge_branch].
  all: match goal with |- wp _ _ (set_mem ?m _) => apply (HQ m) end.
  all: split; unfold first_of_source, last_of_target; unfold_list.
  all: try (intros b Hb1 Hb2 Hb3; rewrite !ld8_st32_ne by (try specialize (Hb2 E1); try specialize (Hb3 E2); lia); done).
  all: rewrite ?(decide_True _ _ E1), ?(decide_False _ _ E1), ?(decide_True _ _ E2), ?(decide_False _ _ E2); try done; intros; mem_simpl; try done.
  all: rewrite ?u32_idemp; try done; rewrite u32_small; try done; try apply ld32_range; try lia; try congruence.
  all: rewrite (proj2 Ht1 E1), E1; done.
Qed.

(** They join the two sequences of nodes. *)
Lemma merged_list s m : two_lists s -> merged (mem s) m -> dlist_full m t (l1 ++ l2).
Proof.
  intros Htl [Hrest Hprev Hnext Hhead Htail Hsize]. pose proof (two_lists_apart s Htl) as ((Ht & _ & _) & Hl1 & Hl2).
  pose proof Htl as [Hok [[Hs1 Hn1 Ht1] Hf1] [[Hs2 Hn2 Ht2] Hf2]]. pose proof (heap_ok_separate _ _ _ Hok) as Hsep.
  assert (Hsep1 : separate (nodes_of l1)) by (by destruct (separate_take _ _ Hsep)).
  assert (Hsep2 : separate (nodes_of l2)) by (by destruct (separate_take _ _ (separate_skip _ _ Hsep))).
  assert (Hcross : forall r r', r ∈ (t, 12) :: nodes_of l1 -> r' ∈ nodes_of l2 -> apart r r').
  { intros r r' Hr Hr'. eapply separate_app; [exact Hsep | exact Hr | apply elem_of_app; left; by right]. }
  assert (Htn : forall r, r ∈ nodes_of l1 -> apart (t, 12) r) by (by destruct (separate_take _ _ Hsep)).
  unfold first_of_source, last_of_target in *.
  assert (Hb1 : forall b, live (nodes_of l1) b -> (l1 <> [] -> ~ (n_next (last_node 0 l1) <= b < n_next (last_node 0 l1) + 4)) -> ld8 m b = ld8 (mem s) b).
  { intros b (r & Hr & Hb) Hne. pose proof (Htn r Hr) as Hap. apply Hrest; [unfold apart, disjoint, in_region in *; simpl in *; lia | exact Hne |].
    intros Hl2n. destruct (first_in _ _ _ _ _ Hn2 Hl2n) as [w Hw]. pose proof (Hcross r _ ltac:(by right) (in_nodes _ _ Hw)) as Hap2.
    unfold apart, disjoint, in_region in *. unfold_list. simpl in *. lia. }
  assert (Hb2 : forall b, live (nodes_of l2) b -> ~ (n_prev (ld32 (mem s) (l_head u)) <= b < n_prev (ld32 (mem s) (l_head u)) + 4) -> ld8 m b = ld8 (mem s) b).
  { intros b (r & Hr & Hb) Hne. pose proof (Hcross _ r ltac:(left) Hr) as Hap. apply Hrest; [unfold apart, disjoint, in_region in *; simpl in *; lia | | done].
    intros Hl1n. destruct (last_node_in 0 l1 Hl1n) as [w Hw]. pose proof (Hcross _ r ltac:(right; exact (in_nodes _ _ Hw)) Hr) as Hap2.
    unfold apart, disjoint, in_region in *. unfold_list. simpl in *. lia. }
  assert (Hseg2 : dl_seg m (last_node 0 l1) (ld32 (mem s) (l_head u)) 0 l2) by (by eapply dl_relink_front).
  assert (Hseg : dl_seg m 0 (ld32 m (l_head t)) 0 (l1 ++ l2)).
  { apply dl_seg_app. exists (ld32 (mem s) (l_head u)). split; [|exact Hseg2]. rewrite Hhead.
    destruct l1 as [|[e ve] l0 _] using rev_ind; [by rewrite decide_True|]. rewrite decide_False by (by destruct l0). rewrite last_node_snoc in *.
    eapply dl_relink_back; [exact Hn1 | exact Hsep1 | | apply Hnext; by destruct l0].
    intros b Hb Hne. by apply Hb1. }
  split; [split|].
  - rewrite Hsize, Hs1, Hs2, length_app. rewrite u32_add_l, u32_add_r. f_equal. lia.
  - exact Hseg.
  - intros _. rewrite Htail, last_node_app. destruct (decide (l2 = [])) as [->|E2].
    + destruct (decide (l1 = [])) as [->|E1]; [by apply Hf1 | by apply Ht1].
    + rewrite Ht2 by done. unfold last_node. by destruct (last l2) eqn:He; [|apply last_None in He].
  - intros [-> ->]%app_nil. rewrite Htail, decide_True by done. by apply Hf1.
Qed.

Lemma merged_touched s m : two_lists s -> merged (mem s) m -> touched ((t, 12) :: nodes_of l1 ++ nodes_of l2) (mem s) m.
Proof.
  intros Htl [Hrest _ _ _ _ _] b Hb _. pose proof Htl as [_ _ [[_ Hn2 _] _]]. apply Hrest.
  - intros Hc. apply Hb, live_cons. by left.
  - intros Hne Hc. destruct (last_node_in 0 l1 Hne) as [w Hw]. apply Hb, (live_in (last_node 0 l1, 12)).
    + right. apply elem_of_app. left. exact (in_nodes _ _ Hw).
    + unfold in_region, last_of_target in *. unfold_list. simpl. lia.
  - intros Hne Hc. destruct (first_in _ _ _ _ _ Hn2 Hne) as [w Hw]. apply Hb, (live_in (ld32 (mem s) (l_head u), 12)).
    + right. apply elem_of_app. right. exact (in_nodes _ _ Hw).
    + unfold in_region, first_of_source in *. unfold_list. simpl. lia.
Qed.

Lemma wp_list_merge s (Q : unit -> S -> Prop) :
  two_lists s ->
  (forall s', list_state n t (l1 ++ l2) R s' -> dlist_full (mem s') t (l1 ++ l2) -> same_on (live R) (mem s) (mem s') -> Q tt s') ->
  wp (list_merge t u) Q s.
Proof.
  intros Htl HQ. apply wp_merge_stores; [exact Htl|]. intros m Hm. pose proof (merged_list s m Htl Hm) as Hd.
  assert (Hok : heap_ok n (((t, 12) :: nodes_of l1 ++ nodes_of l2) ++ (u, 12) :: R) s).
  { eapply heap_ok_permute; [|exact (tl_heap _ Htl)]. unfold list_regions, nodes_of. simpl. constructor. rewrite <- !(assoc_L (++)).
    apply Permutation_app_head. by rewrite <- Permutation_middle. }
  destruct (heap_ok_touched _ _ _ s m Hok (merged_touched s m Htl Hm)) as [Hok1 Hs1].
  eapply (wp_kfree n u 12 (((t, 12) :: nodes_of l1 ++ nodes_of l2) ++ R)).
  { eapply heap_ok_permute; [|exact Hok1]. symmetry. apply Permutation_middle. }
  rewrite mem_set_mem. intros s2 Hok2 Hs2. apply same_on_live_app in Hs2 as [HsL HsR].
  assert (Hlist : ((t, 12) :: nodes_of l1 ++ nodes_of l2) = list_regions t (l1 ++ l2)) by (unfold list_regions, nodes_of; by rewrite fmap_app).
  rewrite Hlist in *. destruct Hd as [Hd Hf].
  assert (Hd2 : dlist (mem s2) t (l1 ++ l2)) by (by eapply dlist_same).
  apply HQ; [by split | | ].
  - split; [exact Hd2|]. intros He. rewrite <- (Hf He). eapply ld32_same_on; [exact HsL|]. intros b Hb. apply (live_in (t, 12)); [by left|].
    unfold in_region. unfold_list. simpl. lia.
  - intros b Hb. rewrite (HsR b Hb). apply Hs1, live_cons. by right.
Qed.
End merge.

(** [list_merge] appends the nodes of the second list to the first one and releases the
    second list object, for lists with the end pointers of an empty list cleared; other
    live objects are unchanged. *)
Theorem list_merge_appends {S : Type} `{MemLaws S} `{!Allocator S} `{!CallocLaws S} `{!KfreeLaws S} n t u l1 l2 R s :
  two_lists n t u l1 l2 R s ->
  exists s', list_merge t u s = Done (tt, s') /\ list_state n t (l1 ++ l2) R s' /\ dlist_full (mem s') t (l1 ++ l2) /\
    same_on (live R) (mem s) (mem s').
Proof. intros Htl. apply wp_unit. by eapply wp_list_merge. Qed.

