(* ===== verification/Arena.v ===== *)
(** * A reference allocator

    A bump allocator over a memory that satisfies the contract of [Alloc]: it
    hands out consecutive zeroed regions and never reuses one.  It shows that
    the contract can be met together with [KfreeLaws], which the kernel heap
    does not meet (KheapAlloc.v), and it carries the concrete runs of the list
    routines. *)

From S2P Require Export Dlist.

Record arena := Arena { a_mem : memory; a_next : Z }.

#[export] Instance HasMem_arena : HasMem arena := {|
  mem := a_mem;
  set_mem m s := Arena m (a_next s);
|}.
#[export] Instance MemLaws_arena : MemLaws arena.
Proof. split; [done | by intros [] | done]. Qed.

(** [n] zero bytes from [p] on. *)
Definition zeroed (m : memory) (p : Z) (n : nat) : memory := st_bytes m p (replicate n 0).

Definition arena_kcalloc (num size : Z) : M arena Z := fun s =>
  Done (a_next s, Arena (zeroed (a_mem s) (a_next s) (Z.to_nat (num * size))) (a_next s + num * size)).

Definition arena_malloc (size : Z) : M arena Z := fun s =>
  Done (a_next s, Arena (a_mem s) (a_next s + size)).

(** The regions lie below [a_next], and there is room for [n] requests above. *)
Record arena_ok (n : nat) (L : list region) (s : arena) : Prop := {
  ao_start : 4 <= a_next s;
  ao_room : a_next s + SMALL * Z.of_nat n <= 4294967296;
  ao_separate : separate L;
  ao_regions r : r ∈ L -> 4 <= r.1 /\ r.1 + r.2 <= a_next s;
}.

#[export] Instance arena_allocator : Allocator arena := {|
  kcalloc_op := arena_kcalloc;
  malloc_op := arena_malloc;
  kmalloc_op := arena_malloc;
  kmalloc_a_op size := modify (fun s => Arena (a_mem s) ((a_next s + 4095) / 4096 * 4096));; arena_malloc size;
  kfree_op _ := mret tt;
  heap_ok := arena_ok;
|}.

Lemma zeroed_in m p n a : p <= a < p + Z.of_nat n -> ld8 (zeroed m p n) a = 0.
Proof.
  intros Ha. unfold zeroed. replace a with (p + Z.of_nat (Z.to_nat (a - p))) by lia.
  by rewrite (ld8_st_bytes_eq _ _ _ _ 0) by (apply lookup_replicate; lia).
Qed.

Lemma zeroed_out m p n a : a < p \/ p + Z.of_nat n <= a -> ld8 (zeroed m p n) a = ld8 m a.
Proof. intros Ha. apply ld8_st_bytes_ne. by rewrite length_replicate. Qed.

(** A new region above the others. *)
Lemma arena_ok_grow n k L s m size :
  arena_ok (k + n) L s -> 0 < size <= SMALL * Z.of_nat k ->
  arena_ok n ((a_next s, size) :: L) (Arena m (a_next s + size)).
Proof.
  intros [H1 H2 H3 H4] Hs. unfold SMALL in *. split; cbn [a_next]; [lia | unfold SMALL; lia | |].
  - split; [|done]. intros r Hr. destruct (H4 r Hr). unfold apart, disjoint. simpl. lia.
  - intros r [->|Hr]%elem_of_cons; simpl; [lia|]. destruct (H4 r Hr). lia.
Qed.

#[export] Instance arena_calloc_laws : CallocLaws arena.
Proof.
  split.
  - intros n L s r [H1 H2 _ Hr] Hin. destruct (Hr r Hin). unfold SMALL in *. lia.
  - by intros n L s [].
  - intros n L L' s HP [H1 H2 H3 H4]. split; [done | done | by eapply separate_permute |].
    intros r Hr. apply H4. by rewrite HP.
  - intros n L s m [] _. by split.
  - intros n L s num size Q Hok Hn Hs Hns HQ. unfold wp, kcalloc_op, arena_allocator, arena_kcalloc.
    assert (Hpos : 0 < num * size) by lia. apply HQ.
    + apply (arena_ok_grow n 1); [exact Hok | lia].
    + intros a Ha. apply zeroed_in. lia.
    + intros a (r & Hr & Ha). destruct (ao_regions _ _ _ Hok r Hr). unfold in_region in Ha. apply zeroed_out. lia.
  - intros n L s size Q Hok Hs HQ. unfold wp, malloc_op, arena_allocator, arena_malloc.
    apply HQ; [|done]. apply (arena_ok_grow n 1); [exact Hok | lia].
Qed.

Lemma room_for size : 0 < size -> size <= SMALL * Z.of_nat (Z.to_nat ((size + SMALL - 1) / SMALL)).
Proof. intros Hs. unfold SMALL. rewrite Z2Nat.id by (apply Z.div_pos; lia). Z.div_mod_to_equations. lia. Qed.

#[export] Instance arena_kmalloc_laws : KmallocLaws arena.
Proof.
  split.
  - intros n L s size Q Hok Hs HQ. unfold wp, kmalloc_op, arena_allocator, arena_malloc.
    apply HQ; [|done]. eapply arena_ok_grow; [exact Hok|]. pose proof (room_for size Hs). lia.
  - intros n L s num size Q Hok Hn Hs HQ. unfold wp, kcalloc_op, arena_allocator, arena_kcalloc.
    assert (Hpos : 0 < num * size) by lia. apply HQ.
    + eapply arena_ok_grow; [exact Hok|]. pose proof (room_for _ Hpos). lia.
    + intros a Ha. apply zeroed_in. lia.
    + intros a (r & Hr & Ha). destruct (ao_regions _ _ _ Hok r Hr). unfold in_region in Ha. apply zeroed_out. lia.
Qed.

#[export] Instance arena_kfree_laws : KfreeLaws arena.
Proof.
  split. intros n p k L s Q [H1 H2 H3 H4] HQ. cbn. apply HQ; [|done].
  split; [done | done | by destruct H3 |]. intros r Hr. apply H4. by right.
Qed.
