(* ===== verification/CString.v ===== *)
(** * utils/string.c: memory and string routines

    The seven routines of [string.c] over any state with a memory, and their
    correctness: bulk copy and fill against the bytes they leave in memory,
    the [str*] routines against the byte list of a C string ([cstr]). *)

From S2P Require Export Memory.

(** [cstr m p bs]: a NUL-terminated string at [p] whose characters are [bs]. *)
Fixpoint cstr (m : memory) (p : Z) (bs : list Z) : Prop :=
  match bs with
  | [] => ld8 m p = 0
  | b :: bs' => ld8 m p = b /\ b <> 0 /\ cstr m (p + 1) bs'
  end.

(** The order [strcmp] decides: bytewise lexicographic, as -1, 0 or 1. *)
Fixpoint lex (xs ys : list Z) : Z :=
  match xs, ys with
  | [], [] => 0
  | [], _ :: _ => -1
  | _ :: _, [] => 1
  | x :: xs', y :: ys' => if x =? y then lex xs' ys' else if x <? y then -1 else 1
  end.

Section string_c.
Context {S : Type} `{HasMem S}.

Fixpoint memcmp_loop (len : nat) (p q : Z) : M S Z :=
  match len with
  | O => mret 0
  | Datatypes.S len' =>
      x ← load32 p;
      y ← load32 q;
      if x =? y then memcmp_loop len' (p + 4) (q + 4)
      else mret (if y <? x then 1 else -1)
  end.

(** [len] is a signed [int]: the loop runs [max 0 len] times. *)
Definition memcmp (s1 s2 len : Z) : M S Z :=
  if s1 =? s2 then mret 0 else memcmp_loop (Z.to_nat len) s1 s2.

(** [cld; rep movsb] *)
Fixpoint rep_movsb (count : nat) (src dest : Z) : M S unit :=
  match count with
  | O => mret tt
  | Datatypes.S count' =>
      b ← load8 src;
      store8 dest b;;
      rep_movsb count' (src + 1) (dest + 1)
  end.

(** [dest] is an in-out operand of the inline assembly, so the value that
    [return dest] yields is the destination index after the copy. *)
Definition memcpy (dest src count : Z) : M S Z :=
  rep_movsb (Z.to_nat count) src dest;;
  mret (dest + count).

Fixpoint memset_loop (n : nat) (su uc : Z) : M S unit :=
  match n with
  | O => mret tt
  | Datatypes.S n' => store8 su uc;; memset_loop n' (su + 1) uc
  end.

Definition memset (s c n : Z) : M S Z :=
  memset_loop (Z.to_nat n) s (u8 c);;
  mret s.

Fixpoint strcmp (fuel : nat) (str1 str2 : Z) : M S Z :=
  match fuel with
  | O => out_of_fuel
  | Datatypes.S fuel' =>
      x ← load8 str1;
      y ← load8 str2;
      if x =? y then
        if x =? 0 then mret 0 else strcmp fuel' (str1 + 1) (str2 + 1)
      else mret (if x <? y then -1 else 1)
  end.

Fixpoint strlen_loop (fuel : nat) (str i : Z) : M S Z :=
  match fuel with
  | O => out_of_fuel
  | Datatypes.S fuel' =>
      c ← load8 (str + i);
      if c =? 0 then mret i else strlen_loop fuel' str (i + 1)
  end.

Definition strlen (fuel : nat) (str : Z) : M S Z := strlen_loop fuel str 0.

(** The length goes through an [int] and back to [size_t] as the count of
    [memcpy]. *)
Definition strcpy (fuel : nat) (str1 str2 : Z) : M S Z :=
  len ← strlen fuel str2;
  memcpy str1 str2 (u32 (s32 len + 1));;
  mret str1.

(** [while (i++ != n && ( *dst++ = *src++ ));] with [k] the number [n - i] of
    characters that may still be copied. *)
Fixpoint strncpy_loop (k : nat) (dst src : Z) : M S Z :=
  match k with
  | O => mret dst
  | Datatypes.S k' =>
      c ← load8 src;
      store8 dst c;;
      if c =? 0 then mret (dst + 1) else strncpy_loop k' (dst + 1) (src + 1)
  end.

Definition strncpy (dst src n : Z) : M S Z := strncpy_loop (Z.to_nat n) dst src.
End string_c.

(** ** Strings in memory *)

Lemma cstr_nonzero m p bs : cstr m p bs -> Forall (fun b => 0 < b < 256) bs.
Proof.
  revert p. induction bs as [|b bs IH]; intros p Hs; constructor.
  - destruct Hs as (Hb & Hb0 & _). pose proof (ld8_range m p). lia.
  - destruct Hs as (_ & _ & Hs). eauto.
Qed.

Lemma cstr_lookup m p bs i b : cstr m p bs -> bs !! i = Some b -> ld8 m (p + Z.of_nat i) = b.
Proof.
  revert p i. induction bs as [|c bs IH]; intros p i Hs Hi; [done|].
  destruct Hs as (Hc & _ & Hs). destruct i as [|i]; simplify_eq/=.
  - by rewrite Z.add_0_r.
  - replace (p + Z.of_nat (S i)) with (p + 1 + Z.of_nat i) by lia. eauto.
Qed.

Lemma cstr_end m p bs : cstr m p bs -> ld8 m (p + Z.of_nat (length bs)) = 0.
Proof.
  revert p. induction bs as [|c bs IH]; intros p Hs; simpl in *.
  - by rewrite Z.add_0_r.
  - destruct Hs as (_ & _ & Hs).
    replace (p + Z.of_nat (S (length bs))) with (p + 1 + Z.of_nat (length bs)) by lia. eauto.
Qed.

Lemma cstr_intro m p bs :
  Forall (fun b => b <> 0) bs ->
  (forall i b, bs !! i = Some b -> ld8 m (p + Z.of_nat i) = b) ->
  ld8 m (p + Z.of_nat (length bs)) = 0 ->
  cstr m p bs.
Proof.
  revert p. induction bs as [|c bs IH]; intros p Hnz Hb He; simpl in *.
  - by rewrite Z.add_0_r in He.
  - inversion_clear Hnz. split_and!; [|done|].
    + specialize (Hb 0%nat c eq_refl). by rewrite Z.add_0_r in Hb.
    + apply IH; [done | |].
      * intros i b Hi. specialize (Hb (S i) b Hi).
        by replace (p + 1 + Z.of_nat i) with (p + Z.of_nat (S i)) by lia.
      * by replace (p + 1 + Z.of_nat (length bs)) with (p + Z.of_nat (S (length bs))) by lia.
Qed.

(** A string depends only on its own bytes. *)
Lemma cstr_same m m' p bs :
  cstr m p bs ->
  (forall a, p <= a <= p + Z.of_nat (length bs) -> ld8 m' a = ld8 m a) ->
  cstr m' p bs.
Proof.
  intros Hs Hm. pose proof (cstr_nonzero _ _ _ Hs) as Hnz.
  apply cstr_intro.
  - eapply Forall_impl; [done|]. intros; simpl in *; lia.
  - intros i b Hi. pose proof (lookup_lt_Some _ _ _ Hi).
    rewrite Hm by lia. by eapply cstr_lookup.
  - rewrite Hm by lia. by apply cstr_end.
Qed.

(** Two readings of the string at one address agree. *)
Lemma cstr_unique m p xs ys : cstr m p xs -> cstr m p ys -> xs = ys.
Proof.
  revert p ys. induction xs as [|x xs IH]; intros p [|y ys]; simpl; intros Hx Hy.
  - done.
  - destruct Hy as (? & ? & _). congruence.
  - destruct Hx as (? & ? & _). congruence.
  - destruct Hx as (<- & _ & Hx), Hy as (<- & _ & Hy). f_equal. eauto.
Qed.

#[export] Instance cstr_proper : Proper (mem_eq ==> eq ==> eq ==> iff) cstr.
Proof.
  intros m m' H p q -> bs bs' ->. split; intros Hs; eapply cstr_same; eauto.
Qed.

Lemma lex_eq xs ys : lex xs ys = 0 <-> xs = ys.
Proof.
  revert ys. induction xs as [|x xs IH]; intros [|y ys]; simpl; try (split; congruence || lia).
  destruct (Z.eqb_spec x y) as [->|Hne].
  - rewrite IH. split; [by intros -> | by intros [=]].
  - split; [by destruct (x <? y) | by intros [= ->]].
Qed.

Lemma lex_antisym xs ys : lex ys xs = - lex xs ys.
Proof.
  revert ys. induction xs as [|x xs IH]; intros [|y ys]; simpl; try done.
  rewrite (Z.eqb_sym y x). destruct (Z.eqb_spec x y) as [->|Hne]; [apply IH|].
  destruct (Z.ltb_spec x y), (Z.ltb_spec y x); lia.
Qed.

(** ** The routines *)

(** [m'] is [m] with the [n] bytes from [dest] on replaced by [f 0 .. f (n-1)]. *)
Definition filled (m m' : memory) (dest n : Z) (f : Z -> Z) : Prop :=
  (forall i, 0 <= i < n -> ld8 m' (dest + i) = f i) /\
  (forall a, a < dest \/ dest + n <= a -> ld8 m' a = ld8 m a).

Lemma filled_0 m dest f : filled m m dest 0 f.
Proof. split; [lia | done]. Qed.

(** One byte in front of a filled range. *)
Lemma filled_cons m m' dest n f v :
  0 <= n -> u8 v = f 0 ->
  filled (st8 m dest v) m' (dest + 1) n (fun i => f (i + 1)) ->
  filled m m' dest (n + 1) f.
Proof.
  intros Hn Hv [Hin Hout]. split.
  - intros i Hi. destruct (decide (i = 0)) as [->|].
    + rewrite Z.add_0_r, Hout, ld8_st8_eq by lia. done.
    + replace (dest + i) with (dest + 1 + (i - 1)) by lia.
      rewrite Hin by lia. f_equal. lia.
  - intros a Ha. rewrite Hout, ld8_st8_ne by lia. done.
Qed.

Lemma filled_ext m m' dest n f g :
  (forall i, 0 <= i < n -> f i = g i) -> filled m m' dest n f -> filled m m' dest n g.
Proof. intros Hfg [Hin Hout]. split; [|done]. intros i Hi. by rewrite Hin, Hfg. Qed.

Lemma filled_same_on (P : Z -> Prop) m m' dest n f :
  filled m m' dest n f -> (forall a, dest <= a < dest + n -> ~ P a) -> same_on P m m'.
Proof.
  intros [_ Hout] HP a Ha. apply Hout.
  destruct (decide (dest <= a < dest + n)) as [Hr|]; [by destruct (HP a Hr) | lia].
Qed.

Section string_specs.
Context {S : Type} `{MemLaws S}.

Lemma wp_memset_loop n su uc (Q : unit -> S -> Prop) s :
  (forall m', filled (mem s) m' su (Z.of_nat n) (fun _ => u8 uc) -> Q tt (set_mem m' s)) ->
  wp (memset_loop n su uc) Q s.
Proof.
  revert su s. induction n as [|n IH]; intros su s HQ; simpl.
  - mstep. rewrite <- (set_mem_mem s). apply HQ, filled_0.
  - msteps. apply IH. intros m' Hm'. mem_simpl in Hm'. mem_simpl. apply HQ.
    replace (Z.of_nat (Datatypes.S n)) with (Z.of_nat n + 1) by lia.
    eapply (filled_cons _ _ _ _ _ uc); [lia | done | exact Hm'].
Qed.

(** A forward copy is exact when the destination does not start inside the
    source. *)
Lemma wp_rep_movsb n src dest (Q : unit -> S -> Prop) s :
  dest <= src \/ src + Z.of_nat n <= dest ->
  (forall m', filled (mem s) m' dest (Z.of_nat n) (fun i => ld8 (mem s) (src + i)) ->
     Q tt (set_mem m' s)) ->
  wp (rep_movsb n src dest) Q s.
Proof.
  revert src dest s. induction n as [|n IH]; intros src dest s Hd HQ; simpl.
  - mstep. rewrite <- (set_mem_mem s). apply HQ, filled_0.
  - msteps. apply IH; [lia|]. intros m' Hm'. mem_simpl in Hm'. mem_simpl. apply HQ.
    replace (Z.of_nat (Datatypes.S n)) with (Z.of_nat n + 1) by lia.
    eapply (filled_cons _ _ _ _ _ (ld8 (mem s) src)); [lia | |].
    + rewrite Z.add_0_r. apply u8_small, ld8_range.
    + eapply filled_ext; [|done]. intros i Hi. cbn beta.
      rewrite ld8_st8_ne by lia. f_equal. lia.
Qed.

Lemma wp_memcpy dest src n (Q : Z -> S -> Prop) s :
  0 <= n -> dest <= src \/ src + n <= dest ->
  (forall m', filled (mem s) m' dest n (fun i => ld8 (mem s) (src + i)) ->
     Q (dest + n) (set_mem m' s)) ->
  wp (memcpy dest src n) Q s.
Proof.
  intros Hn Hd HQ. unfold memcpy. mstep. apply wp_rep_movsb; [lia|].
  rewrite Z2Nat.id by done. intros m' Hm'. mstep. by apply HQ.
Qed.

Lemma wp_memset p c n (Q : Z -> S -> Prop) s :
  0 <= n ->
  (forall m', filled (mem s) m' p n (fun _ => u8 c) -> Q p (set_mem m' s)) ->
  wp (memset p c n) Q s.
Proof.
  intros Hn HQ. unfold memset. mstep. apply wp_memset_loop.
  rewrite Z2Nat.id by done. intros m' Hm'. mstep. apply HQ.
  eapply filled_ext; [|done]. intros. cbn beta. apply u8_small, u8_range.
Qed.

Lemma wp_strlen_loop fuel str i bs (Q : Z -> S -> Prop) s :
  cstr (mem s) (str + i) bs -> (length bs < fuel)%nat ->
  Q (i + Z.of_nat (length bs)) s -> wp (strlen_loop fuel str i) Q s.
Proof.
  revert i bs. induction fuel as [|fuel IH]; intros i bs Hs Hf HQ; [lia|].
  simpl. msteps. destruct bs as [|b bs]; simpl in *.
  - rewrite Hs. simpl. mstep. by rewrite Z.add_0_r in HQ.
  - destruct Hs as (-> & Hb & Hs). rewrite (proj2 (Z.eqb_neq _ _)) by done.
    apply (IH _ bs); [|lia|].
    + by replace (str + (i + 1)) with (str + i + 1) by lia.
    + by replace (i + 1 + Z.of_nat (length bs))
        with (i + Z.of_nat (Datatypes.S (length bs))) by lia.
Qed.

Lemma wp_strlen fuel str bs (Q : Z -> S -> Prop) s :
  cstr (mem s) str bs -> (length bs < fuel)%nat ->
  Q (Z.of_nat (length bs)) s -> wp (strlen fuel str) Q s.
Proof. intros. eapply wp_strlen_loop; [by rewrite Z.add_0_r | done | done]. Qed.

Lemma wp_strcmp fuel p q xs ys (Q : Z -> S -> Prop) s :
  cstr (mem s) p xs -> cstr (mem s) q ys -> (length xs < fuel)%nat ->
  Q (lex xs ys) s -> wp (strcmp fuel p q) Q s.
Proof.
  revert p q xs ys. induction fuel as [|fuel IH]; intros p q xs ys Hp Hq Hf HQ; [lia|].
  pose proof (cstr_nonzero _ _ _ Hp) as Fx. pose proof (cstr_nonzero _ _ _ Hq) as Fy.
  simpl. msteps. destruct xs as [|x xs], ys as [|y ys]; simpl in *.
  - rewrite Hp, Hq. simpl. by mstep.
  - destruct Hq as (-> & Hy & _). rewrite Hp, (proj2 (Z.eqb_neq _ _)) by done.
    inversion_clear Fy. rewrite (proj2 (Z.ltb_lt _ _)) by lia. by mstep.
  - destruct Hp as (-> & Hx & _). rewrite Hq, (proj2 (Z.eqb_neq _ _)) by done.
    inversion_clear Fx. rewrite (proj2 (Z.ltb_ge _ _)) by lia. by mstep.
  - destruct Hp as (-> & Hx & Hp), Hq as (-> & Hy & Hq).
    destruct (Z.eqb_spec x y) as [->|Hne].
    + rewrite (proj2 (Z.eqb_neq _ _)) by done. apply (IH _ _ xs ys); [done | done | lia | done].
    + by mstep.
Qed.

Lemma wp_strcpy fuel dst src bs (Q : Z -> S -> Prop) s :
  cstr (mem s) src bs -> (length bs < fuel)%nat ->
  Z.of_nat (length bs) + 1 < 2147483648 ->
  dst <= src \/ src + Z.of_nat (length bs) + 1 <= dst ->
  (forall m', cstr m' dst bs ->
     filled (mem s) m' dst (Z.of_nat (length bs) + 1) (fun i => ld8 (mem s) (src + i)) ->
     Q dst (set_mem m' s)) ->
  wp (strcpy fuel dst src) Q s.
Proof.
  intros Hs Hf Hlen Hd HQ. unfold strcpy. mstep. eapply wp_strlen; [done..|].
  replace (u32 (s32 (Z.of_nat (length bs)) + 1)) with (Z.of_nat (length bs) + 1)
    by (unfold s32; rewrite (u32_small (Z.of_nat _)) by lia;
        rewrite (proj2 (Z.ltb_lt _ _)) by lia; rewrite u32_small; lia).
  mstep. apply wp_memcpy; [lia | lia |]. intros m' Hm'. mstep. apply HQ; [|done].
  destruct Hm' as [Hin _]. apply cstr_intro.
  - eapply Forall_impl; [by eapply cstr_nonzero|]. simpl. lia.
  - intros i b Hi. pose proof (lookup_lt_Some _ _ _ Hi).
    rewrite Hin by lia. by eapply cstr_lookup.
  - rewrite Hin by lia. by apply cstr_end.
Qed.
End string_specs.

Section string_theorems.
Context {S : Type} `{MemLaws S}.

(** [strcpy] between buffers that do not overlap copies the string and its
    terminator and no other byte; [strcmp] then orders the copy against any
    string as the bytewise lexicographic order does, and finds it equal to the
    original. *)
Theorem strcpy_strcmp fuel dst src bs s :
  let n := Z.of_nat (length bs) + 1 in
  cstr (mem s) src bs -> (length bs < fuel)%nat -> n < 2147483648 -> disjoint dst n src n ->
  exists s', strcpy fuel dst src s = Done (dst, s') /\ cstr (mem s') dst bs /\
    (forall a, a < dst \/ dst + n <= a -> ld8 (mem s') a = ld8 (mem s) a) /\
    strcmp fuel dst src s' = Done (0, s') /\
    (forall q ys, cstr (mem s') q ys -> strcmp fuel dst q s' = Done (lex bs ys, s')).
Proof.
  intros n Hs Hf Hn Hd. unfold disjoint, n in *.
  assert (Hwp : wp (strcpy fuel dst src) (fun r s' => r = dst /\ cstr (mem s') dst bs /\
    (forall a, a < dst \/ dst + n <= a -> ld8 (mem s') a = ld8 (mem s) a)) s).
  { eapply wp_strcpy; [exact Hs | exact Hf | exact Hn | lia |]. intros m' Hc [_ Ho].
    rewrite mem_set_mem. split_and!; [done | exact Hc | exact Ho]. }
  apply wp_value in Hwp as (s' & Hrun & Hc & Ho). exists s'.
  assert (Hcmp : forall q ys, cstr (mem s') q ys -> strcmp fuel dst q s' = Done (lex bs ys, s')).
  { intros q ys Hq. apply wp_done_inv. eapply wp_strcmp; [exact Hc | exact Hq | exact Hf | done]. }
  split_and!; [exact Hrun | exact Hc | exact Ho | | exact Hcmp].
  rewrite (Hcmp src bs).
  - by rewrite (proj2 (lex_eq bs bs) eq_refl).
  - eapply cstr_same; [exact Hs|]. intros a Ha. apply Ho. unfold n. lia.
Qed.
End string_theorems.
