(* ===== verification/Machine.v ===== *)
(** * The state of the memory subsystem

    One record holds what [pmm.c], [vmm.c] and [kheap.c] share: the memory the
    kernel addresses, the globals of the three files and the messages written
    to the console.  The addresses the linker script defines are the fields of
    the class [Linker]. *)

From S2P Require Export CString.

(** ** Constants of include/system.h *)

Definition KERN_BASE : Z := 0xc0000000.
Definition USER_BASE : Z := 0x10000000.
Definition K : Z := 1024.
Definition Mb : Z := K * K.

(** [align_to] and [divide_up] on [uint32_t]. *)
Definition align_to (n align : Z) : Z :=
  if n mod align =? 0 then n else n +32 (align - n mod align).
Definition divide_up (n d : Z) : Z :=
  if n mod d =? 0 then n / d else 1 +32 n / d.

(** The macros on [uint32_t] operands. *)
Definition ALIGN_DOWN (val a : Z) : Z := Z.land val (u32 (Z.lnot (a -32 1))).
Definition ALIGN_UP (val a : Z) : Z := Z.land (val +32 (a -32 1)) (u32 (Z.lnot (a -32 1))).
Definition MIN (a b : Z) : Z := if a <? b then a else b.
Definition MAX (a b : Z) : Z := if b <? a then a else b.

(** Symbols of linker.ld and entry.asm. *)
Class Linker := {
  kernel_end_phys : Z;
  kernel_end_virt : Z;
  boot_page_dir : Z;
}.

(** ** Console messages and interrupt handlers *)

Inductive status := LOG_OK | LOG_ERR | LOG_WARN.

(** A call of [klog] or [kprintf], with its format string. *)
Inductive event :=
  | Klog (st : status) (fmt : string)
  | Kprintf (fmt : string).

(** ** Globals *)

(** memory/pmm.c *)
Record pmm_globals := Pmm {
  max_blocks : Z;
  used_blocks : Z;
  mem_size : Z;
  bitmap_addr : Z;
  pmm_bitmap : Z;
  pmm_bitmap_size : Z;
}.

(** memory/vmm.c, with the control registers of the processor it writes. *)
Record vmm_globals := Vmm {
  temp_mem : Z;
  paging_enabled : Z;
  kernel_page_dir : Z;
  current_page_dir : Z;
  cr0 : Z;
  cr3 : Z;
  cr4 : Z;
}.

(** memory/kheap.c *)
Record heap_globals := Heap {
  heap_head : Z;
  heap_tail : Z;
  freelist : Z;
  heap_start : Z;
  heap_end : Z;
  heap_curr : Z;
  heap_max : Z;
  kheap_enabled : Z;
  placement_address : Z;
}.

(** [interrupt_handlers] of cpu/isr.c is a map from vectors to the C symbol of
    the installed handler. *)
Record kernel := Kernel {
  k_mem : memory;
  k_log : list event;
  k_isr : gmap Z string;
  pmm : pmm_globals;
  vmm : vmm_globals;
  heap : heap_globals;
}.

#[export] Instance status_eq_dec : EqDecision status.
Proof. solve_decision. Defined.
#[export] Instance event_eq_dec : EqDecision event.
Proof. solve_decision. Defined.

(** ** Updates *)

Definition upd_pmm (f : pmm_globals -> pmm_globals) (k : kernel) : kernel :=
  Kernel (k_mem k) (k_log k) (k_isr k) (f (pmm k)) (vmm k) (heap k).
Definition upd_vmm (f : vmm_globals -> vmm_globals) (k : kernel) : kernel :=
  Kernel (k_mem k) (k_log k) (k_isr k) (pmm k) (f (vmm k)) (heap k).
Definition upd_heap (f : heap_globals -> heap_globals) (k : kernel) : kernel :=
  Kernel (k_mem k) (k_log k) (k_isr k) (pmm k) (vmm k) (f (heap k)).
Definition upd_log (f : list event -> list event) (k : kernel) : kernel :=
  Kernel (k_mem k) (f (k_log k)) (k_isr k) (pmm k) (vmm k) (heap k).

Definition set_max_blocks v g := Pmm v (used_blocks g) (mem_size g) (bitmap_addr g) (pmm_bitmap g) (pmm_bitmap_size g).
Definition set_used_blocks v g := Pmm (max_blocks g) v (mem_size g) (bitmap_addr g) (pmm_bitmap g) (pmm_bitmap_size g).
Definition set_mem_size v g := Pmm (max_blocks g) (used_blocks g) v (bitmap_addr g) (pmm_bitmap g) (pmm_bitmap_size g).
Definition set_bitmap_addr v g := Pmm (max_blocks g) (used_blocks g) (mem_size g) v (pmm_bitmap g) (pmm_bitmap_size g).
Definition set_pmm_bitmap v g := Pmm (max_blocks g) (used_blocks g) (mem_size g) (bitmap_addr g) v (pmm_bitmap_size g).
Definition set_pmm_bitmap_size v g := Pmm (max_blocks g) (used_blocks g) (mem_size g) (bitmap_addr g) (pmm_bitmap g) v.

Definition set_temp_mem v g := Vmm v (paging_enabled g) (kernel_page_dir g) (current_page_dir g) (cr0 g) (cr3 g) (cr4 g).
Definition set_paging_enabled v g := Vmm (temp_mem g) v (kernel_page_dir g) (current_page_dir g) (cr0 g) (cr3 g) (cr4 g).
Definition set_kernel_page_dir v g := Vmm (temp_mem g) (paging_enabled g) v (current_page_dir g) (cr0 g) (cr3 g) (cr4 g).
Definition set_current_page_dir v g := Vmm (temp_mem g) (paging_enabled g) (kernel_page_dir g) v (cr0 g) (cr3 g) (cr4 g).
Definition set_cr0 v g := Vmm (temp_mem g) (paging_enabled g) (kernel_page_dir g) (current_page_dir g) v (cr3 g) (cr4 g).
Definition set_cr3 v g := Vmm (temp_mem g) (paging_enabled g) (kernel_page_dir g) (current_page_dir g) (cr0 g) v (cr4 g).
Definition set_cr4 v g := Vmm (temp_mem g) (paging_enabled g) (kernel_page_dir g) (current_page_dir g) (cr0 g) (cr3 g) v.

Definition set_heap_head v g := Heap v (heap_tail g) (freelist g) (heap_start g) (heap_end g) (heap_curr g) (heap_max g) (kheap_enabled g) (placement_address g).
Definition set_heap_tail v g := Heap (heap_head g) v (freelist g) (heap_start g) (heap_end g) (heap_curr g) (heap_max g) (kheap_enabled g) (placement_address g).
Definition set_freelist v g := Heap (heap_head g) (heap_tail g) v (heap_start g) (heap_end g) (heap_curr g) (heap_max g) (kheap_enabled g) (placement_address g).
Definition set_heap_end v g := Heap (heap_head g) (heap_tail g) (freelist g) (heap_start g) v (heap_curr g) (heap_max g) (kheap_enabled g) (placement_address g).
Definition set_heap_curr v g := Heap (heap_head g) (heap_tail g) (freelist g) (heap_start g) (heap_end g) v (heap_max g) (kheap_enabled g) (placement_address g).
Definition set_placement v g := Heap (heap_head g) (heap_tail g) (freelist g) (heap_start g) (heap_end g) (heap_curr g) (heap_max g) (kheap_enabled g) v.

#[export] Instance HasMem_kernel : HasMem kernel := {|
  mem := k_mem;
  set_mem m k := Kernel m (k_log k) (k_isr k) (pmm k) (vmm k) (heap k);
|}.

#[export] Instance MemLaws_kernel : MemLaws kernel.
Proof. split; [done | by intros [] | done]. Qed.

Definition klog (st : status) (fmt : string) : M kernel unit :=
  modify (upd_log (fun l => l ++ [Klog st fmt])).
Definition kprintf (fmt : string) : M kernel unit :=
  modify (upd_log (fun l => l ++ [Kprintf fmt])).

(** [int_install_handler] of cpu/isr.c; the vector is a [uint8_t]. *)
Definition int_install_handler (num : Z) (handler : string) : M kernel unit :=
  modify (fun k => Kernel (k_mem k) (k_log k) (<[u8 num := handler]> (k_isr k))
                     (pmm k) (vmm k) (heap k)).

(** The state after a message. *)
Definition logged (e : event) (k : kernel) : kernel := upd_log (fun l => l ++ [e]) k.

Lemma wp_klog st fmt (Q : unit -> kernel -> Prop) s :
  Q tt (logged (Klog st fmt) s) -> wp (klog st fmt) Q s.
Proof. done. Qed.

Lemma wp_kprintf fmt (Q : unit -> kernel -> Prop) s :
  Q tt (logged (Kprintf fmt) s) -> wp (kprintf fmt) Q s.
Proof. done. Qed.

(** Symbolic execution of kernel code. *)
Ltac kstep :=
  first
    [ mstep
    | lazymatch goal with
      | |- wp (klog _ _) _ _ => apply wp_klog
      | |- wp (kprintf _) _ _ => apply wp_kprintf
      end; cbn beta ].
Ltac ksteps := repeat kstep.

(** ** Alignment *)

Lemma align_to_aligned n a :
  0 < a -> 0 <= n -> n + a <= 4294967296 -> (align_to n a) mod a = 0.
Proof.
  intros Ha Hn Hb. unfold align_to. destruct (Z.eqb_spec (n mod a) 0); [done|].
  pose proof (Z.mod_pos_bound n a). rewrite u32_small by lia.
  replace (n + (a - n mod a)) with ((n / a + 1) * a)
    by (pose proof (Z.div_mod n a); lia).
  apply Z.mod_mul. lia.
Qed.

Lemma align_to_bounds n a :
  0 < a -> 0 <= n -> n + a <= 4294967296 -> n <= align_to n a < n + a.
Proof.
  intros Ha Hn Hb. unfold align_to. destruct (Z.eqb_spec (n mod a) 0); [lia|].
  pose proof (Z.mod_pos_bound n a). rewrite u32_small by lia. lia.
Qed.

Lemma MIN_min a b : MIN a b = Z.min a b.
Proof. unfold MIN. destruct (Z.ltb_spec a b); lia. Qed.

Lemma MAX_max a b : MAX a b = Z.max a b.
Proof. unfold MAX. destruct (Z.ltb_spec b a); lia. Qed.

Lemma ALIGN_DOWN_pow2 v k : 0 <= v < 4294967296 -> 0 <= k < 32 -> ALIGN_DOWN v (2 ^ k) = v - v mod 2 ^ k.
Proof.
  intros Hv Hk. unfold ALIGN_DOWN. assert (Hp : 0 < 2 ^ k <= 2 ^ 31) by (split; [lia | apply Z.pow_le_mono_r; lia]).
  change (2 ^ 31) with 2147483648 in Hp. rewrite (u32_small (2 ^ k - 1)) by lia.
  replace (2 ^ k - 1) with (Z.ones k) by (rewrite Z.ones_equiv; lia).
  transitivity (Z.ldiff v (Z.ones k)).
  - apply Z.bits_inj'. intros i Hi. rewrite Z.land_spec, Z.ldiff_spec.
    destruct (decide (i < 32)); [by rewrite testbit_u32, Z.lnot_spec by lia|]. by rewrite (testbit_high v 32) by (change (2 ^ 32) with 4294967296; lia).
  - rewrite Z.ldiff_ones_r, Z.shiftl_mul_pow2, Z.shiftr_div_pow2 by lia. pose proof (Z.div_mod v (2 ^ k)). lia.
Qed.

(** For powers of two the macro and the function agree. *)
Lemma ALIGN_UP_align_to v k : 0 <= k < 32 -> 0 <= v -> v + 2 ^ k <= 4294967296 -> ALIGN_UP v (2 ^ k) = align_to v (2 ^ k).
Proof.
  intros Hk Hv Hb. assert (Hp : 0 < 2 ^ k <= 2 ^ 31) by (split; [lia | apply Z.pow_le_mono_r; lia]).
  change (2 ^ 31) with 2147483648 in Hp. change (ALIGN_UP v (2 ^ k)) with (ALIGN_DOWN (v +32 (2 ^ k -32 1)) (2 ^ k)).
  rewrite (u32_small (2 ^ k - 1)), u32_small, ALIGN_DOWN_pow2 by lia. generalize dependent (2 ^ k). intros a Hb Ha.
  unfold align_to. pose proof (Z.mod_pos_bound v a ltac:(lia)) as Hm. pose proof (Z.div_mod v a ltac:(lia)) as Hd.
  destruct (Z.eqb_spec (v mod a) 0) as [H0|H0].
  - replace ((v + (a - 1)) mod a) with (a - 1); [lia|]. apply (Z.mod_unique_pos _ _ (v / a)); lia.
  - replace ((v + (a - 1)) mod a) with (v mod a - 1); [rewrite u32_small; lia|]. apply (Z.mod_unique_pos _ _ (v / a + 1)); lia.
Qed.
