(* ===== verification/Multiboot.v ===== *)
(** * multiboot2.c: the boot information tags

    The tag walk of [mboot2_find_tag] over memory, and the chain of tags it
    searches as an inductive predicate. *)

From S2P Require Export Machine.

Definition MBOOT2_TAG_END : Z := 0.
Definition MBOOT2_TAG_MODULE : Z := 3.
Definition MBOOT2_TAG_BASIC_MEMINFO : Z := 4.

(** Field addresses of the packed structures of include/multiboot2.h. *)
Definition tag_type (tag : Z) : Z := tag.
Definition tag_size (tag : Z) : Z := tag + 4.
Definition begin_tags (mb2 : Z) : Z := mb2 + 8.
Definition module_mod_end (tag : Z) : Z := tag + 12.
Definition meminfo_mem_lower (tag : Z) : Z := tag + 8.
Definition meminfo_mem_upper (tag : Z) : Z := tag + 12.

(** [tag + ((tag->size + 7) & ~7)] *)
Definition next_tag (tag size : Z) : Z :=
  tag +32 Z.land (size +32 7) 0xfffffff8.

Section multiboot.
Context {S : Type} `{HasMem S}.

Fixpoint find_tag_loop (fuel : nat) (tag tag_ty : Z) : M S Z :=
  match fuel with
  | O => out_of_fuel
  | Datatypes.S fuel' =>
      ty ← load32 (tag_type tag);
      if ty =? tag_ty then mret tag
      else
        size ← load32 (tag_size tag);
        prev_ty ← load32 (tag_type tag);
        if prev_ty =? MBOOT2_TAG_END then mret 0
        else find_tag_loop fuel' (next_tag tag size) tag_ty
  end.

Definition mboot2_find_tag (fuel : nat) (mb2 tag_ty : Z) : M S Z :=
  find_tag_loop fuel (begin_tags mb2) tag_ty.
End multiboot.

(** ** The tag chain *)

(** [tags m p l]: from [p] on, memory holds tags of the addresses and types in
    [l], the last one and no other being the end tag. *)
Inductive tags (m : memory) : Z -> list (Z * Z) -> Prop :=
  | tags_end p :
      ld32 m (tag_type p) = MBOOT2_TAG_END ->
      tags m p [(p, MBOOT2_TAG_END)]
  | tags_cons p l :
      ld32 m (tag_type p) <> MBOOT2_TAG_END ->
      tags m (next_tag p (ld32 m (tag_size p))) l ->
      tags m p ((p, ld32 m (tag_type p)) :: l).

(** The address of the first tag of a type in a chain, 0 when there is none. *)
Fixpoint first_tag (l : list (Z * Z)) (ty : Z) : Z :=
  match l with
  | [] => 0
  | (p, t) :: l' => if t =? ty then p else first_tag l' ty
  end.

Lemma wp_find_tag_loop {S} `{MemLaws S} fuel p l ty (Q : Z -> S -> Prop) s :
  tags (mem s) p l -> (length l <= fuel)%nat ->
  Q (first_tag l ty) s -> wp (find_tag_loop fuel p ty) Q s.
Proof.
  intros Hl. revert fuel. induction Hl as [p Hp | p l Hp Hl IH]; intros fuel Hf HQ;
    (destruct fuel as [|fuel]; cbn [length] in Hf; [lia|]);
    cbn [find_tag_loop]; cbn [first_tag] in HQ; msteps.
  - rewrite Hp. destruct (Z.eqb_spec MBOOT2_TAG_END ty); [by mstep|].
    msteps. rewrite Hp, Z.eqb_refl. by mstep.
  - destruct (Z.eqb_spec (ld32 (mem s) (tag_type p)) ty); [by mstep|]. msteps.
    rewrite (proj2 (Z.eqb_neq _ _)) by done. apply IH; [lia | done].
Qed.
