(* ===== verification/Pmm.v ===== *)
(** * memory/pmm.c: the physical memory manager

    A bitmap of 4096-byte blocks kept in memory at [pmm_bitmap]: set, unset,
    test, first free, allocate and free, and the initialisation from the boot
    information.  The invariant [pmm_inv] ties [used_blocks] to the number of
    set bits. *)

From S2P Require Export Multiboot.

Definition PMM_BLOCK_SIZE : Z := 4096.

(** ** The code *)

(** The address of [pmm_bitmap[bit / 32]]. *)
Definition bitmap_word (bitmap bit : Z) : Z := bitmap + 4 * (bit / 32).

Definition pmm_bitmap_set (bit : Z) : M kernel unit :=
  bm ← gets (fun k => pmm_bitmap (pmm k));
  w ← load32 (bitmap_word bm bit);
  store32 (bitmap_word bm bit) (Z.lor w (Z.shiftl 1 (bit mod 32)));;
  modify (upd_pmm (fun g => set_used_blocks (used_blocks g +32 1) g)).

Definition pmm_bitmap_unset (bit : Z) : M kernel unit :=
  bm ← gets (fun k => pmm_bitmap (pmm k));
  w ← load32 (bitmap_word bm bit);
  store32 (bitmap_word bm bit) (Z.ldiff w (Z.shiftl 1 (bit mod 32)));;
  modify (upd_pmm (fun g => set_used_blocks (used_blocks g -32 1) g)).

Definition pmm_bitmap_test (bit : Z) : M kernel Z :=
  bm ← gets (fun k => pmm_bitmap (pmm k));
  w ← load32 (bitmap_word bm bit);
  mret (Z.land w (Z.shiftl 1 (bit mod 32))).

(** The inner loop of [first_free_block]: the least [j' >= j] below [j + n]
    whose bit is clear in [w]. *)
Fixpoint first_clear (n : nat) (j w : Z) : option Z :=
  match n with
  | O => None
  | S n' => if Z.land w (Z.shiftl 1 j) =? 0 then Some j else first_clear n' (j + 1) w
  end.

Fixpoint first_free_loop (n : nat) (i : Z) : M kernel (option Z) :=
  match n with
  | O => mret None
  | S n' =>
      bm ← gets (fun k => pmm_bitmap (pmm k));
      w ← load32 (bm + 4 * i);
      if w =? 0xffffffff then first_free_loop n' (i + 1)
      else
        match first_clear 32 0 w with
        | Some j => mret (Some (i *32 32 +32 j))
        | None => first_free_loop n' (i + 1)
        end
  end.

Definition first_free_block : M kernel Z :=
  n ← gets (fun k => max_blocks (pmm k));
  r ← first_free_loop (Z.to_nat (n / 32)) 0;
  match r with
  | Some b => mret b
  | None => klog LOG_WARN "%s: running out of free blocks\n";; mret 0
  end.

Definition pmm_alloc_block : M kernel Z :=
  n ← gets (fun k => max_blocks (pmm k));
  used ← gets (fun k => used_blocks (pmm k));
  if (n -32 used) <=? 0 then
    klog LOG_WARN "%s: kernel out of physical memory\n";; mret 0
  else
    free_block ← first_free_block;
    pmm_bitmap_set free_block;;
    mret (free_block *32 PMM_BLOCK_SIZE).

Definition pmm_free_block (addr : Z) : M kernel unit :=
  pmm_bitmap_unset (addr / PMM_BLOCK_SIZE).

(** The [do ... while] of [pmm_init] that moves [bitmap_addr] to the end of the
    last boot module. *)
Fixpoint pmm_scan_modules (fuel : nat) (tag : Z) : M kernel unit :=
  match fuel with
  | O => out_of_fuel
  | S fuel' =>
      ty ← load32 (tag_type tag);
      (if ty =? MBOOT2_TAG_MODULE then
         mod_end ← load32 (module_mod_end tag);
         modify (upd_pmm (fun g => set_bitmap_addr (Z.max mod_end (bitmap_addr g)) g))
       else mret tt);;
      size ← load32 (tag_size tag);
      ty' ← load32 (tag_type (next_tag tag size));
      if ty' =? MBOOT2_TAG_END then mret tt
      else pmm_scan_modules fuel' (next_tag tag size)
  end.

Definition pmm_init `{Linker} (fuel : nat) (mb2 : Z) : M kernel unit :=
  pmm_scan_modules fuel (begin_tags mb2);;
  modify (upd_pmm (fun g =>
    if bitmap_addr g <? kernel_end_phys then set_bitmap_addr kernel_end_phys g else g));;
  addr ← gets (fun k => bitmap_addr (pmm k));
  (if (KERN_BASE +32 0x00400000) <? addr
   then panic "kernel is too large for initial 4mb idenity mapping\n"
   else mret tt);;
  meminfo ← mboot2_find_tag fuel mb2 MBOOT2_TAG_BASIC_MEMINFO;
  lower ← load32 (meminfo_mem_lower meminfo);
  kprintf "Low Memory size: %dkb\n";;
  upper ← load32 (meminfo_mem_upper meminfo);
  kprintf "High Memory size: %dkb\n";;
  modify (upd_pmm (set_mem_size ((lower +32 upper) *32 K)));;
  modify (upd_pmm (fun g => set_max_blocks (mem_size g / PMM_BLOCK_SIZE) g));;
  modify (upd_pmm (fun g => set_pmm_bitmap (align_to (bitmap_addr g +32 KERN_BASE) 4) g));;
  modify (upd_pmm (fun g => set_pmm_bitmap_size (max_blocks g / 8) g));;
  bm ← gets (fun k => pmm_bitmap (pmm k));
  size ← gets (fun k => pmm_bitmap_size (pmm k));
  memset bm 0 size;;
  klog LOG_OK "Physical Memory Manager initialized\n".

(** ** The bitmap *)

(** Block [b] is marked in the bitmap. *)
Definition blk_used (k : kernel) (b : Z) : bool :=
  Z.testbit (ld32 (mem k) (bitmap_word (pmm_bitmap (pmm k)) b)) (b mod 32).

(** The blocks [first_free_block] looks at: whole bitmap words only. *)
Definition scanned (k : kernel) : Z := 32 * (max_blocks (pmm k) / 32).

Definition used_count (k : kernel) : Z := countb (blk_used k) (Z.to_nat (scanned k)).

(** The bitmap lies in the address space and [used_blocks] counts its bits. *)
Record pmm_inv (k : kernel) : Prop := {
  inv_max : 0 <= max_blocks (pmm k) <= 1048576;
  inv_used : used_blocks (pmm k) = used_count k;
}.

(** The state after [pmm_bitmap_set b] and [pmm_bitmap_unset b]. *)
Definition set_block (b : Z) (k : kernel) : kernel :=
  let a := bitmap_word (pmm_bitmap (pmm k)) b in
  upd_pmm (fun g => set_used_blocks (used_blocks g +32 1) g)
    (set_mem (st32 (mem k) a (Z.lor (ld32 (mem k) a) (Z.shiftl 1 (b mod 32)))) k).
Definition unset_block (b : Z) (k : kernel) : kernel :=
  let a := bitmap_word (pmm_bitmap (pmm k)) b in
  upd_pmm (fun g => set_used_blocks (used_blocks g -32 1) g)
    (set_mem (st32 (mem k) a (Z.ldiff (ld32 (mem k) a) (Z.shiftl 1 (b mod 32)))) k).

Lemma pmm_bitmap_set_run b k : pmm_bitmap_set b k = Done (tt, set_block b k).
Proof. done. Qed.

Lemma pmm_bitmap_unset_run b k : pmm_bitmap_unset b k = Done (tt, unset_block b k).
Proof. done. Qed.

Lemma wp_pmm_bitmap_set b (Q : unit -> kernel -> Prop) k :
  Q tt (set_block b k) -> wp (pmm_bitmap_set b) Q k.
Proof. done. Qed.

(** What a store into the word of block [b] does to every block. *)
Lemma blk_used_store k b v b' g :
  0 <= b -> 0 <= b' -> pmm_bitmap (g (pmm k)) = pmm_bitmap (pmm k) ->
  blk_used (upd_pmm g (set_mem (st32 (mem k) (bitmap_word (pmm_bitmap (pmm k)) b) v) k)) b' =
    if b / 32 =? b' / 32 then Z.testbit v (b' mod 32) else blk_used k b'.
Proof.
  intros Hb Hb' Hg. unfold blk_used. simpl. rewrite Hg. unfold bitmap_word.
  destruct (Z.eqb_spec (b / 32) (b' / 32)) as [->|Hne].
  - rewrite ld32_st32_eq. apply testbit_u32. word_lia.
  - rewrite ld32_st32_ne; [done|]. unfold disjoint. lia.
Qed.

Lemma blk_used_set k b b' :
  0 <= b -> 0 <= b' -> blk_used (set_block b k) b' = (b' =? b) || blk_used k b'.
Proof.
  intros Hb Hb'. unfold set_block. rewrite blk_used_store by done.
  destruct (Z.eqb_spec (b / 32) (b' / 32)) as [He|Hne].
  - rewrite Z.lor_spec, testbit_bit by word_lia. unfold blk_used, bitmap_word.
    rewrite He, orb_comm. f_equal. word_lia.
  - by replace (b' =? b) with false by word_lia.
Qed.

Lemma blk_used_unset k b b' :
  0 <= b -> 0 <= b' -> blk_used (unset_block b k) b' = negb (b' =? b) && blk_used k b'.
Proof.
  intros Hb Hb'. unfold unset_block. rewrite blk_used_store by done.
  destruct (Z.eqb_spec (b / 32) (b' / 32)) as [He|Hne].
  - rewrite Z.ldiff_spec, testbit_bit by word_lia. unfold blk_used, bitmap_word.
    rewrite He, andb_comm. do 2 f_equal. word_lia.
  - by replace (b' =? b) with false by word_lia.
Qed.

Lemma scanned_range k : 0 <= max_blocks (pmm k) -> 0 <= scanned k <= max_blocks (pmm k).
Proof. intros. unfold scanned. word_lia. Qed.

Lemma used_count_range k :
  0 <= max_blocks (pmm k) -> 0 <= used_count k <= scanned k.
Proof.
  intros H. pose proof (scanned_range k H).
  pose proof (countb_range (blk_used k) (Z.to_nat (scanned k))). unfold used_count. lia.
Qed.

Lemma used_count_set k b :
  0 <= max_blocks (pmm k) -> 0 <= b < scanned k -> blk_used k b = false ->
  used_count (set_block b k) = used_count k + 1.
Proof.
  intros Hm Hb Hu. unfold used_count. change (scanned (set_block b k)) with (scanned k).
  apply (countb_flip _ _ _ b); [lia | done | |].
  - rewrite blk_used_set by lia. by rewrite Z.eqb_refl.
  - intros i Hi Hne. rewrite blk_used_set by lia. by replace (i =? b) with false by lia.
Qed.

Lemma used_count_unset k b :
  0 <= max_blocks (pmm k) -> 0 <= b < scanned k -> blk_used k b = true ->
  used_count (unset_block b k) = used_count k - 1.
Proof.
  intros Hm Hb Hu. unfold used_count. change (scanned (unset_block b k)) with (scanned k).
  enough (countb (blk_used k) (Z.to_nat (scanned k)) =
    countb (blk_used (unset_block b k)) (Z.to_nat (scanned k)) + 1) by lia.
  apply (countb_flip _ _ _ b); [lia | | done |].
  - rewrite blk_used_unset by lia. by rewrite Z.eqb_refl.
  - intros i Hi Hne. rewrite blk_used_unset by lia. by replace (i =? b) with false by lia.
Qed.

(** ** The search for a free block *)

Lemma first_clear_spec n j w :
  0 <= j ->
  match first_clear n j w with
  | Some r => j <= r < j + Z.of_nat n /\ Z.testbit w r = false /\
              forall i, j <= i < r -> Z.testbit w i = true
  | None => forall i, j <= i < j + Z.of_nat n -> Z.testbit w i = true
  end.
Proof.
  revert j. induction n as [|n IH]; intros j Hj; cbn [first_clear]; [lia|].
  rewrite land_bit_eqb by done. destruct (Z.testbit w j) eqn:Hb; cbn [negb].
  - specialize (IH (j + 1) ltac:(lia)). destruct (first_clear n (j + 1) w) as [r|].
    + destruct IH as (Hr & Hf & Ht). split_and!; [lia | lia | done |].
      intros i Hi. destruct (decide (i = j)) as [->|]; [done | apply Ht; lia].
    + intros i Hi. destruct (decide (i = j)) as [->|]; [done | apply IH; lia].
  - split_and!; [lia | lia | done | lia].
Qed.

Lemma testbit_all_ones i : 0 <= i < 32 -> Z.testbit 0xffffffff i = true.
Proof. intros. change 0xffffffff with (Z.ones 32). by apply Z.ones_spec_low. Qed.

(** The bits of word [i] are the blocks [32 i .. 32 i + 31]. *)
Lemma blk_used_word k i j :
  0 <= i -> 0 <= j < 32 ->
  blk_used k (32 * i + j) = Z.testbit (ld32 (mem k) (pmm_bitmap (pmm k) + 4 * i)) j.
Proof.
  intros Hi Hj. unfold blk_used, bitmap_word.
  replace ((32 * i + j) / 32) with i by word_lia.
  by replace ((32 * i + j) mod 32) with j by word_lia.
Qed.

Lemma wp_first_free_loop n i (Q : option Z -> kernel -> Prop) k :
  0 <= i -> 32 * (i + Z.of_nat n) <= 4294967296 ->
  (forall r,
    match r with
    | Some b => 32 * i <= b < 32 * (i + Z.of_nat n) /\ blk_used k b = false /\
                forall b', 32 * i <= b' < b -> blk_used k b' = true
    | None => forall b, 32 * i <= b < 32 * (i + Z.of_nat n) -> blk_used k b = true
    end -> Q r k) ->
  wp (first_free_loop n i) Q k.
Proof.
  revert i. induction n as [|n IH]; intros i Hi Hn HQ; cbn [first_free_loop]; msteps.
  { apply HQ. lia. }
  (* a full word is skipped *)
  assert (Hskip : (forall j, 0 <= j < 32 -> blk_used k (32 * i + j) = true) ->
    wp (first_free_loop n (i + 1)) Q k).
  { intros Hfull.
    assert (Hb : forall b, 32 * i <= b < 32 * (i + 1) -> blk_used k b = true).
    { intros b Hb. replace b with (32 * i + (b - 32 * i)) by lia. apply Hfull. lia. }
    apply IH; [lia | lia |]. intros [b|] Hr; apply HQ.
    - destruct Hr as (Hr & Hf & Ht). split_and!; [lia | lia | done |].
      intros b' Hb'. destruct (decide (b' < 32 * (i + 1))); [apply Hb | apply Ht]; lia.
    - intros b Hb'. destruct (decide (b < 32 * (i + 1))); [apply Hb | apply Hr]; lia. }
  destruct (Z.eqb_spec (ld32 (mem k) (pmm_bitmap (pmm k) + 4 * i)) 0xffffffff) as [He|Hne].
  { apply Hskip. intros j Hj. rewrite blk_used_word, He by lia. by apply testbit_all_ones. }
  pose proof (first_clear_spec 32 0 (ld32 (mem k) (pmm_bitmap (pmm k) + 4 * i)) ltac:(lia)) as Hc.
  destruct (first_clear 32 0 _) as [j|]; [|apply Hskip; intros j Hj; rewrite blk_used_word by lia; apply Hc; lia].
  destruct Hc as (Hj & Hf & Ht). msteps. apply HQ.
  rewrite u32_add_l, u32_small by lia. replace (i * 32) with (32 * i) by lia.
  split_and!; [lia | lia | |].
  - by rewrite blk_used_word by lia.
  - intros b' Hb'. replace b' with (32 * i + (b' - 32 * i)) by lia.
    rewrite blk_used_word by lia. apply Ht. lia.
Qed.

(** [b] is the least free block [first_free_block] can see. *)
Record lowest_free (k : kernel) (b : Z) : Prop := {
  lf_range : 0 <= b < scanned k;
  lf_free : blk_used k b = false;
  lf_least : forall b', 0 <= b' < b -> blk_used k b' = true;
}.

Lemma lowest_free_exists k :
  0 <= max_blocks (pmm k) -> used_count k < scanned k -> exists b, lowest_free k b.
Proof.
  intros Hm Hlt. pose proof (scanned_range k Hm).
  destruct (least_false (blk_used k) (Z.to_nat (scanned k))) as (b & Hb & Hf & Hl).
  { unfold used_count in Hlt. lia. }
  exists b. split; [lia | done | done].
Qed.

Lemma lowest_free_unique k b b' : lowest_free k b -> lowest_free k b' -> b = b'.
Proof.
  intros [H1 H2 H3] [H1' H2' H3']. destruct (Z.lt_trichotomy b b') as [Hlt|[He|Hlt]]; [|done|].
  - rewrite H3' in H2 by lia. done.
  - rewrite H3 in H2' by lia. done.
Qed.

Lemma wp_first_free_block k b (Q : Z -> kernel -> Prop) :
  0 <= max_blocks (pmm k) <= 1048576 -> lowest_free k b -> Q b k -> wp first_free_block Q k.
Proof.
  intros Hm [Hb Hf Hl] HQ. unfold scanned in Hb. unfold first_free_block. msteps.
  apply wp_first_free_loop; [lia | word_lia |]. rewrite Z.add_0_l, Z2Nat.id by word_lia.
  intros [b'|] Hr.
  - msteps. destruct Hr as (Hb' & Hf' & Hl').
    assert (b' = b) as ->; [|done]. apply (lowest_free_unique k).
    + split; [unfold scanned; lia | done | intros; apply Hl'; lia].
    + split; [unfold scanned; lia | done | done].
  - rewrite Hr in Hf by lia. done.
Qed.

Lemma wp_first_free_none k (Q : Z -> kernel -> Prop) :
  0 <= max_blocks (pmm k) <= 1048576 ->
  (forall b, 0 <= b < scanned k -> blk_used k b = true) ->
  Q 0 (logged (Klog LOG_WARN "%s: running out of free blocks\n") k) ->
  wp first_free_block Q k.
Proof.
  intros Hm Hfull HQ. unfold scanned in Hfull. unfold first_free_block. msteps.
  apply wp_first_free_loop; [lia | word_lia |]. rewrite Z.add_0_l, Z2Nat.id by word_lia.
  intros [b|] Hr; [|by ksteps]. destruct Hr as (Hb & Hf & _). rewrite Hfull in Hf by lia. done.
Qed.

(** ** Allocation and release *)

Lemma wp_pmm_alloc k b (Q : Z -> kernel -> Prop) :
  0 <= max_blocks (pmm k) <= 1048576 -> 0 <= used_blocks (pmm k) < max_blocks (pmm k) ->
  lowest_free k b ->
  Q (b * PMM_BLOCK_SIZE) (set_block b k) -> wp pmm_alloc_block Q k.
Proof.
  intros Hm Hu Hb HQ. unfold pmm_alloc_block. msteps.
  rewrite u32_small, (proj2 (Z.leb_gt _ _)) by lia. msteps.
  eapply wp_first_free_block; [done..|]. msteps. apply wp_pmm_bitmap_set. msteps.
  pose proof (lf_range _ _ Hb). pose proof (scanned_range k).
  unfold PMM_BLOCK_SIZE in *. by rewrite u32_small by lia.
Qed.

Lemma pmm_inv_set k b :
  pmm_inv k -> 0 <= b < scanned k -> blk_used k b = false -> pmm_inv (set_block b k).
Proof.
  intros [Hm Hu] Hb Hf. split; [done|]. rewrite used_count_set by (done || lia).
  simpl. pose proof (used_count_range k). pose proof (scanned_range k).
  rewrite Hu, u32_small by lia. done.
Qed.

Lemma pmm_inv_unset k b :
  pmm_inv k -> 0 <= b < scanned k -> blk_used k b = true -> pmm_inv (unset_block b k).
Proof.
  intros [Hm Hu] Hb Hf. split; [done|]. rewrite used_count_unset by (done || lia).
  simpl. pose proof (used_count_range k). pose proof (scanned_range k).
  assert (used_count (unset_block b k) = used_count k - 1)
    by (apply used_count_unset; done || lia).
  pose proof (used_count_range (unset_block b k)). simpl in *.
  rewrite Hu, u32_small by lia. done.
Qed.

Lemma wp_pmm_free addr (Q : unit -> kernel -> Prop) k :
  Q tt (unset_block (addr / PMM_BLOCK_SIZE) k) -> wp (pmm_free_block addr) Q k.
Proof. done. Qed.

(** Under the invariant the counter leaves room below [max_blocks] whenever a
    scanned block is free. *)
Lemma pmm_inv_free_block k :
  pmm_inv k -> used_blocks (pmm k) < scanned k ->
  0 <= used_blocks (pmm k) < max_blocks (pmm k) /\ exists b, lowest_free k b.
Proof.
  intros [Hm Hu] Hlt. pose proof (used_count_range k). pose proof (scanned_range k).
  split; [lia|]. apply lowest_free_exists; lia.
Qed.

(** C13: while a block of the bitmap is free, [pmm_alloc_block] returns the
    address of the lowest-numbered free block, marks that block and no other,
    and keeps [used_blocks] equal to the number of marked blocks. *)
Theorem pmm_alloc_lowest k :
  pmm_inv k -> used_blocks (pmm k) < scanned k ->
  exists b k',
    pmm_alloc_block k = Done (b * PMM_BLOCK_SIZE, k') /\
    lowest_free k b /\
    (forall b', 0 <= b' -> blk_used k' b' = (b' =? b) || blk_used k b') /\
    used_blocks (pmm k') = used_blocks (pmm k) + 1 /\
    pmm_inv k'.
Proof.
  intros Hinv Hlt. destruct (pmm_inv_free_block k Hinv Hlt) as [Hu (b & Hb)].
  exists b, (set_block b k). pose proof (lf_range _ _ Hb). pose proof (inv_max _ Hinv).
  split_and!.
  - apply wp_done_inv. by eapply wp_pmm_alloc.
  - done.
  - intros b' Hb'. apply blk_used_set; lia.
  - simpl. pose proof (scanned_range k). rewrite u32_small; lia.
  - apply pmm_inv_set; [done | done | apply Hb].
Qed.

(** when every scanned block is marked the allocator returns 0, which is
    also the address of block 0.  If [max_blocks] is a multiple of 32 only a
    message is logged; otherwise the guard of [pmm_alloc_block] lets the request
    through, block 0 is marked a second time and [used_blocks] no longer counts
    the marked blocks. *)
Theorem pmm_alloc_exhausted k :
  pmm_inv k -> used_blocks (pmm k) = scanned k ->
  exists k',
    pmm_alloc_block k = Done (0, k') /\
    (forall b, 0 <= b < scanned k -> blk_used k' b = true) /\
    if max_blocks (pmm k) mod 32 =? 0
    then k' = logged (Klog LOG_WARN "%s: kernel out of physical memory\n") k
    else used_blocks (pmm k') = used_blocks (pmm k) + 1 /\ ~ pmm_inv k'.
Proof.
  intros [Hm Hu] Hfull. pose proof (scanned_range k ltac:(lia)) as Hs.
  assert (Hall : forall b, 0 <= b < scanned k -> blk_used k b = true).
  { intros b Hb. apply (countb_full _ (Z.to_nat (scanned k))); [|lia].
    unfold used_count in Hu. lia. }
  destruct (Z.eqb_spec (max_blocks (pmm k) mod 32) 0) as [Hz|Hnz].
  - exists (logged (Klog LOG_WARN "%s: kernel out of physical memory\n") k). split_and!; [|done|done].
    apply wp_done_inv. unfold pmm_alloc_block. msteps.
    rewrite (proj2 (Z.leb_le _ _)) by (unfold scanned in *; word_lia). by ksteps.
  - assert (Hlt : scanned k < max_blocks (pmm k)) by (unfold scanned in *; word_lia).
    set (k1 := logged (Klog LOG_WARN "%s: running out of free blocks\n") k).
    exists (set_block 0 k1).
    assert (Hused : used_blocks (pmm (set_block 0 k1)) = used_blocks (pmm k) + 1)
      by (simpl; rewrite u32_small; lia).
    assert (Hcnt : used_count (set_block 0 k1) = used_count k).
    { apply countb_ext. intros b Hb. change (scanned (set_block 0 k1)) with (scanned k) in Hb.
      rewrite blk_used_set by lia. change (blk_used k1 b) with (blk_used k b).
      by rewrite Hall, orb_true_r by lia. }
    split_and!; [| |done|].
    + apply wp_done_inv. unfold pmm_alloc_block. msteps.
      rewrite u32_small, (proj2 (Z.leb_gt _ _)) by lia. msteps.
      apply wp_first_free_none; [done | done |]. msteps. apply wp_pmm_bitmap_set. by msteps.
    + intros b Hb. rewrite blk_used_set by lia. change (blk_used k1 b) with (blk_used k b).
      by rewrite Hall, orb_true_r by lia.
    + intros [_ Hbad]. lia.
Qed.

(** releasing the block an allocation returned restores the state of every
    block and the counter. *)
Theorem pmm_alloc_free_roundtrip k :
  pmm_inv k -> used_blocks (pmm k) < scanned k ->
  exists a k1 k2,
    pmm_alloc_block k = Done (a, k1) /\
    pmm_free_block a k1 = Done (tt, k2) /\
    (forall b, 0 <= b -> blk_used k2 b = blk_used k b) /\
    used_blocks (pmm k2) = used_blocks (pmm k) /\
    pmm_inv k2.
Proof.
  intros Hinv Hlt. destruct (pmm_inv_free_block k Hinv Hlt) as [Hu (b & Hb)].
  pose proof (lf_range _ _ Hb) as Hr. pose proof (inv_max _ Hinv). pose proof (scanned_range k).
  assert (Hused : forall b', 0 <= b' ->
    blk_used (unset_block b (set_block b k)) b' = blk_used k b').
  { intros b' Hb'. rewrite blk_used_unset, blk_used_set by lia.
    destruct (Z.eqb_spec b' b) as [->|]; [by rewrite (lf_free _ _ Hb) | done]. }
  exists (b * PMM_BLOCK_SIZE), (set_block b k), (unset_block b (set_block b k)). split_and!.
  - apply wp_done_inv. by eapply wp_pmm_alloc.
  - unfold pmm_free_block. unfold PMM_BLOCK_SIZE. rewrite Z.div_mul by done. done.
  - done.
  - simpl. rewrite (u32_small (_ + 1)), u32_small by lia. lia.
  - apply pmm_inv_unset; [|done|].
    + apply pmm_inv_set; [done | done | apply Hb].
    + rewrite blk_used_set by lia. by rewrite Z.eqb_refl.
Qed.

(** [pmm_free_block] clears exactly the bit of the block; the accounting
    invariant survives if and only if the block was marked, so releasing a
    block twice breaks it. *)
Theorem pmm_free_block_spec k addr :
  pmm_inv k -> 0 <= addr < scanned k * PMM_BLOCK_SIZE ->
  exists k',
    pmm_free_block addr k = Done (tt, k') /\
    (forall b, 0 <= b ->
       blk_used k' b = negb (b =? addr / PMM_BLOCK_SIZE) && blk_used k b) /\
    (pmm_inv k' <-> blk_used k (addr / PMM_BLOCK_SIZE) = true).
Proof.
  intros Hinv Ha. unfold PMM_BLOCK_SIZE in *. set (b := addr / 4096).
  assert (Hb : 0 <= b < scanned k) by (unfold b; word_lia).
  exists (unset_block b k). split_and!; [done | |].
  { intros b' Hb'. apply blk_used_unset; lia. }
  split; [|by apply pmm_inv_unset].
  destruct (blk_used k b) eqn:Hu; [done|]. intros [_ Hbad]. destruct Hinv as [Hm Hc].
  assert (Hsame : used_count (unset_block b k) = used_count k).
  { apply countb_ext. intros b' Hb'. rewrite blk_used_unset by lia.
    destruct (Z.eqb_spec b' b) as [->|]; [by rewrite Hu | done]. }
  rewrite Hsame, <- Hc in Hbad. simpl in Hbad.
  pose proof (used_count_range k). pose proof (scanned_range k). word_lia.
Qed.

(** ** Initialisation *)

(** The [bitmap_addr] the module scan computes over a chain of tags. *)
Fixpoint modules_end (m : memory) (l : list (Z * Z)) (acc : Z) : Z :=
  match l with
  | [] => acc
  | (p, t) :: l' =>
      modules_end m l' (if t =? MBOOT2_TAG_MODULE then Z.max (ld32 m (module_mod_end p)) acc else acc)
  end.

Lemma modules_end_ge m l acc : acc <= modules_end m l acc.
Proof.
  revert acc. induction l as [|[p t] l IH]; intros acc; simpl; [lia|].
  specialize (IH (if t =? MBOOT2_TAG_MODULE then Z.max (ld32 m (module_mod_end p)) acc else acc)).
  destruct (t =? MBOOT2_TAG_MODULE); lia.
Qed.

(** Every module of the chain ends below [modules_end]. *)
Lemma modules_end_module m l acc p :
  In (p, MBOOT2_TAG_MODULE) l -> ld32 m (module_mod_end p) <= modules_end m l acc.
Proof.
  revert acc. induction l as [|[q t] l IH]; intros acc; simpl; [done|].
  intros [[= -> ->]|Hin]; [|by apply IH]. simpl.
  etransitivity; [|apply modules_end_ge]. lia.
Qed.

(** Two commands that set the same global. *)
Definition with_bitmap_addr (v : Z) (k : kernel) : kernel := upd_pmm (set_bitmap_addr v) k.

Lemma wp_pmm_scan_modules fuel p l (Q : unit -> kernel -> Prop) k :
  tags (mem k) p l -> ld32 (mem k) (tag_type p) <> MBOOT2_TAG_END ->
  (length l <= fuel)%nat ->
  Q tt (with_bitmap_addr (modules_end (mem k) l (bitmap_addr (pmm k))) k) ->
  wp (pmm_scan_modules fuel p) Q k.
Proof.
  intros Hl. revert k Hl fuel. enough (Hgen : forall m p l, tags m p l ->
    forall k fuel, mem k = m -> ld32 m (tag_type p) <> MBOOT2_TAG_END ->
    (length l <= fuel)%nat ->
    Q tt (with_bitmap_addr (modules_end m l (bitmap_addr (pmm k))) k) ->
    wp (pmm_scan_modules fuel p) Q k) by eauto.
  clear. intros m p l Hl. induction Hl as [p Hp | p l Hp Hl IH]; intros k fuel Hk Hne Hf HQ; [done|].
  destruct fuel as [|fuel]; simpl in Hf; [lia|].
  cbn [pmm_scan_modules]; cbn [modules_end] in HQ. msteps. rewrite Hk.
  (* the two branches of the module test leave the same shape of state *)
  set (acc := if ld32 m (tag_type p) =? MBOOT2_TAG_MODULE
              then Z.max (ld32 m (module_mod_end p)) (bitmap_addr (pmm k))
              else bitmap_addr (pmm k)) in HQ.
  apply (wp_mono _ (fun _ k' => k' = with_bitmap_addr acc k)).
  { unfold acc, with_bitmap_addr. destruct (ld32 m (tag_type p) =? MBOOT2_TAG_MODULE); msteps.
    - rewrite Hk. done.
    - by destruct k as [? ? ? [] ? ?]. }
  intros [] k' ->. msteps. simpl. change (k_mem k) with (mem k). rewrite Hk.
  destruct (Z.eqb_spec (ld32 m (tag_type (next_tag p (ld32 m (tag_size p))))) MBOOT2_TAG_END) as [He|Hn].
  - msteps. inversion Hl; subst; [|congruence]. exact HQ.
  - apply IH; [done | done | lia | exact HQ].
Qed.

Section init.
Context `{Linker}.

(** Where [pmm_init] puts the bitmap, from the end of the last module. *)
Definition bitmap_base (mods_end : Z) : Z :=
  align_to (Z.max mods_end kernel_end_phys +32 KERN_BASE) 4.

(** C25: on a well-formed tag chain with a memory-information tag, [pmm_init]
    ends with every block of the bitmap free, [max_blocks] computed from the
    two memory sizes, the bitmap placed behind the kernel and its modules, and
    nothing written outside the bitmap; the accounting invariant holds. *)
Theorem pmm_init_establishes_inv fuel mb2 l k :
  let info := first_tag l MBOOT2_TAG_BASIC_MEMINFO in
  let mods := modules_end (mem k) l (bitmap_addr (pmm k)) in
  tags (mem k) (begin_tags mb2) l ->
  ld32 (mem k) (tag_type (begin_tags mb2)) <> MBOOT2_TAG_END ->
  (length l <= fuel)%nat ->
  used_blocks (pmm k) = 0 ->
  Z.max mods kernel_end_phys <= KERN_BASE + 0x00400000 ->
  exists k',
    pmm_init fuel mb2 k = Done (tt, k') /\
    pmm_inv k' /\
    (forall b, 0 <= b < scanned k' -> blk_used k' b = false) /\
    used_blocks (pmm k') = 0 /\
    max_blocks (pmm k') =
      (ld32 (mem k) (meminfo_mem_lower info) +32 ld32 (mem k) (meminfo_mem_upper info)) *32 K
        / PMM_BLOCK_SIZE /\
    pmm_bitmap (pmm k') = bitmap_base mods /\
    same_on (fun a => a < pmm_bitmap (pmm k') \/
                      pmm_bitmap (pmm k') + pmm_bitmap_size (pmm k') <= a) (mem k) (mem k').
Proof.
  intros info mods Hl Hne Hf Hu Hend.
  set (mx := (ld32 (mem k) (meminfo_mem_lower info) +32 ld32 (mem k) (meminfo_mem_upper info))
             *32 K / PMM_BLOCK_SIZE).
  assert (Hmx : 0 <= mx <= 1048576) by (unfold mx, PMM_BLOCK_SIZE; word_lia).
  apply wp_unit. unfold pmm_init. msteps.
  eapply wp_pmm_scan_modules; [done..|]. fold mods. msteps.
  set (g := fun g => if bitmap_addr g <? kernel_end_phys then set_bitmap_addr kernel_end_phys g else g).
  assert (Hg : g (set_bitmap_addr mods (pmm k)) =
               set_bitmap_addr (Z.max mods kernel_end_phys) (pmm k)).
  { unfold g. destruct (Z.ltb_spec (bitmap_addr (set_bitmap_addr mods (pmm k))) kernel_end_phys);
      simpl in *; [by rewrite Z.max_r by lia | by rewrite Z.max_l by lia]. }
  cbn [upd_pmm with_bitmap_addr pmm bitmap_addr]. rewrite Hg. simpl bitmap_addr.
  rewrite (proj2 (Z.ltb_ge _ _)) by (unfold KERN_BASE in *; word_lia).
  msteps. unfold mboot2_find_tag. eapply wp_find_tag_loop; [exact Hl | done |].
  fold info. ksteps. simpl.
  rewrite Hg. simpl bitmap_addr. fold (bitmap_base mods).
  change (k_mem k) with (mem k). fold mx.
  apply wp_memset; [word_lia|]. intros m' [Hin Hout]. ksteps.
  set (k' := logged _ _). simpl in Hin, Hout.
  assert (Hfree : forall b, 0 <= b < scanned k' -> blk_used k' b = false).
  { intros b Hb. unfold blk_used, bitmap_word. simpl. rewrite Hg. simpl.
    fold (bitmap_base mods).
    rewrite ld32_zero; [apply Z.testbit_0_l|]. intros a Ha.
    replace a with (bitmap_base mods + (a - bitmap_base mods)) by lia.
    apply Hin. change (scanned k') with (32 * (mx / 32)) in Hb. word_lia. }
  assert (Hused : used_blocks (pmm k') = 0) by (simpl; by rewrite Hg).
  split_and!; [split | done | done | done | | ].
  - exact Hmx.
  - rewrite Hused. symmetry. apply countb_none. intros b Hb. apply Hfree. lia.
  - simpl. rewrite Hg. done.
  - intros a Ha. simpl in *. rewrite Hg in Ha. simpl in Ha. apply Hout. done.
Qed.
End init.
