(* ===== verification/Vmm.v ===== *)
(** * memory/vmm.c: the virtual memory manager

    Page directories and page tables as the words they occupy in memory:
    translation, mapping and unmapping of pages and regions, the boot-time bump
    allocator, the heap break [ksbrk] and the initialisation.  [allocate_page]
    needs [kmalloc_a] of the heap, which needs [ksbrk]: the functions of this
    file take it as the argument [kmalloc_a], and Kheap.v ties the knot. *)

From S2P Require Export Pmm.

Definition PAGE_SIZE : Z := 4096.

(** ** Macros and structures of include/memory/vmm.h *)

Definition ALIGN (addr : Z) : Z := Z.land addr 0xFFFFF000 +32 PAGE_SIZE.
Definition IS_ALIGN (addr : Z) : bool := Z.lor addr 0xFFFFF000 =? 0.

Definition PAGEDIR_INDEX (va : Z) : Z := Z.shiftr va 22.
Definition PAGETBL_INDEX (va : Z) : Z := Z.land (Z.shiftr va 12) 0x3ff.
Definition PAGEFRAME_INDEX (va : Z) : Z := Z.land va 0xfff.

Definition SET_PGBIT (cr0 : Z) : Z := Z.lor cr0 0x80000000.
Definition CLEAR_PSEBIT (cr4 : Z) : Z := Z.land cr4 0xffffffef.

Definition SIZEOF_PAGE_TABLE : Z := 4096.
Definition SIZEOF_PAGE_DIRECTORY : Z := 8192.

Definition KHEAP_INITIAL_SIZE : Z := 8 * Mb.
Definition KHEAP_MIN_SIZE : Z := 4 * Mb.

(** Addresses of [dir->tables[i]], [dir->ref_tables[i]] and [table->pages[j]]. *)
Definition dir_tables (dir i : Z) : Z := dir + 4 * i.
Definition dir_ref_tables (dir i : Z) : Z := dir + 4096 + 4 * i.
Definition tbl_pages (table j : Z) : Z := table + 4 * j.

(** Bit fields, as first bit and width; the five of [page_t] that the code uses
    and [page_size] of [page_dir_entry_t] (the other directory fields used have
    the same position as in [page_t]). *)
Definition f_present : Z * Z := (0, 1).
Definition f_rw : Z * Z := (1, 1).
Definition f_user : Z * Z := (2, 1).
Definition f_accessed : Z * Z := (3, 1).
Definition f_dirty : Z * Z := (4, 1).
Definition f_page_size : Z * Z := (7, 1).
Definition f_frame : Z * Z := (12, 20).

Definition get_f (f : Z * Z) (w : Z) : Z := field w f.1 f.2.
Definition set_f (f : Z * Z) (v w : Z) : Z := set_field w f.1 f.2 v.

(** [entry.f] and [entry.f = v] *)
Definition load_f (a : Z) (f : Z * Z) : M kernel Z := w ← load32 a; mret (get_f f w).
Definition store_f (a : Z) (f : Z * Z) (v : Z) : M kernel unit :=
  w ← load32 a; store32 a (set_f f v w).

(** ** The code *)

Definition dumb_kmalloc (size align : Z) : M kernel Z :=
  ret ← gets (fun k => temp_mem (vmm k));
  modify (upd_vmm (fun g => set_temp_mem (temp_mem g +32 size) g));;
  mret (if negb (align =? 0) && negb (IS_ALIGN ret) then ALIGN ret else ret).

Definition virt2phys (dir va : Z) : M kernel Z :=
  paging ← gets (fun k => paging_enabled (vmm k));
  if paging =? 0 then mret (va -32 KERN_BASE)
  else
    table ← load32 (dir_ref_tables dir (PAGEDIR_INDEX va));
    if table =? 0 then
      kprintf "%s: page dir entry does not exist\n";; mret 0
    else
      present ← load_f (tbl_pages table (PAGETBL_INDEX va)) f_present;
      if present =? 0 then
        kprintf "%s: page table entry does not exist\n";; mret 0
      else
        t ← load_f (tbl_pages table (PAGETBL_INDEX va)) f_frame;
        mret (u32 (Z.shiftl t 12) +32 PAGEFRAME_INDEX va).

Definition of_bool (b : bool) : Z := if b then 1 else 0.

Section vmm_code.
Context `{Linker}.
Context (kmalloc_a : Z -> M kernel Z).

(** The branch of [allocate_page] for a directory entry without a table. *)
Definition allocate_page_table (dir idx is_kernel is_writable : Z) : M kernel Z :=
  enabled ← gets (fun k => kheap_enabled (heap k));
  table ← (if enabled =? 0 then dumb_kmalloc SIZEOF_PAGE_TABLE 1
           else kmalloc_a SIZEOF_PAGE_TABLE);
  memset table 0 SIZEOF_PAGE_TABLE;;
  kdir ← gets (fun k => kernel_page_dir (vmm k));
  t ← virt2phys kdir table;
  store_f (dir_tables dir idx) f_frame (Z.shiftr t 12);;
  store_f (dir_tables dir idx) f_present 1;;
  store_f (dir_tables dir idx) f_rw (of_bool (negb (is_writable =? 0)));;
  store_f (dir_tables dir idx) f_user (of_bool (is_kernel =? 0));;
  store_f (dir_tables dir idx) f_page_size 0;;
  store32 (dir_ref_tables dir idx) table;;
  mret table.

(** The part of [allocate_page] that fills in the page table entry. *)
Definition allocate_page_entry (table j frame is_kernel is_writable : Z) : M kernel unit :=
  present ← load_f (tbl_pages table j) f_present;
  if present =? 0 then
    t ← (if negb (frame =? 0) then mret frame
         else b ← pmm_alloc_block; mret (b / PAGE_SIZE));
    store_f (tbl_pages table j) f_frame t;;
    store_f (tbl_pages table j) f_present 1;;
    store_f (tbl_pages table j) f_rw (of_bool (negb (is_writable =? 0)));;
    store_f (tbl_pages table j) f_user (of_bool (is_kernel =? 0))
  else mret tt.

Definition allocate_page (dir va frame is_kernel is_writable : Z) : M kernel unit :=
  if dir =? 0 then kprintf "%s: page directory is empty\n"
  else
    t0 ← load32 (dir_ref_tables dir (PAGEDIR_INDEX va));
    table ← (if t0 =? 0 then allocate_page_table dir (PAGEDIR_INDEX va) is_kernel is_writable
             else mret t0);
    allocate_page_entry table (PAGETBL_INDEX va) frame is_kernel is_writable.

(** [while (start <= end)] of [allocate_region]. *)
Fixpoint allocate_region_loop (fuel : nat)
    (dir start end_ iden_map is_kernel is_writable : Z) : M kernel unit :=
  match fuel with
  | O => out_of_fuel
  | S fuel' =>
      if start <=? end_ then
        allocate_page dir start (if negb (iden_map =? 0) then start / PAGE_SIZE else 0)
          is_kernel is_writable;;
        allocate_region_loop fuel' dir (start +32 PAGE_SIZE) end_ iden_map is_kernel is_writable
      else mret tt
  end.

Definition allocate_region (fuel : nat)
    (dir start_va end_va iden_map is_kernel is_writable : Z) : M kernel unit :=
  allocate_region_loop fuel dir (Z.land start_va 0xfffff000) (Z.land end_va 0xfffff000)
    iden_map is_kernel is_writable.

(** [boot_page_dir] is declared as a pointer in vmm.h, so its value is the
    word stored at the symbol. *)
Definition free_page (dir va free : Z) : M kernel unit :=
  boot ← load32 boot_page_dir;
  if dir =? boot then mret tt
  else
    table ← load32 (dir_ref_tables dir (PAGEDIR_INDEX va));
    if table =? 0 then kprintf "free_page: page dir entry does not exist\n"
    else
      let p := tbl_pages table (PAGETBL_INDEX va) in
      present ← load_f p f_present;
      if present =? 0 then kprintf "free_page: page table entry does not exist\n"
      else
        (if negb (free =? 0)
         then frame ← load_f p f_frame; pmm_free_block (frame *32 PAGE_SIZE)
         else mret tt);;
        store_f p f_present 0;;
        store_f p f_frame 0.

Fixpoint free_region_loop (fuel : nat) (dir start end_ : Z) : M kernel unit :=
  match fuel with
  | O => out_of_fuel
  | S fuel' =>
      if start <=? end_ then
        free_page dir start 1;; free_region_loop fuel' dir (start +32 PAGE_SIZE) end_
      else mret tt
  end.

(** The parameter [free] is not used by the code. *)
Definition free_region (fuel : nat) (dir start_va end_va free : Z) : M kernel unit :=
  free_region_loop fuel dir (Z.land start_va 0xfffff000) (Z.land end_va 0xfffff000).

Definition switch_page_directory (page_dir : Z) : M kernel unit :=
  cur ← gets (fun k => current_page_dir (vmm k));
  t ← virt2phys cur (dir_tables page_dir 0);
  modify (upd_vmm (set_cr3 t));;
  modify (upd_vmm (set_current_page_dir page_dir)).

(** [if (src->pages[i].f) table->pages[i].f = 1] *)
Definition copy_flag (src table : Z) (f : Z * Z) : M kernel unit :=
  v ← load_f src f;
  if v =? 0 then mret tt else store_f table f 1.

Definition copy_page (src_dir dst_dir idx src table i : Z) : M kernel unit :=
  frame ← load_f (tbl_pages table i) f_frame;
  if frame =? 0 then mret tt
  else
    let src_va := Z.lor (u32 (Z.shiftl idx 22)) (Z.shiftl i 12) in
    let dst_va := src_va in
    let tmp_va := 0 in
    allocate_page dst_dir dst_va 0 0 1;;
    phys ← virt2phys dst_dir dst_va;
    allocate_page src_dir tmp_va phys 0 1;;
    copy_flag (tbl_pages src i) (tbl_pages table i) f_present;;
    copy_flag (tbl_pages src i) (tbl_pages table i) f_rw;;
    copy_flag (tbl_pages src i) (tbl_pages table i) f_user;;
    copy_flag (tbl_pages src i) (tbl_pages table i) f_accessed;;
    copy_flag (tbl_pages src i) (tbl_pages table i) f_dirty;;
    memcpy tmp_va src_va PAGE_SIZE;;
    free_page src_dir tmp_va 0.

Definition copy_page_table (src_dir dst_dir idx src : Z) : M kernel Z :=
  table ← kmalloc_a SIZEOF_PAGE_TABLE;
  for_loop 1024 0 (copy_page src_dir dst_dir idx src table);;
  mret table.

Definition copy_dir_entry (dst src i : Z) : M kernel unit :=
  kdir ← gets (fun k => kernel_page_dir (vmm k));
  kt ← load32 (dir_ref_tables kdir i);
  st ← load32 (dir_ref_tables src i);
  if kt =? st then
    e ← load32 (dir_tables src i);
    store32 (dir_tables dst i) e;;
    store32 (dir_ref_tables dst i) st
  else
    t ← copy_page_table src dst i st;
    store32 (dir_ref_tables dst i) t;;
    t' ← load32 (dir_ref_tables dst i);
    phys ← virt2phys src t';
    store_f (dir_tables dst i) f_frame (Z.shiftr phys 12);;
    store_f (dir_tables dst i) f_user 1;;
    store_f (dir_tables dst i) f_rw 1;;
    store_f (dir_tables dst i) f_present 1.

Definition copy_page_directory (dst src : Z) : M kernel unit :=
  for_loop 1024 0 (copy_dir_entry dst src).

Definition enable_paging : M kernel unit :=
  modify (upd_vmm (fun g => set_cr4 (CLEAR_PSEBIT (cr4 g)) g));;
  modify (upd_vmm (fun g => set_cr0 (SET_PGBIT (cr0 g)) g));;
  modify (upd_vmm (set_paging_enabled 1)).

(** [while (i < end) { allocate_page(kernel_page_dir, i, 0, 1, w); i += PAGE_SIZE; }] *)
Fixpoint map_kernel_loop (fuel : nat) (i end_ is_writable : Z) : M kernel unit :=
  match fuel with
  | O => out_of_fuel
  | S fuel' =>
      if i <? end_ then
        dir ← gets (fun k => kernel_page_dir (vmm k));
        allocate_page dir i 0 1 is_writable;;
        map_kernel_loop fuel' (i +32 PAGE_SIZE) end_ is_writable
      else mret tt
  end.

Definition vmm_init (fuel : nat) : M kernel unit :=
  modify (fun k => upd_vmm (set_temp_mem (pmm_bitmap (pmm k) +32 pmm_bitmap_size (pmm k))) k);;
  dir ← dumb_kmalloc SIZEOF_PAGE_DIRECTORY 1;
  modify (upd_vmm (set_kernel_page_dir dir));;
  memset dir 0 SIZEOF_PAGE_DIRECTORY;;
  map_kernel_loop fuel KERN_BASE (KERN_BASE + 4 * Mb) 0;;
  map_kernel_loop fuel (KERN_BASE + 4 * Mb) (KERN_BASE + 4 * Mb + KHEAP_INITIAL_SIZE) 1;;
  kdir ← gets (fun k => kernel_page_dir (vmm k));
  allocate_region fuel kdir 0 0x10000 1 1 0;;
  switch_page_directory kdir;;
  enable_paging;;
  int_install_handler 14 "page_fault";;
  klog LOG_OK "Virtual Memory Manager initialized\n".

(** [while (runner < new_boundary)] of the growing branch of [ksbrk]; returns
    the final [runner]. *)
Fixpoint ksbrk_map_loop (fuel : nat) (runner new_boundary : Z) : M kernel Z :=
  match fuel with
  | O => out_of_fuel
  | S fuel' =>
      if runner <? new_boundary then
        dir ← gets (fun k => kernel_page_dir (vmm k));
        allocate_page dir runner 0 1 1;;
        ksbrk_map_loop fuel' (runner +32 PAGE_SIZE) new_boundary
      else mret runner
  end.

(** [while (runner > new_boundary)] of the shrinking branch. *)
Fixpoint ksbrk_unmap_loop (fuel : nat) (runner new_boundary : Z) : M kernel Z :=
  match fuel with
  | O => out_of_fuel
  | S fuel' =>
      if new_boundary <? runner then
        dir ← gets (fun k => kernel_page_dir (vmm k));
        free_page dir runner 1;;
        ksbrk_unmap_loop fuel' (runner -32 PAGE_SIZE) new_boundary
      else mret runner
  end.

(** [size] is an [int32_t]; each round of the fuel is a [restart_sbrk]. *)
Fixpoint ksbrk (fuel : nat) (size : Z) : M kernel Z :=
  match fuel with
  | O => out_of_fuel
  | S fuel' =>
      old_heap_curr ← gets (fun k => heap_curr (heap k));
      if size =? 0 then mret old_heap_curr
      else if 0 <? size then
        let new_boundary := old_heap_curr +32 size in
        hend ← gets (fun k => heap_end (heap k));
        hmax ← gets (fun k => heap_max (heap k));
        if new_boundary <=? hend then
          modify (upd_heap (set_heap_curr new_boundary));; mret old_heap_curr
        else if hmax <? new_boundary then mret 0
        else
          runner ← ksbrk_map_loop fuel hend new_boundary;
          cur ← gets (fun k => heap_curr (heap k));
          if negb (old_heap_curr =? cur) then ksbrk fuel' size
          else
            modify (upd_heap (set_heap_end runner));;
            modify (upd_heap (set_heap_curr new_boundary));; mret old_heap_curr
      else
        start ← gets (fun k => heap_start (heap k));
        hend ← gets (fun k => heap_end (heap k));
        let nb := old_heap_curr -32 size in
        let new_boundary :=
          if nb <? (start +32 KHEAP_MIN_SIZE) then start +32 KHEAP_MIN_SIZE else nb in
        runner ← ksbrk_unmap_loop fuel (hend -32 PAGE_SIZE) new_boundary;
        modify (upd_heap (set_heap_end (runner +32 PAGE_SIZE)));;
        modify (upd_heap (set_heap_curr new_boundary));; mret old_heap_curr
  end.
End vmm_code.

(** The handler of vector 14; [err_code] decides the flags it prints. *)
Definition page_fault (err_code : Z) : M kernel unit :=
  panic "Page fault at 0x%x (EIP: 0x%x p: %d, rw: %d, us: %d, reserved: %d, i: %d)\n".
