(* ===== verification/VmmSpec.v ===== *)
(** * Correctness of memory/vmm.c

    The page tables of a directory as a map from virtual page numbers to page
    table entries ([entry]), the separation of the structures that hold them
    ([vm_layout]), what [allocate_page] and [free_page] do to the map, and the
    address space that [vmm_init] builds. *)

From S2P Require Export Vmm.

(** ** Words of memory *)

(** [m'] is [m] with the word at [a] replaced by [v]. *)
Definition upd_word (m m' : memory) (a v : Z) : Prop :=
  ld32 m' a = v /\ forall b, b < a \/ a + 4 <= b -> ld8 m' b = ld8 m b.

Lemma upd_word_st32 m a v : 0 <= v < 4294967296 -> upd_word m (st32 m a v) a v.
Proof. intros. split; [rewrite ld32_st32_eq; by apply u32_small | intros; by apply ld8_st32_ne]. Qed.

Lemma upd_word_trans m m1 m2 a v1 v2 :
  upd_word m m1 a v1 -> upd_word m1 m2 a v2 -> upd_word m m2 a v2.
Proof. intros [_ H1] [H2 H3]. split; [done|]. intros b Hb. by rewrite H3, H1. Qed.

Lemma upd_word_ne m m' a v b : upd_word m m' a v -> disjoint a 4 b 4 -> ld32 m' b = ld32 m b.
Proof.
  unfold disjoint. intros [_ H] Hd. apply ld32_ext. intros c Hc. apply H. lia.
Qed.

Lemma filled_ne m m' p n f b : filled m m' p n f -> disjoint p n b 4 -> ld32 m' b = ld32 m b.
Proof.
  unfold disjoint. intros [_ H] Hd. apply ld32_ext. intros c Hc. apply H. lia.
Qed.

(** A field that fits in a word. *)
Definition field_ok (f : Z * Z) : Prop := 0 <= f.1 /\ 0 <= f.2 /\ f.1 + f.2 <= 32.

Lemma set_f_range f v w :
  field_ok f -> 0 <= w < 4294967296 -> 0 <= set_f f v w < 4294967296.
Proof.
  intros (? & ? & ?) Hw. unfold set_f. change 4294967296 with (2 ^ 32) in *.
  by apply set_field_range.
Qed.

Lemma get_set_f f v w : field_ok f -> get_f f (set_f f v w) = v mod 2 ^ f.2.
Proof. intros (? & ? & ?). by apply field_set_eq. Qed.

Lemma get_set_f_ne f f' v w :
  field_ok f -> field_ok f' -> f'.1 + f'.2 <= f.1 \/ f.1 + f.2 <= f'.1 ->
  get_f f' (set_f f v w) = get_f f' w.
Proof. intros (? & ? & ?) (? & ? & ?) ?. by apply field_set_ne. Qed.

Lemma wp_store_f a f v (Q : unit -> kernel -> Prop) k :
  field_ok f ->
  (forall m', upd_word (mem k) m' a (set_f f v (ld32 (mem k) a)) -> Q tt (set_mem m' k)) ->
  wp (store_f a f v) Q k.
Proof.
  intros Hf HQ. unfold store_f. msteps. apply HQ, upd_word_st32.
  apply set_f_range; [done | apply ld32_range].
Qed.

Lemma wp_load_f a f (Q : Z -> kernel -> Prop) k :
  Q (get_f f (ld32 (mem k) a)) k -> wp (load_f a f) Q k.
Proof. done. Qed.

Ltac solve_field_ok := unfold field_ok; simpl; lia.

(** Runs the next field access. *)
Ltac vstep :=
  first
    [ kstep
    | lazymatch goal with
      | |- wp (load_f _ _) _ _ => apply wp_load_f
      end; cbn beta ].
Ltac vsteps := repeat vstep.

(** ** Address arithmetic *)

Lemma pagedir_index va : 0 <= va -> PAGEDIR_INDEX va = va / PAGE_SIZE / 1024.
Proof.
  intros. unfold PAGEDIR_INDEX, PAGE_SIZE. rewrite Z.shiftr_div_pow2 by lia.
  rewrite Z.div_div by lia. done.
Qed.

Lemma pagetbl_index va : 0 <= va -> PAGETBL_INDEX va = (va / PAGE_SIZE) mod 1024.
Proof.
  intros. unfold PAGETBL_INDEX, PAGE_SIZE. change 0x3ff with (Z.ones 10).
  rewrite Z.land_ones, Z.shiftr_div_pow2 by lia. done.
Qed.

Lemma pageframe_index va : PAGEFRAME_INDEX va = va mod PAGE_SIZE.
Proof.
  unfold PAGEFRAME_INDEX, PAGE_SIZE. change 0xfff with (Z.ones 12). by rewrite Z.land_ones by lia.
Qed.

(** Clearing the low 12 bits of a 32-bit address. *)
Lemma page_mask a : 0 <= a < 4294967296 -> Z.land a 0xFFFFF000 = 4096 * (a / 4096).
Proof.
  intros Ha. apply Z.bits_inj'. intros i Hi.
  replace (4096 * (a / 4096)) with (Z.shiftl (Z.shiftr a 12) 12)
    by (rewrite Z.shiftl_mul_pow2, Z.shiftr_div_pow2 by lia; change (2 ^ 12) with 4096; lia).
  change 0xFFFFF000 with (Z.shiftl (Z.ones 20) 12). bits_push.
  destruct (Z.ltb_spec i 12).
  - by rewrite !(testbit_neg_idx _ (i - 12)), andb_false_r by lia.
  - bits_push. replace (i - 12 + 12) with i by lia.
    destruct (Z.ltb_spec (i - 12) 20); [by rewrite andb_true_r|].
    rewrite andb_false_r. symmetry. apply (testbit_high a 32); [done | lia].
Qed.

Lemma align_value a :
  0 <= a -> a + 4096 < 4294967296 -> ALIGN a = 4096 * (a / 4096) + 4096.
Proof.
  intros. unfold ALIGN, PAGE_SIZE. rewrite page_mask, u32_small by word_lia. done.
Qed.

(** [ALIGN] rounds every address up to the next page boundary strictly
    above it, and [IS_ALIGN] is false on every 32-bit address, so the boot
    allocator moves even an aligned pointer one page up. *)
Theorem align_macros a :
  0 <= a -> a + 4096 < 4294967296 ->
  (ALIGN a) mod PAGE_SIZE = 0 /\ a < ALIGN a <= a + PAGE_SIZE /\ IS_ALIGN a = false.
Proof.
  intros Ha Hb. rewrite align_value by done. unfold PAGE_SIZE. split_and!; [|word_lia..|].
  - replace (4096 * (a / 4096) + 4096) with ((a / 4096 + 1) * 4096) by lia. by apply Z.mod_mul.
  - unfold IS_ALIGN. apply Z.eqb_neq. intros H0.
    apply (f_equal (fun z => Z.testbit z 12)) in H0. rewrite Z.lor_spec in H0.
    change (Z.testbit 0xFFFFF000 12) with true in H0. by rewrite orb_true_r in H0.
Qed.

(** ** The page map of a directory *)

Definition ref (k : kernel) (dir i : Z) : Z := ld32 (mem k) (dir_ref_tables dir i).
Definition pde (k : kernel) (dir i : Z) : Z := ld32 (mem k) (dir_tables dir i).
Definition entry_addr (k : kernel) (dir n : Z) : Z :=
  tbl_pages (ref k dir (n / 1024)) (n mod 1024).

(** The page table entry of virtual page [n]; 0 when there is no table. *)
Definition entry (k : kernel) (dir n : Z) : Z :=
  if ref k dir (n / 1024) =? 0 then 0 else ld32 (mem k) (entry_addr k dir n).

(** What the page tables of [dir] translate [va] to. *)
Definition translate (k : kernel) (dir va : Z) : option Z :=
  let e := entry k dir (va / PAGE_SIZE) in
  if get_f f_present e =? 0 then None
  else Some (get_f f_frame e * PAGE_SIZE + va mod PAGE_SIZE).

(** The entry [allocate_page] writes over [w]. *)
Definition mk_pte (frame is_kernel is_writable w : Z) : Z :=
  set_f f_user (of_bool (is_kernel =? 0))
    (set_f f_rw (of_bool (negb (is_writable =? 0)))
      (set_f f_present 1 (set_f f_frame frame w))).

(** The bytes of the bitmap words [pmm.c] scans. *)
Definition bm_size (k : kernel) : Z := 4 * (max_blocks (pmm k) / 32).

(** The directory, its page tables and the bitmap do not overlap. *)
Record vm_layout (k : kernel) (dir : Z) : Prop := {
  vl_dir : disjoint dir SIZEOF_PAGE_DIRECTORY (pmm_bitmap (pmm k)) (bm_size k);
  vl_tbl i : 0 <= i < 1024 -> ref k dir i <> 0 ->
    disjoint (ref k dir i) SIZEOF_PAGE_TABLE dir SIZEOF_PAGE_DIRECTORY /\
    disjoint (ref k dir i) SIZEOF_PAGE_TABLE (pmm_bitmap (pmm k)) (bm_size k);
  vl_sep i j : 0 <= i < 1024 -> 0 <= j < 1024 -> i <> j ->
    ref k dir i <> 0 -> ref k dir j <> 0 ->
    disjoint (ref k dir i) SIZEOF_PAGE_TABLE (ref k dir j) SIZEOF_PAGE_TABLE;
}.

(** The number of virtual pages. *)
Definition NPAGES : Z := 1048576.

Lemma mk_pte_fields fr ik iw w :
  get_f f_present (mk_pte fr ik iw w) = 1 /\
  get_f f_frame (mk_pte fr ik iw w) = fr mod 2 ^ 20 /\
  get_f f_rw (mk_pte fr ik iw w) = of_bool (negb (iw =? 0)) /\
  get_f f_user (mk_pte fr ik iw w) = of_bool (ik =? 0).
Proof.
  assert (Hb : forall b, of_bool b mod 2 ^ 1 = of_bool b) by (by intros []).
  unfold mk_pte. split_and!;
    repeat first [ rewrite get_set_f by solve_field_ok
                 | rewrite get_set_f_ne by solve_field_ok ]; [done | done | apply Hb | apply Hb].
Qed.

(** A directory whose words agree has the same page map. *)
Lemma entry_ext k k' dir n :
  0 <= n ->
  ref k' dir (n / 1024) = ref k dir (n / 1024) ->
  (ref k dir (n / 1024) <> 0 -> ld32 (mem k') (entry_addr k dir n) = ld32 (mem k) (entry_addr k dir n)) ->
  entry k' dir n = entry k dir n.
Proof.
  intros Hn Hr He. unfold entry, entry_addr. rewrite Hr.
  destruct (Z.eqb_spec (ref k dir (n / 1024)) 0); [done|]. by apply He.
Qed.

Lemma npages_index n : 0 <= n < NPAGES -> 0 <= n / 1024 < 1024 /\ 0 <= n mod 1024 < 1024.
Proof. unfold NPAGES. intros. word_lia. Qed.

(** Two pages have entries at different words. *)
Lemma entry_addr_disjoint k dir n n' :
  vm_layout k dir -> 0 <= n < NPAGES -> 0 <= n' < NPAGES -> n <> n' ->
  ref k dir (n / 1024) <> 0 -> ref k dir (n' / 1024) <> 0 ->
  disjoint (entry_addr k dir n) 4 (entry_addr k dir n') 4.
Proof.
  intros Hl Hn Hn' Hne Ht Ht'. pose proof (npages_index n Hn). pose proof (npages_index n' Hn').
  unfold entry_addr, tbl_pages, disjoint.
  destruct (decide (n / 1024 = n' / 1024)) as [He|Hd].
  - rewrite He. assert (n mod 1024 <> n' mod 1024) by word_lia. lia.
  - pose proof (vl_sep _ _ Hl (n / 1024) (n' / 1024) ltac:(lia) ltac:(lia) Hd Ht Ht') as Hs.
    unfold disjoint, SIZEOF_PAGE_TABLE in Hs. lia.
Qed.

(** ** Frame properties *)

(** The addresses that hold the directory and its page tables. *)
Definition vm_footprint (k : kernel) (dir a : Z) : Prop :=
  dir <= a < dir + SIZEOF_PAGE_DIRECTORY \/
  exists i, 0 <= i < 1024 /\ ref k dir i <> 0 /\
    ref k dir i <= a < ref k dir i + SIZEOF_PAGE_TABLE.

(** [k'] has the page map and the directory entries of [k]. *)
Record same_map (k k' : kernel) (dir : Z) : Prop := {
  sm_ref i : 0 <= i < 1024 -> ref k' dir i = ref k dir i;
  sm_pde i : 0 <= i < 1024 -> pde k' dir i = pde k dir i;
  sm_entry n : 0 <= n < NPAGES -> entry k' dir n = entry k dir n;
}.

Lemma ref_frame k k' dir i :
  (forall a, dir <= a < dir + SIZEOF_PAGE_DIRECTORY -> ld8 (mem k') a = ld8 (mem k) a) ->
  0 <= i < 1024 -> ref k' dir i = ref k dir i.
Proof.
  unfold SIZEOF_PAGE_DIRECTORY. intros H Hi. apply ld32_ext. intros a Ha.
  unfold dir_ref_tables in Ha. apply H. lia.
Qed.

Lemma same_map_frame k k' dir :
  same_on (vm_footprint k dir) (mem k) (mem k') -> same_map k k' dir.
Proof.
  intros Hs.
  assert (Hdir : forall a, dir <= a < dir + SIZEOF_PAGE_DIRECTORY -> ld8 (mem k') a = ld8 (mem k) a)
    by (intros a Ha; apply Hs; by left).
  assert (Href : forall i, 0 <= i < 1024 -> ref k' dir i = ref k dir i)
    by (intros; by apply ref_frame).
  split; [done | |].
  - intros i Hi. apply ld32_ext. intros a Ha. apply Hdir.
    unfold dir_tables, SIZEOF_PAGE_DIRECTORY in *. lia.
  - intros n Hn. destruct (npages_index n Hn) as [Hi Hj].
    apply entry_ext; [lia | by apply Href |]. intros Ht. apply ld32_ext. intros a Ha. apply Hs.
    right. exists (n / 1024). split_and!; [lia | lia | done | |];
      unfold entry_addr, tbl_pages, SIZEOF_PAGE_TABLE in *; lia.
Qed.

(** The layout only depends on the tables and on where the bitmap is. *)
Lemma vm_layout_same k k' dir :
  vm_layout k dir -> (forall i, 0 <= i < 1024 -> ref k' dir i = ref k dir i) ->
  pmm_bitmap (pmm k') = pmm_bitmap (pmm k) -> max_blocks (pmm k') = max_blocks (pmm k) ->
  vm_layout k' dir.
Proof.
  intros [Hd Ht Hs] Href Hb Hm.
  assert (Hsz : bm_size k' = bm_size k) by (unfold bm_size; by rewrite Hm).
  split.
  - by rewrite Hb, Hsz.
  - intros i Hi. rewrite Href, Hb, Hsz by done. by apply Ht.
  - intros i j Hi Hj. rewrite !Href by done. by apply Hs.
Qed.

(** Marking a block writes only bitmap bytes, so the page map is untouched. *)
Lemma same_map_set_block k dir b :
  vm_layout k dir -> 0 <= b < scanned k -> same_map k (set_block b k) dir.
Proof.
  intros [Hd Ht _] Hb. apply same_map_frame. unfold set_block. simpl. apply same_on_st32.
  intros a Ha. unfold bitmap_word, scanned in *.
  assert (Hin : pmm_bitmap (pmm k) <= a < pmm_bitmap (pmm k) + bm_size k)
    by (unfold bm_size; word_lia).
  intros [Hdir|(i & Hi & Hne & Htbl)].
  - unfold disjoint in Hd. lia.
  - destruct (Ht i Hi Hne) as [_ Hdb]. unfold disjoint in Hdb. lia.
Qed.

(** Writing the entry word of one mapped page. *)
Lemma entry_upd_word k k' dir n v :
  vm_layout k dir -> 0 <= n < NPAGES -> ref k dir (n / 1024) <> 0 ->
  upd_word (mem k) (mem k') (entry_addr k dir n) v ->
  (forall i, 0 <= i < 1024 -> ref k' dir i = ref k dir i) /\
  (forall i, 0 <= i < 1024 -> pde k' dir i = pde k dir i) /\
  (forall n', 0 <= n' < NPAGES -> entry k' dir n' = if n' =? n then v else entry k dir n').
Proof.
  intros Hl Hn Ht Hw. destruct (npages_index n Hn) as [Hi Hj].
  destruct (vl_tbl _ _ Hl _ Hi Ht) as [Htd _].
  assert (Hdir : forall a, dir <= a < dir + SIZEOF_PAGE_DIRECTORY -> ld8 (mem k') a = ld8 (mem k) a).
  { intros a Ha. apply Hw. unfold disjoint, entry_addr, tbl_pages, SIZEOF_PAGE_TABLE in *. lia. }
  assert (Href : forall i, 0 <= i < 1024 -> ref k' dir i = ref k dir i)
    by (intros; by apply ref_frame).
  split_and!; [done | |].
  - intros i Hi'. apply ld32_ext. intros a Ha. apply Hdir.
    unfold dir_tables, SIZEOF_PAGE_DIRECTORY in *. lia.
  - intros n' Hn'. destruct (npages_index n' Hn') as [Hi' Hj'].
    destruct (Z.eqb_spec n' n) as [->|Hne].
    + unfold entry, entry_addr. rewrite Href by done.
      destruct (Z.eqb_spec (ref k dir (n / 1024)) 0); [done|]. apply Hw.
    + apply entry_ext; [lia | by apply Href |]. intros Ht'.
      eapply upd_word_ne; [done|]. apply entry_addr_disjoint; done.
Qed.

(** ** Filling in a page table entry *)

(** [k'] has the page map of [k] except that page [n] has the entry [v]. *)
Record page_set (k k' : kernel) (dir n v : Z) : Prop := {
  ps_ref i : 0 <= i < 1024 -> ref k' dir i = ref k dir i;
  ps_pde i : 0 <= i < 1024 -> pde k' dir i = pde k dir i;
  ps_entry n' : 0 <= n' < NPAGES -> entry k' dir n' = if n' =? n then v else entry k dir n';
  ps_layout : vm_layout k' dir;
}.

Lemma entry_ld32 k dir n :
  ref k dir (n / 1024) <> 0 -> entry k dir n = ld32 (mem k) (entry_addr k dir n).
Proof. intros. unfold entry. by rewrite (proj2 (Z.eqb_neq _ _)). Qed.

(** Composition of two stores to one word, for chains of field stores. *)
Lemma upd_word_step m m1 m2 a v1 (f : Z -> Z) :
  upd_word m m1 a v1 -> upd_word m1 m2 a (f (ld32 m1 a)) -> upd_word m m2 a (f v1).
Proof. intros H1 H2. pose proof (proj1 H1) as Hv. rewrite Hv in H2. by eapply upd_word_trans. Qed.

(** One more field store after stores that left [v1] in the word. *)
Lemma wp_store_f_upd m0 m1 a v1 f v (Q : unit -> kernel -> Prop) k :
  field_ok f -> upd_word m0 m1 a v1 ->
  (forall m', upd_word m0 m' a (set_f f v v1) -> Q tt (set_mem m' k)) ->
  wp (store_f a f v) Q (set_mem m1 k).
Proof.
  intros Hf H1 HQ. apply wp_store_f; [done|]. intros m' H2. rewrite mem_set_mem in H2.
  rewrite set_mem_set_mem. apply HQ. exact (upd_word_step _ _ _ _ _ (set_f f v) H1 H2).
Qed.

(** Runs the four stores that fill in an entry. *)
Ltac store_pte :=
  simple apply wp_store_f; [solve_field_ok|]; intros ? ?;
  wp_step; simple eapply wp_store_f_upd; [solve_field_ok | eassumption |]; intros ? ?;
  wp_step; simple eapply wp_store_f_upd; [solve_field_ok | eassumption |]; intros ? ?;
  try wp_step; simple eapply wp_store_f_upd; [solve_field_ok | eassumption |]; intros ? ?.

(** The entry word of a page lies outside the bitmap. *)
Lemma blk_used_upd_entry k m' dir n v b :
  vm_layout k dir -> 0 <= n < NPAGES -> ref k dir (n / 1024) <> 0 ->
  upd_word (mem k) m' (entry_addr k dir n) v -> 0 <= b < scanned k ->
  blk_used (set_mem m' k) b = blk_used k b.
Proof.
  intros Hl Hn Ht Hw Hb. destruct (npages_index n Hn) as [Hi Hj].
  destruct (vl_tbl _ _ Hl _ Hi Ht) as [_ Hd].
  unfold blk_used. f_equal. eapply upd_word_ne; [exact Hw|].
  unfold disjoint, entry_addr, tbl_pages, bitmap_word, bm_size, scanned, SIZEOF_PAGE_TABLE in *.
  simpl. word_lia.
Qed.

(** [page_set] from a store to the entry word. *)
Lemma page_set_upd k m' dir n v :
  vm_layout k dir -> 0 <= n < NPAGES -> ref k dir (n / 1024) <> 0 ->
  upd_word (mem k) m' (entry_addr k dir n) v -> page_set k (set_mem m' k) dir n v.
Proof.
  intros Hl Hn Ht Hw.
  rewrite <- (mem_set_mem m' k) in Hw.
  destruct (entry_upd_word k (set_mem m' k) dir n v Hl Hn Ht Hw) as (H1 & H2 & H3).
  split; [exact H1 | exact H2 | exact H3 | exact (vm_layout_same k (set_mem m' k) dir Hl H1 eq_refl eq_refl)].
Qed.

Lemma page_set_same_map k k1 k2 dir n v :
  same_map k k1 dir -> 0 <= n < NPAGES -> page_set k1 k2 dir n v -> page_set k k2 dir n v.
Proof.
  intros [Hr Hp He] Hn [Hr' Hp' He' Hl]. split; [| | |done].
  - intros i Hi. by rewrite Hr', Hr.
  - intros i Hi. by rewrite Hp', Hp.
  - intros n' Hn'. rewrite He' by done. destruct (n' =? n); [done | by apply He].
Qed.

(** [frame <> 0]: the page gets the frame the caller names. *)
Lemma wp_page_entry_frame k dir n frame ik iw (Q : unit -> kernel -> Prop) :
  vm_layout k dir -> 0 <= n < NPAGES -> ref k dir (n / 1024) <> 0 ->
  get_f f_present (entry k dir n) = 0 -> frame <> 0 ->
  (forall m', upd_word (mem k) m' (entry_addr k dir n) (mk_pte frame ik iw (entry k dir n)) ->
     Q tt (set_mem m' k)) ->
  wp (allocate_page_entry (ref k dir (n / 1024)) (n mod 1024) frame ik iw) Q k.
Proof.
  intros Hl Hn Ht Hp Hf HQ. unfold allocate_page_entry. fold (entry_addr k dir n). vsteps.
  rewrite <- entry_ld32, Hp by done. vsteps. rewrite (proj2 (Z.eqb_neq frame 0)) by done. vsteps.
  store_pte. apply HQ. by rewrite entry_ld32.
Qed.

(** The allocator has a block to hand out. *)
Record pmm_ready (k : kernel) (b : Z) : Prop := {
  pr_max : 0 <= max_blocks (pmm k) <= 1048576;
  pr_used : 0 <= used_blocks (pmm k) < max_blocks (pmm k);
  pr_lowest : lowest_free k b;
}.

Lemma pmm_ready_block k b : pmm_ready k b -> 0 <= b < scanned k /\ b < NPAGES.
Proof.
  intros [Hm _ Hb]. pose proof (lf_range _ _ Hb). pose proof (scanned_range k). unfold NPAGES. lia.
Qed.

(** [frame = 0]: the page gets the lowest free block of the bitmap. *)
Lemma wp_page_entry_alloc k dir n b ik iw (Q : unit -> kernel -> Prop) :
  vm_layout k dir -> 0 <= n < NPAGES -> ref k dir (n / 1024) <> 0 ->
  get_f f_present (entry k dir n) = 0 -> pmm_ready k b ->
  (forall m', upd_word (mem (set_block b k)) m' (entry_addr k dir n) (mk_pte b ik iw (entry k dir n)) ->
     Q tt (set_mem m' (set_block b k))) ->
  wp (allocate_page_entry (ref k dir (n / 1024)) (n mod 1024) 0 ik iw) Q k.
Proof.
  intros Hl Hn Ht Hp Hb HQ. destruct (pmm_ready_block k b Hb) as [Hbs _].
  pose proof (same_map_set_block k dir b Hl Hbs) as [Hr _ He].
  assert (Hw : ld32 (mem (set_block b k)) (entry_addr k dir n) = entry k dir n).
  { rewrite <- He by exact Hn. destruct (npages_index n Hn). unfold entry, entry_addr.
    rewrite Hr by lia. by rewrite (proj2 (Z.eqb_neq _ _)). }
  unfold allocate_page_entry. fold (entry_addr k dir n). vsteps.
  rewrite <- entry_ld32, Hp by done. vsteps.
  destruct Hb as [Hm Hu Hb]. simple eapply wp_pmm_alloc; [exact Hm | exact Hu | exact Hb |]. vsteps.
  rewrite Z.div_mul by done. store_pte. apply HQ. rewrite <- Hw. assumption.
Qed.

(** The frame [allocate_page] uses: the one it is given, else block [b]. *)
Definition chosen_frame (frame b : Z) : Z := if frame =? 0 then b else frame.

(** The state in which [allocate_page] writes the entry. *)
Definition after_frame (frame b : Z) (k : kernel) : kernel :=
  if frame =? 0 then set_block b k else k.

Lemma wp_page_entry k dir n frame b ik iw (Q : unit -> kernel -> Prop) :
  vm_layout k dir -> 0 <= n < NPAGES -> ref k dir (n / 1024) <> 0 ->
  get_f f_present (entry k dir n) = 0 -> (frame = 0 -> pmm_ready k b) ->
  (forall m',
     let k' := set_mem m' (after_frame frame b k) in
     page_set k k' dir n (mk_pte (chosen_frame frame b) ik iw (entry k dir n)) ->
     (forall c, 0 <= c < scanned k -> blk_used k' c = blk_used (after_frame frame b k) c) ->
     Q tt k') ->
  wp (allocate_page_entry (ref k dir (n / 1024)) (n mod 1024) frame ik iw) Q k.
Proof.
  intros Hl Hn Ht Hp Hb HQ. unfold after_frame, chosen_frame in HQ.
  destruct (Z.eqb_spec frame 0) as [->|Hf].
  - specialize (Hb eq_refl). destruct (pmm_ready_block k b Hb) as [Hbs _].
    pose proof (same_map_set_block k dir b Hl Hbs) as Hsm. pose proof (sm_ref _ _ _ Hsm) as Hr.
    assert (Hl1 : vm_layout (set_block b k) dir) by (eapply vm_layout_same; [exact Hl | exact Hr | done | done]).
    destruct (npages_index n Hn) as [Hi _].
    assert (Ht1 : ref (set_block b k) dir (n / 1024) <> 0) by (by rewrite Hr).
    assert (Ha : entry_addr (set_block b k) dir n = entry_addr k dir n)
      by (unfold entry_addr; by rewrite Hr).
    eapply wp_page_entry_alloc; [exact Hl | exact Hn | exact Ht | exact Hp | exact Hb |].
    intros m' Hw. rewrite <- Ha in Hw. apply HQ.
    + eapply page_set_same_map; [exact Hsm | exact Hn |].
      apply page_set_upd; [exact Hl1 | exact Hn | exact Ht1 | exact Hw].
    + intros c Hc. eapply blk_used_upd_entry; [exact Hl1 | exact Hn | exact Ht1 | exact Hw | exact Hc].
  - eapply wp_page_entry_frame; [exact Hl | exact Hn | exact Ht | exact Hp | exact Hf |].
    intros m' Hw. apply HQ.
    + apply page_set_upd; [exact Hl | exact Hn | exact Ht | exact Hw].
    + intros c Hc. eapply blk_used_upd_entry; [exact Hl | exact Hn | exact Ht | exact Hw | exact Hc].
Qed.

(** A page that is already present is left as it is. *)
Lemma wp_page_entry_present k dir n frame ik iw (Q : unit -> kernel -> Prop) :
  ref k dir (n / 1024) <> 0 -> get_f f_present (entry k dir n) <> 0 ->
  Q tt k ->
  wp (allocate_page_entry (ref k dir (n / 1024)) (n mod 1024) frame ik iw) Q k.
Proof.
  intros Ht Hp HQ. unfold allocate_page_entry. fold (entry_addr k dir n). vsteps.
  rewrite <- entry_ld32 by done. rewrite (proj2 (Z.eqb_neq _ _)) by done. by vsteps.
Qed.

(** ** A new page table from the boot allocator *)

Definition mk_pde (frame is_kernel is_writable w : Z) : Z :=
  set_f f_page_size 0 (mk_pte frame is_kernel is_writable w).

Lemma mk_pde_unfold fr ik iw w :
  mk_pde fr ik iw w =
    set_f f_page_size 0
      (set_f f_user (of_bool (ik =? 0))
        (set_f f_rw (of_bool (negb (iw =? 0)))
          (set_f f_present 1 (set_f f_frame fr w)))).
Proof. done. Qed.

#[global] Opaque mk_pte mk_pde.

(** Where the boot allocator puts the next page-aligned object. *)
Definition next_table (k : kernel) : Z := 4096 * (temp_mem (vmm k) / 4096) + 4096.

(** Before the heap and paging are on: the next table lies behind the bitmap,
    the directory and the tables there are. *)
Record boot_room (k : kernel) (dir : Z) : Prop := {
  br_heap : kheap_enabled (heap k) = 0;
  br_paging : paging_enabled (vmm k) = 0;
  br_temp : KERN_BASE <= temp_mem (vmm k);
  br_dir : dir + SIZEOF_PAGE_DIRECTORY <= next_table k;
  br_bm : pmm_bitmap (pmm k) + bm_size k <= next_table k;
  br_tbl i : 0 <= i < 1024 -> ref k dir i <> 0 -> ref k dir i + SIZEOF_PAGE_TABLE <= next_table k;
}.

(** [k'] has one more page table than [k], an empty one for directory slot [i]. *)
Record table_added (k k' : kernel) (dir i ik iw : Z) : Prop := {
  ta_ref j : 0 <= j < 1024 -> ref k' dir j = if j =? i then next_table k else ref k dir j;
  ta_pde j : 0 <= j < 1024 ->
    pde k' dir j = if j =? i then mk_pde ((next_table k - KERN_BASE) / 4096) ik iw (pde k dir i)
                   else pde k dir j;
  ta_entry n : 0 <= n < NPAGES -> entry k' dir n = entry k dir n;
  ta_layout : vm_layout k' dir;
  ta_used c : 0 <= c < scanned k -> blk_used k' c = blk_used k c;
  ta_room : boot_room k' dir;
}.

(** The memory [m'] of a state with one more table, byte by byte. *)
Record table_bytes (k : kernel) (m' : memory) (dir i v : Z) : Prop := {
  tb_zero a : next_table k <= a < next_table k + SIZEOF_PAGE_TABLE -> ld8 m' a = 0;
  tb_pde : ld32 m' (dir_tables dir i) = v;
  tb_ref : ld32 m' (dir_ref_tables dir i) = next_table k;
  tb_rest a :
    a < next_table k \/ next_table k + SIZEOF_PAGE_TABLE <= a ->
    a < dir_tables dir i \/ dir_tables dir i + 4 <= a ->
    a < dir_ref_tables dir i \/ dir_ref_tables dir i + 4 <= a ->
    ld8 m' a = ld8 (mem k) a;
}.

Lemma table_bytes_intro k m1 m2 dir i v :
  filled (mem k) m1 (next_table k) 4096 (fun _ => u8 0) ->
  upd_word m1 m2 (dir_tables dir i) v ->
  0 <= i < 1024 -> dir + SIZEOF_PAGE_DIRECTORY <= next_table k ->
  0 <= next_table k < 4294967296 ->
  table_bytes k (st32 m2 (dir_ref_tables dir i) (next_table k)) dir i v.
Proof.
  intros [Hz Ho] [Hv Hw] Hi Hd HT. set (T := next_table k) in *.
  unfold SIZEOF_PAGE_DIRECTORY in *.
  split; unfold SIZEOF_PAGE_TABLE; fold T; unfold dir_tables, dir_ref_tables in *.
  - intros a Ha. rewrite ld8_st32_ne, Hw by lia.
    replace a with (T + (a - T)) by lia. rewrite Hz by lia. done.
  - rewrite ld32_st32_ne by (unfold disjoint; lia). exact Hv.
  - rewrite ld32_st32_eq. apply u32_small. lia.
  - intros a H1a H2a H3a. rewrite ld8_st32_ne, Hw, Ho by lia. done.
Qed.

(** What the boot allocator returns for a page table. *)
Lemma dumb_kmalloc_run k size :
  0 <= temp_mem (vmm k) -> 0 <= size -> temp_mem (vmm k) + size + 4096 < 4294967296 ->
  dumb_kmalloc size 1 k =
    Done (next_table k, upd_vmm (set_temp_mem (temp_mem (vmm k) + size)) k).
Proof.
  intros Ht Hs Hmax. unfold dumb_kmalloc. cbv [mbind M_bind gets modify mret M_ret].
  destruct (align_macros (temp_mem (vmm k)) ltac:(lia) ltac:(lia)) as (_ & _ & ->).
  cbn [negb andb Z.eqb]. rewrite align_value by lia. do 2 f_equal.
  unfold upd_vmm. by rewrite u32_small by lia.
Qed.

Lemma wp_allocate_page_table kma k dir i ik iw (Q : Z -> kernel -> Prop) :
  boot_room k dir -> temp_mem (vmm k) + 8192 < 4294967296 -> 0 <= i < 1024 ->
  (forall m',
     table_bytes k m' dir i (mk_pde ((next_table k - KERN_BASE) / 4096) ik iw (pde k dir i)) ->
     Q (next_table k) (set_mem m' (upd_vmm (set_temp_mem (temp_mem (vmm k) + 4096)) k))) ->
  wp (allocate_page_table kma dir i ik iw) Q k.
Proof.
  intros [Hh Hp Ht Hd Hb Htb] Hmax Hi HQ.
  assert (HT : KERN_BASE < next_table k /\ next_table k + 4096 <= 4294967296)
    by (unfold next_table, KERN_BASE in *; word_lia).
  assert (Hkb : 0 <= KERN_BASE) by done.
  unfold allocate_page_table. vsteps. rewrite Hh. vsteps.
  eapply wp_done; [apply dumb_kmalloc_run; unfold SIZEOF_PAGE_TABLE; lia|].
  unfold SIZEOF_PAGE_TABLE. set (k1 := upd_vmm _ k) in *.
  assert (Hm : mem k1 = mem k) by done.
  assert (Hp1 : forall m, paging_enabled (vmm (set_mem m k1)) = 0) by (intros; exact Hp).
  clearbody k1.
  wp_step. simple apply wp_memset; [lia|]. rewrite Hm. intros m1 H1. vsteps.
  unfold virt2phys. vsteps. rewrite Hp1. vsteps.
  rewrite u32_small, Z.shiftr_div_pow2 by lia. change (2 ^ 12) with 4096.
  assert (Hpde : ld32 m1 (dir_tables dir i) = pde k dir i).
  { eapply filled_ne; [exact H1|].
    unfold disjoint, dir_tables, SIZEOF_PAGE_DIRECTORY in *. lia. }
  simple apply wp_store_f; [solve_field_ok|]. rewrite mem_set_mem, Hpde. intros m2 H2.
  rewrite set_mem_set_mem. do 4 (wp_step;
    simple eapply wp_store_f_upd; [solve_field_ok | eassumption |]; intros ? ?).
  wp_step. apply wp_store32. vsteps. rewrite mem_set_mem, set_mem_set_mem.
  apply HQ. rewrite mk_pde_unfold.
  eapply table_bytes_intro; [exact H1 | | exact Hi | exact Hd | lia].
  match goal with H : upd_word m1 _ _ _ |- _ => exact H end.
Qed.

(** The bytes of the new table give the new page map. *)
Lemma table_bytes_added k m' dir i ik iw :
  boot_room k dir -> vm_layout k dir -> temp_mem (vmm k) + 8192 < 4294967296 ->
  0 <= i < 1024 -> ref k dir i = 0 ->
  table_bytes k m' dir i (mk_pde ((next_table k - KERN_BASE) / 4096) ik iw (pde k dir i)) ->
  table_added k (set_mem m' (upd_vmm (set_temp_mem (temp_mem (vmm k) + 4096)) k)) dir i ik iw.
Proof.
  intros [Hh Hp Ht Hd Hb Htb] [Hldir Hltbl Hlsep] Hmax Hi Hr0 [Hz Hpde Href Ho].
  set (k' := set_mem m' _). set (T := next_table k) in *.
  assert (Hm' : mem k' = m') by apply mem_set_mem.
  assert (HT' : next_table k' = T + 4096) by (unfold T, next_table; simpl; word_lia).
  assert (HT : KERN_BASE < T) by (unfold T, next_table, KERN_BASE in *; word_lia).
  unfold KERN_BASE, SIZEOF_PAGE_DIRECTORY, SIZEOF_PAGE_TABLE, disjoint in *.
  assert (Hrefs : forall j, 0 <= j < 1024 -> ref k' dir j = if j =? i then T else ref k dir j).
  { intros j Hj. unfold ref. rewrite Hm'. destruct (Z.eqb_spec j i) as [->|Hne]; [exact Href|].
    apply ld32_ext. intros a Ha. unfold dir_tables, dir_ref_tables in *. apply Ho; lia. }
  split.
  - exact Hrefs.
  - intros j Hj. unfold pde. rewrite Hm'. destruct (Z.eqb_spec j i) as [->|Hne]; [exact Hpde|].
    apply ld32_ext. intros a Ha. unfold dir_tables, dir_ref_tables in *. apply Ho; lia.
  - intros n Hn. destruct (npages_index n Hn) as [Hi' Hj']. unfold entry.
    rewrite Hrefs by exact Hi'. unfold entry_addr. rewrite Hrefs by exact Hi'. rewrite Hm'.
    destruct (Z.eqb_spec (n / 1024) i) as [He|Hne].
    + rewrite He, Hr0. rewrite (proj2 (Z.eqb_neq T 0)) by lia.
      apply ld32_zero. intros a Ha. apply Hz. unfold tbl_pages in Ha. lia.
    + destruct (Z.eqb_spec (ref k dir (n / 1024)) 0) as [|Hrn]; [done|].
      apply ld32_ext. intros a Ha. unfold tbl_pages, dir_tables, dir_ref_tables in *.
      specialize (Htb _ Hi' Hrn). specialize (Hltbl _ Hi' Hrn). apply Ho; lia.
  - split.
    + exact Hldir.
    + intros j Hj. rewrite Hrefs by exact Hj. destruct (j =? i); intros Hne.
      * change (bm_size k') with (bm_size k). change (pmm k') with (pmm k). unfold disjoint,
          SIZEOF_PAGE_TABLE, SIZEOF_PAGE_DIRECTORY. lia.
      * exact (Hltbl j Hj Hne).
    + intros j j' Hj Hj' Hne. rewrite !Hrefs by done. unfold disjoint, SIZEOF_PAGE_TABLE.
      destruct (Z.eqb_spec j i), (Z.eqb_spec j' i); intros Hr Hr'; [lia | | |].
      * specialize (Htb _ Hj' Hr'). lia.
      * specialize (Htb _ Hj Hr). lia.
      * exact (Hlsep j j' Hj Hj' Hne Hr Hr').
  - intros c Hc. unfold blk_used. f_equal. rewrite Hm'.
    change (pmm k') with (pmm k). apply ld32_ext. intros a Ha.
    assert (pmm_bitmap (pmm k) <= a < pmm_bitmap (pmm k) + bm_size k)
      by (unfold bitmap_word, bm_size, scanned in *; word_lia).
    unfold dir_tables, dir_ref_tables in *. apply Ho; lia.
  - split; [done | done | | | |].
    + simpl. unfold KERN_BASE. lia.
    + rewrite HT'. unfold SIZEOF_PAGE_DIRECTORY. lia.
    + rewrite HT'. change (bm_size k') with (bm_size k). change (pmm k') with (pmm k). lia.
    + intros j Hj. rewrite HT', Hrefs by exact Hj. unfold SIZEOF_PAGE_TABLE.
      destruct (j =? i); intros Hr; [lia|]. specialize (Htb _ Hj Hr). lia.
Qed.

(** ** Mapping a page *)

(** Everything [allocate_page] may change for page [n] of [dir]. *)
Record page_allocated (k k' : kernel) (dir n frame b ik iw : Z) : Prop := {
  pa_entry n' : 0 <= n' < NPAGES ->
    entry k' dir n' = if n' =? n then mk_pte (chosen_frame frame b) ik iw (entry k dir n)
                      else entry k dir n';
  pa_ref j : 0 <= j < 1024 ->
    ref k' dir j = if (j =? n / 1024) && (ref k dir j =? 0) then next_table k else ref k dir j;
  pa_pde j : 0 <= j < 1024 ->
    pde k' dir j = if (j =? n / 1024) && (ref k dir j =? 0)
                   then mk_pde ((next_table k - KERN_BASE) / 4096) ik iw (pde k dir j)
                   else pde k dir j;
  pa_layout : vm_layout k' dir;
  pa_used c : 0 <= c < scanned k ->
    blk_used k' c = (if frame =? 0 then c =? b else false) || blk_used k c;
  pa_pmm : pmm k' = if frame =? 0 then set_used_blocks (used_blocks (pmm k) + 1) (pmm k) else pmm k;
  pa_vmm : vmm k' = if ref k dir (n / 1024) =? 0
                    then set_temp_mem (temp_mem (vmm k) + 4096) (vmm k) else vmm k;
  pa_rest : heap k' = heap k /\ k_log k' = k_log k /\ k_isr k' = k_isr k;
}.

Lemma after_frame_pmm frame b k :
  (frame = 0 -> pmm_ready k b) ->
  pmm (after_frame frame b k) =
    if frame =? 0 then set_used_blocks (used_blocks (pmm k) + 1) (pmm k) else pmm k.
Proof.
  intros Hb. unfold after_frame. destruct (Z.eqb_spec frame 0) as [He|]; [|done].
  destruct (Hb He) as [Hm Hu _]. simpl. by rewrite u32_small by lia.
Qed.

Lemma after_frame_used frame b k c :
  (frame = 0 -> pmm_ready k b) -> 0 <= c ->
  blk_used (after_frame frame b k) c = (if frame =? 0 then c =? b else false) || blk_used k c.
Proof.
  intros Hb Hc. unfold after_frame. destruct (Z.eqb_spec frame 0) as [He|]; [|done].
  apply blk_used_set; [|done]. destruct (pmm_ready_block k b (Hb He)). lia.
Qed.

Lemma va_page va : 0 <= va < 4294967296 -> 0 <= va / PAGE_SIZE < NPAGES.
Proof. unfold PAGE_SIZE, NPAGES. intros. word_lia. Qed.

(** The page table of [va] exists. *)
Lemma wp_allocate_page_mapped kma k dir va frame b ik iw (Q : unit -> kernel -> Prop) :
  dir <> 0 -> 0 <= va < 4294967296 -> vm_layout k dir ->
  ref k dir (va / PAGE_SIZE / 1024) <> 0 ->
  get_f f_present (entry k dir (va / PAGE_SIZE)) = 0 ->
  (frame = 0 -> pmm_ready k b) ->
  (forall k', page_allocated k k' dir (va / PAGE_SIZE) frame b ik iw -> Q tt k') ->
  wp (allocate_page kma dir va frame ik iw) Q k.
Proof.
  intros Hdir Hva Hl Ht Hp Hb HQ. pose proof (va_page va Hva) as Hn.
  unfold allocate_page. rewrite (proj2 (Z.eqb_neq dir 0)) by done. vsteps.
  rewrite pagedir_index, pagetbl_index by lia. fold (ref k dir (va / PAGE_SIZE / 1024)).
  rewrite (proj2 (Z.eqb_neq _ 0)) by done. vsteps.
  eapply wp_page_entry; [exact Hl | exact Hn | exact Ht | exact Hp | exact Hb |].
  intros m' k' [Hr Hpd He Hl'] Hu. apply HQ. subst k'. split.
  - exact He.
  - intros j Hj. rewrite Hr by exact Hj.
    destruct (Z.eqb_spec j (va / PAGE_SIZE / 1024)) as [->|]; [|done].
    by rewrite (proj2 (Z.eqb_neq _ 0)) by done.
  - intros j Hj. rewrite Hpd by exact Hj.
    destruct (Z.eqb_spec j (va / PAGE_SIZE / 1024)) as [->|]; [|done].
    by rewrite (proj2 (Z.eqb_neq _ 0)) by done.
  - exact Hl'.
  - intros c Hc. rewrite Hu by exact Hc. apply after_frame_used; [exact Hb | lia].
  - rewrite <- (after_frame_pmm _ _ _ Hb). done.
  - rewrite (proj2 (Z.eqb_neq _ 0)) by done. unfold after_frame. by destruct (frame =? 0).
  - unfold after_frame. by destruct (frame =? 0).
Qed.

Lemma table_added_ready k m' g dir i ik iw b :
  table_added k (set_mem m' (upd_vmm g k)) dir i ik iw ->
  pmm_ready k b -> pmm_ready (set_mem m' (upd_vmm g k)) b.
Proof.
  intros Hta [Hm Hu [Hb Hf Hlow]]. split; [exact Hm | exact Hu |]. split; [exact Hb | |].
  - rewrite (ta_used _ _ _ _ _ _ Hta) by exact Hb. exact Hf.
  - intros c Hc. rewrite (ta_used _ _ _ _ _ _ Hta) by lia. by apply Hlow.
Qed.

(** Before the heap is on, whether or not the page table of [va] exists. *)
Lemma wp_allocate_page_boot kma k dir va frame b ik iw (Q : unit -> kernel -> Prop) :
  dir <> 0 -> 0 <= va < 4294967296 -> vm_layout k dir -> boot_room k dir ->
  (ref k dir (va / PAGE_SIZE / 1024) = 0 -> temp_mem (vmm k) + 8192 < 4294967296) ->
  get_f f_present (entry k dir (va / PAGE_SIZE)) = 0 ->
  (frame = 0 -> pmm_ready k b) ->
  (forall k', page_allocated k k' dir (va / PAGE_SIZE) frame b ik iw -> Q tt k') ->
  wp (allocate_page kma dir va frame ik iw) Q k.
Proof.
  intros Hdir Hva Hl Hroom Hmax Hp Hb HQ. pose proof (va_page va Hva) as Hn.
  destruct (npages_index _ Hn) as [Hi _].
  destruct (decide (ref k dir (va / PAGE_SIZE / 1024) = 0)) as [Hr0|Hr];
    [|by eapply wp_allocate_page_mapped].
  specialize (Hmax Hr0). unfold allocate_page. rewrite (proj2 (Z.eqb_neq dir 0)) by done. vsteps.
  rewrite pagedir_index, pagetbl_index by lia. fold (ref k dir (va / PAGE_SIZE / 1024)).
  rewrite Hr0. vsteps.
  eapply wp_allocate_page_table; [exact Hroom | exact Hmax | exact Hi |]. intros m' Htb.
  apply (table_bytes_added k m' dir _ _ _ Hroom Hl Hmax Hi Hr0) in Htb.
  set (g := set_temp_mem (temp_mem (vmm k) + 4096)) in *. set (k1 := set_mem m' (upd_vmm g k)) in *.
  pose proof (fun H => table_added_ready k m' g dir _ _ _ b Htb (Hb H)) as Hb1. fold k1 in Hb1.
  destruct Htb as [Hr1 Hpd1 He1 Hl1 Hu1 Hroom1].
  assert (Hnext : ref k1 dir (va / PAGE_SIZE / 1024) = next_table k)
    by (rewrite Hr1 by exact Hi; by rewrite Z.eqb_refl).
  assert (Hne : next_table k <> 0).
  { destruct Hroom as [_ _ Ht _ _ _]. unfold next_table, KERN_BASE in *. word_lia. }
  rewrite <- Hnext. eapply wp_page_entry;
    [exact Hl1 | exact Hn | by rewrite Hnext | by rewrite He1 | exact Hb1 |].
  intros m2 k2 [Hr2 Hpd2 He2 Hl2] Hu2. apply HQ. subst k2. split.
  - intros n' Hn'. rewrite He2 by exact Hn'. rewrite !He1 by done. done.
  - intros j Hj. rewrite Hr2, Hr1 by exact Hj.
    destruct (Z.eqb_spec j (va / PAGE_SIZE / 1024)) as [->|]; [by rewrite Hr0 | done].
  - intros j Hj. rewrite Hpd2, Hpd1 by exact Hj.
    destruct (Z.eqb_spec j (va / PAGE_SIZE / 1024)) as [->|]; [by rewrite Hr0 | done].
  - exact Hl2.
  - intros c Hc. rewrite Hu2 by exact Hc. rewrite after_frame_used by (exact Hb1 || lia).
    f_equal. by apply Hu1.
  - transitivity (pmm (after_frame frame b k1)); [done|]. by rewrite (after_frame_pmm _ _ _ Hb1).
  - rewrite Hr0. unfold after_frame. by destruct (frame =? 0).
  - unfold after_frame. by destruct (frame =? 0).
Qed.

(** ** Translation *)

Lemma get_frame_range w : 0 <= get_f f_frame w < 1048576.
Proof.
  unfold get_f, f_frame. simpl. rewrite field_mod by lia. change (2 ^ 20) with 1048576.
  apply Z.mod_pos_bound. lia.
Qed.

(** The message [virt2phys] prints when it fails. *)
Definition v2p_message (k : kernel) (dir va : Z) : string :=
  if ref k dir (va / PAGE_SIZE / 1024) =? 0 then "%s: page dir entry does not exist\n"
  else "%s: page table entry does not exist\n".

(** C27: with paging on, [virt2phys] computes the translation of the page
    tables; on an unmapped address it prints one message, changes nothing else
    and returns 0. *)
Theorem virt2phys_translate k dir va :
  paging_enabled (vmm k) <> 0 -> 0 <= va < 4294967296 ->
  virt2phys dir va k =
    match translate k dir va with
    | Some p => Done (p, k)
    | None => Done (0, logged (Kprintf (v2p_message k dir va)) k)
    end.
Proof.
  intros Hp Hva.
  assert (Hwp : wp (virt2phys dir va) (fun p k' =>
    Done (p, k') = match translate k dir va with
                   | Some p => Done (p, k)
                   | None => Done (0, logged (Kprintf (v2p_message k dir va)) k)
                   end) k).
  { unfold virt2phys. vsteps. rewrite (proj2 (Z.eqb_neq _ 0)) by done. vsteps.
    rewrite pagedir_index, pagetbl_index by lia. fold (ref k dir (va / PAGE_SIZE / 1024)).
    fold (entry_addr k dir (va / PAGE_SIZE)). unfold translate, entry, v2p_message.
    destruct (Z.eqb_spec (ref k dir (va / PAGE_SIZE / 1024)) 0) as [|Ht]; vsteps; [done|].
    destruct (get_f f_present (ld32 (mem k) (entry_addr k dir (va / PAGE_SIZE))) =? 0); vsteps; [done|].
    pose proof (get_frame_range (ld32 (mem k) (entry_addr k dir (va / PAGE_SIZE)))) as Hf.
    rewrite pageframe_index, Z.shiftl_mul_pow2 by lia. change (2 ^ 12) with PAGE_SIZE.
    unfold PAGE_SIZE in *. pose proof (Z.mod_pos_bound va 4096).
    rewrite (u32_small (_ * _)), u32_small by lia. done. }
  apply wp_run in Hwp as (p & k' & -> & ->). done.
Qed.

Lemma translate_ext k k' dir va :
  entry k' dir (va / PAGE_SIZE) = entry k dir (va / PAGE_SIZE) ->
  translate k' dir va = translate k dir va.
Proof. unfold translate. by intros ->. Qed.

(** C2: for a page that is not present but has a page table, [allocate_page]
    makes the page translate to the frame it is given, or to the lowest free
    physical block when [frame] is 0, with the requested protection; no other
    page changes and only that block is marked. *)
Theorem allocate_page_maps kma k dir va frame b is_kernel is_writable :
  dir <> 0 -> 0 <= va < 4294967296 -> 0 <= frame < NPAGES -> vm_layout k dir ->
  ref k dir (va / PAGE_SIZE / 1024) <> 0 -> translate k dir va = None ->
  (frame = 0 -> pmm_ready k b) ->
  exists k',
    allocate_page kma dir va frame is_kernel is_writable k = Done (tt, k') /\
    translate k' dir va = Some ((if frame =? 0 then b else frame) * PAGE_SIZE + va mod PAGE_SIZE) /\
    get_f f_rw (entry k' dir (va / PAGE_SIZE)) = of_bool (negb (is_writable =? 0)) /\
    get_f f_user (entry k' dir (va / PAGE_SIZE)) = of_bool (is_kernel =? 0) /\
    (forall va', 0 <= va' < 4294967296 -> va' / PAGE_SIZE <> va / PAGE_SIZE ->
       translate k' dir va' = translate k dir va') /\
    (forall c, 0 <= c < scanned k ->
       blk_used k' c = (if frame =? 0 then c =? b else false) || blk_used k c) /\
    vm_layout k' dir.
Proof.
  intros Hdir Hva Hfr Hl Ht Htr Hb. pose proof (va_page va Hva) as Hn.
  apply wp_unit. eapply wp_allocate_page_mapped with (b := b); [done..| |exact Hb|].
  { unfold translate in Htr. destruct (Z.eqb_spec (get_f f_present (entry k dir (va / PAGE_SIZE))) 0); done. }
  intros k' [He _ _ Hl' Hu _ _ _]. pose proof (He _ Hn) as Hen. rewrite Z.eqb_refl in Hen.
  destruct (mk_pte_fields (chosen_frame frame b) is_kernel is_writable (entry k dir (va / PAGE_SIZE)))
    as (Hf1 & Hf2 & Hf3 & Hf4).
  split_and!.
  - unfold translate. rewrite Hen, Hf1, Hf2. cbn [Z.eqb]. do 2 f_equal.
    change (2 ^ 20) with NPAGES. unfold chosen_frame.
    destruct (Z.eqb_spec frame 0) as [H0|]; [|rewrite Z.mod_small by lia; done].
    pose proof (pmm_ready_block k b (Hb H0)). rewrite Z.mod_small by lia. done.
  - by rewrite Hen.
  - by rewrite Hen.
  - intros va' Hva' Hne. apply translate_ext. rewrite He by (by apply va_page).
    by rewrite (proj2 (Z.eqb_neq _ _)).
  - exact Hu.
  - exact Hl'.
Qed.

(** A page that is present keeps its entry: [allocate_page] does nothing. *)
Lemma allocate_page_present kma k dir va frame ik iw p :
  dir <> 0 -> 0 <= va < 4294967296 -> translate k dir va = Some p ->
  allocate_page kma dir va frame ik iw k = Done (tt, k).
Proof.
  intros Hdir Hva Htr. apply wp_done_inv. unfold allocate_page.
  rewrite (proj2 (Z.eqb_neq dir 0)) by done. vsteps.
  rewrite pagedir_index, pagetbl_index by lia. fold (ref k dir (va / PAGE_SIZE / 1024)).
  assert (Hp : get_f f_present (entry k dir (va / PAGE_SIZE)) <> 0).
  { unfold translate in Htr. by destruct (Z.eqb_spec (get_f f_present (entry k dir (va / PAGE_SIZE))) 0). }
  assert (Ht : ref k dir (va / PAGE_SIZE / 1024) <> 0).
  { intros H0. apply Hp. unfold entry. by rewrite H0. }
  rewrite (proj2 (Z.eqb_neq _ 0)) by done. vsteps.
  by apply wp_page_entry_present.
Qed.

(** ** Unmapping a page *)

Lemma same_map_unset_block k dir b :
  vm_layout k dir -> 0 <= b < scanned k -> same_map k (unset_block b k) dir.
Proof.
  intros [Hd Ht _] Hb. apply same_map_frame. unfold unset_block. simpl. apply same_on_st32.
  intros a Ha. unfold bitmap_word, scanned in *.
  assert (Hin : pmm_bitmap (pmm k) <= a < pmm_bitmap (pmm k) + bm_size k)
    by (unfold bm_size; word_lia).
  intros [Hdir|(i & Hi & Hne & Htbl)].
  - unfold disjoint in Hd. lia.
  - destruct (Ht i Hi Hne) as [_ Hdb]. unfold disjoint in Hdb. lia.
Qed.

(** The state in which [free_page] clears the entry. *)
Definition after_release (free frame : Z) (k : kernel) : kernel :=
  if free =? 0 then k else unset_block frame k.

Definition cleared (w : Z) : Z := set_f f_frame 0 (set_f f_present 0 w).

Lemma cleared_present w : get_f f_present (cleared w) = 0.
Proof.
  unfold cleared. rewrite get_set_f_ne by solve_field_ok. by rewrite get_set_f by solve_field_ok.
Qed.

#[global] Opaque cleared.

Lemma wp_free_page `{Linker} k dir va free (Q : unit -> kernel -> Prop) :
  dir <> ld32 (mem k) boot_page_dir -> 0 <= va < 4294967296 -> vm_layout k dir ->
  let n := va / PAGE_SIZE in
  let frame := get_f f_frame (entry k dir n) in
  get_f f_present (entry k dir n) <> 0 ->
  (free <> 0 -> frame < scanned k) ->
  (forall m',
     let k' := set_mem m' (after_release free frame k) in
     page_set k k' dir n (cleared (entry k dir n)) ->
     (forall c, 0 <= c < scanned k -> blk_used k' c = blk_used (after_release free frame k) c) ->
     Q tt k') ->
  wp (free_page dir va free) Q k.
Proof.
  intros Hboot Hva Hl n frame Hp Hfr HQ. pose proof (va_page va Hva) as Hn. fold n in Hn.
  pose proof (get_frame_range (entry k dir n)) as Hfrr. fold frame in Hfrr.
  assert (Ht : ref k dir (n / 1024) <> 0).
  { intros H0. apply Hp. unfold entry. by rewrite H0. }
  set (k1 := after_release free frame k) in *.
  assert (Hsm : same_map k k1 dir).
  { unfold k1, after_release. destruct (Z.eqb_spec free 0); [by split|].
    apply same_map_unset_block; [exact Hl | lia]. }
  pose proof (sm_ref _ _ _ Hsm) as Hr. destruct (npages_index n Hn) as [Hi _].
  assert (Hl1 : vm_layout k1 dir).
  { eapply vm_layout_same; [exact Hl | exact Hr | |]; unfold k1, after_release; by destruct (free =? 0). }
  assert (Ht1 : ref k1 dir (n / 1024) <> 0) by (by rewrite Hr).
  assert (Ha : entry_addr k1 dir n = entry_addr k dir n) by (unfold entry_addr; by rewrite Hr).
  assert (Hsc : scanned k1 = scanned k) by (unfold k1, after_release; by destruct (free =? 0)).
  assert (Hw : ld32 (mem k1) (entry_addr k dir n) = entry k dir n).
  { rewrite <- (sm_entry _ _ _ Hsm) by exact Hn. rewrite <- Ha. by rewrite entry_ld32. }
  unfold free_page. vsteps. rewrite (proj2 (Z.eqb_neq dir _)) by done. vsteps.
  rewrite pagedir_index, pagetbl_index by lia. fold n. fold (ref k dir (n / 1024)).
  rewrite (proj2 (Z.eqb_neq _ 0)) by done. fold (entry_addr k dir n). vsteps.
  rewrite <- entry_ld32 by done. rewrite (proj2 (Z.eqb_neq _ 0)) by done. vsteps.
  apply (wp_mono _ (fun _ k2 => k2 = k1)).
  { unfold k1, after_release. destruct (Z.eqb_spec free 0); vsteps; [done|].
    rewrite <- entry_ld32 by done. fold frame. apply wp_pmm_free.
    unfold PMM_BLOCK_SIZE, PAGE_SIZE. rewrite u32_small, Z.div_mul by lia. done. }
  intros [] k2 ->. clearbody k1. vsteps.
  simple apply wp_store_f; [solve_field_ok|]. intros m1 H1.
  simple eapply wp_store_f_upd; [solve_field_ok | exact H1 |]. intros m2 H2. rewrite Hw in H2.
  rewrite <- Ha in H2. apply HQ.
  - eapply page_set_same_map; [exact Hsm | exact Hn |]. apply page_set_upd; [done..|].
    Transparent cleared. exact H2. Opaque cleared.
  - intros c Hc. eapply blk_used_upd_entry; [exact Hl1 | exact Hn | exact Ht1 | exact H2 |].
    by rewrite Hsc.
Qed.

(** C24: [free_page] on a mapped page makes exactly that page untranslated; with
    a non-zero [free] it also clears the bit of the physical block the page was
    mapped to, and no other bit. *)
Theorem free_page_unmaps `{Linker} k dir va p free :
  dir <> ld32 (mem k) boot_page_dir -> 0 <= va < 4294967296 -> vm_layout k dir ->
  translate k dir va = Some p -> (free <> 0 -> p / PAGE_SIZE < scanned k) ->
  exists k',
    free_page dir va free k = Done (tt, k') /\
    translate k' dir va = None /\
    (forall va', 0 <= va' < 4294967296 -> va' / PAGE_SIZE <> va / PAGE_SIZE ->
       translate k' dir va' = translate k dir va') /\
    (forall c, 0 <= c < scanned k ->
       blk_used k' c = (if free =? 0 then true else negb (c =? p / PAGE_SIZE)) && blk_used k c) /\
    vm_layout k' dir.
Proof.
  intros Hboot Hva Hl Htr Hfr. pose proof (va_page va Hva) as Hn.
  assert (Hp : get_f f_present (entry k dir (va / PAGE_SIZE)) <> 0 /\
               p / PAGE_SIZE = get_f f_frame (entry k dir (va / PAGE_SIZE))).
  { unfold translate in Htr.
    destruct (Z.eqb_spec (get_f f_present (entry k dir (va / PAGE_SIZE))) 0) as [|Hne]; [done|].
    injection Htr as <-. split; [done|]. unfold PAGE_SIZE. word_lia. }
  destruct Hp as [Hp Hpf]. rewrite Hpf in *.
  apply wp_unit. eapply wp_free_page; [exact Hboot | exact Hva | exact Hl | exact Hp | exact Hfr |].
  intros m' k' [_ _ He Hl'] Hu. split_and!.
  - unfold translate. rewrite He by exact Hn. rewrite Z.eqb_refl. by rewrite cleared_present.
  - intros va' Hva' Hne. apply translate_ext. rewrite He by (by apply va_page).
    by rewrite (proj2 (Z.eqb_neq _ _)).
  - intros c Hc. rewrite Hu by exact Hc. unfold after_release.
    destruct (free =? 0); [done|]. apply blk_used_unset; [|lia].
    apply get_frame_range.
  - exact Hl'.
Qed.
