(* ===== verification/VmmCopy.v ===== *)
(** * copy_page_directory of memory/vmm.c on the tables of the kernel

    The scheduler copies the current directory for every new task.  Where the source
    has the page tables of the kernel directory, which is the case for every directory
    the kernel builds itself, the copy shares them. *)

From S2P Require Export VmmSpec.

Section copy.
Context `{Linker} (kmalloc_a : Z -> M kernel Z).
Context (dst src : Z).

(** The source has the page tables of the kernel. *)
Definition kernel_tables (k : kernel) : Prop :=
  forall i, 0 <= i < 1024 -> ref k src i = ref k (kernel_page_dir (vmm k)) i.

(** The first [n] entries are copied, and nothing else is written. *)
Record copied (m m' : memory) (n : Z) : Prop := {
  cp_tables j : 0 <= j < n -> ld32 m' (dir_tables dst j) = ld32 m (dir_tables src j);
  cp_refs j : 0 <= j < n -> ld32 m' (dir_ref_tables dst j) = ld32 m (dir_ref_tables src j);
  cp_rest a : a < dst \/ dst + SIZEOF_PAGE_DIRECTORY <= a -> ld8 m' a = ld8 m a;
}.

Lemma copied_ld32 m m' n a : copied m m' n -> disjoint dst SIZEOF_PAGE_DIRECTORY a 4 -> ld32 m' a = ld32 m a.
Proof. intros Hc Hd. apply ld32_ext. intros b Hb. apply (cp_rest _ _ _ Hc). unfold disjoint in Hd. lia. Qed.

(** Storing both words of entry [n]. *)
Lemma copied_step m m' n :
  0 <= n < 1024 -> copied m m' n ->
  copied m (st32 (st32 m' (dir_tables dst n) (ld32 m (dir_tables src n))) (dir_ref_tables dst n) (ld32 m (dir_ref_tables src n))) (n + 1).
Proof.
  intros Hn [H1 H2 H3]. split; unfold dir_tables, dir_ref_tables, SIZEOF_PAGE_DIRECTORY in *.
  - intros j Hj. rewrite ld32_st32_ne by (unfold disjoint; lia). destruct (decide (j = n)) as [->|Hne].
    + by rewrite ld32_st32_eq, u32_ld32.
    + rewrite ld32_st32_ne by (unfold disjoint; lia). apply H1. lia.
  - intros j Hj. destruct (decide (j = n)) as [->|Hne]; [by rewrite ld32_st32_eq, u32_ld32|].
    rewrite !ld32_st32_ne by (unfold disjoint; lia). apply H2. lia.
  - intros a Ha. rewrite !ld8_st32_ne by lia. by apply H3.
Qed.

Lemma wp_copy_page_directory k (Q : unit -> kernel -> Prop) :
  kernel_tables k -> disjoint dst SIZEOF_PAGE_DIRECTORY src SIZEOF_PAGE_DIRECTORY ->
  disjoint dst SIZEOF_PAGE_DIRECTORY (kernel_page_dir (vmm k)) SIZEOF_PAGE_DIRECTORY ->
  (forall m', copied (mem k) m' 1024 -> Q tt (set_mem m' k)) ->
  wp (copy_page_directory kmalloc_a dst src) Q k.
Proof.
  intros Hk Hs Hd HQ. unfold copy_page_directory.
  apply (wp_for_loop (fun n k' => exists m', k' = set_mem m' k /\ copied (mem k) m' n)).
  - exists (mem k). split; [by rewrite set_mem_mem|]. split; [intros j Hj; lia | intros j Hj; lia | done].
  - intros n k' Hn (m' & -> & Hc). unfold copy_dir_entry. kstep. kstep. kstep. kstep. kstep. kstep.
    rewrite mem_set_mem. change (kernel_page_dir (vmm (set_mem m' k))) with (kernel_page_dir (vmm k)).
    assert (Hsub : forall d x, disjoint dst SIZEOF_PAGE_DIRECTORY d SIZEOF_PAGE_DIRECTORY -> d <= x -> x + 4 <= d + SIZEOF_PAGE_DIRECTORY ->
      ld32 m' x = ld32 (mem k) x) by (intros d x Hdd H1 H2; apply (copied_ld32 _ _ _ _ Hc); unfold disjoint in *; lia).
    pose proof (Hk n ltac:(lia)) as Href. unfold ref in Href.
    rewrite !(Hsub src (dir_ref_tables src n)) by (first [exact Hs | unfold dir_ref_tables, SIZEOF_PAGE_DIRECTORY; lia]).
    rewrite (Hsub (kernel_page_dir (vmm k)) (dir_ref_tables (kernel_page_dir (vmm k)) n)) by (first [exact Hd | unfold dir_ref_tables, SIZEOF_PAGE_DIRECTORY; lia]).
    rewrite <- Href, Z.eqb_refl. do 4 kstep. rewrite !mem_set_mem, !set_mem_set_mem.
    rewrite !(Hsub src (dir_tables src n)) by (first [exact Hs | unfold dir_tables, SIZEOF_PAGE_DIRECTORY; lia]).
    eexists. split; [reflexivity|]. apply copied_step; [lia | exact Hc].
  - intros k' (m' & -> & Hc). by apply HQ.
Qed.

(** C30: [copy_page_directory] of a directory with the kernel's page tables shares every
    one of them: the copy translates each address as the source does, the two have
    the same page table for every 4 MB, so that a page mapped through one of them is
    mapped through the other, and nothing outside the copy is written. *)
Theorem copy_page_directory_shares k :
  kernel_tables k -> disjoint dst SIZEOF_PAGE_DIRECTORY src SIZEOF_PAGE_DIRECTORY ->
  disjoint dst SIZEOF_PAGE_DIRECTORY (kernel_page_dir (vmm k)) SIZEOF_PAGE_DIRECTORY ->
  (forall i, 0 <= i < 1024 -> ref k src i <> 0 -> disjoint dst SIZEOF_PAGE_DIRECTORY (ref k src i) SIZEOF_PAGE_TABLE) ->
  exists k', copy_page_directory kmalloc_a dst src k = Done (tt, k') /\
    (forall va, 0 <= va < 4294967296 -> translate k' dst va = translate k src va /\ translate k' src va = translate k src va) /\
    (forall i, 0 <= i < 1024 -> ref k' dst i = ref k' src i /\ pde k' dst i = pde k' src i) /\
    (forall a, a < dst \/ dst + SIZEOF_PAGE_DIRECTORY <= a -> ld8 (mem k') a = ld8 (mem k) a).
Proof.
  intros Hk Hs Hd Ht. apply wp_unit. apply wp_copy_page_directory; [done..|]. intros m' Hc.
  assert (Hsrc : forall x, src <= x -> x + 4 <= src + SIZEOF_PAGE_DIRECTORY -> ld32 m' x = ld32 (mem k) x)
    by (intros x H1 H2; apply (copied_ld32 _ _ _ _ Hc); unfold disjoint in *; lia).
  assert (Hrs : forall i, 0 <= i < 1024 -> ref (set_mem m' k) src i = ref k src i).
  { intros i Hi. unfold ref. rewrite mem_set_mem. apply Hsrc; unfold dir_ref_tables, SIZEOF_PAGE_DIRECTORY; lia. }
  assert (Hrd : forall i, 0 <= i < 1024 -> ref (set_mem m' k) dst i = ref k src i)
    by (intros i Hi; unfold ref; rewrite mem_set_mem; by apply (cp_refs _ _ _ Hc)).
  assert (Hps : forall i, 0 <= i < 1024 -> pde (set_mem m' k) src i = pde k src i).
  { intros i Hi. unfold pde. rewrite mem_set_mem. apply Hsrc; unfold dir_tables, SIZEOF_PAGE_DIRECTORY; lia. }
  assert (Hen : forall d n, (forall i, 0 <= i < 1024 -> ref (set_mem m' k) d i = ref k src i) -> 0 <= n < 1048576 ->
    entry (set_mem m' k) d n = entry k src n).
  { intros d n Hr Hn. unfold entry, entry_addr. rewrite !Hr by (Z.div_mod_to_equations; lia).
    destruct (Z.eqb_spec (ref k src (n / 1024)) 0) as [|Hne]; [done|]. rewrite mem_set_mem. apply (copied_ld32 _ _ _ _ Hc).
    specialize (Ht (n / 1024) ltac:(Z.div_mod_to_equations; lia) Hne). pose proof (Z.mod_pos_bound n 1024 ltac:(lia)).
    unfold disjoint, tbl_pages, SIZEOF_PAGE_TABLE in *. lia. }
  split_and!.
  - intros va Hva. unfold translate. rewrite !Hen; [done | done | | done |]; unfold PAGE_SIZE; Z.div_mod_to_equations; lia.
  - intros i Hi. rewrite Hrd, Hrs by done. split; [done|]. rewrite Hps by done. unfold pde. rewrite mem_set_mem. by apply (cp_tables _ _ _ Hc).
  - intros a Ha. rewrite mem_set_mem. by apply (cp_rest _ _ _ Hc).
Qed.
End copy.
