(* ===== verification/VmmInit.v ===== *)
(** * The address space [vmm_init] builds

    The loops of [vmm_init] and [allocate_region] over the boot-time state
    ([boot_state]), and the theorem that the kernel starts with the linear
    mapping the rest of its code relies on. *)

From S2P Require Export VmmSpec.

(** ** Regions that reach the last page *)

(** a region whose end lies in the last page of the address space is never
    finished: [start] wraps to 0 before it can exceed [end]. *)
Theorem allocate_region_diverges kma fuel dir start_va end_va iden_map is_kernel is_writable k k' :
  0 <= start_va < 4294967296 -> 0xfffff000 <= end_va < 4294967296 ->
  allocate_region kma fuel dir start_va end_va iden_map is_kernel is_writable k <> Done (tt, k').
Proof.
  intros Hs He. unfold allocate_region. rewrite !page_mask by lia.
  replace (4096 * (end_va / 4096)) with 0xfffff000 by word_lia.
  assert (Hst : 0 <= 4096 * (start_va / 4096) <= 0xfffff000 /\ (4096 * (start_va / 4096)) mod 4096 = 0)
    by word_lia.
  revert Hst. generalize (4096 * (start_va / 4096)) as start. clear. revert k.
  induction fuel as [|fuel IH]; intros k start [Hst Hmod]; cbn [allocate_region_loop]; [done|].
  rewrite (proj2 (Z.leb_le _ _)) by lia. unfold mbind, M_bind.
  destruct (allocate_page _ _ _ _ _ _ k) as [[[] k1]| |]; [|done|done].
  apply IH. unfold PAGE_SIZE. word_lia.
Qed.

(** ** The boot-time state *)

(** The page map is [E]; directory slot [i] has a page table iff [tabs i]; the
    blocks below [U] are in use; [t0] is where the boot allocator started to
    hand out page tables. *)
Record boot_state (k : kernel) (dir t0 : Z) (E : Z -> Z) (tabs : Z -> bool) (U : Z) : Prop := {
  bs_dir : dir <> 0 /\ kernel_page_dir (vmm k) = dir;
  bs_layout : vm_layout k dir;
  bs_room : boot_room k dir;
  bs_temp : temp_mem (vmm k) = t0 + 4096 * countb tabs 1024;
  bs_tabs i : 0 <= i < 1024 -> (ref k dir i =? 0) = negb (tabs i);
  bs_sync i : 0 <= i < 1024 -> tabs i = true ->
    get_f f_present (pde k dir i) = 1 /\
    get_f f_frame (pde k dir i) = (ref k dir i - KERN_BASE) / PAGE_SIZE;
  bs_entry n : 0 <= n < NPAGES -> entry k dir n = E n;
  bs_max : 0 <= max_blocks (pmm k) <= 1048576;
  bs_used : used_blocks (pmm k) = U;
  bs_blocks c : 0 <= c < scanned k -> blk_used k c = (c <? U);
}.

(** What the mapping of pages leaves alone. *)
Record boot_kept (k k' : kernel) : Prop := {
  bk_scanned : scanned k' = scanned k;
  bk_log : k_log k' = k_log k;
  bk_isr : k_isr k' = k_isr k;
  bk_heap : heap k' = heap k;
  bk_regs : cr0 (vmm k') = cr0 (vmm k) /\ cr4 (vmm k') = cr4 (vmm k);
}.

#[export] Instance boot_kept_refl : Reflexive boot_kept.
Proof. by split. Qed.

#[export] Instance boot_kept_trans : Transitive boot_kept.
Proof. intros k1 k2 k3 [? ? ? ? []] [? ? ? ? []]. split; [congruence..|]. split; congruence. Qed.

Definition set_page (E : Z -> Z) (n v n' : Z) : Z := if n' =? n then v else E n'.
Definition set_tab (tabs : Z -> bool) (i i' : Z) : bool := (i' =? i) || tabs i'.

Lemma boot_state_ready k dir t0 E tabs U :
  boot_state k dir t0 E tabs U -> 0 <= U < scanned k -> pmm_ready k U.
Proof.
  intros Hs HU. pose proof (scanned_range k). pose proof (bs_max _ _ _ _ _ _ Hs).
  split; [done | rewrite (bs_used _ _ _ _ _ _ Hs); lia |].
  split; [done | |].
  - rewrite (bs_blocks _ _ _ _ _ _ Hs) by lia. lia.
  - intros c Hc. rewrite (bs_blocks _ _ _ _ _ _ Hs) by lia. lia.
Qed.

Lemma mk_pde_fields fr ik iw w :
  get_f f_present (mk_pde fr ik iw w) = 1 /\ get_f f_frame (mk_pde fr ik iw w) = fr mod 2 ^ 20.
Proof.
  destruct (mk_pte_fields fr ik iw w) as (H1 & H2 & _). Transparent mk_pde. unfold mk_pde. Opaque mk_pde.
  rewrite !get_set_f_ne by solve_field_ok. by rewrite H1, H2.
Qed.

Lemma countb_set_tab tabs i n :
  0 <= i < Z.of_nat n ->
  countb (set_tab tabs i) n = countb tabs n + (if tabs i then 0 else 1).
Proof.
  intros Hi. destruct (tabs i) eqn:Ht.
  - rewrite Z.add_0_r. apply countb_ext. intros j Hj. unfold set_tab.
    destruct (Z.eqb_spec j i) as [->|]; [by rewrite Ht | done].
  - apply (countb_flip _ _ _ i); [done | done | |].
    + unfold set_tab. by rewrite Z.eqb_refl.
    + intros j Hj Hne. unfold set_tab. by rewrite (proj2 (Z.eqb_neq j i)).
Qed.

(** Mapping a page keeps the room for the next table. *)
Lemma boot_room_allocated k k' dir n frame b ik iw :
  page_allocated k k' dir n frame b ik iw -> boot_room k dir -> 0 <= n / 1024 < 1024 ->
  boot_room k' dir.
Proof.
  intros [_ Hpr _ _ _ Hppm Hpv (Hh & _ & _)] [H1 H2 H3 H4 H5 H6] Hi.
  assert (Hbm : pmm_bitmap (pmm k') = pmm_bitmap (pmm k)) by (rewrite Hppm; by destruct (frame =? 0)).
  assert (Hsz : bm_size k' = bm_size k)
    by (unfold bm_size; rewrite Hppm; by destruct (frame =? 0)).
  assert (Hnext : next_table k' =
    next_table k + (if ref k dir (n / 1024) =? 0 then 4096 else 0)).
  { unfold next_table. rewrite Hpv. destruct (ref k dir (n / 1024) =? 0); [simpl; word_lia | lia]. }
  split.
  - by rewrite Hh.
  - rewrite Hpv. by destruct (ref k dir (n / 1024) =? 0).
  - rewrite Hpv. destruct (ref k dir (n / 1024) =? 0); [simpl; lia | done].
  - rewrite Hnext. destruct (ref k dir (n / 1024) =? 0); lia.
  - rewrite Hnext, Hbm, Hsz. destruct (ref k dir (n / 1024) =? 0); lia.
  - intros j Hj. rewrite Hpr, Hnext by exact Hj. unfold SIZEOF_PAGE_TABLE in *.
    destruct (Z.eqb_spec j (n / 1024)) as [->|]; simpl.
    + destruct (Z.eqb_spec (ref k dir (n / 1024)) 0); [lia|]. intros Hr. specialize (H6 _ Hi Hr). lia.
    + intros Hr. specialize (H6 _ Hj Hr). destruct (ref k dir (n / 1024) =? 0); lia.
Qed.

(** One [allocate_page] of the boot code. *)
Lemma boot_step kma k dir t0 E tabs U n frame ik iw (Q : unit -> kernel -> Prop) :
  boot_state k dir t0 E tabs U -> 0 <= n < NPAGES -> E n = 0 ->
  0 <= U -> (frame = 0 -> U < scanned k) ->
  temp_mem (vmm k) + 8192 < 4294967296 ->
  (forall k',
     boot_state k' dir t0 (set_page E n (mk_pte (chosen_frame frame U) ik iw 0))
       (set_tab tabs (n / 1024)) (if frame =? 0 then U + 1 else U) ->
     boot_kept k k' -> Q tt k') ->
  wp (allocate_page kma dir (n * PAGE_SIZE) frame ik iw) Q k.
Proof.
  intros Hs Hn HE HU Hfr Ht HQ. pose proof Hs as [[Hd Hkd] Hl Hroom Htemp Htabs Hsync He Hm Hused Hblk].
  destruct (npages_index n Hn) as [Hi _].
  assert (Hpg : n * PAGE_SIZE / PAGE_SIZE = n) by (by apply Z.div_mul).
  eapply wp_allocate_page_boot with (b := U); rewrite ?Hpg.
  - exact Hd.
  - unfold NPAGES, PAGE_SIZE in *. lia.
  - exact Hl.
  - exact Hroom.
  - intros _. exact Ht.
  - rewrite He, HE by exact Hn. done.
  - intros H0. apply (boot_state_ready _ _ _ _ _ _ Hs). specialize (Hfr H0). lia.
  - intros k' [Hpe Hpr Hpp Hpl Hpu Hppm Hpv (Hh & Hlog & Hisr)].
    assert (Hmax : max_blocks (pmm k') = max_blocks (pmm k)) by (rewrite Hppm; by destruct (frame =? 0)).
    assert (Hsc : scanned k' = scanned k) by (unfold scanned; by rewrite Hmax).
    pose proof (Htabs _ Hi) as Hti.
    assert (Hnt : next_table k <> 0 /\ 0 <= (next_table k - KERN_BASE) / 4096 < 1048576).
    { destruct Hroom as [_ _ Hb _ _ _]. unfold next_table, KERN_BASE in *. word_lia. }
    apply HQ; [|by split; [..|rewrite Hpv; destruct (ref k dir (n / 1024) =? 0)]]. split.
    + split; [done|]. rewrite Hpv. by destruct (ref k dir (n / 1024) =? 0).
    + exact Hpl.
    + exact (boot_room_allocated _ _ _ _ _ _ _ _
        (Build_page_allocated _ _ _ _ _ _ _ _ Hpe Hpr Hpp Hpl Hpu Hppm Hpv
           (conj Hh (conj Hlog Hisr))) Hroom Hi).
    + rewrite countb_set_tab by lia. rewrite Hpv, Hti.
      destruct (tabs (n / 1024)); cbn [negb temp_mem set_temp_mem]; rewrite Htemp; lia.
    + intros i Hi'. rewrite Hpr by exact Hi'. unfold set_tab.
      destruct (Z.eqb_spec i (n / 1024)) as [->|]; simpl; [|by apply Htabs].
      rewrite Hti. destruct (tabs (n / 1024)); simpl in *; [done|].
      apply Z.eqb_neq. apply Hnt.
    + intros i Hi'. unfold set_tab. rewrite Hpp, Hpr by exact Hi'.
      destruct (Z.eqb_spec i (n / 1024)) as [->|]; simpl; [|by apply Hsync].
      rewrite Hti. intros _. destruct (tabs (n / 1024)) eqn:Htt; simpl; [by apply Hsync|].
      destruct (mk_pde_fields ((next_table k - KERN_BASE) / 4096) ik iw (pde k dir (n / 1024)))
        as [-> ->].
      change (2 ^ 20) with 1048576. rewrite Z.mod_small by apply Hnt. done.
    + intros n' Hn'. unfold set_page. rewrite Hpe by exact Hn'. rewrite !He, HE by done. done.
    + by rewrite Hmax.
    + rewrite Hppm. destruct (frame =? 0); simpl; lia.
    + intros c Hc. rewrite Hpu, Hblk by lia. destruct (frame =? 0); lia.
Qed.

(** ** The mapping loops *)

(** The page map after pages [a .. b-1] were mapped to blocks [U ..]. *)
Definition map_run (E : Z -> Z) (a b U ik iw n : Z) : Z :=
  if (a <=? n) && (n <? b) then mk_pte (U + (n - a)) ik iw 0 else E n.

Lemma boot_state_ext k dir t0 E E' tabs U :
  (forall n, 0 <= n < NPAGES -> E n = E' n) ->
  boot_state k dir t0 E tabs U -> boot_state k dir t0 E' tabs U.
Proof.
  intros HE []. split; try done. intros n Hn. rewrite <- HE by done. auto.
Qed.

(** The room left for page tables while only the slots of [T] are used. *)
Definition room_for (T : Z -> bool) (t0 : Z) : Prop :=
  t0 + 4096 * countb T 1024 + 8192 < 4294967296.

Lemma boot_temp_room k dir t0 E tabs U T :
  boot_state k dir t0 E tabs U -> room_for T t0 ->
  (forall i, tabs i = true -> T i = true) -> temp_mem (vmm k) + 8192 < 4294967296.
Proof.
  intros Hs Hr HT. rewrite (bs_temp _ _ _ _ _ _ Hs). unfold room_for in Hr.
  pose proof (countb_mono tabs T 1024 (fun i _ => HT i)). lia.
Qed.

Lemma wp_map_kernel_loop kma T fuel a b k dir t0 E tabs U iw (Q : unit -> kernel -> Prop) :
  boot_state k dir t0 E tabs U -> room_for T t0 ->
  (forall i, tabs i = true -> T i = true) ->
  0 <= a <= b -> b < NPAGES -> b - a < Z.of_nat fuel -> 0 <= U -> U + (b - a) <= scanned k ->
  (forall n, a <= n < b -> E n = 0 /\ T (n / 1024) = true) ->
  (forall k' tabs',
     boot_state k' dir t0 (map_run E a b U 1 iw) tabs' (U + (b - a)) ->
     (forall i, tabs' i = true -> T i = true) ->
     boot_kept k k' -> Q tt k') ->
  wp (map_kernel_loop kma fuel (a * PAGE_SIZE) (b * PAGE_SIZE) iw) Q k.
Proof.
  intros Hs Hr. revert a k E tabs U Hs. induction fuel as [|fuel IH];
    intros a k E tabs U Hs HT Ha Hb Hf HU Hsc HE HQ; [lia|]. cbn [map_kernel_loop].
  destruct (decide (a = b)) as [->|Hne].
  - rewrite Z.ltb_irrefl. vstep. apply (HQ k tabs); [|done|done].
    rewrite Z.sub_diag, Z.add_0_r. eapply boot_state_ext; [|exact Hs].
    intros n Hn. unfold map_run. by replace ((b <=? n) && (n <? b)) with false by lia.
  - rewrite (proj2 (Z.ltb_lt _ _)) by (unfold PAGE_SIZE; lia). vsteps.
    rewrite (proj2 (bs_dir _ _ _ _ _ _ Hs)).
    destruct (HE a ltac:(lia)) as [HEa HTa].
    eapply boot_step; [exact Hs | unfold NPAGES in *; lia | exact HEa | exact HU | lia |
                       by eapply boot_temp_room |].
    cbn [Z.eqb]. unfold chosen_frame. cbn [Z.eqb].
    intros k1 Hs1 Hk1.
    unfold NPAGES in *. pose proof (bk_scanned _ _ Hk1).
    rewrite u32_small by (unfold PAGE_SIZE; lia).
    replace (a * PAGE_SIZE + PAGE_SIZE) with ((a + 1) * PAGE_SIZE) by lia.
    eapply IH; [exact Hs1 | | lia | lia | lia | lia | lia | |].
    + intros i. unfold set_tab. destruct (Z.eqb_spec i (a / 1024)) as [->|]; [done | apply HT].
    + intros n Hn. unfold set_page. rewrite (proj2 (Z.eqb_neq n a)) by lia. apply HE. lia.
    + intros k' tabs' Hs' HT' Hk'. apply (HQ k' tabs'); [| |by etransitivity].
      * replace (U + (b - a)) with (U + 1 + (b - (a + 1))) by lia.
        eapply boot_state_ext; [|exact Hs']. intros n Hn. unfold map_run, set_page.
        destruct (Z.eqb_spec n a) as [->|].
        -- replace ((a + 1 <=? a) && (a <? b)) with false by lia.
           replace ((a <=? a) && (a <? b)) with true by lia. f_equal. lia.
        -- replace ((a + 1 <=? n) && (n <? b)) with ((a <=? n) && (n <? b)) by lia.
           destruct ((a <=? n) && (n <? b)); [f_equal; lia | done].
      * exact HT'.
Qed.

(** The page map after pages [a .. e] were mapped to the frames of their own
    number. *)
Definition map_identity (E : Z -> Z) (a e ik iw n : Z) : Z :=
  if (a <=? n) && (n <=? e) then mk_pte n ik iw 0 else E n.

Lemma wp_identity_loop kma T fuel a e k dir t0 E tabs U ik iw (Q : unit -> kernel -> Prop) :
  boot_state k dir t0 E tabs U -> room_for T t0 ->
  (forall i, tabs i = true -> T i = true) ->
  1 <= a <= e + 1 -> e + 1 < NPAGES -> e + 1 - a < Z.of_nat fuel -> 0 <= U ->
  (forall n, a <= n <= e -> E n = 0 /\ T (n / 1024) = true) ->
  (forall k' tabs',
     boot_state k' dir t0 (map_identity E a e ik iw) tabs' U ->
     (forall i, tabs' i = true -> T i = true) ->
     boot_kept k k' -> Q tt k') ->
  wp (allocate_region_loop kma fuel dir (a * PAGE_SIZE) (e * PAGE_SIZE) 1 ik iw) Q k.
Proof.
  intros Hs Hr. revert a k E tabs Hs. induction fuel as [|fuel IH];
    intros a k E tabs Hs HT Ha He Hf HU HE HQ; [lia|]. cbn [allocate_region_loop].
  destruct (decide (a = e + 1)) as [->|Hne].
  - rewrite (proj2 (Z.leb_gt _ _)) by (unfold PAGE_SIZE; lia). vstep. apply (HQ k tabs); [|done|done].
    eapply boot_state_ext; [|exact Hs].
    intros n Hn. unfold map_identity. by replace ((e + 1 <=? n) && (n <=? e)) with false by lia.
  - rewrite (proj2 (Z.leb_le _ _)) by (unfold PAGE_SIZE; lia).
    replace (if negb (1 =? 0) then a * PAGE_SIZE / PAGE_SIZE else 0) with a
      by (cbn [Z.eqb negb]; by rewrite Z.div_mul). vsteps.
    destruct (HE a ltac:(lia)) as [HEa HTa].
    eapply boot_step; [exact Hs | unfold NPAGES in *; lia | exact HEa | exact HU | lia |
                       by eapply boot_temp_room |].
    unfold chosen_frame. rewrite (proj2 (Z.eqb_neq a 0)) by lia.
    intros k1 Hs1 Hk1.
    unfold NPAGES in *. pose proof (bk_scanned _ _ Hk1).
    rewrite u32_small by (unfold PAGE_SIZE; lia).
    replace (a * PAGE_SIZE + PAGE_SIZE) with ((a + 1) * PAGE_SIZE) by lia.
    eapply IH; [exact Hs1 | | lia | lia | lia | lia | |].
    + intros i. unfold set_tab. destruct (Z.eqb_spec i (a / 1024)) as [->|]; [done | apply HT].
    + intros n Hn. unfold set_page. rewrite (proj2 (Z.eqb_neq n a)) by lia. apply HE. lia.
    + intros k' tabs' Hs' HT' Hk'. apply (HQ k' tabs'); [| |by etransitivity].
      * eapply boot_state_ext; [|exact Hs']. intros n Hn. unfold map_identity, set_page.
        destruct (Z.eqb_spec n a) as [->|].
        -- replace ((a + 1 <=? a) && (a <=? e)) with false by lia.
           by replace ((a <=? a) && (a <=? e)) with true by lia.
        -- by replace ((a + 1 <=? n) && (n <=? e)) with ((a <=? n) && (n <=? e)) by lia.
      * exact HT'.
Qed.

(** ** [vmm_init] *)

(** What [pmm_init] leaves: an empty bitmap of at least 3073 blocks above
    [KERN_BASE], with room behind it for the directory and four tables, no heap
    and no paging. *)
Record before_vmm (k : kernel) : Prop := {
  bv_inv : pmm_inv k;
  bv_free c : 0 <= c < scanned k -> blk_used k c = false;
  bv_blocks : 3073 <= scanned k;
  bv_bitmap : KERN_BASE <= pmm_bitmap (pmm k);
  bv_size : bm_size k <= pmm_bitmap_size (pmm k);
  bv_room : pmm_bitmap (pmm k) + pmm_bitmap_size (pmm k) + 8192 + 4 * 4096 + 8192 < 4294967296;
  bv_heap : kheap_enabled (heap k) = 0;
  bv_paging : paging_enabled (vmm k) = 0;
}.

(** The directory slots [vmm_init] fills: page 0 and the first 12 MB of the
    kernel. *)
Definition boot_slots (i : Z) : bool := (i =? 0) || (768 <=? i) && (i <? 771).

Lemma countb_boot_slots : countb boot_slots 1024 = 4.
Proof. vm_compute. done. Qed.

(** The end of the bitmap, where the boot allocator starts. *)
Definition boot_temp (k : kernel) : Z := pmm_bitmap (pmm k) + pmm_bitmap_size (pmm k).

(** The directory the boot allocator hands out first. *)
Definition boot_dir (k : kernel) : Z := 4096 * (boot_temp k / 4096) + 4096.

(** The state after the directory has been allocated and cleared. *)
Lemma boot_state_start k m :
  before_vmm k -> filled (mem k) m (boot_dir k) SIZEOF_PAGE_DIRECTORY (fun _ => u8 0) ->
  boot_state (set_mem m (upd_vmm (fun g => set_kernel_page_dir (boot_dir k)
      (set_temp_mem (boot_temp k + SIZEOF_PAGE_DIRECTORY) g)) k))
    (boot_dir k) (boot_temp k + SIZEOF_PAGE_DIRECTORY) (fun _ => 0) (fun _ => false) 0.
Proof.
  intros [[Hm Hu] Hfree Hblk Hbm Hsz Hroom Hh Hp] Hf. set (k' := set_mem m _).
  assert (Hmem : mem k' = m) by apply mem_set_mem.
  assert (Hd : boot_temp k < boot_dir k <= boot_temp k + 4096) by (unfold boot_dir; word_lia).
  unfold boot_temp in Hd. unfold SIZEOF_PAGE_DIRECTORY in *.
  assert (Href : forall i, 0 <= i < 1024 -> ref k' (boot_dir k) i = 0).
  { intros i Hi. unfold ref. rewrite Hmem. apply ld32_zero. intros a Ha.
    unfold dir_ref_tables in Ha. replace a with (boot_dir k + (a - boot_dir k)) by lia.
    rewrite (proj1 Hf) by lia. done. }
  unfold KERN_BASE in *.
  assert (Hbmz : 0 <= bm_size k) by (unfold bm_size; word_lia).
  assert (Hnext : next_table k' = boot_dir k + 8192).
  { unfold next_table, boot_dir. simpl. unfold boot_temp. word_lia. }
  split.
  - split; [lia | done].
  - split.
    + right. change (bm_size k') with (bm_size k). change (pmm k') with (pmm k). lia.
    + intros i Hi Hne. by rewrite Href in Hne.
    + intros i j Hi Hj Hij Hne. by rewrite Href in Hne.
  - split; [exact Hh | exact Hp | | | |].
    + simpl. unfold KERN_BASE, boot_temp. lia.
    + rewrite Hnext. unfold SIZEOF_PAGE_DIRECTORY. lia.
    + rewrite Hnext. change (bm_size k') with (bm_size k). change (pmm k') with (pmm k). lia.
    + intros i Hi Hne. by rewrite Href in Hne.
  - rewrite countb_none by done. cbn [vmm set_mem HasMem_kernel k' upd_vmm]. simpl. lia.
  - intros i Hi. rewrite Href by exact Hi. done.
  - done.
  - intros n Hn. unfold entry. rewrite Href by (apply npages_index; exact Hn). done.
  - exact Hm.
  - change (pmm k') with (pmm k). rewrite Hu. apply countb_none. intros c Hc. apply Hfree. lia.
  - intros c Hc. change (scanned k') with (scanned k) in Hc.
    replace (c <? 0) with false by lia. rewrite <- (Hfree c Hc). unfold blk_used.
    change (pmm k') with (pmm k). f_equal. rewrite Hmem. eapply filled_ne; [exact Hf|].
    unfold disjoint, bitmap_word, bm_size, scanned in *. right. word_lia.
Qed.

(** The page map of the kernel at start-up: the kernel's 4 MB, 8 MB of heap,
    page 0 and the pages 1 to 16. *)
Definition initial_map : Z -> Z :=
  map_identity
    (set_page (map_run (map_run (fun _ => 0) 0xc0000 0xc0400 0 1 0) 0xc0400 0xc0c00 1024 1 1)
       0 (mk_pte 3072 1 0 0)) 1 16 1 0.

(** [allocate_region(kernel_page_dir, 0, 0x10000, 1, 1, 0)] *)
Lemma wp_low_region kma fuel k dir t0 E tabs U (Q : unit -> kernel -> Prop) :
  boot_state k dir t0 E tabs U -> room_for boot_slots t0 ->
  (forall i, tabs i = true -> boot_slots i = true) ->
  (17 < fuel)%nat -> 0 <= U < scanned k -> (forall n, 0 <= n <= 16 -> E n = 0) ->
  (forall k' tabs',
     boot_state k' dir t0 (map_identity (set_page E 0 (mk_pte U 1 0 0)) 1 16 1 0) tabs' (U + 1) ->
     boot_kept k k' -> Q tt k') ->
  wp (allocate_region kma fuel dir 0 0x10000 1 1 0) Q k.
Proof.
  intros Hs Hr HT Hf HU HE HQ. unfold allocate_region.
  change (Z.land 0 0xfffff000) with (0 * PAGE_SIZE).
  change (Z.land 0x10000 0xfffff000) with (16 * PAGE_SIZE).
  destruct fuel as [|fuel]; [lia|]. cbn [allocate_region_loop].
  rewrite (proj2 (Z.leb_le _ _)) by (unfold PAGE_SIZE; lia). vsteps.
  change (if negb (1 =? 0) then 0 * PAGE_SIZE / PAGE_SIZE else 0) with 0.
  eapply boot_step; [exact Hs | unfold NPAGES; lia | apply HE; lia | lia | lia |
                     by eapply boot_temp_room |].
  intros k1 Hs1 Hk1. unfold chosen_frame in Hs1. cbn [Z.eqb] in Hs1.
  change (0 * PAGE_SIZE +32 PAGE_SIZE) with (1 * PAGE_SIZE).
  eapply (wp_identity_loop _ boot_slots); [exact Hs1 | exact Hr | | lia | unfold NPAGES; lia | lia | lia | |].
  - intros i. unfold set_tab. change (0 / 1024) with 0.
    destruct (Z.eqb_spec i 0) as [->|]; [done | apply HT].
  - intros n Hn. unfold set_page. rewrite (proj2 (Z.eqb_neq n 0)) by lia.
    split; [apply HE; lia|]. replace (n / 1024) with 0 by word_lia. done.
  - intros k' tabs' Hs' HT' Hk'. apply (HQ k' tabs'); [exact Hs' | by etransitivity].
Qed.

(** Two commands on the fields of [vmm_globals] in one. *)
Lemma wp_enable_paging (Q : unit -> kernel -> Prop) k :
  Q tt (upd_vmm (fun g => set_paging_enabled 1 (set_cr0 (SET_PGBIT (cr0 g))
                            (set_cr4 (CLEAR_PSEBIT (cr4 g)) g))) k) ->
  wp enable_paging Q k.
Proof. done. Qed.

Lemma wp_switch_page_directory_boot dir (Q : unit -> kernel -> Prop) k :
  paging_enabled (vmm k) = 0 -> KERN_BASE <= dir < 4294967296 ->
  Q tt (upd_vmm (fun g => set_current_page_dir dir (set_cr3 (dir - KERN_BASE) g)) k) ->
  wp (switch_page_directory dir) Q k.
Proof.
  intros Hp Hd HQ. unfold switch_page_directory. wp_step. wp_step. wp_step.
  unfold virt2phys. wp_step. wp_step. rewrite Hp. wp_step. wp_step.
  unfold dir_tables. rewrite Z.mul_0_r, Z.add_0_r. unfold KERN_BASE in *.
  rewrite u32_small by lia. wp_step. simple apply wp_modify. exact HQ.
Qed.

(** The state handed over by [vmm_init]. *)
Record kernel_mapped (k k' : kernel) : Prop := {
  km_paging : paging_enabled (vmm k') = 1;
  km_dir : kernel_page_dir (vmm k') = boot_dir k /\ current_page_dir (vmm k') = boot_dir k /\
           cr3 (vmm k') = boot_dir k - KERN_BASE;
  km_regs : cr0 (vmm k') = SET_PGBIT (cr0 (vmm k)) /\ cr4 (vmm k') = CLEAR_PSEBIT (cr4 (vmm k));
  km_map n : 0 <= n < NPAGES -> entry k' (boot_dir k) n = initial_map n;
  km_sync i : 0 <= i < 1024 ->
    ref k' (boot_dir k) i <> 0 ->
    get_f f_present (pde k' (boot_dir k) i) = 1 /\
    get_f f_frame (pde k' (boot_dir k) i) = (ref k' (boot_dir k) i - KERN_BASE) / PAGE_SIZE;
  km_layout : vm_layout k' (boot_dir k);
  km_used c : 0 <= c < scanned k' -> blk_used k' c = (c <? 3073);
  km_pmm : pmm_inv k';
  km_isr : k_isr k' = <[14 := "page_fault"]> (k_isr k);
  km_log : k_log k' = k_log k ++ [Klog LOG_OK "Virtual Memory Manager initialized\n"];
}.

(** The three mapping steps of [vmm_init]. *)
Lemma wp_initial_maps kma fuel k dir t0 (rest : Z -> M kernel unit) (Q : unit -> kernel -> Prop) :
  boot_state k dir t0 (fun _ => 0) (fun _ => false) 0 -> room_for boot_slots t0 ->
  (2048 < fuel)%nat -> 3073 <= scanned k ->
  (forall k' tabs, boot_state k' dir t0 initial_map tabs 3073 -> boot_kept k k' ->
     wp (rest dir) Q k') ->
  wp (map_kernel_loop kma fuel KERN_BASE (KERN_BASE + 4 * Mb) 0;;
      map_kernel_loop kma fuel (KERN_BASE + 4 * Mb) (KERN_BASE + 4 * Mb + KHEAP_INITIAL_SIZE) 1;;
      kdir ← gets (fun k => kernel_page_dir (vmm k));
      allocate_region kma fuel kdir 0 0x10000 1 1 0;;
      rest kdir) Q k.
Proof.
  intros Hs Hr Hf Hsc HQ.
  change (KERN_BASE + 4 * Mb + KHEAP_INITIAL_SIZE) with (0xc0c00 * PAGE_SIZE).
  change (KERN_BASE + 4 * Mb) with (0xc0400 * PAGE_SIZE).
  change KERN_BASE with (0xc0000 * PAGE_SIZE).
  assert (Hslot : forall n, 0xc0000 <= n < 0xc0c00 -> boot_slots (n / 1024) = true).
  { intros n Hn. unfold boot_slots. assert (768 <= n / 1024 < 771) by word_lia. lia. }
  wp_step. simple eapply (wp_map_kernel_loop kma boot_slots); [exact Hs | exact Hr | done | lia |
    unfold NPAGES; lia | lia | lia | lia | intros n Hn; split; [done | apply Hslot; lia] |].
  intros k1 tabs1 Hs1 HT1 Hk1. pose proof (bk_scanned _ _ Hk1) as Hsc1.
  wp_step. simple eapply (wp_map_kernel_loop kma boot_slots); [exact Hs1 | exact Hr | exact HT1 | lia |
    unfold NPAGES; lia | lia | lia | lia | |].
  { intros n Hn. split; [|apply Hslot; lia]. unfold map_run.
    by replace (n <? 0xc0400) with false by lia; rewrite andb_false_r. }
  intros k2 tabs2 Hs2 HT2 Hk2. pose proof (bk_scanned _ _ Hk2) as Hsc2.
  wp_step. wp_step. rewrite (proj2 (bs_dir _ _ _ _ _ _ Hs2)).
  wp_step. simple eapply wp_low_region; [exact Hs2 | exact Hr | exact HT2 | lia | lia | |].
  { intros n Hn. unfold map_run. replace (0xc0400 <=? n) with false by lia.
    by replace (0xc0000 <=? n) with false by lia. }
  intros k3 tabs3 Hs3 Hk3. apply (HQ k3 tabs3); [exact Hs3|].
  etransitivity; [exact Hk1|]. by etransitivity.
Qed.

(** The end of [vmm_init]: switching to the new directory. *)
Lemma wp_vmm_finish k0 k tabs t0 (Q : unit -> kernel -> Prop) :
  boot_state k (boot_dir k0) t0 initial_map tabs 3073 -> boot_kept k0 k ->
  KERN_BASE <= boot_dir k0 < 4294967296 -> 3073 <= scanned k ->
  (forall k', kernel_mapped k0 k' -> Q tt k') ->
  wp (switch_page_directory (boot_dir k0);;
      enable_paging;;
      int_install_handler 14 "page_fault";;
      klog LOG_OK "Virtual Memory Manager initialized\n") Q k.
Proof.
  intros Hs Hk Hd Hsc HQ.
  pose proof Hs as [[_ Hkd] Hl Hroom Ht Htabs Hsync He Hm Hu Hblk].
  destruct Hk as [_ Hlog Hisr _ [Hc0 Hc4]].
  wp_step. simple apply wp_switch_page_directory_boot; [exact (br_paging _ _ Hroom) | exact Hd |].
  wp_step. simple apply wp_enable_paging. wp_step. unfold int_install_handler.
  simple apply wp_modify. simple apply wp_klog. apply HQ. split; cbn.
  - done.
  - done.
  - by rewrite Hc0, Hc4.
  - exact He.
  - intros i Hi Hne. apply Hsync; [exact Hi|].
    pose proof (Htabs i Hi) as Hti. rewrite (proj2 (Z.eqb_neq _ 0)) in Hti by exact Hne.
    by destruct (tabs i).
  - simple eapply (vm_layout_same k); [exact Hl | intros; reflexivity | reflexivity | reflexivity].
  - exact Hblk.
  - split; [exact Hm|]. cbn. rewrite Hu.
    change (3073 = countb (blk_used k) (Z.to_nat (scanned k))).
    transitivity (countb (fun c => c <? 3073) (Z.to_nat (scanned k))).
    + symmetry. apply countb_below. lia.
    + apply countb_ext. intros c Hc. symmetry. apply Hblk. lia.
  - by rewrite Hisr.
  - by rewrite Hlog.
Qed.

Lemma wp_vmm_init kma fuel k (Q : unit -> kernel -> Prop) :
  before_vmm k -> (2048 < fuel)%nat ->
  (forall k', kernel_mapped k k' -> Q tt k') -> wp (vmm_init kma fuel) Q k.
Proof.
  intros Hk Hf HQ. pose proof Hk as [_ _ Hblk Hbm Hsz Hroom _ _].
  assert (Hbmz : 0 <= bm_size k) by (unfold bm_size, scanned in *; word_lia).
  unfold KERN_BASE in Hbm. unfold vmm_init. wp_step. simple apply wp_modify. wp_step.
  eapply wp_done; [apply dumb_kmalloc_run; cbn [vmm upd_vmm temp_mem set_temp_mem];
    unfold SIZEOF_PAGE_DIRECTORY; rewrite ?u32_small; lia|].
  wp_step. simple apply wp_modify.
  match goal with |- wp _ _ ?s => set (k1 := s) end.
  assert (Ht0 : pmm_bitmap (pmm k) +32 pmm_bitmap_size (pmm k) = boot_temp k)
    by (apply u32_small; unfold boot_temp; lia).
  assert (Hnt : next_table (upd_vmm (set_temp_mem (boot_temp k)) k) = boot_dir k) by done.
  assert (Hk1 : k1 = upd_vmm (fun g => set_kernel_page_dir (boot_dir k)
                  (set_temp_mem (boot_temp k + SIZEOF_PAGE_DIRECTORY) g)) k).
  { unfold k1. rewrite Ht0, Hnt. done. }
  rewrite Ht0, Hnt. clearbody k1. subst k1.
  wp_step. simple apply wp_memset; [done|]. intros m Hm.
  pose proof (boot_state_start k m Hk Hm) as Hs.
  assert (Hkept : boot_kept k (set_mem m (upd_vmm (fun g => set_kernel_page_dir (boot_dir k)
      (set_temp_mem (boot_temp k + SIZEOF_PAGE_DIRECTORY) g)) k))) by done.
  revert Hs Hkept. generalize (set_mem m (upd_vmm (fun g => set_kernel_page_dir (boot_dir k)
      (set_temp_mem (boot_temp k + SIZEOF_PAGE_DIRECTORY) g)) k)) as k1.
  intros k1 Hs Hkept.
  assert (Hrf : room_for boot_slots (boot_temp k + SIZEOF_PAGE_DIRECTORY)).
  { unfold room_for. rewrite countb_boot_slots. unfold boot_temp, SIZEOF_PAGE_DIRECTORY. lia. }
  pose proof (bk_scanned _ _ Hkept) as Hsc1.
  simple eapply wp_initial_maps; [exact Hs | exact Hrf | exact Hf | lia |].
  intros k2 tabs Hs2 Hk2. pose proof (bk_scanned _ _ Hk2).
  eapply wp_vmm_finish; [exact Hs2 | by etransitivity | | lia | exact HQ].
  unfold boot_dir, boot_temp, KERN_BASE. word_lia.
Qed.

(** ** The initial address space *)

Lemma translate_entry k dir va fr ik iw :
  entry k dir (va / PAGE_SIZE) = mk_pte fr ik iw 0 -> 0 <= fr < NPAGES ->
  translate k dir va = Some (fr * PAGE_SIZE + va mod PAGE_SIZE).
Proof.
  intros He Hf. unfold translate. rewrite He.
  destruct (mk_pte_fields fr ik iw 0) as (-> & -> & _).
  change (2 ^ 20) with NPAGES. by rewrite Z.mod_small.
Qed.

Lemma initial_map_kernel n : 0xc0000 <= n < 0xc0400 -> initial_map n = mk_pte (n - 0xc0000) 1 0 0.
Proof.
  intros Hn. unfold initial_map, map_identity, set_page, map_run.
  replace (n <=? 16) with false by lia. rewrite andb_false_r.
  rewrite (proj2 (Z.eqb_neq n 0)) by lia. replace (0xc0400 <=? n) with false by lia. cbn [andb].
  replace ((0xc0000 <=? n) && (n <? 0xc0400)) with true by lia. done.
Qed.

Lemma initial_map_heap n : 0xc0400 <= n < 0xc0c00 -> initial_map n = mk_pte (n - 0xc0000) 1 1 0.
Proof.
  intros Hn. unfold initial_map, map_identity, set_page, map_run.
  replace (n <=? 16) with false by lia. rewrite andb_false_r.
  rewrite (proj2 (Z.eqb_neq n 0)) by lia.
  replace ((0xc0400 <=? n) && (n <? 0xc0c00)) with true by lia. f_equal. lia.
Qed.

Lemma initial_map_low n :
  0 <= n <= 16 -> initial_map n = mk_pte (if n =? 0 then 3072 else n) 1 0 0.
Proof.
  intros Hn. unfold initial_map, map_identity, set_page.
  destruct (Z.eqb_spec n 0) as [->|]; [done|].
  by replace ((1 <=? n) && (n <=? 16)) with true by lia.
Qed.

Lemma initial_map_other n :
  16 < n < 0xc0000 \/ 0xc0c00 <= n -> initial_map n = 0.
Proof.
  intros Hn. unfold initial_map, map_identity, set_page, map_run.
  replace (n <=? 16) with false by lia. rewrite andb_false_r.
  rewrite (proj2 (Z.eqb_neq n 0)) by lia.
  replace ((0xc0400 <=? n) && (n <? 0xc0c00)) with false by lia.
  by replace ((0xc0000 <=? n) && (n <? 0xc0400)) with false by lia.
Qed.

