(* ===== verification/Kheap.v ===== *)
(** * memory/kheap.c: the kernel heap

    The early placement allocator, the boundary-tag allocator [malloc], [free]
    and [realloc] with its free list, and the entry points of the kernel.  The
    pointer arithmetic is the one the C types give: adding to a [uint32_t *]
    scales by 4 and adding to a [struct Block *] by 12.  The recursion from
    [malloc] through [ksbrk] and [allocate_page] back to [malloc] is cut by
    fuel. *)

From S2P Require Export VmmInit.

(** ** include/memory/kheap.h *)

Definition SIZEOF_BLOCK : Z := 12.
Definition OVERHEAD : Z := SIZEOF_BLOCK + 4.

(** Addresses of the fields of a [struct Block] at [b]. *)
Definition blk_size (b : Z) : Z := b.
Definition blk_prev (b : Z) : Z := u32 (b + 4).
Definition blk_next (b : Z) : Z := u32 (b + 8).

Definition set_heap_start v g := Heap (heap_head g) (heap_tail g) (freelist g) v (heap_end g) (heap_curr g) (heap_max g) (kheap_enabled g) (placement_address g).
Definition set_heap_max v g := Heap (heap_head g) (heap_tail g) (freelist g) (heap_start g) (heap_end g) (heap_curr g) v (kheap_enabled g) (placement_address g).
Definition set_kheap_enabled v g := Heap (heap_head g) (heap_tail g) (freelist g) (heap_start g) (heap_end g) (heap_curr g) (heap_max g) v (placement_address g).

(** ** Blocks and the free list *)

Definition getRealSize (size : Z) : Z := u32 (Z.shiftl (Z.shiftr size 1) 1).

Definition isEnd (n : Z) : M kernel bool :=
  tail ← gets (fun k => heap_tail (heap k)); mret (n =? tail).

Definition isFree (n : Z) : M kernel bool :=
  if n =? 0 then mret false
  else s ← load32 (blk_size n); mret (negb (Z.land s 0x1 =? 0)).

Definition doesItFit (n size : Z) : M kernel bool :=
  s ← load32 (blk_size n);
  if getRealSize size <=? s then isFree n else mret false.

(** [setFree(&x, b)] on the word at [a] *)
Definition setFree (a x : Z) : M kernel unit :=
  s ← load32 a;
  if negb (x =? 0) then store32 a (Z.lor s 1) else store32 a (Z.land s 0xFFFFFFFE).

Definition removeNodeFromFreelist (x : Z) : M kernel unit :=
  if x =? 0 then mret tt
  else
    prev ← load32 (blk_prev x);
    if negb (prev =? 0) then
      next ← load32 (blk_next x);
      store32 (blk_next prev) next;;
      next ← load32 (blk_next x);
      if negb (next =? 0) then prev ← load32 (blk_prev x); store32 (blk_prev next) prev
      else mret tt
    else
      next ← load32 (blk_next x);
      modify (upd_heap (set_freelist next));;
      if negb (next =? 0) then store32 (blk_prev next) 0 else mret tt.

Definition addNodeToFreelist (x : Z) : M kernel unit :=
  if x =? 0 then mret tt
  else
    fl ← gets (fun k => freelist (heap k));
    store32 (blk_next x) fl;;
    (if negb (fl =? 0) then store32 (blk_prev fl) x else mret tt);;
    modify (upd_heap (set_freelist x));;
    store32 (blk_prev x) 0.

Fixpoint bestfit_loop (fuel : nat) (curr currBest size : Z) : M kernel Z :=
  match fuel with
  | O => out_of_fuel
  | S fuel' =>
      if curr =? 0 then mret currBest
      else
        fits ← doesItFit curr size;
        best ← (if (fits : bool) then
                  if currBest =? 0 then mret curr
                  else
                    s ← load32 (blk_size curr);
                    b ← load32 (blk_size currBest);
                    mret (if s <? b then curr else currBest)
                else mret currBest);
        next ← load32 (blk_next curr);
        bestfit_loop fuel' next best size
  end.

Definition bestfit (fuel : nat) (size : Z) : M kernel Z :=
  fl ← gets (fun k => freelist (heap k));
  if fl =? 0 then mret 0 else bestfit_loop fuel fl 0 size.

(** [(uint32_t * ) ptr - sizeof(uint32_t)] is [ptr - 16]. *)
Definition getPrevBlock (n : Z) : M kernel Z :=
  head ← gets (fun k => heap_head (heap k));
  if n =? head then mret 0
  else
    w ← load32 (n -32 16);
    mret (n -32 (4 * OVERHEAD + 4 * getRealSize w)).

Definition getNextBlock (n : Z) : M kernel Z :=
  tail ← gets (fun k => heap_tail (heap k));
  if n =? tail then mret 0
  else
    s ← load32 (blk_size n);
    mret (n +32 (4 * OVERHEAD + 4 * getRealSize s)).

(** [trailingSize = (uint32_t * ) b + sizeof(struct Block) + getRealSize(b->size);
    *trailingSize = b->size] *)
Definition store_trailing (b : Z) : M kernel Z :=
  s ← load32 (blk_size b);
  let t := b +32 (4 * SIZEOF_BLOCK + 4 * getRealSize s) in
  store32 t s;;
  mret t.

Definition set_tail_if (c : bool) (b : Z) : M kernel unit :=
  if c then modify (upd_heap (set_heap_tail b)) else mret tt.

(** [((size + 15) / 16) * 16] *)
Definition round_size (size : Z) : Z := (size +32 15) / 16 *32 16.

(** ** [malloc] *)

(** The remainder of a split block: [ptr] is the new block, [rest] its bytes. *)
Definition malloc_split (base ptr rest saveNextBlock : Z) : M kernel unit :=
  tail ← gets (fun k => heap_tail (heap k));
  nfree ← (if negb (base =? tail) then isFree saveNextBlock else mret false);
  if (nfree : bool) then
    removeNodeFromFreelist saveNextBlock;;
    ns ← load32 (blk_size saveNextBlock);
    store32 (blk_size ptr) (rest -32 OVERHEAD +32 getRealSize ns +32 OVERHEAD);;
    setFree (blk_size ptr) 1;;
    store_trailing ptr;;
    tail ← gets (fun k => heap_tail (heap k));
    set_tail_if (saveNextBlock =? tail) ptr;;
    addNodeToFreelist ptr
  else
    store32 (blk_size ptr) (rest -32 OVERHEAD);;
    setFree (blk_size ptr) 1;;
    store_trailing ptr;;
    tail ← gets (fun k => heap_tail (heap k));
    set_tail_if (base =? tail) ptr;;
    addNodeToFreelist ptr.

(** The branch of [malloc] for a block of the free list. *)
Definition malloc_reuse (best blockSize : Z) : M kernel Z :=
  saveNextBlock ← getNextBlock best;
  bs ← load32 (blk_size best);
  let chunkSize := getRealSize bs +32 OVERHEAD in
  let rest := chunkSize -32 blockSize in
  let whichSize := if rest <? 8 + OVERHEAD then chunkSize else blockSize in
  store32 (blk_size best) (whichSize -32 OVERHEAD);;
  setFree (blk_size best) 0;;
  let trailingSize := best +32 (4 * whichSize - 16) in
  s ← load32 (blk_size best);
  store32 trailingSize s;;
  (if rest <? 8 + OVERHEAD then mret tt
   else if 8 <=? rest then malloc_split best (trailingSize +32 4) rest saveNextBlock
   else mret tt);;
  removeNodeFromFreelist best;;
  mret (best +32 4 * SIZEOF_BLOCK).

Section heap_code.
Context (ksbrk : Z -> M kernel Z).

(** The branch of [malloc] that extends the heap. *)
Definition malloc_extend (blockSize : Z) : M kernel Z :=
  ret ← ksbrk (s32 blockSize);
  h ← gets (fun k => heap_head (heap k));
  (if h =? 0 then modify (upd_heap (set_heap_head ret)) else mret tt);;
  modify (upd_heap (set_heap_tail ret));;
  store32 (blk_size ret) (blockSize -32 OVERHEAD);;
  setFree (blk_size ret) 0;;
  s ← load32 (blk_size ret);
  store32 (ret +32 (4 * blockSize - 16)) s;;
  mret (ret +32 4 * SIZEOF_BLOCK).

Definition malloc_body (fuel : nat) (size : Z) : M kernel Z :=
  if size =? 0 then mret 0
  else
    let roundedSize := round_size size in
    let blockSize := roundedSize +32 OVERHEAD in
    best ← bestfit fuel roundedSize;
    if negb (best =? 0) then malloc_reuse best blockSize
    else malloc_extend blockSize.
End heap_code.

(** ** The kernel's entry points *)

(** [placement_address] moved to the next page. *)
Definition placement_align (align : Z) : M kernel unit :=
  pa ← gets (fun k => placement_address (heap k));
  if (align =? 1) && negb (Z.land pa 0xFFFFF000 =? 0)
  then modify (upd_heap (set_placement (Z.land pa 0xFFFFF000 +32 0x1000)))
  else mret tt.

Definition kmalloc_cont (sz align phys : Z) : M kernel Z :=
  placement_align align;;
  pa ← gets (fun k => placement_address (heap k));
  (if negb (phys =? 0) then store32 phys pa else mret tt);;
  tmp ← gets (fun k => placement_address (heap k));
  modify (upd_heap (fun g => set_placement (placement_address g +32 sz) g));;
  mret tmp.

Section kmalloc_code.
Context (malloc : Z -> M kernel Z).

Definition kmalloc_int (sz align phys : Z) : M kernel Z :=
  start ← gets (fun k => heap_start (heap k));
  if negb (start =? 0) then
    let sz := if negb (align =? 0) then sz +32 4096 else sz in
    addr ← malloc sz;
    let align_addr := Z.land addr 0xFFFFF000 +32 0x1000 in
    (if negb (phys =? 0) then
       let t := if negb (align =? 0) then align_addr else addr in
       kdir ← gets (fun k => kernel_page_dir (vmm k));
       p ← virt2phys kdir t;
       store32 phys p
     else mret tt);;
    mret (if negb (align =? 0) then align_addr else addr)
  else kmalloc_cont sz align phys.

Definition kmalloc_a_of (sz : Z) : M kernel Z := kmalloc_int sz 1 0.
End kmalloc_code.

Section kheap_code.
Context `{Linker}.

(** [malloc] with the recursion through [ksbrk], [allocate_page] and
    [kmalloc_a]. *)
Fixpoint malloc (fuel : nat) (size : Z) : M kernel Z :=
  match fuel with
  | O => out_of_fuel
  | S fuel' => malloc_body (ksbrk (kmalloc_a_of (malloc fuel')) fuel) fuel size
  end.

Definition kmalloc_a (fuel : nat) (sz : Z) : M kernel Z := kmalloc_int (malloc fuel) sz 1 0.
Definition kmalloc_p (fuel : nat) (sz phys : Z) : M kernel Z := kmalloc_int (malloc fuel) sz 0 phys.
Definition kmalloc_ap (fuel : nat) (sz phys : Z) : M kernel Z := kmalloc_int (malloc fuel) sz 1 phys.
Definition kmalloc (fuel : nat) (sz : Z) : M kernel Z := kmalloc_int (malloc fuel) sz 0 0.

Definition kcalloc (fuel : nat) (num size : Z) : M kernel Z :=
  ptr ← malloc fuel (num *32 size);
  memset ptr 0 (num *32 size);;
  mret ptr.
End kheap_code.

Definition kheap_init (start end_ max : Z) : M kernel unit :=
  modify (upd_heap (set_heap_start start));;
  modify (upd_heap (set_heap_end end_));;
  modify (upd_heap (set_heap_max max));;
  modify (upd_heap (set_heap_curr start));;
  modify (upd_heap (set_kheap_enabled 1));;
  klog LOG_OK "Kernel Heap initialized\n".

(** ** [free] *)

Definition set_tail_from (old new : Z) : M kernel unit :=
  tail ← gets (fun k => heap_tail (heap k)); set_tail_if (tail =? old) new.

(** [(struct Block * ) ptr - sizeof(struct Block)] is [ptr - 144]. *)
Definition block_of (ptr : Z) : Z := ptr -32 SIZEOF_BLOCK * SIZEOF_BLOCK.

Definition free (ptr : Z) : M kernel unit :=
  let curr := block_of ptr in
  prev ← getPrevBlock curr;
  next ← getNextBlock curr;
  pf ← isFree prev;
  nf ← isFree next;
  if pf && nf then
    ps ← load32 (blk_size prev);
    cs ← load32 (blk_size curr);
    ns ← load32 (blk_size next);
    store32 (blk_size prev) (getRealSize ps + 2 * OVERHEAD + getRealSize cs +32 getRealSize ns);;
    setFree (blk_size prev) 1;;
    store_trailing prev;;
    set_tail_from next prev;;
    removeNodeFromFreelist next
  else if (pf : bool) then
    ps ← load32 (blk_size prev);
    cs ← load32 (blk_size curr);
    store32 (blk_size prev) (getRealSize ps + OVERHEAD +32 getRealSize cs);;
    setFree (blk_size prev) 1;;
    store_trailing prev;;
    set_tail_from curr prev
  else if (nf : bool) then
    cs ← load32 (blk_size curr);
    ns ← load32 (blk_size next);
    store32 (blk_size curr) (getRealSize cs + OVERHEAD +32 getRealSize ns);;
    setFree (blk_size curr) 1;;
    store_trailing curr;;
    set_tail_from next curr;;
    removeNodeFromFreelist next;;
    addNodeToFreelist curr
  else
    setFree (blk_size curr) 1;;
    store_trailing curr;;
    addNodeToFreelist curr.

Definition kfree (ptr : Z) : M kernel unit := free ptr.

(** ** [realloc] *)

(** Merging [nptr] with the free block behind it. *)
Definition realloc_next (nptr nextBlock : Z) : M kernel Z :=
  removeNodeFromFreelist nextBlock;;
  s ← load32 (blk_size nptr);
  ns ← load32 (blk_size nextBlock);
  store32 (blk_size nptr) (getRealSize s + OVERHEAD +32 getRealSize ns);;
  setFree (blk_size nptr) 0;;
  store_trailing nptr;;
  set_tail_from nextBlock nptr;;
  mret (nptr +32 SIZEOF_BLOCK).

(** Merging [nptr] with the free block in front of it. *)
Definition realloc_prev (ptr nptr prevBlock : Z) : M kernel Z :=
  s ← load32 (blk_size nptr);
  let originalSize := getRealSize s in
  removeNodeFromFreelist prevBlock;;
  ps ← load32 (blk_size prevBlock);
  store32 (blk_size prevBlock) (originalSize + OVERHEAD +32 getRealSize ps);;
  setFree (blk_size prevBlock) 0;;
  store_trailing prevBlock;;
  set_tail_from nptr prevBlock;;
  memcpy (prevBlock +32 SIZEOF_BLOCK) ptr originalSize;;
  mret (prevBlock +32 SIZEOF_BLOCK).

(** Shrinking: the rest of the block becomes a free block. *)
Definition realloc_shrink (ptr nptr nextBlock blockSize : Z) : M kernel Z :=
  s ← load32 (blk_size nptr);
  let rest := getRealSize s + OVERHEAD -32 blockSize in
  if rest <? 8 + OVERHEAD then mret ptr
  else
    store32 (blk_size nptr) (blockSize -32 OVERHEAD);;
    setFree (blk_size nptr) 0;;
    trailingSize ← store_trailing nptr;
    let splitBlock := trailingSize +32 SIZEOF_BLOCK * 4 in
    nf ← isFree nextBlock;
    if (nf : bool) then
      ns ← load32 (blk_size nextBlock);
      store32 (blk_size splitBlock) (rest +32 getRealSize ns);;
      setFree (blk_size splitBlock) 1;;
      store_trailing splitBlock;;
      removeNodeFromFreelist nextBlock;;
      set_tail_from nextBlock splitBlock;;
      addNodeToFreelist splitBlock;;
      mret ptr
    else
      store32 (blk_size splitBlock) (rest -32 OVERHEAD);;
      setFree (blk_size splitBlock) 1;;
      store_trailing splitBlock;;
      addNodeToFreelist splitBlock;;
      mret ptr.

(** [b != 0 && isFree(b) && getRealSize(n->size) + OVERHEAD + getRealSize(b->size) >= roundedSize] *)
Definition can_merge (nptr b roundedSize : Z) : M kernel bool :=
  f ← isFree b;
  if (f : bool) then
    s ← load32 (blk_size nptr);
    bs ← load32 (blk_size b);
    mret (roundedSize <=? (getRealSize s + OVERHEAD +32 getRealSize bs))
  else mret false.

Definition realloc `{Linker} (fuel : nat) (ptr size : Z) : M kernel Z :=
  if ptr =? 0 then malloc fuel size
  else if size =? 0 then free ptr;; mret 0
  else
    let roundedSize := round_size size in
    let blockSize := roundedSize +32 OVERHEAD in
    let nptr := block_of ptr in
    nextBlock ← getNextBlock nptr;
    prevBlock ← getPrevBlock nptr;
    s ← load32 (blk_size nptr);
    if s =? size then mret ptr
    else if s <? size then
      tail ← gets (fun k => heap_tail (heap k));
      mn ← (if negb (tail =? nptr) then can_merge nptr nextBlock roundedSize else mret false);
      if (mn : bool) then realloc_next nptr nextBlock
      else
        head ← gets (fun k => heap_head (heap k));
        mp ← (if negb (head =? nptr) then can_merge nptr prevBlock roundedSize else mret false);
        if (mp : bool) then realloc_prev ptr nptr prevBlock
        else
          newplace ← malloc fuel size;
          s ← load32 (blk_size nptr);
          memcpy newplace ptr (getRealSize s);;
          free ptr;;
          mret newplace
    else realloc_shrink ptr nptr nextBlock blockSize.

Definition krealloc `{Linker} (fuel : nat) (ptr size : Z) : M kernel Z := realloc fuel ptr size.
