(* ===== verification/KheapSpec.v ===== *)
(** * Correctness of memory/kheap.c

    The free list as a doubly linked list in memory ([fl_nodes]), [bestfit],
    the break [ksbrk], and what [malloc], [kmalloc_a] and [free] do. *)

From S2P Require Export Kheap.

(** ** Sizes *)

Lemma real_size_even s : 0 <= s < 4294967296 -> getRealSize s = 2 * (s / 2).
Proof.
  intros Hs. unfold getRealSize.
  rewrite Z.shiftl_mul_pow2, Z.shiftr_div_pow2 by lia. change (2 ^ 1) with 2.
  rewrite u32_small by word_lia. lia.
Qed.

Lemma land_1 s : Z.land s 1 = s mod 2.
Proof. change 1 with (Z.ones 1). by rewrite Z.land_ones by lia. Qed.

(** Clearing the mark bit of an even size changes nothing. *)
Lemma clear_mark s : 0 <= s < 4294967296 -> s mod 2 = 0 -> Z.land s 0xFFFFFFFE = s.
Proof.
  intros Hs He. apply Z.bits_inj'. intros i Hi. rewrite Z.land_spec.
  destruct (decide (i = 0)) as [->|Hi0].
  - change (Z.testbit 0xFFFFFFFE 0) with false. rewrite andb_false_r, Z.bit0_odd.
    rewrite Zodd_mod, He. done.
  - destruct (Z.ltb_spec i 32).
    + change 0xFFFFFFFE with (Z.shiftl (Z.ones 31) 1). bits_push.
      replace (i - 1 <? 31) with true by lia. by rewrite andb_true_r.
    + by rewrite (testbit_high s 32) by (done || lia).
Qed.

(** Setting the mark bit. *)
Lemma set_mark s : s mod 2 = 0 -> Z.lor s 1 = s + 1.
Proof.
  intros He. assert (Hs : s = 2 * (s / 2)) by word_lia. rewrite Hs. generalize (s / 2) as h. clear.
  intros h. apply Z.bits_inj'. intros i Hi. rewrite Z.lor_spec.
  destruct (decide (i = 0)) as [->|Hi0].
  - rewrite Z.testbit_odd_0. change (Z.testbit 1 0) with true. by rewrite orb_true_r.
  - replace i with (Z.succ (i - 1)) by lia. rewrite Z.testbit_odd_succ, Z.testbit_even_succ by lia.
    rewrite (testbit_high 1 1); [by rewrite orb_false_r | done | lia].
Qed.

Lemma round_size_spec size :
  0 <= size <= 4294967280 ->
  round_size size = 16 * ((size + 15) / 16) /\ size <= round_size size < size + 16.
Proof. intros Hs. unfold round_size. rewrite (u32_small (size + 15)), u32_small by word_lia. word_lia. Qed.

(** ** The free list *)

(** [l] are the blocks from [p] up to but not including [q]; [prev] is what the
    first of them holds as its predecessor. *)
Fixpoint fl_seg (m : memory) (prev p q : Z) (l : list Z) : Prop :=
  match l with
  | [] => p = q
  | b :: l' =>
      p = b /\ 0 < b /\ b + SIZEOF_BLOCK <= 4294967296 /\
      ld32 m (b + 4) = prev /\ fl_seg m b (ld32 m (b + 8)) q l'
  end.

Abbreviation fl_nodes m prev p l := (fl_seg m prev p 0 l).

Definition free_list (k : kernel) (l : list Z) : Prop := fl_nodes (mem k) 0 (freelist (heap k)) l.

(** A block that [doesItFit] accepts. *)
Definition fits (k : kernel) (size b : Z) : bool :=
  (getRealSize size <=? ld32 (mem k) b) && Z.odd (ld32 (mem k) b).

Lemma wp_isFree b (Q : bool -> kernel -> Prop) k :
  b <> 0 -> Q (Z.odd (ld32 (mem k) b)) k -> wp (isFree b) Q k.
Proof.
  intros Hb HQ. unfold isFree. rewrite (proj2 (Z.eqb_neq b 0)) by done. ksteps.
  unfold blk_size. rewrite land_1, Zmod_odd. by destruct (Z.odd _).
Qed.

Lemma wp_isFree_0 (Q : bool -> kernel -> Prop) k : Q false k -> wp (isFree 0) Q k.
Proof. done. Qed.

Lemma wp_doesItFit b size (Q : bool -> kernel -> Prop) k :
  b <> 0 -> Q (fits k size b) k -> wp (doesItFit b size) Q k.
Proof.
  intros Hb HQ. unfold doesItFit. ksteps. unfold blk_size, fits in *.
  destruct (getRealSize size <=? ld32 (mem k) b); [by apply wp_isFree | by ksteps].
Qed.

Lemma blk_next_at b : 0 <= b -> b + SIZEOF_BLOCK <= 4294967296 -> blk_next b = b + 8.
Proof. unfold blk_next, SIZEOF_BLOCK. intros. apply u32_small. lia. Qed.

Lemma blk_prev_at b : 0 <= b -> b + SIZEOF_BLOCK <= 4294967296 -> blk_prev b = b + 4.
Proof. unfold blk_prev, SIZEOF_BLOCK. intros. apply u32_small. lia. Qed.

(** What the search promises when it starts from the candidate [best]. *)
Definition best_among (k : kernel) (size best : Z) (l : list Z) (r : Z) : Prop :=
  if decide (r = 0) then best = 0 /\ forall b, b ∈ l -> fits k size b = false
  else (r = best \/ r ∈ l) /\ fits k size r = true /\
       forall b, b = best /\ b <> 0 \/ b ∈ l /\ fits k size b = true -> ld32 (mem k) r <= ld32 (mem k) b.

Lemma wp_bestfit_loop fuel prev curr best size l (Q : Z -> kernel -> Prop) k :
  fl_nodes (mem k) prev curr l -> (length l < fuel)%nat ->
  (best = 0 \/ fits k size best = true) ->
  (forall r, best_among k size best l r -> Q r k) ->
  wp (bestfit_loop fuel curr best size) Q k.
Proof.
  revert prev curr best l. induction fuel as [|fuel IH]; intros prev curr best l Hl Hf Hb HQ; [lia|].
  cbn [bestfit_loop]. destruct l as [|b l].
  - rewrite Hl. ksteps. apply HQ. unfold best_among. case_decide; [split; [done|]; intros b Hb'; by apply not_elem_of_nil in Hb' |].
    destruct Hb as [|Hb]; [done|]. split_and!; [by left | done |]. intros b [[-> _]|[Hin _]]; [lia|].
    by apply not_elem_of_nil in Hin.
  - destruct Hl as (-> & Hb0 & Hb1 & _ & Hl). rewrite (proj2 (Z.eqb_neq b 0)) by lia.
    assert (Hn : blk_next b = b + 8) by (apply blk_next_at; lia). wp_step. simple apply wp_doesItFit; [lia|].
    simpl in Hf.
    assert (Hgo : forall best', (best' = 0 \/ fits k size best' = true) ->
      (forall r, best_among k size best' l r -> best_among k size best (b :: l) r) ->
      wp (next ← load32 (blk_next b); bestfit_loop fuel next best' size) Q k).
    { intros best' Hb' Himp. ksteps. rewrite Hn. eapply IH; [exact Hl | lia | exact Hb' |].
      intros r Hr. by apply HQ, Himp. }
    unfold best_among in *.
    destruct (fits k size b) eqn:Hfit; [destruct (Z.eqb_spec best 0) as [->|Hbest]|]; ksteps.
    + apply Hgo; [by right|]. intros r. case_decide; [lia|].
      intros ([-> | Hr] & Hfr & Hmin); (split_and!; [right; set_solver | done |]);
        intros b' [?|[[->|Hin]%elem_of_cons Hfb]]; try lia; apply Hmin;
        first [by right | left; lia].
    + unfold blk_size. destruct (Z.ltb_spec (ld32 (mem k) b) (ld32 (mem k) best)).
      * apply Hgo; [by right|]. intros r. case_decide; [lia|]. intros (Hr & Hfr & Hmin).
        assert (ld32 (mem k) r <= ld32 (mem k) b) by (apply Hmin; left; lia).
        split_and!; [set_solver | done |].
        intros b' [[-> ?]|[[->|Hin]%elem_of_cons Hfb]]; [lia | lia | apply Hmin; by right].
      * apply Hgo; [by destruct Hb; [|right]|]. intros r. case_decide; [lia|]. intros (Hr & Hfr & Hmin).
        assert (ld32 (mem k) r <= ld32 (mem k) best) by (apply Hmin; by left).
        split_and!; [set_solver | done |].
        intros b' [[-> ?]|[[->|Hin]%elem_of_cons Hfb]]; [lia | lia | apply Hmin; by right].
    + apply Hgo; [done|]. intros r. case_decide.
      * intros [? Hno]. split; [done|]. intros b' [->|Hin]%elem_of_cons; [done | by apply Hno].
      * intros (Hr & Hfr & Hmin). split_and!; [set_solver | done |].
        intros b' [Hb'|[[->|Hin]%elem_of_cons Hfb]]; [apply Hmin; by left | congruence | apply Hmin; by right].
Qed.

Lemma wp_bestfit fuel size l (Q : Z -> kernel -> Prop) k :
  free_list k l -> (length l < fuel)%nat ->
  (forall r, best_among k size 0 l r -> Q r k) -> wp (bestfit fuel size) Q k.
Proof.
  intros Hl Hf HQ. unfold bestfit. ksteps. unfold free_list in Hl.
  destruct (Z.eqb_spec (freelist (heap k)) 0) as [H0|]; ksteps.
  - apply HQ. unfold best_among. rewrite decide_True by done. split; [done|].
    destruct l as [|b l]; simpl in Hl; [intros b Hb; by apply not_elem_of_nil in Hb | lia].
  - eapply wp_bestfit_loop; [exact Hl | exact Hf | by left | exact HQ].
Qed.

(** on a well-formed free list [bestfit] terminates and returns a block of
    the list that is free, large enough and no larger than any other such block,
    or 0 exactly when no block of the list fits; it changes nothing. *)
Theorem bestfit_least fuel size l k :
  free_list k l -> (length l < fuel)%nat ->
  exists r, bestfit fuel size k = Done (r, k) /\
    ((r = 0 /\ forall b, b ∈ l -> fits k size b = false) \/
     (r ∈ l /\ fits k size r = true /\
      forall b, b ∈ l -> fits k size b = true -> ld32 (mem k) r <= ld32 (mem k) b)).
Proof.
  intros Hl Hf.
  assert (Hwp : wp (bestfit fuel size) (fun r k' => k' = k /\ best_among k size 0 l r) k)
    by (eapply wp_bestfit; [exact Hl | exact Hf | done]).
  apply wp_run in Hwp as (r & k' & Hrun & -> & Hr). exists r. split; [exact Hrun|].
  unfold best_among in Hr. case_decide as Hr0.
  - left. split; [done | apply Hr].
  - right. destruct Hr as ([->|Hin] & Hfr & Hmin); [done|]. split_and!; [done..|].
    intros b Hb Hfb. apply Hmin. by right.
Qed.

(** ** Updating the free list *)

(** Headers of the blocks of a list that do not overlap. *)
Definition headers_disjoint (l : list Z) : Prop :=
  forall i j a b, l !! i = Some a -> l !! j = Some b -> i <> j -> disjoint a SIZEOF_BLOCK b SIZEOF_BLOCK.

(** The links of the blocks of [l] are the same words in [m']. *)
Definition same_links (m m' : memory) (l : list Z) : Prop :=
  forall b, b ∈ l -> ld32 m' (b + 4) = ld32 m (b + 4) /\ ld32 m' (b + 8) = ld32 m (b + 8).

Lemma fl_seg_same m m' prev p q l : same_links m m' l -> fl_seg m prev p q l -> fl_seg m' prev p q l.
Proof.
  revert prev p. induction l as [|b l IH]; intros prev p Hs; [done|].
  intros (-> & H0 & H1 & Hp & Hl). destruct (Hs b ltac:(by left)) as [Hsp Hsn]. simpl.
  rewrite Hsp, Hsn. split_and!; [done..|]. apply IH; [|done]. intros c Hc. apply Hs. by right.
Qed.

Lemma headers_disjoint_tail b l : headers_disjoint (b :: l) -> headers_disjoint l.
Proof. intros H i j a c Hi Hj Hne. by apply (H (S i) (S j)); [..|lia]. Qed.

Lemma headers_disjoint_head b l c : headers_disjoint (b :: l) -> c ∈ l -> disjoint b SIZEOF_BLOCK c SIZEOF_BLOCK.
Proof. intros H [i Hi]%list_elem_of_lookup. by apply (H 0%nat (S i)). Qed.

(** A word outside every link of [l]. *)
Lemma same_links_st32 m a v l :
  (forall b, b ∈ l -> disjoint a 4 (b + 4) 8) -> same_links m (st32 m a v) l.
Proof.
  intros Hd b Hb. specialize (Hd b Hb). unfold disjoint in Hd.
  rewrite !ld32_st32_ne by (unfold disjoint; lia). done.
Qed.

Lemma same_links_trans m1 m2 m3 l : same_links m1 m2 l -> same_links m2 m3 l -> same_links m1 m3 l.
Proof. intros H1 H2 b Hb. destruct (H1 b Hb), (H2 b Hb). split; congruence. Qed.

(** Storing the predecessor of the first block. *)
Lemma fl_nodes_set_prev m prev p l v :
  fl_nodes m prev p l -> headers_disjoint l -> p <> 0 -> 0 <= v < 4294967296 ->
  fl_nodes (st32 m (p + 4) v) v p l.
Proof.
  intros Hl Hd Hp Hv. destruct l as [|b l]; [done|]. destruct Hl as (-> & H0 & H1 & _ & Hl).
  simpl. rewrite ld32_st32_eq, u32_small by done. rewrite ld32_st32_ne by (unfold disjoint; lia).
  split_and!; [done..|]. eapply fl_seg_same; [|exact Hl]. apply same_links_st32.
  intros c Hc. pose proof (headers_disjoint_head _ _ _ Hd Hc) as H.
  unfold disjoint, SIZEOF_BLOCK in *. lia.
Qed.

(** [m'] differs from [m] at most in the links of the blocks of [l]. *)
Definition links_only (m m' : memory) (l : list Z) : Prop :=
  forall a, (forall b, b ∈ l -> ~ (b + 4 <= a < b + 12)) -> ld8 m' a = ld8 m a.

Lemma links_only_st32 m m' l b f v :
  links_only m m' l -> b ∈ l -> f = 4 \/ f = 8 -> links_only m (st32 m' (b + f) v) l.
Proof.
  intros Hm Hb Hf a Ha. specialize (Ha b Hb) as Hab. rewrite ld8_st32_ne by lia. by apply Hm.
Qed.

(** So the size of every block with a header apart from theirs is kept. *)
Lemma links_only_size m m' l b :
  links_only m m' l -> (forall c, c ∈ l -> c = b \/ disjoint b 4 c SIZEOF_BLOCK) ->
  ld32 m' b = ld32 m b.
Proof.
  intros Hm Hd. apply ld32_ext. intros a Ha. apply Hm. intros c Hc.
  destruct (Hd c Hc) as [->|H]; unfold disjoint, SIZEOF_BLOCK in *; lia.
Qed.

(** What pushing the block [x] on the list does. *)
Record pushed (k k' : kernel) (x : Z) (l : list Z) : Prop := {
  pu_list : free_list k' (x :: l);
  pu_links : links_only (mem k) (mem k') (x :: l);
  pu_heap : heap k' = set_freelist x (heap k);
  pu_rest : pmm k' = pmm k /\ vmm k' = vmm k /\ k_log k' = k_log k /\ k_isr k' = k_isr k;
}.

Lemma wp_addNode x l k (Q : unit -> kernel -> Prop) :
  free_list k l -> 0 < x -> x + SIZEOF_BLOCK <= 4294967296 -> headers_disjoint (x :: l) ->
  (forall k', pushed k k' x l -> Q tt k') -> wp (addNodeToFreelist x) Q k.
Proof.
  intros Hl Hx0 Hx1 Hd HQ. unfold addNodeToFreelist.
  rewrite (proj2 (Z.eqb_neq x 0)) by lia. rewrite blk_next_at, blk_prev_at by lia. unfold free_list, SIZEOF_BLOCK in *.
  assert (Hxl : forall b, b ∈ l -> x + 12 <= b \/ b + 12 <= x).
  { intros b Hb. pose proof (headers_disjoint_head _ _ _ Hd Hb) as H.
    unfold disjoint, SIZEOF_BLOCK in H. lia. }
  assert (Hfl : freelist (heap k) = 0 \/ freelist (heap k) ∈ l /\ 0 < freelist (heap k) <= 4294967284).
  { destruct l as [|b l]; [by left|]. destruct Hl as (-> & Hb0 & Hb1 & _). right. split; [by left | unfold SIZEOF_BLOCK in Hb1; lia]. }
  assert (Hm1 : fl_nodes (st32 (mem k) (x + 8) (freelist (heap k))) 0 (freelist (heap k)) l).
  { eapply fl_seg_same; [|exact Hl]. apply same_links_st32. intros b Hb.
    specialize (Hxl b Hb). unfold disjoint. lia. }
  assert (Hx8 : ld32 (st32 (mem k) (x + 8) (freelist (heap k))) (x + 8) = freelist (heap k))
    by (rewrite ld32_st32_eq; apply u32_small; lia).
  assert (Hlo : links_only (mem k) (st32 (mem k) (x + 8) (freelist (heap k))) (x :: l))
    by (apply links_only_st32; [done | by left | lia]).
  assert (Hfinal : forall m, fl_nodes m x (freelist (heap k)) l -> ld32 m (x + 8) = freelist (heap k) ->
    links_only (mem k) m (x :: l) ->
    fl_nodes (st32 m (x + 4) 0) 0 x (x :: l) /\ links_only (mem k) (st32 m (x + 4) 0) (x :: l)).
  { intros m H1 H2 H3. split; [|apply links_only_st32; [done | by left | lia]].
    simpl. mem_simpl. rewrite H2. unfold SIZEOF_BLOCK. split_and!; [done..|].
    eapply fl_seg_same; [|exact H1]. apply same_links_st32. intros b Hb.
    specialize (Hxl b Hb). unfold disjoint. lia. }
  kstep. kstep. kstep. kstep. cbn [heap freelist set_mem HasMem_kernel].
  destruct Hfl as [H0|[Hin Hr]].
  - rewrite H0 in *. ksteps. destruct l; [|simpl in Hl; lia].
    destruct (Hfinal _ Hm1 Hx8 Hlo). apply HQ. by split.
  - rewrite (proj2 (Z.eqb_neq _ 0)) by lia. rewrite blk_prev_at by (unfold SIZEOF_BLOCK; lia).
    ksteps. cbn.
    destruct (Hfinal (st32 (st32 (mem k) (x + 8) (freelist (heap k))) (freelist (heap k) + 4) x)).
    + apply (fl_nodes_set_prev _ 0); [done | by eapply headers_disjoint_tail | lia | lia].
    + specialize (Hxl _ Hin). rewrite ld32_st32_ne by (unfold disjoint; lia). exact Hx8.
    + apply links_only_st32; [done | by right | lia].
    + apply HQ. by split.
Qed.

(** [addNodeToFreelist] pushes a block whose header lies apart from those
    of the list: the list is well formed again with the block in front, and
    memory changes only in the links of the block and of the list. *)
Theorem addNodeToFreelist_push x l k :
  free_list k l -> 0 < x -> x + SIZEOF_BLOCK <= 4294967296 -> headers_disjoint (x :: l) ->
  exists k', addNodeToFreelist x k = Done (tt, k') /\
    free_list k' (x :: l) /\ links_only (mem k) (mem k') (x :: l) /\
    heap k' = set_freelist x (heap k) /\ pmm k' = pmm k /\ vmm k' = vmm k.
Proof.
  intros Hl H0 H1 Hd. apply wp_unit. eapply wp_addNode; [exact Hl | exact H0 | exact H1 | exact Hd |].
  intros k' [Hl' Hm Hh (Hp & Hv & _)]. done.
Qed.

(** ** Removal *)

Lemma fl_seg_app m prev p q l1 l2 :
  fl_seg m prev p q (l1 ++ l2) <->
  exists r, fl_seg m prev p r l1 /\ fl_seg m (default prev (last l1)) r q l2.
Proof.
  revert prev p. induction l1 as [|b l1 IH]; intros prev p; simpl.
  - split; [intros H; by exists p | by intros (r & -> & H)].
  - rewrite IH. replace (default prev (last (b :: l1))) with (default b (last l1))
      by (rewrite last_cons; by destruct (last l1)).
    split; [intros (? & ? & ? & ? & r & ? & ?); by exists r | intros (r & (? & ? & ? & ? & ?) & ?); split_and!; eauto].
Qed.

Lemma headers_disjoint_app l1 l2 a b :
  headers_disjoint (l1 ++ l2) -> a ∈ l1 -> b ∈ l2 -> disjoint a SIZEOF_BLOCK b SIZEOF_BLOCK.
Proof.
  intros H [i Hi]%list_elem_of_lookup [j Hj]%list_elem_of_lookup.
  apply (H i (length l1 + j)%nat).
  - by apply lookup_app_l_Some.
  - rewrite lookup_app_r by lia. by replace (length l1 + j - length l1)%nat with j by lia.
  - apply lookup_lt_Some in Hi. lia.
Qed.

Lemma headers_disjoint_sub l l' :
  headers_disjoint l -> (forall i j a b, l' !! i = Some a -> l' !! j = Some b -> i <> j ->
    exists i' j', l !! i' = Some a /\ l !! j' = Some b /\ i' <> j') -> headers_disjoint l'.
Proof. intros H Hs i j a b Ha Hb Hne. destruct (Hs i j a b Ha Hb Hne) as (i' & j' & ? & ? & ?). eauto. Qed.

Lemma headers_disjoint_skip l1 l2 : headers_disjoint (l1 ++ l2) -> headers_disjoint l2.
Proof.
  intros H. eapply headers_disjoint_sub; [exact H|]. intros i j a b Ha Hb Hne.
  exists (length l1 + i)%nat, (length l1 + j)%nat.
  rewrite !lookup_app_r, !Nat.add_sub_swap, !Nat.sub_diag by lia. split_and!; [done..|lia].
Qed.

(** The links after a block of the list is bypassed. *)
Lemma fl_bypass m l0 y x l2 p :
  fl_nodes m 0 p (l0 ++ y :: x :: l2) -> headers_disjoint (l0 ++ y :: x :: l2) ->
  let n := ld32 m (x + 8) in
  let m1 := st32 m (y + 8) n in
  fl_nodes (if n =? 0 then m1 else st32 m1 (n + 4) y) 0 p (l0 ++ y :: l2).
Proof.
  intros Hl Hd n m1. apply fl_seg_app in Hl as (r & Hl0 & -> & Hy0 & Hy1 & Hyp & Hx).
  destruct Hx as (Hyn & Hx0 & Hx1 & Hxp & Hl2). fold n in Hl2.
  assert (Hd0 : forall b c, b ∈ l0 -> c ∈ y :: x :: l2 -> disjoint b SIZEOF_BLOCK c SIZEOF_BLOCK)
    by (intros b c Hb Hc; exact (headers_disjoint_app _ _ b c Hd Hb Hc)).
  pose proof (headers_disjoint_skip _ _ Hd) as Hdy.
  assert (Hdl : forall c, c ∈ l2 -> disjoint y SIZEOF_BLOCK c SIZEOF_BLOCK)
    by (intros c Hc; apply (headers_disjoint_head _ _ c Hdy); by right).
  assert (Hd2 : headers_disjoint l2) by (by do 2 eapply headers_disjoint_tail).
  pose proof (ld32_range m (x + 8)) as Hn. fold n in Hn. unfold SIZEOF_BLOCK, disjoint in *.
  assert (Hm1 : fl_nodes m1 x n l2).
  { eapply fl_seg_same; [|exact Hl2]. apply same_links_st32. intros c Hc. specialize (Hdl c Hc).
    unfold disjoint. lia. }
  assert (Hseg : fl_seg m1 0 p y l0).
  { eapply fl_seg_same; [|exact Hl0]. apply same_links_st32. intros b Hb.
    specialize (Hd0 b y Hb ltac:(by left)). unfold disjoint. lia. }
  apply fl_seg_app. exists y. simpl. unfold SIZEOF_BLOCK.
  assert (Hm1y : ld32 m1 (y + 4) = default 0 (last l0) /\ ld32 m1 (y + 8) = n).
  { unfold m1. rewrite ld32_st32_eq, u32_small, ld32_st32_ne by (unfold disjoint; lia). done. }
  destruct Hm1y as [Hm1p Hm1n].
  destruct (Z.eqb_spec n 0) as [Hn0|Hn0].
  - rewrite Hm1p, Hm1n. split_and!; [done..|]. destruct l2 as [|c l2]; [exact Hm1|]. simpl in Hm1. lia.
  - assert (Hin : n ∈ l2) by (destruct l2; [done|]; destruct Hm1 as [-> _]; by left).
    assert (Hsep : forall a, a + 12 <= n \/ n + 12 <= a -> disjoint (n + 4) 4 (a + 4) 8)
      by (unfold disjoint; lia).
    rewrite !ld32_st32_ne by (specialize (Hdl n Hin); unfold disjoint; lia).
    rewrite Hm1p, Hm1n. split_and!; [|done..|].
    + eapply fl_seg_same; [|exact Hseg]. apply same_links_st32. intros b Hb. apply Hsep.
      apply Hd0; [done|]. by do 2 right.
    + apply (fl_nodes_set_prev _ x); [exact Hm1 | exact Hd2 | done | lia].
Qed.

Lemma heap_eta g : g = set_freelist (freelist g) g.
Proof. by destruct g. Qed.

(** What taking the block [x] out of the list does. *)
Record unlinked (k k' : kernel) (x : Z) (l1 l2 : list Z) : Prop := {
  un_list : free_list k' (l1 ++ l2);
  un_links : links_only (mem k) (mem k') (l1 ++ x :: l2);
  un_heap : heap k' = set_freelist (freelist (heap k')) (heap k);
  un_rest : pmm k' = pmm k /\ vmm k' = vmm k /\ k_log k' = k_log k /\ k_isr k' = k_isr k;
}.

Lemma wp_removeNode x l1 l2 k (Q : unit -> kernel -> Prop) :
  free_list k (l1 ++ x :: l2) -> headers_disjoint (l1 ++ x :: l2) ->
  (forall k', unlinked k k' x l1 l2 -> Q tt k') -> wp (removeNodeFromFreelist x) Q k.
Proof.
  intros Hl Hd HQ.
  assert (Hx : 0 < x /\ x + SIZEOF_BLOCK <= 4294967296 /\ ld32 (mem k) (x + 4) = default 0 (last l1) /\
               fl_nodes (mem k) x (ld32 (mem k) (x + 8)) l2).
  { apply fl_seg_app in Hl as (r & _ & -> & H). done. }
  destruct Hx as (Hx0 & Hx1 & Hxp & Hl2).
  assert (Hn : ld32 (mem k) (x + 8) = 0 \/ ld32 (mem k) (x + 8) ∈ l2 /\ 0 < ld32 (mem k) (x + 8) /\
               ld32 (mem k) (x + 8) + SIZEOF_BLOCK <= 4294967296).
  { destruct l2 as [|c l2]; [by left | right]. destruct Hl2 as (-> & ? & ? & _). by split; [left|]. }
  unfold removeNodeFromFreelist. rewrite (proj2 (Z.eqb_neq x 0)) by lia.
  rewrite blk_prev_at, blk_next_at by lia. kstep. kstep. rewrite Hxp.
  destruct l1 as [|y l0 _] using rev_ind.
  - cbn [app last default] in *. cbn [Z.eqb negb]. ksteps.
    assert (Hlo : links_only (mem k) (mem k) (x :: l2)) by done.
    cbn [default Z.eqb negb]. destruct Hn as [Hn|(Hin & Hn0 & Hn1)].
    + rewrite Hn in *. ksteps. destruct l2; [|simpl in Hl2; lia]. apply HQ. by split.
    + rewrite (proj2 (Z.eqb_neq _ 0)) by lia. rewrite blk_prev_at by lia. ksteps.
      apply HQ. split; [|apply links_only_st32; [done | by right | lia] | done..].
      apply (fl_nodes_set_prev _ x (ld32 (mem k) (x + 8))); [done | by eapply headers_disjoint_tail | lia | lia].
  - rewrite last_snoc in *. cbn [default id] in *.
    rewrite <- !(assoc_L (++)) in *. cbn [app] in *.
    pose proof (fl_bypass _ _ _ _ _ _ Hl Hd) as Hb. cbv zeta in Hb.
    assert (Hy : 0 < y /\ y + SIZEOF_BLOCK <= 4294967296).
    { apply fl_seg_app in Hl as (r & _ & -> & ? & ? & _). done. }
    assert (Hdyx : disjoint y SIZEOF_BLOCK x SIZEOF_BLOCK).
    { eapply headers_disjoint_head; [by eapply headers_disjoint_skip | by left]. }
    unfold SIZEOF_BLOCK, disjoint in Hdyx. rewrite (proj2 (Z.eqb_neq y 0)) by lia.
    rewrite blk_next_at by lia. ksteps. cbn [mem set_mem HasMem_kernel k_mem].
    rewrite ld32_st32_ne by (unfold disjoint; lia).
    assert (Hlo : links_only (mem k) (st32 (mem k) (y + 8) (ld32 (mem k) (x + 8))) (l0 ++ y :: x :: l2)).
    { apply links_only_st32; [done | set_solver | lia]. }
    change (k_mem k) with (mem k) in *. destruct Hn as [Hn|(Hin & Hn0 & Hn1)].
    + rewrite Hn in *. ksteps. apply HQ. split; rewrite <- ?(assoc_L (++)); [exact Hb | exact Hlo | apply heap_eta | done].
    + rewrite (proj2 (Z.eqb_neq _ 0)) in Hb |- * by lia. rewrite blk_prev_at by lia. ksteps.
      cbn [mem set_mem HasMem_kernel k_mem]. rewrite ld32_st32_ne by (unfold disjoint; lia).
      change (k_mem k) with (mem k). rewrite Hxp.
      apply HQ. split; rewrite <- ?(assoc_L (++)); [exact Hb | | apply heap_eta | done]. apply links_only_st32; [done | set_solver | lia].
Qed.

(** [removeNodeFromFreelist] takes a block of a well-formed list out of it
    and leaves the rest in order; memory changes only in links of the list. *)
Theorem removeNodeFromFreelist_unlink x l1 l2 k :
  free_list k (l1 ++ x :: l2) -> headers_disjoint (l1 ++ x :: l2) ->
  exists k', removeNodeFromFreelist x k = Done (tt, k') /\
    free_list k' (l1 ++ l2) /\ links_only (mem k) (mem k') (l1 ++ x :: l2) /\
    heap k' = set_freelist (freelist (heap k')) (heap k) /\ pmm k' = pmm k /\ vmm k' = vmm k.
Proof.
  intros Hl Hd. apply wp_unit. eapply wp_removeNode; [exact Hl | exact Hd |].
  intros k' [H1 H2 H3 (H4 & H5 & _)]. done.
Qed.
