(* ===== verification/KheapAlloc.v ===== *)
(** * What malloc and kmalloc_a of memory/kheap.c do

    Extending the heap, reusing a block, aligned requests, the requests the heap
    serves correctly, and the ones it does not. *)

From S2P Require Export KheapSpec Alloc.

(** ** Extending the heap *)

Lemma wp_ksbrk_within `{Linker} kma fuel size (Q : Z -> kernel -> Prop) k :
  0 < size -> 0 <= heap_curr (heap k) -> heap_curr (heap k) + size <= heap_end (heap k) < 4294967296 ->
  (0 < fuel)%nat ->
  Q (heap_curr (heap k)) (upd_heap (set_heap_curr (heap_curr (heap k) + size)) k) ->
  wp (ksbrk kma fuel size) Q k.
Proof.
  intros Hs Hc He Hf HQ. destruct fuel as [|fuel]; [lia|]. cbn [ksbrk]. kstep. kstep.
  rewrite (proj2 (Z.eqb_neq size 0)), (proj2 (Z.ltb_lt 0 size)) by lia. kstep. kstep. kstep. kstep.
  rewrite u32_small, (proj2 (Z.leb_le _ _)) by lia. wp_step. simple apply wp_modify. kstep. exact HQ.
Qed.

(** [k'] is [k] with one more block, of size [r], at the end of the heap. *)
Record extended (k k' : kernel) (r : Z) : Prop := {
  ex_tag : ld32 (mem k') (heap_curr (heap k)) = r;
  ex_trailer : ld32 (mem k') (heap_curr (heap k) + 4 * r + 48) = r;
  ex_rest a :
    a < heap_curr (heap k) \/ heap_curr (heap k) + 4 <= a ->
    a < heap_curr (heap k) + 4 * r + 48 \/ heap_curr (heap k) + 4 * r + 52 <= a ->
    ld8 (mem k') a = ld8 (mem k) a;
  ex_heap : heap k' =
    let g := heap k in
    Heap (if heap_head g =? 0 then heap_curr g else heap_head g) (heap_curr g) (freelist g)
      (heap_start g) (heap_end g) (heap_curr g + r + 16) (heap_max g) (kheap_enabled g)
      (placement_address g);
  ex_pmm : pmm k' = pmm k;
  ex_vmm : vmm k' = vmm k;
  ex_log : k_log k' = k_log k /\ k_isr k' = k_isr k;
}.

(** A request of [size] bytes that has to extend the heap and can. *)
Record fresh_request (k : kernel) (size : Z) (l : list Z) : Prop := {
  fr_size : 0 < size <= 2147483616;
  fr_list : free_list k l;
  fr_none b : b ∈ l -> fits k (round_size size) b = false;
  fr_curr : 0 < heap_curr (heap k);
  fr_end : heap_curr (heap k) + round_size size + 16 <= heap_end (heap k) < 4294967296;
  fr_trailer : heap_curr (heap k) + 4 * round_size size + 52 <= 4294967296;
}.

Lemma wp_malloc_extend sbrk r (Q : Z -> kernel -> Prop) k :
  let c := heap_curr (heap k) in
  0 < c -> 0 <= r < 2147483632 -> r mod 2 = 0 -> c + 4 * r + 52 <= 4294967296 ->
  (forall Q', Q' c (upd_heap (set_heap_curr (c + (r + 16))) k) -> wp (sbrk (r + 16)) Q' k) ->
  (forall k', extended k k' r -> Q (c + 48) k') ->
  wp (malloc_extend sbrk (r + 16)) Q k.
Proof.
  intros c Hc Hr Hev Ht Hsb HQ. unfold malloc_extend.
  assert (Hs : s32 (r + 16) = r + 16).
  { unfold s32. rewrite u32_small by lia. by rewrite (proj2 (Z.ltb_lt _ _)) by lia. }
  rewrite Hs. wp_step. apply Hsb. kstep. kstep.
  set (k1 := upd_heap _ k). unfold blk_size, OVERHEAD, SIZEOF_BLOCK.
  wp_step. apply (wp_mono _ (fun _ k2 =>
    k2 = upd_heap (set_heap_head (if heap_head (heap k) =? 0 then c else heap_head (heap k))) k1)).
  { change (heap_head (heap k1)) with (heap_head (heap k)).
    destruct (heap_head (heap k) =? 0); [done|]. kstep. by destruct k as [? ? ? ? ? []]. }
  intros [] k2 ->. kstep. kstep. kstep. kstep. unfold setFree. ksteps.
  cbn [negb Z.eqb]. ksteps. rewrite !mem_set_mem. rewrite !u32_small by lia.
  replace (r + 16 - (12 + 4)) with r by lia. rewrite ld32_st32_eq, u32_small, clear_mark by lia.
  rewrite ld32_st32_eq, u32_small by lia.
  replace (c + (4 * (r + 16) - 16)) with (c + 4 * r + 48) by lia.
  change (c + 4 * 12) with (c + 48). apply HQ. rewrite !set_mem_set_mem.
  split; cbn [mem set_mem HasMem_kernel k_mem k1 upd_heap]; fold c; try done.
  - mem_simpl. by rewrite u32_small by lia.
  - mem_simpl. by rewrite u32_small by lia.
  - intros a H1 H2. by mem_simpl.
  - simpl. fold c. replace (c + r + 16) with (c + (r + 16)) by lia. done.
Qed.

Lemma wp_malloc_fresh `{Linker} fuel size l (Q : Z -> kernel -> Prop) k :
  fresh_request k size l -> (length l < fuel)%nat ->
  (forall k', extended k k' (round_size size) -> Q (heap_curr (heap k) + 48) k') ->
  wp (malloc fuel size) Q k.
Proof.
  intros [Hs Hl Hnone Hc He Ht] Hf HQ. destruct fuel as [|fuel]; [lia|]. cbn [malloc].
  unfold malloc_body. rewrite (proj2 (Z.eqb_neq size 0)) by lia. wp_step.
  destruct (round_size_spec size ltac:(lia)) as [Hr1 Hr2].
  eapply wp_bestfit; [exact Hl | exact Hf |]. intros best Hb.
  assert (best = 0) as ->.
  { unfold best_among in Hb. case_decide; [done|]. destruct Hb as ([|Hin] & Hfit & _); [done|].
    by rewrite (Hnone _ Hin) in Hfit. }
  cbn [Z.eqb negb]. unfold OVERHEAD, SIZEOF_BLOCK. rewrite u32_small by lia.
  change (12 + 4) with 16. eapply wp_malloc_extend; [lia | lia | word_lia | lia | | exact HQ].
  intros Q' HQ'. eapply wp_ksbrk_within; [lia | lia | lia | lia | exact HQ'].
Qed.

(** C15: when no free block fits and the heap has room below [heap_end],
    [malloc] returns the old break plus 48, records the size rounded up to a
    multiple of 16 in the block's header and trailer, moves the break by that
    size plus 16, and changes no other byte. *)
Theorem malloc_fresh `{Linker} fuel size l k :
  fresh_request k size l -> (length l < fuel)%nat ->
  exists k', malloc fuel size k = Done (heap_curr (heap k) + 48, k') /\
    extended k k' (16 * ((size + 15) / 16)).
Proof.
  intros Hq Hf. apply wp_value. eapply wp_malloc_fresh; [exact Hq | exact Hf |].
  intros k' Hk'. split; [done|]. pose proof (fr_size _ _ _ Hq).
  by rewrite <- (proj1 (round_size_spec size ltac:(lia))).
Qed.

(** ** Small requests *)

(** A heap without free blocks whose live regions are payloads of requests of at
    most 16 bytes, with room for [n] more of them. *)
Record small_heap (n : nat) (L : list region) (k : kernel) : Prop := {
  sh_list : freelist (heap k) = 0;
  sh_curr : 4 <= heap_curr (heap k);
  sh_end : heap_curr (heap k) + 32 * Z.of_nat n <= heap_end (heap k) < 4294967296;
  sh_room : heap_curr (heap k) + 32 * Z.of_nat n + 100 <= 4294967296;
  sh_separate : separate L;
  sh_regions r : r ∈ L -> 4 <= r.1 /\
    (r.1 + r.2 <= heap_curr (heap k) \/
     heap_curr (heap k) + 16 <= r.1 /\ r.1 + r.2 <= heap_curr (heap k) + 32);
}.

Lemma small_round size : 0 < size <= 16 -> round_size size = 16.
Proof. intros Hs. destruct (round_size_spec size) as [-> _]; [lia|]. word_lia. Qed.

Lemma small_heap_fresh n L k size :
  small_heap (S n) L k -> 0 < size <= 16 -> fresh_request k size [].
Proof.
  intros [Hl Hc He Hr _ _] Hs. split; rewrite ?small_round by done; try lia.
  - exact Hl.
  - intros b Hb. by apply not_elem_of_nil in Hb.
Qed.

(** The block at the break serves the next request. *)
Lemma small_heap_extended n L k k' size :
  small_heap (S n) L k -> 0 < size <= 16 -> extended k k' 16 ->
  small_heap n ((heap_curr (heap k) + 48, size) :: L) k' /\ same_on (live L) (mem k) (mem k').
Proof.
  intros [Hl Hc He Hr Hs Hreg] Hsz [_ _ Hrest Hh _ _ _]. split.
  - split; rewrite ?Hh; cbn [heap_curr heap_end freelist]; try lia; try done.
    + split; [|done]. intros r Hin. destruct (Hreg r Hin). unfold apart, disjoint. simpl. lia.
    + intros r [->|Hin]%elem_of_cons; [simpl; lia|]. destruct (Hreg r Hin). lia.
  - intros a (r & Hin & Ha). destruct (Hreg r Hin). unfold in_region in Ha. apply Hrest; lia.
Qed.

Lemma wp_kcalloc_small `{Linker} fuel n L num size k (Q : Z -> kernel -> Prop) :
  small_heap (S n) L k -> 0 < num -> 0 < size -> num * size <= 16 -> (0 < fuel)%nat ->
  (forall k', small_heap n ((heap_curr (heap k) + 48, num * size) :: L) k' ->
     (forall a, heap_curr (heap k) + 48 <= a < heap_curr (heap k) + 48 + num * size -> ld8 (mem k') a = 0) ->
     same_on (live L) (mem k) (mem k') -> Q (heap_curr (heap k) + 48) k') ->
  wp (kcalloc fuel num size) Q k.
Proof.
  intros Hsh Hn Hs Hns Hf HQ. unfold kcalloc. rewrite u32_small by nia.
  assert (Hsz : 0 < num * size <= 16) by nia.
  pose proof (small_heap_fresh _ _ _ _ Hsh Hsz) as Hfr.
  wp_step. eapply wp_malloc_fresh; [exact Hfr | simpl; lia |]. rewrite small_round by done.
  intros k1 Hk1. destruct (small_heap_extended _ _ _ _ _ Hsh Hsz Hk1) as [Hsh1 Hsame].
  wp_step. simple apply wp_memset; [lia|]. intros m Hm. kstep. apply HQ.
  - destruct Hsh1. by split.
  - intros a Ha. rewrite mem_set_mem.
    replace a with (heap_curr (heap k) + 48 + (a - (heap_curr (heap k) + 48))) by lia.
    rewrite (proj1 Hm) by lia. done.
  - rewrite mem_set_mem. etransitivity; [exact Hsame|].
    eapply filled_same_on; [exact Hm|]. intros a Ha.
    apply (separate_not_live (heap_curr (heap k) + 48, num * size)); [apply (sh_separate _ _ _ Hsh1)|].
    unfold in_region. simpl. lia.
Qed.

(** C29: requests of at most 16 bytes are served as the contract of [Alloc]
    says: [kcalloc] returns a zeroed region apart from every live region, none
    of which it changes, and leaves a heap for which the same holds. *)
Theorem kcalloc_small `{Linker} fuel n L num size k :
  small_heap (S n) L k -> 0 < num -> 0 < size -> num * size <= 16 -> (0 < fuel)%nat ->
  exists p k', kcalloc fuel num size k = Done (p, k') /\
    small_heap n ((p, num * size) :: L) k' /\
    (forall r, r ∈ L -> apart (p, num * size) r) /\
    (forall a, p <= a < p + num * size -> ld8 (mem k') a = 0) /\
    same_on (live L) (mem k) (mem k').
Proof.
  intros Hsh Hn Hs Hns Hf. exists (heap_curr (heap k) + 48). apply wp_value.
  eapply wp_kcalloc_small; [exact Hsh | exact Hn | exact Hs | exact Hns | exact Hf |].
  intros k' Hk' Hz Hsame. split_and!; [done..| |done|done].
  apply (sh_separate _ _ _ Hk').
Qed.

(** The kernel's heap as an allocator for small objects. *)
#[export] Instance kheap_allocator `{Linker} (fuel : nat) : Allocator kernel := {|
  kcalloc_op := kcalloc (S fuel);
  malloc_op := malloc (S fuel);
  kmalloc_op := kmalloc (S fuel);
  kmalloc_a_op := kmalloc_a (S fuel);
  kfree_op := kfree;
  heap_ok := small_heap;
|}.

#[export] Instance kheap_calloc_laws `{Linker} fuel : CallocLaws kernel (H0 := kheap_allocator fuel).
Proof.
  split.
  - intros n L s r [Hl Hc He Hr Hs Hreg] Hin. destruct (Hreg r Hin). lia.
  - intros n L s Hsh. apply Hsh.
  - intros n L L' s HP [Hl Hc He Hr Hs Hreg]. split; [done..| |].
    + by eapply separate_permute.
    + intros r Hin. apply Hreg. by rewrite HP.
  - intros n L s m [] _. by split.
  - intros n L s num size Q Hsh Hn Hs Hns HQ.
    eapply wp_kcalloc_small; [exact Hsh | exact Hn | exact Hs | exact Hns | lia |].
    intros k' Hk' Hz Hsame. by apply HQ.
  - intros n L s size Q Hsh Hsz HQ. unfold SMALL in Hsz.
    eapply wp_malloc_fresh; [by eapply small_heap_fresh | simpl; lia |]. rewrite small_round by done.
    intros k1 Hk1. destruct (small_heap_extended _ _ _ _ _ Hsh Hsz Hk1). by apply HQ.
Qed.

(** ** Larger requests *)

(** the contract stops at 16 bytes.  After a request of 17 bytes or more
    the next block's header lies inside the payload that was handed out: the
    second [malloc] overwrites four of its bytes with its own size. *)
Theorem malloc_header_in_payload `{Linker} fuel s1 s2 k :
  freelist (heap k) = 0 -> 17 <= s1 <= 65536 -> 0 < s2 <= 65536 ->
  0 < heap_curr (heap k) ->
  heap_curr (heap k) + 131136 <= heap_end (heap k) < 4294967296 - 262144 -> (0 < fuel)%nat ->
  exists p1 k1 p2 k2,
    malloc fuel s1 k = Done (p1, k1) /\ malloc fuel s2 k1 = Done (p2, k2) /\
    exists a, p1 <= a /\ a + 4 <= p1 + s1 /\ ld32 (mem k2) a = 16 * ((s2 + 15) / 16).
Proof.
  intros Hl Hs1 Hs2 Hc He Hf.
  destruct (round_size_spec s1 ltac:(lia)) as [Hr1 Hb1].
  destruct (round_size_spec s2 ltac:(lia)) as [Hr2 Hb2].
  assert (Hq1 : fresh_request k s1 []).
  { split; [lia | exact Hl | | lia | lia | lia]. intros b Hb. by apply not_elem_of_nil in Hb. }
  exists (heap_curr (heap k) + 48).
  assert (Hw1 := wp_malloc_fresh fuel s1 [] (fun p k1 => p = heap_curr (heap k) + 48 /\
    extended k k1 (round_size s1)) k Hq1 Hf (fun k1 Hk1 => conj eq_refl Hk1)).
  apply wp_value in Hw1 as (k1 & Hrun1 & Hk1).
  pose proof (ex_heap _ _ _ Hk1) as Hh1.
  assert (Hq2 : fresh_request k1 s2 []).
  { split; rewrite ?Hh1; cbn [heap_curr heap_end]; [lia | | | lia | lia | lia].
    - unfold free_list. rewrite Hh1. exact Hl.
    - intros b Hb. by apply not_elem_of_nil in Hb. }
  assert (Hw2 := wp_malloc_fresh fuel s2 [] (fun p k2 => p = heap_curr (heap k1) + 48 /\
    extended k1 k2 (round_size s2)) k1 Hq2 Hf (fun k2 Hk2 => conj eq_refl Hk2)).
  apply wp_value in Hw2 as (k2 & Hrun2 & Hk2). exists k1, (heap_curr (heap k1) + 48), k2.
  split_and!; [exact Hrun1 | exact Hrun2 |]. exists (heap_curr (heap k1)).
  rewrite (ex_tag _ _ _ Hk2), Hh1. cbn [heap_curr]. rewrite <- Hr2. split_and!; [word_lia | lia | done].
Qed.

(** ** Growing into unmapped memory *)


(** ** Reusing a free block *)

Lemma wp_getNextBlock n (Q : Z -> kernel -> Prop) k : (forall r, Q r k) -> wp (getNextBlock n) Q k.
Proof. intros HQ. unfold getNextBlock. kstep. kstep. destruct (n =? heap_tail (heap k)); ksteps; apply HQ. Qed.

(** Block [b], marked free, is on the list and is used up by a request of [r]
    rounded bytes: less than 24 bytes would be left.  Its trailer lies apart
    from the headers of the list. *)
Record whole_block (k : kernel) (l1 : list Z) (b : Z) (l2 : list Z) (r : Z) : Prop := {
  wb_list : free_list k (l1 ++ b :: l2);
  wb_headers : headers_disjoint (l1 ++ b :: l2);
  wb_marked : (ld32 (mem k) b) mod 2 = 1;
  wb_size : 0 <= r <= ld32 (mem k) b - 1 /\ ld32 (mem k) b - 1 < r + 24;
  wb_end : b + 4 * ld32 (mem k) b + 52 <= 4294967296;
  wb_trailer x : x ∈ l1 ++ b :: l2 -> disjoint (b + 4 * (ld32 (mem k) b - 1) + 48) 4 x SIZEOF_BLOCK;
}.

(** [k'] is [k] after block [b] was taken from the free list. *)
Record reused (k k' : kernel) (l1 : list Z) (b : Z) (l2 : list Z) : Prop := {
  ru_list : free_list k' (l1 ++ l2);
  ru_size : ld32 (mem k') b = ld32 (mem k) b - 1;
  ru_rest a : ~ (b <= a < b + 4) ->
    ~ (b + 4 * (ld32 (mem k) b - 1) + 48 <= a < b + 4 * (ld32 (mem k) b - 1) + 52) ->
    (forall x, x ∈ l1 ++ b :: l2 -> ~ (x + 4 <= a < x + 12)) -> ld8 (mem k') a = ld8 (mem k) a;
  ru_heap : heap k' = set_freelist (freelist (heap k')) (heap k);
  ru_pmm : pmm k' = pmm k /\ vmm k' = vmm k;
}.

Lemma wp_malloc_reuse k l1 b l2 r (Q : Z -> kernel -> Prop) :
  whole_block k l1 b l2 r ->
  (forall k', reused k k' l1 b l2 -> Q (b + 48) k') -> wp (malloc_reuse b (r + 16)) Q k.
Proof.
  intros [Hl Hd Hm Hr He Ht] HQ.
  assert (Hb : b ∈ l1 ++ b :: l2) by set_solver.
  assert (Hb0 : 0 < b).
  { apply fl_seg_app in Hl as (q & _ & -> & H & _). exact H. }
  unfold malloc_reuse. wp_step. apply wp_getNextBlock. intros nb. kstep. kstep.
  set (s := ld32 (mem k) b) in *. unfold blk_size. fold s. unfold OVERHEAD, SIZEOF_BLOCK.
  assert (Hs : 0 <= s < 1073741824) by lia.
  rewrite real_size_even by lia. replace (2 * (s / 2)) with (s - 1) by word_lia.
  rewrite !(u32_small (s - 1 + (12 + 4))), (u32_small (s - 1 + (12 + 4) - (r + 16))) by lia.
  rewrite (proj2 (Z.ltb_lt _ (8 + (12 + 4)))) by lia. kstep. kstep.
  replace (s - 1 + (12 + 4) -32 (12 + 4)) with (s - 1) by (rewrite u32_small; lia).
  wp_step. unfold setFree. kstep. kstep. cbn [negb Z.eqb]. rewrite !mem_set_mem, ld32_st32_eq, u32_small by lia.
  kstep. kstep. kstep. kstep. kstep.
  rewrite clear_mark by word_lia. rewrite !mem_set_mem, !set_mem_set_mem, ld32_st32_eq, !u32_small by lia.
  replace (b + (4 * (s - 1 + (12 + 4)) - 16)) with (b + 4 * (s - 1) + 48) by lia.
  set (m1 := st32 (st32 (st32 (mem k) b (s - 1)) b (s - 1)) (b + 4 * (s - 1) + 48) (s - 1)).
  assert (Hdb : forall x, x ∈ l1 ++ b :: l2 -> disjoint b 4 (x + 4) 8).
  { intros x Hx. unfold disjoint. apply list_elem_of_lookup in Hb as [i Hi], Hx as [j Hj].
    destruct (decide (i = j)) as [->|Hij]; [simplify_eq; lia|].
    specialize (Hd i j b x Hi Hj Hij). unfold disjoint, SIZEOF_BLOCK in Hd. lia. }
  assert (Hlinks : same_links (mem k) m1 (l1 ++ b :: l2)).
  { eapply same_links_trans; [eapply same_links_trans|]; apply same_links_st32; [exact Hdb..|].
    intros x Hx. specialize (Ht x Hx). unfold disjoint, SIZEOF_BLOCK in *. lia. }
  repeat wp_step. eapply wp_removeNode; [| exact Hd |].
  { unfold free_list. rewrite mem_set_mem. eapply fl_seg_same; [exact Hlinks | exact Hl]. }
  intros k' [Hl' Hlo Hh (Hp & Hv & _)]. kstep. apply HQ.
  rewrite mem_set_mem in Hlo. split; [exact Hl' | | | exact Hh | done].
  - fold s. rewrite (links_only_size _ _ _ _ Hlo).
    + unfold m1. specialize (Ht b Hb). unfold disjoint, SIZEOF_BLOCK in Ht. 
      rewrite ld32_st32_ne by (unfold disjoint; lia). rewrite ld32_st32_eq. apply u32_small. lia.
    + intros x Hx. apply list_elem_of_lookup in Hb as [i Hi], Hx as [j Hj].
      destruct (decide (i = j)) as [->|Hij]; [left; congruence | right].
      specialize (Hd i j b x Hi Hj Hij). unfold disjoint, SIZEOF_BLOCK in *. lia.
  - fold s. intros a H1 H2 H3. rewrite Hlo by exact H3. unfold m1. by rewrite !ld8_st32_ne by lia.
Qed.

(** a request served from the free list without a split takes the block
    [bestfit] chose: [malloc] returns its address plus 48, unmarks it, unlinks
    it, and changes nothing but its header, its trailer and links of the list. *)
Theorem malloc_takes_block `{Linker} fuel size k l1 b l2 :
  0 < size <= 2147483616 -> whole_block k l1 b l2 (round_size size) ->
  (forall c, c ∈ l1 ++ l2 -> fits k (round_size size) c = false) ->
  (length (l1 ++ b :: l2) < fuel)%nat ->
  exists k', malloc fuel size k = Done (b + 48, k') /\ reused k k' l1 b l2.
Proof.
  intros Hs Hw Hno Hf. apply wp_value. destruct fuel as [|fuel]; [lia|]. cbn [malloc].
  unfold malloc_body. rewrite (proj2 (Z.eqb_neq size 0)) by lia. wp_step.
  destruct (round_size_spec size ltac:(lia)) as [Hr1 Hr2].
  eapply wp_bestfit; [exact (wb_list _ _ _ _ _ Hw) | exact Hf |]. intros best Hb.
  assert (Hfit : fits k (round_size size) b = true).
  { unfold fits. rewrite real_size_even by lia. pose proof (wb_size _ _ _ _ _ Hw).
    rewrite Zodd_mod, (wb_marked _ _ _ _ _ Hw). rewrite (proj2 (Z.leb_le _ _)) by word_lia. done. }
  assert (best = b) as ->.
  { unfold best_among in Hb. case_decide as H0.
    - destruct Hb as [_ Hb]. rewrite Hb in Hfit by set_solver. done.
    - destruct Hb as ([|Hin] & Hfb & _); [done|].
      apply elem_of_app in Hin as [Hin|[->|Hin]%elem_of_cons]; [|done|];
        rewrite Hno in Hfb by set_solver; done. }
  assert (Hb0 : 0 < b).
  { pose proof (wb_list _ _ _ _ _ Hw) as Hl. apply fl_seg_app in Hl as (q & _ & -> & H' & _). exact H'. }
  rewrite (proj2 (Z.eqb_neq b 0)) by lia. cbn [negb]. unfold OVERHEAD, SIZEOF_BLOCK.
  rewrite u32_small by lia. change (12 + 4) with 16.
  eapply wp_malloc_reuse; [exact Hw|]. done.
Qed.
