(* ===== verification/KheapFree.v ===== *)
(** * Coalescing in free of memory/kheap.c

    [free] on every combination of free and used neighbours, for a block whose
    neighbours, when they are marked free, are on the free list; and what [free]
    releases on the heap that [malloc] builds. *)

From S2P Require Export KheapAlloc.

(** ** The neighbours *)

Definition prev_block (k : kernel) (b : Z) : Z :=
  if b =? heap_head (heap k) then 0 else b -32 (64 + 4 * getRealSize (ld32 (mem k) (b -32 16))).
Definition next_block (k : kernel) (b : Z) : Z :=
  if b =? heap_tail (heap k) then 0 else b +32 (64 + 4 * getRealSize (ld32 (mem k) b)).
Definition marked (k : kernel) (b : Z) : bool := negb (b =? 0) && Z.odd (ld32 (mem k) b).

Lemma wp_prev_block b (Q : Z -> kernel -> Prop) k : Q (prev_block k b) k -> wp (getPrevBlock b) Q k.
Proof.
  intros HQ. unfold getPrevBlock, prev_block in *. kstep. kstep.
  destruct (b =? heap_head (heap k)); ksteps; exact HQ.
Qed.

Lemma wp_next_block b (Q : Z -> kernel -> Prop) k : Q (next_block k b) k -> wp (getNextBlock b) Q k.
Proof.
  intros HQ. unfold getNextBlock, next_block in *. kstep. kstep.
  destruct (b =? heap_tail (heap k)); ksteps; exact HQ.
Qed.

Lemma wp_marked b (Q : bool -> kernel -> Prop) k : Q (marked k b) k -> wp (isFree b) Q k.
Proof.
  unfold marked. destruct (Z.eqb_spec b 0) as [->|Hb]; [exact (wp_isFree_0 Q k) | by apply wp_isFree].
Qed.

Lemma real_size_range s : 0 <= s < 4294967296 -> 0 <= getRealSize s < 4294967296 /\ getRealSize s mod 2 = 0.
Proof. intros. rewrite real_size_even by lia. word_lia. Qed.

(** ** Giving a block a size *)

(** [m'] is [m] with [v] in the header and the trailer of block [b] of [s] words. *)
Record sized_at (m m' : memory) (b s v : Z) : Prop := {
  sz_head : ld32 m' b = v;
  sz_trailer : ld32 m' (b + 4 * s + 48) = v;
  sz_rest a : ~ (b <= a < b + 4) -> ~ (b + 4 * s + 48 <= a < b + 4 * s + 52) -> ld8 m' a = ld8 m a;
}.

(** The size with the mark of a free block. *)
Abbreviation marked_at m m' b s := (sized_at m m' b s (s + 1)).

Lemma sized_at_links m m' b s v l :
  sized_at m m' b s v -> (forall x, x ∈ l -> x = b \/ disjoint b SIZEOF_BLOCK x SIZEOF_BLOCK) ->
  (forall x, x ∈ l -> disjoint (b + 4 * s + 48) 4 x SIZEOF_BLOCK) -> same_links m m' l.
Proof.
  intros [_ _ Hr] Hb Ht x Hx. specialize (Hb x Hx). specialize (Ht x Hx).
  unfold disjoint, SIZEOF_BLOCK in *. split; apply ld32_ext; intros a Ha; apply Hr; lia.
Qed.

(** The word [setFree(_, x)] makes of the size [s]. *)
Definition tagged (x s : Z) : Z := if x =? 0 then s else s + 1.

Lemma wp_set_tag {A} x b s (c : M kernel A) (Q : A -> kernel -> Prop) k :
  ld32 (mem k) b = s -> s mod 2 = 0 -> 0 <= s -> 0 < b -> b + 4 * s + 52 <= 4294967296 ->
  (forall m, sized_at (mem k) m b s (tagged x s) -> wp c Q (set_mem m k)) ->
  wp (setFree (blk_size b) x;; store_trailing b;; c) Q k.
Proof.
  intros Hs He Hs0 Hb Hend HQ. unfold setFree, store_trailing, blk_size, SIZEOF_BLOCK.
  assert (Hr : 0 <= tagged x s <= s + 1) by (unfold tagged; destruct (x =? 0); lia).
  assert (Hreal : getRealSize (tagged x s) = s).
  { rewrite real_size_even by lia. unfold tagged. destruct (x =? 0); word_lia. }
  kstep. kstep. kstep. rewrite Hs.
  assert (Hw : forall Q', Q' tt (set_mem (st32 (mem k) b (tagged x s)) k) ->
    wp (if negb (x =? 0) then store32 b (Z.lor s 1) else store32 b (Z.land s 0xFFFFFFFE)) Q' k).
  { intros Q' HQ'. unfold tagged in HQ'. destruct (x =? 0); cbn [negb]; kstep; [by rewrite clear_mark by lia | by rewrite set_mark]. }
  apply Hw. wp_step. kstep. kstep. rewrite mem_set_mem, ld32_st32_eq, (u32_small (tagged x s)), Hreal by lia.
  kstep. rewrite u32_small by lia. replace (b + (4 * 12 + 4 * s)) with (b + 4 * s + 48) by lia.
  kstep. rewrite !mem_set_mem, set_mem_set_mem. kstep. apply HQ. split.
  - rewrite ld32_st32_ne by (unfold disjoint; lia). rewrite ld32_st32_eq. apply u32_small. lia.
  - rewrite ld32_st32_eq. apply u32_small. lia.
  - intros a H1 H2. by rewrite !ld8_st32_ne by lia.
Qed.

Lemma wp_mark {A} b s (c : M kernel A) (Q : A -> kernel -> Prop) k :
  ld32 (mem k) b = s -> s mod 2 = 0 -> 0 <= s -> 0 < b -> b + 4 * s + 52 <= 4294967296 ->
  (forall m, marked_at (mem k) m b s -> wp c Q (set_mem m k)) ->
  wp (setFree (blk_size b) 1;; store_trailing b;; c) Q k.
Proof. exact (wp_set_tag 1 b s c Q k). Qed.

Lemma wp_resize {A} x b s (c : M kernel A) (Q : A -> kernel -> Prop) k :
  s mod 2 = 0 -> 0 <= s -> 0 < b -> b + 4 * s + 52 <= 4294967296 ->
  (forall m, sized_at (mem k) m b s (tagged x s) -> wp c Q (set_mem m k)) ->
  wp (store32 (blk_size b) s;; setFree (blk_size b) x;; store_trailing b;; c) Q k.
Proof.
  intros He Hs0 Hb Hend HQ. kstep. kstep. unfold blk_size at 1. simple apply (wp_set_tag x b s); try done.
  - rewrite mem_set_mem, ld32_st32_eq. apply u32_small. lia.
  - intros m [H1 H2 H3]. rewrite set_mem_set_mem. apply HQ. split; [done..|].
    intros a Ha Hb'. rewrite H3, mem_set_mem by done. apply ld8_st32_ne. unfold blk_size. lia.
Qed.

Lemma wp_set_tail_from old new (Q : unit -> kernel -> Prop) k :
  Q tt (upd_heap (set_heap_tail (if heap_tail (heap k) =? old then new else heap_tail (heap k))) k) ->
  wp (set_tail_from old new) Q k.
Proof.
  intros HQ. unfold set_tail_from, set_tail_if. kstep. kstep.
  destruct (heap_tail (heap k) =? old); ksteps; [exact HQ|].
  assert (Hk : upd_heap (set_heap_tail (heap_tail (heap k))) k = k) by (destruct k as [? ? ? ? ? []]; done).
  by rewrite Hk in HQ.
Qed.

(** ** The blocks after [free] *)

(** The free list without [x]. *)
Definition without (x : Z) (l : list Z) : list Z := filter (fun y => y <> x) l.

Lemma without_unlinked x l1 l2 : headers_disjoint (l1 ++ x :: l2) -> without x (l1 ++ x :: l2) = l1 ++ l2.
Proof.
  intros Hd.
  assert (Hne : forall y, y ∈ l1 ++ l2 -> y <> x).
  { intros y [Hy|Hy]%elem_of_app ->.
    - pose proof (headers_disjoint_app _ _ x x Hd Hy ltac:(by left)). unfold disjoint, SIZEOF_BLOCK in *. lia.
    - pose proof (headers_disjoint_head _ _ x (headers_disjoint_skip _ _ Hd) Hy). unfold disjoint, SIZEOF_BLOCK in *. lia. }
  unfold without. rewrite filter_app, filter_cons_False by naive_solver.
  assert (Hid : forall l : list Z, (forall y, y ∈ l -> y <> x) -> filter (fun y : Z => y <> x) l = l).
  { clear. induction l as [|y l IH]; intros H; [done|].
    rewrite filter_cons_True by (apply H; by left). f_equal. apply IH. intros z Hz. apply H. by right. }
  by rewrite !Hid by set_solver.
Qed.

Lemma without_subset x y l : y ∈ without x l -> y ∈ l.
Proof. unfold without. rewrite list_elem_of_filter. by intros [_ H]. Qed.

Lemma headers_disjoint_cons b l :
  headers_disjoint l -> (forall c, c ∈ l -> disjoint b SIZEOF_BLOCK c SIZEOF_BLOCK) -> headers_disjoint (b :: l).
Proof.
  intros Hl Hb [|i] [|j] x y Hi Hj Hij; simplify_eq/=.
  - apply Hb. by eapply list_elem_of_lookup_2.
  - assert (Hd : disjoint y SIZEOF_BLOCK x SIZEOF_BLOCK) by (apply Hb; by eapply list_elem_of_lookup_2).
    unfold disjoint in *. lia.
  - by apply (Hl i j); [..|lia].
Qed.

Lemma headers_disjoint_without x l : headers_disjoint l -> headers_disjoint (without x l).
Proof.
  induction l as [|y l IH]; intros Hd; [done|].
  pose proof (IH (headers_disjoint_tail _ _ Hd)) as Hl. unfold without. rewrite filter_cons.
  case_decide; [|exact Hl]. apply headers_disjoint_cons; [exact Hl|].
  intros c Hc. apply (headers_disjoint_head _ _ c Hd). by apply (without_subset x).
Qed.

(** The block that remains: the preceding one if it is free. *)
Definition survivor (k : kernel) (b : Z) : Z := if marked k (prev_block k b) then prev_block k b else b.

(** Its size: what the blocks it absorbs held, and 16 for each of their headers. *)
Definition merged_size (k : kernel) (b : Z) : Z :=
  (if marked k (prev_block k b) then getRealSize (ld32 (mem k) (prev_block k b)) + 16 else 0) +
  getRealSize (ld32 (mem k) b) +
  (if marked k (next_block k b) then 16 + getRealSize (ld32 (mem k) (next_block k b)) else 0).

(** The free list after [free]: the following block leaves it, and [b] enters
    it at the front unless the preceding block absorbed it. *)
Definition free_after (k : kernel) (b : Z) (l : list Z) : list Z :=
  let l' := if marked k (next_block k b) then without (next_block k b) l else l in
  if marked k (prev_block k b) then l' else b :: l'.

(** [tail] follows when the last block is [b] or one that [b] absorbs. *)
Definition tail_after (k : kernel) (b : Z) : Z :=
  let tail := heap_tail (heap k) in
  if (tail =? b) || marked k (next_block k b) && (tail =? next_block k b) then survivor k b else tail.

(** [b] is a used block whose neighbours are on the free list when they are
    marked free; the trailer of the merged block lies apart from the headers. *)
Record freeable (k : kernel) (b : Z) (l : list Z) : Prop := {
  fr_list : free_list k l;
  fr_headers : headers_disjoint (b :: l);
  fr_start : 0 < b;
  fr_used : ld32 (mem k) b mod 2 = 0;
  fr_prev : marked k (prev_block k b) = true -> prev_block k b ∈ l;
  fr_next : marked k (next_block k b) = true -> next_block k b ∈ l;
  fr_apart : marked k (prev_block k b) = true -> prev_block k b <> next_block k b;
  fr_end : survivor k b + 4 * merged_size k b + 52 <= 4294967296;
  fr_trailer x : x ∈ b :: l -> disjoint (survivor k b + 4 * merged_size k b + 48) 4 x SIZEOF_BLOCK;
}.

(** [k'] is [k] after block [b] was freed. *)
Record freed (k k' : kernel) (b : Z) (l : list Z) : Prop := {
  fd_list : free_list k' (free_after k b l);
  fd_size : ld32 (mem k') (survivor k b) = merged_size k b + 1;
  fd_trailer : ld32 (mem k') (survivor k b + 4 * merged_size k b + 48) = merged_size k b + 1;
  fd_tail : heap_tail (heap k') = tail_after k b;
  fd_rest a : ~ (survivor k b <= a < survivor k b + 4) ->
    ~ (survivor k b + 4 * merged_size k b + 48 <= a < survivor k b + 4 * merged_size k b + 52) ->
    (forall x, x ∈ b :: l -> ~ (x + 4 <= a < x + 12)) -> ld8 (mem k') a = ld8 (mem k) a;
  fd_heap : heap k' = set_heap_tail (heap_tail (heap k')) (set_freelist (freelist (heap k')) (heap k));
}.

Lemma survivor_in k b l : freeable k b l -> survivor k b ∈ b :: l.
Proof. intros H. unfold survivor. destruct (marked k (prev_block k b)) eqn:E; [right; by apply (fr_prev _ _ _ H) | by left]. Qed.

Lemma freeable_apart k b l x :
  freeable k b l -> x ∈ b :: l -> x = survivor k b \/ disjoint (survivor k b) SIZEOF_BLOCK x SIZEOF_BLOCK.
Proof.
  intros H [j Hj]%list_elem_of_lookup. pose proof (survivor_in _ _ _ H) as [i Hi]%list_elem_of_lookup.
  destruct (decide (i = j)) as [->|Hij]; [left; congruence | right].
  exact (fr_headers _ _ _ H i j _ _ Hi Hj Hij).
Qed.

Lemma freeable_positive k b l x : freeable k b l -> x ∈ b :: l -> 0 < x.
Proof.
  intros H [->|Hx]%elem_of_cons; [exact (fr_start _ _ _ H)|].
  apply list_elem_of_split in Hx as (l1 & l2 & ->). pose proof (fr_list _ _ _ H) as Hl.
  apply fl_seg_app in Hl as (r & _ & _ & Hx & _). exact Hx.
Qed.

Lemma freeable_links k b l m :
  freeable k b l -> marked_at (mem k) m (survivor k b) (merged_size k b) -> same_links (mem k) m (b :: l).
Proof.
  intros H Hm. eapply sized_at_links; [exact Hm | | exact (fr_trailer _ _ _ H)].
  intros x Hx. by apply (freeable_apart _ _ l).
Qed.

Lemma merged_size_even k b : 0 <= merged_size k b /\ merged_size k b mod 2 = 0.
Proof.
  unfold merged_size.
  pose proof (real_size_range _ (ld32_range (mem k) b)).
  pose proof (real_size_range _ (ld32_range (mem k) (prev_block k b))).
  pose proof (real_size_range _ (ld32_range (mem k) (next_block k b))).
  destruct (marked k (prev_block k b)), (marked k (next_block k b)); word_lia.
Qed.

(** Once the survivor is marked and the list updated, the block is freed. *)
Lemma freed_intro k k' b l m f :
  freeable k b l -> marked_at (mem k) m (survivor k b) (merged_size k b) ->
  links_only m (mem k') (b :: l) -> free_list k' (free_after k b l) ->
  heap k' = set_freelist f (set_heap_tail (tail_after k b) (heap k)) ->
  freed k k' b l.
Proof.
  intros Hf [Hh Ht Hr] Hlo Hl Hg. split; [exact Hl | | | by rewrite Hg | | by rewrite Hg].
  - rewrite (links_only_size _ _ _ _ Hlo); [exact Hh|].
    intros x Hx.
    destruct (freeable_apart _ _ _ x Hf Hx) as [->|Hd]; [by left | right].
    unfold disjoint, SIZEOF_BLOCK in *. lia.
  - rewrite <- Ht. apply ld32_ext. intros a Ha. apply Hlo. intros x Hx Hin.
    pose proof (fr_trailer _ _ _ Hf x Hx). unfold disjoint, SIZEOF_BLOCK in *. lia.
  - intros a H1 H2 H3. rewrite Hlo by exact H3. by apply Hr.
Qed.

(** Taking the following block out of the list after the survivor is marked. *)
Lemma wp_unlink_next k b l m t (Q : unit -> kernel -> Prop) :
  freeable k b l -> marked_at (mem k) m (survivor k b) (merged_size k b) ->
  marked k (next_block k b) = true ->
  (forall k', free_list k' (without (next_block k b) l) -> links_only m (mem k') (b :: l) ->
     heap k' = set_freelist (freelist (heap k')) (set_heap_tail t (heap k)) -> Q tt k') ->
  wp (removeNodeFromFreelist (next_block k b)) Q (upd_heap (set_heap_tail t) (set_mem m k)).
Proof.
  intros Hf Hm Hn HQ. pose proof (freeable_links _ _ _ _ Hf Hm) as Hsl.
  pose proof (fr_headers _ _ _ Hf) as Hd. pose proof (fr_list _ _ _ Hf) as Hl.
  destruct (list_elem_of_split _ _ (fr_next _ _ _ Hf Hn)) as (l1 & l2 & Heq).
  rewrite Heq in *. apply headers_disjoint_tail in Hd.
  eapply wp_removeNode; [| exact Hd |].
  - change (fl_nodes m 0 (freelist (heap k)) (l1 ++ next_block k b :: l2)).
    eapply fl_seg_same; [|exact Hl]. intros x Hx. apply Hsl. by right.
  - intros k' [H1 H2 H3 _]. apply HQ; [by rewrite without_unlinked | | exact H3].
    intros a Ha. apply H2. intros x Hx. apply Ha. by right.
Qed.

(** The size [free] stores is the merged size. *)
Ltac store_merged Hb Hpf Hnf :=
  match type of Hb with
  | context[merged_size ?k ?b] =>
      match goal with
      | |- wp (store32 _ ?v;; _) _ _ =>
          replace v with (merged_size k b)
            by (revert Hb; unfold merged_size, blk_size, OVERHEAD, SIZEOF_BLOCK; rewrite Hpf, Hnf;
                intros Hb; symmetry; first [apply u32_small; lia | rewrite u32_small; lia])
      end
  end.

Lemma tail_of_next k b :
  marked k (next_block k b) = true ->
  (if heap_tail (heap k) =? next_block k b then survivor k b else heap_tail (heap k)) = tail_after k b.
Proof.
  intros Hn. unfold tail_after. rewrite Hn. rewrite (proj2 (Z.eqb_neq (heap_tail (heap k)) b)); [done|].
  intros Ht. unfold marked, next_block in Hn. by rewrite Ht, Z.eqb_refl in Hn.
Qed.

(** Pushing a block that was just marked. *)
Lemma wp_push_marked k1 m k b l l' (Q : unit -> kernel -> Prop) :
  freeable k b l -> survivor k b = b -> free_list k1 l' -> headers_disjoint (b :: l') ->
  (forall x, x ∈ l' -> x ∈ l) -> links_only m (mem k1) (b :: l) ->
  (forall k', free_list k' (b :: l') -> links_only m (mem k') (b :: l) ->
     heap k' = set_freelist b (heap k1) -> Q tt k') ->
  wp (addNodeToFreelist b) Q k1.
Proof.
  intros Hf Hsv Hl Hd Hsub Hlo HQ. pose proof (fr_end _ _ _ Hf) as He. rewrite Hsv in He.
  destruct (merged_size_even k b) as [Hs _]. pose proof (fr_start _ _ _ Hf).
  eapply wp_addNode; [exact Hl | lia | unfold SIZEOF_BLOCK; lia | exact Hd |].
  intros k' [H1 H2 H3 _]. apply HQ; [exact H1 | | exact H3].
  intros a Ha. rewrite H2; [by apply Hlo|]. intros x [->|Hx]%elem_of_cons; apply Ha; [by left | right; by apply Hsub].
Qed.

(** ** The four cases *)

Section cases.
Context (k : kernel) (b : Z) (l : list Z) (Hf : freeable k b l).

Lemma merged_bounds :
  0 < survivor k b /\ 0 <= merged_size k b < 4294967296 /\ merged_size k b mod 2 = 0 /\
  survivor k b + 4 * merged_size k b + 52 <= 4294967296.
Proof.
  destruct (merged_size_even k b). pose proof (fr_end _ _ _ Hf).
  pose proof (freeable_positive _ _ _ _ Hf (survivor_in _ _ _ Hf)). lia.
Qed.

Lemma survivor_prev : marked k (prev_block k b) = true -> prev_block k b = survivor k b.
Proof. intros H. unfold survivor. by rewrite H. Qed.

Lemma survivor_self : marked k (prev_block k b) = false -> b = survivor k b.
Proof. intros H. unfold survivor. by rewrite H. Qed.

(** Storing the merged size at the survivor, with its mark and its trailer. *)
Lemma wp_resize_survivor {A} (c : M kernel A) (Q : A -> kernel -> Prop) :
  (forall m, marked_at (mem k) m (survivor k b) (merged_size k b) -> wp c Q (set_mem m k)) ->
  wp (store32 (blk_size (survivor k b)) (merged_size k b);; setFree (blk_size (survivor k b)) 1;;
      store_trailing (survivor k b);; c) Q k.
Proof. destruct merged_bounds as (? & ? & ? & ?). apply (wp_resize 1); [done | lia..]. Qed.

Lemma list_after_mark m :
  marked_at (mem k) m (survivor k b) (merged_size k b) -> free_list (set_mem m k) l.
Proof.
  intros Hm. change (fl_nodes m 0 (freelist (heap k)) l).
  eapply fl_seg_same; [|exact (fr_list _ _ _ Hf)]. intros x Hx.
  apply (freeable_links _ _ _ _ Hf Hm). by right.
Qed.

Lemma wp_free_both (Q : unit -> kernel -> Prop) :
  marked k (prev_block k b) = true -> marked k (next_block k b) = true ->
  (forall k', freed k k' b l -> Q tt k') ->
  wp (store32 (blk_size (survivor k b)) (merged_size k b);; setFree (blk_size (survivor k b)) 1;;
      store_trailing (survivor k b);;
      set_tail_from (next_block k b) (survivor k b);; removeNodeFromFreelist (next_block k b)) Q k.
Proof.
  intros Hp Hn HQ. apply wp_resize_survivor. intros m Hm.
  wp_step. simple apply wp_set_tail_from. apply (wp_unlink_next k b l); [done..|].
  intros k' H1 H2 H3. apply HQ. eapply (freed_intro _ _ _ _ m); [done..| |].
  - unfold free_after. by rewrite Hp, Hn.
  - by rewrite <- tail_of_next.
Qed.

Lemma wp_free_prev (Q : unit -> kernel -> Prop) :
  marked k (prev_block k b) = true -> marked k (next_block k b) = false ->
  (forall k', freed k k' b l -> Q tt k') ->
  wp (store32 (blk_size (survivor k b)) (merged_size k b);; setFree (blk_size (survivor k b)) 1;;
      store_trailing (survivor k b);; set_tail_from b (survivor k b)) Q k.
Proof.
  intros Hp Hn HQ. apply wp_resize_survivor. intros m Hm. simple apply wp_set_tail_from.
  apply HQ. eapply (freed_intro _ _ _ _ m); [done..| |].
  - unfold free_after. rewrite Hp, Hn. exact (list_after_mark m Hm).
  - etransitivity; [apply heap_eta|]. unfold tail_after. rewrite Hn. cbn [andb]. by rewrite orb_false_r.
Qed.

Lemma wp_free_next (Q : unit -> kernel -> Prop) :
  marked k (prev_block k b) = false -> marked k (next_block k b) = true ->
  (forall k', freed k k' b l -> Q tt k') ->
  wp (store32 (blk_size (survivor k b)) (merged_size k b);; setFree (blk_size (survivor k b)) 1;;
      store_trailing (survivor k b);;
      set_tail_from (next_block k b) (survivor k b);; removeNodeFromFreelist (next_block k b);;
      addNodeToFreelist b) Q k.
Proof.
  intros Hp Hn HQ. apply wp_resize_survivor. intros m Hm.
  wp_step. simple apply wp_set_tail_from. wp_step. apply (wp_unlink_next k b l); [done..|]. intros k1 H1 H2 H3.
  pose proof (fr_headers _ _ _ Hf) as Hd. pose proof (survivor_self Hp) as Hsv.
  eapply (wp_push_marked k1 m k b l); [exact Hf | done | exact H1 | | intros x; apply without_subset | exact H2 |].
  - apply headers_disjoint_cons; [apply headers_disjoint_without; by eapply headers_disjoint_tail|].
    intros c Hc. apply (headers_disjoint_head _ _ c Hd). by apply (without_subset (next_block k b)).
  - intros k' H4 H5 H6. apply HQ. eapply (freed_intro _ _ _ _ m); [done..| |].
    + unfold free_after. by rewrite Hp, Hn.
    + rewrite H6, H3. by rewrite <- tail_of_next.
Qed.

Lemma wp_free_alone (Q : unit -> kernel -> Prop) :
  marked k (prev_block k b) = false -> marked k (next_block k b) = false ->
  (forall k', freed k k' b l -> Q tt k') ->
  wp (setFree (blk_size b) 1;; store_trailing b;; addNodeToFreelist b) Q k.
Proof.
  intros Hp Hn HQ. pose proof (survivor_self Hp) as Hsv. destruct merged_bounds as (? & ? & ? & ?).
  assert (Hms : merged_size k b = ld32 (mem k) b).
  { unfold merged_size. rewrite Hp, Hn. pose proof (fr_used _ _ _ Hf). pose proof (ld32_range (mem k) b).
    rewrite real_size_even by lia. word_lia. }
  apply (wp_mark b (merged_size k b)); [done | done | lia..|].
  intros m Hm. rewrite Hsv in Hm at 1.
  eapply (wp_push_marked _ m k b l l);
    [exact Hf | done | exact (list_after_mark m Hm) | exact (fr_headers _ _ _ Hf) | done | done |].
  intros k' H4 H5 H6. apply HQ. eapply (freed_intro _ _ _ _ m b); [done..| |].
  - unfold free_after. by rewrite Hp, Hn.
  - rewrite H6. unfold tail_after. rewrite Hn, <- Hsv. cbn [andb]. rewrite orb_false_r.
    replace (if heap_tail (heap k) =? b then b else heap_tail (heap k)) with (heap_tail (heap k))
      by (by destruct (Z.eqb_spec (heap_tail (heap k)) b)).
    change (heap (set_mem m k)) with (heap k). by destruct (heap k).
Qed.

Lemma wp_free ptr (Q : unit -> kernel -> Prop) :
  block_of ptr = b -> (forall k', freed k k' b l -> Q tt k') -> wp (free ptr) Q k.
Proof.
  intros Hp HQ. unfold free. rewrite Hp. destruct merged_bounds as (_ & Hb & _).
  wp_step. simple apply wp_prev_block. wp_step. simple apply wp_next_block.
  wp_step. simple apply wp_marked. wp_step. simple apply wp_marked.
  destruct (marked k (prev_block k b)) eqn:Hpf, (marked k (next_block k b)) eqn:Hnf; cbn [andb].
  - do 3 (kstep; kstep). store_merged Hb Hpf Hnf. rewrite survivor_prev by done. by apply wp_free_both.
  - do 2 (kstep; kstep). store_merged Hb Hpf Hnf. rewrite survivor_prev by done. by apply wp_free_prev.
  - do 2 (kstep; kstep). store_merged Hb Hpf Hnf. pose proof (survivor_self Hpf) as Hsv.
    pose proof (wp_free_next Q Hpf Hnf HQ) as Hw. rewrite <- Hsv in Hw. exact Hw.
  - by apply wp_free_alone.
Qed.

End cases.

(** C14: [free] acts on the block 144 bytes below the pointer it is given.  It
    merges that block with whichever of its neighbours are free: the first of
    them survives with a size that covers the others and their headers, marked,
    its trailer written where the last one ended; the following block leaves the
    free list, [b] enters it at the front unless the preceding block absorbed
    it, [tail] follows when it named a block that is gone, and nothing else in
    memory changes but links of the list. *)
Theorem free_coalesces ptr l k :
  freeable k (ptr -32 144) l ->
  exists k', free ptr k = Done (tt, k') /\ freed k k' (ptr -32 144) l.
Proof. intros Hf. apply wp_unit. eapply wp_free; [exact Hf | done | done]. Qed.

(** ** A block without free neighbours *)

(** [b] is the first block of the heap, marked used, with a used block behind
    it; its trailer lies apart from the headers of the free list. *)
Record isolated (k : kernel) (b : Z) (l : list Z) : Prop := {
  is_list : free_list k l;
  is_headers : headers_disjoint (b :: l);
  is_head : heap_head (heap k) = b /\ heap_tail (heap k) <> b;
  is_start : 0 < b;
  is_size : (ld32 (mem k) b) mod 2 = 0;
  is_end : b + 4 * ld32 (mem k) b + 68 <= 4294967296;
  is_next : (ld32 (mem k) (b + 4 * ld32 (mem k) b + 64)) mod 2 = 0;
  is_trailer x : x ∈ b :: l -> disjoint (b + 4 * ld32 (mem k) b + 48) 4 x SIZEOF_BLOCK;
}.

(** [k'] is [k] with block [b] marked free. *)
Record released (k k' : kernel) (b : Z) (l : list Z) : Prop := {
  re_list : free_list k' (b :: l);
  re_size : ld32 (mem k') b = ld32 (mem k) b + 1;
  re_rest a : ~ (b <= a < b + 4) ->
    ~ (b + 4 * ld32 (mem k) b + 48 <= a < b + 4 * ld32 (mem k) b + 52) ->
    (forall x, x ∈ b :: l -> ~ (x + 4 <= a < x + 12)) -> ld8 (mem k') a = ld8 (mem k) a;
  re_heap : heap k' = set_freelist b (heap k);
}.

Lemma isolated_freeable k b l :
  isolated k b l ->
  freeable k b l /\ marked k (prev_block k b) = false /\ marked k (next_block k b) = false /\
  merged_size k b = ld32 (mem k) b.
Proof.
  intros [Hl Hd [Hh Ht] Hb0 Hs He Hn Htr]. pose proof (ld32_range (mem k) b) as Hsr.
  assert (Hrs : getRealSize (ld32 (mem k) b) = ld32 (mem k) b) by (rewrite real_size_even by lia; word_lia).
  assert (Hp : prev_block k b = 0) by (unfold prev_block; by rewrite Hh, Z.eqb_refl).
  assert (Hmn : marked k (next_block k b) = false).
  { unfold marked, next_block. rewrite (proj2 (Z.eqb_neq b _)) by congruence.
    rewrite Hrs, u32_small by lia. replace (b + (64 + 4 * ld32 (mem k) b)) with (b + 4 * ld32 (mem k) b + 64) by lia.
    rewrite (Zmod_odd (ld32 (mem k) (b + 4 * _ + 64))) in Hn. destruct (Z.odd _); [done|]. by rewrite andb_false_r. }
  assert (Hms : merged_size k b = ld32 (mem k) b) by (unfold merged_size; rewrite Hp, Hmn, Hrs; cbn; lia).
  assert (Hsv : survivor k b = b) by (unfold survivor; by rewrite Hp).
  split_and!; [|by rewrite Hp | done..]. split; rewrite ?Hsv, ?Hms, ?Hp, ?Hmn; (done || lia || exact Htr).
Qed.

Lemma wp_free_isolated ptr b l k (Q : unit -> kernel -> Prop) :
  block_of ptr = b -> isolated k b l -> (forall k', released k k' b l -> Q tt k') ->
  wp (free ptr) Q k.
Proof.
  intros Hp Hi HQ. destruct (isolated_freeable _ _ _ Hi) as (Hf & Hmp & Hmn & Hms).
  eapply wp_free; [exact Hf | exact Hp |]. intros k' [H1 H2 _ H4 H5 H6]. apply HQ.
  unfold free_after, survivor, tail_after in *. rewrite ?Hmp, ?Hmn, ?Hms in *.
  split; [exact H1 | exact H2 | exact H5 |]. rewrite H6, H4. destruct H1 as (-> & _).
  cbn [andb]. rewrite orb_false_r, (proj2 (Z.eqb_neq _ _)) by (apply (is_head _ _ _ Hi)). by destruct (heap k).
Qed.

(** A heap that started empty at [c] and has served [n] requests of 16 bytes;
    [w] is the word at [c + 128]. *)
Record strip (c w : Z) (n : Z) (k : kernel) : Prop := {
  st_start : 4 <= c /\ c + 160 <= heap_end (heap k) < 4294967296 - 1024;
  st_curr : heap_curr (heap k) = c + 32 * n;
  st_list : freelist (heap k) = 0;
  st_head : heap_head (heap k) = if n =? 0 then 0 else c;
  st_tail : n <> 0 -> heap_tail (heap k) = c + 32 * (n - 1);
  st_first : n <> 0 -> ld32 (mem k) c = 16;
  st_word : ld32 (mem k) (c + 128) = w;
}.

Lemma wp_malloc_strip `{Linker} fuel c w n k (Q : Z -> kernel -> Prop) :
  strip c w n k -> 0 <= n < 4 -> (0 < fuel)%nat ->
  (forall k', strip c w (n + 1) k' -> Q (c + 32 * n + 48) k') -> wp (malloc fuel 16) Q k.
Proof.
  intros [[Hc He] Hcur Hl Hh Ht Hf Hw] Hn Hfu HQ.
  eapply (wp_malloc_fresh _ _ []); [|simpl; lia|].
  { split; rewrite ?small_round, ?Hcur by lia; try lia.
    - exact Hl.
    - intros b Hb. by apply not_elem_of_nil in Hb. }
  rewrite small_round, Hcur by lia. intros k' [Htag Htrail Hrest Hheap _ _ _].
  rewrite Hcur in *. cbv zeta in Hheap. rewrite Hcur in Hheap.
  apply HQ. split; rewrite ?Hheap; cbn [heap_end heap_curr freelist heap_head heap_tail]; try lia.
  - rewrite Hh. rewrite (proj2 (Z.eqb_neq (n + 1) 0)) by lia.
    destruct (Z.eqb_spec n 0) as [->|]; cbn; [lia|]. by rewrite (proj2 (Z.eqb_neq c 0)) by lia.
  - intros _. destruct (decide (n = 0)) as [->|Hn0]; [by rewrite Z.mul_0_r, Z.add_0_r in Htag|].
    rewrite <- (Hf Hn0). apply ld32_ext. intros a Ha. apply Hrest; lia.
  - rewrite <- Hw. apply ld32_ext. intros a Ha. apply Hrest; lia.
Qed.

(** C34: on a heap that has served three requests of 16 bytes since it was
    empty, freeing the fourth object releases the first: the next [malloc]
    returns the first object's address although it was never freed. *)
Theorem kfree_releases_another_block `{Linker} fuel c w k :
  strip c w 0 k -> w mod 2 = 0 -> (1 < fuel)%nat ->
  exists k',
    (p1 ← malloc fuel 16; malloc fuel 16;; malloc fuel 16;; p4 ← malloc fuel 16;
     kfree p4;; p5 ← malloc fuel 16; mret (p1, p4, p5)) k
      = Done ((c + 48, c + 144, c + 48), k').
Proof.
  intros Hst Hw Hf. destruct (st_start _ _ _ _ Hst) as [Hc He].
  match goal with |- exists k', ?prog k = _ => assert (Hwp : wp prog (fun r _ => r = (c + 48, c + 144, c + 48)) k) end.
  2: { apply wp_run in Hwp as (r & k' & Hrun & ->). by exists k'. }
  wp_step. simple eapply wp_malloc_strip; [exact Hst | lia | lia |]. intros k1 H1.
  wp_step. simple eapply wp_malloc_strip; [exact H1 | lia | lia |]. intros k2 H2.
  wp_step. simple eapply wp_malloc_strip; [exact H2 | lia | lia |]. intros k3 H3.
  wp_step. simple eapply wp_malloc_strip; [exact H3 | lia | lia |]. intros k4 [[_ He4] Hcur Hl Hh Ht Hs1 Hw4].
  specialize (Hs1 ltac:(lia)). specialize (Ht ltac:(lia)). cbn in Hh.
  wp_step. simple eapply (wp_free_isolated _ c []).
  { unfold block_of, SIZEOF_BLOCK. rewrite u32_small; lia. }
  { assert (Hc1 : forall x, x ∈ [c] -> x = c) by set_solver.
    split; rewrite ?Hs1; [exact Hl | | split; [exact Hh | lia] | lia | done | lia | | ].
    - intros i j a b Ha Hb Hij. apply lookup_lt_Some in Ha, Hb. simpl in *. lia.
    - replace (c + 4 * 16 + 64) with (c + 128) by lia. by rewrite Hw4.
    - intros x ->%Hc1. unfold disjoint, SIZEOF_BLOCK. lia. }
  intros k5 [Hl5 Hs5 _ Hh5]. rewrite Hs1 in *.
  assert (Hf5 : exists f', fuel = S f') by (exists (Nat.pred fuel); lia). destruct Hf5 as [f' ->].
  wp_step. cbn [malloc]. unfold malloc_body. cbn [Z.eqb]. change (round_size 16) with 16.
  change (16 +32 OVERHEAD) with (16 + 16).
  wp_step. simple eapply wp_bestfit; [exact Hl5 | simpl; lia |]. intros best Hb.
  assert (Hfit : fits k5 16 c = true) by (unfold fits; by rewrite Hs5).
  assert (best = c) as ->.
  { unfold best_among in Hb. case_decide as H0.
    - destruct Hb as [_ Hb]. rewrite Hb in Hfit by set_solver. done.
    - destruct Hb as ([|Hin] & _); [done|]. set_solver. }
  rewrite (proj2 (Z.eqb_neq c 0)) by lia. cbn [negb].
  simple eapply (wp_malloc_reuse _ [] _ []); [|intros k6 _; kstep; do 2 f_equal; lia].
  split; cbn [app]; rewrite ?Hs5; [exact Hl5 | | done | lia | lia |].
  - intros i j a b Ha Hb' Hij. apply lookup_lt_Some in Ha, Hb'. simpl in *. lia.
  - intros x Hx. assert (x = c) as -> by set_solver. unfold disjoint, SIZEOF_BLOCK. lia.
Qed.
