(* ===== verification/KheapRealloc.v ===== *)
(** * Growing a block in place: realloc of memory/kheap.c

    What [realloc] does when the block behind the one it acts on is free and large
    enough, and what it answers. *)

From S2P Require Export KheapFree.

Section grow.
Context (k : kernel) (b : Z) (l : list Z) (rounded : Z).

Definition grown_size : Z := getRealSize (ld32 (mem k) b) + 16 + getRealSize (ld32 (mem k) (next_block k b)).

(** The block behind [b] is free, on the list, and large enough for the request with
    what [b] has; the trailer of the merged block lies apart from the headers. *)
Record growable : Prop := {
  gw_list : free_list k l;
  gw_headers : headers_disjoint (b :: l);
  gw_start : 0 < b;
  gw_next : marked k (next_block k b) = true /\ next_block k b ∈ l;
  gw_fits : rounded <= grown_size;
  gw_end : b + 4 * grown_size + 52 <= 4294967296;
  gw_trailer x : x ∈ b :: l -> disjoint (b + 4 * grown_size + 48) 4 x SIZEOF_BLOCK;
}.

(** [k'] is [k] with [b] extended over the block behind it. *)
Record grown (k' : kernel) : Prop := {
  gn_list : free_list k' (without (next_block k b) l);
  gn_size : ld32 (mem k') b = grown_size /\ ld32 (mem k') (b + 4 * grown_size + 48) = grown_size;
  gn_rest a : ~ (b <= a < b + 4) -> ~ (b + 4 * grown_size + 48 <= a < b + 4 * grown_size + 52) ->
    (forall x, x ∈ l -> ~ (x + 4 <= a < x + 12)) -> ld8 (mem k') a = ld8 (mem k) a;
  gn_heap : heap k' = set_heap_tail (if heap_tail (heap k) =? next_block k b then b else heap_tail (heap k))
    (set_freelist (freelist (heap k')) (heap k));
}.

Hypothesis Hg : growable.

Lemma grown_size_bounds : 0 <= grown_size < 4294967296 /\ grown_size mod 2 = 0.
Proof.
  pose proof (gw_end Hg). pose proof (gw_start Hg). unfold grown_size in *.
  pose proof (real_size_range _ (ld32_range (mem k) b)).
  pose proof (real_size_range _ (ld32_range (mem k) (next_block k b))). word_lia.
Qed.

(** A header of [b :: l] keeps its size when links of [l] change. *)
Lemma size_kept m x : links_only (mem k) m l -> x ∈ b :: l -> ld32 m x = ld32 (mem k) x.
Proof.
  intros Hlo Hx. apply (links_only_size _ _ _ _ Hlo). intros c Hc.
  assert (Hcl : c ∈ b :: l) by (by right). apply list_elem_of_lookup in Hx as [i Hi], Hcl as [j Hj].
  destruct (decide (i = j)) as [->|Hij]; [left; congruence | right].
  pose proof (gw_headers Hg i j x c Hi Hj Hij) as Hd. unfold disjoint, SIZEOF_BLOCK in *. lia.
Qed.

Lemma wp_realloc_next (Q : Z -> kernel -> Prop) :
  (forall k', grown k' -> Q (b + 12) k') -> wp (realloc_next b (next_block k b)) Q k.
Proof.
  intros HQ. destruct grown_size_bounds as [Hs He]. pose proof (gw_start Hg) as Hb0. pose proof (gw_end Hg) as Hend.
  destruct (gw_next Hg) as [_ Hin]. pose proof (headers_disjoint_tail _ _ (gw_headers Hg)) as Hd.
  unfold realloc_next. destruct (list_elem_of_split _ _ Hin) as (l1 & l2 & Hl). wp_step.
  simple apply (wp_removeNode (next_block k b) l1 l2); [rewrite <- Hl; exact (gw_list Hg) | by rewrite <- Hl |].
  intros k1 [H1 H2 H3 _]. rewrite <- Hl in H2.
  kstep. kstep. kstep. kstep. change (ld32 (mem k1) (blk_size b)) with (ld32 (mem k1) b).
  change (ld32 (mem k1) (blk_size (next_block k b))) with (ld32 (mem k1) (next_block k b)).
  rewrite (size_kept _ b H2), (size_kept _ (next_block k b) H2) by set_solver.
  replace (getRealSize (ld32 (mem k) b) + OVERHEAD +32 getRealSize (ld32 (mem k) (next_block k b))) with grown_size
    by (unfold grown_size, OVERHEAD, SIZEOF_BLOCK in *; rewrite u32_small; lia).
  simple apply (wp_resize 0); [done | lia | done | lia |]. intros m [Hh Ht Hr]. unfold tagged in *. cbn [Z.eqb] in *.
  wp_step. simple apply wp_set_tail_from. kstep. rewrite u32_small by (unfold SIZEOF_BLOCK; lia).
  apply HQ. change (heap (set_mem m k1)) with (heap k1). split.
  - change (free_list (set_mem m k1) (without (next_block k b) l)). rewrite Hl, without_unlinked by (by rewrite <- Hl).
    change (fl_nodes m 0 (freelist (heap k1)) (l1 ++ l2)). eapply fl_seg_same; [|exact H1].
    assert (Hsub : forall x, x ∈ l1 ++ l2 -> x ∈ l) by (intros x Hx; rewrite Hl; set_solver).
    eapply (sized_at_links _ _ b); [by split | |].
    + intros x Hx. right. by apply (headers_disjoint_head b l x (gw_headers Hg)), Hsub.
    + intros x Hx. apply (gw_trailer Hg). right. by apply Hsub.
  - done.
  - intros a Ha1 Ha2 Ha3. change (ld8 m a = ld8 (mem k) a). rewrite Hr by done. by apply H2.
  - assert (Ht1 : heap_tail (heap k1) = heap_tail (heap k)) by (rewrite H3; done).
    change (set_heap_tail (if heap_tail (heap k1) =? next_block k b then b else heap_tail (heap k1)) (heap k1) =
      set_heap_tail (if heap_tail (heap k) =? next_block k b then b else heap_tail (heap k)) (set_freelist (freelist (heap k1)) (heap k))).
    by rewrite <- H3, Ht1.
Qed.
End grow.

(** [realloc] of a block whose successor is free and large enough merges the two: the
    successor leaves the free list and the size covers both.  The bytes of the object
    stay where they are, but the answer is the address 12 bytes behind the header, 132
    bytes below the pointer that was given. *)
Theorem realloc_grows_next `{Linker} fuel ptr size l k :
  ptr <> 0 -> size <> 0 -> ld32 (mem k) (ptr -32 144) < size ->
  growable k (ptr -32 144) l (round_size size) ->
  exists k', realloc fuel ptr size k = Done ((ptr -32 144) + 12, k') /\ grown k (ptr -32 144) l k'.
Proof.
  intros Hp Hs Hlt Hg. apply wp_value. unfold realloc. rewrite (proj2 (Z.eqb_neq ptr 0)), (proj2 (Z.eqb_neq size 0)) by done.
  change (block_of ptr) with (ptr -32 144). set (b := ptr -32 144) in *. destruct (gw_next _ _ _ _ Hg) as [Hm _].
  wp_step. simple apply wp_next_block. wp_step. simple apply wp_prev_block. kstep. kstep. unfold blk_size at 1.
  rewrite (proj2 (Z.eqb_neq _ size)), (proj2 (Z.ltb_lt _ size)) by (unfold blk_size; lia). kstep. kstep.
  assert (Ht : heap_tail (heap k) <> b).
  { intros Ht. unfold marked, next_block in Hm. by rewrite Ht, Z.eqb_refl in Hm. }
  rewrite (proj2 (Z.eqb_neq _ b)) by done. cbn [negb]. wp_step. unfold can_merge. wp_step. simple apply wp_marked.
  rewrite Hm. kstep. kstep. kstep. kstep. kstep.
  rewrite (proj2 (Z.leb_le _ _)).
  - simple eapply (wp_realloc_next k b l); [exact Hg |]. intros k' Hk'. split; [done | exact Hk'].
  - pose proof (gw_fits _ _ _ _ Hg). pose proof (grown_size_bounds _ _ _ _ Hg). unfold grown_size, OVERHEAD, SIZEOF_BLOCK, blk_size in *.
    rewrite u32_small; lia.
Qed.
