(* ===== verification/Ksbrk.v ===== *)
(** * The heap break: ksbrk of memory/vmm.c, and aligned requests

    Growing the heap into pages whose page tables exist, the branch for negative
    sizes, and the page-aligned allocations built on [malloc]. *)

From S2P Require Export KheapAlloc.

(** ** Blocks for the new pages *)

Lemma pmm_ready_exists k :
  pmm_inv k -> used_blocks (pmm k) < scanned k -> exists b, pmm_ready k b.
Proof.
  intros [Hm Hu] Hlt. pose proof (scanned_range k ltac:(lia)).
  pose proof (used_count_range k ltac:(lia)).
  destruct (least_false (blk_used k) (Z.to_nat (scanned k))) as (b & Hb & Hf & Hlow).
  { fold (used_count k). lia. }
  exists b. split; [done | lia |]. split; [lia | done | done].
Qed.

(** Mapping a page to a fresh block keeps the allocator's invariant. *)
Lemma page_allocated_inv k k' dir n b ik iw :
  page_allocated k k' dir n 0 b ik iw -> pmm_inv k -> pmm_ready k b ->
  pmm_inv k' /\ used_blocks (pmm k') = used_blocks (pmm k) + 1 /\ scanned k' = scanned k.
Proof.
  intros Hpa [Hm Hu] Hr. destruct (pmm_ready_block k b Hr) as [Hb _].
  pose proof (pa_pmm _ _ _ _ _ _ _ _ Hpa) as Hp. cbn [Z.eqb] in Hp.
  assert (Hsc : scanned k' = scanned k) by (unfold scanned; by rewrite Hp).
  split_and!; [|by rewrite Hp|done]. split; [by rewrite Hp|].
  rewrite Hp. cbn [used_blocks set_used_blocks]. rewrite Hu. unfold used_count. rewrite Hsc.
  symmetry. apply (countb_flip _ _ _ b).
  - lia.
  - apply (lf_free _ _ (pr_lowest _ _ Hr)).
  - rewrite (pa_used _ _ _ _ _ _ _ _ Hpa) by lia. cbn [Z.eqb]. by rewrite Z.eqb_refl.
  - intros i Hi Hne. rewrite (pa_used _ _ _ _ _ _ _ _ Hpa) by lia. cbn [Z.eqb].
    by rewrite (proj2 (Z.eqb_neq i b)).
Qed.

(** ** Growing *)

(** [k'] is [k] with the pages [a .. b-1] of [dir] mapped, writable, to blocks
    that were free. *)
Record pages_mapped (k k' : kernel) (dir a b : Z) : Prop := {
  pm_new n : a <= n < b ->
    get_f f_present (entry k' dir n) = 1 /\ get_f f_rw (entry k' dir n) = 1 /\
    get_f f_user (entry k' dir n) = 0;
  pm_old n : 0 <= n < NPAGES -> ~ (a <= n < b) -> entry k' dir n = entry k dir n;
  pm_layout : vm_layout k' dir;
  pm_inv : pmm_inv k';
  pm_used : used_blocks (pmm k') = used_blocks (pmm k) + Z.max 0 (b - a);
  pm_blocks c : 0 <= c < scanned k -> blk_used k c = true -> blk_used k' c = true;
  pm_rest : heap k' = heap k /\ vmm k' = vmm k /\ k_log k' = k_log k;
}.

(** The pages [a .. b-1] have page tables and are not mapped, and there are
    enough free blocks for them. *)
Record can_map (k : kernel) (dir a b : Z) : Prop := {
  cm_dir : dir <> 0 /\ kernel_page_dir (vmm k) = dir;
  cm_layout : vm_layout k dir;
  cm_pages n : a <= n < b -> ref k dir (n / 1024) <> 0 /\ get_f f_present (entry k dir n) = 0;
  cm_inv : pmm_inv k;
  cm_blocks : used_blocks (pmm k) + (b - a) <= scanned k;
}.

(** The first page at or above an address. *)
Definition page_above (va : Z) : Z := (va + 4095) / 4096.

Lemma wp_ksbrk_map_loop `{Linker} kma fuel a nb k dir (Q : Z -> kernel -> Prop) :
  can_map k dir a (page_above nb) -> 0 <= a <= page_above nb -> page_above nb < NPAGES ->
  page_above nb - a < Z.of_nat fuel ->
  (forall k', pages_mapped k k' dir a (page_above nb) -> Q (page_above nb * PAGE_SIZE) k') ->
  wp (ksbrk_map_loop kma fuel (a * PAGE_SIZE) nb) Q k.
Proof.
  revert a k. induction fuel as [|fuel IH]; intros a k Hc Ha Hb Hf HQ; [lia|]. cbn [ksbrk_map_loop].
  pose proof Hc as [[Hd Hkd] Hl Hp Hi Hblk]. unfold PAGE_SIZE, NPAGES in *.
  destruct (Z.ltb_spec (a * 4096) nb) as [Hlt|Hge].
  - assert (Hab : a < page_above nb) by (unfold page_above; word_lia).
    destruct (pmm_ready_exists k Hi ltac:(lia)) as [bl Hbl]. destruct (Hp a ltac:(lia)) as [Hra Hpa].
    vsteps. rewrite Hkd.
    eapply wp_allocate_page_mapped with (b := bl); unfold PAGE_SIZE; rewrite ?Z.div_mul by done;
      [exact Hd | lia | exact Hl | exact Hra | exact Hpa | done |].
    intros k1 Hk1. destruct (page_allocated_inv _ _ _ _ _ _ _ Hk1 Hi Hbl) as (Hi1 & Hu1 & Hs1).
    destruct Hk1 as [He1 Hr1 _ Hl1 Hbu1 _ Hv1 (Hh1 & Hlog1 & _)].
    rewrite (proj2 (Z.eqb_neq _ 0)) in Hv1 by done.
    assert (Hr1' : forall j, 0 <= j < 1024 -> ref k dir j <> 0 -> ref k1 dir j = ref k dir j).
    { intros j Hj Hne. rewrite Hr1 by exact Hj. by rewrite (proj2 (Z.eqb_neq (ref k dir j) 0)), andb_false_r. }
    rewrite u32_small by lia. replace (a * 4096 + 4096) with ((a + 1) * 4096) by lia.
    apply IH; [| lia | lia | lia |].
    + split; [by rewrite Hv1 | exact Hl1 | | exact Hi1 | rewrite Hu1, Hs1; lia].
      intros n Hn. destruct (Hp n ltac:(lia)) as [Hrn Hpn].
      rewrite Hr1', He1 by (done || unfold NPAGES; word_lia). by rewrite (proj2 (Z.eqb_neq n a)) by lia.
    + intros k' [Hnew Hold Hl' Hi' Hu' Hbu' (Hh' & Hv' & Hlog')]. apply HQ. split; try congruence.
      * intros n Hn. destruct (decide (n = a)) as [->|Hne]; [|apply Hnew; lia].
        rewrite Hold, He1, Z.eqb_refl by (unfold NPAGES; lia).
        by destruct (mk_pte_fields (chosen_frame 0 bl) 1 1 (entry k dir a)) as (-> & _ & -> & ->).
      * intros n Hn Hout. rewrite Hold, He1 by (done || lia). by rewrite (proj2 (Z.eqb_neq n a)) by lia.
      * rewrite Hu', Hu1. lia.
      * intros c Hcr Hcu. apply Hbu'; [by rewrite Hs1|]. rewrite Hbu1 by exact Hcr. rewrite Hcu. by rewrite orb_true_r.
      * split_and!; congruence.
  - assert (Heq : a = page_above nb) by (unfold page_above in *; word_lia). vstep. rewrite Heq. apply HQ.
    split; [lia | done | exact Hl | exact Hi | lia | done | done].
Qed.


(** a negative size does not give memory back: [ksbrk] subtracts it, so the
    break moves up by its absolute value (and to at least 4 MB above
    [heap_start]), without mapping anything. *)
Theorem ksbrk_negative_grows `{Linker} kma fuel size k :
  let g := heap k in
  let nb := Z.max (heap_curr g - size) (heap_start g + 4 * Mb) in
  -2147483648 <= size < 0 -> 0 <= heap_curr g -> heap_curr g - size < 4294967296 ->
  0 <= heap_start g -> heap_start g + 4 * Mb < 4294967296 ->
  4096 <= heap_end g < 4294967296 -> heap_end g - 4096 <= nb -> (0 < fuel)%nat ->
  ksbrk kma fuel size k = Done (heap_curr g, upd_heap (set_heap_curr nb) k) /\ heap_curr g < nb.
Proof.
  intros g nb Hs Hc Hcs Hst Hst4 He Hnb Hf. split; [|lia]. apply wp_done_inv.
  destruct fuel as [|fuel]; [lia|]. cbn [ksbrk]. kstep. kstep. fold g.
  rewrite (proj2 (Z.eqb_neq size 0)), (proj2 (Z.ltb_ge 0 size)) by lia.
  kstep. kstep. kstep. kstep. fold g. unfold KHEAP_MIN_SIZE.
  assert (Hnbe : (if heap_curr g -32 size <? heap_start g +32 4 * Mb then heap_start g +32 4 * Mb
                 else heap_curr g -32 size) = nb).
  { rewrite !u32_small by (unfold Mb, K in *; lia). unfold nb. destruct (Z.ltb_spec (heap_curr g - size) (heap_start g + 4 * Mb)); lia. }
  rewrite Hnbe. wp_step. cbn [ksbrk_unmap_loop].
  unfold PAGE_SIZE. rewrite u32_small, (proj2 (Z.ltb_ge _ _)) by lia. kstep.
  rewrite u32_small by lia. replace (heap_end g - 4096 + 4096) with (heap_end g) by lia.
  wp_step. simple apply wp_modify. wp_step. simple apply wp_modify. kstep. split; [done|].
  unfold g. by destruct k as [? ? ? ? ? []].
Qed.

(** ** Aligned requests *)

(** once the heap is initialised, [kmalloc_a] returns a page-aligned
    address inside the [sz + 4096] bytes it requests from [malloc], with [sz]
    bytes behind it; when [malloc] fails with 0 it returns 4096 instead. *)
Theorem kmalloc_a_aligned `{Linker} fuel sz p k k' :
  heap_start (heap k) <> 0 -> 0 <= sz -> sz + 4096 < 4294967296 ->
  malloc fuel (sz + 4096) k = Done (p, k') -> 0 <= p -> p + 4096 + sz < 4294967296 ->
  exists r, kmalloc_a fuel sz k = Done (r, k') /\
    r mod PAGE_SIZE = 0 /\ p < r <= p + 4096 /\ r + sz <= p + (sz + 4096) /\ (p = 0 -> r = 4096).
Proof.
  intros Hst Hsz Hmax Hm Hp Hpm. exists (4096 * (p / 4096) + 4096). unfold PAGE_SIZE. split.
  - apply wp_done_inv. unfold kmalloc_a, kmalloc_int. kstep. kstep.
    rewrite (proj2 (Z.eqb_neq _ 0)) by done. cbn [negb Z.eqb]. rewrite u32_small by lia.
    wp_step. eapply wp_done; [exact Hm|]. kstep. kstep. kstep. split; [|done].
    rewrite page_mask, u32_small by word_lia. done.
  - split_and!; [|word_lia|word_lia|word_lia|by intros ->].
    replace (4096 * (p / 4096) + 4096) with ((p / 4096 + 1) * 4096) by lia. by apply Z.mod_mul.
Qed.
