(* ===== verification/Spinlock.v ===== *)
(** * sys/spinlock.c: spin locks

    The two functions over memory, and the interleaving of any number of threads
    that use one lock as a step relation whose steps are the atomic accesses of
    the code: mutual exclusion while every unlock is by the holder, and its
    failure under the unlock without a lock of fs/rootfs.c. *)

From S2P Require Export Memory.

(** ** The code *)

Section spinlock_c.
Context {S : Type} `{HasMem S}.

(** [__sync_lock_test_and_set]: one atomic exchange. *)
Definition test_and_set (lock v : Z) : M S Z :=
  old ← load32 lock; store32 lock v;; mret old.

Fixpoint spin_lock (fuel : nat) (lock : Z) : M S unit :=
  match fuel with
  | O => out_of_fuel
  | Datatypes.S fuel' =>
      old ← test_and_set lock 0x01;
      if negb (old =? 0) then spin_lock fuel' lock else mret tt
  end.

(** [__sync_lock_release] stores 0. *)
Definition spin_unlock (lock : Z) : M S unit := store32 lock 0.
End spinlock_c.

(** ** Threads *)

(** Where a thread is: outside, in the loop of [spin_lock], or between the return
    of [spin_lock] and the call of [spin_unlock]. *)
Inductive place := Outside | Spinning | Critical.

#[export] Instance place_eq_dec : EqDecision place.
Proof. solve_decision. Defined.

Abbreviation tid := nat.
Record system := System { sys_mem : memory; at_place : tid -> place }.

Definition move (t : tid) (p : place) (f : tid -> place) : tid -> place :=
  fun t' => if decide (t' = t) then p else f t'.

(** What the other code of a thread does to memory: anything but the lock word. *)
Definition spares (lock : Z) (m m' : memory) : Prop := ld32 m' lock = ld32 m lock.

(** One step of thread [t].  [rogue t] allows the thread to unlock without holding
    the lock. *)
Inductive step (lock : Z) (rogue : tid -> Prop) : system -> system -> Prop :=
  | step_other t m m' f :
      spares lock m m' -> f t <> Spinning ->
      step lock rogue (System m f) (System m' f)
  | step_call t m f :
      f t = Outside ->
      step lock rogue (System m f) (System m (move t Spinning f))
  | step_exchange t m m' f old :
      f t = Spinning -> test_and_set lock 1 m = Done (old, m') ->
      step lock rogue (System m f) (System m' (move t (if old =? 0 then Critical else Spinning) f))
  | step_unlock t m m' f :
      f t = Critical -> spin_unlock lock m = Done (tt, m') ->
      step lock rogue (System m f) (System m' (move t Outside f))
  | step_rogue t m m' f :
      rogue t -> f t = Outside -> spin_unlock lock m = Done (tt, m') ->
      step lock rogue (System m f) (System m' f).

Definition reachable (lock : Z) (rogue : tid -> Prop) : system -> system -> Prop := rtc (step lock rogue).

(** The lock is free and nobody uses it. *)
Definition initial (lock : Z) (s : system) : Prop := ld32 (sys_mem s) lock = 0 /\ forall t, at_place s t = Outside.

Definition exclusive (s : system) : Prop := forall t t', at_place s t = Critical -> at_place s t' = Critical -> t = t'.

(** The lock word is 0 or 1, and it is 1 exactly while a thread is in its critical
    section, which is then the only one. *)
Record lock_inv (lock : Z) (s : system) : Prop := {
  li_word : ld32 (sys_mem s) lock = 0 \/ ld32 (sys_mem s) lock = 1;
  li_held : ld32 (sys_mem s) lock = 1 <-> exists t, at_place s t = Critical;
  li_exclusive : exclusive s;
}.

Lemma move_eq t p f : move t p f t = p.
Proof. unfold move. by rewrite decide_True. Qed.

Lemma move_ne t t' p f : t' <> t -> move t p f t' = f t'.
Proof. intros. unfold move. by rewrite decide_False. Qed.

Lemma test_and_set_run lock v m : test_and_set lock v m = Done (ld32 m lock, st32 m lock v).
Proof. done. Qed.

(** A thread that is not and will not be in the critical section. *)
Lemma lock_inv_move lock m m' f t p :
  lock_inv lock (System m f) -> ld32 m' lock = ld32 m lock -> f t <> Critical -> p <> Critical ->
  lock_inv lock (System m' (move t p f)).
Proof.
  intros [Hw Hh He] Hm Hf Hp.
  assert (Hc : forall t', move t p f t' = Critical <-> f t' = Critical).
  { intros t'. destruct (decide (t' = t)) as [->|Hne]; [rewrite move_eq; done | by rewrite move_ne]. }
  split; cbn [sys_mem at_place] in *.
  - by rewrite Hm.
  - rewrite Hm, Hh. by setoid_rewrite Hc.
  - intros t1 t2. cbn [at_place]. rewrite !Hc. apply He.
Qed.

Lemma lock_inv_step lock s s' : lock_inv lock s -> step lock (fun _ => False) s s' -> lock_inv lock s'.
Proof.
  intros Hi Hs. destruct Hs as [t m m' f Hm Hf | t m f Hf | t m m' f old Hf Hx | t m m' f Hf Hu | t m m' f [] _ _].
  - destruct Hi as [Hw Hh He]. unfold spares in Hm. split; cbn [sys_mem at_place] in *; [by rewrite Hm | by rewrite Hm | exact He].
  - apply (lock_inv_move _ m); [done | done | by rewrite Hf | done].
  - rewrite test_and_set_run in Hx. injection Hx as <- <-.
    pose proof Hi as [Hw Hh He]. cbn [sys_mem at_place] in *. destruct (Z.eqb_spec (ld32 m lock) 0) as [H0|H0].
    + assert (Hnone : forall t', f t' <> Critical).
      { intros t' Ht'. assert (ld32 m lock = 1) by (apply Hh; eauto). lia. }
      split; cbn [sys_mem at_place]; rewrite ?ld32_st32_eq.
      * by right.
      * split; [|done]. intros _. exists t. apply move_eq.
      * intros t1 t2 H1 H2. cbn [at_place] in *.
        assert (Hone : forall t', move t Critical f t' = Critical -> t' = t).
        { intros t' Ht'. destruct (decide (t' = t)) as [|Hne]; [done|]. rewrite move_ne in Ht' by done. by destruct (Hnone t'). }
        by rewrite (Hone t1), (Hone t2).
    + destruct Hw as [Hw|Hw]; [done|]. apply (lock_inv_move _ m); [done | | by rewrite Hf | done].
      by rewrite ld32_st32_eq, Hw.
  - injection Hu as <-. destruct Hi as [Hw Hh He]. cbn [sys_mem at_place] in *.
    assert (Hnone : forall t', move t Outside f t' <> Critical).
    { intros t'. destruct (decide (t' = t)) as [->|Hne]; [by rewrite move_eq|]. rewrite move_ne by done.
      intros Ht'. apply Hne. by apply He. }
    split; cbn [sys_mem at_place set_mem HasMem_memory]; rewrite ?ld32_st32_eq.
    + by left.
    + split; [done|]. intros [t' Ht']. by destruct (Hnone t').
    + intros t1 t2 H1. by destruct (Hnone t1).
Qed.

Lemma lock_inv_initial lock s : initial lock s -> lock_inv lock s.
Proof.
  intros [H0 Ho]. split.
  - by left.
  - rewrite H0. split; [done|]. intros [t Ht]. by rewrite Ho in Ht.
  - intros t t' Ht. by rewrite Ho in Ht.
Qed.

(** ** Properties *)


(** a thread that unlocks without holding the lock, as [rootfs_readdir] does,
    lets two other threads into their critical sections together. *)
Theorem rogue_unlock_breaks_exclusion lock m :
  ld32 m lock = 0 ->
  exists s', reachable lock (fun t => t = 2%nat) (System m (fun _ => Outside)) s' /\
    at_place s' 0%nat = Critical /\ at_place s' 1%nat = Critical.
Proof.
  intros H0. set (R := fun t : tid => t = 2%nat).
  eexists. split.
  - eapply rtc_l; [apply (step_call lock R 0%nat); done|].
    eapply rtc_l; [eapply (step_exchange lock R 0%nat); [by rewrite move_eq | apply test_and_set_run]|].
    rewrite H0. cbn [Z.eqb].
    eapply rtc_l; [eapply (step_rogue lock R 2%nat); [done | by rewrite !move_ne | done]|].
    eapply rtc_l; [apply (step_call lock R 1%nat); by rewrite !move_ne|].
    eapply rtc_l; [eapply (step_exchange lock R 1%nat); [by rewrite move_eq | apply test_and_set_run]|].
    apply rtc_refl.
  - cbn [at_place mem set_mem HasMem_memory]. rewrite ld32_st32_eq. split; [|by rewrite move_eq].
    by rewrite !(move_ne 1%nat 0%nat), move_eq.
Qed.

(** ** One processor *)

Section spinlock_specs.
Context {S : Type} `{MemLaws S}.

Lemma wp_spin_lock fuel lock s (Q : unit -> S -> Prop) :
  ld32 (mem s) lock = 0 -> (0 < fuel)%nat -> Q tt (set_mem (st32 (mem s) lock 1) s) -> wp (spin_lock fuel lock) Q s.
Proof.
  intros Hl Hf HQ. destruct fuel as [|fuel]; [lia|]. cbn [spin_lock]. unfold test_and_set. msteps.
  rewrite Hl. cbn [Z.eqb negb]. by wp_step.
Qed.

(** Without another processor a held lock is never released. *)
Lemma spin_lock_held fuel lock s : ld32 (mem s) lock <> 0 -> stuck (spin_lock fuel lock) s.
Proof.
  revert s. induction fuel as [|fuel IH]; intros s Hl; [done|]. cbn [spin_lock]. apply stuck_bind.
  unfold test_and_set. msteps. rewrite (proj2 (Z.eqb_neq _ 0)) by done. apply IH. by rewrite mem_set_mem, ld32_st32_eq.
Qed.
End spinlock_specs.
