(* ===== verification/Io.v ===== *)
(** * Port input and output

    The functions of include/drivers/io_port.h for byte ports, over any state
    with an I/O trace.  What the devices answer is not known to the kernel: a
    state carries the bytes the coming reads deliver, and every access is
    recorded, so that a property can quantify over the answers and state which
    accesses are made. *)

From S2P Require Export Prelude.

Inductive io_event :=
  | In (port value : Z)
  | Out (port value : Z).

(** The answers still to come, and the accesses made so far. *)
Record io := Io { io_answers : list Z; io_trace : list io_event }.

Class HasIo (S : Type) := {
  get_io : S -> io;
  set_io : io -> S -> S;
}.

Class IoLaws (S : Type) `{HasIo S} := {
  get_set_io i s : get_io (set_io i s) = i;
  set_set_io i i' s : set_io i (set_io i' s) = set_io i s;
  set_get_io s : set_io (get_io s) s = s;
}.

#[export] Instance HasIo_io : HasIo io := {| get_io i := i; set_io i _ := i |}.
#[export] Instance IoLaws_io : IoLaws io.
Proof. by split. Qed.

Section ports.
Context {S : Type} `{HasIo S}.

Definition outb (port value : Z) : M S unit :=
  modify (fun s => let i := get_io s in
    set_io (Io (io_answers i) (io_trace i ++ [Out (u16 port) (u8 value)])) s).

(** A read takes the next answer; without one the run is not determined. *)
Definition inb (port : Z) : M S Z := fun s =>
  let i := get_io s in
  match io_answers i with
  | [] => NoFuel
  | v :: rest => Done (u8 v, set_io (Io rest (io_trace i ++ [In (u16 port) (u8 v)])) s)
  end.

Lemma wp_outb port v (Q : unit -> S -> Prop) s :
  Q tt (set_io (Io (io_answers (get_io s)) (io_trace (get_io s) ++ [Out (u16 port) (u8 v)])) s) ->
  wp (outb port v) Q s.
Proof. done. Qed.

Lemma wp_inb port v rest tr (Q : Z -> S -> Prop) s :
  get_io s = Io (v :: rest) tr ->
  Q (u8 v) (set_io (Io rest (tr ++ [In (u16 port) (u8 v)])) s) -> wp (inb port) Q s.
Proof. intros He HQ. unfold wp, inb. rewrite He. exact HQ. Qed.
End ports.
