(* ===== verification/Serial.v ===== *)
(** * drivers/serial.c: the COM1 driver

    The receive queue of the serial port, its interrupt handler, the polling
    transmitter and the initialisation, and the correctness of the queue as a
    FIFO of bytes. *)

From S2P Require Export Io CString.

(** ** include/drivers/serial.h *)

Definition PORT_COM1 : Z := 0x3f8.
Definition SERIAL_IRQ : Z := 36.
Definition READ_QUEUE_SIZE : Z := 1024.

(** The globals of serial.c, with the memory the strings lie in; [read_queue]
    maps indices to bytes. *)
Record serial := Serial {
  s_io : io;
  s_mem : memory;
  read_queue : gmap Z Z;
  queue_front : Z;
  queue_rear : Z;
}.

#[export] Instance HasIo_serial : HasIo serial := {|
  get_io := s_io;
  set_io i s := Serial i (s_mem s) (read_queue s) (queue_front s) (queue_rear s);
|}.
#[export] Instance IoLaws_serial : IoLaws serial.
Proof. split; [done | done | by intros []]. Qed.

#[export] Instance HasMem_serial : HasMem serial := {|
  mem := s_mem;
  set_mem m s := Serial (s_io s) m (read_queue s) (queue_front s) (queue_rear s);
|}.
#[export] Instance MemLaws_serial : MemLaws serial.
Proof. split; [done | by intros [] | done]. Qed.

Definition set_queue (q : gmap Z Z) (s : serial) : serial := Serial (s_io s) (s_mem s) q (queue_front s) (queue_rear s).
Definition set_front (f : Z) (s : serial) : serial := Serial (s_io s) (s_mem s) (read_queue s) f (queue_rear s).
Definition set_rear (r : Z) (s : serial) : serial := Serial (s_io s) (s_mem s) (read_queue s) (queue_front s) r.

(** [read_queue[i]] *)
Definition queue_at (s : serial) (i : Z) : Z := default 0 (read_queue s !! i).

(** ** The code *)

Definition port_enable (port : Z) : M serial Z :=
  outb (port + 3) 0x80;;
  outb (port + 0) 0x03;;
  outb (port + 1) 0x00;; outb (port + 3) 0x03;; outb (port + 2) 0xc7;;
  outb (port + 4) 0x0b;;
  outb (port + 4) 0x1e;;
  outb (port + 0) 0xae;;
  v ← inb (port + 0);
  if negb (v =? 0xae) then mret 0
  else outb (port + 4) 0x0b;; mret 1.

(** Both functions poll COM1 whatever their argument is. *)
Definition port_read_ready (port : Z) : M serial Z :=
  v ← inb (PORT_COM1 + 5); mret (Z.land v 1).
Definition port_write_ready (port : Z) : M serial Z :=
  v ← inb (PORT_COM1 + 5); mret (Z.land v 0x20).

Definition serial_getc : M serial Z :=
  front ← gets queue_front;
  if front =? -1 then mret 0
  else
    c ← gets (fun s => queue_at s (queue_front s));
    front ← gets queue_front;
    rear ← gets queue_rear;
    (if front =? rear then modify (fun s => set_front (-1) (set_rear (-1) s))
     else modify (fun s => set_front (Z.rem (queue_front s + 1) READ_QUEUE_SIZE) s));;
    mret c.

(** [while (ready(PORT_COM1) == 0);] *)
Fixpoint wait_ready (fuel : nat) (ready : Z -> M serial Z) : M serial unit :=
  match fuel with
  | O => out_of_fuel
  | S fuel' => r ← ready PORT_COM1; if r =? 0 then wait_ready fuel' ready else mret tt
  end.

Definition serial_putc (fuel : nat) (c : Z) : M serial unit :=
  wait_ready fuel port_write_ready;;
  outb PORT_COM1 c.

(** [fuel] also bounds the polls of each character. *)
Fixpoint serial_puts_loop (polls fuel : nat) (str : Z) : M serial unit :=
  match fuel with
  | O => out_of_fuel
  | S fuel' =>
      c ← load8 str;
      if c =? 0 then mret tt
      else c ← load8 str; serial_putc polls c;; serial_puts_loop polls fuel' (str + 1)
  end.

Definition serial_puts (fuel : nat) (str : Z) : M serial unit := serial_puts_loop fuel fuel str.

(** [serial_puts] of a literal, by its characters. *)
Fixpoint serial_puts_literal (fuel : nat) (str : list Z) : M serial unit :=
  match str with
  | [] => mret tt
  | c :: str' => serial_putc fuel c;; serial_puts_literal fuel str'
  end.

Definition serial_irq_handler (fuel : nat) : M serial unit :=
  isr ← inb (PORT_COM1 + 2);
  if negb (Z.land isr (Z.shiftl 1 2) =? 0) then
    wait_ready fuel port_read_ready;;
    front ← gets queue_front;
    rear ← gets queue_rear;
    if (front =? 0) && (rear =? READ_QUEUE_SIZE - 1) then mret tt
    else
      front ← gets queue_front;
      (if front =? -1 then modify (set_front 0) else mret tt);;
      modify (fun s => set_rear (Z.rem (queue_rear s + 1) READ_QUEUE_SIZE) s);;
      d ← inb PORT_COM1;
      modify (fun s => set_queue (<[queue_rear s := d]> (read_queue s)) s)
  else mret tt.

(** The symbol of the handler and the messages are returned to the caller of the
    model: [serial_init] yields what it installs and logs. *)
Definition serial_init : M serial (option (Z * string) * string) :=
  ok ← port_enable PORT_COM1;
  if ok =? 0 then mret (None, "COM1 initialization failed\n"%string)
  else
    outb (PORT_COM1 + 1) 0x01;;
    mret (Some (SERIAL_IRQ, "serial_irq_handler"%string), "Serial Port(s) initialized\n"%string).

(** ** The queue *)

(** The indices are both -1, or both inside the array. *)
Definition queue_wf (s : serial) : Prop :=
  queue_front s = -1 /\ queue_rear s = -1 \/
  0 <= queue_front s < READ_QUEUE_SIZE /\ 0 <= queue_rear s < READ_QUEUE_SIZE.

(** The number of bytes the queue holds. *)
Definition queue_length (s : serial) : Z :=
  if queue_front s =? -1 then 0 else (queue_rear s - queue_front s) mod READ_QUEUE_SIZE + 1.

(** Its bytes, oldest first. *)
Definition queue_list (s : serial) : list Z :=
  (fun i => queue_at s ((queue_front s + Z.of_nat i) mod READ_QUEUE_SIZE)) <$>
    seq 0 (Z.to_nat (queue_length s)).

Lemma queue_length_range s : queue_wf s -> 0 <= queue_length s <= READ_QUEUE_SIZE.
Proof.
  unfold queue_wf, queue_length, READ_QUEUE_SIZE. intros [[-> ->]|[Hf Hr]]; [done|].
  rewrite (proj2 (Z.eqb_neq _ _)) by lia. word_lia.
Qed.

Lemma length_queue_list s : length (queue_list s) = Z.to_nat (queue_length s).
Proof. unfold queue_list. by rewrite length_fmap, length_seq. Qed.

(** The queue only depends on the array and the indices. *)
Lemma queue_list_io s i : queue_list (set_io i s) = queue_list s.
Proof. done. Qed.

Lemma queue_list_empty s : queue_wf s -> queue_list s = [] <-> queue_front s = -1.
Proof.
  intros Hwf. rewrite <- length_zero_iff_nil, length_queue_list. pose proof (queue_length_range s Hwf).
  unfold queue_length, READ_QUEUE_SIZE in *. destruct (Z.eqb_spec (queue_front s) (-1)); [done|].
  split; [|done]. word_lia.
Qed.

(** The byte [d] stored behind the others. *)
Definition enqueue (d : Z) (s : serial) : serial :=
  let s1 := if queue_front s =? -1 then set_front 0 s else s in
  let s2 := set_rear (Z.rem (queue_rear s1 + 1) READ_QUEUE_SIZE) s1 in
  set_queue (<[queue_rear s2 := d]> (read_queue s2)) s2.

Lemma queue_at_insert s q i d j :
  queue_at (set_queue (<[i := d]> q) s) j = if decide (i = j) then d else default 0 (q !! j).
Proof. unfold queue_at. cbn [read_queue set_queue]. rewrite lookup_insert. by case_decide. Qed.

Lemma queue_at_enqueue d s j :
  queue_at (enqueue d s) j = if decide (queue_rear (enqueue d s) = j) then d else queue_at s j.
Proof.
  unfold enqueue. cbv zeta. rewrite queue_at_insert. unfold queue_at.
  replace (read_queue _) with (read_queue s) by (cbn; by destruct (queue_front s =? -1)). done.
Qed.

(** The indices after [enqueue]. *)
Lemma enqueue_indices d s :
  queue_wf s ->
  let f := if queue_front s =? -1 then 0 else queue_front s in
  queue_front (enqueue d s) = f /\ queue_rear (enqueue d s) = (f + queue_length s) mod READ_QUEUE_SIZE /\
  0 <= f < READ_QUEUE_SIZE /\ queue_wf (enqueue d s).
Proof.
  unfold queue_wf, enqueue, queue_length, READ_QUEUE_SIZE.
  intros [[Hf Hr]|[Hf Hr]].
  - rewrite Hf. cbn. rewrite Hr. split_and!; [done | done | done | done |]. right. change (Z.rem (-1 + 1) 1024) with 0. lia.
  - rewrite (proj2 (Z.eqb_neq _ (-1))) by lia. cbn. rewrite Z.rem_mod_nonneg by lia. split_and!; [done | | lia | lia |];
    [word_lia|]. right. word_lia.
Qed.

Lemma queue_list_enqueue d s :
  queue_wf s -> queue_length s < READ_QUEUE_SIZE ->
  queue_list (enqueue d s) = queue_list s ++ [d] /\ queue_wf (enqueue d s).
Proof.
  intros Hwf Hlen. destruct (enqueue_indices d s Hwf) as (Hf & Hr & Hfr & Hwf').
  pose proof (queue_length_range s Hwf) as Hl. split; [|done].
  assert (Hlen' : Z.to_nat (queue_length (enqueue d s)) = S (Z.to_nat (queue_length s))).
  { unfold queue_length at 1. rewrite Hf, Hr. unfold READ_QUEUE_SIZE in *.
    rewrite (proj2 (Z.eqb_neq _ (-1))) by lia. word_lia. }
  unfold queue_list. rewrite Hlen', seq_S, fmap_app. cbn [fmap list_fmap Nat.add].
  pose proof (queue_at_enqueue d s) as Hat.
  rewrite Hf. rewrite Hr in Hat. f_equal.
  - apply list_fmap_ext. intros i x Hx. apply lookup_seq in Hx as [-> Hi]. rewrite Hat.
    destruct (Z.eqb_spec (queue_front s) (-1)) as [He|Hne].
    + unfold queue_length in Hi. rewrite He in Hi. simpl in Hi. lia.
    + rewrite decide_False; [done|]. unfold READ_QUEUE_SIZE in *. word_lia.
  - rewrite Hat, Z2Nat.id, decide_True by lia. done.
Qed.

(** A queue that is full but does not start at index 0. *)
Lemma queue_list_overflow d s :
  queue_wf s -> queue_length s = READ_QUEUE_SIZE -> queue_list (enqueue d s) = [d].
Proof.
  intros Hwf Hlen. destruct (enqueue_indices d s Hwf) as (Hf & Hr & Hfr & _). rewrite Hlen in Hr.
  set (f := if queue_front s =? -1 then 0 else queue_front s) in *.
  assert (Hrf : queue_rear (enqueue d s) = f) by (rewrite Hr; unfold READ_QUEUE_SIZE in *; word_lia).
  assert (Hl : queue_length (enqueue d s) = 1).
  { unfold queue_length. rewrite Hf, Hrf, (proj2 (Z.eqb_neq _ (-1))), Z.sub_diag by lia. done. }
  unfold queue_list. rewrite Hl. change (Z.to_nat 1) with 1%nat. cbn [seq fmap list_fmap]. f_equal.
  rewrite Hf, queue_at_enqueue, Hrf, Z.add_0_r, Z.mod_small, decide_True by lia. done.
Qed.

Lemma wp_serial_getc s (Q : Z -> serial -> Prop) :
  queue_wf s ->
  (queue_list s = [] -> Q 0 s) ->
  (forall c cs s', queue_list s = c :: cs -> queue_list s' = cs -> queue_wf s' -> s_io s' = s_io s ->
     s_mem s' = s_mem s -> Q c s') ->
  wp serial_getc Q s.
Proof.
  intros Hwf H0 H1. unfold serial_getc. wp_step. wp_step.
  destruct (Z.eqb_spec (queue_front s) (-1)) as [He|Hne]; [wp_step; by apply H0, queue_list_empty|].
  destruct Hwf as [[? _]|[Hf Hr]]; [done|].
  assert (Hlen : exists n, Z.to_nat (queue_length s) = S n /\ Z.of_nat n = (queue_rear s - queue_front s) mod READ_QUEUE_SIZE).
  { unfold queue_length. rewrite (proj2 (Z.eqb_neq _ (-1))) by done.
    exists (Z.to_nat ((queue_rear s - queue_front s) mod READ_QUEUE_SIZE)). unfold READ_QUEUE_SIZE. word_lia. }
  destruct Hlen as (n & Hn & Hnz).
  assert (Hq : queue_list s = queue_at s (queue_front s) ::
    ((fun i => queue_at s ((queue_front s + Z.of_nat i) mod READ_QUEUE_SIZE)) <$> seq 1 n)).
  { unfold queue_list. rewrite Hn. cbn [seq fmap list_fmap]. f_equal. f_equal.
    unfold READ_QUEUE_SIZE in *. word_lia. }
  do 6 wp_step. destruct (Z.eqb_spec (queue_front s) (queue_rear s)) as [Hfr|Hfr].
  - wp_step. simple apply wp_modify. wp_step. eapply H1; [exact Hq | | by left | done | done].
    rewrite Hfr, Z.sub_diag in Hnz. change (0 mod READ_QUEUE_SIZE) with 0 in Hnz.
    replace n with 0%nat by lia. done.
  - wp_step. simple apply wp_modify. wp_step. unfold READ_QUEUE_SIZE in *. rewrite Z.rem_mod_nonneg by lia.
    eapply H1; [exact Hq | | | done | done]; [|right; cbn; unfold READ_QUEUE_SIZE; word_lia].
    unfold queue_list, queue_length. cbn [queue_front queue_rear set_front].
    rewrite (proj2 (Z.eqb_neq _ (-1))) by word_lia. unfold READ_QUEUE_SIZE.
    replace (Z.to_nat _) with n by word_lia.
    rewrite <- (fmap_S_seq 0 n), <- list_fmap_compose. apply list_fmap_ext.
    intros i x _. unfold compose, queue_at. cbn [read_queue set_front]. do 2 f_equal. word_lia.
Qed.

(** ** The interrupt handler and the transmitter *)

(** Polling a status register until a bit of [m] is set. *)
Definition poll (m port : Z) : M serial Z := v ← inb (PORT_COM1 + 5); mret (Z.land v m).

Definition status_read (v : Z) : io_event := Io.In (PORT_COM1 + 5) (u8 v).

Lemma wp_wait_ready m fuel polls r rest tr s (Q : unit -> serial -> Prop) :
  s_io s = Io (polls ++ r :: rest) tr -> Forall (fun v => Z.land (u8 v) m = 0) polls ->
  Z.land (u8 r) m <> 0 -> (length polls < fuel)%nat ->
  Q tt (set_io (Io rest (tr ++ (status_read <$> polls ++ [r]))) s) -> wp (wait_ready fuel (poll m)) Q s.
Proof.
  revert polls tr s. induction fuel as [|fuel IH]; intros polls tr s Hs Hp Hr Hf HQ; [lia|].
  cbn [wait_ready]. wp_step. unfold poll at 1. wp_step. destruct polls as [|v polls].
  - simple eapply wp_inb; [exact Hs|]. wp_step. rewrite (proj2 (Z.eqb_neq _ 0)) by done. wp_step. exact HQ.
  - apply Forall_cons in Hp as [Hv Hp]. simple eapply wp_inb; [exact Hs|]. wp_step. rewrite Hv. cbn [Z.eqb].
    eapply (IH polls); [done | done | done | simpl in Hf; lia |].
    rewrite set_set_io. cbn [app fmap list_fmap] in *. by rewrite <- (assoc_L (++)).
Qed.

Lemma land_bit2 v : Z.land v (Z.shiftl 1 2) = Z.land v 4.
Proof. done. Qed.

(** The handler up to the point where it knows a byte is ready. *)
Lemma wp_serial_irq fuel isr polls r d rest tr s (Q : unit -> serial -> Prop) :
  s_io s = Io (isr :: polls ++ r :: d :: rest) tr -> Z.land (u8 isr) 4 <> 0 ->
  Forall (fun v => Z.land (u8 v) 1 = 0) polls -> Z.land (u8 r) 1 <> 0 -> (length polls < fuel)%nat ->
  (if (queue_front s =? 0) && (queue_rear s =? READ_QUEUE_SIZE - 1) then
     forall i, io_answers i = d :: rest -> Q tt (set_io i s)
   else forall i, io_answers i = rest -> Q tt (set_io i (enqueue (u8 d) s))) ->
  wp (serial_irq_handler fuel) Q s.
Proof.
  intros Hs Hi Hp Hr Hf HQ. unfold serial_irq_handler. wp_step. simple eapply wp_inb; [exact Hs|].
  rewrite land_bit2, (proj2 (Z.eqb_neq _ 0)) by done. wp_step. wp_step.
  simple eapply (wp_wait_ready 1); [reflexivity | exact Hp | exact Hr | exact Hf |].
  rewrite set_set_io. do 4 wp_step. cbn [queue_front queue_rear set_io HasIo_serial].
  destruct ((queue_front s =? 0) && (queue_rear s =? READ_QUEUE_SIZE - 1)).
  - wp_step. by apply HQ.
  - do 3 wp_step. cbn [queue_front set_io HasIo_serial].
    assert (Hgo : forall s1, s_io s1 = Io (d :: rest) (s_io s1).(io_trace) ->
      (forall i, io_answers i = rest ->
         Q tt (set_io i (set_queue (<[Z.rem (queue_rear s1 + 1) READ_QUEUE_SIZE := u8 d]> (read_queue s1))
           (set_rear (Z.rem (queue_rear s1 + 1) READ_QUEUE_SIZE) s1)))) ->
      wp (modify (fun s => set_rear (Z.rem (queue_rear s + 1) READ_QUEUE_SIZE) s);;
          d ← inb PORT_COM1; modify (fun s => set_queue (<[queue_rear s := d]> (read_queue s)) s)) Q s1).
    { intros s1 Hs1 HQ1. wp_step. simple apply wp_modify. wp_step.
      simple eapply wp_inb; [exact Hs1|]. simple apply wp_modify. by apply HQ1. }
    destruct (Z.eqb_spec (queue_front s) (-1)) as [He|Hne].
    + simple apply wp_modify. apply Hgo; [done|]. intros i Hi'. specialize (HQ i Hi').
      unfold enqueue in HQ. rewrite He in HQ. exact HQ.
    + wp_step. apply Hgo; [done|]. intros i Hi'. specialize (HQ i Hi').
      unfold enqueue in HQ. rewrite (proj2 (Z.eqb_neq _ (-1))) in HQ by done. exact HQ.
Qed.

Lemma queue_full_at_0 s :
  queue_wf s -> (queue_front s =? 0) && (queue_rear s =? READ_QUEUE_SIZE - 1) = true ->
  queue_length s = READ_QUEUE_SIZE.
Proof.
  intros _ Hc. apply andb_prop in Hc as [Hf Hr]. apply Z.eqb_eq in Hf, Hr.
  unfold queue_length. rewrite Hf, Hr. done.
Qed.

(** while the queue holds fewer than 1024 bytes, a receive interrupt appends
    the received byte to it, after polling the status register until the byte is
    ready. *)
Theorem serial_irq_enqueues fuel isr polls r d rest tr s :
  queue_wf s -> queue_length s < READ_QUEUE_SIZE ->
  s_io s = Io (isr :: polls ++ r :: d :: rest) tr -> Z.land (u8 isr) 4 <> 0 ->
  Forall (fun v => Z.land (u8 v) 1 = 0) polls -> Z.land (u8 r) 1 <> 0 -> (length polls < fuel)%nat ->
  exists s', serial_irq_handler fuel s = Done (tt, s') /\
    queue_list s' = queue_list s ++ [u8 d] /\ queue_wf s' /\ io_answers (s_io s') = rest.
Proof.
  intros Hwf Hlen Hs Hi Hp Hr Hf. apply wp_unit.
  eapply wp_serial_irq; [exact Hs | exact Hi | exact Hp | exact Hr | exact Hf |].
  destruct ((queue_front s =? 0) && (queue_rear s =? READ_QUEUE_SIZE - 1)) eqn:Hc.
  - pose proof (queue_full_at_0 s Hwf Hc). lia.
  - intros i Hi'. destruct (queue_list_enqueue (u8 d) s Hwf Hlen) as [Hq Hw]. done.
Qed.

(** [serial_getc] takes the oldest byte out of the queue, or returns 0 and
    changes nothing when the queue is empty. *)
Theorem serial_getc_dequeues s :
  queue_wf s ->
  exists c s', serial_getc s = Done (c, s') /\ queue_wf s' /\ s_io s' = s_io s /\
    ((queue_list s = [] /\ c = 0 /\ s' = s) \/ queue_list s = c :: queue_list s').
Proof.
  intros Hwf. apply wp_run. eapply wp_serial_getc; [exact Hwf | |].
  - intros He. split_and!; [done | done | by left].
  - intros c cs s' Hq Hq' Hw Hio _. split_and!; [done | done |]. right. by rewrite Hq'.
Qed.

(** when the queue holds 1024 bytes, the handler refuses a byte only if the
    queue starts at index 0; otherwise the indices cross and the 1024 unread
    bytes are replaced by the new one. *)
Theorem serial_irq_overflow fuel isr polls r d rest tr s :
  queue_wf s -> queue_length s = READ_QUEUE_SIZE -> queue_front s <> 0 ->
  s_io s = Io (isr :: polls ++ r :: d :: rest) tr -> Z.land (u8 isr) 4 <> 0 ->
  Forall (fun v => Z.land (u8 v) 1 = 0) polls -> Z.land (u8 r) 1 <> 0 -> (length polls < fuel)%nat ->
  exists s', serial_irq_handler fuel s = Done (tt, s') /\
    length (queue_list s) = 1024%nat /\ queue_list s' = [u8 d].
Proof.
  intros Hwf Hlen Hf0 Hs Hi Hp Hr Hf. apply wp_unit.
  eapply wp_serial_irq; [exact Hs | exact Hi | exact Hp | exact Hr | exact Hf |].
  rewrite (proj2 (Z.eqb_neq _ 0)) by done. cbn [andb]. intros i Hi'. split.
  - rewrite length_queue_list, Hlen. done.
  - by apply queue_list_overflow.
Qed.

(** The bytes a trace sends to COM1. *)
Definition sent (tr : list io_event) : list Z :=
  omap (fun e => match e with Out p v => if p =? PORT_COM1 then Some v else None | Io.In _ _ => None end) tr.

(** From a state whose memory satisfies [P], [c] sends the bytes [out], reads one
    ready status per byte, and leaves the queue and [P] as they were. *)
Definition transmits (P : memory -> Prop) (c : M serial unit) (out : list Z) : Prop :=
  forall polls rest s,
    P (mem s) -> io_answers (s_io s) = polls ++ rest -> length polls = length out ->
    Forall (fun v => Z.land (u8 v) 0x20 <> 0) polls ->
    wp c (fun _ s' => sent (io_trace (s_io s')) = sent (io_trace (s_io s)) ++ out /\
                      io_answers (s_io s') = rest /\ queue_list s' = queue_list s /\ P (mem s')) s.

Lemma transmits_nil P : transmits P (mret tt) [].
Proof. intros polls rest s HP Ha Hl _. destruct polls; [|done]. wp_step. by rewrite app_nil_r. Qed.

Lemma transmits_bind P c d out1 out2 :
  transmits P c out1 -> transmits P d out2 -> transmits P (c;; d) (out1 ++ out2).
Proof.
  intros Hc Hd polls rest s HP Ha Hl Hp. rewrite length_app in Hl.
  rewrite <- (take_drop (length out1) polls), <- (assoc_L (++)) in Ha.
  rewrite <- (take_drop (length out1) polls) in Hp. apply Forall_app in Hp as [Hp1 Hp2].
  wp_step. eapply wp_mono; [eapply Hc; [exact HP | exact Ha | rewrite length_take; lia | exact Hp1]|].
  intros [] s1 (Hs1 & Ha1 & Hq1 & HP1).
  eapply wp_mono; [eapply Hd; [exact HP1 | exact Ha1 | rewrite length_drop; lia | exact Hp2]|].
  intros [] s2 (Hs2 & Ha2 & Hq2 & HP2). rewrite Hs2, Hs1, (assoc_L (++)), Hq2. done.
Qed.

Lemma transmits_assume P c out : ((exists m, P m) -> transmits P c out) -> transmits P c out.
Proof. intros Hc polls rest s HP. apply Hc; eauto. Qed.

(** A load, whose value may depend on what [P] says of memory. *)
Lemma transmits_load {A} P (f : memory -> A) (d : A -> M serial unit) v out :
  (forall m, P m -> f m = v) -> transmits P (d v) out ->
  transmits P (x ← gets (fun s => f (mem s)); d x) out.
Proof.
  intros Hf Hd polls rest s HP Ha Hl Hp. wp_step. wp_step. rewrite Hf by done. by apply (Hd polls rest s).
Qed.

Lemma transmits_putc P fuel c : (0 < fuel)%nat -> transmits P (serial_putc fuel c) [u8 c].
Proof.
  intros Hf polls rest s HP Ha Hl Hp. destruct polls as [|v [|? ?]]; [done | | done].
  apply Forall_cons in Hp as [Hv _]. unfold serial_putc. wp_step.
  simple eapply (wp_wait_ready 0x20 _ [] v rest (io_trace (s_io s)));
    [by destruct (s_io s); cbn in *; rewrite Ha | by constructor | exact Hv | simpl; lia |].
  simple apply wp_outb. cbn [get_io HasIo_serial s_io set_io io_answers io_trace]. split_and!; [|done|done|done].
  unfold sent. rewrite !omap_app. cbn. by rewrite app_nil_r.
Qed.

Lemma transmits_literal P fuel str : (0 < fuel)%nat -> transmits P (serial_puts_literal fuel str) (u8 <$> str).
Proof.
  intros Hf. induction str as [|c str IH]; cbn [serial_puts_literal fmap list_fmap]; [apply transmits_nil|].
  apply (transmits_bind _ _ _ [u8 c]); [by apply transmits_putc | exact IH].
Qed.

(** A string that [P] keeps in place. *)
Lemma transmits_puts (P : memory -> Prop) fuel p str :
  (forall m, P m -> cstr m p str) -> (length str < fuel)%nat -> transmits P (serial_puts fuel p) str.
Proof.
  intros HP Hf. unfold serial_puts. assert (Hpolls : (0 < fuel)%nat) by lia. revert Hpolls.
  generalize fuel at 1 2 as polls. intros polls Hpolls. revert p str HP Hf.
  induction fuel as [|fuel IH]; intros p str HP Hf; [lia|]. cbn [serial_puts_loop].
  apply (transmits_load P (fun m => ld8 m p) _ (default 0 (head str))).
  { intros m Hm. specialize (HP m Hm). destruct str as [|c str]; apply HP. }
  destruct str as [|c str]; [apply transmits_nil|]. cbn [head default from_option id].
  apply transmits_assume. intros [m0 Hm0]. pose proof (cstr_nonzero _ _ _ (HP m0 Hm0)) as Hnz.
  apply Forall_cons in Hnz as [Hc0 _]. rewrite (proj2 (Z.eqb_neq c 0)) by lia.
  apply (transmits_load P (fun m => ld8 m p) _ c).
  { intros m Hm. apply (HP m Hm). }
  replace (c :: str) with ([u8 c] ++ str) by (by rewrite u8_small by lia).
  apply transmits_bind; [by apply transmits_putc|]. apply IH; [|simpl in Hf; lia].
  intros m Hm. apply (HP m Hm).
Qed.

(** ** The queue over time *)

(** What happens at the port: a receive interrupt, with the answers of the interrupt
    identification and status registers and the byte, or a read by the kernel. *)
Inductive serial_event :=
  | Receive (isr : Z) (polls : list Z) (ready d : Z)
  | Getc.

Definition event_answers (e : serial_event) : list Z :=
  match e with Receive isr polls r d => isr :: polls ++ [r; d] | Getc => [] end.

(** A byte is announced, and ready within the polls. *)
Definition event_ok (fuel : nat) (e : serial_event) : Prop :=
  match e with
  | Receive isr polls r d =>
      Z.land (u8 isr) 4 <> 0 /\ Forall (fun v => Z.land (u8 v) 1 = 0) polls /\ Z.land (u8 r) 1 <> 0 /\ (length polls < fuel)%nat
  | Getc => True
  end.

(** The driver in a sequence of events, with the results of the reads. *)
Fixpoint serial_events (fuel : nat) (es : list serial_event) : M serial (list Z) :=
  match es with
  | [] => mret []
  | Receive _ _ _ _ :: es' => serial_irq_handler fuel;; serial_events fuel es'
  | Getc :: es' => c ← serial_getc; cs ← serial_events fuel es'; mret (c :: cs)
  end.

(** A queue of at most 1024 bytes; a byte more is outside of its contract. *)
Fixpoint fifo (q : list Z) (es : list serial_event) : option (list Z * list Z) :=
  match es with
  | [] => Some ([], q)
  | Receive _ _ _ d :: es' => if Z.of_nat (length q) <? READ_QUEUE_SIZE then fifo (q ++ [u8 d]) es' else None
  | Getc :: es' =>
      match q with
      | [] => prod_map (cons 0) id <$> fifo [] es'
      | c :: q' => prod_map (cons c) id <$> fifo q' es'
      end
  end.

(** C17: the receive queue of the driver refines a bounded queue.  For every sequence
    of receive interrupts and reads in which the bounded queue never has to take a
    byte beyond 1024, the reads of the driver return what the queue returns, 0 when it
    is empty, and the bytes left in the ring are those of the queue, in order. *)
Theorem serial_queue_refines fuel es out q rest s :
  queue_wf s -> Forall (event_ok fuel) es -> io_answers (s_io s) = (es ≫= event_answers) ++ rest ->
  fifo (queue_list s) es = Some (out, q) ->
  exists s', serial_events fuel es s = Done (out, s') /\ queue_list s' = q /\ queue_wf s' /\ io_answers (s_io s') = rest.
Proof.
  intros Hwf Hes Ha Hfifo. apply wp_value. revert s out q Hwf Ha Hfifo. induction es as [|e es IH]; intros s out q Hwf Ha Hfifo.
  { injection Hfifo as <- <-. by apply wp_ret. }
  apply Forall_cons in Hes as [He Hes]. specialize (IH Hes). destruct e as [isr polls r d|]; cbn [serial_events fifo] in *; wp_step.
  - destruct He as (Hi & Hp & Hr & Hf). rewrite length_queue_list, Z2Nat.id in Hfifo by (by apply queue_length_range).
    destruct (Z.ltb_spec (queue_length s) READ_QUEUE_SIZE) as [Hlen|]; [|done].
    destruct (s_io s) as [ans tr] eqn:Hio. cbn [io_answers mbind list_bind event_answers] in Ha. rewrite <- !(assoc_L (++)) in Ha. cbn [app] in Ha.
    rewrite <- (assoc_L (++)) in Ha. cbn [app] in Ha. subst ans.
    eapply wp_serial_irq; [exact Hio | exact Hi | exact Hp | exact Hr | exact Hf |].
    destruct ((queue_front s =? 0) && (queue_rear s =? READ_QUEUE_SIZE - 1)) eqn:Hc; [pose proof (queue_full_at_0 s Hwf Hc); lia|].
    intros i Hi'. destruct (queue_list_enqueue (u8 d) s Hwf Hlen) as [Hq Hw].
    apply IH; [exact Hw | exact Hi' | by rewrite queue_list_io, Hq].
  - eapply wp_serial_getc; [exact Hwf | |].
    + intros He0. rewrite He0 in Hfifo. apply fmap_Some in Hfifo as ([out' q'] & Hfifo & [= -> ->]). wp_step.
      eapply wp_mono; [apply (IH s out' q'); [done | exact Ha | by rewrite He0]|]. intros cs s' (-> & Hs'). by wp_step.
    + intros c cs s1 Hq Hq1 Hw1 Hio _. rewrite Hq in Hfifo. apply fmap_Some in Hfifo as ([out' q'] & Hfifo & [= -> ->]). wp_step.
      eapply wp_mono; [apply (IH s1 out' q'); [done | by rewrite Hio | by rewrite Hq1]|]. intros cs' s' (-> & Hs'). by wp_step.
Qed.
