(* ===== verification/Keyboard.v ===== *)
(** * drivers/keyboard.c: the PS/2 keyboard driver

    The scan code tables, the modifier state and the interrupt handler as a
    state machine on scan codes. *)

From S2P Require Export Io.

(** ** include/drivers/keyboard.h *)

Definition PS2_DATA : Z := 0x60.
Definition PS2_CMD : Z := 0x64.
Definition KEYBOARD_IRQ : Z := 33.

Definition SHIFT : Z := Z.shiftl 1 0.
Definition CTL : Z := Z.shiftl 1 1.
Definition ALT : Z := Z.shiftl 1 2.
Definition CAPSLOCK : Z := Z.shiftl 1 3.
Definition NUMLOCK : Z := Z.shiftl 1 4.
Definition SCROLLLOCK : Z := Z.shiftl 1 5.
Definition E0ESC : Z := Z.shiftl 1 6.

(** [C(x)] *)
Definition ctl (x : Z) : Z := u8 (x - 64).

(** ** The tables *)

Definition shiftcode (d : Z) : Z :=
  if d =? 0x1D then CTL else if d =? 0x2A then SHIFT else if d =? 0x36 then SHIFT
  else if d =? 0x38 then ALT else if d =? 0x9D then CTL else if d =? 0xB8 then ALT else 0.

Definition togglecode (d : Z) : Z :=
  if d =? 0x3A then CAPSLOCK else if d =? 0x45 then NUMLOCK else if d =? 0x46 then SCROLLLOCK else 0.

(** The listed entries of a table, in order from index 0; the entries at 0x9C
    and 0xB5; the others are 0. *)
Definition table (l : list Z) (at_9c at_b5 d : Z) : Z :=
  if d =? 0x9C then at_9c else if d =? 0xB5 then at_b5 else default 0 (l !! Z.to_nat d).

Definition normalmap : Z -> Z := table
  [ 0; 27; 49; 50; 51; 52; 53; 54;
    55; 56; 57; 48; 45; 61; 8; 9;
    113; 119; 101; 114; 116; 121; 117; 105;
    111; 112; 91; 93; 10; 0; 97; 115;
    100; 102; 103; 104; 106; 107; 108; 59;
    39; 96; 0; 92; 122; 120; 99; 118;
    98; 110; 109; 44; 46; 47; 0; 42;
    0; 32; 0; 0; 0; 0; 0; 0;
    0; 0; 0; 0; 0; 0; 0; 55;
    56; 57; 45; 52; 53; 54; 43; 49;
    50; 51; 48; 46; 0; 0; 0; 0 ] 10 47.

Definition shiftmap : Z -> Z := table
  [ 0; 27; 33; 64; 35; 36; 37; 94;
    38; 42; 40; 41; 95; 43; 8; 9;
    81; 87; 69; 82; 84; 89; 85; 73;
    79; 80; 123; 125; 10; 0; 65; 83;
    68; 70; 71; 72; 74; 75; 76; 58;
    34; 126; 0; 124; 90; 88; 67; 86;
    66; 78; 77; 60; 62; 63; 0; 42;
    0; 32; 0; 0; 0; 0; 0; 0;
    0; 0; 0; 0; 0; 0; 0; 55;
    56; 57; 45; 52; 53; 54; 43; 49;
    50; 51; 48; 46; 0; 0; 0; 0 ] 10 47.

Definition ctlmap : Z -> Z := table
  [ 0; 0; 0; 0; 0; 0; 0; 0;
    0; 0; 0; 0; 0; 0; 0; 0;
    ctl 81; ctl 87; ctl 69; ctl 82; ctl 84; ctl 89; ctl 85; ctl 73;
    ctl 79; ctl 80; 0; 0; 13; 0; ctl 65; ctl 83;
    ctl 68; ctl 70; ctl 71; ctl 72; ctl 74; ctl 75; ctl 76; 0;
    0; 0; 0; ctl 92; ctl 90; ctl 88; ctl 67; ctl 86;
    ctl 66; ctl 78; ctl 77; 0; 0; ctl 47; 0; 0 ] 13 (ctl 47).

(** [charcode[n]] *)
Definition charcode (n : Z) : Z -> Z :=
  if n =? 0 then normalmap else if n =? 1 then shiftmap else ctlmap.

(** ** The handler *)

(** The CAPSLOCK conversion of [c]. *)
Definition capslock (c : Z) : Z :=
  if (97 <=? c) && (c <=? 122) then u8 (c - 32)
  else if (65 <=? c) && (c <=? 90) then u8 (c + 32) else c.

(** What the handler does with the byte [data]: the new modifier state and, for
    a key press, the character it prints. *)
Definition scan (shift data : Z) : Z * option Z :=
  if data =? 0xE0 then (Z.lor shift E0ESC, None)
  else if negb (Z.land data 0x80 =? 0) then
    let data := if negb (Z.land shift E0ESC =? 0) then data else Z.land data 0x7F in
    (Z.land shift (Z.lnot (Z.lor (shiftcode data) E0ESC)), None)
  else
    let '(data, shift) :=
      if negb (Z.land shift E0ESC =? 0) then (Z.lor data 0x80, Z.land shift (Z.lnot E0ESC)) else (data, shift) in
    let shift := Z.lor shift (shiftcode data) in
    let shift := Z.lxor shift (togglecode data) in
    let c := charcode (Z.land shift (Z.lor CTL SHIFT)) data in
    (shift, Some (if negb (Z.land shift CAPSLOCK =? 0) then capslock c else c)).

(** The driver's state: the modifiers and the characters it has printed. *)
Record keyboard := Keyboard { k_io : io; kb_shift : Z; printed : list Z }.

#[export] Instance HasIo_keyboard : HasIo keyboard := {|
  get_io := k_io;
  set_io i k := Keyboard i (kb_shift k) (printed k);
|}.
#[export] Instance IoLaws_keyboard : IoLaws keyboard.
Proof. split; [done | done | by intros []]. Qed.

(** The loop in front of the read polls the status port 1000 times and leaves
    nothing undone, whatever the answers are. *)
Definition keyboard_irq_handler : M keyboard unit :=
  for_loop 1000 0 (fun _ => inb PS2_CMD;; mret tt);;
  data ← inb PS2_DATA;
  modify (fun k =>
    let '(shift, c) := scan (kb_shift k) data in
    Keyboard (k_io k) shift (printed k ++ match c with Some c => [c] | None => [] end)).

Definition keyboard_reset : M keyboard unit :=
  tmp ← inb 0x61;
  outb 0x61 (Z.lor tmp 0x80);;
  outb 0x61 (Z.land tmp 0x7F);;
  inb PS2_DATA;; mret tt.

(** The handler that [keyboard_init] installs for [KEYBOARD_IRQ] and the message it
    logs are returned to the caller of the model. *)
Definition keyboard_init : M keyboard ((Z * string) * string) :=
  keyboard_reset;;
  mret ((KEYBOARD_IRQ, "keyboard_irq_handler"), "PS/2 Keyboard device initialized\n")%string.

(** ** Properties *)

(** A property of all bytes, and of all modifier states, by evaluation. *)
Definition all_below (n : nat) (P : Z -> bool) : bool := forallb (fun i => P (Z.of_nat i)) (seq 0 n).

Lemma all_below_spec n P z : all_below n P = true -> 0 <= z < Z.of_nat n -> P z = true.
Proof.
  intros Ha Hz. unfold all_below in Ha. rewrite forallb_forall in Ha.
  specialize (Ha (Z.to_nat z)). rewrite in_seq, Z2Nat.id in Ha by lia. apply Ha. lia.
Qed.

Lemma all_pairs_spec n n' (P : Z -> Z -> bool) a b :
  all_below n (fun a => all_below n' (P a)) = true ->
  0 <= a < Z.of_nat n -> 0 <= b < Z.of_nat n' -> P a b = true.
Proof. intros Ha Hza Hzb. eapply all_below_spec in Ha; [|exact Hza]. by eapply all_below_spec in Ha. Qed.

Definition letter (c : Z) : bool := (97 <=? c) && (c <=? 122).

(** The bits of the modifiers that a byte may hold. *)
Definition modifiers (s : Z) : Prop := 0 <= s < 128.

(** whatever bytes arrive, the modifier state stays within its seven bits
    and every printed character is a byte. *)
Theorem scan_range s d :
  modifiers s -> 0 <= d < 256 ->
  modifiers (scan s d).1 /\ (forall c, (scan s d).2 = Some c -> 0 <= c < 256).
Proof.
  intros Hs Hd.
  assert (Hall : all_below 128 (fun s => all_below 256 (fun d =>
    let r := scan s d in (0 <=? r.1) && (r.1 <? 128) &&
      match r.2 with Some c => (0 <=? c) && (c <? 256) | None => true end)) = true) by (vm_compute; done).
  pose proof (all_pairs_spec _ _ _ s d Hall Hs Hd) as H. cbv beta zeta in H.
  apply andb_prop in H as [H1 H2]. unfold modifiers. split; [lia|]. intros c Hc. rewrite Hc in H2. lia.
Qed.

(** a key that prints a letter prints it in upper case exactly when one of
    SHIFT and CAPSLOCK is active, as long as CTL and an escape prefix are not. *)
Theorem scan_letters s d c :
  modifiers s -> 0 <= d < 128 -> normalmap d = c -> letter c = true ->
  Z.land s CTL = 0 -> Z.land s E0ESC = 0 ->
  scan s d = (s, Some (if xorb (negb (Z.land s SHIFT =? 0)) (negb (Z.land s CAPSLOCK =? 0)) then c - 32 else c)).
Proof.
  intros Hs Hd <- Hl Hc He.
  assert (Hall : all_below 128 (fun s => all_below 128 (fun d =>
    negb (letter (normalmap d) && (Z.land s CTL =? 0) && (Z.land s E0ESC =? 0)) ||
    let r := scan s d in
    (r.1 =? s) && match r.2 with
      | Some c => c =? (if xorb (negb (Z.land s SHIFT =? 0)) (negb (Z.land s CAPSLOCK =? 0))
                        then normalmap d - 32 else normalmap d)
      | None => false end)) = true) by (vm_compute; done).
  pose proof (all_pairs_spec _ _ _ s d Hall Hs Hd) as H. cbv beta zeta in H.
  rewrite Hl, Hc, He in H. cbn [Z.eqb andb negb orb] in H.
  destruct (scan s d) as [s' [c'|]]; cbn [fst snd] in H; [|lia]. apply andb_prop in H as [H1 H2].
  apply Z.eqb_eq in H1, H2. by subst.
Qed.

(** releasing a key after pressing it restores the modifiers, except that a
    modifier key ends its own modifier and a lock key has toggled its lock. *)
Theorem scan_press_release s d :
  modifiers s -> 0 <= d < 96 -> Z.land s E0ESC = 0 ->
  (scan (scan s d).1 (Z.lor d 0x80)).1 = Z.lxor (Z.land s (Z.lnot (shiftcode d))) (togglecode d).
Proof.
  intros Hs Hd He.
  assert (Hall : all_below 128 (fun s => all_below 96 (fun d => negb (Z.land s E0ESC =? 0) ||
    ((scan (scan s d).1 (Z.lor d 0x80)).1 =? Z.lxor (Z.land s (Z.lnot (shiftcode d))) (togglecode d)))) = true)
    by (vm_compute; done).
  pose proof (all_pairs_spec _ _ _ s d Hall Hs Hd) as H. cbv beta zeta in H. rewrite He in H.
  cbn [Z.eqb negb orb] in H. by apply Z.eqb_eq.
Qed.

(** the interrupt handler reads the status port 1000 times without looking
    at the answers, then the data port once, and behaves as [scan] on that
    byte. *)
Theorem keyboard_irq_scans polls d rest k :
  io_answers (k_io k) = polls ++ d :: rest -> length polls = 1000%nat ->
  exists k', keyboard_irq_handler k = Done (tt, k') /\
    kb_shift k' = (scan (kb_shift k) (u8 d)).1 /\
    printed k' = printed k ++ match (scan (kb_shift k) (u8 d)).2 with Some c => [c] | None => [] end /\
    io_answers (k_io k') = rest.
Proof.
  intros Ha Hl. apply wp_unit. unfold keyboard_irq_handler. wp_step.
  apply (wp_for_loop (fun i k1 => io_answers (k_io k1) = drop (Z.to_nat i) polls ++ d :: rest /\
    kb_shift k1 = kb_shift k /\ printed k1 = printed k)).
  - done.
  - intros i k1 Hi (Ha1 & Hs1 & Hp1).
    destruct (lookup_lt_is_Some_2 polls (Z.to_nat i) ltac:(lia)) as [v Hv].
    rewrite (drop_S _ _ _ Hv) in Ha1. wp_step.
    simple eapply (wp_inb _ v _ (io_trace (k_io k1))); [by destruct k1 as [[] ? ?]; cbn in *; subst|].
    wp_step. cbn. by replace (Z.to_nat (i + 1)) with (S (Z.to_nat i)) by lia.
  - intros k1 (Ha1 & Hs1 & Hp1). rewrite drop_ge in Ha1 by (rewrite Hl; done). wp_step.
    simple eapply (wp_inb _ d rest (io_trace (k_io k1))); [by destruct k1 as [[] ? ?]; cbn in *; subst|].
    simple apply wp_modify. cbn. rewrite Hs1, Hp1. by destruct (scan (kb_shift k) (u8 d)).
Qed.

(** ** Typing *)

(** A stroke: a key pressed and released, alone or between the press and the release
    of a shift key, or the caps lock key. *)
Inductive stroke := Plain (d : Z) | Shifted (d : Z) | Caps.

Definition SC_LSHIFT : Z := 0x2A.
Definition SC_CAPS : Z := 0x3A.
Definition released (d : Z) : Z := Z.lor d 0x80.

Definition scancodes (k : stroke) : list Z :=
  match k with
  | Plain d => [d; released d]
  | Shifted d => [SC_LSHIFT; d; released d; released SC_LSHIFT]
  | Caps => [SC_CAPS; released SC_CAPS]
  end.

(** A key that is no modifier and no lock. *)
Definition ordinary (d : Z) : bool := (0 <=? d) && (d <? 96) && (shiftcode d =? 0) && (togglecode d =? 0).
Definition stroke_ok (k : stroke) : Prop := match k with Plain d | Shifted d => ordinary d = true | Caps => True end.

(** What is typed: the character of the key, or of the key with shift; caps lock swaps
    the case of letters.  A shift key alone and caps lock print the character 0. *)
Definition typed (caps : bool) (k : stroke) : list Z * bool :=
  let conv c := if caps then capslock c else c in
  match k with
  | Plain d => ([conv (normalmap d)], caps)
  | Shifted d => ([0; conv (shiftmap d)], caps)
  | Caps => ([0], negb caps)
  end.

Fixpoint typed_text (caps : bool) (ks : list stroke) : list Z * bool :=
  match ks with
  | [] => ([], caps)
  | k :: ks' => let '(cs, caps') := typed caps k in let '(cs', caps'') := typed_text caps' ks' in (cs ++ cs', caps'')
  end.

(** The bytes of a list through [scan]. *)
Fixpoint scans (shift : Z) (ds : list Z) : Z * list Z :=
  match ds with
  | [] => (shift, [])
  | d :: ds' =>
      let '(shift', c) := scan shift d in
      let '(shift'', cs) := scans shift' ds' in (shift'', match c with Some c => [c] | None => [] end ++ cs)
  end.

Lemma scans_app shift ds1 ds2 :
  scans shift (ds1 ++ ds2) = ((scans (scans shift ds1).1 ds2).1, (scans shift ds1).2 ++ (scans (scans shift ds1).1 ds2).2).
Proof.
  revert shift. induction ds1 as [|d ds1 IH]; intros shift; cbn; [by destruct (scans shift ds2)|].
  destruct (scan shift d) as [sh c]. rewrite IH. destruct (scans sh ds1) as [sh' cs]. cbn. by rewrite (assoc_L (++)).
Qed.

(** The modifier state between strokes: only locks. *)
Definition lock_state (caps : bool) (shift : Z) : Prop :=
  modifiers shift /\ Z.land shift (Z.lor (Z.lor SHIFT CTL) (Z.lor ALT E0ESC)) = 0 /\ negb (Z.land shift CAPSLOCK =? 0) = caps.

Definition stroke_check (k : stroke) (s : Z) : bool :=
  let caps := negb (Z.land s CAPSLOCK =? 0) in
  negb (Z.land s (Z.lor (Z.lor SHIFT CTL) (Z.lor ALT E0ESC)) =? 0) ||
  let r := scans s (scancodes k) in
  bool_decide (r.2 = (typed caps k).1) && (0 <=? r.1) && (r.1 <? 128) &&
  (Z.land r.1 (Z.lor (Z.lor SHIFT CTL) (Z.lor ALT E0ESC)) =? 0) && Bool.eqb (negb (Z.land r.1 CAPSLOCK =? 0)) (typed caps k).2.

Lemma stroke_checked k s : stroke_ok k -> modifiers s -> stroke_check k s = true.
Proof.
  intros Hk Hs.
  assert (Hall : all_below 128 (fun s => all_below 96 (fun d => negb (ordinary d) || (stroke_check (Plain d) s && stroke_check (Shifted d) s))
    && stroke_check Caps s) = true) by (by vm_compute).
  eapply all_below_spec in Hall; [|exact Hs]. apply andb_prop in Hall as [Hd Hc]. destruct k as [d|d|]; cbn in Hk; [| |exact Hc].
  all: pose proof Hk as Hk'; unfold ordinary in Hk'; rewrite !andb_true_iff, Z.leb_le, Z.ltb_lt in Hk';
    apply (all_below_spec _ _ d) in Hd; [|lia]; cbv beta in Hd; rewrite Hk in Hd; by apply andb_prop in Hd as [Hp Hs'].
Qed.

Lemma scans_stroke caps shift k :
  lock_state caps shift -> stroke_ok k ->
  (scans shift (scancodes k)).2 = (typed caps k).1 /\ lock_state (typed caps k).2 (scans shift (scancodes k)).1.
Proof.
  intros (Hm & Hl & Hc) Hk. pose proof (stroke_checked k shift Hk Hm) as Hs. unfold stroke_check in Hs. rewrite Hl, Hc in Hs. cbv zeta in Hs.
  cbn [Z.eqb negb orb] in Hs. rewrite !andb_true_iff, bool_decide_eq_true, Z.leb_le, Z.ltb_lt, Z.eqb_eq, eqb_true_iff in Hs. unfold lock_state, modifiers. tauto.
Qed.

(** The interrupts of a list of bytes, one after the other. *)
Fixpoint keyboard_irqs (n : nat) : M keyboard unit :=
  match n with O => mret tt | S n' => keyboard_irq_handler;; keyboard_irqs n' end.

(** The answers of the controller for the bytes, with the polls in front of each. *)
Definition keyboard_answers (polls : list Z) (ds : list Z) : list Z := ds ≫= (fun d => polls ++ [d]).

Lemma wp_keyboard_irqs polls ds rest k (Q : unit -> keyboard -> Prop) :
  length polls = 1000%nat -> Forall (fun d => 0 <= d < 256) ds -> io_answers (k_io k) = keyboard_answers polls ds ++ rest ->
  (forall k', kb_shift k' = (scans (kb_shift k) ds).1 -> printed k' = printed k ++ (scans (kb_shift k) ds).2 -> io_answers (k_io k') = rest -> Q tt k') ->
  wp (keyboard_irqs (length ds)) Q k.
Proof.
  intros Hl. revert k. induction ds as [|d ds IH]; intros k Hds Ha HQ; cbn [keyboard_irqs length].
  - apply wp_ret, HQ; [done | by rewrite app_nil_r | done].
  - apply Forall_cons in Hds as [Hd Hds]. unfold keyboard_answers in Ha. cbn [mbind list_bind] in Ha. rewrite <- !(assoc_L (++)) in Ha. cbn [app] in Ha.
    wp_step. destruct (keyboard_irq_scans _ _ _ _ Ha Hl) as (k' & Hrun & Hsh & Hpr & Hio). eapply wp_done; [exact Hrun|]. rewrite u8_small in Hsh, Hpr by lia.
    apply IH; [exact Hds | exact Hio |]. intros k'' Hsh' Hpr' Hio'. apply HQ; [| |exact Hio'].
    + rewrite Hsh', Hsh. cbn. destruct (scan (kb_shift k) d) as [sh c]. cbn. by destruct (scans sh ds).
    + rewrite Hpr', Hpr, Hsh. cbn [scans]. destruct (scan (kb_shift k) d) as [sh c]. cbn [fst snd]. destruct (scans sh ds). cbn [snd]. symmetry. apply (assoc_L (++)).
Qed.

