(* ===== verification/Vga.v ===== *)
(** * drivers/vga.c: the text console

    The driver on the video memory, and its refinement of an abstract screen of
    25 lines of 80 cells with a cursor. *)

From S2P Require Export Io CString.

(** ** include/drivers/vga.h *)

Definition NUM_COLS : Z := 80.
Definition NUM_ROWS : Z := 25.

Definition VGA_COLOR_BLACK : Z := 0.
Definition VGA_COLOR_WHITE : Z := 15.

(** ** The code *)

(** The globals of vga.c with the memory and the ports. *)
Record vga := Vga {
  v_io : io;
  v_mem : memory;
  color : Z;
  cur_x : Z;
  cur_y : Z;
}.

#[export] Instance HasIo_vga : HasIo vga := {|
  get_io := v_io;
  set_io i v := Vga i (v_mem v) (color v) (cur_x v) (cur_y v);
|}.
#[export] Instance IoLaws_vga : IoLaws vga.
Proof. split; [done | done | by intros []]. Qed.

#[export] Instance HasMem_vga : HasMem vga := {|
  mem := v_mem;
  set_mem m v := Vga (v_io v) m (color v) (cur_x v) (cur_y v);
|}.
#[export] Instance MemLaws_vga : MemLaws vga.
Proof. split; [done | by intros [] | done]. Qed.

Definition set_color (c : Z) (v : vga) : vga := Vga (v_io v) (v_mem v) c (cur_x v) (cur_y v).
Definition set_cur_x (x : Z) (v : vga) : vga := Vga (v_io v) (v_mem v) (color v) x (cur_y v).
Definition set_cur_y (y : Z) (v : vga) : vga := Vga (v_io v) (v_mem v) (color v) (cur_x v) y.

Definition screen_buffer : Z := 0xc00b8000.

(** [screen_buffer + i] *)
Definition cell_addr (i : Z) : Z := screen_buffer + 2 * i.

Definition vga_clear : M vga unit :=
  for_loop (Z.to_nat (NUM_COLS * NUM_ROWS)) 0 (fun i => store16 (cell_addr i) 3872).

Definition scroll : M vga unit :=
  y ← gets cur_y;
  if NUM_ROWS <=? y then
    let temp := u16 (y - NUM_ROWS + 1) in
    memcpy screen_buffer (cell_addr (temp * NUM_COLS)) (u32 ((NUM_ROWS - temp) * NUM_COLS * 2));;
    for_loop (Z.to_nat NUM_COLS) 0 (fun i => store16 (cell_addr (NUM_COLS * (NUM_ROWS - 1) + i)) 3872);;
    modify (set_cur_y (NUM_ROWS - 1))
  else mret tt.

Definition move_cur : M vga unit :=
  y ← gets cur_y;
  x ← gets cur_x;
  let temp := u16 (y * NUM_COLS + x) in
  outb 0x3D4 14;;
  outb 0x3D5 (Z.shiftr temp 8);;
  outb 0x3D4 15;;
  outb 0x3D5 temp.

(** The part of [vga_putc] that looks at the character; [c] is the value of the
    [char]. *)
Definition vga_put (c : Z) : M vga unit :=
  x ← gets cur_x;
  y ← gets cur_y;
  if c =? 0x08 then
    if negb (x =? 0) then
      modify (set_cur_x (u8 (x - 1)));;
      x ← gets cur_x;
      store16 (cell_addr (y * NUM_COLS + x)) 3872
    else mret tt
  else if c =? 0x09 then modify (set_cur_x (u8 (Z.ldiff (x + 8) (8 - 1))))
  else if c =? 13 then modify (set_cur_x 0)
  else if c =? 10 then modify (set_cur_x 0);; modify (set_cur_y (u8 (y + 1)))
  else if 32 <=? c then
    col ← gets color;
    store16 (cell_addr (y * NUM_COLS + x)) (Z.lor (u16 c) col);;
    modify (set_cur_x (u8 (x + 1)))
  else mret tt.

Definition vga_wrap : M vga unit :=
  x ← gets cur_x;
  if NUM_COLS <=? x then
    modify (set_cur_x 0);; modify (fun s => set_cur_y (u8 (cur_y s + 1)) s)
  else mret tt.

Definition vga_putc (c : Z) : M vga unit :=
  vga_put c;;
  vga_wrap;;
  scroll;;
  move_cur.

Fixpoint vga_puts_loop (fuel : nat) (str i : Z) : M vga unit :=
  match fuel with
  | O => out_of_fuel
  | S fuel' =>
      c ← load8 (str + i);
      if negb (c =? 0) then
        c ← load8 (str + i); vga_putc (s8 c);; vga_puts_loop fuel' str (i + 1)
      else mret tt
  end.

Definition vga_puts (fuel : nat) (str : Z) : M vga unit := vga_puts_loop fuel str 0.

Definition vga_set_color (fg bg : Z) : M vga unit :=
  modify (set_color (u16 (Z.shiftl (Z.lor (Z.shiftl bg 4) fg) 8))).

(** ** The abstract screen *)

(** The cells by index, and the cursor. *)
Record screen := Screen { cell : Z -> Z; col : Z; row : Z }.

Definition set_cell (i v : Z) (f : Z -> Z) : Z -> Z := fun j => if j =? i then v else f j.

Definition BLANK : Z := 3872.

(** The effect of a character apart from wrapping and scrolling. *)
Definition put (attr c : Z) (s : screen) : screen :=
  let pos := row s * 80 + col s in
  if c =? 8 then
    if col s =? 0 then s else Screen (set_cell (pos - 1) BLANK (cell s)) (col s - 1) (row s)
  else if c =? 9 then Screen (cell s) (8 * (col s / 8 + 1)) (row s)
  else if c =? 13 then Screen (cell s) 0 (row s)
  else if c =? 10 then Screen (cell s) 0 (row s + 1)
  else if 32 <=? c then Screen (set_cell pos (Z.lor c attr) (cell s)) (col s + 1) (row s)
  else s.

(** A full line continues on the next one, and behind the last line the screen
    moves up. *)
Definition wrap (s : screen) : screen := if col s <? 80 then s else Screen (cell s) 0 (row s + 1).
Definition scrolled (s : screen) : screen :=
  if row s <? 25 then s
  else Screen (fun i => if i <? 1920 then cell s (i + 80) else BLANK) (col s) 24.
Definition putc (attr c : Z) (s : screen) : screen := scrolled (wrap (put attr c s)).

(** What the video memory and the cursor variables show. *)
Definition shown (v : vga) : screen := Screen (fun i => ld16 (mem v) (cell_addr i)) (cur_x v) (cur_y v).

(** Equal on the cells of the screen. *)
Definition same_screen (s s' : screen) : Prop :=
  (forall i, 0 <= i < 2000 -> cell s i = cell s' i) /\ col s = col s' /\ row s = row s'.

Record vga_wf (v : vga) : Prop := {
  vw_x : 0 <= cur_x v < 80;
  vw_y : 0 <= cur_y v < 25;
  vw_color : 0 <= color v < 65536;
}.

Definition in_video (a : Z) : Prop := screen_buffer <= a < screen_buffer + 4000.

(** [v'] shows [s] and differs from [v] only in the video memory and the cursor. *)
Record shows (v v' : vga) (s : screen) : Prop := {
  sh_screen : same_screen (shown v') s;
  sh_color : color v' = color v;
  sh_io : v_io v' = v_io v;
  sh_rest a : ~ in_video a -> ld8 (mem v') a = ld8 (mem v) a;
}.

#[export] Instance same_screen_equivalence : Equivalence same_screen.
Proof.
  split.
  - by intros s.
  - intros s s' (H1 & H2 & H3). split_and!; [intros i Hi; by rewrite H1 | done | done].
  - intros s1 s2 s3 (H1 & H2 & H3) (H1' & H2' & H3').
    split_and!; [intros i Hi; by rewrite H1, H1' | by rewrite H2 | by rewrite H3].
Qed.

#[export] Instance wrap_proper : Proper (same_screen ==> same_screen) wrap.
Proof. intros s s' (H1 & H2 & H3). unfold wrap. rewrite H2, H3. by destruct (col s' <? 80). Qed.

#[export] Instance scrolled_proper : Proper (same_screen ==> same_screen) scrolled.
Proof.
  intros s s' (H1 & H2 & H3). unfold scrolled. rewrite H2, H3. destruct (row s' <? 25); [done|].
  split_and!; [|done|done]. intros i Hi. cbn [cell]. destruct (Z.ltb_spec i 1920); [apply H1; lia | done].
Qed.

#[export] Instance put_proper attr c : Proper (same_screen ==> same_screen) (put attr c).
Proof.
  intros s s' Hs. pose proof Hs as (H1 & H2 & H3). unfold put. rewrite H2, H3.
  assert (Hc : forall i v j, 0 <= j < 2000 -> set_cell i v (cell s) j = set_cell i v (cell s') j).
  { intros i v j Hj. unfold set_cell. destruct (j =? i); [done | by apply H1]. }
  destruct (c =? 8); [destruct (col s' =? 0)|destruct (c =? 9); [|destruct (c =? 13); [|destruct (c =? 10); [|destruct (32 <=? c)]]]];
    first [exact Hs | split_and!; [intros i Hi; cbn [cell]; auto | done | done]].
Qed.

#[export] Instance putc_proper attr c : Proper (same_screen ==> same_screen) (putc attr c).
Proof. intros s s' Hs. unfold putc. by rewrite Hs. Qed.

Lemma ld16_st16 m i j v :
  ld16 (st16 m (cell_addr i) v) (cell_addr j) = if j =? i then u16 v else ld16 m (cell_addr j).
Proof.
  unfold cell_addr. destruct (Z.eqb_spec j i) as [->|Hne]; [apply ld16_st16_eq|].
  apply ld16_st16_ne. unfold disjoint. lia.
Qed.

Lemma ld8_video m i a v : 0 <= i < 2000 -> ~ in_video a -> ld8 (st16 m (cell_addr i) v) a = ld8 m a.
Proof. unfold in_video, cell_addr. intros Hi Ha. apply ld8_st16_ne. lia. Qed.

Lemma shows_refl v : shows v v (shown v).
Proof. by split. Qed.

Lemma shows_trans v v1 v2 s s2 (f : screen -> screen) :
  Proper (same_screen ==> same_screen) f ->
  shows v v1 s -> shows v1 v2 s2 -> same_screen s2 (f (shown v1)) -> shows v v2 (f s).
Proof.
  intros Hf [H1 H2 H3 H4] [H1' H2' H3' H4'] Hs. split.
  - by rewrite H1', Hs, H1.
  - by rewrite H2'.
  - by rewrite H3'.
  - intros a Ha. by rewrite H4', H4.
Qed.

(** A store to one cell. *)
Lemma shows_store v i x :
  0 <= i < 2000 ->
  shows v (set_mem (st16 (mem v) (cell_addr i) (u16 x)) v)
    (Screen (set_cell i (u16 x) (cell (shown v))) (cur_x v) (cur_y v)).
Proof.
  intros Hi. split; [|done|done|].
  - split_and!; [|done|done]. intros j Hj. cbn [cell shown]. rewrite mem_set_mem, ld16_st16, u16_idemp. done.
  - intros a Ha. rewrite mem_set_mem. by apply ld8_video.
Qed.

(** The loop that blanks the last line. *)
Lemma wp_blank_line v (Q : unit -> vga -> Prop) :
  (forall v', shows v v' (Screen (fun i => if i <? 1920 then cell (shown v) i else BLANK) (cur_x v) (cur_y v)) -> Q tt v') ->
  wp (for_loop (Z.to_nat NUM_COLS) 0 (fun i => store16 (cell_addr (NUM_COLS * (NUM_ROWS - 1) + i)) 3872)) Q v.
Proof.
  intros HQ.
  apply (wp_for_loop (fun k v' => shows v v'
    (Screen (fun i => if (i <? 1920) || (1920 + k <=? i) then cell (shown v) i else BLANK) (cur_x v) (cur_y v)))).
  - split; [|done..]. split_and!; [|done|done]. intros i Hi. cbn [cell].
    by replace ((i <? 1920) || (1920 + 0 <=? i)) with true by lia.
  - intros k v' Hk Hs. simple apply wp_store16. change (NUM_COLS * (NUM_ROWS - 1)) with 1920.
    change (Z.to_nat NUM_COLS) with 80%nat in Hk.
    assert (Hst := shows_store v' (1920 + k) 3872 ltac:(lia)). destruct Hs as [(H1 & H2 & H3) H4 H5 H6], Hst as [(G1 & G2 & G3) G4 G5 G6].
    cbn [cell col row shown] in *. split.
    + split_and!; [|exact H2|exact H3]. intros i Hi. cbn [cell shown] in *. rewrite G1 by done. unfold set_cell.
      destruct (Z.eqb_spec i (1920 + k)) as [->|Hne].
      * by replace ((1920 + k <? 1920) || (1920 + (k + 1) <=? 1920 + k)) with false by lia.
      * rewrite H1 by done. by replace ((i <? 1920) || (1920 + (k + 1) <=? i)) with ((i <? 1920) || (1920 + k <=? i)) by lia.
    + by rewrite G4.
    + by rewrite G5.
    + intros a Ha. by rewrite G6, H6.
  - intros v' [(H1 & H2 & H3) H4 H5 H6]. apply HQ. split; [|done..]. split_and!; [|done|done].
    intros i Hi. rewrite H1 by done. cbn [cell]. change (0 + Z.of_nat (Z.to_nat NUM_COLS)) with 80.
    by replace ((i <? 1920) || (1920 + 80 <=? i)) with (i <? 1920) by lia.
Qed.

Lemma wp_scroll v (Q : unit -> vga -> Prop) :
  0 <= cur_y v <= 25 ->
  (forall v', shows v v' (scrolled (shown v)) -> Q tt v') -> wp scroll Q v.
Proof.
  intros Hy HQ. unfold scroll, scrolled in *. cbn [row shown] in HQ. wp_step. wp_step. unfold NUM_ROWS at 1.
  destruct (Z.leb_spec 25 (cur_y v)) as [H25|H25].
  - assert (Hy25 : cur_y v = 25) by lia. rewrite Hy25 in *. change (u16 (25 - NUM_ROWS + 1)) with 1.
    change (u32 ((NUM_ROWS - 1) * NUM_COLS * 2)) with 3840. change (cell_addr (1 * NUM_COLS)) with (screen_buffer + 160).
    cbn [Z.ltb Z.compare Pos.compare Pos.compare_cont] in HQ.
    wp_step. simple eapply wp_memcpy; [lia | left; lia |]. intros m1 [Hin Hout]. wp_step.
    apply wp_blank_line. intros v2 [(H1 & H2 & H3) H4 H5 H6]. rewrite mem_set_mem in *.
    simple apply wp_modify. apply HQ. cbn [shown cell col row] in *. split.
    + split_and!; [|exact H2|done]. intros i Hi. cbn [cell shown]. cbn [v_mem set_cur_y mem HasMem_vga] in *.
      rewrite H1 by done. destruct (Z.ltb_spec i 1920) as [Hlt|]; [|done].
      unfold ld16, cell_addr. rewrite <- !Z.add_assoc, !Hin by lia.
      f_equal; [|f_equal]; f_equal; lia.
    + exact H4.
    + exact H5.
    + intros a Ha. unfold in_video in Ha. cbn [mem HasMem_vga v_mem set_cur_y] in *. rewrite H6 by done. apply Hout. lia.
  - wp_step. apply HQ. rewrite (proj2 (Z.ltb_lt _ _)) by lia. apply shows_refl.
Qed.

Lemma lor_u16 a b : 0 <= a < 65536 -> 0 <= b < 65536 -> u16 (Z.lor a b) = Z.lor a b.
Proof.
  intros Ha Hb. change 65536 with (2 ^ 16) in *. apply u16_small. split; [apply Z.lor_nonneg; lia|].
  change 65536 with (2 ^ 16). apply lt_pow2_testbit; [lia | apply Z.lor_nonneg; lia |].
  intros i Hi. rewrite Z.lor_spec. by rewrite !(testbit_high _ 16).
Qed.

Lemma tab_stop x : 0 <= x < 80 -> u8 (Z.ldiff (x + 8) (8 - 1)) = 8 * (x / 8 + 1).
Proof.
  intros Hx. change (8 - 1) with (Z.ones 3). rewrite Z.ldiff_ones_r, Z.shiftl_mul_pow2, Z.shiftr_div_pow2 by lia.
  change (2 ^ 3) with 8. rewrite u8_small by (Z.div_mod_to_equations; lia). Z.div_mod_to_equations. lia.
Qed.

(** A state that differs from one that shows [s] in the cursor only. *)
Lemma shows_cursor v v1 cells x y x' y' :
  shows v v1 (Screen cells x y) -> shows v (set_cur_x x' (set_cur_y y' v1)) (Screen cells x' y').
Proof. intros [(H1 & H2 & H3) H4 H5 H6]. split; [|done..]. by split_and!. Qed.

Lemma wp_vga_put v c (Q : unit -> vga -> Prop) :
  vga_wf v -> -128 <= c < 128 ->
  (forall v', shows v v' (put (color v) c (shown v)) -> 0 <= cur_x v' <= 80 -> 0 <= cur_y v' <= 25 ->
     (cur_x v' = 80 -> cur_y v' <= 24) -> Q tt v') ->
  wp (vga_put c) Q v.
Proof.
  intros [Hx Hy Hc] Hr HQ. unfold vga_put, put in *. cbn [col row cell shown] in HQ. do 4 wp_step.
  change NUM_COLS with 80. pose proof (shows_refl v) as Hrefl. unfold shown in Hrefl.
  destruct (Z.eqb_spec c 8) as [->|H8]; [destruct (Z.eqb_spec (cur_x v) 0) as [H0|H0]|
    destruct (Z.eqb_spec c 9) as [->|H9]; [|destruct (Z.eqb_spec c 13) as [->|H13]; [|
    destruct (Z.eqb_spec c 10) as [->|H10]; [|destruct (Z.leb_spec 32 c)]]]]; cbn [negb].
  - wp_step. apply HQ; [done | lia..].
  - repeat wp_step. cbn [cur_x set_cur_x]. rewrite u8_small by lia. simple apply wp_store16.
    apply HQ; [|cbn; lia..]. replace (cur_y v * 80 + cur_x v - 1) with (cur_y v * 80 + (cur_x v - 1)) by lia.
    assert (Hst := shows_store v (cur_y v * 80 + (cur_x v - 1)) 3872 ltac:(lia)).
    apply (shows_cursor _ _ _ _ _ (cur_x v - 1) (cur_y v)) in Hst. exact Hst.
  - simple apply wp_modify. rewrite tab_stop by done.
    apply HQ; [|cbn; Z.div_mod_to_equations; lia..]. apply (shows_cursor _ _ _ _ _ (8 * (cur_x v / 8 + 1)) (cur_y v)) in Hrefl.
    exact Hrefl.
  - simple apply wp_modify. apply HQ; [|cbn; lia..]. exact (shows_cursor _ _ _ _ _ 0 (cur_y v) Hrefl).
  - repeat wp_step. rewrite u8_small by lia.
    apply HQ; [|cbn; lia..]. exact (shows_cursor _ _ _ _ _ 0 (cur_y v + 1) Hrefl).
  - repeat wp_step. simple apply wp_store16. wp_step. cbn [cur_x set_mem HasMem_vga].
    rewrite (u16_small c), (u8_small (cur_x v + 1)) by lia.
    apply HQ; [|cbn; lia..].
    rewrite <- (lor_u16 c (color v)) at 2 by lia.
    assert (Hst := shows_store v (cur_y v * 80 + cur_x v) (Z.lor c (color v)) ltac:(lia)).
    exact (shows_cursor _ _ _ _ _ (cur_x v + 1) (cur_y v) Hst).
  - wp_step. apply HQ; [done | lia..].
Qed.

Lemma wp_vga_wrap v (Q : unit -> vga -> Prop) :
  0 <= cur_x v <= 80 -> 0 <= cur_y v <= 25 -> (cur_x v = 80 -> cur_y v <= 24) ->
  (forall v', shows v v' (wrap (shown v)) -> 0 <= cur_x v' < 80 -> 0 <= cur_y v' <= 25 -> Q tt v') ->
  wp vga_wrap Q v.
Proof.
  intros Hx Hy Hxy HQ. unfold vga_wrap, wrap in *. cbn [col row cell shown] in HQ. do 2 wp_step.
  change NUM_COLS with 80. pose proof (shows_refl v) as Hrefl. unfold shown in Hrefl.
  destruct (Z.leb_spec 80 (cur_x v)) as [H|H].
  - repeat wp_step. rewrite (proj2 (Z.ltb_ge _ _)) in HQ by lia. cbn [cur_y set_cur_x]. rewrite u8_small by lia.
    apply HQ; [|cbn; lia..]. exact (shows_cursor _ _ _ _ _ 0 (cur_y v + 1) Hrefl).
  - wp_step. rewrite (proj2 (Z.ltb_lt _ _)) in HQ by lia. apply HQ; [done | lia..].
Qed.

Lemma scrolled_cursor s : 0 <= row s <= 25 -> col (scrolled s) = col s /\ 0 <= row (scrolled s) < 25.
Proof. intros Hr. unfold scrolled. destruct (Z.ltb_spec (row s) 25); cbn [col row]; lia. Qed.

(** What [move_cur] sends for a cursor position. *)
Definition cursor_program (s : screen) : list io_event :=
  let pos := row s * 80 + col s in
  [Out 0x3d4 14; Out 0x3d5 (pos / 256); Out 0x3d4 15; Out 0x3d5 (pos mod 256)].

Lemma wp_move_cur v (Q : unit -> vga -> Prop) :
  vga_wf v ->
  Q tt (set_io (Io (io_answers (v_io v)) (io_trace (v_io v) ++ cursor_program (shown v))) v) -> wp move_cur Q v.
Proof.
  intros [Hx Hy _] HQ. unfold move_cur. do 4 wp_step. change NUM_COLS with 80. rewrite (u16_small (cur_y v * 80 + cur_x v)) by lia.
  do 3 (wp_step; simple apply wp_outb). simple apply wp_outb. cbn [get_io set_io HasIo_vga v_io io_answers io_trace] in *.
  rewrite <- !app_assoc. rewrite Z.shiftr_div_pow2 by lia. change (2 ^ 8) with 256.
  rewrite (u8_small ((cur_y v * 80 + cur_x v) / 256)) by (Z.div_mod_to_equations; lia). exact HQ.
Qed.

(** One character: [v'] shows the abstract screen after it. *)
Record put_result (c : Z) (v v' : vga) : Prop := {
  pr_wf : vga_wf v';
  pr_screen : same_screen (shown v') (putc (color v) c (shown v));
  pr_color : color v' = color v;
  pr_rest a : ~ in_video a -> ld8 (mem v') a = ld8 (mem v) a;
  pr_ports : v_io v' = Io (io_answers (v_io v)) (io_trace (v_io v) ++ cursor_program (putc (color v) c (shown v)));
}.

Lemma wp_vga_putc v c (Q : unit -> vga -> Prop) :
  vga_wf v -> -128 <= c < 128 -> (forall v', put_result c v v' -> Q tt v') -> wp (vga_putc c) Q v.
Proof.
  intros Hwf Hr HQ. unfold vga_putc. wp_step. apply (wp_vga_put v c); [done | done |].
  intros v1 H1 Hx1 Hy1 Hxy1. wp_step. apply wp_vga_wrap; [done..|]. intros v2 H2 Hx2 Hy2.
  wp_step. apply wp_scroll; [done|]. intros v3 H3.
  assert (H13 : shows v v3 (putc (color v) c (shown v))).
  { unfold putc. eapply (shows_trans v v2 v3 _ _ scrolled); [apply _ | | exact H3 | done].
    eapply (shows_trans v v1 v2 _ _ wrap); [apply _ | exact H1 | exact H2 | done]. }
  pose proof (scrolled_cursor (shown v2) Hy2) as [Hc Hw]. destruct H3 as [(_ & Hc3 & Hw3) _ _ _].
  destruct H13 as [Hscr Hcol Hio Hrest]. cbn [col row shown] in *.
  assert (Hwf3 : vga_wf v3) by (split; [lia | lia | rewrite Hcol; by destruct Hwf]).
  simple apply wp_move_cur; [done|]. apply HQ. split; [by destruct Hwf3 | done | done | done |].
  cbn [v_io set_io HasIo_vga]. rewrite Hio. do 2 f_equal. destruct Hscr as (_ & Ec & Er). unfold cursor_program.
  by rewrite Ec, Er.
Qed.

(** The screen after a string, and the cursor positions programmed on the way. *)
Definition puts (attr : Z) (cs : list Z) (s : screen) : screen := foldl (fun s c => putc attr c s) s cs.

Fixpoint cursor_trace (attr : Z) (cs : list Z) (s : screen) : list io_event :=
  match cs with
  | [] => []
  | c :: cs' => cursor_program (putc attr c s) ++ cursor_trace attr cs' (putc attr c s)
  end.

#[export] Instance puts_proper attr cs : Proper (same_screen ==> same_screen) (puts attr cs).
Proof. induction cs as [|c cs IH]; intros s s' Hs; [done|]. apply IH. by rewrite Hs. Qed.

Lemma cursor_trace_same attr cs s s' : same_screen s s' -> cursor_trace attr cs s = cursor_trace attr cs s'.
Proof.
  revert s s'. induction cs as [|c cs IH]; intros s s' Hs; [done|]. cbn [cursor_trace].
  assert (Hp : same_screen (putc attr c s) (putc attr c s')) by (by rewrite Hs).
  rewrite (IH _ _ Hp). f_equal. destruct Hp as (_ & Hc & Hr). unfold cursor_program. by rewrite Hc, Hr.
Qed.

(** A string that lies outside the video memory. *)
Definition off_screen (p n : Z) : Prop := disjoint p n screen_buffer 4000.

Lemma wp_vga_puts_loop fuel str i bs v (Q : unit -> vga -> Prop) :
  vga_wf v -> cstr (mem v) (str + i) bs -> off_screen (str + i) (Z.of_nat (length bs) + 1) -> (length bs < fuel)%nat ->
  (forall v', vga_wf v' -> same_screen (shown v') (puts (color v) (s8 <$> bs) (shown v)) -> color v' = color v ->
     (forall a, ~ in_video a -> ld8 (mem v') a = ld8 (mem v) a) ->
     v_io v' = Io (io_answers (v_io v)) (io_trace (v_io v) ++ cursor_trace (color v) (s8 <$> bs) (shown v)) -> Q tt v') ->
  wp (vga_puts_loop fuel str i) Q v.
Proof.
  revert i bs v. induction fuel as [|fuel IH]; intros i bs v Hwf Hs Hd Hf HQ; [lia|].
  cbn [vga_puts_loop]. wp_step. apply wp_load8. destruct bs as [|b bs].
  - cbn [cstr] in Hs. rewrite Hs. cbn [Z.eqb negb]. wp_step. apply HQ; [done | done | done | done |].
    cbn [cursor_trace fmap list_fmap]. rewrite app_nil_r. by destruct (v_io v).
  - destruct Hs as (Hb & Hb0 & Hs). rewrite Hb, (proj2 (Z.eqb_neq b 0)) by done. cbn [negb length] in *.
    wp_step. apply wp_load8. rewrite Hb. wp_step. apply wp_vga_putc; [done | apply s8_range |].
    intros v1 [Hwf1 Hscr1 Hcol1 Hrest1 Hio1]. unfold off_screen, disjoint in Hd. apply (IH _ bs).
    + done.
    + rewrite Z.add_assoc. eapply cstr_same; [exact Hs|]. intros a Ha. apply Hrest1. unfold in_video. lia.
    + unfold off_screen, disjoint. lia.
    + lia.
    + rewrite Hcol1. intros v' Hwf' Hscr Hcol Hrest Hio. apply HQ.
      * done.
      * rewrite Hscr. unfold puts. cbn [fmap list_fmap foldl]. change (foldl _ ?s ?l) with (puts (color v) l s).
        by rewrite Hscr1.
      * done.
      * intros a Ha. by rewrite Hrest, Hrest1.
      * rewrite Hio, Hio1. cbn [io_answers io_trace cursor_trace fmap list_fmap]. rewrite <- app_assoc. do 3 f_equal.
        by apply cursor_trace_same.
Qed.

(** ** Properties *)

(** C12: on a well-formed console [vga_puts] of a string outside the video memory
    refines the abstract screen: the video memory and the cursor show the screen
    after the characters, taken as signed; the console stays well formed, nothing
    outside the video memory changes, and the hardware cursor is programmed with
    the position behind every character. *)
Theorem vga_puts_refines fuel str bs v :
  vga_wf v -> cstr (mem v) str bs -> off_screen str (Z.of_nat (length bs) + 1) -> (length bs < fuel)%nat ->
  exists v', vga_puts fuel str v = Done (tt, v') /\ vga_wf v' /\
    same_screen (shown v') (puts (color v) (s8 <$> bs) (shown v)) /\
    (forall a, ~ in_video a -> ld8 (mem v') a = ld8 (mem v) a) /\
    v_io v' = Io (io_answers (v_io v)) (io_trace (v_io v) ++ cursor_trace (color v) (s8 <$> bs) (shown v)).
Proof.
  intros Hwf Hs Hd Hf. unfold vga_puts. apply wp_unit. apply (wp_vga_puts_loop fuel str 0 bs).
  - done.
  - by rewrite Z.add_0_r.
  - by rewrite Z.add_0_r.
  - done.
  - intros v' H1 H2 H3 H4 H5. by split_and!.
Qed.

(** [vga_clear] blanks the screen and leaves the cursor where it is. *)
Lemma vga_clear_blanks v :
  exists v', vga_clear v = Done (tt, v') /\ same_screen (shown v') (Screen (fun _ => BLANK) (cur_x v) (cur_y v)) /\
    (forall a, ~ in_video a -> ld8 (mem v') a = ld8 (mem v) a).
Proof.
  apply wp_unit. unfold vga_clear.
  apply (wp_for_loop (fun k v' => shows v v' (Screen (fun i => if i <? k then BLANK else cell (shown v) i) (cur_x v) (cur_y v)))).
  - split; [|done..]. split_and!; [|done|done]. intros i Hi. cbn [cell]. by rewrite (proj2 (Z.ltb_ge _ _)) by lia.
  - intros k v' Hk [(H1 & H2 & H3) H4 H5 H6]. simple apply wp_store16.
    change (0 + Z.of_nat (Z.to_nat (NUM_COLS * NUM_ROWS))) with 2000 in Hk.
    destruct (shows_store v' k 3872 ltac:(lia)) as [(G1 & G2 & G3) G4 G5 G6]. cbn [cell col row shown] in *. split.
    + split_and!; [|exact H2|exact H3]. intros i Hi. cbn [cell shown]. rewrite G1 by done. unfold set_cell.
      destruct (Z.eqb_spec i k) as [->|Hne]; [by rewrite (proj2 (Z.ltb_lt _ _)) by lia|].
      rewrite H1 by done. by replace (i <? k + 1) with (i <? k) by lia.
    + by rewrite G4.
    + by rewrite G5.
    + intros a Ha. by rewrite G6, H6.
  - intros v' [(H1 & H2 & H3) H4 H5 H6]. split; [|done]. split_and!; [|done|done]. intros i Hi. rewrite H1 by done.
    cbn [cell]. change (0 + Z.of_nat (Z.to_nat (NUM_COLS * NUM_ROWS))) with 2000. by rewrite (proj2 (Z.ltb_lt _ _)) by lia.
Qed.
