(* ===== verification/Terminal.v ===== *)
(** * Where formatted output goes

    utils/display.c writes every character to the serial line and, in the
    configuration TEXTMODE, to the text console before.  The class [Terminal] is
    what its functions use of the two, with what they rely on; the serial line
    alone and the serial line with the console are its instances. *)

From S2P Require Export Serial Vga.

(** The characters of a literal. *)
Fixpoint chars (str : string) : list Z :=
  match str with
  | EmptyString => []
  | String a str' => Z.of_N (Ascii.N_of_ascii a) :: chars str'
  end.

(** [enum status], and the tags of a message on the serial line. *)
Inductive log_status := LOG_OK | LOG_ERR | LOG_WARN.

Definition tag_of (st : log_status) : list Z :=
  match st with
  | LOG_OK => 27 :: chars "[92mOK" ++ 27 :: chars "[0m"
  | LOG_ERR => 27 :: chars "[91mERROR" ++ 27 :: chars "[0m"
  | LOG_WARN => 27 :: chars "[93mWARNING" ++ 27 :: chars "[0m"
  end.

(** What the line carries for a tag. *)
Definition tag_line (st : log_status) : list Z := (u8 <$> chars "[ ") ++ (u8 <$> tag_of st) ++ (u8 <$> chars " ] ").

(** ** The interface *)

(** A character, a string in memory, and the tag of a message; the first argument
    bounds the polls and the length. *)
Class Terminal (S : Type) := {
  term_putc : nat -> Z -> M S unit;
  term_puts : nat -> Z -> M S unit;
  term_tag : nat -> log_status -> M S unit;
}.

(** [term_area] is the memory the terminal writes, [term_ready n] that it takes [n]
    bytes, [term_shows out s s'] that [s'] is [s] after the bytes [out], and
    [term_tagged] the same for a tag. *)
Class TerminalLaws (S : Type) `{HasMem S} `{!Terminal S} := {
  term_area : Z -> Prop;
  term_ready : nat -> S -> Prop;
  term_shows : list Z -> S -> S -> Prop;
  term_tagged : log_status -> S -> S -> Prop;
  term_shows_nil s : term_shows [] s s;
  term_shows_app out1 out2 s s1 s2 : term_shows out1 s s1 -> term_shows out2 s1 s2 -> term_shows (out1 ++ out2) s s2;
  term_shows_mem out m s s' : (forall a, term_area a -> ld8 m a = ld8 (mem s) a) ->
    term_shows out (set_mem m s) s' -> term_shows out s s';
  term_ready_mem n m s : term_ready n s -> term_ready n (set_mem m s);
  term_ready_le n n' s : (n <= n')%nat -> term_ready n' s -> term_ready n s;
  term_ready_after out n s s' : term_ready (length out + n) s -> term_shows out s s' -> term_ready n s';
  term_ready_tagged st n s s' : term_ready (length (tag_line st) + n) s -> term_tagged st s s' -> term_ready n s';
  wp_term_putc fuel c s (Q : unit -> S -> Prop) :
    (0 < fuel)%nat -> term_ready 1 s ->
    (forall s', term_shows [u8 c] s s' -> (forall a, ~ term_area a -> ld8 (mem s') a = ld8 (mem s) a) -> Q tt s') ->
    wp (term_putc fuel c) Q s;
  wp_term_puts fuel p str s (Q : unit -> S -> Prop) :
    cstr (mem s) p str -> (forall a, p <= a <= p + Z.of_nat (length str) -> ~ term_area a) -> (length str < fuel)%nat ->
    term_ready (length str) s ->
    (forall s', term_shows str s s' -> (forall a, ~ term_area a -> ld8 (mem s') a = ld8 (mem s) a) -> Q tt s') ->
    wp (term_puts fuel p) Q s;
  wp_term_tag fuel st s (Q : unit -> S -> Prop) :
    (0 < fuel)%nat -> term_ready (length (tag_line st)) s ->
    (forall s', term_tagged st s s' -> (forall a, ~ term_area a -> ld8 (mem s') a = ld8 (mem s) a) -> Q tt s') ->
    wp (term_tag fuel st) Q s;
}.

(** ** The serial line *)

Definition serial_tag (fuel : nat) (st : log_status) : M serial unit :=
  serial_puts_literal fuel (chars "[ ");;
  serial_puts_literal fuel (tag_of st);;
  serial_puts_literal fuel (chars " ] ").

#[export] Instance Terminal_serial : Terminal serial := {|
  term_putc := serial_putc;
  term_puts := serial_puts;
  term_tag := serial_tag;
|}.

(** The status register is ready for the next [n] bytes. *)
Definition line_ready (n : nat) (i : io) : Prop :=
  (n <= length (io_answers i))%nat /\ Forall (fun v => Z.land (u8 v) 0x20 <> 0) (take n (io_answers i)).

(** The bytes [out] were sent, and as many statuses read. *)
Record line_sent (out : list Z) (s s' : serial) : Prop := {
  ls_sent : sent (io_trace (s_io s')) = sent (io_trace (s_io s)) ++ out;
  ls_answers : io_answers (s_io s') = drop (length out) (io_answers (s_io s));
  ls_queue : queue_list s' = queue_list s;
}.

Lemma line_ready_le n n' i : (n <= n')%nat -> line_ready n' i -> line_ready n i.
Proof.
  intros Hn [Hl Hr]. split; [lia|]. replace n with (n `min` n')%nat by lia. rewrite <- take_take. by apply Forall_take.
Qed.

Lemma line_ready_drop k n i j :
  line_ready (k + n) i -> io_answers j = drop k (io_answers i) -> line_ready n j.
Proof.
  intros [Hl Hr] Hj. unfold line_ready. rewrite Hj. split; [rewrite length_drop; lia|].
  rewrite take_drop_commute. apply Forall_drop. by rewrite Nat.add_comm in Hr |- *.
Qed.

Lemma line_sent_app out1 out2 s s1 s2 : line_sent out1 s s1 -> line_sent out2 s1 s2 -> line_sent (out1 ++ out2) s s2.
Proof.
  intros [H1 H2 H3] [H1' H2' H3']. split.
  - by rewrite H1', H1, (assoc_L (++)).
  - rewrite H2', H2, drop_drop, length_app. done.
  - by rewrite H3'.
Qed.

(** From the statements of Serial.v. *)
Lemma wp_transmits c out s (Q : unit -> serial -> Prop) :
  transmits (fun m => m = mem s) c out -> line_ready (length out) (s_io s) ->
  (forall s', line_sent out s s' -> mem s' = mem s -> Q tt s') -> wp c Q s.
Proof.
  intros Hc [Hl Hr] HQ.
  eapply wp_mono; [apply (Hc (take (length out) (io_answers (s_io s))) (drop (length out) (io_answers (s_io s))) s);
    [done | by rewrite take_drop | rewrite length_take; lia | exact Hr]|].
  intros [] s' (H1 & H2 & H3 & H4). by apply HQ.
Qed.

Lemma transmits_tag P fuel st : (0 < fuel)%nat -> transmits P (serial_tag fuel st) (tag_line st).
Proof. intros Hf. unfold serial_tag, tag_line. do 2 (apply transmits_bind; [by apply transmits_literal|]). by apply transmits_literal. Qed.

#[export] Instance TerminalLaws_serial : TerminalLaws serial.
Proof.
  refine {| term_area _ := False; term_ready n s := line_ready n (s_io s); term_shows := line_sent;
            term_tagged st := line_sent (tag_line st) |}.
  - intros s. split; [by rewrite app_nil_r | done | done].
  - exact line_sent_app.
  - intros out m s s' _ [H1 H2 H3]. by split.
  - done.
  - intros n n' s. apply line_ready_le.
  - intros out n s s' Hr Hs. eapply line_ready_drop; [exact Hr | apply Hs].
  - intros st n s s' Hr Hs. eapply line_ready_drop; [exact Hr | apply Hs].
  - intros fuel c s Q Hf Hr HQ. eapply wp_transmits; [by apply transmits_putc | exact Hr |].
    intros s' Hs Hm. apply HQ; [exact Hs | by rewrite Hm].
  - intros fuel p str s Q Hc _ Hf Hr HQ.
    eapply wp_transmits; [apply transmits_puts; [intros m ->; exact Hc | exact Hf] | exact Hr |].
    intros s' Hs Hm. apply HQ; [exact Hs | by rewrite Hm].
  - intros fuel st s Q Hf Hr HQ. eapply wp_transmits; [by apply transmits_tag | exact Hr |].
    intros s' Hs Hm. apply HQ; [exact Hs | by rewrite Hm].
Defined.

(** ** The serial line with the text console *)

(** The globals of both drivers over one memory and one set of ports. *)
Record tty := Tty { t_serial : serial; t_color : Z; t_x : Z; t_y : Z }.

#[export] Instance HasMem_tty : HasMem tty := {|
  mem t := mem (t_serial t);
  set_mem m t := Tty (set_mem m (t_serial t)) (t_color t) (t_x t) (t_y t);
|}.
#[export] Instance MemLaws_tty : MemLaws tty.
Proof. split; [done | by intros [[]] | done]. Qed.

Definition to_vga (t : tty) : vga := Vga (s_io (t_serial t)) (mem (t_serial t)) (t_color t) (t_x t) (t_y t).
Definition put_vga (v : vga) (t : tty) : tty :=
  Tty (set_mem (v_mem v) (set_io (v_io v) (t_serial t))) (color v) (cur_x v) (cur_y v).
Definition put_serial (s : serial) (t : tty) : tty := Tty s (t_color t) (t_x t) (t_y t).

(** Running a driver on its part of the state. *)
Definition zoom {S T A} (get : T -> S) (put : S -> T -> T) (c : M S A) : M T A := fun t =>
  match c (get t) with
  | Done (a, s) => Done (a, put s t)
  | Panic p => Panic p
  | NoFuel => NoFuel
  end.

Lemma wp_zoom {S T A} (get : T -> S) (put : S -> T -> T) (c : M S A) (Q : A -> T -> Prop) t :
  wp c (fun a s => Q a (put s t)) (get t) -> wp (zoom get put c) Q t.
Proof. unfold wp, zoom. by destruct (c (get t)) as [[a s]| |]. Qed.

Definition on_vga {A} (c : M vga A) : M tty A := zoom to_vga put_vga c.
Definition on_serial {A} (c : M serial A) : M tty A := zoom t_serial put_serial c.

(** [vga_puts] of a literal, by its characters. *)
Fixpoint vga_puts_literal (str : list Z) : M vga unit :=
  match str with
  | [] => mret tt
  | c :: str' => vga_putc c;; vga_puts_literal str'
  end.

Definition VGA_COLOR_LIGHT_GREEN : Z := 10.
Definition VGA_COLOR_LIGHT_RED : Z := 12.
Definition VGA_COLOR_YELLOW : Z := 14.

Definition status_color (st : log_status) : Z :=
  match st with LOG_OK => VGA_COLOR_LIGHT_GREEN | LOG_ERR => VGA_COLOR_LIGHT_RED | LOG_WARN => VGA_COLOR_YELLOW end.
Definition status_name (st : log_status) : list Z :=
  match st with LOG_OK => chars "OK" | LOG_ERR => chars "ERROR" | LOG_WARN => chars "WARNING" end.

Definition vga_tag (st : log_status) : M vga unit :=
  vga_puts_literal (chars "[ ");;
  vga_set_color (status_color st) VGA_COLOR_BLACK;;
  vga_puts_literal (status_name st);;
  vga_set_color VGA_COLOR_WHITE VGA_COLOR_BLACK;;
  vga_puts_literal (chars " ] ").

#[export] Instance Terminal_tty : Terminal tty := {|
  term_putc fuel c := on_vga (vga_putc (s8 c));; on_serial (serial_putc fuel c);
  term_puts fuel p := on_vga (vga_puts fuel p);; on_serial (serial_puts fuel p);
  term_tag fuel st := on_vga (vga_tag st);; on_serial (serial_tag fuel st);
|}.

Lemma sent_app l l' : sent (l ++ l') = sent l ++ sent l'.
Proof. unfold sent. by rewrite omap_app. Qed.

Lemma sent_cursor_trace attr cs s : sent (cursor_trace attr cs s) = [].
Proof. revert s. induction cs as [|c cs IH]; intros s; [done|]. cbn [cursor_trace]. by rewrite sent_app, IH. Qed.

(** [t'] is [t] after the bytes [out] with the colours [attr] on the screen. *)
Record tty_shows (out : list Z) (t t' : tty) : Prop := {
  ts_line : line_sent out (t_serial t) (t_serial t');
  ts_screen : same_screen (shown (to_vga t')) (puts (t_color t) (s8 <$> out) (shown (to_vga t)));
  ts_color : t_color t' = t_color t;
  ts_wf : vga_wf (to_vga t) -> vga_wf (to_vga t');
}.

(** The attribute [vga_set_color] stores for a colour on black. *)
Definition on_black (fg : Z) : Z := u16 (Z.shiftl fg 8).

(** The screen with a tag: the brackets in the colours before and in white, the name
    in the colour of the status. *)
Definition tagged_screen (attr : Z) (st : log_status) (s : screen) : screen :=
  puts (on_black VGA_COLOR_WHITE) (chars " ] ")
    (puts (on_black (status_color st)) (status_name st) (puts attr (chars "[ ") s)).

Record tty_tagged (st : log_status) (t t' : tty) : Prop := {
  tt_line : line_sent (tag_line st) (t_serial t) (t_serial t');
  tt_screen : same_screen (shown (to_vga t')) (tagged_screen (t_color t) st (shown (to_vga t)));
  tt_color : t_color t' = on_black VGA_COLOR_WHITE;
  tt_wf : vga_wf (to_vga t) -> vga_wf (to_vga t');
}.

(** What the console does in front of the line: it sends nothing on it. *)
Record console_step (v v' : vga) : Prop := {
  cs_wf : vga_wf v';
  cs_rest a : ~ in_video a -> ld8 (mem v') a = ld8 (mem v) a;
  cs_answers : io_answers (v_io v') = io_answers (v_io v);
  cs_sent : sent (io_trace (v_io v')) = sent (io_trace (v_io v));
}.

Lemma console_step_trans v v1 v2 : console_step v v1 -> console_step v1 v2 -> console_step v v2.
Proof.
  intros [H1 H2 H3 H4] [H1' H2' H3' H4']. split; [done | intros a Ha; by rewrite H2', H2 | by rewrite H3' | by rewrite H4'].
Qed.

Definition off_video (m m' : memory) : Prop := forall a, ~ in_video a -> ld8 m' a = ld8 m a.

(** The console and then the line. *)
Lemma wp_both (cv : M vga unit) (cs : M serial unit) out t (P : vga -> Prop) (Q : unit -> tty -> Prop) :
  line_ready (length out) (s_io (t_serial t)) ->
  wp cv (fun _ v' => console_step (to_vga t) v' /\ P v') (to_vga t) ->
  (forall m, off_video (mem t) m -> transmits (fun m' => m' = m) cs out) ->
  (forall v' t', console_step (to_vga t) v' -> P v' -> line_sent out (t_serial t) (t_serial t') -> off_video (mem t) (mem t') ->
     shown (to_vga t') = shown v' -> t_color t' = color v' -> vga_wf (to_vga t') -> Q tt t') ->
  wp (on_vga cv;; on_serial cs) Q t.
Proof.
  intros Hr Hcv Hcs HQ. wp_step. apply wp_zoom. eapply wp_mono; [exact Hcv|]. intros [] v' [Hst HP].
  apply wp_zoom. pose proof Hst as [Hwf Hrest Ha Hs]. cbn [t_serial put_vga].
  apply (wp_transmits _ out); [apply Hcs; exact Hrest | cbn; unfold line_ready in *; cbn in Ha; by rewrite Ha |].
  intros s' [H1 H2 H3] Hm. cbn in Hm, Ha, Hs. apply (HQ v'); try done.
  - split; cbn; [by rewrite H1; cbn; rewrite Hs | by rewrite H2; cbn; rewrite Ha | by rewrite H3].
  - intros a Hv. cbn. rewrite Hm. by apply Hrest.
  - unfold shown, to_vga. cbn. by rewrite Hm.
  - destruct Hwf. by split.
Qed.

Lemma console_putc v c :
  vga_wf v -> -128 <= c < 128 ->
  wp (vga_putc c) (fun _ v' => console_step v v' /\ same_screen (shown v') (putc (color v) c (shown v)) /\ color v' = color v) v.
Proof.
  intros Hwf Hc. apply wp_vga_putc; [done | done |]. intros v' [H1 H2 H3 H4 H5]. split_and!; [|done|done].
  split; [done | done | by rewrite H5 | rewrite H5; cbn; by rewrite sent_app, app_nil_r].
Qed.

Lemma console_puts fuel p str v :
  vga_wf v -> cstr (mem v) p str -> off_screen p (Z.of_nat (length str) + 1) -> (length str < fuel)%nat ->
  wp (vga_puts fuel p) (fun _ v' => console_step v v' /\ same_screen (shown v') (puts (color v) (s8 <$> str) (shown v)) /\
    color v' = color v) v.
Proof.
  intros Hwf Hs Hd Hf. unfold vga_puts. apply (wp_vga_puts_loop fuel p 0 str); rewrite ?Z.add_0_r; try done.
  intros v' H1 H2 H3 H4 H5. split_and!; [|done|done].
  split; [done | done | by rewrite H5 | rewrite H5; cbn; by rewrite sent_app, sent_cursor_trace, app_nil_r].
Qed.

Lemma console_literal str v :
  vga_wf v -> Forall (fun c => 0 <= c < 128) str ->
  wp (vga_puts_literal str) (fun _ v' => console_step v v' /\ same_screen (shown v') (puts (color v) str (shown v)) /\
    color v' = color v) v.
Proof.
  revert v. induction str as [|c str IH]; intros v Hwf Hs; cbn [vga_puts_literal].
  - wp_step. split_and!; [by split | done | done].
  - apply Forall_cons in Hs as [Hc Hs]. wp_step. eapply wp_mono; [apply console_putc; [done | lia]|].
    intros [] v1 (H1 & H2 & H3). eapply wp_mono; [apply (IH v1); [apply H1 | exact Hs]|].
    intros [] v2 (H1' & H2' & H3'). split_and!; [by eapply console_step_trans | | by rewrite H3'].
    rewrite H2', H3. unfold puts. cbn [foldl]. change (foldl _ ?s ?l) with (puts (color v) l s). by rewrite H2.
Qed.

Lemma console_color fg v :
  vga_wf v -> 
  wp (vga_set_color fg VGA_COLOR_BLACK) (fun _ v' => console_step v v' /\ shown v' = shown v /\ color v' = on_black fg) v.
Proof.
  intros [H1 H2 H3]. unfold vga_set_color. wp_step. split_and!; [|done|].
  - split; [|done..]. split; [exact H1 | exact H2 | apply u16_range].
  - cbn. unfold on_black, VGA_COLOR_BLACK. done.
Qed.

Lemma console_tag st v :
  vga_wf v ->
  wp (vga_tag st) (fun _ v' => console_step v v' /\ same_screen (shown v') (tagged_screen (color v) st (shown v)) /\
    color v' = on_black VGA_COLOR_WHITE) v.
Proof.
  intros Hwf. unfold vga_tag.
  assert (Hn : Forall (fun c => 0 <= c < 128) (status_name st)) by (destruct st; cbn; repeat constructor; lia).
  wp_step. eapply wp_mono; [apply console_literal; [done | cbn; repeat constructor; lia]|]. intros [] v1 (H1 & S1 & C1).
  wp_step. eapply wp_mono; [apply (console_color (status_color st)); apply H1|]. intros [] v2 (H2 & S2 & C2).
  wp_step. eapply wp_mono; [apply (console_literal (status_name st)); [apply H2 | exact Hn]|]. intros [] v3 (H3 & S3 & C3).
  wp_step. eapply wp_mono; [apply (console_color VGA_COLOR_WHITE); apply H3|]. intros [] v4 (H4 & S4 & C4).
  eapply wp_mono; [apply (console_literal (chars " ] ")); [apply H4 | cbn; repeat constructor; lia]|]. intros [] v5 (H5 & S5 & C5).
  split_and!; [by do 4 (eapply console_step_trans; [eassumption|]) | | by rewrite C5].
  unfold tagged_screen. by rewrite S5, C4, S4, S3, C2, S2, S1.
Qed.

Lemma off_screen_bytes p n : 0 <= n -> (forall a, p <= a <= p + n -> ~ in_video a) -> off_screen p (n + 1).
Proof.
  intros Hn H. specialize (H (Z.max p screen_buffer)). unfold off_screen, disjoint, in_video in *. lia.
Qed.

(** Bytes outside [in_video] are the same, so a string there is. *)
Lemma off_video_cstr m m' p str :
  cstr m p str -> (forall a, p <= a <= p + Z.of_nat (length str) -> ~ in_video a) -> off_video m m' -> cstr m' p str.
Proof. intros Hc Ha Hm. eapply cstr_same; [exact Hc|]. intros a H. apply Hm, Ha. lia. Qed.

Lemma shown_set_mem t m : (forall a, in_video a -> ld8 m a = ld8 (mem t) a) -> same_screen (shown (to_vga (set_mem m t))) (shown (to_vga t)).
Proof.
  intros Hm. split_and!; [|done|done]. intros i Hi. cbn. unfold ld16, cell_addr. rewrite !Hm by (unfold in_video; lia). done.
Qed.

Lemma wf_set_mem t m : vga_wf (to_vga t) -> vga_wf (to_vga (set_mem m t)).
Proof. by intros [H1 H2 H3]. Qed.

Lemma tty_shows_app out1 out2 t t1 t2 : tty_shows out1 t t1 -> tty_shows out2 t1 t2 -> tty_shows (out1 ++ out2) t t2.
Proof.
  intros [H1 H2 H3 H4] [H1' H2' H3' H4']. split; [by eapply line_sent_app | | by rewrite H3' | by intros H; apply H4', H4].
  rewrite H2', H3. unfold puts. rewrite fmap_app, foldl_app.
  change (foldl _ ?s ?l) with (puts (t_color t) l s). by rewrite H2.
Qed.

#[export] Instance TerminalLaws_tty : TerminalLaws tty.
Proof.
  refine {| term_area := in_video; term_ready n t := line_ready n (s_io (t_serial t)) /\ vga_wf (to_vga t);
            term_shows := tty_shows; term_tagged := tty_tagged |}.
  - intros t. split; [split; [by rewrite app_nil_r | done | done] | done | done | done].
  - exact tty_shows_app.
  - intros out m t t' Hm [[L1 L2 L3] H2 H3 H4]. split; [by split | | exact H3 | intros H; by apply H4, wf_set_mem].
    etransitivity; [exact H2|]. change (t_color (set_mem m t)) with (t_color t). by apply puts_proper, shown_set_mem.
  - intros n m t [H1 H2]. split; [done | by apply wf_set_mem].
  - intros n n' t Hn [H1 H2]. split; [by eapply line_ready_le | done].
  - intros out n t t' [Hr Hw] [[_ Ha _] _ _ Hwf]. split; [by eapply line_ready_drop | by apply Hwf].
  - intros st n t t' [Hr Hw] [[_ Ha _] _ _ Hwf]. split; [by eapply line_ready_drop | by apply Hwf].
  - intros fuel c t Q Hf [Hr Hw] HQ.
    eapply (wp_both _ _ [u8 c]); [exact Hr | apply console_putc; [exact Hw | apply s8_range] | intros m _; by apply transmits_putc |].
    intros v' t' _ [Hs Hc] Hl Hm Ht Htc Hwf. apply HQ; [|exact Hm].
    split; [exact Hl | | by rewrite Htc | done]. rewrite Ht, Hs. cbn. 
    by replace (s8 (u8 c)) with (s8 c) by (unfold s8; by rewrite u8_idemp).
  - intros fuel p str t Q Hc Ha Hf [Hr Hw] HQ.
    eapply (wp_both _ _ str); [exact Hr | apply console_puts; [exact Hw | exact Hc | apply off_screen_bytes; [lia | exact Ha] | exact Hf] | |].
    { intros m Hm. apply transmits_puts; [|exact Hf]. intros m' ->. by eapply off_video_cstr. }
    intros v' t' _ [Hs Hcol] Hl Hm Ht Htc Hwf. apply HQ; [|exact Hm].
    split; [exact Hl | by rewrite Ht, Hs | by rewrite Htc | done].
  - intros fuel st t Q Hf [Hr Hw] HQ.
    eapply (wp_both _ _ (tag_line st)); [exact Hr | by apply console_tag | intros m _; by apply transmits_tag |].
    intros v' t' _ [Hs Hcol] Hl Hm Ht Htc Hwf. apply HQ; [|exact Hm].
    split; [exact Hl | by rewrite Ht, Hs | by rewrite Htc | done].
Defined.

(** ** Printing *)

Section emits.
Context {S : Type} `{MemLaws S} `{!Terminal S} `{!TerminalLaws S}.

(** From a state whose memory satisfies [P] and a terminal that takes them, [c]
    prints the bytes [out] and keeps [P]. *)
Definition emits (P : memory -> Prop) (c : M S unit) (out : list Z) : Prop :=
  forall s, P (mem s) -> term_ready (length out) s -> wp c (fun _ s' => term_shows out s s' /\ P (mem s')) s.

(** [P] does not depend on the memory that the terminal writes. *)
Definition off_terminal (P : memory -> Prop) : Prop :=
  forall m m', (forall a, ~ term_area a -> ld8 m' a = ld8 m a) -> P m -> P m'.

Lemma emits_nil P : emits P (mret tt) [].
Proof. intros s HP _. wp_step. split; [apply term_shows_nil | exact HP]. Qed.

Lemma emits_bind P c d out1 out2 : emits P c out1 -> emits P d out2 -> emits P (c;; d) (out1 ++ out2).
Proof.
  intros Hc Hd s HP Hr. rewrite length_app in Hr. wp_step.
  eapply wp_mono; [apply (Hc s HP); eapply term_ready_le; [|exact Hr]; lia|]. intros [] s1 [Hs1 HP1].
  eapply wp_mono; [apply (Hd s1 HP1); eapply term_ready_after; [exact Hr | exact Hs1]|]. intros [] s2 [Hs2 HP2].
  split; [by eapply term_shows_app | exact HP2].
Qed.

Lemma emits_putc P fuel c : off_terminal P -> (0 < fuel)%nat -> emits P (term_putc fuel c) [u8 c].
Proof. intros HP Hf s Hs Hr. apply wp_term_putc; [done | exact Hr |]. intros s' H1 H2. split; [done | by eapply HP]. Qed.

(** A string that [P] keeps in place. *)
Lemma emits_puts (P : memory -> Prop) fuel p str :
  off_terminal P -> (forall m, P m -> cstr m p str) -> (forall a, p <= a <= p + Z.of_nat (length str) -> ~ term_area a) ->
  (length str < fuel)%nat -> emits P (term_puts fuel p) str.
Proof.
  intros HP Hc Ha Hf s Hs Hr. eapply wp_term_puts; [by apply Hc | exact Ha | exact Hf | exact Hr |].
  intros s' H1 H2. split; [done | by eapply HP].
Qed.

Lemma emits_assoc {A} P (c : M S A) (d : A -> M S unit) (e : M S unit) out :
  emits P ((x ← c; d x);; e) out -> emits P (x ← c; d x;; e) out.
Proof.
  intros Ht s HP Hr. specialize (Ht s HP Hr). unfold wp, mbind, M_bind in *. by destruct (c s) as [[x s1]| |].
Qed.

(** A step that reads the state and changes nothing. *)
Lemma emits_pure {A} P (c : M S A) (d : A -> M S unit) v out :
  (forall s (Q : A -> S -> Prop), P (mem s) -> Q v s -> wp c Q s) ->
  emits P (d v) out -> emits P (c ≫= d) out.
Proof. intros Hc Hd s HP Hr. wp_step. apply Hc; [done|]. by apply Hd. Qed.

(** A step that writes outside the terminal's memory. *)
Lemma emits_write P R (c : M S unit) (d : M S unit) out :
  (forall s (Q : unit -> S -> Prop), P (mem s) ->
     (forall m, R m -> (forall a, term_area a -> ld8 m a = ld8 (mem s) a) -> Q tt (set_mem m s)) -> wp c Q s) ->
  emits R d out -> (forall m, R m -> P m) -> emits P (c;; d) out.
Proof.
  intros Hc Hd HR s HP Hr. wp_step. apply Hc; [done|]. intros m Hm Ha.
  eapply wp_mono; [apply Hd; [by rewrite mem_set_mem | by apply term_ready_mem]|]. intros [] s' [H1 H2].
  split; [by eapply term_shows_mem | by apply HR].
Qed.
End emits.
