(* ===== verification/Display.v ===== *)
(** * utils/display.c: number formatting and formatted output

    [__itoa] and [__itoa_s] on memory, against a positional notation that can be
    read back, and the formatted output of [kprintf] and [klog] on a terminal: the
    serial line, and the console in front of it in the configuration TEXTMODE. *)

From S2P Require Export Terminal.

(** ** Numbers *)

(** [bchars] *)
Definition bchars : list Z := [48; 49; 50; 51; 52; 53; 54; 55; 56; 57; 65; 66; 67; 68; 69; 70].
Definition bchar (d : Z) : Z := default 0 (bchars !! Z.to_nat d).

Section itoa.
Context {S : Type} `{HasMem S}.
(** The address of [tbuf]. *)
Context (tbuf : Z).

(** [while (i != 0)]: the digits go to [tbuf]; returns the final [pos]. *)
Fixpoint itoa_loop (fuel : nat) (i base pos : Z) : M S Z :=
  match fuel with
  | O => out_of_fuel
  | Datatypes.S fuel' =>
      if i =? 0 then mret pos
      else if base =? 0 then panic "divide error"
      else
        store8 (tbuf + pos) (bchar (i mod base));;
        itoa_loop fuel' (i / base) base (pos + 1)
  end.

Definition itoa (fuel : nat) (i base buf : Z) : M S unit :=
  if (i =? 0) || (16 <? base) then store8 (buf + 0) 48;; store8 (buf + 1) 0
  else
    top ← itoa_loop fuel i base 0;
    for_loop (Z.to_nat top) 0 (fun opos => c ← load8 (tbuf + (top - 1 - opos)); store8 (buf + opos) c);;
    store8 (buf + top) 0.

(** [i] is a 32-bit pattern read as an [int]. *)
Definition itoa_s (fuel : nat) (i base buf : Z) : M S unit :=
  if 16 <? base then mret tt
  else if s32 i <? 0 then store8 buf 45;; itoa fuel (u32 (- i)) base (buf + 1)
  else itoa fuel (u32 i) base buf.
End itoa.

(** The digits of [i], least significant first. *)
Fixpoint digits (fuel : nat) (base i : Z) : list Z :=
  match fuel with
  | O => []
  | S fuel' => if i =? 0 then [] else (i mod base) :: digits fuel' base (i / base)
  end.

(** The characters of the number, most significant first. *)
Definition show (base i : Z) : list Z :=
  if i =? 0 then [48] else reverse (bchar <$> digits 32 base i).
Definition show_signed (base i : Z) : list Z :=
  if s32 i <? 0 then 45 :: show base (- s32 i) else show base (s32 i).

(** Reading it back. *)
Definition char_value (c : Z) : Z := if c <? 58 then c - 48 else c - 55.
Definition read (base : Z) (cs : list Z) : Z := fold_left (fun acc c => acc * base + char_value c) cs 0.

Lemma digits_length fuel base i : (length (digits fuel base i) <= fuel)%nat.
Proof. revert i. induction fuel as [|fuel IH]; intros i; simpl; [done|]. destruct (i =? 0); simpl; [lia|]. specialize (IH (i / base)). lia. Qed.

Lemma digits_bounds fuel base i : 2 <= base -> 0 <= i -> Forall (fun d => 0 <= d < base) (digits fuel base i).
Proof.
  intros Hb. revert i. induction fuel as [|fuel IH]; intros i Hi; simpl; [done|].
  destruct (i =? 0); constructor; [apply Z.mod_pos_bound; lia | apply IH, Z.div_pos; lia].
Qed.

(** Enough fuel: the value shrinks by at least a factor of two. *)
Lemma digits_enough base i fuel fuel' :
  2 <= base -> 0 <= i < 2 ^ Z.of_nat fuel -> (fuel <= fuel')%nat -> digits fuel' base i = digits fuel base i.
Proof.
  intros Hb. revert i fuel'. induction fuel as [|fuel IH]; intros i fuel' Hi Hf.
  - assert (i = 0) as -> by (change (2 ^ Z.of_nat 0) with 1 in Hi; lia). by destruct fuel'.
  - destruct fuel' as [|fuel']; [lia|]. simpl. destruct (i =? 0); [done|]. f_equal. apply IH; [|lia].
    rewrite Nat2Z.inj_succ, Z.pow_succ_r in Hi by lia. split; [apply Z.div_pos; lia|].
    apply Z.div_lt_upper_bound; nia.
Qed.

Lemma char_value_bchar d : 0 <= d < 16 -> char_value (bchar d) = d /\ 0 < bchar d < 256.
Proof.
  intros Hd. assert (Hall : forallb (fun n => let d := Z.of_nat n in
    (char_value (bchar d) =? d) && (0 <? bchar d) && (bchar d <? 256)) (seq 0 16) = true) by done.
  rewrite forallb_forall in Hall. specialize (Hall (Z.to_nat d)). rewrite in_seq in Hall.
  specialize (Hall ltac:(lia)). cbv zeta in Hall. rewrite Z2Nat.id in Hall by lia. lia.
Qed.

Lemma read_app base xs ys acc :
  fold_left (fun acc c => acc * base + char_value c) (xs ++ ys) acc =
  fold_left (fun acc c => acc * base + char_value c) ys
    (fold_left (fun acc c => acc * base + char_value c) xs acc).
Proof. apply fold_left_app. Qed.

Lemma read_digits fuel base i :
  2 <= base <= 16 -> 0 <= i < 2 ^ Z.of_nat fuel -> read base (reverse (bchar <$> digits fuel base i)) = i.
Proof.
  intros Hb. unfold read. revert i. induction fuel as [|fuel IH]; intros i Hi.
  - assert (i = 0) as -> by (change (2 ^ Z.of_nat 0) with 1 in Hi; lia). done.
  - simpl. destruct (Z.eqb_spec i 0) as [->|Hi0]; [done|]. cbn [fmap list_fmap]. rewrite reverse_cons, read_app, IH.
    + simpl. pose proof (Z.mod_pos_bound i base ltac:(lia)).
      rewrite (proj1 (char_value_bchar (i mod base) ltac:(lia))). pose proof (Z.div_mod i base ltac:(lia)). lia.
    + rewrite Nat2Z.inj_succ, Z.pow_succ_r in Hi by lia. split; [apply Z.div_pos; lia|].
      apply Z.div_lt_upper_bound; nia.
Qed.

Lemma read_show base i : 2 <= base <= 16 -> 0 <= i < 4294967296 -> read base (show base i) = i.
Proof.
  intros Hb Hi. unfold show. destruct (Z.eqb_spec i 0) as [->|]; [done|]. by apply read_digits.
Qed.

(** ** [__itoa] *)

Section itoa_specs.
Context {S : Type} `{MemLaws S}.
Context (tbuf : Z).

Lemma wp_itoa_loop fuel i base pos s (Q : Z -> S -> Prop) :
  2 <= base -> 0 <= i -> 0 <= pos ->
  (length (digits fuel base i) < fuel)%nat ->
  let ds := digits fuel base i in
  (forall m', filled (mem s) m' (tbuf + pos) (Z.of_nat (length ds))
      (fun j => u8 (bchar (default 0 (ds !! Z.to_nat j)))) -> Q (pos + Z.of_nat (length ds)) (set_mem m' s)) ->
  wp (itoa_loop tbuf fuel i base pos) Q s.
Proof.
  intros Hb. revert i pos s. induction fuel as [|fuel IH]; intros i pos s Hi Hp Hf ds HQ; [simpl in Hf; lia|].
  cbn [itoa_loop]. unfold ds in *. cbn [digits] in *. destruct (Z.eqb_spec i 0) as [->|Hi0].
  - msteps. specialize (HQ (mem s)). cbn [length Z.of_nat] in HQ. rewrite Z.add_0_r, set_mem_mem in HQ.
    apply HQ, filled_0.
  - rewrite (proj2 (Z.eqb_neq base 0)) by lia. msteps. cbn [length] in *.
    apply IH; [apply Z.div_pos; lia | lia | lia |]. intros m' Hm'. rewrite mem_set_mem in Hm'.
    rewrite set_mem_set_mem. replace (pos + 1 + Z.of_nat (length (digits fuel base (i / base))))
      with (pos + Z.of_nat (Datatypes.S (length (digits fuel base (i / base))))) by lia.
    apply HQ. rewrite Nat2Z.inj_succ. unfold Z.succ.
    eapply (filled_cons _ _ _ _ _ (bchar (i mod base))); [lia | done |].
    replace (tbuf + pos + 1) with (tbuf + (pos + 1)) by lia.
    eapply filled_ext; [|exact Hm']. intros j Hj. cbn beta.
    replace (Z.to_nat (j + 1)) with (Datatypes.S (Z.to_nat j)) by lia. done.
Qed.

(** The copy from [tbuf] reverses the digits. *)
Lemma wp_itoa_copy top buf s (Q : unit -> S -> Prop) :
  disjoint tbuf (Z.of_nat top) buf (Z.of_nat top) ->
  (forall m', filled (mem s) m' buf (Z.of_nat top)
      (fun j => ld8 (mem s) (tbuf + (Z.of_nat top - 1 - j))) -> Q tt (set_mem m' s)) ->
  wp (for_loop top 0 (fun opos => c ← load8 (tbuf + (Z.of_nat top - 1 - opos)); store8 (buf + opos) c)) Q s.
Proof.
  intros Hd HQ.
  apply (wp_for_loop (fun i s' => exists m', s' = set_mem m' s /\ filled (mem s) m' buf i
    (fun j => ld8 (mem s) (tbuf + (Z.of_nat top - 1 - j))))).
  - exists (mem s). split; [by rewrite set_mem_mem | apply filled_0].
  - intros i s' Hi (m' & -> & Hin & Hout). msteps. rewrite !mem_set_mem, set_mem_set_mem.
    eexists. split; [reflexivity|]. unfold disjoint in Hd.
    rewrite Hout by lia. split.
    + intros j Hj. destruct (decide (j = i)) as [->|]; [by rewrite ld8_st8_eq, (u8_small _ (ld8_range _ _))|].
      rewrite ld8_st8_ne by lia. apply Hin. lia.
    + intros a Ha. rewrite ld8_st8_ne by lia. apply Hout. lia.
  - intros s' (m' & -> & Hm'). by apply HQ.
Qed.

(** The digits copied backwards are the characters of [show]. *)
Lemma itoa_cstr base i m buf top ds :
  2 <= base <= 16 -> 0 <= i -> ds = digits 32 base i -> top = length ds ->
  (forall j, 0 <= j < Z.of_nat top ->
     ld8 m (buf + j) = u8 (bchar (default 0 (ds !! Z.to_nat (Z.of_nat top - 1 - j))))) ->
  ld8 m (buf + Z.of_nat top) = 0 -> cstr m buf (reverse (bchar <$> ds)).
Proof.
  intros Hb Hi -> -> Hm He. pose proof (digits_bounds 32 base i ltac:(lia) Hi) as Hds.
  assert (Hc : Forall (fun c => 0 < c < 256) (reverse (bchar <$> digits 32 base i))).
  { apply Forall_reverse, Forall_fmap. eapply Forall_impl; [exact Hds|].
    intros d Hd. apply char_value_bchar. simpl in Hd. lia. }
  apply cstr_intro.
  - eapply Forall_impl; [exact Hc|]. simpl. lia.
  - intros j c Hj. pose proof (lookup_lt_Some _ _ _ Hj) as Hlt.
    rewrite length_reverse, length_fmap in Hlt. rewrite Hm by lia.
    rewrite reverse_lookup, length_fmap, list_lookup_fmap in Hj by (rewrite length_fmap; lia).
    replace (Z.to_nat (Z.of_nat (length (digits 32 base i)) - 1 - Z.of_nat j))
      with (length (digits 32 base i) - Datatypes.S j)%nat by lia.
    destruct (digits 32 base i !! (length (digits 32 base i) - Datatypes.S j)%nat) as [d|] eqn:Hd; [|done].
    simpl in Hj |- *. injection Hj as <-. apply u8_small.
    assert (Hd16 : 0 <= d < base) by (by eapply Forall_lookup_1 in Hds).
    pose proof (char_value_bchar d ltac:(lia)). lia.
  - rewrite length_reverse, length_fmap. exact He.
Qed.

Lemma wp_itoa fuel i base buf s (Q : unit -> S -> Prop) :
  2 <= base <= 16 -> 0 <= i < 4294967296 -> (32 < fuel)%nat -> disjoint tbuf 32 buf 33 ->
  (forall m', cstr m' buf (show base i) ->
     (forall a, a < tbuf \/ tbuf + 32 <= a -> a < buf \/ buf + 33 <= a -> ld8 m' a = ld8 (mem s) a) ->
     Q tt (set_mem m' s)) ->
  wp (itoa tbuf fuel i base buf) Q s.
Proof.
  intros Hb Hi Hf Hd HQ. unfold itoa, disjoint in *. rewrite (proj2 (Z.ltb_ge 16 base)), orb_false_r by lia.
  destruct (Z.eqb_spec i 0) as [->|Hi0].
  - msteps. rewrite mem_set_mem, set_mem_set_mem, Z.add_0_r. apply HQ.
    + split_and!; [by mem_simpl | done | apply ld8_st8_eq].
    + intros a Ht Ha. by mem_simpl.
  - assert (He : digits fuel base i = digits 32 base i) by (apply digits_enough; [lia | done | lia]).
    assert (Hshow : show base i = reverse (bchar <$> digits 32 base i))
      by (unfold show; by rewrite (proj2 (Z.eqb_neq i 0))).
    pose proof (digits_length 32 base i) as Hl. mstep.
    eapply wp_itoa_loop; [lia | lia | done | rewrite He; lia |]. cbv zeta. rewrite He.
    set (ds := digits 32 base i) in *. rewrite Z.add_0_l. intros m1 [Hm1 Ho1]. rewrite Z.add_0_r in *.
    mstep. rewrite Nat2Z.id. eapply wp_itoa_copy; [unfold disjoint; lia|]. rewrite mem_set_mem.
    intros m2 [Hm2 Ho2]. msteps. rewrite !set_mem_set_mem, mem_set_mem. apply HQ.
    + rewrite Hshow. eapply (itoa_cstr base i); [exact Hb | lia | reflexivity | reflexivity | |]; fold ds.
      * intros j Hj. rewrite ld8_st8_ne, Hm2, Hm1 by lia. done.
      * by rewrite ld8_st8_eq.
    + intros a Ht Ha. rewrite ld8_st8_ne, Ho2, Ho1 by lia. done.
Qed.

(** C32: in every base from 2 to 16, [__itoa] writes a C string that reads
    back as the number, in at most 33 bytes of the buffer, using at most 32
    bytes of [tbuf]. *)
Theorem itoa_roundtrip fuel i base buf s :
  2 <= base <= 16 -> 0 <= i < 4294967296 -> (32 < fuel)%nat -> disjoint tbuf 32 buf 33 ->
  exists s' cs, itoa tbuf fuel i base buf s = Done (tt, s') /\
    cstr (mem s') buf cs /\ read base cs = i /\ (length cs <= 32)%nat /\
    (forall a, a < tbuf \/ tbuf + 32 <= a -> a < buf \/ buf + 33 <= a -> ld8 (mem s') a = ld8 (mem s) a).
Proof.
  intros Hb Hi Hf Hd.
  assert (Hwp : wp (itoa tbuf fuel i base buf) (fun _ s' => exists cs, cstr (mem s') buf cs /\ read base cs = i /\
    (length cs <= 32)%nat /\ (forall a, a < tbuf \/ tbuf + 32 <= a -> a < buf \/ buf + 33 <= a ->
      ld8 (mem s') a = ld8 (mem s) a)) s).
  { eapply wp_itoa; [exact Hb | exact Hi | exact Hf | exact Hd |]. intros m' Hc Ho. exists (show base i).
    rewrite mem_set_mem. split_and!; [exact Hc | by apply read_show | | exact Ho].
    unfold show. destruct (i =? 0); [simpl; lia|]. rewrite length_reverse, length_fmap. apply digits_length. }
  apply wp_unit in Hwp as (s' & Hrun & cs & H1 & H2 & H3 & H4). by exists s', cs.
Qed.
End itoa_specs.

Lemma s32_abs i : 0 <= i < 4294967296 -> if s32 i <? 0 then u32 (- i) = - s32 i else u32 i = s32 i.
Proof.
  intros Hi. unfold s32. rewrite (u32_small i) by lia. destruct (Z.ltb_spec i 2147483648).
  - by rewrite (proj2 (Z.ltb_ge i 0)) by lia.
  - rewrite (proj2 (Z.ltb_lt (i - 4294967296) 0)) by lia. word_lia.
Qed.

Section itoa_s_spec.
Context {S : Type} `{MemLaws S}.
Context (tbuf : Z).

Lemma wp_itoa_s fuel i base buf s (Q : unit -> S -> Prop) :
  2 <= base <= 16 -> 0 <= i < 4294967296 -> (32 < fuel)%nat -> disjoint tbuf 32 buf 34 ->
  (forall m', cstr m' buf (show_signed base i) ->
     (forall a, a < tbuf \/ tbuf + 32 <= a -> a < buf \/ buf + 34 <= a -> ld8 m' a = ld8 (mem s) a) ->
     Q tt (set_mem m' s)) ->
  wp (itoa_s tbuf fuel i base buf) Q s.
Proof.
  intros Hb Hi Hf Hd HQ. unfold itoa_s, show_signed, disjoint in *.
  rewrite (proj2 (Z.ltb_ge 16 base)) by lia. pose proof (s32_abs i Hi) as Habs. destruct (s32 i <? 0).
  - msteps. simple eapply wp_itoa; [exact Hb | apply u32_range | exact Hf | unfold disjoint; lia |].
    rewrite mem_set_mem. intros m' Hc Ho. rewrite set_mem_set_mem. apply HQ.
    + rewrite <- Habs. split_and!; [|done | exact Hc].
      rewrite Ho, ld8_st8_eq by lia. done.
    + intros a Ht Ha. rewrite Ho, ld8_st8_ne by lia. done.
  - simple eapply wp_itoa; [exact Hb | apply u32_range | exact Hf | unfold disjoint; lia |].
    intros m' Hc Ho. apply HQ; [by rewrite <- Habs|].
    intros a Ht Ha. apply Ho; lia.
Qed.
End itoa_s_spec.

(** ** [kprintf] *)

Section kprintf.
Context {S : Type} `{HasMem S} `{!Terminal S}.
(** The addresses of [tbuf] and of the local array [str], the bound on the
    lengths of strings, numbers and polls, and the bound on the iterations. *)
Context (tbuf buf : Z) (fuel iters : nat).

(** The bodies of [case 'd'] and [case 'x'] behind [va_arg]. *)
Definition kprintf_decimal (c : Z) : M S unit :=
  memset buf 0 32;;
  itoa_s tbuf fuel c 10 buf;;
  term_puts fuel buf.

Definition kprintf_hex (c : Z) : M S unit :=
  memset buf 0 32;;
  itoa tbuf fuel c 16 buf;;
  term_puts fuel buf.

(** The loop of [__kprintf_va_list]; [ap] points to the argument words on the
    stack, each of which [va_arg] reads and steps over. *)
Fixpoint kprintf_loop (n : nat) (str ap i : Z) : M S unit :=
  match n with
  | O => out_of_fuel
  | Datatypes.S n' =>
      len ← strlen fuel str;
      if i <? len then
        c ← load8 (str + i);
        if c =? 37 then
          d ← load8 (str + (i + 1));
          if d =? 115 then s ← load32 ap; term_puts fuel s;; kprintf_loop n' str (ap + 4) (i + 2)
          else if d =? 100 then c ← load32 ap; kprintf_decimal c;; kprintf_loop n' str (ap + 4) (i + 2)
          else if d =? 120 then c ← load32 ap; kprintf_hex c;; kprintf_loop n' str (ap + 4) (i + 2)
          else if d =? 99 then
            c ← load32 ap;
            term_putc fuel (u8 (Z.ldiff c 0xFFFFFF00));; kprintf_loop n' str (ap + 4) (i + 2)
          else kprintf_loop n' str ap (i + 1)
        else c ← load8 (str + i); term_putc fuel c;; kprintf_loop n' str ap (i + 1)
      else mret tt
  end.

Definition kprintf_va_list (str ap : Z) : M S unit := kprintf_loop iters str ap 0.

Definition kprintf (str ap : Z) : M S Z :=
  if str =? 0 then mret 0 else kprintf_va_list str ap;; mret 1.

Definition klog (st : log_status) (str ap : Z) : M S Z :=
  if str =? 0 then mret 0
  else
    term_tag fuel st;;
    kprintf_va_list str ap;;
    mret 1.
End kprintf.

(** ** What is printed *)

(** An argument of a variadic call. *)
Inductive arg :=
  | ArgStr (str : list Z)
  | ArgInt (z : Z).

(** The characters a conversion prints for an argument; none for a character
    that is not a conversion or an argument of the wrong kind. *)
Definition convert (d : Z) (a : arg) : option (list Z) :=
  match a with
  | ArgStr str => if d =? 115 then Some str else None
  | ArgInt z =>
      if d =? 100 then Some (show_signed 10 z)
      else if d =? 120 then Some (show 16 (u32 z))
      else if d =? 99 then Some [u8 z]
      else None
  end.

Definition conversion (d : Z) : bool := (d =? 115) || (d =? 100) || (d =? 120) || (d =? 99).

(** The output of a format string: a conversion takes the next argument, any
    other percent sign disappears, and the rest is copied; [None] when the
    arguments do not fit. *)
Fixpoint kformat (fmt : list Z) (args : list arg) : option (list Z) :=
  match fmt with
  | [] => Some []
  | c :: rest =>
      if c =? 37 then
        match rest with
        | d :: rest' =>
            if conversion d then
              match args with
              | a :: args' => x ← convert d a; y ← kformat rest' args'; Some (x ++ y)
              | [] => None
              end
            else kformat rest args
        | [] => Some []
        end
      else y ← kformat rest args; Some (c :: y)
  end.

Section kprintf_specs.
Context {S : Type} `{MemLaws S} `{!Terminal S} `{!TerminalLaws S}.
Context (tbuf buf : Z) (fuel iters : nat).
(** Memory when the call is made. *)
Context (m0 : memory).

(** Bytes that the call leaves alone: those outside [tbuf], the local array and the
    memory of the terminal. *)
Definition off_area (p n : Z) : Prop := forall a, p <= a < p + n -> ~ term_area a.
Definition stable (p n : Z) : Prop := disjoint tbuf 32 p n /\ disjoint buf 34 p n /\ off_area p n.
Definition kept (m : memory) : Prop :=
  forall a, a < tbuf \/ tbuf + 32 <= a -> a < buf \/ buf + 34 <= a -> ~ term_area a -> ld8 m a = ld8 m0 a.

(** The argument words at [ap] and the strings they point to. *)
Fixpoint args_at (ap : Z) (args : list arg) : Prop :=
  match args with
  | [] => True
  | a :: args' =>
      stable ap 4 /\ args_at (ap + 4) args' /\
      match a with
      | ArgStr str => cstr m0 (ld32 m0 ap) str /\ stable (ld32 m0 ap) (Z.of_nat (length str) + 1) /\ (length str < fuel)%nat
      | ArgInt z => ld32 m0 ap = u32 z
      end
  end.

Lemma kept_cstr p str m : cstr m0 p str -> stable p (Z.of_nat (length str) + 1) -> kept m -> cstr m p str.
Proof.
  unfold stable, disjoint. intros Hc (H1 & H2 & H3) Hk. eapply cstr_same; [exact Hc|].
  intros a Ha. apply Hk; [lia | lia | apply H3; lia].
Qed.

Lemma kept_ld32 p m : stable p 4 -> kept m -> ld32 m p = ld32 m0 p.
Proof.
  unfold stable, disjoint. intros (H1 & H2 & H3) Hk. apply ld32_ext. intros b Hb. apply Hk; [lia | lia | apply H3; lia].
Qed.

Lemma kept_off_terminal : off_terminal kept.
Proof. intros m m' Hm Hk a H1 H2 H3. rewrite Hm by done. by apply Hk. Qed.

Hypothesis Hdisj : disjoint tbuf 32 buf 34.
Hypothesis Hfuel : (40 < fuel)%nat.
Hypothesis Hoff : off_area tbuf 32 /\ off_area buf 34.

(** A number written to the local array and printed. *)
Lemma emits_number (c : M S unit) out :
  (forall s (Q : unit -> S -> Prop), (forall m, cstr m buf out ->
     (forall a, a < tbuf \/ tbuf + 32 <= a -> a < buf \/ buf + 34 <= a -> ld8 m a = ld8 (mem s) a) ->
     Q tt (set_mem m s)) -> wp c Q s) ->
  (length out < 34)%nat ->
  emits kept (memset buf 0 32;; c;; term_puts fuel buf) out.
Proof.
  intros Hc Hl. destruct Hoff as [Ht Hb]. apply (emits_assoc kept (memset buf 0 32) (fun _ => c)).
  assert (Hw : forall s (Q : unit -> S -> Prop), kept (mem s) ->
    (forall m, kept m /\ cstr m buf out -> (forall a, term_area a -> ld8 m a = ld8 (mem s) a) -> Q tt (set_mem m s)) ->
    wp (memset buf 0 32;; c) Q s).
  { intros s Q Hk HQ. wp_step. simple eapply wp_memset; [lia|]. intros m1 [_ Hm1]. apply Hc. intros m2 Hs2 Hm2.
    rewrite mem_set_mem in Hm2. rewrite set_mem_set_mem. apply HQ; [split; [|exact Hs2]|].
    - intros a H1 H2 H3. rewrite Hm2, Hm1 by lia. by apply Hk.
    - intros a Ha. assert (~ (tbuf <= a < tbuf + 32)) by (intros Hin; by apply (Ht a)).
      assert (~ (buf <= a < buf + 34)) by (intros Hin; by apply (Hb a)). rewrite Hm2, Hm1 by lia. done. }
  apply (emits_write kept (fun m => kept m /\ cstr m buf out) _ _ _ Hw); [|by intros m [H1 _]].
  apply emits_puts; [| by intros m [_ H1] | intros a Ha; apply Hb; lia | lia].
  intros m m' Hm [H1 H2]. split; [by apply (kept_off_terminal m)|]. eapply cstr_same; [exact H2|].
  intros a Ha. apply Hm, Hb. lia.
Qed.

Lemma show_length base i : (length (show base i) <= 32)%nat.
Proof.
  unfold show. destruct (i =? 0); [simpl; lia|]. rewrite length_reverse, length_fmap. apply digits_length.
Qed.

Lemma emits_decimal z : emits kept (kprintf_decimal tbuf buf fuel (u32 z)) (show_signed 10 z).
Proof.
  apply emits_number.
  - intros s Q HQ. simple eapply wp_itoa_s; [lia | apply u32_range | lia | exact Hdisj |].
    replace (show_signed 10 (u32 z)) with (show_signed 10 z) by (unfold show_signed, s32; by rewrite u32_idemp). exact HQ.
  - unfold show_signed. pose proof (show_length 10 (- s32 z)). pose proof (show_length 10 (s32 z)).
    destruct (s32 z <? 0); simpl; lia.
Qed.

Lemma emits_hex z : emits kept (kprintf_hex tbuf buf fuel (u32 z)) (show 16 (u32 z)).
Proof.
  apply emits_number; [|pose proof (show_length 16 (u32 z)); lia].
  intros s Q HQ. simple eapply wp_itoa; [lia | apply u32_range | lia | unfold disjoint in *; lia |].
  intros m Hc Hm. apply HQ; [exact Hc|]. intros a Ht Hb. apply Hm; lia.
Qed.

(** What the conversion [d] does with the argument at [ap]. *)
Definition convert_code (d ap : Z) : M S unit :=
  if d =? 115 then s ← load32 ap; term_puts fuel s
  else if d =? 100 then c ← load32 ap; kprintf_decimal tbuf buf fuel c
  else if d =? 120 then c ← load32 ap; kprintf_hex tbuf buf fuel c
  else c ← load32 ap; term_putc fuel (u8 (Z.ldiff c 0xFFFFFF00)).

Lemma u8_low z : u8 (Z.ldiff (u32 z) 0xFFFFFF00) = u8 z.
Proof.
  unfold u8. change 256 with (2 ^ 8). apply Z.bits_inj'. intros i Hi. rewrite !Z.testbit_mod_pow2 by lia.
  destruct (Z.ltb_spec i 8); [cbn [andb] | done]. rewrite Z.ldiff_spec, testbit_u32 by lia.
  change 0xFFFFFF00 with (Z.shiftl (Z.ones 24) 8). rewrite Z.shiftl_spec, (testbit_neg_idx _ (i - 8)), andb_true_r by lia. done.
Qed.

Lemma emits_convert d ap a args x :
  args_at ap (a :: args) -> convert d a = Some x -> emits kept (convert_code d ap) x.
Proof.
  intros (Hs & _ & Ha) Hx. unfold convert_code.
  assert (Hl : forall s (Q : Z -> S -> Prop), kept (mem s) -> Q (ld32 m0 ap) s -> wp (load32 ap) Q s).
  { intros s Q Hk HQ. mstep. by rewrite kept_ld32. }
  destruct a as [str|z]; cbn [convert] in Hx.
  - destruct (d =? 115); [|done]. injection Hx as ->. destruct Ha as (Hc & Hst & Hf).
    apply (emits_pure _ _ _ (ld32 m0 ap) _ Hl). apply emits_puts; [exact kept_off_terminal | | | done].
    + intros m. by apply kept_cstr.
    + intros b Hb. apply Hst. lia.
  - destruct (Z.eqb_spec d 115) as [->|]; [done|].
    destruct (d =? 100); [|destruct (d =? 120); [|destruct (d =? 99); [|done]]]; injection Hx as <-;
      apply (emits_pure _ _ _ (ld32 m0 ap) _ Hl); rewrite Ha.
    + apply emits_decimal.
    + apply emits_hex.
    + rewrite u8_low. replace [u8 z] with [u8 (u8 z)] by (by rewrite u8_idemp). apply emits_putc; [exact kept_off_terminal | lia].
Qed.

(** The branches of the switch. *)
Lemma emits_switch d ap (e1 e2 : M S unit) out :
  emits kept (if conversion d then convert_code d ap;; e1 else e2) out ->
  emits kept
    (if d =? 115 then s ← load32 ap; term_puts fuel s;; e1
     else if d =? 100 then c ← load32 ap; kprintf_decimal tbuf buf fuel c;; e1
     else if d =? 120 then c ← load32 ap; kprintf_hex tbuf buf fuel c;; e1
     else if d =? 99 then c ← load32 ap; term_putc fuel (u8 (Z.ldiff c 0xFFFFFF00));; e1
     else e2) out.
Proof.
  unfold conversion, convert_code.
  destruct (d =? 115); [cbn [orb]; exact (emits_assoc _ _ (fun s => term_puts fuel s) _ _)|].
  destruct (d =? 100); [cbn [orb]; exact (emits_assoc _ _ (fun c => kprintf_decimal tbuf buf fuel c) _ _)|].
  destruct (d =? 120); [cbn [orb]; exact (emits_assoc _ _ (fun c => kprintf_hex tbuf buf fuel c) _ _)|].
  destruct (d =? 99); [cbn [orb]; exact (emits_assoc _ _ (fun c => term_putc fuel (u8 (Z.ldiff c 0xFFFFFF00))) _ _)|].
  done.
Qed.

Lemma kept_char str fmt i m :
  cstr m0 str fmt -> stable str (Z.of_nat (length fmt) + 1) -> kept m -> (i <= length fmt)%nat ->
  ld8 m (str + Z.of_nat i) = default 0 (fmt !! i).
Proof.
  intros Hc Hs Hk Hi. pose proof (kept_cstr _ _ _ Hc Hs Hk) as Hm. destruct (fmt !! i) as [c|] eqn:Hl.
  - by eapply cstr_lookup.
  - apply lookup_ge_None in Hl. replace i with (length fmt) by lia. by apply cstr_end.
Qed.

Lemma emits_loop str fmt n :
  cstr m0 str fmt -> stable str (Z.of_nat (length fmt) + 1) -> (length fmt < fuel)%nat ->
  forall pre rest args ap out, fmt = pre ++ rest -> (length rest < n)%nat -> args_at ap args ->
    kformat rest args = Some out ->
    emits kept (kprintf_loop tbuf buf fuel n str ap (Z.of_nat (length pre))) out.
Proof.
  intros Hc Hst Hf. induction n as [|n IH]; intros pre rest args ap out Hfmt Hn Hargs Ho; [lia|].
  cbn [kprintf_loop]. simple eapply (emits_pure _ _ _ (Z.of_nat (length fmt))).
  { intros s Q Hk HQ. eapply wp_strlen; [by apply kept_cstr | exact Hf | exact HQ]. }
  assert (Hchar : forall i, (i <= length fmt)%nat -> forall s (Q : Z -> S -> Prop), kept (mem s) ->
    Q (default 0 (fmt !! i)) s -> wp (load8 (str + Z.of_nat i)) Q s).
  { intros i Hi s Q Hk HQ. mstep. by rewrite (kept_char str fmt). }
  assert (Hlen : length fmt = (length pre + length rest)%nat) by (by rewrite Hfmt, length_app).
  assert (Hcat : forall x l, rest = x :: l -> fmt = (pre ++ [x]) ++ l) by (intros x l ->; by rewrite Hfmt, <- (assoc_L (++))).
  assert (Hp1 : forall x : Z, Z.of_nat (length (pre ++ [x])) = Z.of_nat (length pre) + 1) by (intros x; rewrite length_app; simpl; lia).
  destruct rest as [|c rest].
  { cbn [kformat] in Ho. injection Ho as <-. rewrite (proj2 (Z.ltb_ge _ _)) by (simpl in Hlen; lia). apply emits_nil. }
  cbn [length] in *. rewrite (proj2 (Z.ltb_lt _ _)) by lia.
  simple eapply emits_pure; [apply (Hchar (length pre)); lia|]. cbv beta.
  rewrite Hfmt, list_lookup_middle by done. cbn [default from_option id]. cbn [kformat] in Ho.
  destruct (c =? 37).
  - replace (Z.of_nat (length pre) + 1) with (Z.of_nat (Datatypes.S (length pre))) by lia.
    simple eapply emits_pure; [apply (Hchar (Datatypes.S (length pre))); lia|]. cbv beta.
    rewrite (Hcat c rest eq_refl). replace (Datatypes.S (length pre)) with (length (pre ++ [c])) by (rewrite length_app; simpl; lia).
    apply emits_switch. destruct rest as [|d rest].
    + rewrite app_nil_r, lookup_ge_None_2 by done. cbn. apply (IH _ [] args); [by apply Hcat | simpl; lia | exact Hargs | exact Ho].
    + rewrite list_lookup_middle by done. cbn [default from_option id]. destruct (conversion d).
      * destruct args as [|a args]; [done|].
        apply bind_Some in Ho as (x & Hx & Ho). apply bind_Some in Ho as (y & Hy & [= <-]).
        apply emits_bind; [by eapply emits_convert|].
        replace (Z.of_nat (length pre) + 2) with (Z.of_nat (length ((pre ++ [c]) ++ [d]))) by (rewrite !length_app; simpl; lia).
        apply (IH _ rest args); [|cbn [length] in Hn; lia | apply Hargs | exact Hy]. rewrite Hfmt, <- !(assoc_L (++)). done.
      * apply (IH _ (d :: rest) args); [by apply Hcat | cbn [length] in *; lia | exact Hargs | exact Ho].
  - simple eapply emits_pure; [apply (Hchar (length pre)); lia|]. cbv beta.
    rewrite Hfmt, list_lookup_middle by done. cbn [default from_option id].
    apply bind_Some in Ho as (y & Hy & [= <-]).
    assert (Hc8 : [c] = [u8 c]).
    { pose proof (cstr_nonzero _ _ _ Hc) as Hnz. rewrite Hfmt in Hnz. apply Forall_app in Hnz as [_ Hnz].
      apply Forall_cons in Hnz as [Hnz _]. by rewrite u8_small by lia. }
    change (c :: y) with ([c] ++ y). rewrite Hc8.
    apply emits_bind; [apply emits_putc; [exact kept_off_terminal | lia]|].
    rewrite <- (Hp1 c). apply (IH _ rest args); [by apply Hcat | lia | exact Hargs | exact Hy].
Qed.
End kprintf_specs.

(** What a call of [kprintf] or [klog] finds: a format string and arguments that
    neither the local buffers nor the terminal's memory overlap, and a terminal that
    takes [n] bytes. *)
Record printable {S : Type} `{MemLaws S} `{!Terminal S} `{!TerminalLaws S} (tbuf buf : Z) (fuel iters : nat) (str ap : Z)
    (fmt : list Z) (args : list arg) (n : nat) (s : S) : Prop := {
  pr_buffers : disjoint tbuf 32 buf 34 /\ off_area tbuf 32 /\ off_area buf 34;
  pr_fuel : (40 < fuel)%nat /\ (length fmt < fuel)%nat /\ (length fmt < iters)%nat;
  pr_str : str <> 0 /\ cstr (mem s) str fmt /\ stable tbuf buf str (Z.of_nat (length fmt) + 1);
  pr_args : args_at tbuf buf fuel (mem s) ap args;
  pr_ready : term_ready n s;
}.

Section calls.
Context {S : Type} `{MemLaws S} `{!Terminal S} `{!TerminalLaws S}.

Lemma emits_va_list tbuf buf fuel iters str ap fmt args n out (s : S) :
  printable tbuf buf fuel iters str ap fmt args n s -> kformat fmt args = Some out ->
  emits (kept tbuf buf (mem s)) (kprintf_va_list tbuf buf fuel iters str ap) out.
Proof.
  intros [(Hb & Ho) (Hf & Hl & Hi) (_ & Hc & Hst) Ha _] Hout. unfold kprintf_va_list.
  apply (emits_loop tbuf buf fuel (mem s) Hb Hf Ho str fmt iters Hc Hst Hl [] fmt args); done.
Qed.

Lemma wp_kprintf_term tbuf buf fuel iters str ap fmt args out (s : S) (Q : Z -> S -> Prop) :
  printable tbuf buf fuel iters str ap fmt args (length out) s -> kformat fmt args = Some out ->
  (forall s', term_shows out s s' -> kept tbuf buf (mem s) (mem s') -> Q 1 s') ->
  wp (kprintf tbuf buf fuel iters str ap) Q s.
Proof.
  intros Hp Ho HQ. pose proof (emits_va_list _ _ _ _ _ _ _ _ _ _ _ Hp Ho) as Ht. destruct Hp as [_ _ [Hs _] _ Hr].
  unfold kprintf. rewrite (proj2 (Z.eqb_neq str 0)) by done. wp_step.
  eapply wp_mono; [by apply (Ht s)|]. intros [] s' [H1 H2]. wp_step. by apply HQ.
Qed.

Lemma wp_klog_term tbuf buf fuel iters st str ap fmt args out (s : S) (Q : Z -> S -> Prop) :
  printable tbuf buf fuel iters str ap fmt args (length (tag_line st) + length out) s -> kformat fmt args = Some out ->
  (forall s1 s', term_tagged st s s1 -> term_shows out s1 s' -> kept tbuf buf (mem s) (mem s') -> Q 1 s') ->
  wp (klog tbuf buf fuel iters st str ap) Q s.
Proof.
  intros Hp Ho HQ. pose proof (emits_va_list _ _ _ _ _ _ _ _ _ _ _ Hp Ho) as Ht. destruct Hp as [_ [Hf _] [Hs _] _ Hr].
  unfold klog. rewrite (proj2 (Z.eqb_neq str 0)) by done. wp_step.
  apply wp_term_tag; [lia | eapply term_ready_le; [|exact Hr]; lia |]. intros s1 Hs1 Hm1. wp_step.
  eapply wp_mono; [apply (Ht s1)|].
  - intros a _ _ Ha. by apply Hm1.
  - by eapply term_ready_tagged.
  - intros [] s' [H1 H2]. wp_step. by apply (HQ s1).
Qed.
End calls.

(** ** Properties *)

(** Without TEXTMODE [kprintf] sends to the serial line exactly the bytes [kformat]
    gives for its format string and arguments, and reports success. *)
Theorem kprintf_prints tbuf buf fuel iters str ap fmt args out (s : serial) :
  printable tbuf buf fuel iters str ap fmt args (length out) s -> kformat fmt args = Some out ->
  exists s', kprintf tbuf buf fuel iters str ap s = Done (1, s') /\
    sent (io_trace (s_io s')) = sent (io_trace (s_io s)) ++ out /\
    io_answers (s_io s') = drop (length out) (io_answers (s_io s)) /\ queue_list s' = queue_list s.
Proof.
  intros Hp Ho. apply wp_value. eapply wp_kprintf_term; [exact Hp | exact Ho |]. by intros s' [H1 H2 H3] _.
Qed.

(** [klog] sends the tag of its status in brackets in front of the formatted
    message. *)
Theorem klog_prints tbuf buf fuel iters st str ap fmt args out (s : serial) :
  printable tbuf buf fuel iters str ap fmt args (length (tag_line st) + length out) s -> kformat fmt args = Some out ->
  exists s', klog tbuf buf fuel iters st str ap s = Done (1, s') /\
    sent (io_trace (s_io s')) = sent (io_trace (s_io s)) ++ tag_line st ++ out.
Proof.
  intros Hp Ho. apply wp_value. eapply wp_klog_term; [exact Hp | exact Ho |].
  intros s1 s' [H1 _ _] [H2 _ _] _. split; [done|]. by rewrite H2, H1, (assoc_L (++)).
Qed.

(** C18: with TEXTMODE, the configuration of the build, [kprintf] sends to the serial
    line exactly the bytes [kformat] gives for its format string and arguments, and
    the screen shows them, written at the old cursor in the current colours with
    wrapping, control characters and scrolling; memory changes at most in the local
    buffers and the video memory. *)
Theorem kprintf_textmode tbuf buf fuel iters str ap fmt args out (t : tty) :
  printable tbuf buf fuel iters str ap fmt args (length out) t -> kformat fmt args = Some out ->
  exists t', kprintf tbuf buf fuel iters str ap t = Done (1, t') /\
    sent (io_trace (s_io (t_serial t'))) = sent (io_trace (s_io (t_serial t))) ++ out /\
    same_screen (shown (to_vga t')) (puts (t_color t) (s8 <$> out) (shown (to_vga t))) /\
    vga_wf (to_vga t') /\ t_color t' = t_color t /\
    (forall a, a < tbuf \/ tbuf + 32 <= a -> a < buf \/ buf + 34 <= a -> ~ in_video a -> ld8 (mem t') a = ld8 (mem t) a).
Proof.
  intros Hp Ho. apply wp_value. pose proof (pr_ready _ _ _ _ _ _ _ _ _ _ Hp) as [_ Hw].
  eapply wp_kprintf_term; [exact Hp | exact Ho |]. intros t' [[H1 _ _] H2 H3 H4] Hk. split_and!; auto.
Qed.

(** With TEXTMODE [klog] shows the name of the status in its colour between brackets
    and the message behind it in white on black. *)
Theorem klog_textmode tbuf buf fuel iters st str ap fmt args out (t : tty) :
  printable tbuf buf fuel iters str ap fmt args (length (tag_line st) + length out) t -> kformat fmt args = Some out ->
  exists t', klog tbuf buf fuel iters st str ap t = Done (1, t') /\
    sent (io_trace (s_io (t_serial t'))) = sent (io_trace (s_io (t_serial t))) ++ tag_line st ++ out /\
    same_screen (shown (to_vga t'))
      (puts (on_black VGA_COLOR_WHITE) (s8 <$> out) (tagged_screen (t_color t) st (shown (to_vga t)))) /\
    t_color t' = on_black VGA_COLOR_WHITE.
Proof.
  intros Hp Ho. apply wp_value. eapply wp_klog_term; [exact Hp | exact Ho |].
  intros t1 t' [[H1 _ _] H2 H3 _] [[H1' _ _] H2' H3' _] _. split_and!; [done | | | by rewrite H3'].
  - by rewrite H1', H1, (assoc_L (++)).
  - rewrite H2', H3. by rewrite H2.
Qed.
