(* ===== verification/IoMem.v ===== *)
(** * A device's view: ports and memory

    The concrete state of the drivers that use both the ports and memory, and the
    16- and 32-bit accesses of include/drivers/io_port.h. *)

From S2P Require Export Io Memory.

Record device := Device { d_io : io; d_mem : memory }.

#[export] Instance HasIo_device : HasIo device := {| get_io := d_io; set_io i s := Device i (d_mem s) |}.
#[export] Instance IoLaws_device : IoLaws device.
Proof. split; [done | done | by intros []]. Qed.

#[export] Instance HasMem_device : HasMem device := {| mem := d_mem; set_mem m s := Device (d_io s) m |}.
#[export] Instance MemLaws_device : MemLaws device.
Proof. split; [done | by intros [] | done]. Qed.

(** ** Wide ports *)

Section wide.
Context {S : Type} `{HasIo S}.

Definition outw (port value : Z) : M S unit :=
  modify (fun s => let i := get_io s in
    set_io (Io (io_answers i) (io_trace i ++ [Out (u16 port) (u16 value)])) s).

Definition outl (port value : Z) : M S unit :=
  modify (fun s => let i := get_io s in
    set_io (Io (io_answers i) (io_trace i ++ [Out (u16 port) (u32 value)])) s).

(** A read takes the next answer, as [inb] does. *)
Definition inw (port : Z) : M S Z := fun s =>
  let i := get_io s in
  match io_answers i with
  | [] => NoFuel
  | v :: rest => Done (u16 v, set_io (Io rest (io_trace i ++ [Io.In (u16 port) (u16 v)])) s)
  end.

Definition inl_port (port : Z) : M S Z := fun s =>
  let i := get_io s in
  match io_answers i with
  | [] => NoFuel
  | v :: rest => Done (u32 v, set_io (Io rest (io_trace i ++ [Io.In (u16 port) (u32 v)])) s)
  end.

Lemma wp_outw port v (Q : unit -> S -> Prop) s :
  Q tt (set_io (Io (io_answers (get_io s)) (io_trace (get_io s) ++ [Out (u16 port) (u16 v)])) s) ->
  wp (outw port v) Q s.
Proof. done. Qed.

Lemma wp_outl port v (Q : unit -> S -> Prop) s :
  Q tt (set_io (Io (io_answers (get_io s)) (io_trace (get_io s) ++ [Out (u16 port) (u32 v)])) s) ->
  wp (outl port v) Q s.
Proof. done. Qed.

Lemma wp_inw port v rest tr (Q : Z -> S -> Prop) s :
  get_io s = Io (v :: rest) tr ->
  Q (u16 v) (set_io (Io rest (tr ++ [Io.In (u16 port) (u16 v)])) s) -> wp (inw port) Q s.
Proof. intros He HQ. unfold wp, inw. rewrite He. exact HQ. Qed.

Lemma wp_inl port v rest tr (Q : Z -> S -> Prop) s :
  get_io s = Io (v :: rest) tr ->
  Q (u32 v) (set_io (Io rest (tr ++ [Io.In (u16 port) (u32 v)])) s) -> wp (inl_port port) Q s.
Proof. intros He HQ. unfold wp, inl_port. rewrite He. exact HQ. Qed.
End wide.

(** ** Ports next to memory *)

(** Accesses to ports and accesses to memory do not affect each other. *)
Class IoMemLaws (S : Type) `{HasIo S} `{HasMem S} := {
  mem_set_io i s : mem (set_io i s) = mem s;
  get_io_set_mem m s : get_io (set_mem m s) = get_io s;
}.

#[export] Instance IoMemLaws_device : IoMemLaws device.
Proof. by split. Qed.
