(* ===== verification/Clock.v ===== *)
(** * drivers/rtc.c and drivers/timer.c: the clock and the timer

    The BCD registers of the real-time clock, the time they leave in [dt], the
    divisor of the interval timer, and [sleep] against any schedule of timer
    interrupts. *)

From S2P Require Export IoMem CString.

(** ** include/drivers/rtc.h *)

Definition CMOS_REG : Z := 0x70.
Definition CMOS_DATA : Z := 0x71.
Definition RTC_IRQ : Z := 40.

Definition CMOS_SECOND : Z := 0x00.
Definition CMOS_MINUTE : Z := 0x02.
Definition CMOS_HOUR : Z := 0x04.
Definition CMOS_DAY : Z := 0x07.
Definition CMOS_MONTH : Z := 0x08.
Definition CMOS_YEAR : Z := 0x09.
Definition CMOS_STATUS_B : Z := 0x0b.
Definition CMOS_STATUS_C : Z := 0x0c.

(** The fields of [time_t]. *)
Definition t_year (t : Z) : Z := t.
Definition t_mnth (t : Z) : Z := t + 2.
Definition t_day (t : Z) : Z := t + 4.
Definition t_hour (t : Z) : Z := t + 6.
Definition t_min (t : Z) : Z := t + 8.
Definition t_sec (t : Z) : Z := t + 10.
Definition SIZEOF_TIME : Z := 12.

(** ** rtc.c *)

(** [dt] is the address of the global of that name. *)
Section rtc_c.
Context {S : Type} `{HasIo S} `{HasMem S}.

Definition read_cmos (reg : Z) : M S Z :=
  outb CMOS_REG (Z.lor 0x80 reg);;
  inb CMOS_DATA.

(** Between [cli] and [sti]. *)
Definition write_cmos (reg value : Z) : M S unit :=
  outb CMOS_REG (Z.lor 0x80 reg);;
  outb CMOS_DATA value.

(** [from_bcd(read_cmos(reg))]: the macro evaluates its argument twice. *)
Definition from_bcd_cmos (reg : Z) : M S Z :=
  x ← read_cmos reg;
  y ← read_cmos reg;
  mret (Z.shiftr x 4 * 10 + Z.land y 0xf).

(** The block that both functions below contain. *)
Definition read_time (dt : Z) : M S unit :=
  c ← read_cmos CMOS_STATUS_C;
  if negb (Z.land c 0x10 =? 0) then
    v ← from_bcd_cmos CMOS_SECOND; store16 (t_sec dt) v;;
    v ← from_bcd_cmos CMOS_MINUTE; store16 (t_min dt) v;;
    v ← from_bcd_cmos CMOS_HOUR; store16 (t_hour dt) v;;
    v ← from_bcd_cmos CMOS_DAY; store16 (t_day dt) v;;
    v ← from_bcd_cmos CMOS_MONTH; store16 (t_mnth dt) v;;
    v ← from_bcd_cmos CMOS_YEAR; store16 (t_year dt) (2000 + v)
  else mret tt.

Definition rtc_irq_handler (dt : Z) : M S unit := read_time dt.

(** The handler it installs and the message it logs are returned to the caller of
    the model. *)
Definition rtc_init (dt : Z) : M S ((Z * string) * string) :=
  status ← read_cmos CMOS_STATUS_B;
  let status := Z.lor status 0x02 in
  let status := Z.lor status 0x10 in
  let status := Z.land status (Z.lnot 0x20) in
  let status := Z.land status (Z.lnot 0x40) in
  write_cmos 0x0B status;;
  read_time dt;;
  mret ((RTC_IRQ, "rtc_irq_handler"), "RTC initialized\n")%string.

Definition get_time (dt time : Z) : M S unit := memcpy time dt SIZEOF_TIME;; mret tt.

(** The sum is computed in [int]; where it overflows, the value here is the one of
    wrapping arithmetic. *)
Definition get_seconds (dt : Z) : M S Z :=
  year ← load16 (t_year dt);
  mnth ← load16 (t_mnth dt);
  day ← load16 (t_day dt);
  hour ← load16 (t_hour dt);
  min ← load16 (t_min dt);
  sec ← load16 (t_sec dt);
  mret (u32 (year * 31536000 + mnth * 2629800 + day * 86400 + hour * 3600 + min * 60 + sec)).
End rtc_c.

(** ** timer.c *)

Definition PIT_A : Z := 0x40.
Definition PIT_CMD : Z := 0x43.
Definition TIMER_IRQ : Z := 32.

(** [hz] is not 0: the division is undefined there. *)
Definition timer_init (hz : Z) : M io ((Z * string) * string) :=
  let divisor := Z.quot 1193180 hz in
  outb PIT_CMD 0x36;;
  outb PIT_A (Z.land divisor 0xFF);;
  outb PIT_A (Z.shiftr divisor 8);;
  mret ((TIMER_IRQ, "timer_irq_handler"), "PIT initialized\n")%string.

(** The global [timer_ticks], and for each coming read of it by [sleep] the number
    of timer interrupts served before that read. *)
Record ticker := Ticker { timer_ticks : Z; arrivals : list nat }.

(** The tick of [timer_irq_handler]; the whole handler, with the call of [schedule]
    behind it, is in Task.v. *)
Definition timer_tick : M ticker unit :=
  modify (fun t => Ticker (u32 (timer_ticks t + 1)) (arrivals t)).

Definition get_ticks : M ticker Z := gets timer_ticks.

(** The interrupts before a read; without a next entry the run is not determined. *)
Definition served : M ticker unit := fun t =>
  match arrivals t with
  | [] => NoFuel
  | k :: rest => for_loop k 0 (fun _ => timer_tick) (Ticker (timer_ticks t) rest)
  end.

Fixpoint sleep_loop (fuel : nat) (eticks : Z) : M ticker unit :=
  match fuel with
  | O => out_of_fuel
  | S fuel' =>
      served;;
      now ← get_ticks;
      if now <? eticks then sleep_loop fuel' eticks else mret tt
  end.

Definition sleep (fuel : nat) (ticks : Z) : M ticker unit :=
  now ← get_ticks;
  sleep_loop fuel (u64 (ticks + now)).

(** ** The time the registers give *)

Definition to_bcd (v : Z) : Z := v / 10 * 16 + v mod 10.

(** What two reads of a BCD register decode to. *)
Definition from_bcd (xy : Z * Z) : Z := u8 xy.1 / 16 * 10 + u8 xy.2 mod 16.

Lemma from_to_bcd v : 0 <= v < 100 -> from_bcd (to_bcd v, to_bcd v) = v.
Proof. intros Hv. unfold from_bcd, to_bcd. cbn [fst snd]. rewrite u8_small; Z.div_mod_to_equations; lia. Qed.

Lemma from_bcd_range xy : 0 <= from_bcd xy <= 165.
Proof. unfold from_bcd. pose proof (u8_range xy.1). pose proof (u8_range xy.2). Z.div_mod_to_equations. lia. Qed.

(** A time, from the year to the second as in [time_t]. *)
Record time := Time { year : Z; mnth : Z; day : Z; hour : Z; min : Z; sec : Z }.

Definition time_at (m : memory) (t : Z) : time :=
  Time (ld16 m (t_year t)) (ld16 m (t_mnth t)) (ld16 m (t_day t)) (ld16 m (t_hour t)) (ld16 m (t_min t)) (ld16 m (t_sec t)).

(** The two readings of each register, in the order in which the code takes them. *)
Record readings := Readings { r_sec : Z * Z; r_min : Z * Z; r_hour : Z * Z; r_day : Z * Z; r_mnth : Z * Z; r_year : Z * Z }.

Definition answers_of (r : readings) : list Z :=
  [(r_sec r).1; (r_sec r).2; (r_min r).1; (r_min r).2; (r_hour r).1; (r_hour r).2;
   (r_day r).1; (r_day r).2; (r_mnth r).1; (r_mnth r).2; (r_year r).1; (r_year r).2].

Definition decoded (r : readings) : time :=
  Time (2000 + from_bcd (r_year r)) (from_bcd (r_mnth r)) (from_bcd (r_day r))
    (from_bcd (r_hour r)) (from_bcd (r_min r)) (from_bcd (r_sec r)).

(** A clock that shows [t] during the whole interrupt. *)
Definition steady (t : time) : readings :=
  let twice v := (to_bcd v, to_bcd v) in
  Readings (twice (sec t)) (twice (min t)) (twice (hour t)) (twice (day t)) (twice (mnth t)) (twice (year t - 2000)).

Definition clock_time (t : time) : Prop :=
  2000 <= year t < 2100 /\ 0 <= mnth t < 100 /\ 0 <= day t < 100 /\ 0 <= hour t < 100 /\ 0 <= min t < 100 /\ 0 <= sec t < 100.

Lemma decoded_steady t : clock_time t -> decoded (steady t) = t.
Proof.
  intros (H1 & H2 & H3 & H4 & H5 & H6). unfold decoded, steady. cbn [r_sec r_min r_hour r_day r_mnth r_year].
  rewrite !from_to_bcd by lia. destruct t. f_equal. cbn. lia.
Qed.

(** Enough of the state after a read of a register. *)
Lemma wp_read_cmos reg v rest tr m (Q : Z -> device -> Prop) :
  0 <= reg < 128 ->
  Q (u8 v) (Device (Io rest (tr ++ [Out 0x70 (Z.lor 0x80 reg); Io.In 0x71 (u8 v)])) m) ->
  wp (read_cmos reg) Q (Device (Io (v :: rest) tr) m).
Proof.
  intros Hr HQ. unfold read_cmos. wp_step. simple apply wp_outb. simple eapply wp_inb; [done|].
  cbn [io_answers io_trace get_io set_io HasIo_device d_io d_mem]. rewrite <- app_assoc. cbn [app].
  rewrite (u8_small (Z.lor 0x80 reg)); [exact HQ|]. split; [apply Z.lor_nonneg; lia|].
  change 256 with (2 ^ 8). apply lt_pow2_testbit; [lia | apply Z.lor_nonneg; lia |]. intros i Hi.
  rewrite Z.lor_spec, !(testbit_high _ 8) by lia. done.
Qed.

Lemma wp_from_bcd_cmos reg xy rest tr m (Q : Z -> device -> Prop) :
  0 <= reg < 128 ->
  (forall tr', Q (from_bcd xy) (Device (Io rest tr') m)) ->
  wp (from_bcd_cmos reg) Q (Device (Io (xy.1 :: xy.2 :: rest) tr) m).
Proof.
  intros Hr HQ. unfold from_bcd_cmos. wp_step. apply wp_read_cmos; [done|]. wp_step. apply wp_read_cmos; [done|]. wp_step.
  rewrite Z.shiftr_div_pow2 by lia. change 0xf with (Z.ones 4). rewrite Z.land_ones by lia. apply HQ.
Qed.

(** an interrupt with the update flag sets [dt] to the time that the readings
    of the registers decode to, each field from two readings, so exactly to the
    time of the clock when it does not tick in between; without the flag [dt]
    keeps its value.  No other memory changes. *)
Theorem rtc_irq_reads_time dt c r rest tr m :
  let flag := negb (Z.land (u8 c) 0x10 =? 0) in
  exists s', rtc_irq_handler dt (Device (Io (c :: (if flag then answers_of r else []) ++ rest) tr) m) = Done (tt, s') /\
    io_answers (d_io s') = rest /\
    (forall a, a < dt \/ dt + SIZEOF_TIME <= a -> ld8 (d_mem s') a = ld8 m a) /\
    time_at (d_mem s') dt = (if flag then decoded r else time_at m dt) /\
    (forall t, flag = true -> r = steady t -> clock_time t -> time_at (d_mem s') dt = t).
Proof.
  intros flag.
  assert (Hwp : wp (rtc_irq_handler dt) (fun _ s' => io_answers (d_io s') = rest /\
    (forall a, a < dt \/ dt + SIZEOF_TIME <= a -> ld8 (d_mem s') a = ld8 m a) /\
    time_at (d_mem s') dt = (if flag then decoded r else time_at m dt))
    (Device (Io (c :: (if flag then answers_of r else []) ++ rest) tr) m)).
  { unfold rtc_irq_handler, read_time. wp_step. apply wp_read_cmos; [done|]. fold flag. destruct flag.
    - cbn [answers_of app].
      do 5 (wp_step; apply wp_from_bcd_cmos; [done|]; intros ?; wp_step; simple apply wp_store16;
        cbn [set_mem HasMem_device d_io d_mem mem]).
      wp_step. apply wp_from_bcd_cmos; [done|]. intros ?. simple apply wp_store16. cbn [set_mem HasMem_device d_io d_mem mem].
      split_and!; [done | |].
      + intros a Ha. unfold t_year, t_mnth, t_day, t_hour, t_min, t_sec, SIZEOF_TIME in *. by rewrite !ld8_st16_ne by lia.
      + unfold time_at, decoded, t_year, t_mnth, t_day, t_hour, t_min, t_sec.
        f_equal; mem_simpl; rewrite ?u16_idemp; apply u16_small.
        all: match goal with |- context [from_bcd ?x] => pose proof (from_bcd_range x); lia end.
    - wp_step. by split_and!. }
  apply wp_unit in Hwp as (s' & Hrun & H1 & H2 & H3). exists s'. split_and!; [done..|].
  intros t Hf -> Ht. rewrite H3, Hf. by apply decoded_steady.
Qed.

(** The seconds are those of the time modulo 2^32; the year alone exceeds the
    range of [int]. *)
Lemma get_seconds_run dt (s : device) :
  let t := time_at (d_mem s) dt in
  get_seconds dt s = Done (u32 (year t * 31536000 + mnth t * 2629800 + day t * 86400 + hour t * 3600 + min t * 60 + sec t), s) /\
  (2000 <= year t -> 2147483648 <= year t * 31536000).
Proof. split; [done | lia]. Qed.

(** ** The timer *)

(** The divisor is split into the two bytes the timer expects, as long as it fits
    into 16 bits. *)
Lemma timer_init_divisor hz i :
  19 <= hz <= 1193180 ->
  exists lo hi, timer_init hz i = Done (((TIMER_IRQ, "timer_irq_handler"), "PIT initialized\n")%string,
      Io (io_answers i) (io_trace i ++ [Out 0x43 0x36; Out 0x40 lo; Out 0x40 hi])) /\
    lo + 256 * hi = 1193180 / hz /\ 0 <= lo < 256 /\ 0 <= hi < 256.
Proof.
  intros Hhz. set (d := 1193180 / hz). assert (Hd : 0 <= d < 65536) by (unfold d; Z.div_mod_to_equations; nia).
  exists (d mod 256), (d / 256). split; [|Z.div_mod_to_equations; lia]. apply wp_done_inv.
  unfold timer_init. do 2 (wp_step; simple apply wp_outb). wp_step. simple apply wp_outb. wp_step. split; [done|].
  cbn [get_io set_io HasIo_io io_answers io_trace]. rewrite <- !app_assoc. cbn [app].
  rewrite Z.quot_div_nonneg by lia. fold d. change 0xFF with (Z.ones 8). rewrite Z.land_ones, Z.shiftr_div_pow2 by lia.
  change (2 ^ 8) with 256. rewrite (u8_small (d mod 256)), (u8_small (d / 256)) by (Z.div_mod_to_equations; lia). done.
Qed.

Definition total (l : list nat) : Z := Z.of_nat (sum_list l).

Lemma ticks_for_loop k t arr lo :
  0 <= t -> t + Z.of_nat k < 4294967296 ->
  for_loop k lo (fun _ => timer_tick) (Ticker t arr) = Done (tt, Ticker (t + Z.of_nat k) arr).
Proof.
  revert t lo. induction k as [|k IH]; intros t lo Ht Hk; cbn [for_loop].
  - unfold mret, M_ret. by rewrite Z.add_0_r.
  - unfold mbind, M_bind, timer_tick, modify. cbn [timer_ticks arrivals].
    rewrite u32_small by lia. fold timer_tick. unfold timer_tick, modify in IH. rewrite IH by lia. do 3 f_equal. lia.
Qed.

Lemma ticks_range k t arr lo t' :
  for_loop k lo (fun _ => timer_tick) (Ticker t arr) = Done (tt, t') -> 0 <= t < 4294967296 ->
  0 <= timer_ticks t' < 4294967296.
Proof.
  revert t lo. induction k as [|k IH]; intros t lo Hrun Ht; cbn [for_loop] in Hrun.
  - by injection Hrun as <-.
  - unfold mbind, M_bind, timer_tick, modify in Hrun. cbn [timer_ticks arrivals] in Hrun.
    fold timer_tick in Hrun. unfold timer_tick, modify in IH. eapply IH; [exact Hrun | apply u32_range].
Qed.

Lemma sleep_loop_wakes fuel e before k rest t :
  (before = [] \/ t + total before < e) -> e <= t + total before + Z.of_nat k -> 0 <= t ->
  t + total before + Z.of_nat k < 4294967296 -> (length before < fuel)%nat ->
  sleep_loop fuel e (Ticker t (before ++ k :: rest)) = Done (tt, Ticker (t + total before + Z.of_nat k) rest).
Proof.
  revert before t. induction fuel as [|fuel IH]; intros before t Hb He Ht Hm Hf; [lia|].
  cbn [sleep_loop]. unfold mbind at 1, M_bind at 1, served. cbn [arrivals timer_ticks]. unfold total in *.
  destruct before as [|b before]; cbn [app sum_list_with id length] in *.
  - rewrite ticks_for_loop by lia. unfold mbind, M_bind, get_ticks, gets. cbn [timer_ticks].
    rewrite (proj2 (Z.ltb_ge _ _)) by lia. unfold mret, M_ret. do 3 f_equal. lia.
  - unfold id in *.
    destruct Hb as [Hb|Hb]; [done|]. rewrite ticks_for_loop by lia.
    unfold mbind, M_bind, get_ticks, gets. cbn [timer_ticks]. rewrite (proj2 (Z.ltb_lt _ _)) by lia.
    rewrite IH; [do 3 f_equal; lia | | lia | lia | lia | lia].
    destruct before as [|b' before]; [by left | right; lia].
Qed.

Lemma sleep_loop_diverges fuel e t arr : 4294967296 <= e -> 0 <= t < 4294967296 -> stuck (sleep_loop fuel e) (Ticker t arr).
Proof.
  intros He. revert t arr. induction fuel as [|fuel IH]; intros t arr Ht; [done|]. cbn [sleep_loop].
  intros a s'. unfold mbind at 1, M_bind at 1, served. cbn [arrivals timer_ticks]. destruct arr as [|k arr]; [done|].
  destruct (for_loop k 0 (fun _ => timer_tick) (Ticker t arr)) as [[[] t']| |] eqn:Hrun; [|done|done].
  pose proof (ticks_range _ _ _ _ _ Hrun Ht) as Ht'. unfold mbind, M_bind, get_ticks, gets.
  rewrite (proj2 (Z.ltb_lt _ _)) by lia. destruct t' as [t' arr']. by apply IH.
Qed.

(** C36: [sleep ticks] returns at its first look at [timer_ticks] that comes after
    [ticks] timer interrupts, however the interrupts fall between the looks, as
    long as the counter does not pass 2^32 first; when the wake-up time lies
    beyond 2^32 it never returns. *)
Theorem sleep_wakes fuel ticks t0 before k rest :
  0 <= t0 < 4294967296 -> 0 <= ticks -> t0 + ticks < 18446744073709551616 ->
  (before = [] \/ total before < ticks) -> ticks <= total before + Z.of_nat k -> (length before < fuel)%nat ->
  (t0 + total before + Z.of_nat k < 4294967296 ->
     sleep fuel ticks (Ticker t0 (before ++ k :: rest)) = Done (tt, Ticker (t0 + total before + Z.of_nat k) rest)) /\
  (4294967296 <= t0 + ticks -> forall fuel' arr, stuck (sleep fuel' ticks) (Ticker t0 arr)).
Proof.
  intros Ht Hk H64 Hb He Hf.
  assert (Hu : u64 (ticks + t0) = ticks + t0) by (apply Z.mod_small; lia). split.
  - intros Hm. unfold sleep, mbind, M_bind, get_ticks, gets. cbn [timer_ticks]. rewrite Hu.
    apply sleep_loop_wakes; [|lia..]. destruct Hb as [Hb|Hb]; [by left | right; lia].
  - intros Hw fuel' arr. unfold sleep. apply stuck_bind. unfold get_ticks. wp_step. cbn [timer_ticks]. rewrite Hu.
    by apply sleep_loop_diverges; [lia|].
Qed.
