(* ===== verification/FsNode.v ===== *)
(** * include/fs/fs.h and fs/vfs.c: file system nodes and their operations

    The layout of nodes and directory entries, the interfaces through which the
    file systems call function pointers and the log, the dispatch functions of
    vfs.c, and the directories the file systems keep: lists of named nodes. *)

From stdpp Require Export fin_maps.
From S2P Require Export CString Dlist Spinlock.

(** ** include/fs/fs.h *)

Definition FS_FILE : Z := 0x01.
Definition FS_DIRECTORY : Z := 0x02.
Definition FS_CHARDEVICE : Z := 0x03.
Definition FS_BLOCKDEVICE : Z := 0x04.
Definition FS_PIPE : Z := 0x05.
Definition FS_SYMLINK : Z := 0x06.
Definition FS_MOUNTPOINT : Z := 0x08.

(** The fields of [fs_node_t]. *)
Definition SIZEOF_FS_NODE : Z := 176.
Definition fs_name (node : Z) : Z := node.
Definition fs_flags (node : Z) : Z := node + 128.
Definition fs_inode (node : Z) : Z := node + 132.
Definition fs_length (node : Z) : Z := node + 136.
Definition fs_atime (node : Z) : Z := node + 140.
Definition fs_ctime (node : Z) : Z := node + 144.
Definition fs_open (node : Z) : Z := node + 148.
Definition fs_close (node : Z) : Z := node + 152.
Definition fs_read (node : Z) : Z := node + 156.
Definition fs_write (node : Z) : Z := node + 160.
Definition fs_readdir (node : Z) : Z := node + 164.
Definition fs_finddir (node : Z) : Z := node + 168.
Definition fs_ioctl (node : Z) : Z := node + 172.

(** The fields of [struct dirent]. *)
Definition SIZEOF_DIRENT : Z := 140.
Definition d_name (d : Z) : Z := d.
Definition d_flags (d : Z) : Z := d + 128.
Definition d_inode (d : Z) : Z := d + 132.
Definition d_offset (d : Z) : Z := d + 136.

(** ** Interfaces *)

(** A call of [klog] or [kprintf]: the status, the format string and the
    arguments that are words. *)
Inductive log_level := LevelOk | LevelWarn | LevelErr | LevelPlain.

Class Logger (S : Type) := { klog_op : log_level -> string -> list Z -> M S unit }.

(** Logging leaves memory and the heap alone. *)
Class LoggerLaws (S : Type) `{HasMem S} `{!Allocator S} `{!Logger S} := {
  wp_klog lv fmt args (Q : unit -> S -> Prop) s :
    (forall s', mem s' = mem s -> (forall n L, heap_ok n L s -> heap_ok n L s') -> Q tt s') ->
    wp (klog_op lv fmt args) Q s;
}.

(** A call of the function at an address that a node stores. *)
Class FsCalls (S : Type) := {
  call_open : Z -> Z -> Z -> M S unit;
  call_close : Z -> Z -> M S unit;
  call_read : Z -> Z -> Z -> Z -> Z -> M S Z;
  call_write : Z -> Z -> Z -> Z -> Z -> M S Z;
  call_readdir : Z -> Z -> Z -> M S Z;
  call_finddir : Z -> Z -> Z -> M S Z;
  call_ioctl : Z -> Z -> Z -> Z -> M S Z;
}.

(** ** vfs.c *)

(** The address of the global [fs_root]. *)
Class VfsGlobals := { fs_root : Z }.

Section vfs_c.
Context {S : Type} `{HasMem S} `{!Allocator S} `{!Logger S} `{!FsCalls S} `{!VfsGlobals}.

Definition open_fs (node flags : Z) : M S unit :=
  if node =? 0 then mret tt
  else
    f ← load32 (fs_open node);
    if negb (f =? 0) then f ← load32 (fs_open node); call_open f node flags else mret tt.

Definition close_fs (node : Z) : M S unit :=
  if node =? 0 then mret tt
  else
    root ← load32 fs_root;
    if node =? root then mret tt
    else
      f ← load32 (fs_close node);
      (if negb (f =? 0) then f ← load32 (fs_close node); call_close f node else mret tt);;
      kfree_op node.

Definition read_fs (node offset size buffer : Z) : M S Z :=
  if node =? 0 then mret 0
  else
    f ← load32 (fs_read node);
    if negb (f =? 0) then f ← load32 (fs_read node); call_read f node offset size buffer else mret 0.

Definition write_fs (node offset size buffer : Z) : M S Z :=
  if node =? 0 then mret 0
  else
    f ← load32 (fs_write node);
    if negb (f =? 0) then f ← load32 (fs_write node); call_write f node offset size buffer else mret 0.

(** [(node->flags & FS_DIRECTORY) && f] for the function pointer at [field]. *)
Definition directory_op (node field : Z) : M S bool :=
  fl ← load32 (fs_flags node);
  if negb (Z.land fl FS_DIRECTORY =? 0) then f ← load32 field; mret (negb (f =? 0)) else mret false.

Definition readdir_fs (node index : Z) : M S Z :=
  if node =? 0 then mret 0
  else
    ok ← directory_op node (fs_readdir node);
    if (ok : bool) then f ← load32 (fs_readdir node); call_readdir f node index else mret 0.

Definition finddir_fs (node name : Z) : M S Z :=
  if node =? 0 then mret 0
  else
    ok ← directory_op node (fs_finddir node);
    if (ok : bool) then f ← load32 (fs_finddir node); call_finddir f node name
    else
      inode ← load32 (fs_inode node);
      klog_op LevelWarn "%s: node passed is not a directory\n\t    node = %d name = %s\n" [inode; name];;
      mret 0.

Definition ioctl_fs (node request argp : Z) : M S Z :=
  if node =? 0 then mret 0
  else
    f ← load32 (fs_ioctl node);
    if negb (f =? 0) then f ← load32 (fs_ioctl node); call_ioctl f node request argp else mret 0.

Definition clone_fs (node : Z) : M S Z :=
  if node =? 0 then mret 0
  else
    n ← kmalloc_op SIZEOF_FS_NODE;
    memcpy n node SIZEOF_FS_NODE;;
    mret n.

Definition get_fs_root : M S Z := load32 fs_root.
End vfs_c.

(** ** Node types *)

(** The types of nodes; the flags of a node are one of them, possibly with the bit of
    a mount point. *)
Inductive node_type := File | Directory | CharDevice | BlockDevice | Pipe | Symlink.

Definition type_flag (t : node_type) : Z :=
  match t with
  | File => FS_FILE | Directory => FS_DIRECTORY | CharDevice => FS_CHARDEVICE
  | BlockDevice => FS_BLOCKDEVICE | Pipe => FS_PIPE | Symlink => FS_SYMLINK
  end.

Definition has_type (m : memory) (node : Z) (t : node_type) : Prop :=
  ld32 m (fs_flags node) = type_flag t \/ ld32 m (fs_flags node) = Z.lor (type_flag t) FS_MOUNTPOINT.

(** The types whose flag contains the bit of FS_DIRECTORY. *)
Definition passes_as_directory (t : node_type) : bool :=
  match t with Directory | CharDevice | Symlink => true | _ => false end.

Lemma has_type_directory m node t :
  has_type m node t -> negb (Z.land (ld32 m (fs_flags node)) FS_DIRECTORY =? 0) = passes_as_directory t.
Proof. intros [-> | ->]; by destruct t. Qed.

Section dispatch.
Context {S : Type} `{MemLaws S} `{!Allocator S} `{!Logger S} `{!FsCalls S} `{!VfsGlobals}.

(** C39: the type test of the directory operations is one of bits, but the types are
    numbers: besides directories, character devices and symbolic links pass it, and
    for them [readdir_fs] and [finddir_fs] call whatever the node holds as a function
    pointer; files, block devices and pipes never get there. *)
Theorem directory_dispatch node t index name s :
  node <> 0 -> has_type (mem s) node t ->
  let readdir := ld32 (mem s) (fs_readdir node) in
  let finddir := ld32 (mem s) (fs_finddir node) in
  readdir_fs node index s =
    (if passes_as_directory t && negb (readdir =? 0) then call_readdir readdir node index s else Done (0, s)) /\
  finddir_fs node name s =
    (if passes_as_directory t && negb (finddir =? 0) then call_finddir finddir node name s
     else (klog_op LevelWarn "%s: node passed is not a directory\n\t    node = %d name = %s\n" [ld32 (mem s) (fs_inode node); name];;
           mret 0) s).
Proof.
  intros Hnz Ht readdir finddir. apply has_type_directory in Ht.
  unfold readdir_fs, finddir_fs, directory_op, load32, gets, mbind, M_bind, mret, M_ret. rewrite (proj2 (Z.eqb_neq node 0)) by done. rewrite Ht.
  split.
  - destruct (passes_as_directory t); cbn [andb]; [|done]. fold readdir. by destruct (readdir =? 0).
  - destruct (passes_as_directory t); cbn [andb]; [|done]. fold finddir. by destruct (finddir =? 0).
Qed.
End dispatch.

(** ** Named lists *)

Section named.
Context {S : Type} `{HasMem S}.

(** The loop [foreach(d, list)] that looks for the first node of the name [name];
    [chars] bounds the characters of the comparisons. *)
Fixpoint find_named (fuel chars : nat) (d name : Z) : M S (option Z) :=
  match fuel with
  | O => out_of_fuel
  | Datatypes.S fuel' =>
      if d =? 0 then mret None
      else
        node ← load32 (n_value d);
        c ← strcmp chars name (fs_name node);
        if c =? 0 then mret (Some node)
        else next ← load32 (n_next d); find_named fuel' chars next name
  end.

(** The calls [strcpy(d->name, lit)] of a literal: its characters and a NUL. *)
Definition strcpy_literal (dst : Z) (lit : list Z) : M S unit :=
  modify (fun s => set_mem (st_bytes (mem s) dst (lit ++ [0])) s).
End named.

(** The directory a list represents: its nodes by name, the first one of a name. *)
Definition entries (names : Z -> list Z) (l : list (Z * Z)) : gmap (list Z) Z :=
  list_to_map ((fun nv : Z * Z => (names nv.2, nv.2)) <$> l).

Lemma entries_cons names n v l : entries names ((n, v) :: l) = <[names v := v]> (entries names l).
Proof. done. Qed.

Lemma entries_names names l bs : entries names l !! bs = None <-> bs ∉ (fun nv : Z * Z => names nv.2) <$> l.
Proof.
  unfold entries. rewrite <- not_elem_of_list_to_map. rewrite <- list_fmap_compose. done.
Qed.

Section named_specs.
Context {S : Type} `{MemLaws S}.

(** The nodes of [l] have their names in memory. *)
Definition named (m : memory) (names : Z -> list Z) (l : list (Z * Z)) : Prop :=
  forall nv, nv ∈ l -> cstr m nv.2 (names nv.2).

Lemma wp_find_named fuel chars prev p l names q bs s (Q : option Z -> S -> Prop) :
  dl_seg (mem s) prev p 0 l -> nonnull l -> named (mem s) names l -> cstr (mem s) q bs ->
  (length l < fuel)%nat -> (length bs < chars)%nat ->
  Q (entries names l !! bs) s -> wp (find_named fuel chars p q) Q s.
Proof.
  revert prev p l. induction fuel as [|fuel IH]; intros prev p l Hl Hnz Hn Hq Hf Hc HQ; [lia|].
  cbn [find_named]. destruct l as [|[n v] l]; simpl in Hl.
  - subst p. cbn [Z.eqb]. by mstep.
  - destruct Hl as (-> & _ & Hv & Hl). rewrite (proj2 (Z.eqb_neq n 0)) by (apply (Hnz n v); elem).
    msteps. rewrite Hv. simple eapply wp_strcmp; [exact Hq | apply (Hn (n, v)); elem | exact Hc |].
    rewrite entries_cons in HQ. cbn [snd]. destruct (Z.eqb_spec (lex bs (names v)) 0) as [E|E].
    + apply lex_eq in E as ->. mstep. by rewrite lookup_insert_eq in HQ.
    + rewrite lookup_insert_ne in HQ by (intros E'; apply E; apply lex_eq; done).
      msteps. eapply IH; [exact Hl | | | exact Hq | simpl in Hf; lia | exact Hc | exact HQ].
      * intros n' v' Hin. apply (Hnz n' v'). elem.
      * intros nv Hin. apply Hn. elem.
Qed.
End named_specs.
