(* ===== verification/Rootfs.v ===== *)
(** * fs/rootfs.c and fs/devfs.c: the root and the device directory

    Registration and lookup of named nodes under a spin lock, over the lists of
    Dlist.v, as a refinement of finite maps from names to nodes. *)

From S2P Require Export FsNode Clock.

(** ** The code *)

(** The addresses of the static variables of both files, of [dt] and of the
    functions whose addresses they store. *)
Class FsGlobals := {
  root_nodes : Z; rootfs_lock : Z; root_files : Z;
  devlist : Z; devfs_dirent : Z; devfs_lock : Z;
  dt : Z;
  rootfs_readdir_fn : Z; rootfs_finddir_fn : Z;
  devfs_readdir_fn : Z; devfs_finddir_fn : Z;
}.

Section code.
Context {S : Type} `{HasMem S} `{!Allocator S} `{!Logger S} `{!FsGlobals}.

(** The body of both [rootfs_finddir] and [devfs_finddir]: the search of the list
    that the word at [list] points to, under the lock at [lock]. *)
Definition locked_finddir (fuel chars : nat) (list lock name : Z) : M S Z :=
  spin_lock fuel lock;;
  l ← load32 list;
  d ← load32 (l_head l);
  found ← find_named fuel chars d name;
  spin_unlock lock;;
  mret (default 0 found).

Definition rootfs_finddir (fuel chars : nat) (node name : Z) : M S Z :=
  locked_finddir fuel chars root_nodes rootfs_lock name.

Definition devfs_finddir (fuel chars : nat) (node name : Z) : M S Z :=
  locked_finddir fuel chars devlist devfs_lock name.

(** The body of [fs_register] and [devfs_register]; the former also increments a
    counter. *)
Definition locked_register (fuel chars : nat) (list lock : Z) (counter : option Z) (node : Z) : M S unit :=
  spin_lock fuel lock;;
  l ← load32 list;
  d ← load32 (l_head l);
  found ← find_named fuel chars d (fs_name node);
  match found with
  | Some _ =>
      klog_op LevelErr "Could not create fs_node: %s, node by that name already exists\n" [];;
      spin_unlock lock
  | None =>
      l ← load32 list;
      list_insert_front l node;;
      match counter with Some a => n ← load32 a; store32 a (n +32 1) | None => mret tt end;;
      spin_unlock lock
  end.

Definition fs_register (fuel chars : nat) (node : Z) : M S unit :=
  locked_register fuel chars root_nodes rootfs_lock (Some root_files) node.

Definition devfs_register (fuel chars : nat) (node : Z) : M S unit :=
  locked_register fuel chars devlist devfs_lock None node.

(** The lock is released here but never taken. *)
Definition rootfs_readdir (fuel chars : nat) (node index : Z) : M S Z :=
  files ← load32 root_files;
  if files <=? index then mret 0
  else
    list ← load32 root_nodes;
    entry ← list_get_node_by_index fuel list index;
    rnode ← load32 (n_value entry);
    if negb (rnode =? 0) then
      d ← kmalloc_op SIZEOF_DIRENT;
      if d =? 0 then mret 0
      else
        strcpy chars (d_name d) (fs_name rnode);;
        store32 (d_inode d) rnode;;
        store32 (d_offset d) index;;
        f ← load32 (fs_flags rnode);
        store32 (d_flags d) f;;
        spin_unlock rootfs_lock;;
        mret d
    else spin_unlock rootfs_lock;; mret 0.

(** [devfs_dirent] is a pointer that nothing sets. *)
Fixpoint devfs_readdir_loop (fuel chars : nat) (d index counter : Z) : M S Z :=
  match fuel with
  | O => out_of_fuel
  | Datatypes.S fuel' =>
      if d =? 0 then mret 0
      else if index =? counter then
        device_node ← load32 (n_value d);
        r ← load32 devfs_dirent;
        strcpy chars (d_name r) (fs_name device_node);;
        r ← load32 devfs_dirent;
        store32 (d_inode r) index;;
        load32 devfs_dirent
      else next ← load32 (n_next d); devfs_readdir_loop fuel' chars next index (counter +32 1)
  end.

Definition devfs_readdir (fuel chars : nat) (node index : Z) : M S Z :=
  spin_lock fuel devfs_lock;;
  l ← load32 devlist;
  d ← load32 (l_head l);
  result ← devfs_readdir_loop fuel chars d index 0;
  spin_unlock devfs_lock;;
  mret result.

Definition rootfs_init : M S Z :=
  rootfs ← kcalloc_op SIZEOF_FS_NODE 1;
  strcpy_literal (fs_name rootfs) [47];;
  store32 (fs_flags rootfs) (Z.lor FS_DIRECTORY FS_MOUNTPOINT);;
  store32 (fs_open rootfs) 0;;
  store32 (fs_close rootfs) 0;;
  store32 (fs_read rootfs) 0;;
  store32 (fs_write rootfs) 0;;
  store32 (fs_readdir rootfs) rootfs_readdir_fn;;
  store32 (fs_finddir rootfs) rootfs_finddir_fn;;
  store32 (fs_ioctl rootfs) 0;;
  l ← list_create;
  store32 root_nodes l;;
  mret rootfs.

(** [vfs_init] of vfs.c. *)
Definition vfs_init `{!VfsGlobals} : M S unit :=
  klog_op LevelOk "Initializing VFS structures\n" [];;
  root ← rootfs_init;
  store32 fs_root root.
End code.

(** ** Directories *)

Section directories.
Context {S : Type} `{MemLaws S} `{!Allocator S} `{!CallocLaws S} `{!Logger S} `{!LoggerLaws S}.

(** The word at [list] points to a list that represents [l]; its nodes have
    distinct names in live memory, and the lock at [lock] is free.  [R] are the
    live regions besides the list, the variables and the nodes among them. *)
Record directory (n : nat) (list lock : Z) (names : Z -> Datatypes.list Z) (l : Datatypes.list (Z * Z))
    (R : Datatypes.list region) (s : S) : Prop := {
  di_list : list_state n (ld32 (mem s) list) l R s;
  di_variables : (list, 4) ∈ R /\ (lock, 4) ∈ R /\ list <> lock;
  di_lock : ld32 (mem s) lock = 0;
  di_names : named (mem s) names l;
  di_nodes nv : nv ∈ l -> (nv.2, SIZEOF_FS_NODE) ∈ R /\ Z.of_nat (length (names nv.2)) < 128;
  di_distinct : NoDup ((fun nv : Z * Z => names nv.2) <$> l);
}.

(** The strings of the nodes do not contain the byte [b]. *)
Lemma named_st32 m names l a v :
  named m names l -> (forall nv, nv ∈ l -> disjoint a 4 nv.2 (Z.of_nat (length (names nv.2)) + 1)) ->
  named (st32 m a v) names l.
Proof.
  intros Hn Hd nv Hin. eapply cstr_same; [by apply Hn|]. intros b Hb. specialize (Hd nv Hin).
  unfold disjoint in Hd. apply ld8_st32_ne. lia.
Qed.

(** What holds while the lock has the value [v]. *)
Lemma directory_locked n list lock names l R s v :
  directory n list lock names l R s ->
  let m := st32 (mem s) lock v in
  ld32 m list = ld32 (mem s) list /\ list_state n (ld32 (mem s) list) l R (set_mem m s) /\ named m names l.
Proof.
  intros [Hst (Hg & Hk & Hgk) Hl Hn Hd _]. cbv zeta. pose proof Hst as [Hok _]. split_and!.
  - apply ld32_st32_ne. pose proof (heap_ok_apart_in _ _ _ _ _ _ Hok Hk Hg) as Ha. apply Ha. congruence.
  - apply list_state_write; [exact Hst|]. eapply touched_st32; [apply touched_refl | exact Hk | simpl; lia | simpl; lia].
  - apply named_st32; [exact Hn|]. intros nv Hin. destruct (Hd nv Hin) as [HR Hlen].
    assert (Ha : apart (lock, 4) (nv.2, SIZEOF_FS_NODE))
      by (eapply heap_ok_apart_in; [exact Hok | exact Hk | exact HR | discriminate || (unfold SIZEOF_FS_NODE; congruence)]).
    unfold apart, disjoint, SIZEOF_FS_NODE in *. cbn [fst snd] in Ha. lia.
Qed.

Lemma named_proper m m' names l : mem_eq m m' -> named m names l -> named m' names l.
Proof. intros He Hn nv Hin. rewrite <- He. by apply Hn. Qed.

Lemma list_state_mem_eq n lst l R s m : mem_eq m (mem s) -> list_state n lst l R s -> list_state n lst l R (set_mem m s).
Proof. intros He Hst. apply list_state_write; [exact Hst|]. by intros a _ _. Qed.

Lemma directory_mem_eq n list lock names l R s m :
  mem_eq m (mem s) -> directory n list lock names l R s -> directory n list lock names l R (set_mem m s).
Proof.
  intros He [H1 H2 H3 H4 H5 H6].
  assert (Hw : forall a, ld32 m a = ld32 (mem s) a) by (intros a; apply ld32_ext; intros b _; apply He). split.
  - rewrite mem_set_mem, Hw. by apply list_state_mem_eq.
  - done.
  - by rewrite mem_set_mem, Hw.
  - rewrite mem_set_mem. eapply named_proper; [symmetry; exact He | exact H4].
  - done.
  - done.
Qed.

(** The lock is taken and the list searched for a name. *)
Lemma wp_locked_search {A} fuel chars n list lock names l R q bs s (K : option Z -> M S A) (Q : A -> S -> Prop) :
  directory n list lock names l R s -> cstr (mem s) q bs -> disjoint lock 4 q (Z.of_nat (length bs) + 1) ->
  (length l < fuel)%nat -> (length bs < chars)%nat ->
  wp (K (entries names l !! bs)) Q (set_mem (st32 (mem s) lock 1) s) ->
  wp (spin_lock fuel lock;; l ← load32 list; d ← load32 (l_head l); found ← find_named fuel chars d q; K found) Q s.
Proof.
  intros Hdir Hq Hqd Hf Hc HQ. pose proof Hdir as [_ _ Hlk _ _ _].
  destruct (directory_locked _ _ _ _ _ _ _ 1 Hdir) as (Hg & Hst & Hn).
  wp_step. apply wp_spin_lock; [exact Hlk | lia |]. mstep. mstep. mstep. mstep. rewrite mem_set_mem, Hg.
  wp_step. pose proof Hst as [_ [_ Hl _]]. rewrite mem_set_mem in Hl. eapply (wp_find_named _ _ 0 _ l names _ bs).
  - rewrite mem_set_mem. exact Hl.
  - by eapply list_state_nonnull.
  - by rewrite mem_set_mem.
  - rewrite mem_set_mem. eapply cstr_same; [exact Hq|]. intros a Ha. apply ld8_st32_ne. unfold disjoint in Hqd. lia.
  - exact Hf.
  - exact Hc.
  - exact HQ.
Qed.

(** The search leaves every byte as it was. *)
Lemma wp_locked_finddir fuel chars n list lock names l R q bs s (Q : Z -> S -> Prop) :
  directory n list lock names l R s -> cstr (mem s) q bs -> disjoint lock 4 q (Z.of_nat (length bs) + 1) ->
  (length l < fuel)%nat -> (length bs < chars)%nat ->
  (forall m, mem_eq m (mem s) -> Q (default 0 (entries names l !! bs)) (set_mem m s)) ->
  wp (locked_finddir fuel chars list lock q) Q s.
Proof.
  intros Hdir Hq Hqd Hf Hc HQ. unfold locked_finddir. simple eapply wp_locked_search; [exact Hdir | exact Hq | done..|].
  unfold spin_unlock. msteps. rewrite mem_set_mem, set_mem_set_mem. apply HQ. apply st32_zero_again, (di_lock _ _ _ _ _ _ _ Hdir).
Qed.

(** The regions of [R] outside of [W] keep their contents. *)
Definition regions_kept (W R : Datatypes.list region) (m m' : memory) : Prop :=
  forall r b, r ∈ R -> r ∉ W -> in_region b r -> ld8 m' b = ld8 m b.

(** Words besides the list and the nodes. *)
Definition words (list : Z) (W R : Datatypes.list region) : Prop :=
  forall r, r ∈ W -> r ∈ R /\ r.2 = 4 /\ r <> (list, 4).

Lemma words_apart n L list W R s r r' : heap_ok n (L ++ R) s -> words list W R -> r ∈ W -> r' ∈ R -> r' ∉ W -> apart r r'.
Proof.
  intros Hok HW Hr Hr' Hc. destruct (HW r Hr) as (HR & H4 & Hne). eapply heap_ok_apart_in; [exact Hok | exact HR | exact Hr' |].
  by intros ->.
Qed.

Lemma words_list list W R : words list W R -> (list, 4) ∉ W.
Proof. intros HW Hin. by destruct (HW _ Hin) as (_ & _ & Hne). Qed.

Lemma words_node list W R v : words list W R -> (v, SIZEOF_FS_NODE) ∉ W.
Proof. intros HW Hin. destruct (HW _ Hin) as (_ & H4 & _). done. Qed.

(** A node in front of a directory, after the lock and words like a counter were
    written. *)
Lemma directory_inserted n list lock names l R W s s1 t node m :
  directory (Datatypes.S n) list lock names l R s ->
  (node, SIZEOF_FS_NODE) ∈ R -> cstr (mem s) node (names node) -> Z.of_nat (length (names node)) < 128 ->
  entries names l !! names node = None ->
  list_state n (ld32 (mem s) list) ((t, node) :: l) R s1 ->
  same_on (live R) (st32 (mem s) lock 1) (mem s1) ->
  words list W R -> (lock, 4) ∈ W -> touched W (mem s1) m -> ld32 m lock = 0 ->
  directory n list lock names ((t, node) :: l) R (set_mem m s1) /\ regions_kept W R (mem s) m.
Proof.
  intros [Hst (Hg & Hk & Hgk) Hl Hn Hd Hdis] Hnode Hnm Hlen Hnew Hst1 Hsame HW HkW Ht Hm.
  pose proof Hst1 as [Hok1 _].
  assert (Hkeep : regions_kept W R (mem s) m).
  { intros r b HrR Hr Hb. pose proof (heap_ok_start _ _ _ _ Hok1 (proj2 (elem_of_app _ _ _) (or_intror HrR))) as Hr4.
    rewrite Ht.
    - rewrite Hsame by (by eapply live_in). apply ld8_st32_ne.
      pose proof (words_apart _ _ _ _ _ _ _ _ Hok1 HW HkW HrR Hr) as Ha. unfold apart, disjoint, in_region in *. simpl in Ha. lia.
    - intros (r' & Hr' & Hb'). pose proof (words_apart _ _ _ _ _ _ _ _ Hok1 HW Hr' HrR Hr) as Ha.
      unfold apart, disjoint, in_region in *. lia.
    - unfold in_region in Hb. lia. }
  assert (Hkeepn : forall v, (v, SIZEOF_FS_NODE) ∈ R -> Z.of_nat (length (names v)) < 128 ->
    cstr (mem s) v (names v) -> cstr m v (names v)).
  { intros v Hv Hlv Hc. eapply cstr_same; [exact Hc|]. intros b Hb. apply (Hkeep _ _ Hv); [by eapply words_node|].
    unfold in_region, SIZEOF_FS_NODE. simpl. lia. }
  split; [|exact Hkeep].
  split; rewrite ?mem_set_mem.
  - replace (ld32 m list) with (ld32 (mem s) list).
    + apply list_state_write; [exact Hst1|]. eapply touched_weaken; [exact Ht|]. intros r Hr. by apply (HW r).
    + apply ld32_ext. intros b Hb. symmetry. apply (Hkeep _ _ Hg); [by eapply words_list | unfold in_region; simpl; lia].
  - done.
  - exact Hm.
  - intros nv [->|Hin]%elem_of_cons; [by apply Hkeepn|]. destruct (Hd nv Hin). apply Hkeepn; [done..|]. by apply Hn.
  - intros nv [->|Hin]%elem_of_cons; [done | by apply Hd].
  - rewrite fmap_cons. apply NoDup_cons. split; [|exact Hdis]. by apply entries_names.
Qed.

Definition counter_word (counter : option Z) : Datatypes.list region :=
  match counter with Some a => [(a, 4)] | None => [] end.

Lemma wp_locked_register fuel chars n list lock counter names l R node s (Q : unit -> S -> Prop) :
  let bs := names node in
  directory (Datatypes.S n) list lock names l R s ->
  (node, SIZEOF_FS_NODE) ∈ R -> cstr (mem s) node bs -> Z.of_nat (length bs) < 128 ->
  words list ((lock, 4) :: counter_word counter) R -> counter <> Some lock ->
  (length l < fuel)%nat -> (length bs < chars)%nat ->
  (forall v s', entries names l !! bs = Some v -> mem_eq (mem s') (mem s) ->
     directory (Datatypes.S n) list lock names l R s' -> Q tt s') ->
  (forall t s', entries names l !! bs = None -> directory n list lock names ((t, node) :: l) R s' ->
     (forall a, counter = Some a -> ld32 (mem s') a = ld32 (mem s) a +32 1) -> regions_kept ((lock, 4) :: counter_word counter) R (mem s) (mem s') -> Q tt s') ->
  wp (locked_register fuel chars list lock counter node) Q s.
Proof.
  intros bs Hdir Hnode Hnm Hlen HW Hcl Hf Hc HQ1 HQ2. unfold locked_register.
  pose proof Hdir as [Hst (Hg & Hk & Hgk) Hl0 _ _ _]. pose proof Hst as [Hok _].
  simple eapply (wp_locked_search _ _ _ _ _ _ _ _ _ bs); [exact Hdir | exact Hnm | | exact Hf | exact Hc |].
  { assert (Ha : apart (lock, 4) (node, SIZEOF_FS_NODE)) by (eapply words_apart; [exact Hok | exact HW | elem | exact Hnode | by eapply words_node]).
    unfold apart, disjoint, SIZEOF_FS_NODE, fs_name, bs in *. simpl in Ha. lia. }
  destruct (directory_locked _ _ _ _ _ _ _ 1 Hdir) as (Hg1 & Hst1 & _).
  destruct (entries names l !! bs) as [v|] eqn:Hv.
  - wp_step. apply wp_klog. intros s1 Hm1 Hok1. unfold spin_unlock. simple apply wp_store32.
    rewrite Hm1, mem_set_mem. pose proof (st32_zero_again (mem s) lock 1 Hl0) as He.
    apply (HQ1 v); [done | by rewrite mem_set_mem |].
    assert (Hst2 : list_state (Datatypes.S n) (ld32 (mem s) list) l R s1).
    { destruct Hst1 as [Hok2 Hdl]. split; [by apply Hok1|]. rewrite Hm1. exact Hdl. }
    pose proof (directory_mem_eq _ _ _ _ _ _ _ _ He Hdir) as [_ H2 H3 H4 H5 H6]. rewrite mem_set_mem in *.
    split; rewrite ?mem_set_mem; [|done..].
    replace (ld32 (st32 (st32 (mem s) lock 1) lock 0) list) with (ld32 (mem s) list)
      by (apply ld32_ext; intros b _; symmetry; apply He).
    apply list_state_write; [exact Hst2|]. rewrite Hm1.
    eapply touched_st32; [apply touched_refl | exact Hk | simpl; lia | simpl; lia].
  - mstep. mstep. rewrite mem_set_mem, Hg1. wp_step.
    destruct (heap_ok_regions _ _ _ (node, SIZEOF_FS_NODE) Hok ltac:(apply elem_of_app; by right)) as [Hn4 Hn32].
    cbn [fst snd] in Hn4, Hn32. unfold SIZEOF_FS_NODE in Hn32.
    eapply wp_insert_front; [exact Hst1 | lia |]. rewrite mem_set_mem. intros t s1 Hst2 Hsame.
    assert (Hins : forall m, touched ((lock, 4) :: counter_word counter) (mem s1) m -> ld32 m lock = 0 ->
      directory n list lock names ((t, node) :: l) R (set_mem m s1) /\ regions_kept ((lock, 4) :: counter_word counter) R (mem s) m).
    { intros m Ht Hm. eapply (directory_inserted n list lock names l R); [exact Hdir | done.. | exact HW | elem | exact Ht | exact Hm]. }
    destruct counter as [a|]; cbn [counter_word] in *; unfold spin_unlock; msteps.
    + assert (HaR : (a, 4) ∈ R) by (apply (HW (a, 4)); elem).
      assert (Hal : apart (lock, 4) (a, 4)) by (eapply heap_ok_apart_in; [exact Hok | exact Hk | exact HaR | congruence]).
      unfold apart in Hal. simpl in Hal. rewrite mem_set_mem, set_mem_set_mem.
      assert (Ha : ld32 (mem s1) a = ld32 (mem s) a).
      { rewrite (ld32_same_on _ _ _ _ Hsame); [apply ld32_st32_ne; unfold disjoint in *; lia|].
        intros b Hb. eapply live_in; [exact HaR|]. unfold in_region. simpl. lia. }
      assert (Hd : ld32 (st32 (st32 (mem s1) a (ld32 (mem s1) a +32 1)) lock 0) lock = 0) by (by rewrite ld32_st32_eq).
      apply Hins in Hd as [Hd Hkp].
      2: { eapply (touched_st32 _ _ _ (lock, 4)); [|elem|simpl; lia..].
           eapply (touched_st32 _ _ _ (a, 4)); [apply touched_refl|elem|simpl; lia..]. }
      apply (HQ2 t); [done | exact Hd | | by rewrite mem_set_mem].
      intros a' [= <-]. rewrite mem_set_mem, ld32_st32_ne, ld32_st32_eq, Ha by done. by rewrite u32_idemp.
    + destruct (Hins (st32 (mem s1) lock 0)) as [Hd Hkp].
      * eapply touched_st32; [apply touched_refl|elem|simpl; lia..].
      * by rewrite ld32_st32_eq.
      * apply (HQ2 t); [done | exact Hd | done | by rewrite mem_set_mem].
Qed.

Lemma wp_finddir_run fuel chars n list lock names l R q bs s :
  directory n list lock names l R s -> cstr (mem s) q bs -> disjoint lock 4 q (Z.of_nat (length bs) + 1) ->
  (length l < fuel)%nat -> (length bs < chars)%nat ->
  exists s', locked_finddir fuel chars list lock q s = Done (default 0 (entries names l !! bs), s') /\
    mem_eq (mem s') (mem s) /\ directory n list lock names l R s'.
Proof.
  intros Hdir Hq Hd Hf Hc. apply wp_value. eapply wp_locked_finddir; [exact Hdir | exact Hq | done..|].
  intros m Hm. split; [done|]. rewrite mem_set_mem. split; [done | by apply directory_mem_eq].
Qed.

(** What registering [node] makes of a directory: nothing when the name exists, and
    otherwise the node comes to the front, in the list node [t]. *)
Definition registered (names : Z -> Datatypes.list Z) (node t : Z) (l : Datatypes.list (Z * Z)) : Datatypes.list (Z * Z) :=
  match entries names l !! names node with Some _ => l | None => (t, node) :: l end.

Lemma entries_registered names node t l :
  entries names (registered names node t l) =
    match entries names l !! names node with Some _ => entries names l | None => <[names node := node]> (entries names l) end.
Proof. unfold registered. by destruct (entries names l !! names node). Qed.

(** A node that can be registered. *)
Record registrable (names : Z -> Datatypes.list Z) (chars : nat) (R : Datatypes.list region) (node : Z) (s : S) : Prop := {
  re_live : (node, SIZEOF_FS_NODE) ∈ R;
  re_name : cstr (mem s) node (names node);
  re_length : Z.of_nat (length (names node)) < 128;
  re_chars : (length (names node) < chars)%nat;
}.

Lemma wp_register_run fuel chars n list lock counter names l R node s :
  directory (Datatypes.S n) list lock names l R s -> registrable names chars R node s ->
  words list ((lock, 4) :: counter_word counter) R -> counter <> Some lock -> (length l < fuel)%nat ->
  exists s' n' t, locked_register fuel chars list lock counter node s = Done (tt, s') /\
    directory n' list lock names (registered names node t l) R s' /\ (n <= n')%nat /\
    (forall a, counter = Some a -> ld32 (mem s') a =
       match entries names l !! names node with Some _ => ld32 (mem s) a | None => ld32 (mem s) a +32 1 end) /\
    regions_kept ((lock, 4) :: counter_word counter) R (mem s) (mem s').
Proof.
  intros Hdir [Hn Hc Hlen Hch] HW Hcl Hf.
  assert (Hwp : wp (locked_register fuel chars list lock counter node) (fun _ s' => exists n' t,
    directory n' list lock names (registered names node t l) R s' /\ (n <= n')%nat /\
    (forall a, counter = Some a -> ld32 (mem s') a =
       match entries names l !! names node with Some _ => ld32 (mem s) a | None => ld32 (mem s) a +32 1 end) /\
    regions_kept ((lock, 4) :: counter_word counter) R (mem s) (mem s')) s).
  { eapply wp_locked_register; [exact Hdir | exact Hn | exact Hc | done.. | | ].
    - intros v s' Hv He Hd. exists (Datatypes.S n), 0. unfold registered. rewrite Hv. split_and!; [done | lia | |].
      + intros a _. apply ld32_ext. intros b _. apply He.
      + intros w b _ _ _. apply He.
    - intros t s' Hv Hd Hcnt Hkp. exists n, t. unfold registered. rewrite Hv. by split_and!. }
  apply wp_unit in Hwp as (s' & Hrun & n' & t & H'). by exists s', n', t.
Qed.

(** ** Directory entries *)

(** Stores to some of the regions leave the others as they were. *)
Lemma touched_kept n L W R s m :
  heap_ok n (L ++ R) s -> touched W (mem s) m -> (forall r, r ∈ W -> r ∈ R) -> regions_kept W R (mem s) m.
Proof.
  intros Hok Ht HW r b Hr HrW Hb. pose proof (heap_ok_start _ _ _ _ Hok (proj2 (elem_of_app _ _ _) (or_intror Hr))) as Hr4.
  apply Ht; [|unfold in_region in Hb; lia]. intros (r' & Hr' & Hb').
  assert (Ha : apart r r') by (eapply heap_ok_apart_in; [exact Hok | exact Hr | by apply HW | by intros ->]).
  unfold apart, disjoint, in_region in *. lia.
Qed.

(** Stores to other variables. *)
Lemma directory_touched n list lock names l R W s m :
  directory n list lock names l R s -> touched W (mem s) m ->
  (forall r, r ∈ W -> r ∈ R /\ r <> (list, 4) /\ r <> (lock, 4) /\ r.2 <> SIZEOF_FS_NODE) ->
  directory n list lock names l R (set_mem m s).
Proof.
  intros [Hst (Hg & Hk & Hgk) Hl Hn Hd Hdis] Ht HW. pose proof Hst as [Hok _].
  assert (Hkeep : regions_kept W R (mem s) m) by (eapply touched_kept; [exact Hok | exact Ht | intros r Hr; by apply (HW r)]).
  assert (Hw : forall a, (a, 4) ∈ R -> (a, 4) ∉ W -> ld32 m a = ld32 (mem s) a).
  { intros a Ha HaW. apply ld32_ext. intros b Hb. apply (Hkeep _ _ Ha HaW). unfold in_region. simpl. lia. }
  split; rewrite ?mem_set_mem.
  - rewrite Hw by (done || intros HgW; by apply HW in HgW as (_ & ? & _)).
    apply list_state_write; [exact Hst|]. eapply touched_weaken; [exact Ht|]. intros r Hr. by apply (HW r).
  - done.
  - rewrite Hw by (done || intros HkW; by apply HW in HkW as (_ & _ & ? & _)). exact Hl.
  - intros nv Hin. destruct (Hd nv Hin) as [HnR Hlen]. eapply cstr_same; [by apply Hn|]. intros b Hb.
    apply (Hkeep _ _ HnR); [intros HnW; by apply HW in HnW as (_ & _ & _ & ?)|]. unfold in_region, SIZEOF_FS_NODE. simpl. lia.
  - exact Hd.
  - exact Hdis.
Qed.

(** The names of other nodes do not matter. *)
Lemma directory_names n list lock names names' l R s :
  directory n list lock names l R s -> (forall nv, nv ∈ l -> names' nv.2 = names nv.2) ->
  directory n list lock names' l R s /\ entries names' l = entries names l.
Proof.
  intros [Hst Hv Hl Hn Hd Hdis] He.
  assert (Hm : (fun nv : Z * Z => names' nv.2) <$> l = (fun nv : Z * Z => names nv.2) <$> l)
    by (apply list_fmap_ext; intros i nv Hi; by eapply He, list_elem_of_lookup_2).
  split.
  - split; [exact Hst | exact Hv | exact Hl | | | by rewrite Hm].
    + intros nv Hin. rewrite He by done. by apply Hn.
    + intros nv Hin. rewrite He by done. by apply Hd.
  - unfold entries. f_equal. apply list_fmap_ext. intros i nv Hi. f_equal. by eapply He, list_elem_of_lookup_2.
Qed.

(** The names after the node [node] got the name [bs]. *)
Definition renamed (names : Z -> Datatypes.list Z) (node : Z) (bs : Datatypes.list Z) : Z -> Datatypes.list Z :=
  fun v => if decide (v = node) then bs else names v.

Lemma renamed_same names node bs : renamed names node bs node = bs.
Proof. unfold renamed. by rewrite decide_True. Qed.

Lemma renamed_other names node bs v : v <> node -> renamed names node bs v = names v.
Proof. intros Hv. unfold renamed. by rewrite decide_False. Qed.

Lemma directory_renamed n list lock names l R p bs s :
  directory n list lock names l R s -> (forall nv, nv ∈ l -> nv.2 <> p) ->
  directory n list lock (renamed names p bs) l R s /\ entries (renamed names p bs) l = entries names l /\ renamed names p bs p = bs.
Proof.
  intros Hdir Hp. destruct (directory_names _ _ _ _ (renamed names p bs) _ _ _ Hdir) as [Hd He].
  { intros nv Hin. by apply renamed_other, Hp. }
  split_and!; [exact Hd | exact He | apply renamed_same].
Qed.

(** A directory next to new objects. *)
Lemma directory_extend n n' list lock names l R X s s' :
  directory n list lock names l R s ->
  heap_ok n' (X ++ list_regions (ld32 (mem s) list) l ++ R) s' ->
  same_on (live (list_regions (ld32 (mem s) list) l ++ R)) (mem s) (mem s') ->
  directory n' list lock names l (X ++ R) s'.
Proof.
  intros [[Hok Hdl] (Hg & Hk & Hgk) Hl Hn Hd Hdis] Hok' Hs. set (lst := ld32 (mem s) list) in *.
  assert (HR : forall r, r ∈ R -> forall b, in_region b r -> ld8 (mem s') b = ld8 (mem s) b).
  { intros r Hr b Hb. apply Hs. apply live_app. right. by eapply live_in. }
  assert (Hw : forall a, (a, 4) ∈ R -> ld32 (mem s') a = ld32 (mem s) a).
  { intros a Ha. apply ld32_ext. intros b Hb. apply (HR _ Ha). unfold in_region. simpl. lia. }
  split.
  - rewrite (Hw list Hg). fold lst. split.
    + eapply heap_ok_permute; [|exact Hok']. rewrite !(assoc_L (++)). f_equiv. apply Permutation_app_comm.
    + eapply dlist_same; [|exact Hdl]. eapply same_on_weaken; [exact Hs|].
      intros a Ha. apply live_app. by left.
  - split_and!; [elem | elem | done].
  - by rewrite Hw.
  - intros nv Hin. destruct (Hd nv Hin) as [HnR Hlen]. eapply cstr_same; [by apply Hn|]. intros b Hb.
    apply (HR _ HnR). unfold in_region, SIZEOF_FS_NODE. simpl. lia.
  - intros nv Hin. destruct (Hd nv Hin). split; [elem | done].
  - exact Hdis.
Qed.

(** A new object next to a directory, after stores to it. *)
Lemma directory_new n n' list lock names l R s s1 d k m :
  directory n list lock names l R s ->
  heap_ok n' ((d, k) :: list_regions (ld32 (mem s) list) l ++ R) s1 ->
  same_on (live (list_regions (ld32 (mem s) list) l ++ R)) (mem s) (mem s1) -> touched [(d, k)] (mem s1) m ->
  directory n' list lock names l ((d, k) :: R) (set_mem m s1) /\
  same_on (live (list_regions (ld32 (mem s) list) l ++ R)) (mem s) m.
Proof.
  intros Hd Hok1 Hs1 Ht.
  destruct (heap_ok_touched n' [(d, k)] (list_regions (ld32 (mem s) list) l ++ R) s1 m Hok1 Ht) as [Hok2 Hs2].
  assert (Hs : same_on (live (list_regions (ld32 (mem s) list) l ++ R)) (mem s) m) by (etransitivity; eassumption).
  split; [|exact Hs]. apply (directory_extend n n' list lock names l R [(d, k)] s); [exact Hd | exact Hok2 | by rewrite mem_set_mem].
Qed.

(** The entry [d] describes the node [v] with the inode number [ino]. *)
Record dirent_of (m : memory) (d : Z) (bs : Datatypes.list Z) (ino flags index : Z) : Prop := {
  de_name : cstr m (d_name d) bs;
  de_inode : ld32 m (d_inode d) = ino;
  de_flags : ld32 m (d_flags d) = flags;
  de_offset : ld32 m (d_offset d) = index;
}.
End directories.

(** ** The root directory *)

Section rootfs.
Context {S : Type} `{MemLaws S} `{!Allocator S} `{!CallocLaws S} `{!Logger S} `{!LoggerLaws S} `{!FsGlobals}.

(** The directory of rootfs.c: [root_files] counts its entries. *)
Record root_dir (n : nat) (names : Z -> list Z) (l : list (Z * Z)) (R : list region) (s : S) : Prop := {
  ro_dir : directory n root_nodes rootfs_lock names l R s;
  ro_word : (root_files, 4) ∈ R /\ root_files <> root_nodes /\ root_files <> rootfs_lock;
  ro_count : ld32 (mem s) root_files = u32 (Z.of_nat (length l));
}.

(** The variables of the directory. *)
Definition root_words : list region := [(root_nodes, 4); (rootfs_lock, 4); (root_files, 4)].

Lemma root_dir_touched n names l R W s m :
  root_dir n names l R s -> touched W (mem s) m ->
  (forall r, r ∈ W -> r ∈ R /\ (r ∉ root_words) /\ r.2 <> SIZEOF_FS_NODE) -> root_dir n names l R (set_mem m s).
Proof.
  intros [Hdir (Hw & Hwl & Hwk) Hcnt] Ht HW. pose proof Hdir as [[Hok _] _ _ _ _ _]. split; [| done |].
  - eapply directory_touched; [exact Hdir | exact Ht |]. intros r Hr. destruct (HW r Hr) as (HR & Hno & Hsz).
    split_and!; [exact HR | | | exact Hsz]; intros ->; apply Hno; unfold root_words; elem.
  - rewrite mem_set_mem, <- Hcnt. apply ld32_ext. intros b Hb. eapply (touched_kept _ _ W R); [exact Hok | exact Ht | by apply HW | exact Hw | | exact Hb].
    intros HfW. destruct (HW _ HfW) as (_ & Hno & _). apply Hno. unfold root_words. elem.
Qed.

Lemma root_dir_extend n n' names l R X s s' :
  root_dir n names l R s -> heap_ok n' (X ++ list_regions (ld32 (mem s) root_nodes) l ++ R) s' ->
  same_on (live (list_regions (ld32 (mem s) root_nodes) l ++ R)) (mem s) (mem s') -> root_dir n' names l (X ++ R) s'.
Proof.
  intros [Hdir (Hw & Hwl & Hwk) Hcnt] Hok Hs. split; [by eapply directory_extend | split_and!; [elem | done | done] |].
  rewrite <- Hcnt. eapply ld32_same_on; [exact Hs|]. intros b Hb. apply live_app. right. by apply (live_in (root_files, 4)).
Qed.

Lemma root_dir_names n names names' l R s :
  root_dir n names l R s -> (forall nv, nv ∈ l -> names' nv.2 = names nv.2) ->
  root_dir n names' l R s /\ entries names' l = entries names l.
Proof.
  intros [Hdir Hw Hcnt] He. destruct (directory_names _ _ _ _ names' _ _ _ Hdir He) as [Hdir' Hent].
  split; [by split | exact Hent].
Qed.

Lemma root_dir_words n names l R s : root_dir n names l R s -> words root_nodes ((rootfs_lock, 4) :: counter_word (Some root_files)) R.
Proof.
  intros [[_ (Hg & Hk & Hgk) _ _ _ _] (Hw & Hwl & Hwk) _] r Hr. cbn [counter_word] in Hr.
  apply elem_of_cons in Hr as [->|Hr]; [|apply list_elem_of_singleton in Hr as ->]; split_and!; (done || congruence).
Qed.

(** The registration of a new name. *)
Lemma wp_fs_register_new fuel chars n names l R node s (Q : unit -> S -> Prop) :
  root_dir (Datatypes.S n) names l R s -> registrable names chars R node s -> entries names l !! names node = None ->
  (length l < fuel)%nat ->
  (forall t s', root_dir n names ((t, node) :: l) R s' ->
     regions_kept [(rootfs_lock, 4); (root_files, 4)] R (mem s) (mem s') -> Q tt s') ->
  wp (fs_register fuel chars node) Q s.
Proof.
  intros Hroot [Hn Hc Hlen Hch] Hnew Hf HQ. pose proof (root_dir_words _ _ _ _ _ Hroot) as HW.
  pose proof Hroot as [Hdir (Hw & Hwl & Hwk) Hcnt].
  eapply wp_locked_register; [exact Hdir | exact Hn | exact Hc | exact Hlen | exact HW | congruence | exact Hf | exact Hch | congruence |].
  intros t s' _ Hdir' Hcnt' Hkp. apply (HQ t); [|exact Hkp]. split; [exact Hdir' | done |].
  rewrite (Hcnt' _ eq_refl), Hcnt, u32_add_l. f_equal. simpl. lia.
Qed.

(** C9: [fs_register] refines the insertion into a finite map that keeps the
    first node of a name: a node with a new name is added, one with a name in use
    is refused; the directory stays well formed (distinct names, a count that
    agrees with the list, the lock free), and afterwards [rootfs_finddir] answers
    exactly by the new map, for every name. *)
Theorem fs_register_refines fuel chars n names l R node s :
  root_dir (Datatypes.S n) names l R s -> registrable names chars R node s -> (Datatypes.S (length l) < fuel)%nat ->
  exists s' n' t, let l' := registered names node t l in
    fs_register fuel chars node s = Done (tt, s') /\ root_dir n' names l' R s' /\ (n <= n')%nat /\
    entries names l' = match entries names l !! names node with
                       | Some _ => entries names l
                       | None => <[names node := node]> (entries names l)
                       end /\
    (forall dir q bs, cstr (mem s') q bs -> disjoint rootfs_lock 4 q (Z.of_nat (length bs) + 1) -> (length bs < chars)%nat ->
       exists s'', rootfs_finddir fuel chars dir q s' = Done (default 0 (entries names l' !! bs), s'') /\
         mem_eq (mem s'') (mem s')).
Proof.
  intros [Hdir (Hw & Hwl & Hwk) Hcnt] Hreg Hf. pose proof Hdir as [_ (Hg & Hk & Hgk) _ _ _ _].
  assert (HW : words root_nodes ((rootfs_lock, 4) :: counter_word (Some root_files)) R)
    by (eapply root_dir_words; split; [exact Hdir | done | exact Hcnt]).
  destruct (wp_register_run fuel chars n _ _ (Some root_files) _ _ _ _ _ Hdir Hreg HW) as (s' & n' & t & Hrun & Hdir' & Hn & Hc & _);
    [congruence | lia |].
  exists s', n', t. cbv zeta. split_and!.
  - exact Hrun.
  - split; [exact Hdir' | done |]. rewrite (Hc _ eq_refl). unfold registered.
    destruct (entries names l !! names node); [done|]. rewrite Hcnt, u32_add_l. f_equal. simpl. lia.
  - exact Hn.
  - apply entries_registered.
  - intros dir q bs Hq Hd Hch. destruct (wp_finddir_run fuel chars _ _ _ _ _ _ q bs _ Hdir' Hq Hd) as (s'' & Hr & He & _); [|done|].
    + unfold registered. destruct (entries names l !! names node); simpl; lia.
    + by exists s''.
Qed.

(** The device directory, which has no counter. *)
Lemma devfs_register_refines fuel chars n names l R node s :
  directory (Datatypes.S n) devlist devfs_lock names l R s -> registrable names chars R node s -> (length l < fuel)%nat ->
  exists s' n' t, let l' := registered names node t l in
    devfs_register fuel chars node s = Done (tt, s') /\ directory n' devlist devfs_lock names l' R s' /\ (n <= n')%nat /\
    entries names l' = match entries names l !! names node with
                       | Some _ => entries names l
                       | None => <[names node := node]> (entries names l)
                       end /\
    regions_kept [(devfs_lock, 4)] R (mem s) (mem s').
Proof.
  intros Hdir Hreg Hf. pose proof Hdir as [_ (Hg & Hk & Hgk) _ _ _ _].
  assert (HW : words devlist ((devfs_lock, 4) :: counter_word None) R).
  { intros r Hr. cbn [counter_word] in Hr. apply list_elem_of_singleton in Hr as ->. split_and!; (done || congruence). }
  destruct (wp_register_run fuel chars n _ _ None _ _ _ _ _ Hdir Hreg HW) as (s' & n' & t & Hrun & Hdir' & Hn & _ & Hkp); [done | lia |].
  exists s', n', t. cbv zeta. split_and!; [exact Hrun | exact Hdir' | exact Hn | apply entries_registered | exact Hkp].
Qed.

Lemma devfs_finddir_lookup fuel chars n names l R dir q bs s :
  directory n devlist devfs_lock names l R s -> cstr (mem s) q bs -> disjoint devfs_lock 4 q (Z.of_nat (length bs) + 1) ->
  (length l < fuel)%nat -> (length bs < chars)%nat ->
  exists s', devfs_finddir fuel chars dir q s = Done (default 0 (entries names l !! bs), s') /\ mem_eq (mem s') (mem s).
Proof.
  intros Hdir Hq Hd Hf Hc. destruct (wp_finddir_run fuel chars _ _ _ _ _ _ q bs _ Hdir Hq Hd Hf Hc) as (s' & Hr & He & _). eauto.
Qed.

(** The search of [devfs_readdir] for the entry [i], with [devfs_dirent] NULL. *)
Lemma wp_devfs_readdir_loop fuel chars names prev p l i c s (Q : Z -> S -> Prop) :
  dl_seg (mem s) prev p 0 l -> nonnull l -> named (mem s) names l ->
  (forall nv, nv ∈ l -> 0 <= nv.2 /\ (length (names nv.2) < chars)%nat /\ Z.of_nat (length (names nv.2)) < 128) ->
  (length l < fuel)%nat -> 0 <= c <= i -> c + Z.of_nat (length l) < 4294967296 -> i < 4294967296 ->
  ld32 (mem s) devfs_dirent = 0 -> 136 <= devfs_dirent ->
  (forall m, match l !! Z.to_nat (i - c) with
             | Some (_, v) => cstr m 0 (names v) /\ ld32 m 132 = i
             | None => m = mem s
             end -> Q 0 (set_mem m s)) ->
  wp (devfs_readdir_loop fuel chars p i c) Q s.
Proof.
  revert prev p c l. induction fuel as [|fuel IH]; intros prev p c l Hl Hnz Hn Hb Hf Hc Hlen Hi Hd0 Hd HQ; [lia|].
  cbn [devfs_readdir_loop]. destruct l as [|[t v] l].
  - cbn [dl_seg] in Hl. subst p. cbn [Z.eqb]. mstep. rewrite <- (set_mem_mem s). by apply HQ.
  - destruct Hl as (-> & _ & Hv & Hl). rewrite (proj2 (Z.eqb_neq t 0)) by (apply (Hnz t v); elem).
    destruct (Z.eqb_spec i c) as [->|Hne].
    + rewrite Z.sub_diag in HQ. cbn [lookup list_lookup Z.to_nat] in HQ. mstep. mstep. rewrite Hv. mstep. mstep. rewrite Hd0.
      destruct (Hb (t, v) ltac:(elem)) as (Hv0 & Hch & Hl128). cbn [snd] in *.
      assert (Hcs : cstr (mem s) v (names v)) by (apply (Hn (t, v)); elem).
      wp_step. eapply wp_strcpy; [exact Hcs | exact Hch | lia | unfold d_name; left; exact Hv0 |].
      intros m Hm [_ Hout]. unfold d_name in *. rewrite Z.add_0_l in Hout.
      assert (Hdm : ld32 m devfs_dirent = 0) by (rewrite <- Hd0; apply ld32_ext; intros b Hbb; apply Hout; lia).
      mstep. mstep. rewrite mem_set_mem, Hdm. mstep. mstep. unfold d_inode. rewrite mem_set_mem, set_mem_set_mem.
      mstep. rewrite mem_set_mem, ld32_st32_ne, Hdm by (unfold disjoint; lia). apply HQ. split.
      * eapply cstr_same; [exact Hm|]. intros b Hbb. apply ld8_st32_ne. lia.
      * rewrite ld32_st32_eq. apply u32_small. lia.
    + mstep. mstep. rewrite u32_small by (simpl in Hlen; lia). simpl in Hf, Hlen. eapply IH; [exact Hl | | | | lia | lia | lia | lia | exact Hd0 | exact Hd |].
      * intros n' v' Hin. apply (Hnz n' v'). elem.
      * intros nv Hin. apply Hn. elem.
      * intros nv Hin. apply Hb. elem.
      * replace (Z.to_nat (i - c)) with (Datatypes.S (Z.to_nat (i - (c + 1)))) in HQ by lia. exact HQ.
Qed.

(** [devfs_readdir] returns NULL for every index, because [devfs_dirent] is
    never set; for an existing entry it copies the name of the device to address
    0 and the index to address 132. *)
Theorem devfs_readdir_null fuel chars n names l R dir i s :
  directory n devlist devfs_lock names l R s ->
  (forall nv, nv ∈ l -> (length (names nv.2) < chars)%nat) ->
  (length l < fuel)%nat -> Z.of_nat (length l) < 4294967296 -> 0 <= i < 4294967296 ->
  ld32 (mem s) devfs_dirent = 0 -> 136 <= devfs_dirent -> 136 <= devfs_lock -> disjoint devfs_dirent 4 devfs_lock 4 ->
  exists s', devfs_readdir fuel chars dir i s = Done (0, s') /\
    match l !! Z.to_nat i with
    | Some (_, v) => cstr (mem s') 0 (names v) /\ ld32 (mem s') 132 = i
    | None => mem_eq (mem s') (mem s)
    end.
Proof.
  intros Hdir Hch Hf Hlen Hi Hd0 Hd Hlk Hdl. pose proof Hdir as [Hst _ Hl0 _ Hnodes _].
  destruct (directory_locked _ _ _ _ _ _ _ 1 Hdir) as (Hg & Hst1 & Hn1).
  apply wp_value. unfold devfs_readdir. wp_step. apply wp_spin_lock; [exact Hl0 | lia |]. mstep. mstep. mstep. mstep. rewrite mem_set_mem, Hg.
  pose proof Hst1 as [Hok [_ Hseg _]]. rewrite mem_set_mem in Hseg.
  wp_step. eapply (wp_devfs_readdir_loop _ _ names 0 _ l); try done.
  - by rewrite mem_set_mem.
  - by eapply list_state_nonnull.
  - by rewrite mem_set_mem.
  - intros nv Hin. destruct (Hnodes nv Hin) as [HR Hl].
    pose proof (heap_ok_start _ _ _ _ Hok (proj2 (elem_of_app _ _ _) (or_intror HR))). cbn [fst] in *. split_and!; [lia | by apply Hch | done].
  - lia.
  - lia.
  - rewrite mem_set_mem, ld32_st32_ne; [done | unfold disjoint in *; lia].
  - rewrite Z.sub_0_r. intros m Hm. unfold spin_unlock. mstep. mstep. wp_step.
    rewrite ?mem_set_mem, ?set_mem_set_mem. rewrite ?mem_set_mem. split; [done|].
    destruct (l !! Z.to_nat i) as [[t v]|] eqn:Hlookup.
    + destruct Hm as [Hc Hino]. pose proof (list_elem_of_lookup_2 _ _ _ Hlookup) as Hin. destruct (Hnodes _ Hin) as [_ Hl].
      cbn [snd] in Hl. split.
      * eapply cstr_same; [exact Hc|]. intros b Hb. apply ld8_st32_ne. lia.
      * rewrite ld32_st32_ne; [done | unfold disjoint; lia].
    + rewrite Hm, mem_set_mem. by apply st32_zero_again.
Qed.

Context `{!KmallocLaws S}.

(** [rootfs_readdir] returns a new entry with the name, the address and the
    flags of the node at a position of the list, and NULL beyond its end; the
    directory is unchanged. *)
Theorem rootfs_readdir_entry fuel chars n names l R dir i s :
  root_dir (9 + n) names l R s -> (length l < fuel)%nat -> Z.of_nat (length l) < 4294967296 -> 0 <= i < 4294967296 ->
  (forall nv, nv ∈ l -> (length (names nv.2) < chars)%nat) ->
  match l !! Z.to_nat i with
  | None => rootfs_readdir fuel chars dir i s = Done (0, s)
  | Some (_, v) => exists d s', rootfs_readdir fuel chars dir i s = Done (d, s') /\
      dirent_of (mem s') d (names v) v (ld32 (mem s) (fs_flags v)) i /\
      directory n root_nodes rootfs_lock names l ((d, SIZEOF_DIRENT) :: R) s' /\ d <> 0
  end.
Proof.
  intros [Hdir (Hw & Hwl & Hwk) Hcnt] Hf Hlen Hi Hch. pose proof Hdir as [Hst (Hg & Hk & Hgk) Hl0 Hn Hd _].
  pose proof Hst as [Hok [_ Hseg _]]. rewrite u32_small in Hcnt by lia.
  destruct (l !! Z.to_nat i) as [[t v]|] eqn:Hlk.
  2: { apply lookup_ge_None in Hlk. apply wp_done_inv. unfold rootfs_readdir. mstep. mstep.
       rewrite Hcnt, (proj2 (Z.leb_le _ _)) by lia. by mstep. }
  apply wp_run. unfold rootfs_readdir. mstep. mstep. pose proof (lookup_lt_Some _ _ _ Hlk).
  rewrite Hcnt, (proj2 (Z.leb_gt _ _)) by lia. mstep. mstep. mstep. eapply wp_get_node; [exact Hst | done..|].
  rewrite (node_at_some _ _ _ _ Hlk). mstep. mstep. rewrite (dl_seg_value_at _ _ _ _ _ _ _ _ Hseg Hlk).
  pose proof (list_elem_of_lookup_2 _ _ _ Hlk) as Hin. destruct (Hd _ Hin) as [HvR Hvl]. cbn [snd] in *.
  destruct (heap_ok_regions _ _ _ (v, SIZEOF_FS_NODE) Hok ltac:(apply elem_of_app; by right)) as [Hv4 Hv32].
  cbn [fst snd] in Hv4, Hv32. rewrite (proj2 (Z.eqb_neq v 0)) by lia. cbn [negb]. mstep. eapply (wp_kmalloc n); [exact Hok | done |].
  intros d s1 Hok1 Hs1. destruct (heap_ok_regions _ _ _ (d, SIZEOF_DIRENT) Hok1 ltac:(elem)) as [Hd4 Hd32].
  pose proof (heap_ok_separate _ _ _ Hok1) as [Hsep _]. specialize (Hsep (v, SIZEOF_FS_NODE) ltac:(apply elem_of_app; by right)).
  unfold apart, disjoint, SIZEOF_FS_NODE, SIZEOF_DIRENT in *. cbn [fst snd] in *.
  rewrite (proj2 (Z.eqb_neq d 0)) by lia. wp_step.
  assert (Hv1 : forall b, v <= b < v + 176 -> ld8 (mem s1) b = ld8 (mem s) b).
  { intros b Hb. apply Hs1, live_app. right. eapply live_in; [exact HvR|]. done. }
  assert (Hvs : cstr (mem s1) v (names v)) by (eapply cstr_same; [by apply (Hn (t, v)) | intros b Hb; apply Hv1; lia]).
  eapply wp_strcpy; [exact Hvs | by apply (Hch (t, v)) | lia | unfold d_name, fs_name; lia |].
  intros m Hmc [Hmi Hmo]. unfold d_name, fs_name, d_inode, d_offset, d_flags, fs_flags, spin_unlock in *.
  repeat (mstep; rewrite ?mem_set_mem, ?set_mem_set_mem). cbn beta.
  set (m1 := st32 (st32 (st32 m (d + 132) v) (d + 136) i) (d + 128) _).
  assert (Ht : touched [(d, 140)] (mem s1) m1).
  { intros b Hb _. assert (b < d \/ d + 140 <= b) by (destruct (decide (d <= b < d + 140)); [|lia];
      destruct Hb; eapply live_in; [elem | done]). unfold m1. rewrite !ld8_st32_ne by lia. apply Hmo. lia. }
  destruct (directory_new _ n _ _ _ _ _ _ _ _ _ _ Hdir Hok1 Hs1 Ht) as [Hdir1 _].
  pose proof (di_lock _ _ _ _ _ _ _ Hdir1) as Hl1. rewrite mem_set_mem in Hl1. pose proof (st32_zero_same _ _ Hl1) as He.
  assert (Hld : forall a, ld32 (st32 m1 rootfs_lock 0) a = ld32 m1 a) by (intros a; apply ld32_ext; intros b _; apply He).
  split_and!; [| | lia].
  - split; rewrite ?Hld; unfold d_name, d_inode, d_flags, d_offset.
    + eapply cstr_proper; [exact He | done | done |]. eapply cstr_same; [exact Hmc|]. intros b Hb. unfold m1.
      by rewrite !ld8_st32_ne by lia.
    + unfold m1. mem_simpl. apply u32_small. lia.
    + unfold m1. mem_simpl. rewrite u32_ld32. apply ld32_ext. intros b Hb. rewrite ?ld8_st32_ne by lia.
      rewrite Hmo by lia. apply Hv1. lia.
    + unfold m1. mem_simpl. apply u32_small. lia.
  - rewrite <- (set_mem_set_mem _ m1 s1). apply directory_mem_eq; [by rewrite mem_set_mem | exact Hdir1].
Qed.
End rootfs.
