(* ===== verification/Tarfs.v ===== *)
(** * fs/tarfs.c: the ramdisk

    The octal sizes of the headers, the walk over the archive, and the operations of
    its files and of its directory. *)

From S2P Require Export Rootfs.

(** ** include/fs/tarfs.h *)

Definition NUM_TARFILES : Z := 64.
Definition AREGTYPE : Z := 0.
Definition REGTYPE : Z := 48.

(** The fields of [struct tar_header] that the code reads. *)
Definition tar_name (h : Z) : Z := h.
Definition tar_size (h : Z) : Z := h + 124.
Definition tar_typeflag (h : Z) : Z := h + 156.

(** The addresses of the static variables of tarfs.c and of its functions. *)
Class TarfsGlobals := {
  headers : Z; tarfs_files : Z; tarfs_root : Z;
  tarfs_read_fn : Z; tarfs_readdir_fn : Z; tarfs_finddir_fn : Z;
}.

(** ** The code *)

Section tarfs_c.
Context {S : Type} `{HasMem S} `{!Allocator S} `{!Logger S} `{!FsGlobals} `{!TarfsGlobals}.

Fixpoint tar_getsize_loop (j : nat) (in_ size count : Z) : M S Z :=
  match j with
  | O => mret size
  | Datatypes.S j' =>
      c ← load8 (in_ + Z.of_nat j');
      tar_getsize_loop j' in_ (size +32 (s8 c - 48) * count) (count *32 8)
  end.

Definition tar_getsize (in_ : Z) : M S Z := tar_getsize_loop 11 in_ 0 1.

(** [headers[i]] *)
Definition header_slot (i : Z) : Z := headers + 4 * i.

(** The step from a header to the next one. *)
Definition next_header (address size : Z) : Z :=
  let address := address +32 (size / 512 + 1) * 512 in
  if negb (size mod 512 =? 0) then address +32 512 else address.

Fixpoint tar_parse_loop (fuel : nat) (address end_ : Z) : M S unit :=
  match fuel with
  | O => out_of_fuel
  | Datatypes.S fuel' =>
      c ← load8 (tar_name address);
      if c =? 0 then mret tt
      else
        size ← tar_getsize (tar_size address);
        i ← load32 tarfs_files;
        store32 (header_slot i) address;;
        let address := next_header address size in
        if end_ <? address then mret tt
        else
          i ← load32 tarfs_files;
          store32 tarfs_files (i +32 1);;
          tar_parse_loop fuel' address end_
  end.

Definition tar_parse (fuel : nat) (address end_ : Z) : M S unit :=
  store32 tarfs_files 0;;
  tar_parse_loop fuel address end_.

(** [offset] is an [int], [size] a [size_t]. *)
Definition tarfs_read (node offset size buffer : Z) : M S Z :=
  file_sz ← load32 (fs_length node);
  if file_sz <? u32 offset then mret 0
  else
    let size := if file_sz <? offset +32 size then file_sz -32 offset else size in
    inode ← load32 (fs_inode node);
    h ← load32 (header_slot inode);
    memcpy buffer (h +32 512) size;;
    mret (s32 size).

Definition tarfs_readdir (fuel chars : nat) (node index : Z) : M S Z :=
  nodes_list ← load32 (fs_inode node);
  entry ← list_get_node_by_index fuel nodes_list index;
  if entry =? 0 then mret 0
  else
    i_node ← load32 (n_value entry);
    d ← kmalloc_op SIZEOF_DIRENT;
    if d =? 0 then mret 0
    else
      strcpy chars (d_name d) (fs_name i_node);;
      ino ← load32 (fs_inode i_node);
      store32 (d_inode d) ino;;
      f ← load32 (fs_flags i_node);
      store32 (d_flags d) f;;
      store32 (d_offset d) index;;
      mret d.

Definition tarfs_finddir (fuel chars : nat) (node name : Z) : M S Z :=
  if name =? 0 then mret 0
  else
    nodes_list ← load32 (fs_inode node);
    d ← load32 (l_head nodes_list);
    found ← find_named fuel chars d name;
    mret (default 0 found).

(** The function pointers of a node. *)
Definition set_ops (node open close read write readdir finddir ioctl : Z) : M S unit :=
  store32 (fs_open node) open;;
  store32 (fs_close node) close;;
  store32 (fs_read node) read;;
  store32 (fs_write node) write;;
  store32 (fs_readdir node) readdir;;
  store32 (fs_finddir node) finddir;;
  store32 (fs_ioctl node) ioctl.

(** The body of the loop over the headers: [node] is the node of the previous
    round, and what is inserted when the header is not that of a regular file. *)
Definition tarfs_node (chars : nat) (i node : Z) : M S Z :=
  h ← load32 (header_slot i);
  t ← load8 (tar_typeflag h);
  if t =? AREGTYPE then mret node
  else if t =? REGTYPE then
    node ← kmalloc_op SIZEOF_FS_NODE;
    h ← load32 (header_slot i);
    strcpy chars (fs_name node) (tar_name h);;
    store32 (fs_flags node) FS_FILE;;
    store32 (fs_inode node) i;;
    h ← load32 (header_slot i);
    size ← tar_getsize (tar_size h);
    store32 (fs_length node) size;;
    now ← get_seconds dt;
    store32 (fs_atime node) now;;
    now ← load32 (fs_atime node);
    store32 (fs_ctime node) now;;
    set_ops node 0 0 tarfs_read_fn 0 0 0 0;;
    mret node
  else
    klog_op LevelPlain "tarfs: '%s' filetype (%c) not suported\n" [tar_name h; s8 t];;
    mret node.

Fixpoint tarfs_init_loop (fuel chars : nat) (i node : Z) : M S unit :=
  match fuel with
  | O => out_of_fuel
  | Datatypes.S fuel' =>
      files ← load32 tarfs_files;
      if i <? files then
        node ← tarfs_node chars i node;
        root ← load32 tarfs_root;
        list ← load32 (fs_inode root);
        list_insert_front list node;;
        tarfs_init_loop fuel' chars (i +32 1) node
      else mret tt
  end.

Definition tarfs_init (fuel chars : nat) (start end_ : Z) : M S unit :=
  klog_op LevelOk "Mounting ramdisk at /initrd\n" [];;
  tar_parse fuel start end_;;
  root ← kmalloc_op SIZEOF_FS_NODE;
  store32 tarfs_root root;;
  strcpy_literal (fs_name root) [105; 110; 105; 116; 114; 100];;
  store32 (fs_flags root) FS_DIRECTORY;;
  list ← list_create;
  store32 (fs_inode root) list;;
  now ← get_seconds dt;
  store32 (fs_atime root) now;;
  now ← load32 (fs_atime root);
  store32 (fs_ctime root) now;;
  set_ops root 0 0 0 0 tarfs_readdir_fn tarfs_finddir_fn 0;;
  tarfs_init_loop fuel chars 1 0;;
  root ← load32 tarfs_root;
  fs_register fuel chars root.
End tarfs_c.

(** ** Archives in memory *)

(** The eleven octal digits of [n] at [p], as tar writes them. *)
Definition octal_at (m : memory) (p n : Z) : Prop :=
  forall i, 0 <= i < 11 -> ld8 m (p + i) = 48 + n / 8 ^ (10 - i) mod 8.

(** The bytes a file of [n] bytes occupies with its header: whole blocks. *)
Definition occupied (n : Z) : Z := 512 + (n + 511) / 512 * 512.

(** An archive at [a] with files of the sizes [sizes], behind which a header without
    a name follows. *)
Fixpoint archive (m : memory) (a : Z) (sizes : list Z) : Prop :=
  match sizes with
  | [] => ld8 m a = 0
  | n :: sizes' =>
      ld8 m a <> 0 /\ 0 <= n < 4294967296 /\ octal_at m (tar_size a) n /\ archive m (a + occupied n) sizes'
  end.

(** Where the headers lie, and where the last one ends. *)
Fixpoint header_addr (a : Z) (sizes : list Z) (i : nat) : Z :=
  match sizes, i with
  | n :: sizes', Datatypes.S i' => header_addr (a + occupied n) sizes' i'
  | _, _ => a
  end.

Lemma next_header_step a n :
  0 <= n < 4294967296 -> 0 <= a -> a + occupied n < 4294967296 -> next_header a n = a + occupied n.
Proof.
  unfold next_header, occupied. intros Hn Ha Hb. rewrite (u32_small (a + (n / 512 + 1) * 512)) by (Z.div_mod_to_equations; lia).
  destruct (Z.eqb_spec (n mod 512) 0); cbn [negb]; [|rewrite u32_small by (Z.div_mod_to_equations; lia)]; Z.div_mod_to_equations; lia.
Qed.

Lemma archive_same m m' a sizes :
  archive m a sizes -> (forall b, a <= b <= header_addr a sizes (length sizes) -> ld8 m' b = ld8 m b) -> archive m' a sizes.
Proof.
  revert a. induction sizes as [|n sizes IH]; intros a Ha Hs; cbn [archive header_addr length] in *.
  - rewrite Hs by lia. done.
  - destruct Ha as (H1 & Hn & Ho & Ha).
    assert (Hle : a + occupied n <= header_addr (a + occupied n) sizes (length sizes)).
    { clear -Ha. revert a n Ha. induction sizes as [|k sizes IH]; intros a n Ha; cbn [header_addr length]; [lia|].
      destruct Ha as (_ & Hk & _ & Ha). specialize (IH _ _ Ha). assert (0 <= occupied k) by (unfold occupied; Z.div_mod_to_equations; lia). lia. }
    assert (Hocc : 512 <= occupied n) by (unfold occupied; Z.div_mod_to_equations; lia).
    split_and!.
    + rewrite Hs by lia. done.
    + lia.
    + lia.
    + intros i Hi. unfold tar_size. rewrite Hs by lia. by apply Ho.
    + apply IH; [exact Ha|]. intros b Hb. apply Hs. lia.
Qed.

Lemma header_addr_ge m a sizes i : archive m a sizes -> a <= header_addr a sizes i.
Proof.
  revert a i. induction sizes as [|n sizes IH]; intros a [|i] Ha; cbn [header_addr]; try lia.
  destruct Ha as (_ & Hn & _ & Ha). specialize (IH _ i Ha). unfold occupied in *. Z.div_mod_to_equations. lia.
Qed.

Section tarfs_specs.
Context {S : Type} `{MemLaws S}.

(** ** Sizes *)

Lemma wp_tar_getsize_loop j p size count v (Q : Z -> S -> Prop) s :
  (forall i, 0 <= i < Z.of_nat j -> ld8 (mem s) (p + i) = 48 + v / 8 ^ (Z.of_nat j - 1 - i) mod 8) ->
  0 <= v -> 0 <= size < 4294967296 ->
  Q (u32 (size + count * (v mod 8 ^ Z.of_nat j))) s -> wp (tar_getsize_loop j p size count) Q s.
Proof.
  revert size count v. induction j as [|j IH]; intros size count v Hd Hv Hsz HQ; cbn [tar_getsize_loop].
  - mstep. change (8 ^ Z.of_nat 0) with 1 in HQ. rewrite Z.mod_1_r, Z.mul_0_r, Z.add_0_r, u32_small in HQ by lia. exact HQ.
  - mstep. mstep. rewrite Hd by lia. replace (Z.of_nat (Datatypes.S j) - 1 - Z.of_nat j) with 0 by lia.
    rewrite Z.pow_0_r, Z.div_1_r.
    assert (Hs8 : s8 (48 + v mod 8) - 48 = v mod 8).
    { unfold s8. pose proof (Z.mod_pos_bound v 8 ltac:(lia)). rewrite u8_small by lia. rewrite (proj2 (Z.ltb_lt _ _)) by lia. lia. }
    rewrite Hs8. apply (IH _ _ (v / 8)).
    + intros i Hi. rewrite Hd by lia. do 2 f_equal. rewrite Z.div_div by (try apply Z.pow_pos_nonneg; lia).
      f_equal. rewrite <- Z.pow_succ_r by lia. f_equal. lia.
    + apply Z.div_pos; lia.
    + apply u32_range.
    + replace (u32 _) with (u32 (size + count * (v mod 8 ^ Z.of_nat (Datatypes.S j)))); [exact HQ|].
      rewrite Nat2Z.inj_succ, Z.pow_succ_r, Z.rem_mul_r by (try apply Z.pow_pos_nonneg; lia).
      rewrite u32_add_l. unfold u32. rewrite <- (Zplus_mod_idemp_r (_ mod 4294967296 * _)), Zmult_mod_idemp_l, Zplus_mod_idemp_r.
      f_equal. lia.
Qed.

Lemma wp_tar_getsize p n (Q : Z -> S -> Prop) s :
  octal_at (mem s) p n -> 0 <= n < 8 ^ 11 -> Q (u32 n) s -> wp (tar_getsize p) Q s.
Proof.
  intros Ho Hn HQ. unfold tar_getsize. apply (wp_tar_getsize_loop _ _ _ _ n); [|lia|lia|].
  - intros i Hi. rewrite Ho by lia. by replace (Z.of_nat 11 - 1 - i) with (10 - i) by lia.
  - change (8 ^ Z.of_nat 11) with (8 ^ 11). rewrite (Z.mod_small n) by lia. rewrite Z.add_0_l, Z.mul_1_l. exact HQ.
Qed.

(** [tar_getsize] reads back every size below 2^32 that the field holds in octal,
    and the larger ones that fit into eleven digits modulo 2^32. *)
Lemma tar_getsize_octal p n s :
  octal_at (mem s) p n -> 0 <= n < 8 ^ 11 -> tar_getsize p s = Done (n mod 4294967296, s).
Proof. intros Ho Hn. apply wp_done_inv. by eapply wp_tar_getsize. Qed.

Context `{!TarfsGlobals}.

(** ** The walk *)

(** The table of headers and the counter are apart from each other and from the
    archive. *)
Record parse_layout (a last k : Z) : Prop := {
  pl_counter : disjoint headers (4 * k) tarfs_files 4;
  pl_headers : headers + 4 * k <= a \/ last < headers;
  pl_files : tarfs_files + 4 <= a \/ last < tarfs_files;
  pl_end : 0 <= a /\ last < 4294967296;
}.

Lemma wp_tar_parse_loop fuel a end_ sizes i k s (Q : unit -> S -> Prop) :
  let last := header_addr a sizes (length sizes) in
  archive (mem s) a sizes -> parse_layout a last k -> last <= end_ ->
  ld32 (mem s) tarfs_files = i -> 0 <= i -> i + Z.of_nat (length sizes) <= k -> k < 4294967296 -> (length sizes < fuel)%nat ->
  (forall m, ld32 m tarfs_files = i + Z.of_nat (length sizes) ->
     (forall j, (j < length sizes)%nat -> ld32 m (header_slot (i + Z.of_nat j)) = header_addr a sizes j) ->
     (forall b, ~ (header_slot i <= b < header_slot (i + Z.of_nat (length sizes))) -> ~ (tarfs_files <= b < tarfs_files + 4) ->
        ld8 m b = ld8 (mem s) b) -> Q tt (set_mem m s)) ->
  wp (tar_parse_loop fuel a end_) Q s.
Proof.
  cbv zeta. revert a sizes i s. induction fuel as [|fuel IH]; intros a sizes i s Ha Hpl Hend Hi Hi0 Hk Hk32 Hf HQ; [lia|].
  cbn [tar_parse_loop]. mstep. mstep. unfold tar_name. destruct sizes as [|n sizes].
  - cbn [archive] in Ha. rewrite Ha. cbn [Z.eqb]. mstep. rewrite <- (set_mem_mem s). apply HQ.
    + simpl. lia.
    + simpl. intros j Hj. lia.
    + done.
  - pose proof Ha as (Hnm & Hn & Ho & Ha'). rewrite (proj2 (Z.eqb_neq _ _)) by done.
    mstep. simple eapply wp_tar_getsize; [exact Ho | lia |]. rewrite u32_small by lia.
    mstep. mstep. rewrite Hi. mstep. mstep. cbn [header_addr length] in Hpl, Hend.
    pose proof (header_addr_ge _ _ _ (length sizes) Ha') as Hge. simpl in Hk, Hf.
    destruct Hpl as [Hp1 Hp2 Hp3 Hp4].
    assert (Hocc : 512 <= occupied n) by (unfold occupied; Z.div_mod_to_equations; lia).
    rewrite next_header_step by lia. rewrite (proj2 (Z.ltb_ge _ _)) by lia.
    mstep. mstep. mstep. mstep. rewrite mem_set_mem, set_mem_set_mem.
    unfold disjoint in Hp1. rewrite ld32_st32_ne, Hi by (unfold disjoint, header_slot; lia). rewrite u32_small by lia.
    set (m1 := st32 _ tarfs_files _).
    assert (Hm1 : forall b, ~ (header_slot i <= b < header_slot i + 4) -> ~ (tarfs_files <= b < tarfs_files + 4) ->
      ld8 m1 b = ld8 (mem s) b) by (intros b Hx1 Hx2; unfold m1; rewrite !ld8_st32_ne by lia; done).
    apply (IH _ sizes (i + 1)); rewrite ?mem_set_mem.
    + eapply archive_same; [exact Ha'|]. intros b Hb. apply Hm1; unfold header_slot; lia.
    + split; unfold disjoint; lia.
    + lia.
    + unfold m1. rewrite ld32_st32_eq. apply u32_small. lia.
    + lia.
    + lia.
    + lia.
    + lia.
    + intros m Hm2 Hm3 Hm4. rewrite ?set_mem_set_mem. cbn [length] in HQ. apply HQ.
      * rewrite Hm2. lia.
      * intros [|j] Hj; cbn [header_addr].
        -- rewrite Z.add_0_r. transitivity (ld32 m1 (header_slot i)).
           ++ apply ld32_ext. intros b Hb. apply Hm4; unfold header_slot in *; lia.
           ++ unfold m1. rewrite ld32_st32_ne, ld32_st32_eq by (unfold disjoint, header_slot; lia). apply u32_small. lia.
        -- rewrite <- Hm3 by lia. f_equal. f_equal. lia.
      * intros b Hx1 Hx2. rewrite Hm4; [apply Hm1 | |]; unfold header_slot in *; lia.
Qed.

Lemma wp_tar_parse fuel a end_ sizes s (Q : unit -> S -> Prop) :
  let k := Z.of_nat (length sizes) in
  let last := header_addr a sizes (length sizes) in
  archive (mem s) a sizes -> parse_layout a last k -> last <= end_ -> k < 4294967296 -> (length sizes < fuel)%nat ->
  (forall m, ld32 m tarfs_files = k ->
    (forall j, (j < length sizes)%nat -> ld32 m (headers + 4 * Z.of_nat j) = header_addr a sizes j) ->
    (forall b, ~ (headers <= b < headers + 4 * k) -> ~ (tarfs_files <= b < tarfs_files + 4) -> ld8 m b = ld8 (mem s) b) ->
    Q tt (set_mem m s)) ->
  wp (tar_parse fuel a end_) Q s.
Proof.
  cbv zeta. intros Ha Hpl Hend Hk Hf HQ. unfold tar_parse. mstep. mstep.
  pose proof Hpl as [Hp1 Hp2 Hp3 Hp4]. pose proof (header_addr_ge _ _ _ (length sizes) Ha).
  apply (wp_tar_parse_loop _ _ _ sizes 0 (Z.of_nat (length sizes))); rewrite ?mem_set_mem; try done; try lia.
  - eapply archive_same; [exact Ha|]. intros b Hb. apply ld8_st32_ne. lia.
  - by rewrite ld32_st32_eq.
  - intros m Hx1 Hx2 Hx3. rewrite set_mem_set_mem. apply HQ; [exact Hx1 | |].
    + intros j Hj. rewrite <- Hx2 by done. done.
    + intros b Hb1 Hb2. rewrite Hx3; [apply ld8_st32_ne; lia | |]; unfold header_slot; lia.
Qed.

(** [tar_parse] of an archive that ends before [end_] terminates, counts the
    files and stores the address of every header in [headers], found by the octal
    sizes of the files before it; no other memory changes.  The array is not
    checked: with more than 64 files the words behind it are overwritten. *)
Theorem tar_parse_archive fuel a end_ sizes s :
  let k := Z.of_nat (length sizes) in
  let last := header_addr a sizes (length sizes) in
  archive (mem s) a sizes -> parse_layout a last k -> last <= end_ -> k < 4294967296 -> (length sizes < fuel)%nat ->
  exists s', tar_parse fuel a end_ s = Done (tt, s') /\ ld32 (mem s') tarfs_files = k /\
    (forall j, (j < length sizes)%nat -> ld32 (mem s') (headers + 4 * Z.of_nat j) = header_addr a sizes j) /\
    (forall b, ~ (headers <= b < headers + 4 * k) -> ~ (tarfs_files <= b < tarfs_files + 4) -> ld8 (mem s') b = ld8 (mem s) b) /\
    (NUM_TARFILES < k -> ld32 (mem s') (headers + 4 * NUM_TARFILES) = header_addr a sizes (Z.to_nat NUM_TARFILES)).
Proof.
  cbv zeta. intros Ha Hpl Hend Hk Hf.
  assert (Hwp : wp (tar_parse fuel a end_) (fun _ s' => ld32 (mem s') tarfs_files = Z.of_nat (length sizes) /\
    (forall j, (j < length sizes)%nat -> ld32 (mem s') (headers + 4 * Z.of_nat j) = header_addr a sizes j) /\
    (forall b, ~ (headers <= b < headers + 4 * Z.of_nat (length sizes)) -> ~ (tarfs_files <= b < tarfs_files + 4) ->
       ld8 (mem s') b = ld8 (mem s) b)) s).
  { apply (wp_tar_parse _ _ _ sizes); [done.. |]. intros m Hx1 Hx2 Hx3. by rewrite mem_set_mem. }
  apply wp_unit in Hwp as (s' & Hrun & Hx1 & Hx2 & Hx3). exists s'. split_and!; [done..|].
  intros Hmax. rewrite <- Hx2 by (unfold NUM_TARFILES in *; lia). done.
Qed.

(** ** Files *)

(** What a read of a file of [len] bytes delivers of a request. *)
Definition readable (len offset size : Z) : Z := Z.max 0 (Z.min size (len - offset)).

Lemma wp_tarfs_read node offset size buffer s (Q : Z -> S -> Prop) :
  let len := ld32 (mem s) (fs_length node) in
  let file := ld32 (mem s) (header_slot (ld32 (mem s) (fs_inode node))) + 512 in
  let n := readable len offset size in
  0 <= offset < 2147483648 -> 0 <= size -> offset + size < 4294967296 -> n < 2147483648 -> file < 4294967296 ->
  disjoint buffer n file n ->
  (forall m, filled (mem s) m buffer n (fun i => ld8 (mem s) (file + i)) -> Q n (set_mem m s)) ->
  wp (tarfs_read node offset size buffer) Q s.
Proof.
  cbv zeta. set (len := ld32 (mem s) (fs_length node)). set (h := ld32 (mem s) (header_slot _)). unfold readable, disjoint.
  intros Ho Hs Hos Hn Hh Hd HQ. pose proof (ld32_range (mem s) (fs_length node)) as Hlen. fold len in Hlen.
  pose proof (ld32_range (mem s) (header_slot (ld32 (mem s) (fs_inode node)))) as Hhr. fold h in Hhr.
  unfold tarfs_read. mstep. mstep. fold len. rewrite (u32_small offset) by lia.
  destruct (Z.ltb_spec len offset).
  - mstep. rewrite Z.max_l in HQ by lia. rewrite <- (set_mem_mem s). apply HQ. apply filled_0.
  - mstep. mstep. mstep. mstep. fold h. rewrite (u32_small (offset + size)), (u32_small (h + 512)) by lia.
    assert (Hmin : (if len <? offset + size then len -32 offset else size) = Z.max 0 (Z.min size (len - offset))).
    { destruct (Z.ltb_spec len (offset + size)); [rewrite u32_small by lia|]; lia. }
    rewrite Hmin. set (n := Z.max 0 _) in *. wp_step. simple apply wp_memcpy; [lia | lia |]. intros m Hm.
    mstep. replace (s32 n) with n; [by apply HQ|]. unfold s32. rewrite u32_small by lia. by rewrite (proj2 (Z.ltb_lt _ _)) by lia.
Qed.

(** C37: for a request whose end does not wrap, [tarfs_read] returns the number of
    bytes a read at that offset should deliver, copies that many bytes and changes
    no other memory; but the bytes are those from the start of the file, not from
    [offset]. *)
Theorem tarfs_read_ignores_offset node offset size buffer s :
  let len := ld32 (mem s) (fs_length node) in
  let file := ld32 (mem s) (header_slot (ld32 (mem s) (fs_inode node))) + 512 in
  let n := readable len offset size in
  0 <= offset < 2147483648 -> 0 <= size -> offset + size < 4294967296 -> n < 2147483648 -> file < 4294967296 ->
  disjoint buffer n file n ->
  exists s', tarfs_read node offset size buffer s = Done (n, s') /\
    (forall i, 0 <= i < n -> ld8 (mem s') (buffer + i) = ld8 (mem s) (file + i)) /\
    (forall a, a < buffer \/ buffer + n <= a -> ld8 (mem s') a = ld8 (mem s) a).
Proof.
  cbv zeta. intros Ho Hs Hos Hn Hh Hd. apply wp_value. apply wp_tarfs_read; [done..|].
  intros m [Hin Hout]. by rewrite mem_set_mem.
Qed.

Context `{!Allocator S} `{!CallocLaws S}.

(** [tarfs_finddir] answers by the map from names to nodes, and changes nothing. *)
Lemma tarfs_finddir_lookup fuel chars n names l R node q bs s :
  list_state n (ld32 (mem s) (fs_inode node)) l R s -> named (mem s) names l -> cstr (mem s) q bs -> q <> 0 ->
  (length l < fuel)%nat -> (length bs < chars)%nat ->
  tarfs_finddir fuel chars node q s = Done (default 0 (entries names l !! bs), s).
Proof.
  intros Hst Hn Hq Hq0 Hf Hc. apply wp_done_inv. unfold tarfs_finddir. rewrite (proj2 (Z.eqb_neq q 0)) by done.
  mstep. mstep. mstep. mstep. pose proof Hst as [_ [_ Hl _]]. wp_step.
  eapply wp_find_named; [exact Hl | by eapply list_state_nonnull | exact Hn | exact Hq | exact Hf | exact Hc |]. by mstep.
Qed.
End tarfs_specs.
