(* ===== verification/TarMount.v ===== *)
(** * fs/tarfs.c: mounting the ramdisk

    What [tarfs_init] makes of an archive of regular files: a directory registered
    under the name of the ramdisk, whose nodes find and read the files. *)

From S2P Require Export Tarfs.

(** A file of the archive: its name and its size. *)
Notation tarfile := (list Z * Z)%type.

(** The header at [h] is that of the regular file [f]. *)
Record tar_file (m : memory) (h : Z) (f : tarfile) : Prop := {
  tf_name : cstr m (tar_name h) f.1 /\ Z.of_nat (length f.1) < 100;
  tf_type : ld8 m (tar_typeflag h) = REGTYPE;
  tf_size : octal_at m (tar_size h) f.2 /\ 0 <= f.2 < 4294967296;
}.

Lemma tar_file_same m m' h f : (forall b, h <= b < h + 512 -> ld8 m' b = ld8 m b) -> tar_file m h f -> tar_file m' h f.
Proof.
  intros Hs [[Hn Hl] Ht [Ho Hr]]. unfold tar_name, tar_typeflag, tar_size in *. split; unfold tar_name, tar_typeflag, tar_size.
  - split; [|exact Hl]. eapply cstr_same; [exact Hn|]. intros b Hb. apply Hs. lia.
  - rewrite Hs by lia. exact Ht.
  - split; [|exact Hr]. intros i Hi. rewrite Hs by lia. by apply Ho.
Qed.

Ltac node_fields := unfold fs_name, fs_flags, fs_inode, fs_length, fs_atime, fs_ctime, fs_open, fs_close, fs_read, fs_write,
  fs_readdir, fs_finddir, fs_ioctl in *.

Section nodes.
Context `{!TarfsGlobals}.

(** The node at [v] is that of the file [f] with the header number [i]. *)
Record file_node (m : memory) (v i : Z) (f : tarfile) : Prop := {
  fd_name : cstr m (fs_name v) f.1 /\ Z.of_nat (length f.1) < 128;
  fd_file : ld32 m (fs_flags v) = FS_FILE /\ ld32 m (fs_inode v) = i /\ ld32 m (fs_length v) = f.2;
  fd_read : ld32 m (fs_read v) = u32 tarfs_read_fn;
  fd_ops p : p ∈ [fs_open; fs_close; fs_write; fs_readdir; fs_finddir; fs_ioctl] -> ld32 m (p v) = 0;
}.

Lemma file_node_same m m' v i f :
  (forall b, v <= b < v + SIZEOF_FS_NODE -> ld8 m' b = ld8 m b) -> file_node m v i f -> file_node m' v i f.
Proof.
  intros Hs [[Hn Hl] (H1 & H2 & H3) Hr Ho]. unfold SIZEOF_FS_NODE in Hs.
  assert (Hw : forall a, v <= a <= v + 172 -> ld32 m' a = ld32 m a) by (intros a Ha; apply ld32_ext; intros b Hb; apply Hs; lia).
  split.
  - split; [|exact Hl]. eapply cstr_same; [exact Hn|]. unfold fs_name in *. intros b Hb. apply Hs. lia.
  - node_fields. rewrite !Hw by lia. done.
  - node_fields. rewrite Hw by lia. done.
  - intros p Hp. rewrite Hw; [by apply Ho|]. rewrite !elem_of_cons, elem_of_nil in Hp. node_fields.
    destruct Hp as [->|[->|[->|[->|[->|[->|[]]]]]]]; lia.
Qed.

(** [m'] differs from [m] in the node at [v] only. *)
Definition node_written (v : Z) (m m' : memory) : Prop := forall b, b < v \/ v + SIZEOF_FS_NODE <= b -> ld8 m' b = ld8 m b.

Lemma node_written_touched v m m' : node_written v m m' -> touched [(v, SIZEOF_FS_NODE)] m m'.
Proof.
  intros Hw a Ha _. apply Hw. destruct (decide (v <= a < v + SIZEOF_FS_NODE)) as [Hin|]; [|lia].
  destruct Ha. apply live_cons. by left.
Qed.

Section setters.
Context {S : Type} `{MemLaws S}.

Lemma wp_get_seconds d (Q : Z -> S -> Prop) s : (forall t, Q t s) -> wp (get_seconds d) Q s.
Proof. intros HQ. unfold get_seconds. repeat mstep. apply HQ. Qed.

Lemma wp_set_ops node open close read write readdir finddir ioctl (Q : unit -> S -> Prop) s :
  (forall m, (ld32 m (fs_open node) = u32 open /\ ld32 m (fs_close node) = u32 close /\ ld32 m (fs_read node) = u32 read /\
      ld32 m (fs_write node) = u32 write /\ ld32 m (fs_readdir node) = u32 readdir /\ ld32 m (fs_finddir node) = u32 finddir /\
      ld32 m (fs_ioctl node) = u32 ioctl) ->
     (forall b, b < fs_open node \/ fs_open node + 28 <= b -> ld8 m b = ld8 (mem s) b) -> Q tt (set_mem m s)) ->
  wp (set_ops node open close read write readdir finddir ioctl) Q s.
Proof.
  intros HQ. unfold set_ops. repeat (mstep; rewrite ?mem_set_mem, ?set_mem_set_mem). apply HQ.
  - node_fields. split_and!; by mem_simpl.
  - node_fields. intros b Hb. by rewrite !ld8_st32_ne by lia.
Qed.
End setters.
End nodes.

(** ** One header *)

Section node.
Context {S : Type} `{MemLaws S} `{!Allocator S} `{!CallocLaws S} `{!KmallocLaws S} `{!Logger S} `{!FsGlobals} `{!TarfsGlobals}.

(** A new object lies apart from the live ones. *)
Lemma new_apart n v k L s b : heap_ok n ((v, k) :: L) s -> live L b -> b < v \/ v + k <= b.
Proof.
  intros Hok (r & Hr & Hb). pose proof (proj1 (heap_ok_separate _ _ _ Hok) r Hr) as Ha.
  unfold apart, disjoint, in_region in *. simpl in Ha. lia.
Qed.

Lemma wp_tarfs_node chars c L i node f s (Q : Z -> S -> Prop) :
  let h := ld32 (mem s) (header_slot i) in
  heap_ok (11 + c) L s -> 0 <= i < 4294967296 -> tar_file (mem s) h f -> (length f.1 < chars)%nat ->
  (forall b, header_slot i <= b < header_slot i + 4 \/ h <= b < h + 512 -> live L b) ->
  (forall v s', heap_ok c ((v, SIZEOF_FS_NODE) :: L) s' -> same_on (live L) (mem s) (mem s') -> file_node (mem s') v i f -> Q v s') ->
  wp (tarfs_node chars i node) Q s.
Proof.
  cbv zeta. set (h := ld32 (mem s) (header_slot i)). intros Hok Hi Hf Hch Hlive HQ. unfold tarfs_node. mstep. mstep. fold h. mstep. mstep.
  rewrite (tf_type _ _ _ Hf). change (REGTYPE =? AREGTYPE) with false. change (REGTYPE =? REGTYPE) with true. cbv match.
  wp_step. eapply wp_kmalloc; [exact Hok | done |]. intros v s1 Hok1 Hs1.
  destruct (heap_ok_regions _ _ _ (v, SIZEOF_FS_NODE) Hok1 ltac:(elem)) as [Hv4 Hv32]. cbn [fst snd] in Hv4, Hv32.
  assert (Hap : forall b, header_slot i <= b < header_slot i + 4 \/ h <= b < h + 512 -> b < v \/ v + SIZEOF_FS_NODE <= b)
    by (intros b Hb; by eapply new_apart, Hlive).
  assert (Hh : forall m, node_written v (mem s1) m -> ld32 m (header_slot i) = h /\ tar_file m h f).
  { intros m Hm. assert (Hb : forall b, header_slot i <= b < header_slot i + 4 \/ h <= b < h + 512 -> ld8 m b = ld8 (mem s) b)
      by (intros b Hb; rewrite Hm by auto; by apply Hs1, Hlive).
    split; [apply ld32_ext; intros b Hb'; apply Hb; by left | eapply tar_file_same; [|exact Hf]; intros b Hb'; apply Hb; by right]. }
  destruct (Hh (mem s1)) as [Hh1 [[Hn1 Hl1] _ _]]; [done|]. unfold SIZEOF_FS_NODE in *. mstep. mstep. rewrite Hh1.
  wp_step. simple eapply wp_strcpy; [exact Hn1 | exact Hch | lia | |].
  { unfold fs_name, tar_name. pose proof (Hap h ltac:(lia)). pose proof (Hap (h + Z.of_nat (length f.1)) ltac:(lia)). lia. }
  intros m2 Hc2 [_ Ho2]. node_fields. repeat (mstep; rewrite ?mem_set_mem, ?set_mem_set_mem).
  assert (Hw2 : node_written v (mem s1) (st32 (st32 m2 (v + 128) FS_FILE) (v + 132) i))
    by (unfold node_written, SIZEOF_FS_NODE; intros b Hb; rewrite !ld8_st32_ne, Ho2 by lia; done).
  destruct (Hh _ Hw2) as [Hh2 [_ _ [Hoct Hsz]]]. rewrite Hh2. simple eapply wp_tar_getsize; [by rewrite mem_set_mem | lia |].
  rewrite u32_small by lia. repeat (mstep; rewrite ?mem_set_mem, ?set_mem_set_mem). apply wp_get_seconds. intros now.
  repeat (mstep; rewrite ?mem_set_mem, ?set_mem_set_mem). apply wp_set_ops. rewrite ?mem_set_mem.
  intros m Hops Hm. rewrite ?set_mem_set_mem. mstep. node_fields.
  assert (Hw : node_written v (mem s1) m).
  { unfold node_written, SIZEOF_FS_NODE. intros b Hb. rewrite Hm by lia. rewrite !ld8_st32_ne, Ho2 by lia. done. }
  destruct (heap_ok_touched c [(v, SIZEOF_FS_NODE)] L s1 m Hok1) as [Hok3 Hs3]; [by apply node_written_touched|].
  apply HQ; [exact Hok3 | rewrite mem_set_mem; by etransitivity |]. rewrite mem_set_mem.
  assert (Hlow : forall a, a + 4 <= v + 148 -> ld32 m a = ld32 (st32 (st32 (st32 (st32 (st32 m2 (v + 128) FS_FILE) (v + 132) i) (v + 136) f.2)
    (v + 140) now) (v + 144) (ld32 (st32 (st32 (st32 (st32 m2 (v + 128) FS_FILE) (v + 132) i) (v + 136) f.2) (v + 140) now) (v + 140))) a)
    by (intros a Ha; apply ld32_ext; intros b Hb; apply Hm; lia).
  split; node_fields.
  - split; [|lia]. eapply cstr_same; [exact Hc2|]. intros b Hb. rewrite Hm by lia. by rewrite !ld8_st32_ne by lia.
  - rewrite !Hlow by lia. split_and!; mem_simpl; [done | by apply u32_small | by apply u32_small].
  - apply Hops.
  - destruct Hops as (Hp1 & Hp2 & Hp3 & Hp4 & Hp5 & Hp6 & Hp7). intros p Hp. rewrite !elem_of_cons, elem_of_nil in Hp.
    by destruct Hp as [->|[->|[->|[->|[->|[->|[]]]]]]].
Qed.
End node.

(** ** The loop over the headers *)

Section loop.
Context {S : Type} `{MemLaws S} `{!Allocator S} `{!CallocLaws S} `{!KmallocLaws S} `{!Logger S} `{!FsGlobals} `{!TarfsGlobals}.
(** The archive: its address, the size in its first header, and its other files. *)
Context (a n0 : Z) (files : list tarfile).

Definition archive_sizes : list Z := n0 :: files.*2.
Definition header_of_file (j : nat) : Z := header_addr a archive_sizes (Datatypes.S j).
Definition archive_length : Z := header_addr a archive_sizes (length archive_sizes) + 1 - a.
Definition inode_of (j : nat) : Z := Z.of_nat (Datatypes.S j).

(** The variables, headers and files as [tar_parse] leaves them, and where they are. *)
Record parsed (m : memory) : Prop := {
  pa_count : ld32 m tarfs_files = inode_of (length files);
  pa_header j f : files !! j = Some f ->
    ld32 m (header_slot (inode_of j)) = header_of_file j /\ tar_file m (header_of_file j) f /\
    a <= header_of_file j /\ header_of_file j + occupied f.2 < a + archive_length;
  pa_table : inode_of (length files) <= NUM_TARFILES;
}.

Definition tar_regions : list region := [(tarfs_files, 4); (headers, 4 * NUM_TARFILES); (a, archive_length)].

(** The state of the loop. *)
Record mounting (m : memory) (root lst : Z) (R : list region) : Prop := {
  mo_parsed : parsed m;
  mo_root : ld32 m tarfs_root = root /\ ld32 m (fs_inode root) = lst;
  mo_regions r : r ∈ (tarfs_root, 4) :: (root, SIZEOF_FS_NODE) :: tar_regions -> r ∈ R;
}.

(** The list [l] holds nodes for the first [j] files, the last one in front. *)
Fixpoint mounted (m : memory) (R : list region) (j : nat) (l : list (Z * Z)) : Prop :=
  match j, l with
  | O, [] => True
  | Datatypes.S j', (_, v) :: l' =>
      (v, SIZEOF_FS_NODE) ∈ R /\ (exists f, files !! j' = Some f /\ file_node m v (inode_of j') f) /\ mounted m R j' l'
  | _, _ => False
  end.

Lemma occupied_ge n : 0 <= n -> 512 + n <= occupied n.
Proof. intros Hn. unfold occupied. Z.div_mod_to_equations. lia. Qed.

Lemma header_range m j f : parsed m -> files !! j = Some f ->
  0 <= f.2 < 4294967296 /\ a <= header_of_file j /\ header_of_file j + 512 + f.2 < a + archive_length /\ inode_of j < NUM_TARFILES.
Proof.
  intros [_ Hh Ht] Hj. destruct (Hh j f Hj) as (_ & [_ _ [_ Hr]] & H1' & H2'). pose proof (occupied_ge f.2 ltac:(lia)).
  pose proof (lookup_lt_Some _ _ _ Hj). unfold inode_of in *. lia.
Qed.

Lemma parsed_same m m' : parsed m -> same_on (live tar_regions) m m' -> parsed m'.
Proof.
  intros Hp Hs. pose proof Hp as [Hc Hh Ht].
  assert (Hb : forall r b, r ∈ tar_regions -> in_region b r -> ld8 m' b = ld8 m b) by (intros r b Hr Hb; apply Hs; by eapply live_in).
  split; [| |exact Ht].
  - rewrite <- Hc. apply ld32_ext. intros b Hbb. apply (Hb (tarfs_files, 4)); [unfold tar_regions; elem | exact Hbb].
  - intros j f Hj. destruct (Hh j f Hj) as (Hs1 & Hs2 & Hs3 & Hs4). destruct (header_range m j f Hp Hj) as (Hr1 & Hr2 & Hr3 & Hr4).
    split_and!; [| |done..].
    + rewrite <- Hs1. apply ld32_ext. intros b Hbb. apply (Hb (headers, 4 * NUM_TARFILES)); [unfold tar_regions; elem|].
      unfold in_region, header_slot, inode_of in *. simpl. lia.
    + eapply tar_file_same; [|exact Hs2]. intros b Hbb. apply (Hb (a, archive_length)); [unfold tar_regions; elem|]. unfold in_region. simpl. lia.
Qed.

Lemma mounting_same m m' root lst R R' :
  mounting m root lst R -> same_on (live R) m m' -> (forall r, r ∈ R -> r ∈ R') -> mounting m' root lst R'.
Proof.
  intros [Hp [Hr Hl] Hin] Hs HR.
  assert (Hw : forall r p, r ∈ R -> r.1 <= p -> p + 4 <= r.1 + r.2 -> ld32 m' p = ld32 m p).
  { intros r p Hrr Hp1 Hp2. eapply ld32_same_on; [exact Hs|]. intros b Hb. eapply live_in; [exact Hrr|]. unfold in_region. lia. }
  split; [| |auto].
  - eapply parsed_same; [exact Hp|]. eapply same_on_weaken; [exact Hs|]. intros b (r & Hrr & Hb). apply (live_in r); [apply Hin; do 2 right; exact Hrr | exact Hb].
  - rewrite (Hw (tarfs_root, 4)), (Hw (root, SIZEOF_FS_NODE)) by first [apply Hin; elem | unfold fs_inode, SIZEOF_FS_NODE; simpl; lia]. done.
Qed.

Lemma mounted_kept m m' R R' j l :
  mounted m R j l ->
  (forall v, (v, SIZEOF_FS_NODE) ∈ R -> (v, SIZEOF_FS_NODE) ∈ R' /\ forall b, v <= b < v + SIZEOF_FS_NODE -> ld8 m' b = ld8 m b) ->
  mounted m' R' j l.
Proof.
  intros Hm Hk. revert l Hm. induction j as [|j IH]; intros [|[t v] l] Hm; try done.
  destruct Hm as (Hv & (f & Hf & Hn) & Hm). destruct (Hk v Hv) as [Hv' Hs]. split_and!; [exact Hv' | | by apply IH].
  exists f. split; [done|]. by eapply file_node_same.
Qed.

Lemma mounted_same m m' R R' j l :
  mounted m R j l -> same_on (live R) m m' -> (forall r, r ∈ R -> r ∈ R') -> mounted m' R' j l.
Proof.
  intros Hm Hs HR. eapply mounted_kept; [exact Hm|]. intros v Hv. split; [by apply HR|].
  intros b Hb. apply Hs. by apply (live_in (v, SIZEOF_FS_NODE)).
Qed.

Lemma wp_tarfs_init_loop fuel chars c j node root lst l R s (Q : unit -> S -> Prop) :
  list_state (12 * (length files - j) + c) lst l R s -> mounting (mem s) root lst R -> mounted (mem s) R j l ->
  (forall f, f ∈ files -> (length f.1 < chars)%nat) -> (j <= length files)%nat -> (length files - j < fuel)%nat ->
  (forall l' X s', list_state c lst l' (X ++ R) s' -> mounted (mem s') (X ++ R) (length files) l' ->
     same_on (live R) (mem s) (mem s') -> Q tt s') ->
  wp (tarfs_init_loop fuel chars (inode_of j) node) Q s.
Proof.
  revert j node l R s. induction fuel as [|fuel IH]; intros j node l R s Hst Hmo Hmd Hch Hj Hf HQ; [lia|].
  cbn [tarfs_init_loop]. mstep. mstep. pose proof (mo_parsed _ _ _ _ Hmo) as Hpa. rewrite (pa_count _ Hpa). destruct (Z.ltb_spec (inode_of j) (inode_of (length files))) as [Hlt|Hge].
  - assert (Hjl : (j < length files)%nat) by (unfold inode_of in Hlt; lia). destruct (lookup_lt_is_Some_2 files j Hjl) as [f Hfj].
    destruct (pa_header _ Hpa j f Hfj) as (Hs1 & Hs2 & _). destruct (header_range _ j f Hpa Hfj) as (Hr1 & Hr2 & Hr3 & Hr4).
    destruct Hst as [Hok Hdl].
    replace (12 * (length files - j) + c)%nat with (11 + Datatypes.S (12 * (length files - Datatypes.S j) + c))%nat in Hok by lia.
    wp_step. eapply wp_tarfs_node; [exact Hok | unfold inode_of, NUM_TARFILES in *; lia | rewrite Hs1; exact Hs2 | by eapply Hch, list_elem_of_lookup_2 | |].
    { rewrite Hs1. intros b [Hb|Hb].
      - apply live_app. right. apply (live_in (headers, 4 * NUM_TARFILES)); [apply (mo_regions _ _ _ _ Hmo); unfold tar_regions; elem|].
        unfold in_region, header_slot, inode_of, NUM_TARFILES in *. simpl. lia.
      - apply live_app. right. apply (live_in (a, archive_length)); [apply (mo_regions _ _ _ _ Hmo); unfold tar_regions; elem|].
        unfold in_region. simpl. lia. }
    intros v s1 Hok1 Hsame Hnode. destruct (heap_ok_regions _ _ _ (v, SIZEOF_FS_NODE) Hok1 ltac:(elem)) as [Hv4 Hv32]. cbn [fst snd] in Hv4, Hv32.
    assert (Hsr : same_on (live R) (mem s) (mem s1)) by (eapply same_on_weaken; [exact Hsame|]; intros b Hb; apply live_app; by right).
    set (R1 := (v, SIZEOF_FS_NODE) :: R). assert (Hsub : forall r, r ∈ R -> r ∈ R1) by (intros r Hr; unfold R1; elem).
    assert (Hst1 : list_state (Datatypes.S (12 * (length files - Datatypes.S j) + c)) lst l R1 s1).
    { split; [eapply heap_ok_permute; [|exact Hok1]; apply Permutation_middle|].
      eapply dlist_same; [|exact Hdl]. eapply same_on_weaken; [exact Hsame|]. intros b Hb. apply live_app. by left. }
    pose proof (mounting_same _ _ _ _ _ _ Hmo Hsr Hsub) as Hmo1. pose proof (mounted_same _ _ _ _ _ _ Hmd Hsr Hsub) as Hmd1.
    mstep. mstep. mstep. mstep. destruct (mo_root _ _ _ _ Hmo1) as [-> ->].
    wp_step. eapply wp_insert_front; [exact Hst1 | unfold SIZEOF_FS_NODE in Hv32; lia |]. intros t s2 Hst2 Hs2'.
    replace (inode_of j +32 1) with (inode_of (Datatypes.S j)) by (unfold inode_of, NUM_TARFILES in *; rewrite u32_small; lia).
    eapply IH; [exact Hst2 | by eapply mounting_same | | exact Hch | lia | lia |].
    + assert (Hn2 : file_node (mem s2) v (inode_of j) f).
      { eapply file_node_same; [|exact Hnode]. intros b Hb. apply Hs2'. apply live_cons. by left. }
      split; [unfold R1; elem|]. split; [by exists f | by eapply mounted_same].
    + intros l' X s' Hst' Hmd' Hs'. apply (HQ l' (X ++ [(v, SIZEOF_FS_NODE)]) s'); rewrite <- ?(assoc_L (++)); [exact Hst' | exact Hmd' |].
      intros b Hb. rewrite Hs', Hs2', Hsr; [done | exact Hb | |]; apply live_cons; by right.
  - assert (j = length files) as -> by (unfold inode_of in Hge; lia). wp_step.
    apply (HQ l [] s); [| exact Hmd | done]. rewrite Nat.sub_diag in Hst. exact Hst.
Qed.
End loop.

(** ** The names of the nodes *)

(** The string of fewer than [n] characters at [p]. *)
Fixpoint string_at (n : nat) (m : memory) (p : Z) : list Z :=
  match n with
  | O => []
  | Datatypes.S n' => if ld8 m p =? 0 then [] else ld8 m p :: string_at n' m (p + 1)
  end.

Lemma string_at_cstr n m p bs : cstr m p bs -> (length bs < n)%nat -> string_at n m p = bs.
Proof.
  revert p bs. induction n as [|n IH]; intros p [|b bs] Hc Hl; [simpl in Hl; lia | simpl in Hl; lia | |]; cbn [string_at].
  - simpl in Hc. by rewrite Hc.
  - destruct Hc as (Hb & Hb0 & Hc). rewrite Hb, (proj2 (Z.eqb_neq b 0)) by done. f_equal. apply IH; [exact Hc | simpl in Hl; lia].
Qed.

Definition node_names (m : memory) (v : Z) : list Z := string_at 128 m v.

Section names.
Context `{!TarfsGlobals} (files : list tarfile).

Lemma file_node_names m v i f : file_node m v i f -> node_names m v = f.1.
Proof. intros [[Hn Hl] _ _ _]. apply string_at_cstr; [exact Hn | lia]. Qed.

Lemma mounted_named m R j l : mounted files m R j l -> named m (node_names m) l.
Proof.
  revert l. induction j as [|j IH]; intros [|[t v] l] Hm; try done; [intros nv Hin; by apply not_elem_of_nil in Hin|].
  destruct Hm as (_ & (f & _ & Hn) & Hm). intros nv [->|Hin]%elem_of_cons; [|by apply (IH l)].
  cbn [snd]. rewrite (file_node_names _ _ _ _ Hn). apply (fd_name _ _ _ _ Hn).
Qed.

(** The nodes answer for the names of their files. *)
Lemma mounted_entries m R j l bs : mounted files m R j l ->
  match entries (node_names m) l !! bs with
  | Some v => (v, SIZEOF_FS_NODE) ∈ R /\ exists i f, (i < j)%nat /\ files !! i = Some f /\ f.1 = bs /\ file_node m v (inode_of i) f
  | None => forall i f, (i < j)%nat -> files !! i = Some f -> f.1 <> bs
  end.
Proof.
  revert l. induction j as [|j IH]; intros [|[t v] l] Hm; try done.
  { replace (entries (node_names m) [] !! bs) with (@None Z) by done. intros i f Hi. lia. }
  destruct Hm as (Hv & (f & Hf & Hn) & Hm). rewrite entries_cons, (file_node_names _ _ _ _ Hn).
  destruct (decide (f.1 = bs)) as [<-|Hne].
  - rewrite lookup_insert_eq. split; [exact Hv|]. exists j, f. split_and!; [lia | done..].
  - rewrite lookup_insert_ne by done. specialize (IH l Hm). destruct (entries (node_names m) l !! bs) as [w|].
    + destruct IH as (Hw & i & g & Hi & Hg). split; [exact Hw|]. exists i, g. split; [lia | exact Hg].
    + intros i g Hi Hg. destruct (decide (i = j)) as [->|]; [congruence | by apply (IH i); [lia|]].
Qed.

Lemma mounted_length m R j l : mounted files m R j l -> length l = j.
Proof. revert l. induction j as [|j IH]; intros [|[t v] l] Hm; try done. simpl. f_equal. by apply IH, Hm. Qed.
End names.

(** ** The root of the ramdisk *)

Definition initrd : list Z := [105; 110; 105; 116; 114; 100].

Section root.
Context {S : Type} `{MemLaws S} `{!Allocator S} `{!CallocLaws S} `{!KmallocLaws S} `{!FsGlobals} `{!TarfsGlobals}.

Record root_node (m : memory) (root lst : Z) : Prop := {
  rn_name : cstr m (fs_name root) initrd;
  rn_directory : ld32 m (fs_flags root) = FS_DIRECTORY /\ ld32 m (fs_inode root) = lst;
  rn_ops : ld32 m (fs_readdir root) = u32 tarfs_readdir_fn /\ ld32 m (fs_finddir root) = u32 tarfs_finddir_fn;
}.

Lemma root_node_same m m' root lst :
  (forall b, root <= b < root + SIZEOF_FS_NODE -> ld8 m' b = ld8 m b) -> root_node m root lst -> root_node m' root lst.
Proof.
  intros Hs [Hn [Hf Hi] [Ho1 Ho2]]. unfold SIZEOF_FS_NODE in Hs.
  assert (Hw : forall a, root <= a <= root + 172 -> ld32 m' a = ld32 m a) by (intros a Ha; apply ld32_ext; intros b Hb; apply Hs; lia).
  split; node_fields; rewrite ?Hw by lia; [|done..]. eapply cstr_same; [exact Hn|]. intros b Hb. apply Hs. simpl in Hb. lia.
Qed.

(** Memory with the name and the flags of the root in place. *)
Definition root_memory (m : memory) (v : Z) : memory :=
  st32 (st_bytes (st32 m tarfs_root v) (fs_name v) (initrd ++ [0])) (fs_flags v) FS_DIRECTORY.

Lemma root_memory_touched m v : touched [(tarfs_root, 4); (v, SIZEOF_FS_NODE)] m (root_memory m v).
Proof.
  unfold root_memory, fs_flags, SIZEOF_FS_NODE. eapply (touched_st32 _ _ _ (v, 176)); [|elem|simpl; lia|simpl; lia].
  eapply (touched_bytes _ _ _ (v, 176)); [|elem|unfold fs_name; simpl; lia|unfold fs_name; simpl; lia].
  eapply (touched_st32 _ _ _ (tarfs_root, 4)); [apply touched_refl|elem|simpl; lia|simpl; lia].
Qed.

Lemma root_memory_live (P : Z -> Prop) m m' v :
  same_on P m m' -> (forall b, P b -> b < v \/ v + SIZEOF_FS_NODE <= b) -> same_on P (st32 m tarfs_root v) (root_memory m' v).
Proof.
  intros Hs Hap b Hb. pose proof (Hap b Hb). unfold root_memory, fs_flags, fs_name, SIZEOF_FS_NODE in *.
  rewrite ld8_st32_ne, ld8_st_bytes_ne by (simpl; lia). by apply (same_on_st32_both _ _ _ _ _ Hs).
Qed.

Lemma root_memory_node m v : cstr (root_memory m v) (fs_name v) initrd /\ ld32 (root_memory m v) (fs_flags v) = FS_DIRECTORY.
Proof.
  unfold root_memory, fs_flags, fs_name. split; [|by rewrite ld32_st32_eq]. cbn [st_bytes app initrd cstr]. split_and!; by mem_simpl.
Qed.

(** The node and the list that are created before the loop. *)
Lemma wp_tarfs_root {A} n L s (K : M S A) (Q : A -> S -> Prop) :
  heap_ok (12 + n) L s -> (tarfs_root, 4) ∈ L ->
  (forall root lst s', list_state n lst [] ((root, SIZEOF_FS_NODE) :: L) s' ->
     same_on (live L) (st32 (mem s) tarfs_root root) (mem s') -> root_node (mem s') root lst -> wp K Q s') ->
  wp (root ← kmalloc_op SIZEOF_FS_NODE;
      store32 tarfs_root root;;
      strcpy_literal (fs_name root) [105; 110; 105; 116; 114; 100];;
      store32 (fs_flags root) FS_DIRECTORY;;
      list ← list_create;
      store32 (fs_inode root) list;;
      now ← get_seconds dt;
      store32 (fs_atime root) now;;
      now ← load32 (fs_atime root);
      store32 (fs_ctime root) now;;
      set_ops root 0 0 0 0 tarfs_readdir_fn tarfs_finddir_fn 0;;
      K) Q s.
Proof.
  intros Hok Hr HQ. wp_step. eapply (wp_kmalloc (Datatypes.S n)); [exact Hok | done |]. intros v s1 Hok1 Hs1.
  destruct (heap_ok_regions _ _ _ (v, SIZEOF_FS_NODE) Hok1 ltac:(elem)) as [Hv4 Hv32]. cbn [fst snd] in Hv4, Hv32.
  assert (Hap : forall b, live L b -> b < v \/ v + SIZEOF_FS_NODE <= b) by (intros b Hb; by eapply new_apart).
  repeat (mstep; rewrite ?mem_set_mem, ?set_mem_set_mem). unfold strcpy_literal. do 4 (mstep; rewrite ?mem_set_mem, ?set_mem_set_mem).
  change (st32 (st_bytes _ _ _) _ _) with (root_memory (mem s1) v). pose proof (root_memory_live _ _ _ v Hs1 Hap) as Hm1s.
  destruct (root_memory_node (mem s1) v) as [Hnm Hfl]. pose proof (root_memory_touched (mem s1) v) as Hm1.
  set (m1 := root_memory (mem s1) v) in *. unfold SIZEOF_FS_NODE in *. node_fields.
  assert (Hok2 : heap_ok (Datatypes.S n) ((v, 176) :: L) (set_mem m1 s1)).
  { apply heap_ok_write; [exact Hok1|]. eapply touched_weaken; [exact Hm1|].
    intros r [->|[->|[]%not_elem_of_nil]%elem_of_cons]%elem_of_cons; elem. }
  simple eapply wp_list_create; [exact Hok2 |]. rewrite mem_set_mem. intros lst s3 [Hok3 Hdl] Hs3.
  repeat (mstep; rewrite ?mem_set_mem, ?set_mem_set_mem). apply wp_get_seconds. intros now.
  repeat (mstep; rewrite ?mem_set_mem, ?set_mem_set_mem). apply wp_set_ops. rewrite ?mem_set_mem. intros m Hops Hm. rewrite ?set_mem_set_mem.
  node_fields. change (list_regions lst [] ++ (v, 176) :: L) with ((lst, SIZEOF_LIST) :: (v, 176) :: L) in Hok3.
  destruct (heap_ok_regions _ _ _ (lst, SIZEOF_LIST) Hok3 ltac:(elem)) as [Hl4 Hl32]. cbn [fst snd] in Hl4, Hl32. unfold SIZEOF_LIST in Hl32.
  assert (Hw : node_written v (mem s3) m).
  { unfold node_written, SIZEOF_FS_NODE. intros b Hb. rewrite Hm by lia. by rewrite !ld8_st32_ne by lia. }
  pose proof (node_written_touched _ _ _ Hw) as Ht. unfold SIZEOF_FS_NODE in Ht.
  assert (Hok4 : heap_ok n ([(v, 176)] ++ (lst, SIZEOF_LIST) :: L) s3) by (eapply heap_ok_permute; [|exact Hok3]; apply perm_swap).
  destruct (heap_ok_touched n [(v, 176)] _ s3 m Hok4 Ht) as [Hok5 Hs5].
  assert (Hlow : forall a, v <= a < v + 132 -> ld8 m a = ld8 m1 a).
  { intros a Ha. rewrite Hm, !ld8_st32_ne by lia. apply Hs3. apply live_cons. left. unfold in_region. simpl. lia. }
  apply (HQ v lst).
  - split; rewrite ?mem_set_mem.
    + eapply heap_ok_permute; [|exact Hok5]. apply perm_swap.
    + eapply dlist_same; [|exact Hdl]. intros b (r & ->%list_elem_of_singleton & Hb). apply Hs5. apply live_cons. by left.
  - rewrite mem_set_mem. intros b Hb. rewrite Hs5, Hs3, Hm1s; [done | exact Hb | |]; apply live_cons; by right.
  - rewrite mem_set_mem. split; node_fields.
    + eapply cstr_same; [exact Hnm|]. intros b Hb. apply Hlow. simpl in Hb. lia.
    + split; [rewrite <- Hfl; apply ld32_ext; intros b Hb; apply Hlow; lia|].
      erewrite ld32_ext by (intros b Hb; apply Hm; lia). mem_simpl. apply u32_small. lia.
    + split; apply Hops.
Qed.
End root.

(** ** Archives *)

Lemma archive_header m a sizes i n : archive m a sizes -> sizes !! i = Some n ->
  0 <= n < 4294967296 /\ octal_at m (tar_size (header_addr a sizes i)) n /\
  header_addr a sizes i + occupied n <= header_addr a sizes (length sizes).
Proof.
  revert a i. induction sizes as [|k sizes IH]; intros a i Ha Hi; [done|]. destruct Ha as (_ & Hk & Ho & Ha). cbn [header_addr length].
  destruct i as [|i]; simpl in Hi.
  - simplify_eq. split_and!; [lia | lia | exact Ho | by eapply header_addr_ge].
  - destruct (IH _ i Ha Hi) as (Hr & Hoct & Hle). auto.
Qed.

Section init.
Context {S : Type} `{MemLaws S} `{!Allocator S} `{!CallocLaws S} `{!KmallocLaws S} `{!Logger S} `{!LoggerLaws S} `{!FsGlobals} `{!TarfsGlobals}.
Context (a n0 : Z) (files : list tarfile).

Local Notation sizes := (archive_sizes n0 files).
Local Notation last_header := (header_addr a sizes (length sizes)).

(** The archive as the boot loader leaves it: a first header, which the code skips,
    and regular files with different names, no more than there is room for. *)
Record ramdisk (m : memory) (end_ : Z) (R : list region) : Prop := {
  rd_archive : archive m a sizes;
  rd_files j f : files !! j = Some f ->
    (cstr m (tar_name (header_of_file a n0 files j)) f.1 /\ Z.of_nat (length f.1) < 100) /\
    ld8 m (tar_typeflag (header_of_file a n0 files j)) = REGTYPE;
  rd_end : last_header <= end_;
  rd_names : NoDup files.*1;
  rd_table : inode_of (length files) <= NUM_TARFILES;
  rd_regions r : r ∈ (tarfs_root, 4) :: tar_regions a n0 files -> r ∈ R;
  rd_variables : NoDup [tarfs_files; tarfs_root; root_nodes; rootfs_lock; root_files];
}.

Lemma first_header m j f : archive m a sizes -> files !! j = Some f ->
  a <= header_of_file a n0 files j /\ header_of_file a n0 files j + occupied f.2 < a + archive_length a n0 files /\
  octal_at m (tar_size (header_of_file a n0 files j)) f.2 /\ 0 <= f.2 < 4294967296.
Proof.
  intros Ha Hj. destruct (archive_header m a sizes (Datatypes.S j) f.2 Ha) as (Hr & Ho & Hl).
  { unfold archive_sizes. simpl. by rewrite list_lookup_fmap, Hj. }
  unfold archive_length. split_and!; [by eapply header_addr_ge | unfold header_of_file; lia | exact Ho | lia | lia].
Qed.

Lemma ramdisk_same m m' end_ R R' : ramdisk m end_ R -> (forall b, a <= b < a + archive_length a n0 files -> ld8 m' b = ld8 m b) ->
  (forall r, r ∈ R -> r ∈ R') -> ramdisk m' end_ R'.
Proof.
  intros [Ha Hf He Hn Ht Hr Hv] Hs HR. unfold archive_length in Hs. split; [| |done|done|done|auto|done].
  - eapply archive_same; [exact Ha|]. intros b Hb. apply Hs. lia.
  - intros j f Hj. destruct (first_header m j f Ha Hj) as (Hx1 & Hx2 & _ & Hx3). pose proof (occupied_ge f.2 ltac:(lia)).
    destruct (Hf j f Hj) as [[Hc Hl] Hty]. unfold archive_length, tar_name, tar_typeflag in *. split; [split; [|exact Hl]|].
    + eapply cstr_same; [exact Hc|]. intros b Hb. apply Hs. lia.
    + rewrite Hs by lia. exact Hty.
Qed.

(** What [tar_parse] writes, and what the other functions write besides new objects. *)
Definition parse_writes : list region := [(headers, 4 * NUM_TARFILES); (tarfs_files, 4)].
Definition mount_writes : list region := (tarfs_root, 4) :: parse_writes.
Definition tar_writes : list region := mount_writes ++ [(rootfs_lock, 4); (root_files, 4)].

Lemma ramdisk_files m end_ R m' : ramdisk m end_ R -> (forall b, in_region b (a, archive_length a n0 files) -> ld8 m' b = ld8 m b) ->
  forall j f, files !! j = Some f -> tar_file m' (header_of_file a n0 files j) f.
Proof.
  intros Hrd Hs j f Hj. destruct (first_header m j f (rd_archive _ _ _ Hrd) Hj) as (H1' & H2' & Ho & Hr).
  destruct (rd_files _ _ _ Hrd j f Hj) as [Hn Ht]. pose proof (occupied_ge f.2 ltac:(lia)).
  eapply tar_file_same; [|by split]. intros b Hb. apply Hs. unfold in_region. simpl. lia.
Qed.

Lemma archive_length_ge m : archive m a sizes -> 513 <= archive_length a n0 files.
Proof.
  intros Ha. destruct (archive_header _ _ _ 0 n0 Ha eq_refl) as (Hr & _ & Hl). change (header_addr a sizes 0) with a in Hl.
  pose proof (occupied_ge n0 ltac:(lia)). unfold archive_length. lia.
Qed.

Lemma wp_parse_ramdisk fuel end_ n L R s (Q : unit -> S -> Prop) :
  heap_ok n (L ++ R) s -> ramdisk (mem s) end_ R -> (Datatypes.S (length files) < fuel)%nat ->
  (forall m, parsed a n0 files m -> touched parse_writes (mem s) m -> Q tt (set_mem m s)) ->
  wp (tar_parse fuel a end_) Q s.
Proof.
  intros Hok Hrd Hf HQ. pose proof Hrd as [Ha _ Hend _ Htb Hreg Hvar].
  assert (Hin : forall r, r ∈ (tarfs_root, 4) :: tar_regions a n0 files -> r ∈ L ++ R) by (intros r Hr; apply elem_of_app; right; by apply Hreg).
  assert (Hlen : length sizes = Datatypes.S (length files)) by (unfold archive_sizes; simpl; by rewrite length_fmap).
  pose proof (archive_length_ge _ Ha) as Hal.
  assert (Hsep : forall r r', r ∈ tar_regions a n0 files -> r' ∈ tar_regions a n0 files -> r.2 <> r'.2 -> apart r r').
  { intros r r' Hr Hr' Hne. eapply separate_elem; [by eapply heap_ok_separate | apply Hin; by right | apply Hin; by right | congruence]. }
  assert (Hap1 : apart (headers, 4 * NUM_TARFILES) (tarfs_files, 4)) by (apply Hsep; [unfold tar_regions; elem.. | done]).
  assert (Hap2 : apart (headers, 4 * NUM_TARFILES) (a, archive_length a n0 files))
    by (apply Hsep; [unfold tar_regions; elem.. | unfold NUM_TARFILES; simpl; lia]).
  assert (Hap3 : apart (tarfs_files, 4) (a, archive_length a n0 files)) by (apply Hsep; [unfold tar_regions; elem.. | simpl; lia]).
  destruct (heap_ok_regions _ _ _ (a, archive_length a n0 files) Hok ltac:(apply Hin; unfold tar_regions; elem)) as [Ha4 Ha32]. cbn [fst snd] in Ha4, Ha32.
  unfold apart, disjoint in Hap1, Hap2, Hap3. cbn [fst snd] in Hap1, Hap2, Hap3. unfold archive_length, NUM_TARFILES, inode_of in *.
  eapply (wp_tar_parse _ _ _ sizes); [exact Ha | | exact Hend | lia | lia |].
  { split; unfold disjoint; lia. }
  rewrite Hlen. intros m Hc Hh Hout. apply HQ.
  - split; unfold inode_of, NUM_TARFILES in *; [exact Hc | | exact Htb]. intros j f Hj. pose proof (lookup_lt_Some _ _ _ Hj).
    destruct (first_header (mem s) j f Ha Hj) as (Hx1 & Hx2 & _). split_and!; [apply Hh; lia | | exact Hx1 | exact Hx2].
    eapply ramdisk_files; [exact Hrd | | exact Hj]. unfold in_region, archive_length. cbn [fst snd]. intros b Hb. apply Hout; lia.
  - intros b Hb _. apply Hout; intros Hbb; destruct Hb; [apply (live_in (headers, 4 * NUM_TARFILES)) | apply (live_in (tarfs_files, 4))];
      unfold parse_writes; first [elem | unfold in_region, NUM_TARFILES; simpl; lia].
Qed.
(** ** The mounted disk *)

Record disk (n : nat) (root lst : Z) (l : list (Z * Z)) (R : list region) (s : S) : Prop := {
  dk_list : list_state n lst l R s;
  dk_root : root_node (mem s) root lst;
  dk_files : mounted files (mem s) R (length files) l;
  dk_parsed : parsed a n0 files (mem s);
}.

Lemma disk_finds fuel chars n root lst l R s q bs :
  disk n root lst l R s -> NoDup files.*1 -> cstr (mem s) q bs -> q <> 0 -> (length files < fuel)%nat -> (length bs < chars)%nat ->
  exists v, tarfs_finddir fuel chars root q s = Done (v, s) /\ (bs ∉ files.*1 -> v = 0) /\
    (forall j f, files !! j = Some f -> f.1 = bs -> v <> 0 /\ file_node (mem s) v (inode_of j) f).
Proof.
  intros [Hst Hroot Hmd _] Hnd Hq Hq0 Hf Hc. pose proof (proj2 (rn_directory _ _ _ Hroot)) as Hlst.
  exists (default 0 (entries (node_names (mem s)) l !! bs)). split.
  - apply (tarfs_finddir_lookup fuel chars n (node_names (mem s)) l R); [by rewrite Hlst | by eapply mounted_named | done | done | | done].
    by rewrite (mounted_length _ _ _ _ _ Hmd).
  - pose proof (mounted_entries _ _ _ _ _ bs Hmd) as He. destruct (entries (node_names (mem s)) l !! bs) as [v|]; cbn [default].
    + destruct He as (Hv & i & g & _ & Hg & Hgb & Hn). split.
      * intros Hno. destruct Hno. apply list_elem_of_fmap. exists g. split; [done | by eapply list_elem_of_lookup_2].
      * intros j f Hj Hfb. split.
        { change (v <> 0). pose proof (heap_ok_start _ _ _ _ (proj1 Hst) (proj2 (elem_of_app _ _ _) (or_intror Hv))) as Hv4. cbn [fst] in Hv4. lia. }
        assert (i = j) as ->; [|replace f with g by congruence; exact Hn].
        eapply (NoDup_lookup _ _ _ bs); [exact Hnd | |]; rewrite list_lookup_fmap; [rewrite Hg | rewrite Hj]; simpl; congruence.
    + split; [done|]. intros j f Hj Hfb. destruct (He j f); [by eapply lookup_lt_Some | done | done].
Qed.

Lemma disk_reads n root lst l R s v j f buffer :
  disk n root lst l R s -> a + archive_length a n0 files <= 4294967296 -> 0 <= a -> files !! j = Some f -> file_node (mem s) v (inode_of j) f ->
  f.2 < 2147483648 -> disjoint buffer f.2 (header_of_file a n0 files j + 512) f.2 ->
  exists s', tarfs_read v 0 f.2 buffer s = Done (f.2, s') /\
    forall i, 0 <= i < f.2 -> ld8 (mem s') (buffer + i) = ld8 (mem s) (header_of_file a n0 files j + 512 + i).
Proof.
  intros [_ _ _ Hpa] Ha32 Ha Hj [_ (_ & Hino & Hlen) _ _] Hsz Hd. destruct (pa_header _ _ _ _ Hpa j f Hj) as (Hs1 & _).
  destruct (header_range _ _ _ _ j f Hpa Hj) as (Hr1 & Hr2 & Hr3 & _).
  assert (Hrd : readable (ld32 (mem s) (fs_length v)) 0 f.2 = f.2) by (unfold readable; rewrite Hlen; lia).
  apply wp_value. eapply wp_tarfs_read; rewrite ?Hrd, ?Hino, ?Hs1; [lia | lia | lia | lia | lia | exact Hd |].
  intros m [Hin _]. rewrite mem_set_mem. split; [done | exact Hin].
Qed.
(** The addresses of the variables differ. *)
Lemma ramdisk_words m end_ R r : ramdisk m end_ R -> r ∈ mount_writes ->
  r ∈ R /\ (r ∉ root_words) /\ r.2 <> SIZEOF_FS_NODE.
Proof.
  intros Hrd Hr. assert (Hsz : r.2 <> SIZEOF_FS_NODE).
  { unfold mount_writes, parse_writes in Hr. rewrite !elem_of_cons, elem_of_nil in Hr. by destruct Hr as [->|[->|[->|[]]]]. }
  split_and!; [| |exact Hsz].
  - apply (rd_regions _ _ _ Hrd). unfold mount_writes, parse_writes, tar_regions in *. rewrite !elem_of_cons, elem_of_nil in *. tauto.
  - pose proof (rd_variables _ _ _ Hrd) as Hv. rewrite !NoDup_cons, !not_elem_of_cons in Hv. unfold root_words, mount_writes, parse_writes in *.
    rewrite !elem_of_cons, elem_of_nil in *. intros Hw. destruct Hr as [->|[->|[->|[]]]], Hw as [Hw|[Hw|[Hw|[]]]];
      pose proof (f_equal fst Hw); pose proof (f_equal snd Hw); cbn [fst snd] in *; unfold NUM_TARFILES in *; first [tauto | lia].
Qed.

Lemma ramdisk_root_apart n L m end_ R s r :
  heap_ok n (L ++ R) s -> ramdisk m end_ R -> r ∈ tar_regions a n0 files -> apart (tarfs_root, 4) r.
Proof.
  intros Hok Hrd Hr. pose proof (rd_regions _ _ _ Hrd) as Hin.
  eapply heap_ok_apart_in; [exact Hok | apply Hin; by left | apply Hin; by right |].
  pose proof (rd_variables _ _ _ Hrd) as Hv. rewrite !NoDup_cons, !not_elem_of_cons in Hv.
  pose proof (archive_length_ge _ (rd_archive _ _ _ Hrd)) as Hal.
  unfold tar_regions in Hr. rewrite !elem_of_cons, elem_of_nil in Hr. destruct Hr as [->|[->|[->|[]]]]; intros He;
    pose proof (f_equal fst He); pose proof (f_equal snd He); cbn [fst snd] in *; unfold NUM_TARFILES in *; first [tauto | lia].
Qed.

(** The start of the loop. *)
Lemma mounting_start n L m end_ R s m1 m2 root lst :
  heap_ok n (L ++ R) s -> ramdisk m end_ R -> parsed a n0 files m1 -> 0 <= root < 4294967296 ->
  same_on (live (L ++ R)) (st32 m1 tarfs_root root) m2 -> root_node m2 root lst ->
  mounting a n0 files m2 root lst ((root, SIZEOF_FS_NODE) :: L ++ R).
Proof.
  intros Hok Hrd Hpa Hr Hs Hrn. pose proof (rd_regions _ _ _ Hrd) as Hreg.
  assert (Hin : forall r, r ∈ (tarfs_root, 4) :: tar_regions a n0 files -> r ∈ L ++ R) by (intros r Hrr; apply elem_of_app; right; by apply Hreg).
  split.
  - eapply parsed_same; [exact Hpa|]. intros b (r & Hrr & Hb). rewrite Hs by (apply (live_in r); [apply Hin; by right | exact Hb]).
    pose proof (ramdisk_root_apart _ _ _ _ _ _ r Hok Hrd Hrr) as Ha. apply ld8_st32_ne.
    unfold apart, disjoint, in_region in *. simpl in Ha. lia.
  - split; [|apply (rn_directory _ _ _ Hrn)]. rewrite (ld32_same_on _ _ _ _ Hs); [rewrite ld32_st32_eq; by apply u32_small|].
    intros b Hb. apply (live_in (tarfs_root, 4)); [apply Hin; by left | exact Hb].
  - intros r Hrr. apply elem_of_cons in Hrr as [->|Hrr]; [right; apply Hin; by left|]. apply elem_of_cons in Hrr as [->|Hrr]; [by left|].
    right. apply Hin. by right.
Qed.

(** The root directory after the writes to the variables of tarfs.c. *)
Lemma mount_root_dir n names l R s end_ m1 root :
  root_dir n names l R s -> ramdisk (mem s) end_ R -> touched parse_writes (mem s) m1 ->
  let m2 := st32 m1 tarfs_root root in
  root_dir n names l R (set_mem m2 s) /\ ld32 m2 root_nodes = ld32 (mem s) root_nodes /\
  regions_kept mount_writes R (mem s) m2.
Proof.
  intros Hroot Hrd Hm1. cbv zeta. set (m2 := st32 m1 tarfs_root root). set (W := mount_writes).
  pose proof Hroot as [[[Hok _] _ _ _ _ _] _ _]. assert (HW : forall r, r ∈ W -> r ∈ R) by (intros r Hr; by eapply ramdisk_words).
  assert (Ht : touched W (mem s) m2).
  { unfold m2, W, mount_writes. eapply (touched_st32 _ _ _ (tarfs_root, 4)); [|elem|simpl; lia|simpl; lia].
    eapply touched_weaken; [exact Hm1|]. intros r Hr. by right. }
  assert (Hkeep : regions_kept W R (mem s) m2) by (eapply touched_kept; [exact Hok | exact Ht | exact HW]).
  split_and!.
  - eapply (root_dir_touched _ _ _ _ W); [exact Hroot | exact Ht | intros r Hr; by eapply ramdisk_words].
  - apply ld32_ext. intros b Hb. apply (Hkeep (root_nodes, 4)); [apply Hroot | | exact Hb].
    intros HnW. destruct (ramdisk_words _ _ _ _ Hrd HnW) as (_ & Hno & _). apply Hno. unfold root_words. elem.
  - exact Hkeep.
Qed.

(** Everything before the registration: the disk, next to the root directory. *)
Lemma wp_tarfs_mount fuel chars c end_ names l R s (K : M S unit) (Q : unit -> S -> Prop) :
  root_dir (12 + (12 * length files + c)) names l R s -> ramdisk (mem s) end_ R ->
  (Datatypes.S (length files) < fuel)%nat -> (forall f, f ∈ files -> (length f.1 < chars)%nat) ->
  (forall root lst l' X s', let Y := list_regions lst l' ++ X ++ [(root, SIZEOF_FS_NODE)] in
     root_dir c names l (Y ++ R) s' -> disk c root lst l' (X ++ (root, SIZEOF_FS_NODE) :: list_regions (ld32 (mem s) root_nodes) l ++ R) s' ->
     ld32 (mem s') tarfs_root = root -> regions_kept mount_writes R (mem s) (mem s') -> wp K Q s') ->
  wp (klog_op LevelOk "Mounting ramdisk at /initrd\n" [];;
      tar_parse fuel a end_;;
      root ← kmalloc_op SIZEOF_FS_NODE;
      store32 tarfs_root root;;
      strcpy_literal (fs_name root) [105; 110; 105; 116; 114; 100];;
      store32 (fs_flags root) FS_DIRECTORY;;
      list ← list_create;
      store32 (fs_inode root) list;;
      now ← get_seconds dt;
      store32 (fs_atime root) now;;
      now ← load32 (fs_atime root);
      store32 (fs_ctime root) now;;
      set_ops root 0 0 0 0 tarfs_readdir_fn tarfs_finddir_fn 0;;
      tarfs_init_loop fuel chars 1 0;;
      K) Q s.
Proof.
  intros Hroot Hrd Hf Hch HQ. set (rl := ld32 (mem s) root_nodes) in *. pose proof Hroot as [[[Hok _] _ _ _ _ _] _ _]. fold rl in Hok.
  wp_step. apply wp_klog. intros s0 Hm0 Hok0. specialize (Hok0 _ _ Hok).
  wp_step. eapply wp_parse_ramdisk; [exact Hok0 | rewrite Hm0; exact Hrd | exact Hf |]. rewrite Hm0. intros m1 Hpa Hm1.
  assert (Hsub : forall r, r ∈ mount_writes -> r ∈ R) by (intros r Hr; by eapply ramdisk_words).
  assert (Hok1 : heap_ok (12 + (12 * length files + c)) (list_regions rl l ++ R) (set_mem m1 s0)).
  { apply heap_ok_write; [exact Hok0|]. rewrite Hm0. eapply touched_weaken; [exact Hm1|]. intros r Hr. apply elem_of_app. right. apply Hsub. by right. }
  assert (Htr : (tarfs_root, 4) ∈ list_regions rl l ++ R) by (apply elem_of_app; right; apply Hsub; by left).
  eapply wp_tarfs_root; [exact Hok1 | exact Htr |]. rewrite mem_set_mem. intros root lst s2 Hst2 Hs2 Hrn.
  destruct Hst2 as [Hok2 Hdl2].
  destruct (heap_ok_regions _ _ _ (root, SIZEOF_FS_NODE) Hok2 ltac:(elem)) as [Hr4 Hr32]. cbn [fst snd] in Hr4, Hr32. unfold SIZEOF_FS_NODE in Hr32.
  assert (Hmo : mounting a n0 files (mem s2) root lst ((root, SIZEOF_FS_NODE) :: list_regions rl l ++ R))
    by (eapply mounting_start; [exact Hok0 | exact Hrd | exact Hpa | lia | exact Hs2 | exact Hrn]).
  wp_step. change 1 with (inode_of 0).
  eapply (wp_tarfs_init_loop a n0 files fuel chars c 0 0 root lst [] _ s2); [by rewrite Nat.sub_0_r | exact Hmo | done | exact Hch | lia | lia |].
  intros l' X s3 Hst3 Hmd3 Hs3. pose proof (mounting_same _ _ _ _ _ _ _ _ _ Hmo Hs3 (fun r Hr => Hr)) as Hmo3.
  destruct (mount_root_dir _ _ _ _ _ _ _ root Hroot Hrd Hm1) as (HD & Hrl & Harch). set (m2 := st32 m1 tarfs_root root) in *. fold rl in Hrl.
  assert (Hlive : same_on (live (list_regions rl l ++ R)) m2 (mem s3)) by (intros b Hb; rewrite Hs3 by (apply live_cons; by right); by apply Hs2).
  eapply (HQ root lst l' X); [| | exact (proj1 (mo_root _ _ _ _ _ _ _ Hmo3)) |].
  - eapply root_dir_extend; [exact HD | |]; rewrite mem_set_mem, Hrl; [|exact Hlive].
    destruct Hst3 as [Hok3 _]. rewrite <- !(assoc_L (++)). exact Hok3.
  - split; [exact Hst3 | | exact Hmd3 | exact (mo_parsed _ _ _ _ _ _ _ Hmo3)]. eapply root_node_same; [|exact Hrn].
    intros b Hb. apply Hs3. apply live_cons. by left.
  - intros r b Hr HrW Hb. rewrite Hlive by (apply live_app; right; by apply (live_in r)). by apply (Harch r).
Qed.

(** ** The registration *)

Lemma tar_region_other m end_ R r : ramdisk m end_ R -> r ∈ tar_regions a n0 files -> r ∉ root_words.
Proof.
  intros Hrd Hr. pose proof (archive_length_ge _ (rd_archive _ _ _ Hrd)) as Hal. unfold tar_regions in Hr.
  rewrite !elem_of_cons, elem_of_nil in Hr. destruct Hr as [->|[->|[->|[]]]].
  - eapply ramdisk_words; [exact Hrd | unfold mount_writes, parse_writes; elem].
  - eapply ramdisk_words; [exact Hrd | unfold mount_writes, parse_writes; elem].
  - unfold root_words. rewrite !elem_of_cons, elem_of_nil. intros [He|[He|[He|[]]]]; apply (f_equal snd) in He; cbn [snd] in He; lia.
Qed.

Lemma list_regions_size lst l r : r ∈ list_regions lst l -> r.2 = 12.
Proof.
  unfold list_regions. intros [->|Hr]%elem_of_cons; [done|]. by apply list_elem_of_fmap in Hr as (nv & -> & _).
Qed.

(** A registration next to the disk keeps it. *)
Lemma disk_registered n n' root lst l X R r1 r2 l1 l2 m end_ s s' :
  let Y := list_regions lst l ++ X ++ [(root, SIZEOF_FS_NODE)] in
  disk n root lst l (X ++ (root, SIZEOF_FS_NODE) :: list_regions r1 l1 ++ R) s -> ramdisk m end_ R ->
  heap_ok n' (list_regions r2 l2 ++ Y ++ R) s' -> regions_kept [(rootfs_lock, 4); (root_files, 4)] (Y ++ R) (mem s) (mem s') ->
  disk n' root lst l (X ++ (root, SIZEOF_FS_NODE) :: list_regions r2 l2 ++ R) s'.
Proof.
  cbv zeta. intros [[_ Hdl] Hrn Hmd Hpa] Hrd Hok Hkp.
  assert (Hout : forall r, (r ∈ root_words -> False) \/ r.2 <> 4 -> r ∉ [(rootfs_lock, 4); (root_files, 4)]).
  { intros r Hr Hin. rewrite !elem_of_cons, elem_of_nil in Hin. unfold root_words in Hr.
    destruct Hr as [Hr|Hr]; [apply Hr | apply Hr]; destruct Hin as [->|[->|[]]]; first [elem | done]. }
  assert (Hk : forall r b, r ∈ list_regions lst l ++ X ++ (root, SIZEOF_FS_NODE) :: R -> (r ∈ root_words -> False) \/ r.2 <> 4 -> in_region b r -> ld8 (mem s') b = ld8 (mem s) b).
  { intros r b Hr Ho Hb. apply (Hkp r); [|by apply Hout | exact Hb]. rewrite !elem_of_app, elem_of_cons in Hr. rewrite !elem_of_app, elem_of_cons. tauto. }
  split.
  - split.
    + eapply heap_ok_permute; [|exact Hok]. rewrite <- !(assoc_L (++)). rewrite (Permutation_app_comm (list_regions r2 l2)).
      rewrite <- !(assoc_L (++)). do 2 f_equiv. cbn [app]. f_equiv. apply Permutation_app_comm.
    + eapply dlist_same; [|exact Hdl]. intros b (r & Hr & Hb). eapply Hk; [by apply elem_of_app; left | right; by rewrite (list_regions_size _ _ _ Hr) | exact Hb].
  - eapply root_node_same; [|exact Hrn]. intros b Hb. apply (Hk (root, SIZEOF_FS_NODE)); [elem | by right | exact Hb].
  - eapply mounted_kept; [exact Hmd|]. intros v Hv.
    assert (Hv' : (v, SIZEOF_FS_NODE) ∈ X ++ (root, SIZEOF_FS_NODE) :: R).
    { rewrite !elem_of_app, !elem_of_cons, !elem_of_app in *. destruct Hv as [?|[?|[Hv|?]]]; [auto | auto | | auto].
      by apply list_regions_size in Hv. }
    split; [rewrite !elem_of_app, !elem_of_cons, !elem_of_app in *; tauto|].
    intros b Hb. apply (Hk (v, SIZEOF_FS_NODE)); [elem | by right | exact Hb].
  - eapply parsed_same; [exact Hpa|]. intros b (r & Hr & Hb).
    apply (Hk r); [|left; by eapply tar_region_other | exact Hb]. do 2 (apply elem_of_app; right). right. apply (rd_regions _ _ _ Hrd). by right.
Qed.
Lemma wp_tarfs_init fuel chars c end_ names l R s (Q : unit -> S -> Prop) :
  root_dir (12 + (12 * length files + Datatypes.S c)) names l R s -> ramdisk (mem s) end_ R -> entries names l !! initrd = None ->
  (length l < fuel)%nat -> (Datatypes.S (length files) < fuel)%nat -> (forall f, f ∈ files -> (length f.1 < chars)%nat) -> (6 < chars)%nat ->
  (forall root t lst l' R1 R2 s',
     root_dir c (renamed names root initrd) ((t, root) :: l) R1 s' ->
     entries (renamed names root initrd) ((t, root) :: l) = <[initrd := root]> (entries names l) ->
     disk c root lst l' R2 s' -> regions_kept tar_writes R (mem s) (mem s') -> Q tt s') ->
  wp (tarfs_init fuel chars a end_) Q s.
Proof.
  intros Hroot Hrd Hnew Hl Hf Hch H6 HQ. unfold tarfs_init.
  eapply (wp_tarfs_mount fuel chars (Datatypes.S c)); [exact Hroot | exact Hrd | exact Hf | exact Hch |].
  cbv zeta. intros root lst l' X s3 Hroot3 Hdisk Htr Hsame. mstep. mstep. rewrite Htr.
  set (Y := list_regions lst l' ++ X ++ [(root, SIZEOF_FS_NODE)]) in *.
  assert (HY : (root, SIZEOF_FS_NODE) ∈ Y) by (unfold Y; elem).
  pose proof Hroot3 as [[[Hok3 _] _ _ _ Hnodes _] _ _].
  assert (Hne : forall nv, nv ∈ l -> nv.2 <> root).
  { intros nv Hin He. pose proof Hroot as [[_ _ _ _ Hnodes0 _] _ _]. destruct (Hnodes0 nv Hin) as [HR _].
    pose proof (separate_app _ _ _ _ (separate_skip _ _ (heap_ok_separate _ _ _ Hok3)) HY HR) as Ha.
    unfold apart, disjoint, SIZEOF_FS_NODE in Ha. simpl in Ha. lia. }
  destruct (root_dir_names _ _ (renamed names root initrd) _ _ _ Hroot3) as [Hroot4 Hent].
  { intros nv Hin. by apply renamed_other, Hne. }
  assert (Hnr : renamed names root initrd root = initrd) by apply renamed_same.
  eapply wp_fs_register_new; [exact Hroot4 | | by rewrite Hnr, Hent | exact Hl |].
  { split; rewrite ?Hnr; [elem | exact (rn_name _ _ _ (dk_root _ _ _ _ _ _ Hdisk)) | done | done]. }
  intros t s4 Hroot5 Hkp. pose proof Hroot5 as [[[Hok5 _] _ _ _ _ _] _ _].
  eapply (HQ root t lst l'); [exact Hroot5 | by rewrite entries_cons, Hnr, Hent | by eapply disk_registered |].
  intros r b Hr HrW Hb. unfold tar_writes in HrW. rewrite elem_of_app in HrW.
  rewrite (Hkp r b); [apply (Hsame r); tauto | by apply elem_of_app; right | tauto | exact Hb].
Qed.
(** The archive is not written. *)
Lemma archive_kept m end_ R m' : ramdisk m end_ R -> regions_kept tar_writes R m m' ->
  forall b, a <= b < a + archive_length a n0 files -> ld8 m' b = ld8 m b.
Proof.
  intros Hrd Hk b Hb. apply (Hk (a, archive_length a n0 files)); [apply (rd_regions _ _ _ Hrd); unfold tar_regions; elem | | exact Hb].
  pose proof (archive_length_ge _ (rd_archive _ _ _ Hrd)). unfold tar_writes, mount_writes, parse_writes, NUM_TARFILES. cbn [app].
  rewrite !elem_of_cons, elem_of_nil. intros [He|[He|[He|[He|[He|[]]]]]]; apply (f_equal snd) in He; cbn [snd] in He; lia.
Qed.
End init.

