(* ===== verification/VfsMount.v ===== *)
(** * fs/vfs.c over the mounted ramdisk

    The functions whose addresses the file systems store in their nodes, as the calls
    that vfs.c makes, and what a client reads through them after [tarfs_init]. *)

From S2P Require Export TarMount.

Section calls.
Context {S : Type} `{HasMem S} `{!Allocator S} `{!Logger S} `{!FsGlobals} `{!TarfsGlobals} `{!VfsGlobals}.

(** The calls of vfs.c through function pointers: the functions of rootfs.c, devfs.c
    and tarfs.c at their addresses, and [others], those of the device files. *)
Definition fs_calls (fuel chars : nat) (others : FsCalls S) : FsCalls S := {|
  call_open := @call_open S others;
  call_close := @call_close S others;
  call_read f node offset size buffer :=
    if f =? tarfs_read_fn then tarfs_read node offset size buffer else @call_read S others f node offset size buffer;
  call_write := @call_write S others;
  call_readdir f node index :=
    if f =? rootfs_readdir_fn then rootfs_readdir fuel chars node index
    else if f =? devfs_readdir_fn then devfs_readdir fuel chars node index
    else if f =? tarfs_readdir_fn then tarfs_readdir fuel chars node index
    else @call_readdir S others f node index;
  call_finddir f node name :=
    if f =? rootfs_finddir_fn then rootfs_finddir fuel chars node name
    else if f =? devfs_finddir_fn then devfs_finddir fuel chars node name
    else if f =? tarfs_finddir_fn then tarfs_finddir fuel chars node name
    else @call_finddir S others f node name;
  call_ioctl := @call_ioctl S others;
|}.

(** A client that reads from the file [file] of the directory [dir]. *)
Definition read_path (calls : FsCalls S) (dir file offset size buffer : Z) : M S Z :=
  root ← get_fs_root;
  d ← finddir_fs root dir;
  v ← finddir_fs d file;
  read_fs v offset size buffer.
End calls.

(** The addresses of the functions. *)
Record distinct_functions `{!FsGlobals} `{!TarfsGlobals} : Prop := {
  df_range f : f ∈ [rootfs_finddir_fn; devfs_finddir_fn; tarfs_finddir_fn; tarfs_read_fn] -> 0 < f < 4294967296;
  df_distinct : tarfs_finddir_fn <> rootfs_finddir_fn /\ tarfs_finddir_fn <> devfs_finddir_fn;
}.

Section reads.
Context {S : Type} `{MemLaws S} `{!Allocator S} `{!CallocLaws S} `{!KmallocLaws S} `{!Logger S} `{!LoggerLaws S} `{!FsGlobals}
  `{!TarfsGlobals} `{!VfsGlobals}.
Context (fuel chars : nat) (others : FsCalls S).

Local Notation calls := (fs_calls fuel chars others).

(** The node of the root directory, as [vfs_init] leaves it. *)
Record root_open (m : memory) : Prop := {
  ro_node : ld32 m fs_root <> 0;
  ro_directory : Z.land (ld32 m (fs_flags (ld32 m fs_root))) FS_DIRECTORY <> 0;
  ro_finddir : ld32 m (fs_finddir (ld32 m fs_root)) = rootfs_finddir_fn;
}.

(** It and its variable are live, and the variable is none of those of tarfs.c. *)
Definition root_live (R : list region) (m : memory) : Prop :=
  (fs_root, 4) ∈ R /\ ((fs_root, 4) ∉ tar_writes) /\ (ld32 m fs_root, SIZEOF_FS_NODE) ∈ R.

Lemma root_open_kept R m m' : root_open m -> root_live R m -> regions_kept tar_writes R m m' -> root_open m'.
Proof.
  intros [Hn0 Hd Hf] (Hv & Hvw & Hn) Hk.
  assert (Hroot : ld32 m' fs_root = ld32 m fs_root) by (apply ld32_ext; intros b Hb; by apply (Hk (fs_root, 4))).
  assert (Hw : forall a, ld32 m fs_root <= a <= ld32 m fs_root + 172 -> ld32 m' a = ld32 m a).
  { intros a Ha. apply ld32_ext. intros b Hb. apply (Hk (ld32 m fs_root, SIZEOF_FS_NODE)); [exact Hn | | unfold in_region, SIZEOF_FS_NODE; simpl; lia].
    unfold tar_writes, mount_writes, parse_writes. cbn [app]. rewrite !elem_of_cons, elem_of_nil.
    intros [He|[He|[He|[He|[He|[]]]]]]; by apply (f_equal snd) in He. }
  split; rewrite ?Hroot; [done | |].
  - rewrite Hw by (unfold fs_flags; lia). exact Hd.
  - rewrite Hw by (unfold fs_finddir; lia). exact Hf.
Qed.

(** [finddir_fs] of a directory. *)
Lemma wp_finddir_fs node name (Q : Z -> S -> Prop) s :
  node <> 0 -> Z.land (ld32 (mem s) (fs_flags node)) FS_DIRECTORY <> 0 -> ld32 (mem s) (fs_finddir node) <> 0 ->
  wp (@call_finddir S calls (ld32 (mem s) (fs_finddir node)) node name) Q s ->
  wp (@finddir_fs S _ _ calls node name) Q s.
Proof.
  intros Hn Hd Hf HQ. unfold finddir_fs, directory_op. rewrite (proj2 (Z.eqb_neq node 0)) by done.
  mstep. mstep. mstep. rewrite (proj2 (Z.eqb_neq _ 0)) by done. cbn [negb]. mstep. mstep. mstep.
  rewrite (proj2 (Z.eqb_neq _ 0)) by done. cbn [negb]. mstep. mstep. exact HQ.
Qed.
Context (a n0 : Z) (files : list (list Z * Z)).

Lemma disk_mem_eq n root lst l R s m :
  mem_eq m (mem s) -> disk a n0 files n root lst l R s -> disk a n0 files n root lst l R (set_mem m s).
Proof.
  intros He [Hst Hr Hm Hp]. assert (Hs : forall P, same_on P (mem s) m) by (intros P b _; by rewrite He).
  split; rewrite ?mem_set_mem.
  - by apply list_state_mem_eq.
  - eapply root_node_same; [|exact Hr]. intros b _. by apply He.
  - eapply mounted_same; [exact Hm | apply Hs | done].
  - eapply parsed_same; [exact Hp | apply Hs].
Qed.

(** What holds after [tarfs_init] of the nodes a client passes through. *)
Record browsable (c n : nat) (root lst : Z) (names : Z -> list Z) (l l' : list (Z * Z)) (R1 R2 : list region) (s : S) : Prop := {
  br_root : root_dir n names l R1 s;
  br_entry : entries names l !! initrd = Some root;
  br_open : root_open (mem s);
  br_disk : disk a n0 files c root lst l' R2 s;
  br_length : (length l < fuel)%nat /\ (length files < fuel)%nat;
  br_names : root <> 0 /\ NoDup files.*1;
}.

(** The first step: from the root to the disk. *)
Lemma wp_find_disk c n root lst names l l' R1 R2 q s (Q : Z -> S -> Prop) :
  browsable c n root lst names l l' R1 R2 s -> distinct_functions ->
  cstr (mem s) q initrd -> disjoint rootfs_lock 4 q 7 -> (6 < chars)%nat ->
  (forall m, mem_eq m (mem s) -> Q root (set_mem m s)) ->
  wp (root ← get_fs_root; @finddir_fs S _ _ calls root q) Q s.
Proof.
  intros [[Hdir _ _] Hent [Hn0 Hd Hf] _ [Hl _] _] Hdf Hq Hqd Hch HQ.
  pose proof (df_range Hdf rootfs_finddir_fn ltac:(elem)) as Hfn.
  unfold get_fs_root. mstep. mstep. apply wp_finddir_fs; [exact Hn0 | exact Hd | rewrite Hf; lia |].
  rewrite Hf. cbn [call_finddir fs_calls]. rewrite Z.eqb_refl. unfold rootfs_finddir.
  eapply wp_locked_finddir; [exact Hdir | exact Hq | done | exact Hl | done |]. rewrite Hent. exact HQ.
Qed.

(** The second step: from the disk to the file. *)
Lemma wp_find_file c root lst l R q bs s (Q : Z -> S -> Prop) :
  disk a n0 files c root lst l R s -> root <> 0 -> NoDup files.*1 -> distinct_functions -> cstr (mem s) q bs -> q <> 0 ->
  (length files < fuel)%nat -> (length bs < chars)%nat ->
  (forall v, (bs ∉ files.*1 -> v = 0) ->
     (forall j f, files !! j = Some f -> f.1 = bs -> v <> 0 /\ file_node (mem s) v (inode_of j) f) -> Q v s) ->
  wp (@finddir_fs S _ _ calls root q) Q s.
Proof.
  intros Hdisk Hr0 Hnd Hdf Hq Hq0 Hf Hc HQ. pose proof (df_range Hdf tarfs_finddir_fn ltac:(elem)) as Hfn.
  destruct (df_distinct Hdf) as [Hd1 Hd2]. destruct (dk_root _ _ _ _ _ _ _ _ _ Hdisk) as [_ [Hfl _] [_ Hfd]].
  rewrite u32_small in Hfd by lia. apply wp_finddir_fs; [exact Hr0 | by rewrite Hfl | rewrite Hfd; lia |].
  rewrite Hfd. cbn [call_finddir fs_calls]. rewrite (proj2 (Z.eqb_neq _ _)), (proj2 (Z.eqb_neq _ devfs_finddir_fn)), Z.eqb_refl by done.
  destruct (disk_finds _ _ _ fuel chars _ _ _ _ _ _ q bs Hdisk Hnd Hq Hq0 Hf Hc) as (v & Hrun & Hnone & Hsome).
  eapply wp_done; [exact Hrun|]. by apply HQ.
Qed.

(** The third step: the file. *)
Lemma wp_read_file c root lst l R v j f buffer s (Q : Z -> S -> Prop) :
  disk a n0 files c root lst l R s -> 0 <= a -> a + archive_length a n0 files <= 4294967296 -> distinct_functions ->
  files !! j = Some f -> v <> 0 -> file_node (mem s) v (inode_of j) f ->
  f.2 < 2147483648 -> disjoint buffer f.2 (header_of_file a n0 files j + 512) f.2 ->
  (forall s', (forall i, 0 <= i < f.2 -> ld8 (mem s') (buffer + i) = ld8 (mem s) (header_of_file a n0 files j + 512 + i)) -> Q f.2 s') ->
  wp (@read_fs S _ calls v 0 f.2 buffer) Q s.
Proof.
  intros Hdisk Ha Ha32 Hdf Hj Hv0 Hn Hsz Hd HQ. pose proof (df_range Hdf tarfs_read_fn ltac:(elem)) as Hfn.
  pose proof (fd_read _ _ _ _ Hn) as Hrd. rewrite u32_small in Hrd by lia.
  unfold read_fs. rewrite (proj2 (Z.eqb_neq v 0)) by done. mstep. mstep. rewrite Hrd, (proj2 (Z.eqb_neq _ 0)) by lia. cbn [negb].
  mstep. mstep. rewrite Hrd. cbn [call_read fs_calls]. rewrite Z.eqb_refl.
  destruct (disk_reads _ _ _ _ _ _ _ _ _ v j f buffer Hdisk Ha32 Ha Hj Hn Hsz Hd) as (s' & Hrun & Hb).
  eapply wp_done; [exact Hrun|]. by apply HQ.
Qed.
(** The path to a file. *)
Lemma wp_open_path c n root lst names l l' R1 R2 q1 q2 bs s (K : Z -> M S Z) (Q : Z -> S -> Prop) :
  browsable c n root lst names l l' R1 R2 s -> distinct_functions -> (6 < chars)%nat -> (length bs < chars)%nat ->
  cstr (mem s) q1 initrd -> disjoint rootfs_lock 4 q1 7 -> cstr (mem s) q2 bs -> q2 <> 0 ->
  (forall m v, mem_eq m (mem s) -> disk a n0 files c root lst l' R2 (set_mem m s) -> (bs ∉ files.*1 -> v = 0) ->
     (forall j f, files !! j = Some f -> f.1 = bs -> v <> 0 /\ file_node m v (inode_of j) f) -> wp (K v) Q (set_mem m s)) ->
  wp (root ← get_fs_root; d ← @finddir_fs S _ _ calls root q1; v ← @finddir_fs S _ _ calls d q2; K v) Q s.
Proof.
  intros Hbr Hdf H6 Hch Hq1 Hd1 Hq2 Hq20 HQ. pose proof Hbr as [_ _ _ Hdisk [_ Hlf] [Hr0 Hnd]].
  change (wp (d ← (r ← get_fs_root; @finddir_fs S _ _ calls r q1); v ← @finddir_fs S _ _ calls d q2; K v) Q s). wp_step.
  simple eapply wp_find_disk; [exact Hbr | exact Hdf | exact Hq1 | exact Hd1 | exact H6 |]. intros m Hm. mstep.
  eapply wp_find_file; [by eapply disk_mem_eq | exact Hr0 | exact Hnd | exact Hdf | | exact Hq20 | exact Hlf | exact Hch |].
  { rewrite mem_set_mem. eapply cstr_same; [exact Hq2|]. intros b _. by apply Hm. }
  rewrite mem_set_mem. intros v Hnone Hfound. apply HQ; [exact Hm | by apply disk_mem_eq | exact Hnone | exact Hfound].
Qed.
End reads.

(** ** vfs_init *)

Section init.
Context {S : Type} `{MemLaws S} `{!Allocator S} `{!CallocLaws S} `{!KmallocLaws S} `{!Logger S} `{!LoggerLaws S} `{!FsGlobals}
  `{!TarfsGlobals} `{!VfsGlobals}.

(** The variables of the root directory before it exists: live, different and zero. *)
Record root_variables (R : list region) (m : memory) : Prop := {
  rv_live r : r ∈ (fs_root, 4) :: root_words -> r ∈ R;
  rv_distinct : NoDup [fs_root; root_nodes; rootfs_lock; root_files];
  rv_zero : ld32 m rootfs_lock = 0 /\ ld32 m root_files = 0;
}.

Definition vfs_writes : list region := [(root_nodes, 4); (fs_root, 4)].

Lemma wp_rootfs_init n R s (Q : Z -> S -> Prop) :
  heap_ok (12 + n) R s -> (root_nodes, 4) ∈ R -> 0 < rootfs_finddir_fn < 4294967296 ->
  (forall r lst s1, list_state n lst [] ((r, SIZEOF_FS_NODE) :: R) s1 -> 0 < r < 4294967296 -> 0 <= lst < 4294967296 ->
     ld32 (mem s1) (fs_flags r) = Z.lor FS_DIRECTORY FS_MOUNTPOINT -> ld32 (mem s1) (fs_finddir r) = rootfs_finddir_fn ->
     same_on (live R) (mem s) (mem s1) -> Q r (set_mem (st32 (mem s1) root_nodes lst) s1)) ->
  wp rootfs_init Q s.
Proof.
  intros Hok Hrn Hfn HQ. unfold rootfs_init. wp_step. eapply (wp_kcalloc_large (Datatypes.S n)); [exact Hok | done | done |].
  change (SIZEOF_FS_NODE * 1) with SIZEOF_FS_NODE. intros v s1 Hok1 _ Hs1.
  destruct (heap_ok_regions _ _ _ (v, SIZEOF_FS_NODE) Hok1 ltac:(elem)) as [Hv4 Hv32]. cbn [fst snd] in Hv4, Hv32. unfold SIZEOF_FS_NODE in *.
  unfold strcpy_literal. node_fields. do 18 (mstep; rewrite ?mem_set_mem, ?set_mem_set_mem).
  match goal with |- context [set_mem ?m s1] => set (m1 := m) end.
  assert (Hw : node_written v (mem s1) m1).
  { unfold node_written, m1, SIZEOF_FS_NODE. intros b Hb. by rewrite !ld8_st32_ne, ld8_st_bytes_ne by (simpl; lia). }
  destruct (heap_ok_touched _ [(v, 176)] R s1 m1 Hok1 (node_written_touched _ _ _ Hw)) as [Hok2 Hs2].
  assert (Hfl : ld32 m1 (v + 128) = Z.lor FS_DIRECTORY FS_MOUNTPOINT /\ ld32 m1 (v + 168) = rootfs_finddir_fn).
  { unfold m1. split; mem_simpl; [done | by apply u32_small; lia]. }
  clearbody m1. wp_step. simple eapply wp_list_create; [exact Hok2 |]. rewrite mem_set_mem. intros lst s3 [Hok3 Hdl] Hs3.
  destruct (heap_ok_regions _ _ _ (lst, 12) Hok3 ltac:(elem)) as [Hl4 Hl32]. cbn [fst snd] in Hl4, Hl32.
  assert (Hkept : forall a, v <= a <= v + 172 -> ld32 (mem s3) a = ld32 m1 a).
  { intros a Ha. eapply ld32_same_on; [exact Hs3|]. intros b Hb. apply live_cons. left. unfold in_region. simpl. lia. }
  mstep. mstep. mstep. apply HQ; [by split | lia | lia | rewrite Hkept by lia; apply Hfl | rewrite Hkept by lia; apply Hfl |].
  intros b Hb. rewrite Hs3 by (apply live_cons; by right). by rewrite Hs2, Hs1.
Qed.
(** The directory after both variables are set. *)
Lemma root_variables_set n names r lst R s :
  list_state n lst [] ((r, SIZEOF_FS_NODE) :: R) s -> root_variables R (mem s) -> 0 < r < 4294967296 -> 0 <= lst < 4294967296 ->
  ld32 (mem s) (fs_flags r) = Z.lor FS_DIRECTORY FS_MOUNTPOINT -> ld32 (mem s) (fs_finddir r) = rootfs_finddir_fn ->
  let m := st32 (st32 (mem s) root_nodes lst) fs_root r in
  ld32 m fs_root = r /\ root_dir n names [] ((r, SIZEOF_FS_NODE) :: R) (set_mem m s) /\ root_open m /\ regions_kept vfs_writes R (mem s) m.
Proof.
  intros Hst [Hlive Hv [Hz1 Hz2]] Hr Hl Hfl Hfd. cbv zeta. set (m := st32 _ fs_root r).
  rewrite !NoDup_cons, !not_elem_of_cons in Hv. destruct Hv as ((Hv1 & Hv2 & Hv3 & _) & (Hv4 & Hv5 & _) & (Hv6 & _) & _).
  assert (Hin : (fs_root, 4) ∈ R /\ (root_nodes, 4) ∈ R /\ (rootfs_lock, 4) ∈ R /\ (root_files, 4) ∈ R)
    by (split_and!; apply Hlive; unfold root_words; elem). destruct Hin as (Hfr & Hrn & Hlk & Hrf).
  pose proof Hst as [Hok1 _]. set (R1 := (r, SIZEOF_FS_NODE) :: R) in *.
  assert (Ht : touched vfs_writes (mem s) m).
  { unfold m, vfs_writes. eapply (touched_st32 _ _ _ (fs_root, 4)); [|elem|simpl; lia|simpl; lia].
    eapply (touched_st32 _ _ _ (root_nodes, 4)); [apply touched_refl|elem|simpl; lia|simpl; lia]. }
  assert (HW : forall x, x ∈ vfs_writes -> x ∈ R1) by (intros x [->|[->|[]%not_elem_of_nil]%elem_of_cons]%elem_of_cons; by right).
  assert (Hk : regions_kept vfs_writes R1 (mem s) m) by (eapply touched_kept; [exact Hok1 | exact Ht | exact HW]).
  assert (Hw : forall x a, x ∈ R1 -> x ∉ vfs_writes -> x.1 <= a -> a + 4 <= x.1 + x.2 -> ld32 m a = ld32 (mem s) a)
    by (intros x a Hx Hxw Ha1 Ha2; apply ld32_ext; intros b Hb; apply (Hk x); [exact Hx | exact Hxw | unfold in_region; lia]).
  assert (Hno : forall x, x.1 <> root_nodes /\ x.1 <> fs_root \/ x.2 <> 4 -> x ∉ vfs_writes)
    by (intros x Hx [->|[->|[]%not_elem_of_nil]%elem_of_cons]%elem_of_cons; cbn [fst snd] in Hx; tauto).
  assert (Hap : apart (fs_root, 4) (root_nodes, 4)) by (eapply heap_ok_apart_in; [exact Hok1 | by right | by right | intros He; apply (f_equal fst) in He; cbn [fst] in He; congruence]).
  assert (Hroot : ld32 m fs_root = r) by (unfold m; rewrite ld32_st32_eq; apply u32_small; lia).
  assert (Hnodes : ld32 m root_nodes = lst) by (unfold m; rewrite ld32_st32_ne by exact Hap; rewrite ld32_st32_eq; by apply u32_small).
  unfold fs_flags, fs_finddir, SIZEOF_FS_NODE in *. split_and!; [exact Hroot | | |].
  - split; [split|..]; rewrite ?mem_set_mem.
    + rewrite Hnodes. apply list_state_write; [exact Hst|]. by eapply touched_weaken.
    + split_and!; [by right | by right | congruence].
    + rewrite (Hw (rootfs_lock, 4)) by (first [by right | apply Hno; left; cbn [fst]; split; congruence | simpl; lia]). exact Hz1.
    + intros nv Hnv. by apply not_elem_of_nil in Hnv.
    + intros nv Hnv. by apply not_elem_of_nil in Hnv.
    + constructor.
    + split_and!; [by right | congruence | congruence].
    + rewrite (Hw (root_files, 4)) by (first [by right | apply Hno; left; cbn [fst]; split; congruence | simpl; lia]). by rewrite Hz2.
  - split; rewrite Hroot; [lia | |]; unfold fs_flags, fs_finddir; rewrite (Hw (r, 176)) by (first [by left | apply Hno; by right | simpl; lia]); by rewrite ?Hfl.
  - intros x b Hx. apply Hk. by right.
Qed.

(** [vfs_init] leaves an empty, well-formed root directory that can be opened. *)
Theorem vfs_init_root n names R s :
  heap_ok (12 + n) R s -> root_variables R (mem s) -> 0 < rootfs_finddir_fn < 4294967296 ->
  exists r s', vfs_init s = Done (tt, s') /\ ld32 (mem s') fs_root = r /\ root_dir n names [] ((r, SIZEOF_FS_NODE) :: R) s' /\
    root_open (mem s') /\ regions_kept vfs_writes R (mem s) (mem s').
Proof.
  intros Hok Hrv Hfn. pose proof Hrv as [Hlive Hd [Hz1 Hz2]].
  assert (Hwp : wp vfs_init (fun _ s' => exists r, ld32 (mem s') fs_root = r /\ root_dir n names [] ((r, SIZEOF_FS_NODE) :: R) s' /\
    root_open (mem s') /\ regions_kept vfs_writes R (mem s) (mem s')) s).
  { unfold vfs_init. wp_step. apply wp_klog. intros s0 Hm0 Hok0. wp_step.
    eapply wp_rootfs_init; [exact (Hok0 _ _ Hok) | apply Hlive; unfold root_words; elem | exact Hfn |].
    rewrite Hm0. intros r lst s1 Hst Hr Hl Hfl Hfd Hs1. mstep. rewrite mem_set_mem, set_mem_set_mem. exists r.
    assert (Hw : forall w, (w, 4) ∈ R -> ld32 (mem s1) w = ld32 (mem s) w)
      by (intros w Hw; eapply ld32_same_on; [exact Hs1|]; intros b Hb; by apply (live_in (w, 4))).
    destruct (root_variables_set n names r lst R s1 Hst) as (H1' & H2' & H3' & H4'); [|done..|].
    { split; [exact Hlive | exact Hd |]. rewrite !Hw by (apply Hlive; unfold root_words; elem). done. }
    rewrite !mem_set_mem. split_and!; [exact H1' | exact H2' | exact H3' |].
    intros x b Hx Hxw Hb. rewrite (H4' x b Hx Hxw Hb). apply Hs1. by apply (live_in x). }
  apply wp_unit in Hwp as (s' & Hrun & r & H'). by exists r, s'.
Qed.
End init.

