(* ===== verification/DevFiles.v ===== *)
(** * fs/devices: the device files

    The serial, null, port and random devices: their read and write functions, and
    their registration in the device directory of Rootfs.v. *)

From S2P Require Export Rootfs Serial.

(** ** null.c *)

Section null_c.
Context {S : Type}.

Definition read_null (node offset size buf : Z) : M S Z := mret (s32 size).
Definition write_null (node offset size buf : Z) : M S Z := mret (s32 size).
End null_c.

(** ** port.c *)

Section port_c.
Context {S : Type} `{HasIo S} `{HasMem S}.

Definition read_port (node offset size buf : Z) : M S Z :=
  (if size =? 1 then v ← inb offset; store8 buf v
   else if size =? 2 then v ← inw offset; store16 buf v
   else if size =? 4 then v ← inl_port offset; store32 buf v
   else for_loop (Z.to_nat size) 0 (fun i => v ← inb (offset +32 i); store8 (buf +32 i) v));;
  mret (s32 size).

Definition write_port (node offset size buf : Z) : M S Z :=
  (if size =? 1 then v ← load8 buf; outb offset v
   else if size =? 2 then v ← load16 buf; outw offset v
   else if size =? 4 then v ← load32 buf; outl offset v
   else for_loop (Z.to_nat size) 0 (fun i => v ← load8 (buf +32 i); outb (offset +32 i) v));;
  mret (s32 size).
End port_c.

(** ** com.c *)

(** [com_lock] is the address of the lock. *)
Definition read_com (node offset size buf : Z) : M serial Z :=
  for_loop (Z.to_nat size) 0 (fun i => c ← serial_getc; store8 (buf + i) c);;
  mret (s32 size).

Definition write_com (polls : nat) (com_lock node offset size buf : Z) : M serial Z :=
  spin_lock polls com_lock;;
  for_loop (Z.to_nat size) 0 (fun i => c ← load8 (buf + i); serial_putc polls c);;
  spin_unlock com_lock;;
  mret (s32 size).

(** ** rand.c *)

Definition PHI : Z := 0x9e3779b9.

(** The static variables [Q], [c] and [i], with the memory. *)
Record random := Random { rnd_mem : memory; rnd_Q : gmap Z Z; rnd_c : Z; rnd_i : Z }.

#[export] Instance HasMem_random : HasMem random := {|
  mem := rnd_mem;
  set_mem m s := Random m (rnd_Q s) (rnd_c s) (rnd_i s);
|}.
#[export] Instance MemLaws_random : MemLaws random.
Proof. split; [done | by intros [] | done]. Qed.

(** [Q[i]] and [Q[i] = v] *)
Definition Q_at (s : random) (i : Z) : Z := default 0 (rnd_Q s !! i).
Definition set_Q (i v : Z) : M random unit :=
  modify (fun s => Random (rnd_mem s) (<[i := u32 v]> (rnd_Q s)) (rnd_c s) (rnd_i s)).
Definition set_c (v : Z) : M random unit := modify (fun s => Random (rnd_mem s) (rnd_Q s) (u32 v) (rnd_i s)).
Definition set_i (v : Z) : M random unit := modify (fun s => Random (rnd_mem s) (rnd_Q s) (rnd_c s) (u32 v)).

Definition init_rand (x : Z) : M random unit :=
  set_Q 0 x;;
  set_Q 1 (x + PHI);;
  set_Q 2 (x + PHI + PHI);;
  for_loop 4093 3 (fun i =>
    a ← gets (fun s => Q_at s (i - 3));
    b ← gets (fun s => Q_at s (i - 2));
    set_Q i (Z.lxor (Z.lxor (Z.lxor a b) PHI) i)).

Definition rand : M random Z :=
  i ← gets rnd_i;
  set_i (Z.land (i +32 1) 4095);;
  i ← gets rnd_i;
  q ← gets (fun s => Q_at s i);
  c ← gets rnd_c;
  let t := u64 (18782 * q + c) in
  set_c (Z.shiftr t 32);;
  c ← gets rnd_c;
  let x := u32 (t + c) in
  x ← (if x <? c then set_c (c + 1);; mret (x +32 1) else mret x);
  set_Q i (0xfffffffe - x);;
  mret (0xfffffffe -32 x).

Definition write_random (node offset size buffer : Z) : M random Z := mret (s32 size).

Definition read_random (node offset size buffer : Z) : M random Z :=
  for_loop (Z.to_nat size) 0 (fun s => v ← rand; store8 (buffer + s) v);;
  mret (s32 size).

(** ** Registration *)

(** The addresses of the functions that the device nodes store. *)
Class DevGlobals := {
  read_com_fn : Z; write_com_fn : Z; read_null_fn : Z; write_null_fn : Z;
  read_port_fn : Z; write_port_fn : Z; read_random_fn : Z; write_random_fn : Z;
}.

Section create.
Context {S : Type} `{HasMem S} `{!Allocator S} `{!Logger S} `{!FsGlobals} `{!DevGlobals}.

(** The statements the four [_device_create] functions share, up to the name and the
    functions; [extra] is what only the random device does. *)
Definition device_create (fuel chars : nat) (name : list Z) (len : option Z) (read write : Z) (extra : M S unit) : M S unit :=
  node ← kmalloc_op SIZEOF_FS_NODE;
  strcpy_literal (fs_name node) name;;
  store32 (fs_flags node) FS_CHARDEVICE;;
  match len with Some n => store32 (fs_length node) n | None => mret tt end;;
  store32 (fs_inode node) 0;;
  now ← get_seconds dt;
  store32 (fs_atime node) now;;
  now ← load32 (fs_atime node);
  store32 (fs_ctime node) now;;
  store32 (fs_open node) 0;;
  store32 (fs_close node) 0;;
  store32 (fs_read node) read;;
  store32 (fs_write node) write;;
  store32 (fs_ioctl node) 0;;
  extra;;
  devfs_register fuel chars node.

Definition com_device_create (fuel chars : nat) (device : Z) : M S unit :=
  device_create fuel chars [99; 111; 109; 48] None read_com_fn write_com_fn (mret tt).
Definition null_device_create (fuel chars : nat) : M S unit :=
  device_create fuel chars [110; 117; 108; 108] None read_null_fn write_null_fn (mret tt).
Definition port_device_create (fuel chars : nat) : M S unit :=
  device_create fuel chars [112; 111; 114; 116] None read_port_fn write_port_fn (mret tt).

(** [seed] is the call of [init_rand], whose state is apart from the one here. *)
Definition random_device_create (fuel chars : nat) (seed : Z -> M S unit) : M S unit :=
  device_create fuel chars [114; 97; 110; 100] (Some 1024) read_random_fn write_random_fn
    (now ← get_seconds dt; seed now).

(** [devfs_init] of devfs.c. *)
Definition devfs_init (fuel chars : nat) (seed : Z -> M S unit) : M S unit :=
  klog_op LevelOk "Initializing devFS\n" [];;
  devfs ← kmalloc_op SIZEOF_FS_NODE;
  strcpy_literal (fs_name devfs) [100; 101; 118];;
  store32 (fs_flags devfs) (Z.lor FS_DIRECTORY FS_MOUNTPOINT);;
  store32 (fs_inode devfs) 0;;
  now ← get_seconds dt;
  store32 (fs_atime devfs) now;;
  now ← load32 (fs_atime devfs);
  store32 (fs_ctime devfs) now;;
  store32 (fs_open devfs) 0;;
  store32 (fs_close devfs) 0;;
  store32 (fs_read devfs) 0;;
  store32 (fs_write devfs) 0;;
  store32 (fs_readdir devfs) devfs_readdir_fn;;
  store32 (fs_finddir devfs) devfs_finddir_fn;;
  store32 (fs_ioctl devfs) 0;;
  fs_register fuel chars devfs;;
  list ← list_create;
  store32 devlist list;;
  com_device_create fuel chars PORT_COM1;;
  null_device_create fuel chars;;
  port_device_create fuel chars;;
  random_device_create fuel chars seed.
End create.

(** ** The serial device *)

(** a read of [com0] takes the oldest bytes out of the receive queue, as many
    as it asks for; when the queue has fewer it fills the buffer with zero bytes,
    and it reports the requested size all the same. *)
Theorem read_com_drains node offset size buf s :
  queue_wf s -> 0 <= size < 2147483648 ->
  exists s', read_com node offset size buf s = Done (size, s') /\ queue_wf s' /\
    queue_list s' = drop (Z.to_nat size) (queue_list s) /\
    (forall i, 0 <= i < size -> ld8 (mem s') (buf + i) = u8 (default 0 (queue_list s !! Z.to_nat i))) /\
    (forall a, a < buf \/ buf + size <= a -> ld8 (mem s') a = ld8 (mem s) a).
Proof.
  intros Hwf Hsz. apply wp_value. unfold read_com. wp_step.
  apply (wp_for_loop (fun k s' => queue_wf s' /\ queue_list s' = drop (Z.to_nat k) (queue_list s) /\
    (forall i, 0 <= i < k -> ld8 (mem s') (buf + i) = u8 (default 0 (queue_list s !! Z.to_nat i))) /\
    (forall a, a < buf \/ buf + k <= a -> ld8 (mem s') a = ld8 (mem s) a))).
  - split_and!; [done | by rewrite drop_0 | lia | done].
  - intros k s1 Hk (Hw & Hq & Hin & Hout). wp_step.
    assert (Hstep : forall c s2, queue_wf s2 -> queue_list s2 = drop (Z.to_nat (k + 1)) (queue_list s) -> mem s2 = mem s1 ->
      c = default 0 (queue_list s !! Z.to_nat k) ->
      wp (store8 (buf + k) c) (fun _ s' => queue_wf s' /\ queue_list s' = drop (Z.to_nat (k + 1)) (queue_list s) /\
        (forall i, 0 <= i < k + 1 -> ld8 (mem s') (buf + i) = u8 (default 0 (queue_list s !! Z.to_nat i))) /\
        (forall a, a < buf \/ buf + (k + 1) <= a -> ld8 (mem s') a = ld8 (mem s) a)) s2).
    { intros c s2 Hw2 Hq2 Hm2 Hc. simple apply wp_store8. split_and!; [exact Hw2 | exact Hq2 | |].
      - intros i Hi. rewrite mem_set_mem, Hm2. destruct (decide (i = k)) as [->|Hne].
        + rewrite ld8_st8_eq, Hc. done.
        + rewrite ld8_st8_ne by lia. apply Hin. lia.
      - intros a Ha. rewrite mem_set_mem, Hm2, ld8_st8_ne by lia. apply Hout. lia. }
    replace (Z.to_nat (k + 1)) with (Z.to_nat k + 1)%nat in Hstep by lia. rewrite <- drop_drop, <- Hq in Hstep.
    assert (Hk0 : forall x, queue_list s1 !! 0%nat = x -> queue_list s !! Z.to_nat k = x)
      by (intros x <-; rewrite Hq, lookup_drop; f_equal; lia).
    replace (Z.to_nat (k + 1)) with (Z.to_nat k + 1)%nat by lia. rewrite <- drop_drop, <- Hq.
    apply wp_serial_getc; [exact Hw | |].
    + intros He. apply Hstep; [done | by rewrite He | done |]. by rewrite (Hk0 None) by (by rewrite He).
    + intros c cs s2 Hc Hcs Hw2 _ Hm2. apply Hstep; [done | by rewrite Hc | done |]. by rewrite (Hk0 (Some c)) by (by rewrite Hc).
  - intros s1. rewrite Z.add_0_l, Z2Nat.id by lia. intros (Hw & Hq & Hin & Hout). wp_step.
    split; [|by split_and!]. unfold s32. rewrite u32_small by lia. by rewrite (proj2 (Z.ltb_lt _ _)) by lia.
Qed.

(** ** The random numbers *)

(** The state between two calls: words in the table and a carry below the
    multiplier. *)
Record random_wf (s : random) : Prop := {
  rw_i : 0 <= rnd_i s < 4096;
  rw_c : 0 <= rnd_c s < 4294967296 - 18783;
  rw_Q i : 0 <= Q_at s i < 4294967296;
}.

(** [rand] is a step of the complementary multiply-with-carry generator in
    base [b = 2^32 - 1] with multiplier 18782 and lag 4096: with [q] the oldest
    word, [18782 * q + c = c' * b + x] for the new carry [c'] and some [x] of at
    most [b], and the new word is [b - 1 - x] modulo 2^32; the state stays well
    formed and memory is not touched. *)
Theorem rand_cmwc s :
  random_wf s ->
  let b := 4294967295 in
  exists v x s', rand s = Done (v, s') /\ random_wf s' /\
    rnd_i s' = (rnd_i s + 1) mod 4096 /\
    18782 * Q_at s (rnd_i s') + rnd_c s = rnd_c s' * b + x /\ 0 <= x <= b /\
    v = u32 (b - 1 - x) /\
    (forall i, Q_at s' i = if decide (i = rnd_i s') then v else Q_at s i) /\ mem s' = mem s.
Proof.
  intros [Hi Hc HQ] b. set (j := (rnd_i s + 1) mod 4096).
  assert (Hj : u32 (Z.land (rnd_i s +32 1) 4095) = j).
  { rewrite (u32_small (rnd_i s + 1)) by lia. change 4095 with (Z.ones 12). rewrite Z.land_ones by lia.
    change (2 ^ 12) with 4096. apply u32_small. unfold j. Z.div_mod_to_equations. lia. }
  set (t := 18782 * Q_at s j + rnd_c s). pose proof (HQ j) as Hq.
  assert (Ht : 0 <= t < 18783 * 4294967296) by (unfold t; lia).
  assert (Hu : u64 t = t) by (apply Z.mod_small; lia).
  set (h := t / 4294967296). assert (Hh : 0 <= h < 18783) by (unfold h; Z.div_mod_to_equations; lia).
  set (l := t mod 4294967296). assert (Hl : 0 <= l < 4294967296 /\ t = h * 4294967296 + l) by (unfold l, h; Z.div_mod_to_equations; lia).
  set (carry := if 4294967296 <=? l + h then 1 else 0).
  set (x := l + h - carry * b). assert (Hx : 0 <= x <= b /\ t = (h + carry) * b + x).
  { unfold x, carry, b. destruct (Z.leb_spec 4294967296 (l + h)); lia. }
  exists (u32 (b - 1 - x)), x.
  assert (Hwp : wp rand (fun v s' => v = u32 (b - 1 - x) /\
    s' = Random (rnd_mem s) (<[j := u32 (b - 1 - x)]> (rnd_Q s)) (h + carry) j) s).
  { unfold rand. wp_step. wp_step. wp_step. unfold set_i at 1. wp_step. rewrite Hj. do 6 wp_step. cbn [rnd_i rnd_c rnd_Q].
    change (Q_at _ j) with (Q_at s j). fold t. rewrite Hu, Z.shiftr_div_pow2 by lia. change (2 ^ 32) with 4294967296. fold h.
    wp_step. unfold set_c at 1. wp_step. wp_step. wp_step. cbn [rnd_mem rnd_Q rnd_c rnd_i]. rewrite (u32_small h) by lia.
    assert (Hth : u32 (t + h) = (l + h) mod 4294967296) by (rewrite (proj2 Hl); clear; word_lia). rewrite Hth.
    wp_step. destruct (Z.leb_spec 4294967296 (l + h)) as [Hov|Hov]; unfold b, x, carry in *.
    - assert (Hm : (l + h) mod 4294967296 = l + h - 4294967296) by word_lia. rewrite Hm, (proj2 (Z.ltb_lt _ _)) by lia.
      wp_step. unfold set_c. wp_step. wp_step. rewrite (u32_small (l + h - 4294967296 + 1)) by lia.
      wp_step. unfold set_Q. wp_step. wp_step. cbn [rnd_mem rnd_Q rnd_c rnd_i]. rewrite (u32_small (h + 1)) by lia.
      replace (0xfffffffe - (l + h - 4294967296 + 1)) with (4294967295 - 1 - (l + h - 1 * 4294967295)) by lia. done.
    - assert (Hm : (l + h) mod 4294967296 = l + h) by word_lia. rewrite Hm, (proj2 (Z.ltb_ge _ _)) by lia.
      wp_step. wp_step. unfold set_Q. wp_step. wp_step. cbn [rnd_mem rnd_Q rnd_c rnd_i]. rewrite Z.add_0_r.
      replace (0xfffffffe - (l + h)) with (4294967295 - 1 - (l + h - 0 * 4294967295)) by lia. done. }
  apply wp_value in Hwp as (s' & Hrun & ->). exists (Random (rnd_mem s) (<[j := u32 (b - 1 - x)]> (rnd_Q s)) (h + carry) j).
  assert (Hat : forall i, Q_at (Random (rnd_mem s) (<[j := u32 (b - 1 - x)]> (rnd_Q s)) (h + carry) j) i =
    if decide (i = j) then u32 (b - 1 - x) else Q_at s i).
  { intros i. unfold Q_at. cbn [rnd_Q]. case_decide as Hd; [subst i; by rewrite lookup_insert_eq | by rewrite lookup_insert_ne]. }
  split_and!; [exact Hrun | | done | cbn [rnd_c rnd_i]; fold t; lia | lia | lia | done | exact Hat | done].
  split; cbn [rnd_i rnd_c].
  - unfold j. Z.div_mod_to_equations. lia.
  - unfold carry. destruct (4294967296 <=? l + h); lia.
  - intros i. rewrite Hat. case_decide; [apply u32_range | apply HQ].
Qed.

(** ** Registration *)

Section create_specs.
Context {S : Type} `{MemLaws S} `{!Allocator S} `{!CallocLaws S} `{!KmallocLaws S} `{!Logger S} `{!LoggerLaws S}
  `{!FsGlobals} `{!DevGlobals}.

(** The name stored by [strcpy] of a literal. *)
Lemma cstr_st_bytes m p bs : Forall (fun b => 0 < b < 256) bs -> cstr (st_bytes m p (bs ++ [0])) p bs.
Proof.
  intros Hb. assert (Hl : forall i x, (bs ++ [0]) !! i = Some x -> ld8 (st_bytes m p (bs ++ [0])) (p + Z.of_nat i) = u8 x)
    by (intros; by apply ld8_st_bytes_eq). apply cstr_intro.
  - eapply Forall_impl; [exact Hb|]. simpl. lia.
  - intros i b Hi. rewrite (Hl i b) by (by apply lookup_app_l_Some). apply u8_small.
    eapply Forall_lookup_1 in Hb; [|exact Hi]. lia.
  - rewrite (Hl _ 0); [done|]. rewrite lookup_app_r, Nat.sub_diag by lia. done.
Qed.

(** A device node: a character device with the given name and functions.  The words
    of [readdir] and [finddir] are those [kmalloc] found in memory. *)
Record device_node (m m0 : memory) (node : Z) (name : list Z) (read write : Z) : Prop := {
  dn_name : cstr m (fs_name node) name;
  dn_flags : ld32 m (fs_flags node) = FS_CHARDEVICE;
  dn_read : ld32 m (fs_read node) = u32 read;
  dn_write : ld32 m (fs_write node) = u32 write;
  dn_unset : ld32 m (fs_readdir node) = ld32 m0 (fs_readdir node) /\ ld32 m (fs_finddir node) = ld32 m0 (fs_finddir node);
}.

Lemma device_node_kept m m' m0 node name read write :
  device_node m m0 node name read write -> Z.of_nat (length name) < 128 ->
  (forall b, node <= b < node + SIZEOF_FS_NODE -> ld8 m' b = ld8 m b) -> device_node m' m0 node name read write.
Proof.
  unfold SIZEOF_FS_NODE. intros [Hx1 Hx2 Hx3 Hx4 Hx5] Hl Hk.
  assert (Hw : forall a, node <= a -> a + 4 <= node + 176 -> ld32 m' a = ld32 m a)
    by (intros a Ha1 Ha2; apply ld32_ext; intros b Hb; apply Hk; lia).
  unfold fs_name, fs_flags, fs_read, fs_write, fs_readdir, fs_finddir in *.
  split; unfold fs_name, fs_flags, fs_read, fs_write, fs_readdir, fs_finddir; rewrite ?Hw by lia; try done.
  eapply cstr_same; [exact Hx1|]. intros b Hb. apply Hk. lia.
Qed.

(** The stores of [device_create] for a device without a length, up to the call of
    [devfs_register]. *)
Lemma wp_device_fields node name read write (K : M S unit) s (Q : unit -> S -> Prop) :
  Forall (fun b => 0 < b < 256) name -> Z.of_nat (length name) < 128 ->
  (forall m, device_node m (mem s) node name read write ->
     (forall b, b < node \/ node + SIZEOF_FS_NODE <= b -> ld8 m b = ld8 (mem s) b) -> wp K Q (set_mem m s)) ->
  wp (strcpy_literal (fs_name node) name;;
      store32 (fs_flags node) FS_CHARDEVICE;;
      mret tt;;
      store32 (fs_inode node) 0;;
      now ← get_seconds dt;
      store32 (fs_atime node) now;;
      now ← load32 (fs_atime node);
      store32 (fs_ctime node) now;;
      store32 (fs_open node) 0;;
      store32 (fs_close node) 0;;
      store32 (fs_read node) read;;
      store32 (fs_write node) write;;
      store32 (fs_ioctl node) 0;;
      mret tt;;
      K) Q s.
Proof.
  intros Hb Hl HK. unfold strcpy_literal, fs_name, fs_flags, fs_inode, fs_atime, fs_ctime, fs_open, fs_close, fs_read, fs_write, fs_ioctl.
  pose proof (cstr_st_bytes (mem s) node name Hb) as Hc. unfold get_seconds.
  repeat (mstep; rewrite ?set_mem_set_mem; rewrite ?mem_set_mem).
  match goal with |- context [st32 _ (node + 140) ?v] => generalize v; intros now end.
  match goal with |- context [st32 _ (node + 144) ?v] => generalize v; intros now' end.
  assert (Hlen : Z.of_nat (length (name ++ [0])) <= 128) by (rewrite length_app; simpl; lia).
  apply HK.
  - split; unfold fs_name, fs_flags, fs_read, fs_write, fs_readdir, fs_finddir.
    + eapply cstr_same; [exact Hc|]. intros b Hbb. by rewrite !ld8_st32_ne by lia.
    + mem_simpl. done.
    + by mem_simpl.
    + by mem_simpl.
    + split; mem_simpl; done.
  - unfold SIZEOF_FS_NODE. intros b Hbb. rewrite !ld8_st32_ne by lia. by rewrite ld8_st_bytes_ne by lia.
Qed.

(** creating a device under a new name composes the allocation, the stores to
    the node and the registration: the device directory gets one entry more, which
    leads to a live character device with the functions of the device, and every
    other entry stays.  [readdir] and [finddir] of the node are not set. *)
Theorem device_create_registers fuel chars n names l R name read write s :
  directory (12 + n) devlist devfs_lock names l R s ->
  Forall (fun b => 0 < b < 256) name -> Z.of_nat (length name) < 128 -> (length name < chars)%nat ->
  name ∉ (fun nv : Z * Z => names nv.2) <$> l -> (length l < fuel)%nat ->
  exists node m0 s' n' names' l', device_create fuel chars name None read write (mret tt) s = Done (tt, s') /\
    directory n' devlist devfs_lock names' l' ((node, SIZEOF_FS_NODE) :: R) s' /\
    entries names' l' = <[name := node]> (entries names l) /\
    device_node (mem s') m0 node name read write.
Proof.
  intros Hdir Hb Hl Hch Hnew Hf. pose proof (di_list _ _ _ _ _ _ _ Hdir) as [Hok _].
  assert (Hwp : wp (device_create fuel chars name None read write (mret tt)) (fun _ s' => exists node m0 n' names' l',
    directory n' devlist devfs_lock names' l' ((node, SIZEOF_FS_NODE) :: R) s' /\
    entries names' l' = <[name := node]> (entries names l) /\
    device_node (mem s') m0 node name read write) s).
  { unfold device_create. wp_step. eapply (wp_kmalloc (Datatypes.S n)); [exact Hok | done |].
    intros p s1 Hok1 Hs1. apply wp_device_fields; [done..|]. intros m Hdn Hout.
    assert (Hfar : forall nv, nv ∈ l -> nv.2 <> p).
    { intros nv Hin Hp. destruct (di_nodes _ _ _ _ _ _ _ Hdir nv Hin) as [HR _]. rewrite Hp in HR.
      pose proof (proj1 (heap_ok_separate _ _ _ Hok1) _ (proj2 (elem_of_app _ _ _) (or_intror HR))) as Ha.
      unfold apart, disjoint, SIZEOF_FS_NODE in Ha. simpl in Ha. lia. }
    destruct (directory_new _ (Datatypes.S n) _ _ names l R s s1 p SIZEOF_FS_NODE m Hdir Hok1 Hs1) as [Hdir1 _].
    { intros b Hbl _. apply Hout. destruct (decide (p <= b < p + SIZEOF_FS_NODE)); [|lia].
      destruct Hbl. eapply live_in; [elem | done]. }
    destruct (directory_renamed _ _ _ _ _ _ p name _ Hdir1 Hfar) as (Hdir1' & Hents & Hnm). set (names' := renamed names p name) in *.
    destruct (devfs_register_refines fuel chars n names' l ((p, SIZEOF_FS_NODE) :: R) p (set_mem m s1))
      as (s' & n' & t & Hrun & Hdir2 & _ & He & Hkp); [exact Hdir1' | | exact Hf |].
    { split; rewrite ?Hnm, ?mem_set_mem; [elem | by destruct Hdn | done | done]. }
    eapply wp_done; [exact Hrun|]. exists p, (mem s1), n', names', (registered names' p t l).
    split_and!; [exact Hdir2 | |].
    - rewrite He, Hnm, Hents. by apply entries_names in Hnew as ->.
    - eapply device_node_kept; [exact Hdn | exact Hl |]. intros b Hbb. rewrite (Hkp (p, SIZEOF_FS_NODE) b); [by rewrite mem_set_mem | elem | | exact Hbb].
      intros Hin%list_elem_of_singleton. done. }
  apply wp_unit in Hwp as (s' & Hrun & node & m0 & n' & names' & l' & Hx). exists node, m0, s', n', names', l'. done.
Qed.
End create_specs.
