(* ===== verification/Tree.v ===== *)
(** * utils/dsa/tree.c: trees

    The n-ary trees on top of the lists of Dlist.v: every node owns a list of its
    children.  The routines recurse over the tree through [foreach] loops; [fuel]
    bounds the depth of the recursion and the length of each loop.  The trees in
    memory are represented by rose trees, against which the routines are proved. *)

From S2P Require Export Dlist.

(** ** include/dsa/tree.h *)

Definition SIZEOF_TREE_NODE : Z := 12.
Definition SIZEOF_TREE : Z := 8.

Definition tn_value (node : Z) : Z := node.
Definition tn_children (node : Z) : Z := node + 4.
Definition tn_parent (node : Z) : Z := node + 8.
Definition t_nodes (tree : Z) : Z := tree.
Definition t_root (tree : Z) : Z := tree + 4.

(** ** The code *)

Section loops.
Context {S : Type} `{HasMem S}.

(** [foreach(t, list) body(t->value)] from the node [d] on. *)
Fixpoint foreach (fuel : nat) (d : Z) (body : Z -> M S unit) : M S unit :=
  match fuel with
  | O => out_of_fuel
  | Datatypes.S fuel' =>
      if d =? 0 then mret tt
      else
        v ← load32 (n_value d);
        body v;;
        next ← load32 (n_next d);
        foreach fuel' next body
  end.

(** The loop that adds up what [body] returns. *)
Fixpoint foreach_sum (fuel : nat) (d out : Z) (body : Z -> M S Z) : M S Z :=
  match fuel with
  | O => out_of_fuel
  | Datatypes.S fuel' =>
      if d =? 0 then mret out
      else
        v ← load32 (n_value d);
        k ← body v;
        next ← load32 (n_next d);
        foreach_sum fuel' next (out +32 k) body
  end.

(** The loop that ends with the first result of [body] that is not NULL. *)
Fixpoint foreach_first (fuel : nat) (d : Z) (body : Z -> M S Z) : M S Z :=
  match fuel with
  | O => out_of_fuel
  | Datatypes.S fuel' =>
      if d =? 0 then mret 0
      else
        v ← load32 (n_value d);
        found ← body v;
        if negb (found =? 0) then mret found
        else next ← load32 (n_next d); foreach_first fuel' next body
  end.
End loops.

Section tree_c.
Context {S : Type} `{HasMem S} `{!Allocator S}.

Definition tree_create : M S Z := kcalloc_op SIZEOF_TREE 1.

Definition tree_node_create (value : Z) : M S Z :=
  out ← malloc_op SIZEOF_TREE_NODE;
  store32 (tn_value out) value;;
  l ← list_create;
  store32 (tn_children out) l;;
  store32 (tn_parent out) 0;;
  mret out.

Definition tree_set_root (tree value : Z) : M S unit :=
  root ← tree_node_create value;
  store32 (t_root tree) root;;
  store32 (t_nodes tree) 1.

(** The head of the list of children. *)
Definition first_child (node : Z) : M S Z := l ← load32 (tn_children node); load32 (l_head l).

Fixpoint tree_node_destroy (fuel : nat) (node : Z) : M S unit :=
  match fuel with
  | O => out_of_fuel
  | Datatypes.S fuel' =>
      d ← first_child node;
      foreach fuel' d (tree_node_destroy fuel');;
      v ← load32 (tn_value node);
      kfree_op v
  end.

Definition tree_destroy (fuel : nat) (tree : Z) : M S unit :=
  root ← load32 (t_root tree);
  if negb (root =? 0) then root ← load32 (t_root tree); tree_node_destroy fuel root else mret tt.

Fixpoint tree_node_free (fuel : nat) (node : Z) : M S unit :=
  match fuel with
  | O => out_of_fuel
  | Datatypes.S fuel' =>
      if node =? 0 then mret tt
      else
        d ← first_child node;
        foreach fuel' d (tree_node_free fuel');;
        kfree_op node
  end.

Definition tree_free (fuel : nat) (tree : Z) : M S unit :=
  root ← load32 (t_root tree); tree_node_free fuel root.

Definition add_nodes (tree k : Z) : M S unit :=
  n ← load32 (t_nodes tree); store32 (t_nodes tree) (n +32 k).

Definition tree_node_insert_child_node (tree parent node : Z) : M S unit :=
  l ← load32 (tn_children parent);
  list_insert_front l node;;
  store32 (tn_parent node) parent;;
  add_nodes tree 1.

Definition tree_node_insert_child (tree parent value : Z) : M S Z :=
  out ← tree_node_create value;
  tree_node_insert_child_node tree parent out;;
  mret out.

Fixpoint tree_node_find_parent (fuel : nat) (haystack needle : Z) : M S Z :=
  match fuel with
  | O => out_of_fuel
  | Datatypes.S fuel' =>
      d ← first_child haystack;
      foreach_first fuel' d (fun child =>
        if child =? needle then mret haystack else tree_node_find_parent fuel' child needle)
  end.

Definition tree_find_parent (fuel : nat) (tree node : Z) : M S Z :=
  root ← load32 (t_root tree);
  if root =? 0 then mret 0 else root ← load32 (t_root tree); tree_node_find_parent fuel root node.

Fixpoint tree_count_children (fuel : nat) (node : Z) : M S Z :=
  match fuel with
  | O => out_of_fuel
  | Datatypes.S fuel' =>
      if node =? 0 then mret 0
      else
        l ← load32 (tn_children node);
        if l =? 0 then mret 0
        else
          l ← load32 (tn_children node);
          out ← load32 (l_size l);
          d ← first_child node;
          foreach_sum fuel' d out (tree_count_children fuel')
  end.

(** [list_remove_node(parent->children, list_contain(parent->children, node->value))] *)
Definition remove_from_parent (fuel : nat) (parent node : Z) : M S unit :=
  l ← load32 (tn_children parent);
  l2 ← load32 (tn_children parent);
  v ← load32 (tn_value node);
  x ← list_contain fuel l2 v;
  list_remove_node l x;;
  mret tt.

Definition tree_node_parent_remove (fuel : nat) (tree parent node : Z) : M S unit :=
  k ← tree_count_children fuel node;
  add_nodes tree (- (k + 1));;
  remove_from_parent fuel parent node;;
  tree_node_free fuel node.

Definition tree_node_remove (fuel : nat) (tree node : Z) : M S unit :=
  parent ← load32 (tn_parent node);
  (if parent =? 0 then
     root ← load32 (t_root tree);
     if node =? root then
       store32 (t_nodes tree) 0;;
       store32 (t_root tree) 0;;
       tree_node_free fuel node
     else mret tt
   else mret tt);;
  tree_node_parent_remove fuel tree parent node.

Definition tree_remove (fuel : nat) (tree node : Z) : M S unit :=
  parent ← load32 (tn_parent node);
  if parent =? 0 then mret tt
  else
    add_nodes tree (-1);;
    remove_from_parent fuel parent node;;
    d ← first_child node;
    foreach fuel d (fun child => store32 (tn_parent child) parent);;
    lp ← load32 (tn_children parent);
    ln ← load32 (tn_children node);
    list_merge lp ln;;
    kfree_op node.

Definition tree_remove_reparent_root (fuel : nat) (tree node : Z) : M S unit :=
  parent ← load32 (tn_parent node);
  if parent =? 0 then mret tt
  else
    add_nodes tree (-1);;
    remove_from_parent fuel parent node;;
    d ← first_child node;
    foreach fuel d (fun child => root ← load32 (t_root tree); store32 (tn_parent child) root);;
    root ← load32 (t_root tree);
    lr ← load32 (tn_children root);
    ln ← load32 (tn_children node);
    list_merge lr ln;;
    kfree_op node.

Definition tree_break_off (fuel : nat) (tree node : Z) : M S unit :=
  parent ← load32 (tn_parent node);
  if parent =? 0 then mret tt else remove_from_parent fuel parent node.

(** [comparator] is the function the caller passes. *)
Fixpoint tree_node_find (fuel : nat) (node search : Z) (comparator : Z -> Z -> M S Z) : M S Z :=
  match fuel with
  | O => out_of_fuel
  | Datatypes.S fuel' =>
      v ← load32 (tn_value node);
      c ← comparator v search;
      if negb (c =? 0) then mret node
      else
        d ← first_child node;
        foreach_first fuel' d (fun child => tree_node_find fuel' child search comparator)
  end.

Definition tree_find (fuel : nat) (tree value : Z) (comparator : Z -> Z -> M S Z) : M S Z :=
  root ← load32 (t_root tree); tree_node_find fuel root value comparator.
End tree_c.

(** ** Rose trees *)

(** A node with its address, its value, the address of its list object, and its
    children with the addresses of their list nodes. *)
Inductive rtree := RNode (addr value clist : Z) (children : list (Z * rtree)).

(** Induction with a hypothesis for every child. *)
Lemma rtree_children_ind (P : rtree -> Prop) :
  (forall a v cl ch, Forall (fun nt => P nt.2) ch -> P (RNode a v cl ch)) -> forall t, P t.
Proof.
  intros Hnode. fix IH 1. intros [a v cl ch]. apply Hnode.
  induction ch as [|[x t] ch IHch]; constructor; [apply IH | exact IHch].
Qed.

Definition addr_of (t : rtree) : Z := match t with RNode a _ _ _ => a end.

(** The list of the children as Dlist.v represents it. *)
Definition child_list (ch : list (Z * rtree)) : list (Z * Z) := (fun nt : Z * rtree => (nt.1, addr_of nt.2)) <$> ch.

(** [m] holds the tree [t], whose root has the parent [parent]. *)
Fixpoint tree_at (m : memory) (parent : Z) (t : rtree) : Prop :=
  match t with
  | RNode a v cl ch =>
      (a <> 0 /\ cl <> 0 /\ nonnull (child_list ch)) /\
      (ld32 m (tn_value a) = v /\ ld32 m (tn_children a) = cl /\ ld32 m (tn_parent a) = parent) /\
      dlist m cl (child_list ch) /\
      foldr (fun nt acc => tree_at m a nt.2 /\ acc) True ch
  end.

(** The memory a tree occupies. *)
Fixpoint tree_regions (t : rtree) : list region :=
  match t with
  | RNode a v cl ch => (a, SIZEOF_TREE_NODE) :: (cl, SIZEOF_LIST) ::
      foldr (fun nt acc => (nt.1, SIZEOF_NODE) :: tree_regions nt.2 ++ acc) [] ch
  end.

(** The number of its nodes. *)
Fixpoint tree_size (t : rtree) : nat :=
  match t with RNode _ _ _ ch => Datatypes.S (foldr (fun nt acc => (tree_size nt.2 + acc)%nat) 0%nat ch) end.

(** The addresses and values of the nodes, and the edges from parent to child, in
    preorder. *)
Fixpoint preorder (t : rtree) : list (Z * Z) :=
  match t with RNode a v _ ch => (a, v) :: foldr (fun nt acc => preorder nt.2 ++ acc) [] ch end.

Fixpoint edges (t : rtree) : list (Z * Z) :=
  match t with RNode a _ _ ch => foldr (fun nt acc => (a, addr_of nt.2) :: edges nt.2 ++ acc) [] ch end.

(** The first component of the first pair whose second one satisfies [p], or 0. *)
Definition first_fst (p : Z -> bool) (l : list (Z * Z)) : Z :=
  default 0 (fst <$> List.find (fun av => p av.2) l).

Lemma first_fst_app p l1 l2 :
  (forall av, av ∈ l1 -> av.1 <> 0) ->
  first_fst p (l1 ++ l2) = if first_fst p l1 =? 0 then first_fst p l2 else first_fst p l1.
Proof.
  unfold first_fst. induction l1 as [|[a v] l1 IH]; intros Hnz; [done|]. cbn.
  destruct (p v).
  - cbn. rewrite (proj2 (Z.eqb_neq a 0)); [done|]. apply (Hnz (a, v)). elem.
  - apply IH. intros av Hin. apply Hnz. elem.
Qed.

Lemma tree_at_children m a (ch : list (Z * rtree)) nt :
  foldr (fun nt acc => tree_at m a nt.2 /\ acc) True ch -> nt ∈ ch -> tree_at m a nt.2.
Proof.
  induction ch as [|x ch IH]; intros Hc Hin; [by apply not_elem_of_nil in Hin|]. destruct Hc as [Hx Hc].
  apply elem_of_cons in Hin as [->|Hin]; [done | by apply IH].
Qed.

Lemma tree_size_child (ch : list (Z * rtree)) nt : nt ∈ ch ->
  (tree_size nt.2 <= foldr (fun nt acc => (tree_size nt.2 + acc)%nat) 0%nat ch)%nat.
Proof.
  induction ch as [|x ch IH]; intros Hin; [by apply not_elem_of_nil in Hin|]. cbn [foldr].
  apply elem_of_cons in Hin as [->|Hin]; [lia | specialize (IH Hin); lia].
Qed.

Lemma tree_size_pos t : (0 < tree_size t)%nat.
Proof. destruct t. simpl. lia. Qed.

Lemma length_children (ch : list (Z * rtree)) : (length ch <= foldr (fun nt acc => (tree_size nt.2 + acc)%nat) 0%nat ch)%nat.
Proof. induction ch as [|x ch IH]; cbn [foldr length]; [lia|]. pose proof (tree_size_pos x.2). lia. Qed.

Lemma preorder_nonnull m par t av : tree_at m par t -> av ∈ preorder t -> av.1 <> 0.
Proof.
  revert par. induction t as [a v cl ch IH] using rtree_children_ind. intros par ([Ha _] & _ & _ & Hc) Hin.
  cbn [preorder] in Hin. apply elem_of_cons in Hin as [->|Hin]; [done|].
  induction ch as [|[x t] ch IHch]; [by apply not_elem_of_nil in Hin|]. cbn [foldr] in Hin.
  apply Forall_cons in IH as [IHt IH]. destruct Hc as [Ht Hc].
  apply elem_of_app in Hin as [Hin|Hin]; [by eapply IHt | by apply IHch].
Qed.

Lemma edges_nonnull m par t av : tree_at m par t -> av ∈ edges t -> av.1 <> 0.
Proof.
  revert par. induction t as [a v cl ch IH] using rtree_children_ind. intros par ([Ha _] & _ & _ & Hc) Hin.
  cbn [edges] in Hin. induction ch as [|[x t] ch IHch]; [by apply not_elem_of_nil in Hin|]. cbn [foldr] in Hin.
  apply Forall_cons in IH as [IHt IH]. destruct Hc as [Ht Hc].
  apply elem_of_cons in Hin as [->|Hin]; [done|]. apply elem_of_app in Hin as [Hin|Hin]; [by eapply IHt | by apply IHch].
Qed.

(** ** Searching and counting *)

Section tree_reads.
Context {S : Type} `{MemLaws S}.

Lemma foreach_sum_run fuel prev d out (body : Z -> M S Z) l ks s :
  dl_seg (mem s) prev d 0 l -> nonnull l -> Forall2 (fun nv k => body nv.2 s = Done (k, s)) l ks -> (length l < fuel)%nat ->
  0 <= out < 4294967296 ->
  foreach_sum fuel d out body s = Done (u32 (out + foldr Z.add 0 ks), s).
Proof.
  intros Hl Hnz Hb. revert fuel prev d out Hl Hnz.
  induction Hb as [|[n v] k l ks Hv Hb IH]; intros [|fuel] prev d out Hl Hnz Hf Ho; cbn [length] in Hf; try lia; cbn [foreach_sum dl_seg foldr] in *.
  - subst d. cbn [Z.eqb]. rewrite Z.add_0_r, u32_small by done. done.
  - destruct Hl as (-> & _ & Hval & Hl). rewrite (proj2 (Z.eqb_neq n 0)) by (apply (Hnz n v); elem).
    apply wp_done_inv. mstep. mstep. rewrite Hval. wp_step. eapply wp_done; [exact Hv|].
    mstep. mstep. eapply wp_done; [eapply IH; [exact Hl | | lia | apply u32_range]|].
    + intros n' v' Hin. apply (Hnz n' v'). elem.
    + split; [|done]. rewrite u32_add_l. f_equal. lia.
Qed.

(** The first value that is not 0. *)
Definition first_found (l : list Z) : Z := default 0 (List.find (fun z => negb (z =? 0)) l).

Lemma foreach_first_run fuel prev d (body : Z -> M S Z) l ks s :
  dl_seg (mem s) prev d 0 l -> nonnull l -> Forall2 (fun nv k => body nv.2 s = Done (k, s)) l ks -> (length l < fuel)%nat ->
  foreach_first fuel d body s = Done (first_found ks, s).
Proof.
  intros Hl Hnz Hb. revert fuel prev d Hl Hnz.
  induction Hb as [|[n v] k l ks Hv Hb IH]; intros [|fuel] prev d Hl Hnz Hf; cbn [length] in Hf; try lia; cbn [foreach_first dl_seg] in *.
  - by subst d.
  - destruct Hl as (-> & _ & Hval & Hl). rewrite (proj2 (Z.eqb_neq n 0)) by (apply (Hnz n v); elem).
    apply wp_done_inv. mstep. mstep. rewrite Hval. wp_step. eapply wp_done; [exact Hv|].
    unfold first_found. cbn [List.find]. destruct (Z.eqb_spec k 0) as [E|E]; cbn [negb].
    + mstep. mstep. eapply wp_done; [eapply IH; [exact Hl | | lia]|].
      * intros n' v' Hin. apply (Hnz n' v'). elem.
      * done.
    + by mstep.
Qed.

(** The same function on every child. *)
Lemma children_forall2 {A} (R : Z * Z -> A -> Prop) (f : rtree -> A) ch :
  (forall nt, nt ∈ ch -> R (nt.1, addr_of nt.2) (f nt.2)) ->
  Forall2 R (child_list ch) ((fun nt : Z * rtree => f nt.2) <$> ch).
Proof.
  intros Hch. unfold child_list. apply Forall2_fmap_2, Forall_Forall2_diag, Forall_forall. exact Hch.
Qed.

Lemma length_child_list ch : length (child_list ch) = length ch.
Proof. apply length_fmap. Qed.

(** The number of the descendants of a node. *)
Definition descendants (t : rtree) : Z := Z.of_nat (tree_size t) - 1.

Lemma sum_children (ch : list (Z * rtree)) :
  foldr Z.add 0 ((fun nt : Z * rtree => u32 (descendants nt.2)) <$> ch) mod 4294967296 =
  (Z.of_nat (foldr (fun nt acc => (tree_size nt.2 + acc)%nat) 0%nat ch) - Z.of_nat (length ch)) mod 4294967296.
Proof.
  induction ch as [|[x t] ch IH]; [done|]. cbn [fmap list_fmap foldr length snd].
  rewrite Zplus_mod, IH, <- Zplus_mod. unfold u32. rewrite Zplus_mod_idemp_l. f_equal. unfold descendants. lia.
Qed.

Lemma first_child_run par t s : tree_at (mem s) par t ->
  first_child (addr_of t) s = Done (match t with RNode _ _ cl _ => ld32 (mem s) (l_head cl) end, s).
Proof. destruct t as [a v cl ch]. intros (_ & (_ & Hcl & _) & _). apply wp_done_inv. unfold first_child. cbn [addr_of]. msteps. by rewrite Hcl. Qed.

(** [tree_count_children] counts the descendants. *)
Lemma tree_count_run fuel par t s :
  tree_at (mem s) par t -> (tree_size t < fuel)%nat ->
  tree_count_children fuel (addr_of t) s = Done (u32 (descendants t), s).
Proof.
  revert fuel par. induction t as [a v cl ch IH] using rtree_children_ind. intros [|fuel] par Ht Hf; [lia|].
  pose proof Ht as ([Ha [Hcl Hnz]] & (_ & Hcl' & _) & [Hsz Hl _] & Hc). cbn [tree_count_children addr_of].
  rewrite (proj2 (Z.eqb_neq a 0)) by done. apply wp_done_inv. mstep. mstep. rewrite Hcl', (proj2 (Z.eqb_neq cl 0)) by done.
  mstep. mstep. mstep. mstep. rewrite Hcl'. wp_step. eapply wp_done; [exact (first_child_run par (RNode a v cl ch) s Ht)|]. cbn beta iota.
  cbn [tree_size] in Hf. pose proof (length_children ch).
  eapply wp_done; [eapply (foreach_sum_run _ 0 _ _ _ _ ((fun nt : Z * rtree => u32 (descendants nt.2)) <$> ch))|].
  - exact Hl.
  - exact Hnz.
  - apply (children_forall2 _ (fun t => u32 (descendants t))). intros nt Hin. rewrite Forall_forall in IH.
    apply (IH nt Hin fuel a); [by eapply tree_at_children|]. pose proof (tree_size_child ch nt Hin). lia.
  - rewrite length_child_list. lia.
  - rewrite Hsz. apply u32_range.
  - split; [|done]. rewrite Hsz, length_child_list, u32_add_l. unfold u32. rewrite <- Zplus_mod_idemp_r, sum_children, Zplus_mod_idemp_r.
    f_equal. unfold descendants. cbn [tree_size]. lia.
Qed.

(** Searching the children one after the other is searching their preorders. *)
Lemma first_found_children (p : Z -> bool) (f : rtree -> list (Z * Z)) ch :
  (forall nt av, nt ∈ ch -> av ∈ f nt.2 -> av.1 <> 0) ->
  first_found ((fun nt : Z * rtree => first_fst p (f nt.2)) <$> ch) = first_fst p (foldr (fun nt acc => f nt.2 ++ acc) [] ch).
Proof.
  induction ch as [|nt ch IH]; intros Hnz; [done|]. cbn [foldr]. rewrite first_fst_app by (intros av Hav; apply (Hnz nt); [elem | done]).
  rewrite <- IH by (intros nt' av Hin Hav; apply (Hnz nt'); [elem | done]). unfold first_found. cbn [fmap list_fmap List.find].
  by destruct (first_fst p (f nt.2) =? 0).
Qed.

(** [tree_node_find] returns the first node in preorder whose value satisfies the
    comparator. *)
Lemma tree_find_run fuel par t search comparator (cmp : Z -> Z) s :
  (forall v, comparator v search s = Done (cmp v, s)) -> tree_at (mem s) par t -> (tree_size t < fuel)%nat ->
  tree_node_find fuel (addr_of t) search comparator s = Done (first_fst (fun v => negb (cmp v =? 0)) (preorder t), s).
Proof.
  intros Hcmp. revert fuel par. induction t as [a v cl ch IH] using rtree_children_ind. intros [|fuel] par Ht Hf; [lia|].
  pose proof Ht as ([Ha [Hcl Hnz]] & (Hv & _ & _) & [Hsz Hl _] & Hc). cbn [tree_node_find addr_of preorder].
  apply wp_done_inv. mstep. mstep. rewrite Hv. wp_step. eapply wp_done; [apply Hcmp|].
  unfold first_fst at 1. cbn [List.find snd]. destruct (negb (cmp v =? 0)); [by mstep|].
  wp_step. eapply wp_done; [exact (first_child_run par (RNode a v cl ch) s Ht)|]. cbn beta iota.
  cbn [tree_size] in Hf. pose proof (length_children ch).
  eapply wp_done; [eapply (foreach_first_run _ 0 _ _ _ ((fun nt : Z * rtree => first_fst (fun v => negb (cmp v =? 0)) (preorder nt.2)) <$> ch))|].
  - exact Hl.
  - exact Hnz.
  - apply (children_forall2 _ (fun t => first_fst (fun v => negb (cmp v =? 0)) (preorder t))). intros nt Hin. rewrite Forall_forall in IH.
    apply (IH nt Hin fuel a); [by eapply tree_at_children|]. pose proof (tree_size_child ch nt Hin). lia.
  - rewrite length_child_list. lia.
  - split; [|done]. apply first_found_children. intros nt av Hin Hav. eapply preorder_nonnull; [by eapply tree_at_children | exact Hav].
Qed.

(** [tree_node_find_parent] returns the parent end of the first edge in preorder
    that leads to the node. *)
Lemma tree_find_parent_run fuel par t needle s :
  tree_at (mem s) par t -> (tree_size t < fuel)%nat ->
  tree_node_find_parent fuel (addr_of t) needle s = Done (first_fst (fun c => c =? needle) (edges t), s).
Proof.
  revert fuel par. induction t as [a v cl ch IH] using rtree_children_ind. intros [|fuel] par Ht Hf; [lia|].
  pose proof Ht as ([Ha [Hcl Hnz]] & _ & [Hsz Hl _] & Hc). cbn [tree_node_find_parent addr_of edges].
  apply wp_done_inv. wp_step. eapply wp_done; [exact (first_child_run par (RNode a v cl ch) s Ht)|]. cbn beta iota.
  cbn [tree_size] in Hf. pose proof (length_children ch).
  set (f := fun t : rtree => (a, addr_of t) :: edges t).
  eapply wp_done; [eapply (foreach_first_run _ 0 _ _ _ ((fun nt : Z * rtree => first_fst (fun c => c =? needle) (f nt.2)) <$> ch))|].
  - exact Hl.
  - exact Hnz.
  - apply (children_forall2 _ (fun t => first_fst (fun c => c =? needle) (f t))). intros nt Hin. rewrite Forall_forall in IH.
    unfold f, first_fst. cbn [List.find snd]. destruct (addr_of nt.2 =? needle); [done|].
    apply (IH nt Hin fuel a); [by eapply tree_at_children|]. pose proof (tree_size_child ch nt Hin). lia.
  - rewrite length_child_list. lia.
  - split; [|done]. rewrite first_found_children; [done|]. intros nt av Hin Hav. unfold f in Hav.
    apply elem_of_cons in Hav as [->|Hav]; [done|]. eapply edges_nonnull; [by eapply tree_at_children | exact Hav].
Qed.

(** C23: on every tree, whatever its shape, [tree_find] is the search of the values
    in preorder, [tree_find_parent] the search of the edges, and
    [tree_count_children] the number of descendants; they terminate, return NULL
    when nothing is found, and change nothing. *)
Theorem tree_searches_preorder fuel tree t search needle comparator (cmp : Z -> Z) s :
  (forall v, comparator v search s = Done (cmp v, s)) ->
  ld32 (mem s) (t_root tree) = addr_of t -> tree_at (mem s) 0 t -> (tree_size t < fuel)%nat ->
  tree_find fuel tree search comparator s = Done (first_fst (fun v => negb (cmp v =? 0)) (preorder t), s) /\
  tree_find_parent fuel tree needle s = Done (first_fst (fun c => c =? needle) (edges t), s) /\
  tree_count_children fuel (addr_of t) s = Done (u32 (Z.of_nat (length (preorder t)) - 1), s).
Proof.
  intros Hcmp Hr Ht Hf. split_and!.
  - apply wp_done_inv. unfold tree_find. msteps. rewrite Hr. eapply wp_done; [by eapply tree_find_run | done].
  - apply wp_done_inv. unfold tree_find_parent. mstep. mstep. rewrite Hr.
    rewrite (proj2 (Z.eqb_neq _ 0)) by (destruct t as [a v cl ch]; apply Ht). msteps. rewrite Hr.
    eapply wp_done; [by eapply tree_find_parent_run | done].
  - rewrite (tree_count_run _ _ _ _ Ht Hf). do 3 f_equal. unfold descendants. f_equal. f_equal. clear.
    induction t as [a v cl ch IH] using rtree_children_ind. cbn [tree_size preorder length]. f_equal.
    induction ch as [|nt ch IHch]; [done|]. apply Forall_cons in IH as [IHt IH]. cbn [foldr]. rewrite length_app, IHt, IHch; done.
Qed.
End tree_reads.

(** ** Insertion *)

Section tree_insert.
Context {S : Type} `{MemLaws S} `{!Allocator S} `{!CallocLaws S}.

Lemma wp_tree_node_create n L value s (Q : Z -> S -> Prop) :
  heap_ok (2 + n) L s -> 0 <= value < 4294967296 ->
  (forall out cl s', heap_ok n ((out, 12) :: (cl, 12) :: L) s' -> same_on (live L) (mem s) (mem s') ->
     ld32 (mem s') (tn_value out) = value -> ld32 (mem s') (tn_children out) = cl -> ld32 (mem s') (tn_parent out) = 0 ->
     dlist (mem s') cl [] -> Q out s') ->
  wp (tree_node_create value) Q s.
Proof.
  intros Hok Hv HQ. unfold tree_node_create, tn_value, tn_children, tn_parent in *. wp_step. eapply wp_malloc; [exact Hok | done |].
  unfold SIZEOF_TREE_NODE. intros out s1 Hok1 Hs1. mstep. mstep. wp_step.
  assert (Ht1 : touched [(out, 12)] (mem s1) (st32 (mem s1) out value))
    by (eapply touched_st32; [apply touched_refl | elem | simpl; lia | simpl; lia]).
  destruct (heap_ok_touched (Datatypes.S n) [(out, 12)] L s1 _ Hok1 Ht1) as [Hok2 Hs2].
  eapply wp_list_create; [exact Hok2 |]. intros cl s3 [Hok3 Hdl] Hs3. change (list_regions cl [] ++ [(out, 12)] ++ L) with ((cl, 12) :: (out, 12) :: L) in Hok3.
  repeat (mstep; rewrite ?mem_set_mem, ?set_mem_set_mem).
  destruct (heap_ok_regions _ _ _ (out, 12) Hok3 ltac:(elem)) as [Ho4 Ho32].
  destruct (heap_ok_regions _ _ _ (cl, 12) Hok3 ltac:(elem)) as [Hc4 Hc32]. cbn [fst snd] in *.
  pose proof (heap_ok_apart _ _ _ cl out Hok3 ltac:(elem)) as Hap. unfold apart12 in Hap.
  assert (Ht : touched [(out, 12)] (mem s3) (st32 (st32 (mem s3) (out + 4) cl) (out + 8) 0)).
  { do 2 (eapply touched_st32; [|elem|simpl; lia|simpl; lia]). apply touched_refl. }
  assert (Hok4 : heap_ok n ([(out, 12)] ++ (cl, 12) :: L) s3) by (eapply heap_ok_permute; [|exact Hok3]; apply perm_swap).
  destruct (heap_ok_touched n [(out, 12)] ((cl, 12) :: L) s3 _ Hok4 Ht) as [Hok5 Hs5].
  rewrite mem_set_mem in Hs3. eapply HQ.
  - exact Hok5.
  - rewrite mem_set_mem. intros a Ha. rewrite Hs5, Hs3, Hs2, Hs1; [done..| |]; apply live_cons; by right.
  - rewrite mem_set_mem. rewrite !ld32_st32_ne by (unfold disjoint; lia).
    rewrite (ld32_same_on _ _ _ _ Hs3); [rewrite ld32_st32_eq; by apply u32_small|].
    intros b Hb. apply live_cons. left. unfold in_region. simpl. lia.
  - rewrite mem_set_mem. mem_simpl. apply u32_small. lia.
  - rewrite mem_set_mem. by mem_simpl.
  - rewrite mem_set_mem. eapply dlist_same; [|exact Hdl]. intros a (r & ->%list_elem_of_singleton & Ha). apply Hs5. apply live_cons. by left.
Qed.

Definition child_regions (ch : list (Z * rtree)) : list region :=
  foldr (fun nt acc => tree_regions nt.2 ++ acc) [] ch.

Lemma tree_regions_perm a v cl ch :
  tree_regions (RNode a v cl ch) ≡ₚ list_regions cl (child_list ch) ++ (a, 12) :: child_regions ch.
Proof.
  unfold list_regions. cbn [tree_regions app]. change SIZEOF_TREE_NODE with 12. etransitivity; [apply perm_swap|].
  apply perm_skip. etransitivity; [|apply Permutation_middle]. apply perm_skip.
  induction ch as [|[x t] ch IH]; [done|]. cbn [foldr child_list fmap list_fmap app child_regions fst snd]. unfold node_region at 1. cbn [fst].
  apply perm_skip. rewrite IH. unfold child_regions. rewrite !app_assoc. apply Permutation_app_tail, Permutation_app_comm.
Qed.

(** A tree only depends on its own memory. *)
Lemma tree_at_same m m' par t : same_on (live (tree_regions t)) m m' -> tree_at m par t -> tree_at m' par t.
Proof.
  revert par. induction t as [a v cl ch IH] using rtree_children_ind. intros par Hs (Hnz & (H1' & H2' & H3') & Hl & Hc).
  assert (Hs' : same_on (live (list_regions cl (child_list ch) ++ (a, 12) :: child_regions ch)) m m').
  { eapply same_on_weaken; [exact Hs|]. intros b. apply live_permute. symmetry. apply tree_regions_perm. }
  assert (Hw : forall b, a <= b -> b + 4 <= a + 12 -> ld32 m' b = ld32 m b).
  { intros b Hb1 Hb2. apply ld32_ext. intros c Hcb. apply Hs'. eapply (live_in (a, 12)); [elem|]. unfold in_region. simpl. lia. }
  unfold tn_value, tn_children, tn_parent in *. cbn [tree_at]. unfold tn_value, tn_children, tn_parent.
  split_and!; rewrite ?Hw by lia; try done; try apply Hnz.
  - eapply dlist_same; [|exact Hl]. eapply same_on_weaken; [exact Hs'|]. intros b Hb. apply live_app. by left.
  - assert (Hs2 : same_on (live (child_regions ch)) m m').
    { eapply same_on_weaken; [exact Hs'|]. intros b Hb. apply live_app. right. apply live_cons. by right. }
    clear -IH Hs2 Hc. induction ch as [|nt ch IHch]; [done|]. apply Forall_cons in IH as [IHt IH]. destruct Hc as [Ht Hc].
    cbn [child_regions foldr] in *. split.
    + apply IHt; [|exact Ht]. eapply same_on_weaken; [exact Hs2|]. intros b Hb. apply live_app. by left.
    + apply IHch; [exact IH | exact Hc |]. eapply same_on_weaken; [exact Hs2|]. intros b Hb. apply live_app. by right.
Qed.

Lemma children_at_same m m' a ch :
  same_on (live (child_regions ch)) m m' ->
  foldr (fun nt acc => tree_at m a nt.2 /\ acc) True ch -> foldr (fun nt acc => tree_at m' a nt.2 /\ acc) True ch.
Proof.
  induction ch as [|nt ch IH]; intros Hs Hc; [done|]. destruct Hc as [Ht Hc]. cbn [child_regions foldr] in *. split.
  - eapply tree_at_same; [|exact Ht]. eapply same_on_weaken; [exact Hs|]. intros b Hb. apply live_app. by left.
  - apply IH; [|exact Hc]. eapply same_on_weaken; [exact Hs|]. intros b Hb. apply live_app. by right.
Qed.

Lemma child_regions_size ch r : r ∈ child_regions ch -> r.2 = 12.
Proof.
  assert (Ht : forall t r, r ∈ tree_regions t -> r.2 = 12).
  { intros t. induction t as [a v cl ch' IH] using rtree_children_ind. intros r'. cbn [tree_regions].
    intros [->|[->|Hr]%elem_of_cons]%elem_of_cons; [done..|].
    induction ch' as [|nt ch' IHch]; [by apply not_elem_of_nil in Hr|]. apply Forall_cons in IH as [IHt IH]. cbn [foldr] in Hr.
    apply elem_of_cons in Hr as [->|Hr]; [done|]. apply elem_of_app in Hr as [Hr|Hr]; [by apply IHt | by apply IHch]. }
  induction ch as [|nt ch IH]; cbn [child_regions foldr]; intros Hr; [by apply not_elem_of_nil in Hr|].
  apply elem_of_app in Hr as [Hr|Hr]; [by eapply Ht | by apply IH].
Qed.

(** The state after an insertion: [s1] after the allocation of the leaf, [m] after
    the stores. *)
Lemma leaf_inserted n tree par a v cl ch value R s s1 m x out cl' :
  tree_at (mem s) par (RNode a v cl ch) -> (tree, 8) ∈ R ->
  let Rest := (a, 12) :: child_regions ch ++ R in
  same_on (live Rest) (mem s) (mem s1) ->
  list_state n cl ((x, out) :: child_list ch) ((out, 12) :: (cl', 12) :: Rest) (set_mem m s1) ->
  (forall b, live ((out, 12) :: (cl', 12) :: Rest) b -> ~ (out + 8 <= b < out + 12) -> ~ (tree <= b < tree + 4) ->
     ld8 m b = ld8 (mem s1) b) ->
  ld32 (mem s1) out = value -> ld32 (mem s1) (out + 4) = cl' -> ld32 m (out + 8) = a -> dlist (mem s1) cl' [] ->
  let t' := RNode a v cl ((x, RNode out value cl' []) :: ch) in
  tree_at m par t' /\ heap_ok n (tree_regions t' ++ R) (set_mem m s1) /\
  (forall b, live R b -> ~ (tree <= b < tree + 4) -> ld8 m b = ld8 (mem s) b).
Proof.
  intros Ht HtR Rest Hs1 Hst Hm Hov Hoc Hop Hcl'. pose proof Ht as ((Ha & Hcl & Hnz) & (H1' & H2' & H3') & Hl & Hc).
  pose proof Hst as [Hok Hdl]. rewrite mem_set_mem in Hdl.
  set (R1 := (out, 12) :: (cl', 12) :: Rest) in *.
  assert (Hfar : forall r, r ∈ R1 -> r <> (tree, 8) -> r <> (out, 12) -> forall b, in_region b r -> ld8 m b = ld8 (mem s1) b).
  { intros r Hr Hrt Hro b Hb. apply Hm; [by eapply live_in | |]; intros Hb'.
    - assert (Hap : apart r (out, 12)) by (eapply heap_ok_apart_in; [exact Hok | exact Hr | unfold R1; elem | done]).
      unfold apart, disjoint, in_region in *. simpl in *. lia.
    - assert (Hap : apart r (tree, 8)) by (eapply heap_ok_apart_in; [exact Hok | exact Hr | unfold R1, Rest; elem | done]).
      unfold apart, disjoint, in_region in *. simpl in *. lia. }
  assert (Hot : apart (out, 12) (tree, 8)) by (eapply heap_ok_apart_in; [exact Hok | unfold R1; elem | unfold R1, Rest; elem | done]).
  assert (Hhead : forall r, r ∈ (cl', 12) :: Rest -> r <> (out, 12)).
  { intros r Hr ->. apply heap_ok_separate, separate_skip in Hok. destruct Hok as [Hsep _].
    specialize (Hsep _ Hr). unfold apart, disjoint in Hsep. simpl in Hsep. lia. }
  destruct (heap_ok_regions _ _ _ (out, 12) Hok ltac:(unfold R1; elem)) as [Ho4 _].
  destruct (heap_ok_regions _ _ _ (cl', 12) Hok ltac:(unfold R1; elem)) as [Hc4 _]. cbn [fst snd] in *.
  assert (Hkeep : forall r, r ∈ Rest -> r.2 = 12 -> forall b, in_region b r -> ld8 m b = ld8 (mem s) b).
  { intros r Hr H12 b Hb. rewrite (Hfar r); [|unfold R1; elem | by intros -> | apply Hhead; elem | done].
    apply Hs1. by eapply live_in. }
  unfold apart, disjoint in Hot. cbn [fst snd] in Hot.
  split_and!.
  - cbn [tree_at addr_of child_list fmap list_fmap fst snd foldr]. fold (child_list ch).
    assert (Hwa : forall w, a <= w -> w + 4 <= a + 12 -> ld32 m w = ld32 (mem s) w).
    { intros w Hw1 Hw2. apply ld32_ext. intros b Hb. apply (Hkeep (a, 12)); [unfold Rest; elem | done |]. unfold in_region. simpl. lia. }
    assert (Hwo : forall w, out <= w -> w + 4 <= out + 8 -> ld32 m w = ld32 (mem s1) w).
    { intros w Hw1 Hw2. apply ld32_ext. intros b Hb. apply Hm; [|lia|lia]. eapply (live_in (out, 12)); [unfold R1; elem|].
      unfold in_region. simpl. lia. }
    unfold tn_value, tn_children, tn_parent in *. rewrite !Hwa, !Hwo by lia.
    split_and!; try done; try lia; try (by eapply list_state_nonnull).
    + intros n' v' Hin. by apply not_elem_of_nil in Hin.
    + eapply dlist_same; [|exact Hcl']. intros b (r & Hr & Hb). unfold list_regions in Hr.
      apply list_elem_of_singleton in Hr as ->. apply (Hfar (cl', 12)); [unfold R1; elem | done | apply Hhead; elem | exact Hb].
    + eapply children_at_same; [|exact Hc]. intros b (r & Hr & Hb). apply (Hkeep r); [unfold Rest; elem | by eapply child_regions_size | done].
  - eapply heap_ok_permute; [|exact Hok]. rewrite tree_regions_perm. cbn [child_list fmap list_fmap fst snd addr_of child_regions foldr tree_regions app].
    fold (child_list ch). fold (child_regions ch). rewrite <- (assoc_L (++)). apply Permutation_app_head. unfold R1, Rest.
    change SIZEOF_TREE_NODE with 12. change SIZEOF_LIST with 12. cbn [app].
    etransitivity; [apply perm_skip, perm_swap|]. apply perm_swap.
  - intros b Hb Hbt. rewrite Hm.
    + apply Hs1. unfold Rest. apply live_cons. right. apply live_app. by right.
    + unfold R1, Rest. do 3 (apply live_cons; right). apply live_app. by right.
    + destruct Hb as (r & Hr & Hb). assert (Hap : apart (out, 12) r).
      { eapply heap_ok_apart_in; [exact Hok | unfold R1; elem | unfold R1, Rest; elem | symmetry; apply Hhead; unfold Rest; elem]. }
      unfold apart, disjoint, in_region in *. simpl in *. lia.
    + done.
Qed.

(** [tree_node_insert_child] allocates a leaf with the value and puts it in
    front of the children of a node of any tree: the subtree at that node gets the
    leaf as its first child, with the right parent pointer, the node count of the
    tree grows by one, and no other live object changes. *)
Theorem tree_insert_child_leaf n tree par a v cl ch value R s :
  heap_ok (3 + n) (tree_regions (RNode a v cl ch) ++ R) s -> tree_at (mem s) par (RNode a v cl ch) ->
  (tree, SIZEOF_TREE) ∈ R -> 0 <= value < 4294967296 ->
  exists x out cl' s', tree_node_insert_child tree a value s = Done (out, s') /\
    let t' := RNode a v cl ((x, RNode out value cl' []) :: ch) in
    tree_at (mem s') par t' /\ heap_ok n (tree_regions t' ++ R) s' /\
    ld32 (mem s') (t_nodes tree) = ld32 (mem s) (t_nodes tree) +32 1 /\
    (forall b, live R b -> ~ (tree <= b < tree + 4) -> ld8 (mem s') b = ld8 (mem s) b).
Proof.
  intros Hok Ht HtR Hv. pose proof Ht as ((Ha & Hcl & Hnz) & (H1' & H2' & H3') & Hl & Hc). unfold SIZEOF_TREE in HtR.
  set (L0 := list_regions cl (child_list ch)). set (Rest := (a, 12) :: child_regions ch ++ R).
  assert (Hok0 : heap_ok (3 + n) (L0 ++ Rest) s).
  { eapply heap_ok_permute; [|exact Hok]. rewrite (tree_regions_perm a v cl ch). unfold L0, Rest. by rewrite <- app_assoc. }
  assert (Hwp : wp (tree_node_insert_child tree a value) (fun out s' => exists x cl',
    let t' := RNode a v cl ((x, RNode out value cl' []) :: ch) in
    tree_at (mem s') par t' /\ heap_ok n (tree_regions t' ++ R) s' /\
    ld32 (mem s') (t_nodes tree) = ld32 (mem s) (t_nodes tree) +32 1 /\
    (forall b, live R b -> ~ (tree <= b < tree + 4) -> ld8 (mem s') b = ld8 (mem s) b)) s).
  { unfold tree_node_insert_child. wp_step. eapply (wp_tree_node_create (Datatypes.S n)); [exact Hok0 | exact Hv |].
    intros out cl' s1 Hok1 Hs1 Hov Hoc Hop Hcl'. wp_step. unfold tree_node_insert_child_node. mstep. mstep.
    assert (HaL : forall s', same_on (live (L0 ++ Rest)) (mem s) (mem s') ->
      forall w, a <= w -> w + 4 <= a + 12 -> ld32 (mem s') w = ld32 (mem s) w).
    { intros s' Hs w Hw1 Hw2. eapply ld32_same_on; [exact Hs|]. intros b Hb. eapply (live_in (a, 12)); [unfold Rest; elem|].
      unfold in_region. simpl. lia. }
    unfold tn_children, tn_value, tn_parent in *. rewrite (HaL s1) by (done || lia). rewrite H2'.
    set (Rest1 := (out, 12) :: (cl', 12) :: Rest).
    assert (Hst1 : list_state (Datatypes.S n) cl (child_list ch) Rest1 s1).
    { split.
      - eapply heap_ok_permute; [|exact Hok1]. unfold Rest1, L0.
        etransitivity; [|apply Permutation_middle]. apply perm_skip. apply Permutation_middle.
      - eapply dlist_same; [|exact Hl]. eapply same_on_weaken; [exact Hs1|]. intros b Hb. apply live_app. by left. }
    destruct (heap_ok_regions _ _ _ (out, 12) Hok1 ltac:(elem)) as [Ho4 Ho32]. cbn [fst snd] in Ho4, Ho32.
    wp_step. eapply wp_insert_front; [exact Hst1 | lia |]. intros x s2 Hst2 Hs2. unfold add_nodes, t_nodes.
    repeat (mstep; rewrite ?mem_set_mem, ?set_mem_set_mem).
    set (m := st32 _ tree _).
    assert (HoR : (out, 12) ∈ Rest1) by (unfold Rest1; elem).
    assert (HtR1 : (tree, 8) ∈ Rest1) by (unfold Rest1, Rest; elem).
    assert (Htouch : touched [(out, 12); (tree, 8)] (mem s2) m).
    { unfold m. eapply (touched_st32 _ _ _ (tree, 8)); [|elem|simpl; lia|simpl; lia].
      eapply (touched_st32 _ _ _ (out, 12)); [apply touched_refl|elem|simpl; lia|simpl; lia]. }
    assert (Hst3 : list_state n cl ((x, out) :: child_list ch) Rest1 (set_mem m s2)).
    { apply list_state_write; [exact Hst2|]. eapply touched_weaken; [exact Htouch|]. intros r Hr.
      apply elem_of_cons in Hr as [->|Hr]; [done|]. by apply list_elem_of_singleton in Hr as ->. }
    assert (Hot : apart (out, 12) (tree, 8)) by (eapply heap_ok_apart_in; [exact (proj1 Hst2) | exact HoR | exact HtR1 | done]).
    destruct (heap_ok_regions _ _ _ (a, 12) Hok0 ltac:(unfold Rest; elem)) as [Ha4 Ha32].
    unfold apart, disjoint in Hot. cbn [fst snd] in Hot, Ha4, Ha32.
    exists x, cl'. destruct (leaf_inserted n tree par a v cl ch value R s s2 m x out cl') as (Hx1 & Hx2 & Hx3); try done.
    - intros b Hb. rewrite Hs2, Hs1; [done | |].
      + apply live_app. right. exact Hb.
      + unfold Rest1. apply live_cons. right. apply live_cons. right. exact Hb.
    - intros b Hb Hbo Hbt. unfold m. by rewrite !ld8_st32_ne by lia.
    - rewrite <- Hov. eapply ld32_same_on; [exact Hs2|]. intros b Hb. eapply live_in; [exact HoR|]. unfold in_region. simpl. lia.
    - rewrite <- Hoc. eapply ld32_same_on; [exact Hs2|]. intros b Hb. eapply live_in; [exact HoR|]. unfold in_region. simpl. lia.
    - unfold m. rewrite ld32_st32_ne, ld32_st32_eq by (unfold disjoint; lia). apply u32_small. lia.
    - eapply dlist_same; [|exact Hcl']. eapply same_on_weaken; [exact Hs2|]. intros b (r & Hr & Hb). unfold list_regions in Hr.
      apply list_elem_of_singleton in Hr as ->. eapply live_in; [|exact Hb]. unfold Rest1. elem.
    - split_and!; [done..| |done]. unfold m. rewrite ld32_st32_eq, u32_idemp. do 2 f_equal.
      rewrite ld32_st32_ne by (unfold disjoint; lia). transitivity (ld32 (mem s1) tree); eapply ld32_same_on; try exact Hs2; try exact Hs1;
        intros b Hb.
      + eapply live_in; [exact HtR1|]. unfold in_region. simpl. lia.
      + apply live_app. right. eapply (live_in (tree, 8)); [unfold Rest; elem|]. unfold in_region. simpl. lia. }
  apply wp_run in Hwp as (out & s' & Hrun & x & cl' & Hx). by exists x, out, cl', s'.
Qed.
End tree_insert.

(** ** Removal *)

Section tree_remove.
Context {S : Type} `{MemLaws S} `{!Allocator S}.

Lemma first_with_none v (l : list (Z * Z)) : (forall nv, nv ∈ l -> nv.2 <> v) -> first_with v l = 0.
Proof.
  induction l as [|[n w] l IH]; intros Hl; [done|]. cbn [first_with]. rewrite (proj2 (Z.eqb_neq w v)) by (apply (Hl (n, w)); elem).
  apply IH. intros nv Hin. apply Hl. elem.
Qed.

(** The first part of a run. *)
Lemma run_bind {A B} (c : M S A) (f : A -> M S B) s a s' : c s = Done (a, s') -> (c ≫= f) s = f a s'.
Proof. unfold mbind, M_bind. by intros ->. Qed.

Lemma run_load32 {A} a (f : Z -> M S A) s : (load32 a ≫= f) s = f (ld32 (mem s) a) s.
Proof. done. Qed.

Lemma run_store32 {A} a v (f : unit -> M S A) s : (store32 a v ≫= f) s = f tt (set_mem (st32 (mem s) a v) s).
Proof. done. Qed.

Lemma run_assoc {A B C} (c : M S A) (f : A -> M S B) (g : B -> M S C) s : ((c ≫= f) ≫= g) s = (c ≫= fun a => f a ≫= g) s.
Proof. unfold mbind, M_bind. by destruct (c s) as [[a s']| |]. Qed.

(** One load or store of the code at the head of the goal. *)
Ltac run1 := rewrite ?run_assoc; first [rewrite run_load32 | rewrite run_store32]; cbn beta; rewrite ?mem_set_mem, ?set_mem_set_mem.

(** [tree_break_off] does not take the node out of the children of its
    parent: it looks for the node's value among the children, which are nodes, and
    passes the NULL it gets to [list_remove_node].  With zero words at the
    addresses 0 and 4, the list keeps all its nodes, its size is decremented, and
    NULL is released. *)
Theorem tree_break_off_keeps_child fuel tree node parent cl x l1 l2 s :
  let l := l1 ++ (x, node) :: l2 in
  ld32 (mem s) (tn_parent node) = parent -> parent <> 0 -> ld32 (mem s) (tn_children parent) = cl ->
  dlist (mem s) cl l -> nonnull l -> (forall nv, nv ∈ l -> nv.2 <> ld32 (mem s) (tn_value node)) ->
  ld32 (mem s) 0 = 0 -> ld32 (mem s) 4 = 0 -> 8 <= cl -> (length l < fuel)%nat ->
  exists m, tree_break_off fuel tree node s = (kfree_op 0;; mret tt) (set_mem (st32 m (l_size cl) (u32 (Z.of_nat (length l)) -32 1)) s) /\
    mem_eq m (mem s).
Proof.
  intros l Hp Hp0 Hc [Hsz Hl Htl] Hnz Hv H0' H4' Hcl Hf.
  assert (Hhd : ld32 (mem s) (l_head cl) <> 0).
  { intros He. rewrite He in Hl. unfold l in Hl. apply dl_seg_app in Hl as (r & Hl1 & Hl2). destruct l1 as [|[y w] l1].
    - cbn [dl_seg] in Hl1. destruct Hl2 as [Hx _]. apply (Hnz x node); [unfold l; elem | congruence].
    - destruct Hl1 as [Hy _]. apply (Hnz y w); [unfold l; elem | congruence]. }
  assert (Htl0 : ld32 (mem s) (l_tail cl) <> 0).
  { rewrite Htl by (unfold l; by destruct l1). unfold last_node. destruct (last l) as [[y w]|] eqn:Hlast.
    - cbn. apply (Hnz y w). apply last_Some_elem_of in Hlast. done.
    - apply last_None in Hlast. unfold l in Hlast. by destruct l1. }
  exists (st32 (st32 (mem s) 0 0) 4 0).
  assert (He : mem_eq (st32 (st32 (mem s) 0 0) 4 0) (mem s)).
  { etransitivity; [apply st32_zero_same | by apply st32_zero_same]. rewrite ld32_st32_ne; [done | unfold disjoint; lia]. }
  split; [|exact He].
  assert (Hld : forall w, ld32 (st32 (st32 (mem s) 0 0) 4 0) w = ld32 (mem s) w) by (intros w; apply ld32_ext; intros b _; apply He).
  unfold tree_break_off, remove_from_parent. rewrite run_load32, Hp, (proj2 (Z.eqb_neq parent 0)) by done.
  rewrite !run_load32, Hc. erewrite run_bind.
  2: { apply wp_done_inv. unfold list_contain. msteps. eapply wp_contain_loop; [exact Hl | exact Hnz | exact Hf |].
       rewrite first_with_none by exact Hv. exact (conj eq_refl eq_refl). }
  unfold list_remove_node. do 2 run1. rewrite (proj2 (Z.eqb_neq _ 0)) by done.
  run1. rewrite (proj2 (Z.eqb_neq (ld32 (mem s) (l_tail cl)) 0)) by done.
  unfold n_next, n_prev, add_size, n_value. rewrite !Z.add_0_l. do 3 run1.
  assert (Hld1 : forall w, ld32 (st32 (mem s) 0 0) w = ld32 (mem s) w)
    by (intros w; apply ld32_ext; intros b _; by apply st32_zero_same).
  rewrite H4', H0'. do 2 run1. rewrite !Hld1, H4', H0'. run1. rewrite Z.add_0_l. do 2 run1.
  rewrite Hld, Hsz. rewrite run_assoc. unfold mbind, M_bind. unfold l_size at 1. destruct (kfree_op 0 _) as [[[] s1]| |]; done.
Qed.
End tree_remove.
