(* ===== verification/Task.v ===== *)
(** * sys/task.c and sys/syscalls/sys_task.c: tasks

    The task queue over the lists of Dlist.v, the round-robin scheduler up to the
    switch to the chosen task, and the creation and the end of tasks.  The switch
    itself is what it does to memory: it saves the stack pointer of the task it
    leaves and makes the other task current; CtxSwitch.v proves that the assembly
    of context_switch.asm does this and changes the stack. *)

From S2P Require Export Dlist FsNode.

(** ** include/sys/task.h *)

Definition KSTACK_SIZE : Z := 0x1000.
Definition SIZEOF_CONTEXT : Z := 24.
Definition SIZEOF_REGS : Z := 76.
Definition SIZEOF_TASK : Z := 48.
Definition SIZEOF_PAGE_DIRECTORY : Z := 8192.

Definition TASK_READY : Z := 0.
Definition TASK_ZOMBIE : Z := 2.

(** The fields of [task_t]; [fpu_state] is aligned to 16. *)
Definition tk_kstack (t : Z) : Z := t.
Definition tk_kstack_mem (t : Z) : Z := t + 4.
Definition tk_page_dir (t : Z) : Z := t + 8.
Definition tk_ifr (t : Z) : Z := t + 12.
Definition tk_fpu_state (t : Z) : Z := t + 16.
Definition tk_fpu_used (t : Z) : Z := t + 20.
Definition tk_self (t : Z) : Z := t + 24.
Definition tk_tid (t : Z) : Z := t + 28.
Definition tk_state (t : Z) : Z := t + 32.
Definition tk_exit_code (t : Z) : Z := t + 36.
Definition tk_usage (t : Z) : Z := t + 40.

(** [regs_t], [struct context]. *)
Definition rg_eax (r : Z) : Z := r + 44.
Definition cx_ebp (c : Z) : Z := c + 12.
Definition cx_eip (c : Z) : Z := c + 16.
Definition cx_eflags (c : Z) : Z := c + 20.

(** The addresses of the globals. *)
Class TaskGlobals := {
  current_task : Z; task_list : Z; next_tid : Z; prev_ticks : Z; curr_ticks : Z;
  timer_ticks_at : Z; current_page_dir_at : Z;
}.

(** The other components a switch of tasks uses: tss.c and vmm.c. *)
Class Switching (S : Type) := {
  tss_set_stack_op : Z -> Z -> M S unit;
  switch_page_directory_op : Z -> M S unit;
  copy_page_directory_op : Z -> Z -> M S unit;
}.

(** The two that [schedule] calls change no memory that the heap or the tasks use. *)
Class SwitchingLaws (S : Type) `{HasMem S} `{!Allocator S} `{!Switching S} := {
  wp_tss_set_stack ss esp (Q : unit -> S -> Prop) s :
    (forall s', mem s' = mem s -> (forall n L, heap_ok n L s -> heap_ok n L s') -> Q tt s') -> wp (tss_set_stack_op ss esp) Q s;
  wp_switch_page_directory pd (Q : unit -> S -> Prop) s :
    (forall s', mem s' = mem s -> (forall n L, heap_ok n L s -> heap_ok n L s') -> Q tt s') -> wp (switch_page_directory_op pd) Q s;
}.

(** ** The code *)

Section task_c.
Context {S : Type} `{HasMem S} `{!Allocator S} `{!Switching S} `{!Logger S} `{!TaskGlobals}.

Definition task_destroy (t : Z) : M S unit :=
  l ← load32 task_list;
  x ← load32 (tk_self t);
  list_remove_node l x;;
  k ← load32 (tk_kstack_mem t);
  kfree_op k;;
  d ← load32 (tk_page_dir t);
  kfree_op d;;
  kfree_op t.

(** [esp] is the stack pointer at the switch. *)
Definition context_switch (esp next : Z) : M S unit :=
  cur ← load32 current_task;
  store32 (tk_kstack cur) esp;;
  store32 current_task next.

(** From the label [_pick_next] on, until a task is found that is not a zombie. *)
Fixpoint pick_next (fuel : nat) (next_node : Z) : M S Z :=
  match fuel with
  | O => out_of_fuel
  | Datatypes.S fuel' =>
      next ← (if next_node =? 0 then l ← load32 task_list; list_peek_front l else load32 (n_value next_node));
      st ← load32 (tk_state next);
      if st =? TASK_ZOMBIE then task_destroy next;; pick_next fuel' next_node else mret next
  end.

(** The run of [schedule] ends at the switch; what follows runs when the task is
    switched to again. *)
Definition schedule (fuel : nat) (esp : Z) : M S unit :=
  tl ← load32 task_list;
  if tl =? 0 then mret tt
  else
    cur ← load32 current_task;
    if cur =? 0 then
      tl ← load32 task_list;
      next ← list_peek_front tl;
      context_switch esp next
    else
      cur ← load32 current_task;
      self ← load32 (tk_self cur);
      next_node ← load32 (n_next self);
      next ← pick_next fuel next_node;
      cur ← load32 current_task;
      if cur =? 0 then panic "no tasks left. this is really bad\n"
      else
        now ← load32 timer_ticks_at;
        store32 curr_ticks now;;
        cur ← load32 current_task;
        usage ← load32 (tk_usage cur);
        now ← load32 curr_ticks;
        before ← load32 prev_ticks;
        store32 (tk_usage cur) (usage +32 (now - before));;
        now ← load32 curr_ticks;
        store32 prev_ticks now;;
        kstack ← load32 (tk_kstack next);
        tss_set_stack_op 0x10 kstack;;
        pd ← load32 (tk_page_dir next);
        switch_page_directory_op pd;;
        context_switch esp next.

(** [timer_irq_handler] of drivers/timer.c, on the variable in memory. *)
Definition timer_irq_handler (fuel : nat) (esp : Z) : M S unit :=
  ticks ← load32 timer_ticks_at;
  store32 timer_ticks_at (ticks +32 1);;
  schedule fuel esp.

Definition task_exit (fuel : nat) (esp code : Z) : M S unit :=
  t ← load32 current_task;
  store32 (tk_exit_code t) code;;
  store32 (tk_state t) TASK_ZOMBIE;;
  schedule fuel esp.

(** The copy of [*current_task->ifr] below the context; the result is the new
    [kstack]. *)
Definition task_copy_regs (t kstack : Z) : M S unit :=
  let ifr2 := kstack -32 SIZEOF_REGS in
  store32 (tk_kstack t) ifr2;;
  cur ← load32 current_task;
  ifr ← load32 (tk_ifr cur);
  memcpy ifr2 ifr SIZEOF_REGS;;
  store32 (rg_eax ifr2) 0.

Definition task_create (fuel : nat) (esp func : Z) : M S Z :=
  t ← kcalloc_op SIZEOF_TASK 1;
  tid ← load32 next_tid;
  store32 next_tid (tid +32 1);;
  store32 (tk_tid t) tid;;
  store32 (tk_state t) TASK_READY;;
  store32 (tk_exit_code t) 0;;
  store32 (tk_ifr t) 0;;
  pd ← kmalloc_a_op SIZEOF_PAGE_DIRECTORY;
  store32 (tk_page_dir t) pd;;
  pd ← load32 (tk_page_dir t);
  dir ← load32 current_page_dir_at;
  copy_page_directory_op pd dir;;
  km ← kmalloc_op KSTACK_SIZE;
  store32 (tk_kstack_mem t) km;;
  km ← load32 (tk_kstack_mem t);
  if km =? 0 then kfree_op km;; mret 0
  else
    store32 (tk_kstack t) (km + KSTACK_SIZE -32 SIZEOF_CONTEXT);;
    cur ← load32 current_task;
    ifr ← load32 (tk_ifr cur);
    (if negb (ifr =? 0) then kstack ← load32 (tk_kstack t); task_copy_regs t kstack else mret tt);;
    ctx ← load32 (tk_kstack t);
    store32 (cx_ebp ctx) ctx;;
    store32 (cx_eip ctx) func;;
    store32 (cx_eflags ctx) 0x202;;
    tl ← load32 task_list;
    self ← list_insert_front tl t;
    store32 (tk_self t) self;;
    schedule fuel esp;;
    mret t.

Definition multitasking_init (fuel : nat) (esp func : Z) : M S unit :=
  klog_op LevelOk "Initializing multitasking\n" [];;
  l ← list_create;
  store32 task_list l;;
  task_create fuel esp func;;
  mret tt.

(** ** sys_task.c *)

Definition sys_gettid : M S Z := t ← load32 current_task; load32 (tk_tid t).

Definition sys_yield (fuel : nat) (esp : Z) : M S Z := schedule fuel esp;; mret 0.

(** The endless loop behind [task_exit]. *)
Definition sys_exit (fuel : nat) (esp code : Z) : M S Z := task_exit fuel esp code;; out_of_fuel.
End task_c.

(** ** The queue *)

Section queue.
Context {S : Type} `{MemLaws S} `{!Allocator S} `{!CallocLaws S} `{!Switching S} `{!SwitchingLaws S} `{!TaskGlobals}.

(** The variables the scheduler uses. *)
Definition variables : list Z := [current_task; task_list; prev_ticks; curr_ticks; timer_ticks_at].

(** [l] are the tasks with their list nodes; each knows its node and none is a
    zombie; the one at position [i] is current. *)
Record queue (n i : nat) (l : list (Z * Z)) (R : list region) (s : S) : Prop := {
  qu_list : list_state n (ld32 (mem s) task_list) l R s;
  qu_vars : NoDup variables /\ forall g, g ∈ variables -> (g, 4) ∈ R;
  qu_tasks x t : (x, t) ∈ l -> (t, SIZEOF_TASK) ∈ R /\ ld32 (mem s) (tk_self t) = x /\ ld32 (mem s) (tk_state t) <> TASK_ZOMBIE;
  qu_distinct : NoDup l.*2;
  qu_current : exists x, l !! i = Some (x, ld32 (mem s) current_task);
}.

Lemma list_state_frame n lst l R s s' :
  list_state n lst l R s -> mem s' = mem s -> (forall n L, heap_ok n L s -> heap_ok n L s') -> list_state n lst l R s'.
Proof. intros [Hok Hdl] Hm Hh. split; [by apply Hh | by rewrite Hm]. Qed.

(** The links of a list by position. *)
Lemma dl_seg_next m prev p l i x v : dl_seg m prev p 0 l -> l !! i = Some (x, v) -> ld32 m (n_next x) = node_at (Datatypes.S i) l.
Proof.
  revert prev p i. induction l as [|[y w] l IH]; intros prev p i Hl Hi; [done|]. destruct Hl as (_ & _ & _ & Hl).
  destruct i as [|i]; simplify_eq/=; [|by eapply IH]. unfold node_at. cbn. destruct l as [|[z u] l]; [done | by destruct Hl].
Qed.

Lemma dl_seg_head m prev p l : dl_seg m prev p 0 l -> p = node_at 0 l.
Proof. destruct l as [|[x v] l]; [done | by intros [-> _]]. Qed.

(** The position the scheduler moves to. *)
Definition successor (i : nat) (l : list (Z * Z)) : nat := if decide (Datatypes.S i < length l)%nat then Datatypes.S i else 0%nat.

Lemma successor_lookup i l x v : l !! i = Some (x, v) -> exists y w, l !! successor i l = Some (y, w).
Proof.
  intros Hi. pose proof (lookup_lt_Some _ _ _ Hi). unfold successor.
  destruct (lookup_lt_is_Some_2 l (if decide (Datatypes.S i < length l)%nat then Datatypes.S i else 0%nat)) as [[y w] ->]; [case_decide; lia | eauto].
Qed.

(** The task at the next position is picked when it is not a zombie. *)
Lemma wp_pick_next fuel n i l R s x t y u (Q : Z -> S -> Prop) :
  list_state n (ld32 (mem s) task_list) l R s -> l !! i = Some (x, t) -> l !! successor i l = Some (y, u) ->
  ld32 (mem s) (tk_state u) <> TASK_ZOMBIE -> (0 < fuel)%nat -> Q u s ->
  wp (pick_next fuel (ld32 (mem s) (n_next x))) Q s.
Proof.
  intros Hst Hi Hsu Hz Hf HQ. destruct fuel as [|fuel]; [lia|]. cbn [pick_next].
  pose proof (list_state_nonnull _ _ _ _ _ Hst) as Hnz. pose proof Hst as [_ [_ Hseg _]].
  rewrite (dl_seg_next _ _ _ _ _ _ _ Hseg Hi). unfold successor in Hsu. wp_step.
  assert (Hend : forall s', s' = s -> wp (st ← load32 (tk_state u); if st =? TASK_ZOMBIE then task_destroy u;; pick_next fuel (node_at (Datatypes.S i) l) else mret u) Q s').
  { intros s' ->. mstep. mstep. rewrite (proj2 (Z.eqb_neq _ TASK_ZOMBIE)) by done. by mstep. }
  case_decide as Hlt.
  - rewrite (node_at_some _ _ _ _ Hsu). rewrite (node_at_some _ _ _ _ Hsu) in Hend.
    rewrite (proj2 (Z.eqb_neq y 0)) by (eapply Hnz, list_elem_of_lookup_2, Hsu). mstep.
    rewrite (dl_seg_value_at _ _ _ _ _ _ _ _ Hseg Hsu). by apply Hend.
  - replace (node_at (Datatypes.S i) l) with 0 in * by (unfold node_at; rewrite (proj2 (lookup_ge_None l (Datatypes.S i))) by lia; done).
    cbn [Z.eqb]. mstep. mstep. unfold list_peek_front. mstep. mstep.
    rewrite (dl_seg_head _ _ _ _ Hseg), (node_at_some _ _ _ _ Hsu).
    rewrite (proj2 (Z.eqb_neq y 0)) by (eapply Hnz, list_elem_of_lookup_2, Hsu). mstep. mstep. mstep.
    rewrite (dl_seg_head _ _ _ _ Hseg), (node_at_some _ _ _ _ Hsu), (dl_seg_value_at _ _ _ _ _ _ _ _ Hseg Hsu). by apply Hend.
Qed.

(** The words a switch from [cur] writes. *)
Definition switch_words (cur : Z) : list Z := [curr_ticks; tk_usage cur; prev_ticks; tk_kstack cur; current_task].

(** What a switch from [cur] to [next] leaves in memory. *)
Record switched (m m' : memory) (cur next esp : Z) : Prop := {
  sw_current : ld32 m' current_task = next;
  sw_kstack : ld32 m' (tk_kstack cur) = u32 esp;
  sw_usage : ld32 m' (tk_usage cur) = u32 (ld32 m (tk_usage cur) + (ld32 m timer_ticks_at - ld32 m prev_ticks));
  sw_prev : ld32 m' prev_ticks = ld32 m timer_ticks_at;
  sw_rest b : (forall w, w ∈ switch_words cur -> ~ (w <= b < w + 4)) -> ld8 m' b = ld8 m b;
}.

(** The task and the variables are apart from each other. *)
Record switch_layout (cur : Z) : Prop := {
  sl_vars g g' : g ∈ variables -> g' ∈ variables -> g <> g' -> disjoint g 4 g' 4;
  sl_task g : g ∈ variables -> disjoint cur SIZEOF_TASK g 4;
}.

Lemma queue_layout n i l R s x t : queue n i l R s -> (x, t) ∈ l -> switch_layout t.
Proof.
  intros [[Hok _] [_ Hv] Ht _ _] Hin. destruct (Ht x t Hin) as [HtR _]. split.
  - intros g g' Hg Hg' Hne. apply (heap_ok_apart_in n _ R s (g, 4) (g', 4) Hok); [by apply Hv | by apply Hv | congruence].
  - intros g Hg. apply (heap_ok_apart_in n _ R s (t, SIZEOF_TASK) (g, 4) Hok); [done | by apply Hv |]. unfold SIZEOF_TASK. congruence.
Qed.

Ltac var := unfold variables; elem.

(** What [lia] needs. *)
Lemma layout_facts cur : NoDup variables -> switch_layout cur ->
  disjoint current_task 4 prev_ticks 4 /\ disjoint current_task 4 curr_ticks 4 /\ disjoint prev_ticks 4 curr_ticks 4 /\
  disjoint timer_ticks_at 4 prev_ticks 4 /\ disjoint timer_ticks_at 4 curr_ticks 4 /\ disjoint timer_ticks_at 4 current_task 4 /\
  disjoint task_list 4 prev_ticks 4 /\ disjoint task_list 4 curr_ticks 4 /\ disjoint task_list 4 current_task 4 /\
  disjoint cur SIZEOF_TASK current_task 4 /\ disjoint cur SIZEOF_TASK prev_ticks 4 /\ disjoint cur SIZEOF_TASK curr_ticks 4 /\
  disjoint cur SIZEOF_TASK timer_ticks_at 4 /\ disjoint cur SIZEOF_TASK task_list 4.
Proof.
  intros Hnd [Hvv Hvt].
  assert (Hne : current_task <> prev_ticks /\ current_task <> curr_ticks /\ prev_ticks <> curr_ticks /\
    timer_ticks_at <> prev_ticks /\ timer_ticks_at <> curr_ticks /\ timer_ticks_at <> current_task /\
    task_list <> prev_ticks /\ task_list <> curr_ticks /\ task_list <> current_task).
  { unfold variables in Hnd. repeat (apply NoDup_cons in Hnd as [?Hn Hnd]).
    split_and!; intros He; match goal with Hn : ?a ∉ _ |- _ => apply Hn; (rewrite He || rewrite <- He); elem end. }
  destruct_and! Hne. split_and!; first [apply Hvv; [var | var | assumption] | apply Hvt; var].
Qed.


(** The statements of [schedule] behind the choice of the task. *)
Lemma wp_switch n lst l R s cur next esp (Q : unit -> S -> Prop) :
  list_state n lst l R s -> ld32 (mem s) current_task = cur -> cur <> 0 -> NoDup variables -> switch_layout cur -> 0 <= next < 4294967296 ->
  (forall g, g ∈ variables -> (g, 4) ∈ R) -> (cur, SIZEOF_TASK) ∈ R ->
  (forall s', list_state n lst l R s' -> switched (mem s) (mem s') cur next esp -> Q tt s') ->
  wp (now ← load32 timer_ticks_at;
      store32 curr_ticks now;;
      cur ← load32 current_task;
      usage ← load32 (tk_usage cur);
      now ← load32 curr_ticks;
      before ← load32 prev_ticks;
      store32 (tk_usage cur) (usage +32 (now - before));;
      now ← load32 curr_ticks;
      store32 prev_ticks now;;
      kstack ← load32 (tk_kstack next);
      tss_set_stack_op 0x10 kstack;;
      pd ← load32 (tk_page_dir next);
      switch_page_directory_op pd;;
      context_switch esp next) Q s.
Proof.
  intros Hst Hcur Hc0 Hnd Hlay Hnext HvR HcR HQ. destruct (layout_facts _ Hnd Hlay) as (Hd1 & Hd2 & Hd3 & Hd4 & Hd5 & Hd6 & _ & _ & _ & Hd7 & Hd8 & Hd9 & Hd10 & _).
  unfold disjoint, SIZEOF_TASK in *. unfold tk_usage, tk_kstack.
  repeat (mstep; rewrite ?mem_set_mem, ?set_mem_set_mem). rewrite (ld32_st32_ne _ curr_ticks current_task), Hcur by (unfold disjoint; lia).
  rewrite (ld32_st32_ne _ curr_ticks (cur + 40)), (ld32_st32_ne _ curr_ticks prev_ticks) by (unfold disjoint; lia).
  rewrite (ld32_st32_ne _ (cur + 40) curr_ticks) by (unfold disjoint; lia). rewrite ld32_st32_eq, u32_ld32.
  set (now := ld32 (mem s) timer_ticks_at) in *. set (used := u32 (ld32 (mem s) (cur + 40) + (now - ld32 (mem s) prev_ticks))).
  set (m3 := st32 (st32 (st32 (mem s) curr_ticks now) (cur + 40) used) prev_ticks now).
  assert (Hword : forall g m, g ∈ variables -> touched R (mem s) m -> forall v, touched R (mem s) (st32 m g v)).
  { intros g m Hg Hm v. eapply touched_st32; [exact Hm | by apply (HvR g) | simpl; lia | simpl; lia]. }
  assert (Ht3 : touched R (mem s) m3).
  { unfold m3. apply Hword; [var|]. eapply touched_st32; [|exact HcR | simpl; lia | unfold SIZEOF_TASK; simpl; lia].
    apply Hword; [var | apply touched_refl]. }
  pose proof (list_state_write _ _ _ _ _ _ Hst Ht3) as Hst3.
  apply wp_tss_set_stack. intros s1 Hm1 Hh1. rewrite mem_set_mem in Hm1.
  mstep. mstep. wp_step. apply wp_switch_page_directory. intros s2 Hm2 Hh2. rewrite Hm1 in Hm2.
  assert (Hst2 : list_state n lst l R s2).
  { eapply list_state_frame; [exact Hst3 | by rewrite mem_set_mem | intros n' L' Hok; by apply Hh2, Hh1]. }
  unfold context_switch, tk_kstack. do 4 mstep. mstep. rewrite mem_set_mem, set_mem_set_mem, Hm2.
  assert (Hc3 : ld32 m3 current_task = cur) by (unfold m3; by rewrite !ld32_st32_ne by (unfold disjoint; lia)). rewrite Hc3.
  apply HQ.
  - apply list_state_write; [exact Hst2|]. rewrite Hm2. eapply touched_st32; [|apply (HvR current_task); var | simpl; lia | simpl; lia].
    eapply touched_st32; [apply touched_refl | exact HcR | simpl; lia | unfold SIZEOF_TASK; simpl; lia].
  - rewrite mem_set_mem. split; unfold tk_kstack, tk_usage.
    + rewrite ld32_st32_eq. by apply u32_small.
    + rewrite ld32_st32_ne, ld32_st32_eq by (unfold disjoint; lia). done.
    + rewrite !(ld32_st32_ne _ _ (cur + 40)) by (unfold disjoint; lia). unfold m3.
      rewrite ld32_st32_ne, ld32_st32_eq by (unfold disjoint; lia). unfold used. apply u32_idemp.
    + rewrite !(ld32_st32_ne _ _ prev_ticks) by (unfold disjoint; lia). unfold m3. rewrite ld32_st32_eq. apply u32_ld32.
    + intros b Hb. assert (Hw : forall w, w ∈ switch_words cur -> b < w \/ w + 4 <= b) by (intros w Hw; specialize (Hb w Hw); lia).
      unfold m3. rewrite !ld8_st32_ne; [done|..]; apply Hw; unfold switch_words, tk_usage, tk_kstack; elem.
Qed.

Lemma switched_word m m' cur next esp w :
  switched m m' cur next esp -> (forall x, x ∈ switch_words cur -> disjoint x 4 w 4) -> ld32 m' w = ld32 m w.
Proof.
  intros [_ _ _ _ Hr] Hd. apply ld32_ext. intros b Hb. apply Hr. intros x Hx. specialize (Hd x Hx). unfold disjoint in Hd. lia.
Qed.

(** The words of a task that a switch leaves alone. *)
Lemma switch_words_far n i l R s cx cur x t k :
  queue n i l R s -> (cx, cur) ∈ l -> (x, t) ∈ l -> k = 24 \/ k = 32 ->
  forall w, w ∈ switch_words cur -> disjoint w 4 (t + k) 4.
Proof.
  intros Hq Hc Hx Hk w Hw. pose proof Hq as [[Hok _] _ Ht _ _].
  pose proof (queue_layout _ _ _ _ _ _ _ Hq Hx) as [_ Hlay]. unfold SIZEOF_TASK in *.
  destruct (decide (t = cur)) as [->|Hne].
  - unfold switch_words, tk_usage, tk_kstack in Hw. rewrite !elem_of_cons, elem_of_nil in Hw. unfold disjoint in *.
    destruct Hw as [->|[->|[->|[->|[->|[]]]]]]; [| lia | | lia |].
    + specialize (Hlay curr_ticks ltac:(var)). lia.
    + specialize (Hlay prev_ticks ltac:(var)). lia.
    + specialize (Hlay current_task ltac:(var)). lia.
  - assert (Hap : apart (t, 48) (cur, 48)).
    { eapply heap_ok_apart_in; [exact Hok | by apply (Ht x t) | by apply (Ht cx cur) | congruence]. }
    unfold switch_words, tk_usage, tk_kstack in Hw. rewrite !elem_of_cons, elem_of_nil in Hw. unfold apart, disjoint in *. cbn [fst snd] in Hap.
    destruct Hw as [->|[->|[->|[->|[->|[]]]]]]; [| lia | | lia |].
    + specialize (Hlay curr_ticks ltac:(var)). lia.
    + specialize (Hlay prev_ticks ltac:(var)). lia.
    + specialize (Hlay current_task ltac:(var)). lia.
Qed.

(** [schedule] makes the next task of the queue current. *)
Lemma wp_schedule fuel n i l R s esp (Q : unit -> S -> Prop) :
  queue n i l R s -> (0 < fuel)%nat ->
  (forall s', queue n (successor i l) l R s' ->
     (forall u x, l !! successor i l = Some (x, u) -> switched (mem s) (mem s') (ld32 (mem s) current_task) u esp) -> Q tt s') ->
  wp (schedule fuel esp) Q s.
Proof.
  intros Hq Hf HQ. pose proof Hq as [Hst [Hnd Hv] Ht Hdis [x Hcur]]. set (cur := ld32 (mem s) current_task) in *.
  pose proof (list_elem_of_lookup_2 _ _ _ Hcur) as Hin. destruct (Ht _ _ Hin) as (HcR & Hself & _).
  destruct (successor_lookup i l x cur Hcur) as (y & u & Hsu). pose proof (list_elem_of_lookup_2 _ _ _ Hsu) as Hinu.
  destruct (Ht _ _ Hinu) as (HuR & _ & Huz). pose proof Hst as [Hok _].
  assert (Htl : ld32 (mem s) task_list <> 0).
  { pose proof (heap_ok_start _ _ _ (ld32 (mem s) task_list, 12) Hok ltac:(unfold list_regions; elem)). simpl in *. lia. }
  assert (Hc0 : cur <> 0).
  { pose proof (heap_ok_start _ _ _ (cur, SIZEOF_TASK) Hok ltac:(apply elem_of_app; by right)). simpl in *. lia. }
  destruct (heap_ok_regions _ _ _ (u, SIZEOF_TASK) Hok ltac:(apply elem_of_app; by right)) as [Hu4 Hu32]. unfold SIZEOF_TASK in Hu32. cbn [fst snd] in *.
  unfold schedule. mstep. mstep. rewrite (proj2 (Z.eqb_neq _ 0)) by done. mstep. mstep. fold cur. rewrite (proj2 (Z.eqb_neq _ 0)) by done.
  mstep. mstep. fold cur. mstep. mstep. rewrite Hself. mstep. mstep. wp_step.
  eapply wp_pick_next; [exact Hst | exact Hcur | exact Hsu | exact Huz | exact Hf |]. mstep. mstep. fold cur.
  rewrite (proj2 (Z.eqb_neq _ 0)) by done.
  eapply (wp_switch n _ l R s cur u esp); [exact Hst | done | done | exact Hnd | by eapply queue_layout | lia | exact Hv | exact HcR |].
  intros s' Hst' Hsw. apply HQ; [|by intros u' x' Hu'; replace u' with u by congruence].
  destruct (layout_facts _ Hnd (queue_layout _ _ _ _ _ _ _ Hq Hin)) as (_ & _ & _ & _ & _ & _ & Hl1 & Hl2 & Hl3 & _ & _ & _ & _ & Hl4).
  assert (Htl' : ld32 (mem s') task_list = ld32 (mem s) task_list).
  { eapply switched_word; [exact Hsw|]. intros w Hw. unfold switch_words, tk_usage, tk_kstack in Hw. rewrite !elem_of_cons, elem_of_nil in Hw.
    unfold disjoint, SIZEOF_TASK in *. destruct Hw as [->|[->|[->|[->|[->|[]]]]]]; lia. }
  split.
  - by rewrite Htl'.
  - done.
  - intros x' t' Hin'. destruct (Ht _ _ Hin') as (HtR & Hs' & Hz'). unfold tk_self, tk_state in *. split_and!; [done | |].
    + rewrite <- Hs'. eapply switched_word; [exact Hsw|]. eapply switch_words_far; [exact Hq | exact Hin | exact Hin' | by left].
    + erewrite switched_word; [exact Hz' | exact Hsw |]. eapply switch_words_far; [exact Hq | exact Hin | exact Hin' | by right].
  - done.
  - exists y. rewrite (sw_current _ _ _ _ _ Hsw). exact Hsu.
Qed.

(** The tick of a timer interrupt is outside the tasks and the list. *)
Lemma queue_tick n i l R s v : queue n i l R s -> queue n i l R (set_mem (st32 (mem s) timer_ticks_at v) s).
Proof.
  intros Hq. pose proof Hq as [Hst [Hnd Hv] Ht Hdis [x Hcur]].
  pose proof (list_elem_of_lookup_2 _ _ _ Hcur) as Hin.
  destruct (layout_facts _ Hnd (queue_layout _ _ _ _ _ _ _ Hq Hin)) as (_ & _ & _ & _ & _ & Hd1 & _).
  assert (Hdl : disjoint timer_ticks_at 4 task_list 4).
  { apply (sl_vars _ (queue_layout _ _ _ _ _ _ _ Hq Hin)); [var | var |]. intros He. unfold variables in Hnd.
    repeat (apply NoDup_cons in Hnd as [?Hn Hnd]). apply Hn0. rewrite <- He. elem. }
  split; rewrite ?mem_set_mem.
  - rewrite ld32_st32_ne by done. apply list_state_write; [exact Hst|].
    eapply touched_st32; [apply touched_refl | apply (Hv timer_ticks_at); var | simpl; lia | simpl; lia].
  - done.
  - intros y t Hy. destruct (Ht y t Hy) as (HtR & Hs & Hz). destruct (queue_layout _ _ _ _ _ _ _ Hq Hy) as [_ Hlt].
    specialize (Hlt timer_ticks_at ltac:(var)). unfold disjoint, SIZEOF_TASK, tk_self, tk_state in *.
    rewrite !ld32_st32_ne by (unfold disjoint; lia). done.
  - done.
  - exists x. by rewrite ld32_st32_ne.
Qed.

(** Consecutive timer interrupts, with the stack pointers they find. *)
Fixpoint timer_irqs (fuel : nat) (esps : list Z) : M S unit :=
  match esps with
  | [] => mret tt
  | esp :: esps' => timer_irq_handler fuel esp;; timer_irqs fuel esps'
  end.

Lemma wp_timer_irqs fuel n i l R s esps (Q : unit -> S -> Prop) :
  queue n i l R s -> (0 < fuel)%nat ->
  (forall s', queue n ((i + length esps) mod length l) l R s' -> Q tt s') -> wp (timer_irqs fuel esps) Q s.
Proof.
  revert i s. induction esps as [|esp esps IH]; intros i s Hq Hf HQ; cbn [timer_irqs length] in *.
  - pose proof (qu_current _ _ _ _ _ Hq) as [x Hx%lookup_lt_Some]. rewrite Nat.add_0_r, Nat.mod_small in HQ by done. wp_step. by apply HQ.
  - wp_step. unfold timer_irq_handler. mstep. mstep. mstep. eapply wp_schedule; [by apply queue_tick | exact Hf |].
    intros s1 Hq1 _. eapply IH; [exact Hq1 | exact Hf |].
    pose proof (qu_current _ _ _ _ _ Hq) as [x Hx%lookup_lt_Some].
    replace ((successor i l + length esps) mod length l)%nat with ((i + Datatypes.S (length esps)) mod length l)%nat; [done|].
    unfold successor. case_decide.
    + f_equal. lia.
    + replace (i + Datatypes.S (length esps))%nat with (length esps + 1 * length l)%nat by lia. rewrite Nat.Div0.mod_add. done.
Qed.

(** C4: the scheduler is fair.  With tasks that are ready, every timer interrupt
    makes the task behind the current one current, in the order of the queue and
    from its end back to its start; so within fewer timer interrupts than there are
    tasks every task runs, and the queue stays well formed. *)
Theorem schedule_fair fuel n i l R s j x t esps :
  queue n i l R s -> (0 < fuel)%nat -> l !! j = Some (x, t) ->
  length esps = ((j + length l - i) mod length l)%nat ->
  exists s', timer_irqs fuel esps s = Done (tt, s') /\ queue n j l R s' /\ ld32 (mem s') current_task = t /\
    (length esps < length l)%nat.
Proof.
  intros Hq Hf Hj Hlen. pose proof (qu_current _ _ _ _ _ Hq) as [y Hy%lookup_lt_Some]. pose proof (lookup_lt_Some _ _ _ Hj).
  apply wp_unit. eapply wp_timer_irqs; [exact Hq | exact Hf |]. intros s' Hq'. rewrite Hlen, Nat.Div0.add_mod_idemp_r in Hq'.
  replace (i + (j + length l - i))%nat with (j + 1 * length l)%nat in Hq' by lia. rewrite Nat.Div0.mod_add, Nat.mod_small in Hq' by done.
  split_and!; [done | | rewrite Hlen; apply Nat.mod_upper_bound; lia].
  destruct (qu_current _ _ _ _ _ Hq') as [z Hz]. congruence.
Qed.

(** one step of the scheduler: the time since the last switch is added to the
    account of the task that is left, its stack pointer is saved, the next task of
    the queue becomes current, and nothing else changes. *)
Theorem schedule_switches fuel n i l R s esp :
  queue n i l R s -> (0 < fuel)%nat ->
  exists x u s', schedule fuel esp s = Done (tt, s') /\ l !! successor i l = Some (x, u) /\
    queue n (successor i l) l R s' /\ switched (mem s) (mem s') (ld32 (mem s) current_task) u esp.
Proof.
  intros Hq Hf. destruct (qu_current _ _ _ _ _ Hq) as [x0 Hx0]. destruct (successor_lookup _ _ _ _ Hx0) as (x & u & Hu). exists x, u.
  assert (Hwp : wp (schedule fuel esp) (fun _ s' => queue n (successor i l) l R s' /\
    switched (mem s) (mem s') (ld32 (mem s) current_task) u esp) s).
  { eapply wp_schedule; [exact Hq | exact Hf |]. intros s' Hq' Hsw. split; [exact Hq' | by eapply Hsw]. }
  apply wp_unit in Hwp as (s' & Hrun & Hq' & Hsw). by exists s'.
Qed.
End queue.

(** ** Zombies *)

Section zombies.
Context {S : Type} `{MemLaws S} `{!Allocator S} `{!CallocLaws S} `{!TaskGlobals}.

(** An allocator that leaves the contents of released objects as they are. *)
Definition frees_quietly : Prop := forall p s, exists s', kfree_op p s = Done (tt, s') /\ mem s' = mem s.

(** What [task_destroy] of a zombie [z] with the node [x] between [p] and [q] reads;
    [words] are where it writes. *)
Record zombie_at (m : memory) (tl x p q z : Z) : Prop := {
  za_list : ld32 m task_list = tl /\ ld32 m (l_head tl) <> x /\ ld32 m (l_tail tl) <> x;
  za_node : ld32 m (n_prev x) = p /\ ld32 m (n_next x) = q /\ ld32 m (n_value x) = z;
  za_task : ld32 m (tk_self z) = x /\ ld32 m (tk_state z) = TASK_ZOMBIE;
}.

Definition zombie_words (tl p q : Z) : list Z := [n_prev q; n_next p; l_size tl].
Definition zombie_reads (tl x z : Z) : list Z :=
  [task_list; l_head tl; l_tail tl; n_prev x; n_next x; n_value x; tk_self z; tk_state z].

Lemma zombie_at_kept m m' tl x p q z :
  zombie_at m tl x p q z -> (forall w, w ∈ zombie_reads tl x z -> ld32 m' w = ld32 m w) -> zombie_at m' tl x p q z.
Proof.
  unfold zombie_reads. intros [(Hz1 & Hz2 & Hz3) (Hz4 & Hz5 & Hz6) (Hz7 & Hz8)] Hw.
  split; split_and!; rewrite Hw by elem; done.
Qed.

Lemma zombie_at_store m tl x p q z w v :
  zombie_at m tl x p q z -> w ∈ zombie_words tl p q ->
  (forall w r, w ∈ zombie_words tl p q -> r ∈ zombie_reads tl x z -> disjoint w 4 r 4) -> zombie_at (st32 m w v) tl x p q z.
Proof. intros Hz Hw Hd. eapply zombie_at_kept; [exact Hz|]. intros r Hr. apply ld32_st32_ne. by apply Hd. Qed.

Lemma wp_kfree_quiet p s (Q : unit -> S -> Prop) :
  frees_quietly -> (forall s', mem s' = mem s -> Q tt s') -> wp (kfree_op p) Q s.
Proof. intros Hf HQ. destruct (Hf p s) as (s' & Hrun & Hm). eapply wp_done; [exact Hrun | by apply HQ]. Qed.

(** Destroying a zombie leaves everything as it was for destroying it again. *)
Lemma wp_task_destroy_again tl x p q z s (Q : unit -> S -> Prop) :
  frees_quietly -> zombie_at (mem s) tl x p q z ->
  (forall w r, w ∈ zombie_words tl p q -> r ∈ zombie_reads tl x z -> disjoint w 4 r 4) ->
  (forall s', zombie_at (mem s') tl x p q z -> Q tt s') -> wp (task_destroy z) Q s.
Proof.
  intros Hfr Hz Hd HQ. pose proof Hz as [(Hz1 & Hz2 & Hz3) (Hz4 & Hz5 & Hz6) (Hz7 & Hz8)].
  unfold task_destroy. mstep. mstep. rewrite Hz1. mstep. mstep. rewrite Hz7. wp_step. unfold list_remove_node.
  mstep. mstep. mstep. mstep. rewrite (proj2 (Z.eqb_neq _ x)) by done. mstep. mstep. rewrite (proj2 (Z.eqb_neq _ x)) by done.
  mstep. mstep. rewrite Hz5. mstep. mstep. rewrite Hz4. mstep. mstep.
  assert (Ha : zombie_at (st32 (mem s) (n_prev q) p) tl x p q z) by (apply zombie_at_store; [done | unfold zombie_words; elem | done]).
  pose proof Ha as [_ (Ha4 & Ha5 & _) _].
  mstep. mstep. rewrite mem_set_mem, Ha4. mstep. mstep. rewrite mem_set_mem, Ha5. mstep. mstep. rewrite mem_set_mem, set_mem_set_mem.
  unfold add_size. mstep. mstep. mstep. mstep. rewrite ?mem_set_mem, ?set_mem_set_mem.
  match goal with |- wp _ _ (set_mem ?m _) => assert (Hb : zombie_at m tl x p q z) end.
  { apply zombie_at_store; [|unfold zombie_words; elem|done]. apply zombie_at_store; [exact Ha|unfold zombie_words; elem|done]. }
  wp_step. apply wp_kfree_quiet; [done|]. intros s1 Hm1. rewrite mem_set_mem in Hm1. mstep. mstep. mstep.
  wp_step. apply wp_kfree_quiet; [done|]. intros s2 Hm2. mstep. mstep. wp_step. apply wp_kfree_quiet; [done|]. intros s3 Hm3.
  apply wp_kfree_quiet; [done|]. intros s4 Hm4. apply HQ. by rewrite Hm4, Hm3, Hm2, Hm1.
Qed.

Lemma pick_next_zombie_stuck fuel tl x p q z s :
  frees_quietly -> zombie_at (mem s) tl x p q z -> x <> 0 ->
  (forall w r, w ∈ zombie_words tl p q -> r ∈ zombie_reads tl x z -> disjoint w 4 r 4) ->
  stuck (pick_next fuel x) s.
Proof.
  intros Hfr Hz Hx Hd. revert s Hz. induction fuel as [|fuel IH]; intros s Hz; [done|]. cbn [pick_next].
  pose proof Hz as [_ (_ & _ & Hz6) (_ & Hz8)]. rewrite (proj2 (Z.eqb_neq x 0)) by done.
  apply stuck_bind. mstep. rewrite Hz6. apply stuck_bind. mstep. rewrite Hz8, Z.eqb_refl.
  apply stuck_bind. eapply wp_task_destroy_again; [exact Hfr | exact Hz | exact Hd |]. exact IH.
Qed.

Context `{!Switching S}.

End zombies.
