(* ===== verification/Pci.v ===== *)
(** * drivers/pci.c: configuration space and the scan of the buses

    The configuration accesses over the ports, the table of the devices found and
    the scan that fills it. *)

From S2P Require Export IoMem FsNode.

(** ** include/drivers/pci.h *)

Definition PCI_CONFIG_ADDRESS : Z := 0xCF8.
Definition PCI_CONFIG_DATA : Z := 0xCFC.

(** [pci_device], [pci_driver]. *)
Definition SIZEOF_PCI_DEVICE : Z := 16.
Definition pd_vendor (d : Z) : Z := d.
Definition pd_device (d : Z) : Z := d + 4.
Definition pd_func (d : Z) : Z := d + 8.
Definition pd_driver (d : Z) : Z := d + 12.
Definition SIZEOF_PCI_DRIVER : Z := 20.
Definition pdr_name (d : Z) : Z := d + 4.

(** The addresses of the static variables. *)
Class PciGlobals := { pci_devices : Z; devs : Z; pci_drivers : Z; drivs : Z }.

(** ** The code *)

Section pci_c.
Context {S : Type} `{HasIo S} `{HasMem S} `{!Allocator S} `{!Logger S} `{!PciGlobals}.

Definition pci_read_word (bus slot func offset : Z) : M S Z :=
  let address := Z.lor (Z.lor (Z.lor (Z.lor (Z.shiftl bus 16) (Z.shiftl slot 11)) (Z.shiftl func 8)) (Z.land offset 0xfc))
    0x80000000 in
  outl PCI_CONFIG_ADDRESS address;;
  v ← inl_port PCI_CONFIG_DATA;
  mret (Z.land (Z.shiftr v (Z.land offset 2 * 8)) 0xffff).

(** The operator between the first two terms is the logical or. *)
Definition pci_write_word (bus slot func offset data : Z) : M S unit :=
  let rest := Z.lor (Z.lor (Z.lor (u32 (Z.shiftl slot 11)) (u32 (Z.shiftl func 8))) (Z.land offset 0xFC)) 0x80000000 in
  let address := Z.b2z (negb (u32 (Z.shiftl bus 16) =? 0) || negb (rest =? 0)) in
  outl PCI_CONFIG_ADDRESS address;;
  outl PCI_CONFIG_DATA data.

Definition getVendorID (bus device function : Z) : M S Z := r0 ← pci_read_word bus device function 0; mret (u16 r0).
Definition getDeviceID (bus device function : Z) : M S Z := r0 ← pci_read_word bus device function 2; mret (u16 r0).

Definition add_pci_device (pdev : Z) : M S unit :=
  arr ← load32 pci_devices;
  n ← load32 devs;
  store32 (arr + 4 * n) pdev;;
  n ← load32 devs;
  store32 devs (n +32 1).

(** The body of the innermost loop of [pci_probe]. *)
Definition probe_function (bus slot function : Z) : M S unit :=
  vendor ← getVendorID (u16 bus) (u16 slot) (u16 function);
  if vendor =? 0xffff then mret tt
  else
    device ← getDeviceID (u16 bus) (u16 slot) (u16 function);
    klog_op LevelPlain "vendor: 0x%x device: 0x%x\n" [vendor; device];;
    pdev ← kmalloc_op SIZEOF_PCI_DEVICE;
    store32 (pd_vendor pdev) vendor;;
    store32 (pd_device pdev) device;;
    store32 (pd_func pdev) function;;
    store32 (pd_driver pdev) 0;;
    add_pci_device pdev.

Definition pci_probe : M S unit :=
  for_loop 256 0 (fun bus => for_loop 32 0 (fun slot => for_loop 8 0 (fun function => probe_function bus slot function))).

Definition pciCheckVendor (bus slot : Z) : M S Z :=
  vendor ← pci_read_word bus slot 0 0;
  if negb (vendor =? 0xFFFF) then mret 0 else mret vendor.

Definition pci_init : M S unit :=
  store32 drivs 0;;
  store32 devs 0;;
  arr ← kmalloc_op (32 * SIZEOF_PCI_DEVICE);
  store32 pci_devices arr;;
  arr ← kmalloc_op (32 * SIZEOF_PCI_DRIVER);
  store32 pci_drivers arr;;
  klog_op LevelOk "PCI device support loaded\n" [];;
  pci_probe.

Definition pci_register_driver (driv : Z) : M S unit :=
  arr ← load32 pci_drivers;
  n ← load32 drivs;
  store32 (arr + 4 * n) driv;;
  n ← load32 drivs;
  store32 drivs (n +32 1).

(** One line of [pci_proc_list]. *)
Definition proc_line (pci_dev : Z) : M S unit :=
  driver ← load32 (pd_driver pci_dev);
  v ← load32 (pd_vendor pci_dev);
  d ← load32 (pd_device pci_dev);
  f ← load32 (pd_func pci_dev);
  if negb (driver =? 0) then
    name ← load32 (pdr_name driver);
    klog_op LevelPlain "[%x:%x:%x] => %s\n" [v; d; f; name]
  else klog_op LevelPlain "[%x:%x:%x]\n" [v; d; f].

Fixpoint pci_proc_list_loop (fuel : nat) (i : Z) : M S unit :=
  match fuel with
  | O => out_of_fuel
  | Datatypes.S fuel' =>
      n ← load32 devs;
      if i <? n then
        arr ← load32 pci_devices;
        dev ← load32 (arr + 4 * i);
        proc_line dev;;
        pci_proc_list_loop fuel' (i +32 1)
      else mret tt
  end.

Definition pci_proc_list (fuel : nat) : M S unit := pci_proc_list_loop fuel 0.
End pci_c.

(** ** The scan *)

(** The word at offset 0 of the configuration space of the function number [k], in
    the order of the scan: bus [k / 256], slot [k / 8 mod 32], function [k mod 8]. *)
Definition config := Z -> Z.

Definition vendor_of (c : config) (k : Z) : Z := c k mod 65536.
Definition device_of (c : config) (k : Z) : Z := c k / 65536.
Definition absent (c : config) (k : Z) : bool := vendor_of c k =? 0xffff.

(** The functions of a range that are present. *)
Definition found (c : config) (ks : list Z) : list Z := filter (fun k => absent c k = false) ks.

(** What the configuration port delivers during the scan of [ks], and the accesses. *)
Definition probe_answers (c : config) (ks : list Z) : list Z :=
  ks ≫= (fun k => if absent c k then [c k] else [c k; c k]).
Definition read_events (c : config) (k : Z) : list io_event :=
  [Out PCI_CONFIG_ADDRESS (0x80000000 + 256 * k); Io.In PCI_CONFIG_DATA (c k)].
Definition probe_events (c : config) (ks : list Z) : list io_event :=
  ks ≫= (fun k => if absent c k then read_events c k else read_events c k ++ read_events c k).

(** The object of a device that was found. *)
Definition device_at (m : memory) (c : config) (p k : Z) : Prop :=
  ld32 m (pd_vendor p) = vendor_of c k /\ ld32 m (pd_device p) = device_of c k /\
  ld32 m (pd_func p) = k mod 8 /\ ld32 m (pd_driver p) = 0.

(** Disjoint bit ranges add up. *)
Lemma lor_high q n b : 0 <= n -> 0 <= b < 2 ^ n -> Z.lor (q * 2 ^ n) b = q * 2 ^ n + b.
Proof.
  intros Hn Hb. assert (Hl : Z.land (q * 2 ^ n) b = 0).
  { rewrite <- (Z.mod_small b (2 ^ n)) at 1 by done. rewrite <- Z.land_ones, (Z.land_comm b), Z.land_assoc, Z.land_ones by done.
    by rewrite Z.mod_mul by (apply Z.pow_nonzero; lia). }
  pose proof (Z.add_lor_land (q * 2 ^ n) b). lia.
Qed.

Lemma config_address k offset : 0 <= k < 65536 -> Z.land offset 0xfc = 0 ->
  Z.lor (Z.lor (Z.lor (Z.lor (Z.shiftl (u16 (k / 256)) 16) (Z.shiftl (u16 (k / 8 mod 32)) 11)) (Z.shiftl (u16 (k mod 8)) 8))
    (Z.land offset 0xfc)) 0x80000000 = 0x80000000 + 256 * k.
Proof.
  intros Hk ->. rewrite Z.lor_0_r. rewrite !u16_small by (Z.div_mod_to_equations; lia). rewrite !Z.shiftl_mul_pow2 by lia.
  rewrite lor_high by (try lia; change (2 ^ 16) with 65536; change (2 ^ 11) with 2048; Z.div_mod_to_equations; lia).
  replace (k / 256 * 2 ^ 16 + k / 8 mod 32 * 2 ^ 11) with (k / 8 * 2 ^ 11)
    by (change (2 ^ 16) with 65536; change (2 ^ 11) with 2048; Z.div_mod_to_equations; lia).
  rewrite lor_high by (try lia; change (2 ^ 8) with 256; change (2 ^ 11) with 2048; Z.div_mod_to_equations; lia).
  replace (k / 8 * 2 ^ 11 + k mod 8 * 2 ^ 8) with (256 * k)
    by (change (2 ^ 8) with 256; change (2 ^ 11) with 2048; Z.div_mod_to_equations; lia).
  rewrite Z.lor_comm. change 0x80000000 with (1 * 2 ^ 31). rewrite lor_high by lia. lia.
Qed.

(** What the scan expects of logging and of the heap: they use other ports. *)
Class HeapPorts (S : Type) `{HasIo S} `{HasMem S} `{!Allocator S} `{!Logger S} := {
  kmalloc_io size s p s' : kmalloc_op size s = Done (p, s') -> get_io s' = get_io s;
  klog_io lv fmt args s s' : klog_op lv fmt args s = Done (tt, s') -> get_io s' = get_io s;
  heap_ok_set_io n L s i : heap_ok n L s -> heap_ok n L (set_io i s);
}.

Section probe.
Context {S : Type} `{HasIo S} `{HasMem S} `{!IoLaws S} `{!MemLaws S} `{!IoMemLaws S}
  `{!Allocator S} `{!CallocLaws S} `{!KmallocLaws S} `{!Logger S} `{!LoggerLaws S} `{!HeapPorts S} `{!PciGlobals}.

Lemma wp_kmalloc_ports n L s size (Q : Z -> S -> Prop) :
  heap_ok (Z.to_nat ((size + SMALL - 1) / SMALL) + n) L s -> 0 < size ->
  (forall p s', heap_ok n ((p, size) :: L) s' -> same_on (live L) (mem s) (mem s') -> get_io s' = get_io s -> Q p s') ->
  wp (kmalloc_op size) Q s.
Proof.
  intros Hok Hs HQ. assert (Hwp : wp (kmalloc_op size) (fun p s' => heap_ok n ((p, size) :: L) s' /\ same_on (live L) (mem s) (mem s')) s)
    by (by eapply wp_kmalloc; [exact Hok | done |]).
  apply wp_run in Hwp as (p & s' & Hrun & Hok' & Hsame). eapply wp_done; [exact Hrun|]. apply HQ; [done | done | by eapply kmalloc_io].
Qed.

Lemma wp_klog_ports lv fmt args n L s (Q : unit -> S -> Prop) :
  heap_ok n L s ->
  (forall s', heap_ok n L s' -> mem s' = mem s -> get_io s' = get_io s -> Q tt s') -> wp (klog_op lv fmt args) Q s.
Proof.
  intros Hok HQ. assert (Hwp : wp (klog_op lv fmt args) (fun _ s' => heap_ok n L s' /\ mem s' = mem s) s)
    by (apply wp_klog; intros s' Hm Hh; split; [by apply Hh | done]).
  apply wp_run in Hwp as ([] & s' & Hrun & Hok' & Hm). eapply wp_done; [exact Hrun|]. apply HQ; [done | done | by eapply klog_io].
Qed.

Lemma wp_pci_read_word k offset w ans tr s (Q : Z -> S -> Prop) :
  0 <= k < 65536 -> Z.land offset 0xfc = 0 -> 0 <= w < 4294967296 -> get_io s = Io (w :: ans) tr ->
  (forall s', s' = set_io (Io ans (tr ++ [Out PCI_CONFIG_ADDRESS (0x80000000 + 256 * k); Io.In PCI_CONFIG_DATA w])) s ->
     Q (Z.land (Z.shiftr w (Z.land offset 2 * 8)) 0xffff) s') ->
  wp (pci_read_word (u16 (k / 256)) (u16 (k / 8 mod 32)) (u16 (k mod 8)) offset) Q s.
Proof.
  intros Hk Ho Hw Hio HQ. unfold pci_read_word. rewrite config_address by done. cbv zeta. wp_step. apply wp_outl. wp_step.
  rewrite Hio. cbn [io_answers io_trace]. eapply wp_inl; [apply get_set_io|]. mstep. rewrite set_set_io, <- app_assoc. cbn [app].
  rewrite !(u32_small w) by done. rewrite u32_small by lia. by apply HQ.
Qed.

Lemma low_word w : 0 <= w < 4294967296 -> Z.land (Z.shiftr w (Z.land 0 2 * 8)) 0xffff = w mod 65536.
Proof. intros Hw. change 0xffff with (Z.ones 16). rewrite Z.land_ones by lia. done. Qed.

Lemma high_word w : 0 <= w < 4294967296 -> Z.land (Z.shiftr w (Z.land 2 2 * 8)) 0xffff = w / 65536.
Proof.
  intros Hw. change 0xffff with (Z.ones 16). rewrite Z.land_ones by lia. change (Z.land 2 2 * 8) with 16.
  rewrite Z.shiftr_div_pow2 by lia. change (2 ^ 16) with 65536. apply Z.mod_small. Z.div_mod_to_equations. lia.
Qed.

(** The devices [ids], in order, are the entries [ps] of the table at [arr]. *)
Record table_at (m : memory) (c : config) (arr : Z) (ps ids : list Z) : Prop := {
  ta_count : ld32 m devs = Z.of_nat (length ps);
  ta_table : ld32 m pci_devices = arr;
  ta_entries i p : ps !! i = Some p -> ld32 m (arr + 4 * Z.of_nat i) = p;
  ta_devices : Forall2 (device_at m c) ps ids;
}.

(** The table and its variables are different live objects. *)
Record table_regions (R : list region) (arr : Z) : Prop := {
  tr_table : (arr, 32 * SIZEOF_PCI_DEVICE) ∈ R;
  tr_vars : (pci_devices, 4) ∈ R /\ (devs, 4) ∈ R /\ pci_devices <> devs;
}.

Definition device_regions (ps : list Z) : list region := (fun p => (p, SIZEOF_PCI_DEVICE)) <$> ps.

Lemma device_region ps i p : ps !! i = Some p -> (p, SIZEOF_PCI_DEVICE) ∈ device_regions ps.
Proof. intros Hi. apply list_elem_of_fmap. exists p. split; [done | by eapply list_elem_of_lookup_2]. Qed.

Lemma device_at_same m m' c p k :
  device_at m c p k -> (forall b, p <= b < p + 16 -> ld8 m' b = ld8 m b) -> device_at m' c p k.
Proof.
  unfold device_at, pd_vendor, pd_device, pd_func, pd_driver. intros (Hd1 & Hd2 & Hd3 & Hd4) Hs.
  split_and!; [rewrite <- Hd1 | rewrite <- Hd2 | rewrite <- Hd3 | rewrite <- Hd4]; apply ld32_ext; intros b Hb; apply Hs; lia.
Qed.

(** The devices depend on their objects only. *)
Lemma devices_same m m' c ps ids :
  Forall2 (device_at m c) ps ids -> same_on (live (device_regions ps)) m m' -> Forall2 (device_at m' c) ps ids.
Proof.
  intros Hd Hs. apply Forall2_same_length_lookup. split; [by eapply Forall2_length|]. intros i p k Hp Hk.
  eapply device_at_same; [by eapply Forall2_lookup_lr|]. intros b Hb. apply Hs.
  apply (live_in (p, SIZEOF_PCI_DEVICE)); [by eapply device_region | exact Hb].
Qed.

Lemma table_at_same m m' c R arr ps ids :
  table_at m c arr ps ids -> table_regions R arr -> (length ps <= 128)%nat ->
  same_on (live (device_regions ps ++ R)) m m' -> table_at m' c arr ps ids.
Proof.
  intros [Hc Ht He Hd] [HtR (HpR & HdR & _)] Hlen Hs.
  assert (HR : forall r a, r ∈ R -> r.1 <= a -> a + 4 <= r.1 + r.2 -> ld32 m' a = ld32 m a).
  { intros r a Hr Ha1 Ha2. apply ld32_ext. intros b Hb. apply Hs, live_app. right. apply (live_in r); [done|]. unfold in_region. lia. }
  split.
  - rewrite <- Hc. apply (HR (devs, 4)); simpl; (done || lia).
  - rewrite <- Ht. apply (HR (pci_devices, 4)); simpl; (done || lia).
  - intros i p Hi. rewrite <- (He i p Hi). pose proof (lookup_lt_Some _ _ _ Hi). unfold SIZEOF_PCI_DEVICE in HtR.
    apply (HR (arr, 32 * 16)); simpl; (done || lia).
  - eapply devices_same; [exact Hd|]. intros a Ha. apply Hs, live_app. by left.
Qed.

(** A new entry behind the others. *)
Lemma table_at_push m c R arr ps ids p k :
  table_at m c arr ps ids -> table_regions R arr -> (length ps < 128)%nat -> 0 <= p < 4294967296 ->
  separate ((p, SIZEOF_PCI_DEVICE) :: device_regions ps ++ R) -> device_at m c p k ->
  table_at (st32 (st32 m (arr + 4 * Z.of_nat (length ps)) p) devs (Z.of_nat (length ps) + 1)) c arr (ps ++ [p]) (ids ++ [k]).
Proof.
  intros [Hc Ht He Hd] [HtR (HpR & HdR & Hne)] Hlen Hp [Hap Hsep] Hpk. set (t := Z.of_nat (length ps)).
  pose proof (separate_skip _ _ Hsep) as HsR. unfold SIZEOF_PCI_DEVICE in *.
  assert (Ht1 : apart (arr, 32 * 16) (pci_devices, 4)) by (apply (separate_elem R); [done..|intros [=]; lia]).
  assert (Ht2 : apart (arr, 32 * 16) (devs, 4)) by (apply (separate_elem R); [done..|intros [=]; lia]).
  assert (Ht3 : apart (pci_devices, 4) (devs, 4)) by (apply (separate_elem R); [done..|congruence]).
  assert (Hd1 : Forall2 (device_at (st32 (st32 m (arr + 4 * t) p) devs (t + 1)) c) (ps ++ [p]) (ids ++ [k])).
  { eapply devices_same; [apply Forall2_app; [exact Hd | by constructor]|]. intros a (r & Hr & Ha). unfold in_region in Ha.
    assert (Hrx : apart r (arr, 32 * 16) /\ apart r (devs, 4)).
    { unfold device_regions in Hr. rewrite fmap_app in Hr. apply elem_of_app in Hr as [Hr|Hr].
      - split; by eapply separate_app.
      - apply list_elem_of_singleton in Hr as ->. split; apply Hap, elem_of_app; by right. }
    destruct Hrx as [Hr1 Hr2]. unfold apart, disjoint in Hr1, Hr2. cbn [fst snd] in *. rewrite !ld8_st32_ne by lia. done. }
  unfold apart, disjoint in Ht1, Ht2, Ht3. cbn [fst snd] in *. split.
  - rewrite ld32_st32_eq, length_app. cbn [length]. rewrite u32_small by lia. lia.
  - rewrite !ld32_st32_ne by (unfold disjoint; lia). done.
  - intros i q Hi. rewrite ld32_st32_ne by (unfold disjoint; apply lookup_lt_Some in Hi; rewrite length_app in Hi; simpl in Hi; lia).
    apply lookup_app_Some in Hi as [Hi|[Hi Hq]].
    + pose proof (lookup_lt_Some _ _ _ Hi). rewrite ld32_st32_ne by (unfold disjoint; lia). by apply He.
    + destruct (i - length ps)%nat eqn:E; [|done]. injection Hq as <-. replace i with (length ps) by lia. fold t.
      rewrite ld32_st32_eq. by apply u32_small.
  - exact Hd1.
Qed.

(** What the rest of the body of the loop makes of a device that answered. *)
Lemma wp_record_device c n R arr ps ids p k s (Q : unit -> S -> Prop) :
  heap_ok n ((p, SIZEOF_PCI_DEVICE) :: device_regions ps ++ R) s -> table_at (mem s) c arr ps ids -> table_regions R arr ->
  (length ps < 128)%nat -> 0 <= c k < 4294967296 ->
  (forall m, heap_ok n (device_regions (ps ++ [p]) ++ R) (set_mem m s) -> table_at m c arr (ps ++ [p]) (ids ++ [k]) ->
     Q tt (set_mem m s)) ->
  wp (store32 (pd_vendor p) (vendor_of c k);; store32 (pd_device p) (device_of c k);; store32 (pd_func p) (k mod 8);;
      store32 (pd_driver p) 0;; add_pci_device p) Q s.
Proof.
  intros Hok Hta Htr Hlen Hck HQ. pose proof (heap_ok_separate _ _ _ Hok) as Hsep. pose proof Htr as [HtR (HpR & HdR & _)].
  destruct (heap_ok_regions _ _ _ (p, SIZEOF_PCI_DEVICE) Hok ltac:(elem)) as [Hp4 Hp32]. unfold SIZEOF_PCI_DEVICE in Hp32. cbn [fst snd] in *.
  set (m4 := st32 (st32 (st32 (st32 (mem s) p (vendor_of c k)) (p + 4) (device_of c k)) (p + 8) (k mod 8)) (p + 12) 0).
  assert (Ht4 : touched [(p, 16)] (mem s) m4).
  { unfold m4. repeat (eapply touched_st32; [|apply list_elem_of_here | simpl; lia | simpl; lia]). apply touched_refl. }
  assert (Hta4 : table_at m4 c arr ps ids).
  { eapply table_at_same; [exact Hta | exact Htr | lia |]. apply (touched_same _ _ _ _ Ht4 Hsep). intros r Hr.
    destruct (heap_ok_regions _ _ _ r Hok ltac:(by right)). lia. }
  assert (Hd4 : device_at m4 c p k).
  { unfold device_at, m4, pd_vendor, pd_device, pd_func, pd_driver, vendor_of, device_of.
    assert (Hw : 0 <= c k mod 65536 < 65536 /\ 0 <= c k / 65536 < 65536 /\ 0 <= k mod 8 < 8) by (Z.div_mod_to_equations; lia).
    split_and!; repeat (rewrite ld32_st32_ne by (unfold disjoint; lia)); rewrite ld32_st32_eq; apply u32_small; lia. }
  unfold pd_vendor, pd_device, pd_func, pd_driver, add_pci_device.
  repeat (mstep; rewrite ?mem_set_mem, ?set_mem_set_mem). fold m4.
  pose proof (ta_count _ _ _ _ _ Hta4) as Hcnt. rewrite (ta_table _ _ _ _ _ Hta4), Hcnt.
  assert (Hdt : disjoint (arr + 4 * Z.of_nat (length ps)) 4 devs 4).
  { assert (Hx : apart (arr, 32 * SIZEOF_PCI_DEVICE) (devs, 4)).
    { apply (separate_elem R); [by eapply separate_skip, (proj2 Hsep) | done | done | intros [=]; lia]. }
    unfold apart, disjoint, SIZEOF_PCI_DEVICE in *. cbn [fst snd] in Hx. lia. }
  rewrite (ld32_st32_ne _ _ devs), Hcnt, u32_small by (done || lia). apply HQ.
  - eapply (heap_ok_permute _ ((p, SIZEOF_PCI_DEVICE) :: device_regions ps ++ R)).
    { unfold device_regions. rewrite fmap_app. cbn [fmap list_fmap].
      change ((p, SIZEOF_PCI_DEVICE) :: ?a ++ R) with (((p, SIZEOF_PCI_DEVICE) :: a) ++ R). apply Permutation_app_tail, Permutation_cons_append. }
    apply heap_ok_write; [exact Hok|]. eapply touched_st32; [eapply touched_st32|..].
    + eapply touched_weaken; [exact Ht4|]. intros r Hr. apply list_elem_of_singleton in Hr as ->. elem.
    + right. apply elem_of_app. right. exact HtR.
    + simpl. lia.
    + unfold SIZEOF_PCI_DEVICE. simpl. lia.
    + right. apply elem_of_app. right. exact HdR.
    + simpl. lia.
    + simpl. lia.
  - apply (table_at_push _ _ R); [exact Hta4 | exact Htr | done | lia | exact Hsep | exact Hd4].
Qed.

(** After the scan of [ks] with [rest] to come. *)
Definition scanned (c : config) (n : nat) (R : list region) (arr : Z) (tail : list Z) (tr : list io_event) (ks rest : list Z)
    (s : S) : Prop :=
  exists ps, heap_ok (length (found c rest) + n) (device_regions ps ++ R) s /\
    get_io s = Io (probe_answers c rest ++ tail) (tr ++ probe_events c ks) /\
    table_at (mem s) c arr ps (found c ks).

Lemma scanned_length c arr ps ks s : table_at (mem s) c arr ps (found c ks) -> length ps = length (found c ks).
Proof. intros [_ _ _ Hd]. by eapply Forall2_length. Qed.

(** One function. *)
Lemma wp_probe_function c n R arr tail tr ks k rest s (Q : unit -> S -> Prop) :
  scanned c n R arr tail tr ks (k :: rest) s -> table_regions R arr -> (length (found c (ks ++ k :: rest)) <= 128)%nat ->
  0 <= k < 65536 -> 0 <= c k < 4294967296 -> (forall s', scanned c n R arr tail tr (ks ++ [k]) rest s' -> Q tt s') ->
  wp (probe_function (k / 256) (k / 8 mod 32) (k mod 8)) Q s.
Proof.
  intros (ps & Hok & Hio & Hta) Htr Hmax Hk Hck HQ. unfold probe_function, getVendorID, getDeviceID.
  assert (Hread : probe_answers c (k :: rest) ++ tail = c k :: (if absent c k then [] else [c k]) ++ probe_answers c rest ++ tail)
    by (unfold probe_answers; cbn [mbind list_bind]; destruct (absent c k); by rewrite <- app_assoc).
  assert (Hevents : probe_events c (ks ++ [k]) = probe_events c ks ++ read_events c k ++ (if absent c k then [] else read_events c k)).
  { unfold probe_events. rewrite bind_app. cbn [mbind list_bind]. rewrite app_nil_r. by destruct (absent c k). }
  rewrite Hread in Hio. unfold found in Hok, Hmax, Hta, HQ. rewrite filter_app, filter_cons, length_app in Hmax. rewrite filter_cons in Hok.
  pose proof (scanned_length _ _ _ _ _ Hta) as Hlen. unfold found in Hlen.
  wp_step. wp_step. eapply (wp_pci_read_word k 0 (c k)); [done | done | done | exact Hio |]. intros s1 ->. rewrite low_word by done. fold (vendor_of c k).
  assert (Hv : 0 <= vendor_of c k < 65536) by (unfold vendor_of; Z.div_mod_to_equations; lia).
  mstep. rewrite (u16_small (vendor_of c k)) by done. fold (absent c k). destruct (absent c k) eqn:Eab.
  - mstep. rewrite decide_False in Hok by done. apply HQ. exists ps. split_and!.
    + by apply heap_ok_set_io.
    + rewrite get_set_io, Hevents, app_nil_r, <- app_assoc. done.
    + unfold found. rewrite mem_set_io, filter_app, filter_cons, decide_False, app_nil_r by (rewrite Eab; done). exact Hta.
  - rewrite decide_True in Hok, Hmax by done. cbn [length] in Hok, Hmax.
    wp_step. wp_step. eapply (wp_pci_read_word k 2 (c k)); [done | done | done | by rewrite get_set_io |]. intros s2 ->. rewrite high_word by done. fold (device_of c k).
    rewrite set_set_io, <- app_assoc. mstep. rewrite (u16_small (device_of c k)) by (unfold device_of; Z.div_mod_to_equations; lia).
    wp_step. eapply wp_klog_ports; [by apply heap_ok_set_io|]. rewrite mem_set_io, get_set_io. intros s3 Hok3 Hm3 Hio3.
    wp_step. eapply (wp_kmalloc_ports (length (filter (fun k => absent c k = false) rest) + n)); [exact Hok3 | done |].
    intros p s4 Hok4 Hs4 Hio4. rewrite Hm3 in Hs4.
    eapply (wp_record_device c _ R arr ps _ p k); [exact Hok4 | | exact Htr | lia | done |].
    { eapply table_at_same; [exact Hta | exact Htr | lia | exact Hs4]. }
    intros m Hokm Htam. apply HQ. exists (ps ++ [p]). split_and!.
    + exact Hokm.
    + rewrite get_io_set_mem, Hio4, Hio3, Hevents, <- !app_assoc. done.
    + unfold found. rewrite mem_set_mem, filter_app, filter_cons, decide_True by done. exact Htam.
Qed.

(** The numbers of the functions of a range of the scan. *)
Lemma scan_split a b c : 0 <= a <= b -> b <= c -> seqZ a (c - a) = seqZ a (b - a) ++ seqZ b (c - b).
Proof.
  intros Ha Hb. replace (c - a) with ((b - a) + (c - b)) by lia. rewrite seqZ_app by lia. do 2 f_equal; lia.
Qed.


(** [pci_write_word] writes the configuration address 1 whatever its arguments are:
    the logical or makes a truth value of the address. *)
Lemma pci_write_word_address bus slot func offset data s :
  exists s', pci_write_word bus slot func offset data s = Done (tt, s') /\
    get_io s' = Io (io_answers (get_io s)) (io_trace (get_io s) ++ [Out PCI_CONFIG_ADDRESS 1; Out PCI_CONFIG_DATA (u32 data)]).
Proof.
  apply wp_unit. unfold pci_write_word. rewrite (proj2 (Z.eqb_neq (Z.lor _ 0x80000000) 0)) by (rewrite Z.lor_eq_0_iff; lia).
  rewrite orb_true_r. cbv zeta. wp_step. apply wp_outl. apply wp_outl. rewrite !get_set_io. cbn [io_answers io_trace]. by rewrite <- app_assoc.
Qed.
End probe.
