(* ===== verification/Board.v ===== *)
(** * A heap next to ports

    A state with a heap and a state with ports side by side: the interfaces of the
    heap carry over, and the two do not affect each other.  The drivers that use
    both run on it in the concrete runs. *)

From S2P Require Export Arena Pci.

Record board (S : Type) := Board { b_heap : S; b_io : io }.
Arguments Board {S}.
Arguments b_heap {S}.
Arguments b_io {S}.

#[export] Instance HasIo_board {S} : HasIo (board S) := {| get_io := b_io; set_io i s := Board (b_heap s) i |}.
#[export] Instance IoLaws_board {S} : IoLaws (board S).
Proof. split; [done | done | by intros []]. Qed.

#[export] Instance HasMem_board {S} `{HasMem S} : HasMem (board S) := {|
  mem s := mem (b_heap s);
  set_mem m s := Board (set_mem m (b_heap s)) (b_io s);
|}.
#[export] Instance MemLaws_board {S} `{MemLaws S} : MemLaws (board S).
Proof.
  split; intros; unfold mem, set_mem, HasMem_board; cbn [b_heap b_io].
  - apply mem_set_mem.
  - rewrite set_mem_mem. by destruct s.
  - by rewrite set_mem_set_mem.
Qed.
#[export] Instance IoMemLaws_board {S} `{HasMem S} : IoMemLaws (board S).
Proof. by split. Qed.

(** An operation of the heap on the whole. *)
Definition on_heap {S A} (c : M S A) : M (board S) A := fun s =>
  match c (b_heap s) with
  | Done (a, h) => Done (a, Board h (b_io s))
  | Panic msg => Panic msg
  | NoFuel => NoFuel
  end.

Lemma wp_on_heap {S A} (c : M S A) (Q : A -> board S -> Prop) s :
  wp c (fun a h => Q a (Board h (b_io s))) (b_heap s) -> wp (on_heap c) Q s.
Proof. unfold wp, on_heap. by destruct (c (b_heap s)) as [[a h]| |]. Qed.

#[export] Instance allocator_board {S} `{!Allocator S} : Allocator (board S) := {|
  kcalloc_op num size := on_heap (kcalloc_op num size);
  malloc_op size := on_heap (malloc_op size);
  kmalloc_op size := on_heap (kmalloc_op size);
  kmalloc_a_op size := on_heap (kmalloc_a_op size);
  kfree_op p := on_heap (kfree_op p);
  heap_ok n L s := heap_ok n L (b_heap s);
|}.

#[export] Instance calloc_laws_board {S} `{MemLaws S} `{!Allocator S} `{!CallocLaws S} : CallocLaws (board S).
Proof.
  split; unfold heap_ok, allocator_board, mem, set_mem, HasMem_board; cbn [b_heap].
  - intros n L s r. apply heap_ok_regions.
  - intros n L s. apply heap_ok_separate.
  - intros n L L' s. apply heap_ok_permute.
  - intros n L s m. apply heap_ok_write.
  - intros n L s num size Q Hok Hn Hs Hl HQ. apply wp_on_heap. apply (wp_kcalloc n L); [done.. | intros p h; by apply (HQ p (Board h (b_io s)))].
  - intros n L s size Q Hok Hs HQ. apply wp_on_heap. apply (wp_malloc n L); [done.. | intros p h; by apply (HQ p (Board h (b_io s)))].
Qed.

#[export] Instance kmalloc_laws_board {S} `{MemLaws S} `{!Allocator S} `{!KmallocLaws S} : KmallocLaws (board S).
Proof.
  split.
  - intros n L s size Q Hok Hs HQ. apply wp_on_heap. apply (wp_kmalloc n L); [exact Hok | exact Hs | intros p h; by apply (HQ p (Board h (b_io s)))].
  - intros n L s num size Q Hok Hn Hs HQ. apply wp_on_heap. apply (wp_kcalloc_large n L); [done.. | intros p h; by apply (HQ p (Board h (b_io s)))].
Qed.

(** Messages are dropped. *)
#[export] Instance logger_board {S} : Logger (board S) := {| klog_op _ _ _ := mret tt |}.
#[export] Instance logger_laws_board {S} `{HasMem S} `{!Allocator S} : LoggerLaws (board S).
Proof. split. intros lv fmt args Q s HQ. apply wp_ret. by apply HQ. Qed.

#[export] Instance heap_ports_board {S} `{HasMem S} `{!Allocator S} : HeapPorts (board S).
Proof.
  split.
  - intros size s p s'. unfold kmalloc_op, allocator_board, on_heap. destruct (kmalloc_op size (b_heap s)) as [[a h]| |]; [|done|done].
    by intros [= _ <-].
  - intros lv fmt args s s'. by intros [= <-].
  - done.
Qed.
