(* ===== verification/Acpi.v ===== *)
(** * drivers/acpi: the ACPI tables and the power functions

    The checksums, the walk over the tables, the search for the sleep state and the
    switch to ACPI mode (tables.c), and rebooting and shutting down (power.c). *)

From S2P Require Export CString IoMem FsNode.

(** ** include/drivers/acpi.h *)

(** [acpi_header_t]; the tables consist of it and their entries. *)
Definition SIZEOF_ACPI_HEADER : Z := 36.
Definition ah_signature (h : Z) : Z := h.
Definition ah_length (h : Z) : Z := h + 4.

(** [rsdt_t], [xsdt_t]: words of 32 and 64 bits. *)
Definition SIZEOF_RSDT : Z := 36.
Definition rsdt_entry (t i : Z) : Z := t + 36 + 4 * i.
Definition xsdt_entry (t i : Z) : Z := t + 36 + 8 * i.

(** [fadt_t] *)
Definition SIZEOF_FADT : Z := 92.
Definition fadt_dsdt_address (f : Z) : Z := f + 40.
Definition fadt_smi_cmd (f : Z) : Z := f + 48.
Definition fadt_acpi_enable (f : Z) : Z := f + 52.
Definition fadt_acpi_disable (f : Z) : Z := f + 53.
Definition fadt_pm1a_cnt_blk (f : Z) : Z := f + 64.
Definition fadt_pm1b_cnt_blk (f : Z) : Z := f + 68.
Definition fadt_pm1_cnt_length (f : Z) : Z := f + 89.

(** The addresses of the globals of tables.c and of the literal "_S5_". *)
Class AcpiGlobals := {
  SMI_CMD : Z; ACPI_ENABLE : Z; ACPI_DISABLE : Z; PM1a_CNT : Z; PM1b_CNT : Z;
  SLP_TYPa : Z; SLP_TYPb : Z; SLP_EN : Z; SCI_EN : Z; PM1_CNT_LEN : Z;
  s5_literal : Z;
}.

(** The call of [sleep] (drivers/timer.c). *)
Class Sleeper (S : Type) := { sleep_op : Z -> M S unit }.

(** ** tables.c *)

Section tables_c.
Context {S : Type} `{HasIo S} `{HasMem S} `{!Logger S} `{!Sleeper S} `{!AcpiGlobals}.

(** The characters are signed. *)
Fixpoint checksum_loop (fuel : nat) (header i sum : Z) : M S Z :=
  match fuel with
  | O => out_of_fuel
  | Datatypes.S fuel' =>
      n ← load32 (ah_length header);
      if i <? n then c ← load8 (header + i); checksum_loop fuel' header (i +32 1) (u8 (sum + s8 c)) else mret sum
  end.

Definition checksum (fuel : nat) (header : Z) : M S Z := checksum_loop fuel header 0 0.

(** The search for "_S5_": the address and the value of [dsdt_length] behind the
    loop, whose condition decrements it also when the loop ends. *)
Fixpoint find_s5 (fuel : nat) (S5_addr dsdt_length : Z) : M S (Z * Z) :=
  match fuel with
  | O => out_of_fuel
  | Datatypes.S fuel' =>
      if 0 <? dsdt_length then
        c ← memcmp S5_addr s5_literal 4;
        if c =? 0 then mret (S5_addr, dsdt_length -32 1)
        else find_s5 fuel' (S5_addr +32 1) (dsdt_length -32 1)
      else mret (S5_addr, dsdt_length -32 1)
  end.

(** The steps over the AML structure. *)
Definition skip_aml (S5_addr : Z) : M S Z :=
  let S5_addr := S5_addr +32 5 in
  c ← load8 S5_addr;
  let S5_addr := S5_addr +32 (Z.shiftr (Z.land (s8 c) 0xc0) 6 + 2) in
  c ← load8 S5_addr;
  mret (if s8 c =? 0x0a then S5_addr +32 1 else S5_addr).

Definition acpi_parse_fadt (fuel : nat) (fadt : Z) : M S unit :=
  dsdt ← load32 (fadt_dsdt_address fadt);
  sum ← checksum fuel dsdt;
  if negb (sum =? 0) then klog_op LevelErr "ACPI: %s checksum failed\n" [ah_signature dsdt]
  else
    len ← load32 (ah_length dsdt);
    found ← find_s5 fuel (dsdt +32 SIZEOF_ACPI_HEADER) (len -32 SIZEOF_ACPI_HEADER);
    let '(S5_addr, dsdt_length) := found in
    if 0 <? dsdt_length then
      skip_aml S5_addr;;
      v ← load32 (fadt_smi_cmd fadt);
      store32 SMI_CMD v;;
      v ← load8 (fadt_acpi_enable fadt);
      store8 ACPI_ENABLE v;;
      v ← load8 (fadt_acpi_disable fadt);
      store8 ACPI_DISABLE v;;
      v ← load32 (fadt_pm1a_cnt_blk fadt);
      store32 PM1a_CNT v;;
      v ← load32 (fadt_pm1b_cnt_blk fadt);
      store32 PM1b_CNT v;;
      v ← load8 (fadt_pm1_cnt_length fadt);
      store8 PM1_CNT_LEN v;;
      store16 SLP_EN (Z.shiftl 1 13);;
      store16 SCI_EN 1
    else klog_op LevelWarn "ACPI: _S5 not found, some functions will not be available\n" [].

(** [(fadt_t* ) header + 0xc0000000] counts in objects. *)
Definition fadt_of (header : Z) : Z := header +32 0xc0000000 * SIZEOF_FADT.

(** [sig] is the address of the local variable [signature]; [sig_string] is not
    used by the code behind its assignment. *)
Definition acpi_parse_header (fuel : nat) (sig header : Z) : M S unit :=
  signature ← load32 (ah_signature header);
  sum ← checksum fuel header;
  if negb (sum =? 0) then klog_op LevelErr "ACPI: %s checksum failed\n" [sig]
  else if signature =? 0x50434146 then acpi_parse_fadt fuel (fadt_of header)
  else mret tt.

Fixpoint rsdt_loop (fuel n : nat) (sig rsdt i : Z) : M S unit :=
  match n with
  | O => out_of_fuel
  | Datatypes.S n' =>
      len ← load32 (ah_length rsdt);
      if i <? (len -32 SIZEOF_ACPI_HEADER) / 4 then
        header ← load32 (rsdt_entry rsdt i);
        acpi_parse_header fuel sig (header +32 0xc0000000 * SIZEOF_ACPI_HEADER);;
        rsdt_loop fuel n' sig rsdt (i +32 1)
      else mret tt
  end.

Definition acpi_parse_rsdt (fuel : nat) (sig rsdt : Z) : M S unit :=
  sum ← checksum fuel rsdt;
  if negb (sum =? 0) then klog_op LevelErr "ACPI: RSDT checksum failed\n" []
  else rsdt_loop fuel fuel sig rsdt 0.

(** Only the low halves of the entries are used. *)
Fixpoint xsdt_loop (fuel n : nat) (sig xsdt i : Z) : M S unit :=
  match n with
  | O => out_of_fuel
  | Datatypes.S n' =>
      len ← load32 (ah_length xsdt);
      if i <? (len -32 SIZEOF_ACPI_HEADER) / 4 then
        header ← load32 (xsdt_entry xsdt i);
        acpi_parse_header fuel sig header;;
        xsdt_loop fuel n' sig xsdt (i +32 1)
      else mret tt
  end.

Definition acpi_parse_xsdt (fuel : nat) (sig xsdt : Z) : M S unit :=
  sum ← checksum fuel xsdt;
  if negb (sum =? 0) then klog_op LevelErr "ACPI: XSDT checksum failed\n" []
  else xsdt_loop fuel fuel sig xsdt 0.

(** The loops that wait until the control register [port] shows ACPI mode: the
    number of rounds at the end.  [test] is their condition. *)
Fixpoint poll_enabled (n : nat) (i port : Z) (test : Z -> bool) : M S Z :=
  match n with
  | O => mret i
  | Datatypes.S n' =>
      v ← inw port;
      sci ← load16 SCI_EN;
      if test (Z.land v sci) then mret i
      else sleep_op 10;; poll_enabled n' (i + 1) port test
  end.

Definition acpi_enable : M S Z :=
  pm1a ← load32 PM1a_CNT;
  v ← inw pm1a;
  sci ← load16 SCI_EN;
  if Z.land v sci =? 0 then
    smi ← load32 SMI_CMD;
    en ← load8 ACPI_ENABLE;
    if negb (smi =? 0) && negb (en =? 0) then
      smi ← load32 SMI_CMD;
      en ← load8 ACPI_ENABLE;
      outb smi en;;
      pm1a ← load32 PM1a_CNT;
      i ← poll_enabled 300 0 pm1a (fun v => v =? 1);
      pm1b ← load32 PM1b_CNT;
      i ← (if negb (pm1b =? 0) then pm1b ← load32 PM1b_CNT; poll_enabled 300 0 pm1b (fun v => negb (v =? 0)) else mret i);
      if i <? 300 then mret 0 else mret (-1)
    else mret (-1)
  else mret 0.

(** The sum of the 20 bytes at [rsdp]. *)
Fixpoint rsdp_sum (n : nat) (rsdp i sum : Z) : M S Z :=
  match n with
  | O => mret sum
  | Datatypes.S n' => b ← load8 (rsdp + i); rsdp_sum n' rsdp (i + 1) (u8 (sum + b))
  end.

Definition acpi_init (fuel : nat) (sig rsdp : Z) : M S unit :=
  klog_op LevelOk "Parsing ACPI tables\n" [];;
  sum ← rsdp_sum 20 rsdp 0 0;
  if negb (sum =? 0) then klog_op LevelErr "ACPI: RSDP checksum verification failed\n" []
  else
    revision ← load8 (rsdp + 15);
    (if revision =? 0 then
       rsdt_address ← load32 (rsdp + 16);
       acpi_parse_rsdt fuel sig (rsdt_address +32 0xc0000000 * SIZEOF_RSDT)
     else if revision =? 2 then
       rsdt_address ← load32 (rsdp + 16);
       acpi_parse_rsdt fuel sig (rsdt_address +32 0xc0000000 * SIZEOF_RSDT)
     else klog_op LevelErr "Unsuppored ACPI version %d\n" [revision]);;
    failed ← acpi_enable;
    if negb (failed =? 0) then klog_op LevelWarn "ACPI: enabling ACPI mode failed\n" [] else mret tt.

(** ** power.c *)

(** The wait for an empty input buffer of the keyboard controller. *)
Fixpoint reboot_loop (fuel : nat) (tmp : Z) : M S unit :=
  match fuel with
  | O => out_of_fuel
  | Datatypes.S fuel' =>
      if negb (Z.land tmp 0x02 =? 0) then tmp ← inb 0x64; reboot_loop fuel' tmp else mret tt
  end.

(** The processor halts behind the last message. *)
Definition reboot (fuel : nat) : M S unit :=
  klog_op LevelWarn "Rebooting the machine...\n" [];;
  reboot_loop fuel 0x02;;
  outb 0x64 0xFE;;
  klog_op LevelErr "Reboot failed\n" [].

Definition shutdown : M S unit :=
  klog_op LevelWarn "Shuting down the machine...\n" [];;
  outw 0xb004 0x2000;;
  outw 0x604 0x2000;;
  outw 0x4004 0x3400;;
  sci ← load16 SCI_EN;
  if sci =? 0 then klog_op LevelPlain "ACPI: shutdown not posible\n" []
  else
    pm1a ← load32 PM1a_CNT;
    typ ← load16 SLP_TYPa;
    en ← load16 SLP_EN;
    outw pm1a (Z.lor typ en);;
    pm1b ← load32 PM1b_CNT;
    (if negb (pm1b =? 0) then
       pm1b ← load32 PM1b_CNT;
       typ ← load16 SLP_TYPb;
       en ← load16 SLP_EN;
       outw pm1b (Z.lor typ en)
     else mret tt);;
    klog_op LevelErr "Shutdown failed\n" [].
End tables_c.

(** The offset that shall turn a physical into a virtual address is scaled by the
    size of the object and is a multiple of 2^32: it adds nothing. *)
Lemma scaled_offset_vanishes h :
  fadt_of h = u32 h /\ h +32 0xc0000000 * SIZEOF_ACPI_HEADER = u32 h /\ h +32 0xc0000000 * SIZEOF_RSDT = u32 h.
Proof.
  unfold fadt_of. split_and!.
  - replace (0xc0000000 * SIZEOF_FADT) with (69 * 4294967296) by done. unfold u32. by rewrite Z_mod_plus_full.
  - replace (0xc0000000 * SIZEOF_ACPI_HEADER) with (27 * 4294967296) by done. unfold u32. by rewrite Z_mod_plus_full.
  - replace (0xc0000000 * SIZEOF_RSDT) with (27 * 4294967296) by done. unfold u32. by rewrite Z_mod_plus_full.
Qed.

(** The sum of the [n] bytes from [p] on. *)
Definition byte_sum (m : memory) (p n : Z) : Z := foldr Z.add 0 ((fun i => ld8 m (p + i)) <$> seqZ 0 n).

Lemma foldr_add l b : foldr Z.add b l = foldr Z.add 0 l + b.
Proof. induction l as [|x l IH]; cbn [foldr]; lia. Qed.

Lemma byte_sum_step m p i : 0 <= i -> byte_sum m p (i + 1) = byte_sum m p i + ld8 m (p + i).
Proof.
  intros Hi. unfold byte_sum. rewrite seqZ_app, fmap_app, foldr_app, foldr_add by lia. f_equal.
  change (seqZ (0 + i) 1) with [i]. cbn [fmap list_fmap foldr]. lia.
Qed.

(** "_S5_" matches at [a], in the four words that [memcmp] compares. *)
Definition s5_at `{!AcpiGlobals} (m : memory) (a : Z) : bool :=
  forallb (fun i => ld32 m (a + 4 * i) =? ld32 m (s5_literal + 4 * i)) [0; 1; 2; 3].

(** The index of the first match among [n] addresses. *)
Fixpoint first_s5 `{!AcpiGlobals} (m : memory) (a : Z) (n : nat) : option Z :=
  match n with
  | O => None
  | S n' => if s5_at m a then Some 0 else Z.succ <$> first_s5 m (a + 1) n'
  end.

(** What [acpi_parse_fadt] makes of memory when it takes the object as found. *)
Definition published `{!AcpiGlobals} (m : memory) (f : Z) : memory :=
  let m1 := st32 m SMI_CMD (ld32 m (fadt_smi_cmd f)) in
  let m2 := st8 m1 ACPI_ENABLE (ld8 m (fadt_acpi_enable f)) in
  let m3 := st8 m2 ACPI_DISABLE (ld8 m (fadt_acpi_disable f)) in
  let m4 := st32 m3 PM1a_CNT (ld32 m (fadt_pm1a_cnt_blk f)) in
  let m5 := st32 m4 PM1b_CNT (ld32 m (fadt_pm1b_cnt_blk f)) in
  let m6 := st8 m5 PM1_CNT_LEN (ld8 m (fadt_pm1_cnt_length f)) in
  st16 (st16 m6 SLP_EN 0x2000) SCI_EN 1.

(** The globals lie outside the table. *)
Definition fadt_layout `{!AcpiGlobals} (f : Z) : Prop :=
  Forall (fun r => disjoint f SIZEOF_FADT r.1 r.2)
    [(SMI_CMD, 4); (ACPI_ENABLE, 1); (ACPI_DISABLE, 1); (PM1a_CNT, 4); (PM1b_CNT, 4)].

(** The table is as it was. *)
Definition fadt_kept (f : Z) (m m' : memory) : Prop := forall b, f <= b < f + SIZEOF_FADT -> ld8 m' b = ld8 m b.

Lemma fadt_kept_st32 f m m' a v : fadt_kept f m m' -> disjoint f SIZEOF_FADT a 4 -> fadt_kept f m (st32 m' a v).
Proof. unfold fadt_kept, disjoint. intros Hk Hd b Hb. rewrite ld8_st32_ne by lia. by apply Hk. Qed.

Lemma fadt_kept_st8 f m m' a v : fadt_kept f m m' -> disjoint f SIZEOF_FADT a 1 -> fadt_kept f m (st8 m' a v).
Proof. unfold fadt_kept, disjoint. intros Hk Hd b Hb. rewrite ld8_st8_ne by lia. by apply Hk. Qed.

Lemma ld32_kept f m m' a : fadt_kept f m m' -> f <= a -> a + 4 <= f + SIZEOF_FADT -> ld32 m' a = ld32 m a.
Proof. intros Hk Ha1 Ha2. apply ld32_ext. intros b Hb. apply Hk. lia. Qed.

Section tables.
Context {S : Type} `{HasIo S} `{MemLaws S} `{!Allocator S} `{!Logger S} `{!LoggerLaws S} `{!Sleeper S} `{!AcpiGlobals}.

Lemma wp_checksum_loop fuel h n i s (Q : Z -> S -> Prop) :
  ld32 (mem s) (ah_length h) = n -> 0 <= i <= n -> (Z.to_nat (n - i) < fuel)%nat ->
  Q (u8 (byte_sum (mem s) h n)) s -> wp (checksum_loop fuel h i (u8 (byte_sum (mem s) h i))) Q s.
Proof.
  intros Hn. pose proof (ld32_range (mem s) (ah_length h)) as Hr. revert i. induction fuel as [|fuel IH]; intros i Hi Hf HQ; [lia|].
  cbn [checksum_loop]. mstep. mstep. rewrite Hn. destruct (Z.ltb_spec i n) as [Hlt|Hge].
  - mstep. mstep. rewrite u32_small by lia. replace (u8 _) with (u8 (byte_sum (mem s) h (i + 1))); [apply IH; [lia | lia | exact HQ]|].
    rewrite byte_sum_step by lia. unfold s8, u8. pose proof (ld8_range (mem s) (h + i)).
    rewrite (Z.mod_small (ld8 _ _)) by lia. destruct (_ <? 128); Z.div_mod_to_equations; lia.
  - mstep. replace i with n by lia. exact HQ.
Qed.

(** [checksum] is the sum of the bytes modulo 256: the signedness of the characters
    does not matter. *)
Lemma wp_checksum fuel h s (Q : Z -> S -> Prop) :
  (Z.to_nat (ld32 (mem s) (ah_length h)) < fuel)%nat ->
  Q (u8 (byte_sum (mem s) h (ld32 (mem s) (ah_length h)))) s -> wp (checksum fuel h) Q s.
Proof.
  intros Hf HQ. pose proof (ld32_range (mem s) (ah_length h)). apply (wp_checksum_loop fuel h _ 0 s Q eq_refl); [lia | | exact HQ].
  by rewrite Z.sub_0_r.
Qed.

Lemma wp_memcmp_s5 a s (Q : Z -> S -> Prop) :
  (forall c, (c =? 0) = s5_at (mem s) a -> Q c s) -> wp (memcmp a s5_literal 4) Q s.
Proof.
  intros HQ. unfold memcmp. destruct (Z.eqb_spec a s5_literal) as [->|Hne].
  { mstep. apply HQ. unfold s5_at. cbn [forallb]. by rewrite !Z.eqb_refl. }
  change (Z.to_nat 4) with 4%nat. cbn [memcmp_loop]. unfold s5_at in HQ. cbn [forallb] in HQ.
  replace (a + 4 * 0) with a in HQ by lia. replace (s5_literal + 4 * 0) with s5_literal in HQ by lia.
  replace (a + 4 + 4) with (a + 4 * 2) by lia. replace (a + 4) with (a + 4 * 1) by lia.
  replace (s5_literal + 4 + 4) with (s5_literal + 4 * 2) by lia. replace (s5_literal + 4) with (s5_literal + 4 * 1) by lia.
  replace (a + 4 * 2 + 4) with (a + 4 * 3) by lia. replace (s5_literal + 4 * 2 + 4) with (s5_literal + 4 * 3) by lia.
  do 4 (mstep; mstep; mstep; mstep; destruct (_ =? _); [|mstep; apply HQ; by destruct (_ <? _)]). mstep. by apply HQ.
Qed.

(** The search: the remaining count is one less than the distance of the match from
    the end, and wraps when there is no match. *)
Lemma wp_find_s5 fuel a len s (Q : Z * Z -> S -> Prop) :
  0 <= a -> 0 <= len -> a + len < 4294967296 -> (Z.to_nat len < fuel)%nat ->
  Q (match first_s5 (mem s) a (Z.to_nat len) with Some j => (a + j, len - j - 1) | None => (a + len, 4294967295) end) s ->
  wp (find_s5 fuel a len) Q s.
Proof.
  revert a len. induction fuel as [|fuel IH]; intros a len Ha Hl Hal Hf HQ; [lia|]. cbn [find_s5].
  destruct (Z.ltb_spec 0 len) as [Hlt|Hge].
  - replace (Z.to_nat len) with (Datatypes.S (Z.to_nat (len - 1))) in HQ by lia. cbn [first_s5] in HQ.
    wp_step. apply wp_memcmp_s5. intros c ->. destruct (s5_at (mem s) a).
    + mstep. rewrite u32_small by lia. rewrite Z.add_0_r, Z.sub_0_r in HQ. exact HQ.
    + rewrite !u32_small by lia. apply IH; [lia | lia | lia | lia |].
      destruct (first_s5 (mem s) (a + 1) (Z.to_nat (len - 1))) as [j|]; cbn [fmap option_fmap option_map] in HQ.
      * replace (a + 1 + j, len - 1 - j - 1) with (a + Z.succ j, len - Z.succ j - 1) by (f_equal; lia). exact HQ.
      * replace (a + 1 + (len - 1)) with (a + len) by lia. exact HQ.
  - replace len with 0 in * by lia. mstep. rewrite Z.add_0_r in HQ. exact HQ.
Qed.

(** The assignments behind the search. *)
Lemma wp_publish f s (Q : unit -> S -> Prop) :
  fadt_layout f -> Q tt (set_mem (published (mem s) f) s) ->
  wp (v ← load32 (fadt_smi_cmd f);
      store32 SMI_CMD v;;
      v ← load8 (fadt_acpi_enable f);
      store8 ACPI_ENABLE v;;
      v ← load8 (fadt_acpi_disable f);
      store8 ACPI_DISABLE v;;
      v ← load32 (fadt_pm1a_cnt_blk f);
      store32 PM1a_CNT v;;
      v ← load32 (fadt_pm1b_cnt_blk f);
      store32 PM1b_CNT v;;
      v ← load8 (fadt_pm1_cnt_length f);
      store8 PM1_CNT_LEN v;;
      store16 SLP_EN (Z.shiftl 1 13);;
      store16 SCI_EN 1) Q s.
Proof.
  intros Hl HQ. unfold fadt_layout in Hl. rewrite !Forall_cons, Forall_nil in Hl. cbn [fst snd] in Hl. destruct Hl as (Hl1 & Hl2 & Hl3 & Hl4 & Hl5 & _).
  assert (Hk0 : fadt_kept f (mem s) (mem s)) by done.
  pose proof (fun v => fadt_kept_st32 f _ _ SMI_CMD v Hk0 Hl1) as Hk1.
  pose proof (fun v w => fadt_kept_st8 f _ _ ACPI_ENABLE w (Hk1 v) Hl2) as Hk2.
  pose proof (fun v w x => fadt_kept_st8 f _ _ ACPI_DISABLE x (Hk2 v w) Hl3) as Hk3.
  pose proof (fun v w x y => fadt_kept_st32 f _ _ PM1a_CNT y (Hk3 v w x) Hl4) as Hk4.
  pose proof (fun v w x y z => fadt_kept_st32 f _ _ PM1b_CNT z (Hk4 v w x y) Hl5) as Hk5.
  unfold published, fadt_smi_cmd, fadt_acpi_enable, fadt_acpi_disable, fadt_pm1a_cnt_blk, fadt_pm1b_cnt_blk, fadt_pm1_cnt_length in *.
  repeat (mstep; rewrite ?mem_set_mem, ?set_mem_set_mem). rewrite !u16_small by by vm_compute.
  rewrite (Hk1 _ (f + 52)), (Hk2 _ _ (f + 53)), (Hk5 _ _ _ _ _ (f + 89)) by (unfold SIZEOF_FADT; lia).
  rewrite (ld32_kept _ _ _ (f + 64) (Hk3 _ _ _)), (ld32_kept _ _ _ (f + 68) (Hk4 _ _ _ _)) by (unfold SIZEOF_FADT; lia). exact HQ.
Qed.

Lemma wp_skip_aml a (Q : Z -> S -> Prop) s : (forall r, Q r s) -> wp (skip_aml a) Q s.
Proof. intros HQ. unfold skip_aml. repeat mstep. apply HQ. Qed.

Lemma first_s5_lt m a n j : first_s5 m a n = Some j -> 0 <= j < Z.of_nat n.
Proof.
  revert a j. induction n as [|n IH]; intros a j; cbn [first_s5]; [done|]. destruct (s5_at m a); [intros [= <-]; lia|].
  destruct (first_s5 m (a + 1) n) as [i|] eqn:E; [|done]. intros [= <-]. specialize (IH _ _ E). lia.
Qed.

(** C40: with a correct checksum, [acpi_parse_fadt] publishes the registers of the
    table also when the sleep object is not in it: the search lets the remaining
    count wrap below 0.  The only table it refuses is one whose first match is the
    last position. *)
Theorem acpi_parse_fadt_publishes fuel f s :
  let m := mem s in
  let dsdt := ld32 m (fadt_dsdt_address f) in
  let len := ld32 m (ah_length dsdt) in
  fadt_layout f -> 36 <= len -> dsdt + len < 4294967296 -> (Z.to_nat len < fuel)%nat -> u8 (byte_sum m dsdt len) = 0 ->
  exists s', acpi_parse_fadt fuel f s = Done (tt, s') /\
    match first_s5 m (dsdt + 36) (Z.to_nat (len - 36)) with
    | Some j => mem s' = if j + 1 =? len - 36 then m else published m f
    | None => mem s' = published m f /\ ld16 (mem s') SCI_EN = 1
    end.
Proof.
  intros m dsdt len Hl Hlen Hfit Hf Hsum. apply wp_unit. unfold acpi_parse_fadt. mstep. mstep. fold m dsdt. wp_step.
  apply wp_checksum; [exact Hf|]. fold m len. rewrite Hsum. cbn [Z.eqb negb]. mstep. mstep. fold m len. wp_step.
  pose proof (ld32_range m (fadt_dsdt_address f)). unfold SIZEOF_ACPI_HEADER. rewrite !u32_small by lia.
  apply wp_find_s5; [lia | lia | lia | lia |]. fold m. unfold skip_aml.
  destruct (first_s5 m (dsdt + 36) (Z.to_nat (len - 36))) as [j|] eqn:Ej.
  - apply first_s5_lt in Ej. destruct (Z.ltb_spec 0 (len - 36 - j - 1)) as [Hlt|Hge].
    + wp_step. apply wp_skip_aml. intros _. apply wp_publish; [exact Hl|]. rewrite mem_set_mem.
      by rewrite (proj2 (Z.eqb_neq _ _)) by lia.
    + apply wp_klog. intros s' Hm _. rewrite Hm, (proj2 (Z.eqb_eq _ _)) by lia. done.
  - change (0 <? 4294967295) with true. cbv match. wp_step. apply wp_skip_aml. intros _. apply wp_publish; [exact Hl|]. rewrite mem_set_mem.
    split; [done|]. unfold published. cbv zeta. by rewrite ld16_st16_eq.
Qed.

(** Messages of the power functions go elsewhere than to the ports. *)
Definition logs_elsewhere : Prop := forall lv fmt args s, exists s', klog_op lv fmt args s = Done (tt, s') /\ get_io s' = get_io s.

Context `{!IoLaws S}.

Lemma wp_reboot_loop fuel tmp busy ready rest tr s (Q : unit -> S -> Prop) :
  get_io s = Io (busy ++ ready :: rest) tr -> Z.testbit tmp 1 = true -> Forall (fun v => Z.testbit (u8 v) 1 = true) busy ->
  Z.testbit (u8 ready) 1 = false -> (length busy + 1 < fuel)%nat ->
  (forall s', get_io s' = Io rest (tr ++ ((fun v => Io.In 0x64 (u8 v)) <$> busy ++ [ready])) -> Q tt s') ->
  wp (reboot_loop fuel tmp) Q s.
Proof.
  assert (Hbit : forall v, (Z.land v 2 =? 0) = negb (Z.testbit v 1)) by (intros v; by apply (land_bit_eqb v 1)).
  revert tmp busy tr s. induction fuel as [|fuel IH]; intros tmp busy tr s Hio Ht Hb Hr Hf HQ; [lia|]. cbn [reboot_loop].
  rewrite Hbit, Ht. cbn [negb]. wp_step. destruct busy as [|v busy]; cbn [app fmap list_fmap length] in *.
  - eapply wp_inb; [exact Hio|]. destruct fuel as [|fuel]; [lia|]. cbn [reboot_loop]. rewrite Hbit, Hr. cbn [negb]. mstep. apply HQ. apply get_set_io.
  - apply Forall_cons in Hb as [Hv Hb]. eapply wp_inb; [exact Hio|].
    eapply IH; [apply get_set_io | exact Hv | exact Hb | exact Hr | lia |]. intros s' Hs'. apply HQ. rewrite Hs', <- app_assoc. done.
Qed.

(** [reboot] polls the keyboard controller until it accepts a command, and
    pulses the reset line then and only then. *)
Theorem reboot_pulses_reset fuel busy ready rest tr s :
  logs_elsewhere -> get_io s = Io (busy ++ ready :: rest) tr -> Forall (fun v => Z.testbit (u8 v) 1 = true) busy ->
  Z.testbit (u8 ready) 1 = false -> (length busy + 1 < fuel)%nat ->
  exists s', reboot fuel s = Done (tt, s') /\
    get_io s' = Io rest (tr ++ ((fun v => Io.In 0x64 (u8 v)) <$> busy ++ [ready]) ++ [Out 0x64 0xFE]).
Proof.
  intros Hlog Hio Hb Hr Hf. apply wp_unit. unfold reboot.
  assert (Hwl : forall lv fmt args s (Q : unit -> S -> Prop), (forall s', get_io s' = get_io s -> Q tt s') -> wp (klog_op lv fmt args) Q s).
  { intros lv fmt args s1 Q HQ. destruct (Hlog lv fmt args s1) as (s2 & Hrun & Hs2). eapply wp_done; [exact Hrun | by apply HQ]. }
  wp_step. apply Hwl. intros s1 Hs1. wp_step. eapply wp_reboot_loop; [by rewrite Hs1 | done | exact Hb | exact Hr | exact Hf |].
  intros s2 Hs2. wp_step. apply wp_outb. apply Hwl. intros s3 ->. rewrite get_set_io, Hs2. cbn [io_answers io_trace]. by rewrite <- app_assoc.
Qed.
End tables.
