(* ===== verification/Elf.v ===== *)
(** * sys/elf.c: the ELF loader

    The check of the header, the loop over the program headers that maps and fills
    the segments, and the loading of a file. *)

From S2P Require Export CString Machine FsNode.

(** ** include/sys/elf.h *)

Definition EI_MAG0 : Z := 0.
Definition EI_MAG1 : Z := 1.
Definition EI_MAG2 : Z := 2.
Definition EI_MAG3 : Z := 3.
Definition EI_CLASS : Z := 4.
Definition EI_DATA : Z := 5.
Definition EI_VERSION : Z := 6.
Definition ET_REL : Z := 1.
Definition ET_EXEC : Z := 2.
Definition PT_LOAD : Z := 1.

(** [elf_header_t] *)
Definition e_ident (h i : Z) : Z := h + i.
Definition e_type (h : Z) : Z := h + 16.
Definition e_machine (h : Z) : Z := h + 18.
Definition e_phoff (h : Z) : Z := h + 28.
Definition e_shoff (h : Z) : Z := h + 32.
Definition e_phentsize (h : Z) : Z := h + 42.
Definition e_phnum (h : Z) : Z := h + 44.
Definition e_shentsize (h : Z) : Z := h + 46.

(** [elf_program_header_t] *)
Definition p_type (p : Z) : Z := p.
Definition p_offset (p : Z) : Z := p + 4.
Definition p_vaddr (p : Z) : Z := p + 8.
Definition p_filesz (p : Z) : Z := p + 16.
Definition p_memsz (p : Z) : Z := p + 20.

(** The use of the virtual memory manager: [allocate_region] with the current page
    directory. *)
Class Regions (S : Type) := { allocate_region_op : Z -> Z -> Z -> Z -> Z -> M S unit }.

(** It changes page tables only, and neither takes nor releases a region of the heap. *)
Class RegionsLaws (S : Type) `{HasMem S} `{!Allocator S} `{!Regions S} := {
  page_tables : Z -> Prop;
  wp_allocate_region start end_ iden_map is_kernel is_writable (Q : unit -> S -> Prop) s :
    (forall s', same_on (fun a => ~ page_tables a) (mem s) (mem s') -> (forall n L, heap_ok n L s -> heap_ok n L s') -> Q tt s') ->
    wp (allocate_region_op start end_ iden_map is_kernel is_writable) Q s;
}.

(** ** The code *)

Section elf_c.
Context {S : Type} `{HasMem S} `{!Allocator S} `{!Logger S} `{!FsCalls S} `{!VfsGlobals} `{!Regions S}.

(** The result is a [uint8_t], so -1 is 255. *)
Definition elf_check_header (header : Z) : M S Z :=
  m0 ← load8 (e_ident header EI_MAG0);
  m1 ← load8 (e_ident header EI_MAG1);
  m2 ← load8 (e_ident header EI_MAG2);
  m3 ← load8 (e_ident header EI_MAG3);
  if negb (m0 =? 0x7f) || negb (m1 =? 69) || negb (m2 =? 76) || negb (m3 =? 70) then mret 0
  else
    c ← load8 (e_ident header EI_CLASS);
    if negb (c =? 1) then mret 0
    else
      d ← load8 (e_ident header EI_DATA);
      if negb (d =? 1) then mret 0
      else
        v ← load8 (e_ident header EI_VERSION);
        if negb (v =? 1) then mret 0
        else
          machine ← load16 (e_machine header);
          if negb (machine =? 3) then mret 0
          else
            t ← load16 (e_type header);
            if negb (t =? ET_REL) && negb (t =? ET_EXEC) then mret 0 else mret (u8 (-1)).

Definition elf_get_section_header (header num : Z) : M S Z :=
  off ← load32 (e_shoff header);
  size ← load16 (e_shentsize header);
  mret (u32 (header + off + num * size)).

Definition elf_get_program_header (header num : Z) : M S Z :=
  off ← load32 (e_phoff header);
  size ← load16 (e_phentsize header);
  mret (u32 (header + off + num * size)).

(** The body of the loop of [elf_relocate]; the result tells whether it returns -1. *)
Definition load_segment (pheader offset i : Z) : M S bool :=
  t ← load32 (p_type pheader);
  if negb (t =? PT_LOAD) then mret false
  else
    memsz ← load32 (p_memsz pheader);
    filesz ← load32 (p_filesz pheader);
    vaddr ← load32 (p_vaddr pheader);
    if (memsz <? filesz) || (KERN_BASE <=? vaddr +32 memsz) then mret true
    else
      off ← load32 (p_offset pheader);
      klog_op LevelPlain "ELF PHeader #%d, Type: LOAD, Off:0x%x, Vaddr:0x%x, Size:0x%d\n" [i; off; vaddr; memsz];;
      vaddr ← load32 (p_vaddr pheader);
      filesz ← load32 (p_filesz pheader);
      allocate_region_op vaddr (vaddr +32 filesz) 0 0 1;;
      vaddr ← load32 (p_vaddr pheader);
      off ← load32 (p_offset pheader);
      filesz ← load32 (p_filesz pheader);
      memcpy vaddr (offset +32 off) filesz;;
      memsz ← load32 (p_memsz pheader);
      filesz ← load32 (p_filesz pheader);
      (if 0 <? memsz -32 filesz then
         vaddr ← load32 (p_vaddr pheader);
         memset (vaddr +32 filesz) 0 (memsz -32 filesz);;
         mret tt
       else mret tt);;
      mret false.

Fixpoint elf_relocate_loop (fuel : nat) (header offset i : Z) : M S Z :=
  match fuel with
  | O => out_of_fuel
  | Datatypes.S fuel' =>
      n ← load16 (e_phnum header);
      if i <? n then
        pheader ← elf_get_program_header header i;
        bad ← load_segment pheader offset i;
        if (bad : bool) then mret (-1) else elf_relocate_loop fuel' header offset (i +32 1)
      else mret 0
  end.

(** [argc] and [argv] are not used. *)
Definition elf_relocate (fuel : nat) (header offset : Z) : M S Z := elf_relocate_loop fuel header offset 0.

Definition elf_load (fuel : nat) (node : Z) : M S Z :=
  if node =? 0 then mret (-1)
  else
    open_fs node 0;;
    len ← load32 (fs_length node);
    modulebuffer ← kmalloc_op len;
    len ← load32 (fs_length node);
    read_fs node 0 len modulebuffer;;
    ok ← elf_check_header modulebuffer;
    ret ← (if ok =? 0 then klog_op LevelErr "ELF binary is not for this machine\n" [];; mret (-1) else mret 0);
    failed ← elf_relocate fuel modulebuffer modulebuffer;
    ret ← (if negb (failed =? 0) then klog_op LevelErr "Failed to relocate ELF binary\n" [];; mret (-1) else mret ret);
    close_fs node;;
    kfree_op modulebuffer;;
    mret ret.
End elf_c.

(** ** What loading means *)

Record segment := Segment { g_offset : Z; g_vaddr : Z; g_filesz : Z; g_memsz : Z }.

(** The segments the loader accepts; the sum is one of 32-bit words. *)
Definition acceptable (g : segment) : bool :=
  negb ((g_memsz g <? g_filesz g) || (KERN_BASE <=? g_vaddr g +32 g_memsz g)).

(** The bytes of memory after a segment of the file [img] was placed. *)
Definition place (img : Z -> Z) (g : segment) (f : Z -> Z) : Z -> Z := fun a =>
  if (g_vaddr g <=? a) && (a <? g_vaddr g + g_filesz g) then img (g_offset g + (a - g_vaddr g))
  else if (g_vaddr g + g_filesz g <=? a) && (a <? g_vaddr g + g_memsz g) then 0
  else f a.

(** The reference loader: the segments in order, up to one that is not acceptable;
    [None] is a header that is not loaded. *)
Fixpoint load_all (img : Z -> Z) (phs : list (option segment)) (f : Z -> Z) : Z * (Z -> Z) :=
  match phs with
  | [] => (0, f)
  | None :: phs' => load_all img phs' f
  | Some g :: phs' => if acceptable g then load_all img phs' (place img g f) else (-1, f)
  end.

(** A program header in memory. *)
Definition header_of (m : memory) (p : Z) : option segment :=
  if ld32 m (p_type p) =? PT_LOAD
  then Some (Segment (ld32 m (p_offset p)) (ld32 m (p_vaddr p)) (ld32 m (p_filesz p)) (ld32 m (p_memsz p)))
  else None.

(** The address of the [i]th program header. *)
Definition header_addr (m : memory) (h : Z) (i : Z) : Z := u32 (h + ld32 m (e_phoff h) + i * ld16 m (e_phentsize h)).

Definition program_headers (m : memory) (h : Z) : list (option segment) :=
  (fun i => header_of m (header_addr m h i)) <$> seqZ 0 (ld16 m (e_phnum h)).

(** The header that [elf_check_header] asks for: a 32-bit little-endian ELF file of
    version 1 for the 386, relocatable or executable. *)
Definition elf_header (m : memory) (h : Z) : Prop :=
  (fun i => ld8 m (e_ident h i)) <$> [EI_MAG0; EI_MAG1; EI_MAG2; EI_MAG3; EI_CLASS; EI_DATA; EI_VERSION] = [127; 69; 76; 70; 1; 1; 1] /\
  ld16 m (e_machine h) = 3 /\ (ld16 m (e_type h) = ET_REL \/ ld16 m (e_type h) = ET_EXEC).

#[export] Instance elf_header_dec m h : Decision (elf_header m h).
Proof. unfold elf_header. apply _. Defined.

(** ** The theorems *)

Section elf_specs.
Context {S : Type} `{MemLaws S} `{!Allocator S} `{!Logger S} `{!LoggerLaws S} `{!FsCalls S} `{!VfsGlobals} `{!Regions S}.

(** [elf_check_header] decides [elf_header]: 255 for such a header, 0 for any other. *)
Lemma elf_check_header_decides h s :
  elf_check_header h s = Done (if decide (elf_header (mem s) h) then 255 else 0, s).
Proof.
  assert (Hno : ~ elf_header (mem s) h -> wp (mret 0) (fun r s' => r = (if decide (elf_header (mem s) h) then 255 else 0) /\ s' = s) s)
    by (intros Hn; mstep; by rewrite decide_False).
  apply wp_done_inv. unfold elf_check_header. do 4 (mstep; mstep).
  destruct (Z.eqb_spec (ld8 (mem s) (e_ident h EI_MAG0)) 0x7f); [|apply Hno; unfold elf_header; intros [[=] _]; congruence].
  destruct (Z.eqb_spec (ld8 (mem s) (e_ident h EI_MAG1)) 69); [|apply Hno; unfold elf_header; intros [[=] _]; congruence].
  destruct (Z.eqb_spec (ld8 (mem s) (e_ident h EI_MAG2)) 76); [|apply Hno; unfold elf_header; intros [[=] _]; congruence].
  destruct (Z.eqb_spec (ld8 (mem s) (e_ident h EI_MAG3)) 70); [|apply Hno; unfold elf_header; intros [[=] _]; congruence].
  cbn [negb orb]. mstep. mstep.
  destruct (Z.eqb_spec (ld8 (mem s) (e_ident h EI_CLASS)) 1); cbn [negb]; [|apply Hno; unfold elf_header; intros [[=] _]; congruence].
  mstep. mstep.
  destruct (Z.eqb_spec (ld8 (mem s) (e_ident h EI_DATA)) 1); cbn [negb]; [|apply Hno; unfold elf_header; intros [[=] _]; congruence].
  mstep. mstep.
  destruct (Z.eqb_spec (ld8 (mem s) (e_ident h EI_VERSION)) 1); cbn [negb]; [|apply Hno; unfold elf_header; intros [[=] _]; congruence].
  mstep. mstep.
  destruct (Z.eqb_spec (ld16 (mem s) (e_machine h)) 3); cbn [negb]; [|apply Hno; unfold elf_header; intros (_ & ? & _); congruence].
  mstep. mstep.
  destruct (Z.eqb_spec (ld16 (mem s) (e_type h)) ET_REL), (Z.eqb_spec (ld16 (mem s) (e_type h)) ET_EXEC); cbn [negb andb];
    try (mstep; rewrite decide_True; [done|]; unfold elf_header; cbn [fmap list_fmap]; split; [congruence | tauto]).
  apply Hno. unfold elf_header. tauto.
Qed.

Context `{!CallocLaws S} `{!RegionsLaws S}.

(** The heap is intact in [s'] when the segments go to live regions. *)
Definition placed_in (phs : list (option segment)) (L : list region) : Prop :=
  forall g, Some g ∈ phs -> acceptable g = true -> forall a, g_vaddr g <= a < g_vaddr g + g_memsz g -> live L a.

Definition heap_kept (phs : list (option segment)) (s s' : S) : Prop :=
  forall n L, placed_in phs L -> heap_ok n L s -> heap_ok n L s'.

Lemma heap_kept_trans phs s1 s2 s3 : heap_kept phs s1 s2 -> heap_kept phs s2 s3 -> heap_kept phs s1 s3.
Proof. intros Hk1 Hk2 n L Hp Hok. by eapply Hk2, Hk1. Qed.

(** A part of a segment is written. *)
Lemma heap_kept_filled phs g p n img m s :
  Some g ∈ phs -> acceptable g = true -> g_vaddr g <= p -> p + n <= g_vaddr g + g_memsz g -> filled (mem s) m p n img ->
  heap_kept phs s (set_mem m s).
Proof.
  intros Hg Ha Hp1 Hp2 [_ Hout] k L Hpl Hok. apply heap_ok_write; [exact Hok|]. intros b Hb _.
  destruct (decide (p <= b < p + n)) as [Hin|]; [|apply Hout; lia]. destruct Hb. eapply Hpl; [exact Hg | exact Ha | lia].
Qed.

(** A file of [size] bytes at [h], in the kernel's half of the address space: its
    headers and the contents of its segments lie inside, and no segment wraps. *)
Record elf_file (m : memory) (h size : Z) : Prop := {
  ef_kernel : KERN_BASE <= h /\ h + size < 4294967296 /\ 52 <= size;
  ef_tables a : h <= a < h + size -> ~ page_tables a;
  ef_headers i : 0 <= i < ld16 m (e_phnum h) -> h <= header_addr m h i /\ header_addr m h i + 32 <= h + size;
  ef_segments g : Some g ∈ program_headers m h -> g_offset g + g_filesz g <= size /\ g_vaddr g + g_memsz g < 4294967296;
}.

(** The file is still there. *)
Definition file_kept (h size : Z) (m m' : memory) : Prop := forall a, h <= a < h + size -> ld8 m' a = ld8 m a.

Lemma file_kept_32 h size m m' a : file_kept h size m m' -> h <= a -> a + 4 <= h + size -> ld32 m' a = ld32 m a.
Proof. intros Hk Ha1 Ha2. apply ld32_ext. intros b Hb. apply Hk. lia. Qed.

Lemma file_kept_16 h size m m' a : file_kept h size m m' -> h <= a -> a + 2 <= h + size -> ld16 m' a = ld16 m a.
Proof. intros Hk Ha1 Ha2. unfold ld16. rewrite !Hk by lia. done. Qed.

(** Outside the page tables the memory is as [f] says. *)
Definition agrees (m : memory) (f : Z -> Z) : Prop := forall a, ~ page_tables a -> ld8 m a = f a.

(** The bounds of a segment that is placed. *)
Record fits (h size : Z) (g : segment) : Prop := {
  fi_file : 0 <= g_offset g /\ g_offset g + g_filesz g <= size;
  fi_sizes : 0 <= g_vaddr g /\ 0 <= g_filesz g <= g_memsz g;
  fi_below : g_vaddr g + g_memsz g < h;
}.

(** Its bytes from the file; the rest of it is not yet cleared. *)
Definition copied (img : Z -> Z) (g : segment) (f : Z -> Z) : Z -> Z := fun a =>
  if (g_vaddr g <=? a) && (a <? g_vaddr g + g_filesz g) then img (g_offset g + (a - g_vaddr g)) else f a.

Lemma filled_copied (img : Z -> Z) h size m m0 m1 g f :
  fits h size g -> file_kept h size m m0 -> agrees m0 f -> (forall i, 0 <= i < size -> img i = ld8 m (h + i)) ->
  filled m0 m1 (g_vaddr g) (g_filesz g) (fun i => ld8 m0 (h + g_offset g + i)) ->
  file_kept h size m m1 /\ agrees m1 (copied img g f).
Proof.
  intros [Ho Hs Hb] Hk Hf Himg [Hin Hout]. split; [intros a Ha; rewrite Hout by lia; by apply Hk|].
  intros a Ha. unfold copied. destruct (Z.leb_spec (g_vaddr g) a), (Z.ltb_spec a (g_vaddr g + g_filesz g)); cbn [andb];
    [|rewrite Hout by lia; by apply Hf..].
  replace a with (g_vaddr g + (a - g_vaddr g)) at 1 by lia. rewrite Hin, Himg by lia. rewrite <- Hk by lia. f_equal. lia.
Qed.

Lemma filled_placed (img : Z -> Z) h size m m1 m2 g f :
  fits h size g -> file_kept h size m m1 -> agrees m1 (copied img g f) ->
  filled m1 m2 (g_vaddr g + g_filesz g) (g_memsz g - g_filesz g) (fun _ => 0) ->
  file_kept h size m m2 /\ agrees m2 (place img g f).
Proof.
  intros [Ho Hs Hb] Hk Hf [Hin Hout]. split; [intros a Ha; rewrite Hout by lia; by apply Hk|].
  intros a Ha. unfold place. destruct (decide (g_vaddr g + g_filesz g <= a < g_vaddr g + g_memsz g)) as [Hd|Hd].
  - replace a with (g_vaddr g + g_filesz g + (a - (g_vaddr g + g_filesz g))) at 1 by lia. rewrite Hin by lia.
    rewrite (proj2 (Z.ltb_ge a (g_vaddr g + g_filesz g))), andb_false_r by lia.
    by rewrite (proj2 (Z.leb_le _ _)), (proj2 (Z.ltb_lt _ _)) by lia.
  - rewrite Hout, Hf by (done || lia). unfold copied. destruct ((g_vaddr g <=? a) && _); [done|].
    destruct (Z.leb_spec (g_vaddr g + g_filesz g) a), (Z.ltb_spec a (g_vaddr g + g_memsz g)); cbn [andb]; (done || lia).
Qed.

(** One program header. *)
Lemma wp_load_segment (img : Z -> Z) h size m p i f s (Q : bool -> S -> Prop) :
  elf_file m h size -> file_kept h size m (mem s) -> agrees (mem s) f ->
  (forall i, 0 <= i < size -> img i = ld8 m (h + i)) -> h <= p -> p + 32 <= h + size ->
  (forall g, header_of m p = Some g -> Some g ∈ program_headers m h) ->
  (match header_of m p with
   | None => Q false s
   | Some g =>
       if acceptable g
       then forall s', file_kept h size m (mem s') -> agrees (mem s') (place img g f) -> heap_kept (program_headers m h) s s' -> Q false s'
       else Q true s
   end) -> wp (load_segment p h i) Q s.
Proof.
  intros Hef Hk Hf Himg Hp1 Hp2 Hin HQ. pose proof Hef as [(Hh & Hsz & _) Hpt _ Hseg].
  assert (Hw : forall m', file_kept h size m m' -> forall o, 0 <= o <= 28 -> ld32 m' (p + o) = ld32 m (p + o))
    by (intros m' Hk' o Ho; eapply file_kept_32; [exact Hk' | lia | lia]).
  unfold header_of, load_segment, p_type, p_offset, p_vaddr, p_filesz, p_memsz in *.
  mstep. mstep. rewrite <- (Z.add_0_r p) at 1. rewrite (Hw _ Hk) by lia. rewrite Z.add_0_r.
  destruct (Z.eqb_spec (ld32 m p) PT_LOAD) as [Ht|Ht]; cbn [negb]; [|by mstep].
  mstep. mstep. mstep. mstep. mstep. mstep. rewrite !(Hw _ Hk) by lia.
  set (g := Segment (ld32 m (p + 4)) (ld32 m (p + 8)) (ld32 m (p + 16)) (ld32 m (p + 20))) in *.
  pose proof (Hin g eq_refl) as Hing. destruct (Hseg g Hing) as [Hos Hvm].
  assert (Hacc : acceptable g = negb ((ld32 m (p + 20) <? ld32 m (p + 16)) || (KERN_BASE <=? ld32 m (p + 8) +32 ld32 m (p + 20)))) by done.
  unfold acceptable in HQ. cbn [g_memsz g_filesz g_vaddr g_offset g] in Hos, Hvm, HQ.
  destruct ((ld32 m (p + 20) <? ld32 m (p + 16)) || (KERN_BASE <=? ld32 m (p + 8) +32 ld32 m (p + 20))) eqn:Ebad; cbn [negb] in HQ; [by mstep|].
  apply orb_false_iff in Ebad as [Eb1%Z.ltb_ge Eb2%Z.leb_gt].
  pose proof (ld32_range m (p + 4)). pose proof (ld32_range m (p + 8)). pose proof (ld32_range m (p + 16)). pose proof (ld32_range m (p + 20)).
  rewrite u32_small in Eb2 by lia.
  assert (Hg : fits h size g) by (split; cbn [g_memsz g_filesz g_vaddr g_offset g]; lia).
  mstep. mstep. wp_step. apply wp_klog. intros s1 Hm1 Hok1.
  assert (Hk1 : file_kept h size m (mem s1)) by (by rewrite Hm1).
  mstep. mstep. mstep. mstep. rewrite !(Hw _ Hk1) by lia. wp_step. apply wp_allocate_region. rewrite Hm1. intros s2 Hs2 Hok2.
  assert (Hh2 : heap_kept (program_headers m h) s s2) by (intros k L _ Hok; by apply Hok2, Hok1).
  assert (Hk2 : file_kept h size m (mem s2)) by (intros a Ha; rewrite (Hs2 a (Hpt a Ha)); by apply Hk).
  mstep. mstep. mstep. mstep. mstep. mstep. rewrite !(Hw _ Hk2) by lia.
  wp_step. rewrite !(u32_small (h + _)) by lia. apply wp_memcpy; [lia | left; lia |]. intros m3 Hm3.
  assert (Hh3 : heap_kept (program_headers m h) s (set_mem m3 s2)).
  { eapply heap_kept_trans; [exact Hh2|]. eapply (heap_kept_filled _ g); [exact Hing | exact Hacc | | | exact Hm3]; cbn [g_memsz g_vaddr g]; lia. }
  destruct (filled_copied img h size m (mem s2) m3 g f Hg Hk2) as [Hk3 Hf3]; [intros a Ha; rewrite (Hs2 a Ha); by apply Hf | exact Himg | exact Hm3 |].
  mstep. mstep. mstep. mstep. rewrite !mem_set_mem, !(Hw _ Hk3), !u32_small by lia.
  destruct (Z.ltb_spec 0 (ld32 m (p + 20) - ld32 m (p + 16))) as [Hlt|Hge].
  - wp_step. mstep. mstep. rewrite mem_set_mem, (Hw _ Hk3), u32_small by lia. wp_step. apply wp_memset; [lia|]. rewrite mem_set_mem.
    intros m4 Hm4. destruct (filled_placed img h size m m3 m4 g f Hg Hk3 Hf3 Hm4) as [Hk4 Hf4].
    assert (Hh4 : heap_kept (program_headers m h) s (set_mem m4 (set_mem m3 s2))).
    { eapply heap_kept_trans; [exact Hh3|]. eapply (heap_kept_filled _ g); [exact Hing | exact Hacc | | | by rewrite mem_set_mem]; cbn [g_memsz g_vaddr g]; lia. }
    mstep. mstep. apply HQ; [by rewrite mem_set_mem | by rewrite mem_set_mem | exact Hh4].
  - wp_step. mstep. mstep. destruct (filled_placed img h size m m3 m3 g f Hg Hk3 Hf3) as [Hk4 Hf4].
    { cbn [g_memsz g_filesz g_vaddr g]. replace (_ - _) with 0 by lia. apply filled_0. }
    apply HQ; [by rewrite mem_set_mem | by rewrite mem_set_mem | exact Hh3].
Qed.

Lemma wp_elf_relocate_loop (img : Z -> Z) fuel h size m i f s (Q : Z -> S -> Prop) :
  elf_file m h size -> file_kept h size m (mem s) -> agrees (mem s) f ->
  (forall i, 0 <= i < size -> img i = ld8 m (h + i)) ->
  let n := ld16 m (e_phnum h) in
  0 <= i <= n -> (Z.to_nat (n - i) < fuel)%nat ->
  (forall s', let r := load_all img ((fun i => header_of m (header_addr m h i)) <$> seqZ i (n - i)) f in
     agrees (mem s') r.2 -> heap_kept (program_headers m h) s s' -> Q r.1 s') ->
  wp (elf_relocate_loop fuel h h i) Q s.
Proof.
  cbv zeta. intros Hef. pose proof Hef as [(Hh & Hsz & H52) _ Hhd _]. pose proof (ld16_range m (e_phnum h)) as Hn.
  revert i f s. induction fuel as [|fuel IH]; intros i f s Hk Hf Himg Hi Hfu HQ; [lia|]. cbn [elf_relocate_loop].
  unfold e_phnum in *. mstep. mstep. rewrite (file_kept_16 _ _ _ _ _ Hk) by lia. destruct (Z.ltb_spec i (ld16 m (h + 44))) as [Hlt|Hge].
  - wp_step. unfold elf_get_program_header. mstep. mstep. mstep. mstep. mstep. unfold e_phoff, e_phentsize.
    rewrite (file_kept_32 _ _ _ _ _ Hk), (file_kept_16 _ _ _ _ (h + 42) Hk) by lia.
    fold (e_phoff h) (e_phentsize h) (header_addr m h i). destruct (Hhd i) as [Ha1 Ha2]; [lia|].
    rewrite seqZ_cons in HQ by lia. cbn [fmap list_fmap load_all] in HQ. replace (Z.pred (ld16 m (h + 44) - i)) with (ld16 m (h + 44) - (i + 1)) in HQ by lia.
    wp_step. eapply (wp_load_segment img h size m); [exact Hef | exact Hk | exact Hf | exact Himg | exact Ha1 | exact Ha2 | |].
    { intros g Hg. unfold program_headers, e_phnum. apply list_elem_of_fmap. exists i. split; [done | apply elem_of_seqZ; lia]. }
    rewrite <- Z.add_1_r in HQ. destruct (header_of m (header_addr m h i)) as [g|].
    + destruct (acceptable g).
      * intros s' Hk' Hf' Hh'. rewrite u32_small by lia. eapply IH; [exact Hk' | exact Hf' | exact Himg | lia | lia |].
        intros s'' Ha'' Hh''. apply HQ; [exact Ha''|]. by eapply heap_kept_trans.
      * mstep. apply (HQ s); [done|]. by intros k L.
    + rewrite u32_small by lia. eapply IH; [exact Hk | exact Hf | exact Himg | lia | lia | exact HQ].
  - mstep. replace i with (ld16 m (h + 44)) in HQ by lia. rewrite Z.sub_diag in HQ. apply (HQ s); [done|]. by intros k L.
Qed.

End elf_specs.
