(* ===== verification/ElfLoad.v ===== *)
(** * sys/elf.c: loading a file of the ramdisk

    [elf_load] of a node that [tarfs_init] made: the buffer from the heap, the bytes
    through the virtual file system, the check, the segments, and what is released. *)

From S2P Require Export VfsMount Elf.

(** ** The file at another address *)

(** The part of [elf_file] that does not depend on where the file is. *)
Record elf_image (m : memory) (h size : Z) : Prop := {
  ei_size : 52 <= size;
  ei_headers i : 0 <= i < ld16 m (e_phnum h) -> ld32 m (e_phoff h) + i * ld16 m (e_phentsize h) + 32 <= size;
  ei_segments g : Some g ∈ program_headers m h -> g_offset g + g_filesz g <= size /\ g_vaddr g + g_memsz g < 4294967296;
}.

Section moved.
Context (m m' : memory) (h h' size : Z).
Hypothesis Hbytes : forall i, 0 <= i < size -> ld8 m' (h' + i) = ld8 m (h + i).

Lemma moved_16 o : 0 <= o -> o + 2 <= size -> ld16 m' (h' + o) = ld16 m (h + o).
Proof. intros Ho1 Ho2. unfold ld16. rewrite <- !Z.add_assoc, !Hbytes by lia. done. Qed.

Lemma moved_32 o : 0 <= o -> o + 4 <= size -> ld32 m' (h' + o) = ld32 m (h + o).
Proof. intros Ho1 Ho2. unfold ld32. rewrite <- !Z.add_assoc, !Hbytes by lia. done. Qed.

Hypothesis Hsize : 52 <= size.

Lemma moved_elf_header : elf_header m' h' <-> elf_header m h.
Proof.
  unfold elf_header, e_ident, e_machine, e_type, EI_MAG0, EI_MAG1, EI_MAG2, EI_MAG3, EI_CLASS, EI_DATA, EI_VERSION. cbn [fmap list_fmap].
  rewrite !Hbytes, !moved_16 by lia. done.
Qed.

Hypothesis Himage : elf_image m h size.
Hypothesis Hrange : 0 <= h /\ h + size <= 4294967296 /\ 0 <= h' /\ h' + size <= 4294967296.

Lemma moved_counts : ld16 m' (e_phnum h') = ld16 m (e_phnum h) /\ ld32 m' (e_phoff h') = ld32 m (e_phoff h) /\
  ld16 m' (e_phentsize h') = ld16 m (e_phentsize h).
Proof. unfold e_phnum, e_phoff, e_phentsize. by rewrite !moved_16, moved_32 by lia. Qed.

(** The offset of the [i]th program header. *)
Lemma header_offset i : 0 <= i < ld16 m (e_phnum h) ->
  exists o, 0 <= o /\ o + 32 <= size /\ header_addr m h i = h + o /\ header_addr m' h' i = h' + o.
Proof.
  intros Hi. pose proof (ei_headers _ _ _ Himage i Hi) as Ho. destruct moved_counts as (_ & H2' & H3').
  pose proof (ld32_range m (e_phoff h)). pose proof (ld16_range m (e_phentsize h)).
  assert (0 <= i * ld16 m (e_phentsize h)) by (apply Z.mul_nonneg_nonneg; lia).
  exists (ld32 m (e_phoff h) + i * ld16 m (e_phentsize h)). unfold header_addr. rewrite H2', H3', !u32_small by lia. lia.
Qed.

Lemma moved_program_headers : program_headers m' h' = program_headers m h.
Proof.
  unfold program_headers. rewrite (proj1 moved_counts). apply list_fmap_ext. intros k i Hi.
  apply list_elem_of_lookup_2, elem_of_seqZ in Hi. destruct (header_offset i) as (o & Ho1 & Ho2 & -> & ->); [lia|].
  unfold header_of, p_type, p_offset, p_vaddr, p_filesz, p_memsz. rewrite <- !Z.add_assoc, !moved_32 by lia. done.
Qed.
End moved.

(** ** The reference loader and the memory it starts from *)

Lemma load_all_result img phs f f' : (load_all img phs f).1 = (load_all img phs f').1.
Proof. revert f f'. induction phs as [|[g|] phs IH]; intros f f'; simpl; [done | by destruct (acceptable g) | apply IH]. Qed.

Lemma load_all_codes img phs f : (load_all img phs f).1 = 0 \/ (load_all img phs f).1 = -1.
Proof. revert f. induction phs as [|[g|] phs IH]; intros f; simpl; [by left | destruct (acceptable g); [apply IH | by right] | apply IH]. Qed.

Lemma load_all_at img phs f f' a : f a = f' a -> (load_all img phs f).2 a = (load_all img phs f').2 a.
Proof.
  revert f f'. induction phs as [|[g|] phs IH]; intros f f' Hf; simpl; [done | | by apply IH].
  destruct (acceptable g); [|done]. apply IH. unfold place. by rewrite Hf.
Qed.

Lemma load_all_outside img phs f a :
  (forall g, Some g ∈ phs -> acceptable g = true -> 0 <= g_filesz g /\ ~ (g_vaddr g <= a < g_vaddr g + g_memsz g)) ->
  (load_all img phs f).2 a = f a.
Proof.
  revert f. induction phs as [|[g|] phs IH]; intros f Hout; simpl; [done | | apply IH; intros g' Hg'; apply Hout; by right].
  destruct (acceptable g) eqn:Ha; [|done]. rewrite IH by (intros g' Hg'; apply Hout; by right).
  pose proof (Hout g ltac:(left) Ha) as [Hg0 Hg]. unfold acceptable in Ha. apply negb_true_iff, orb_false_iff in Ha as [Hm%Z.ltb_ge _].
  unfold place. destruct (Z.leb_spec (g_vaddr g) a), (Z.ltb_spec a (g_vaddr g + g_filesz g)), (Z.leb_spec (g_vaddr g + g_filesz g) a),
    (Z.ltb_spec a (g_vaddr g + g_memsz g)); cbn [andb]; (done || lia).
Qed.

Lemma program_header_filesz m h g : Some g ∈ program_headers m h -> 0 <= g_filesz g.
Proof.
  unfold program_headers. intros (i & Hg & _)%list_elem_of_fmap. unfold header_of in Hg. destruct (_ =? _); [|done]. injection Hg as ->.
  apply ld32_range.
Qed.

(** What loading the file at [h] answers, and the bytes it leaves: the answer is -1 for a
    header that is refused, but the segments are placed all the same. *)
Definition load_result (m : memory) (h : Z) : Z * (Z -> Z) :=
  let r := load_all (fun i => ld8 m (h + i)) (program_headers m h) (ld8 m) in
  (if decide (elf_header m h) then r.1 else -1, r.2).

(** ** Loading *)

Section load.
Context {S : Type} `{MemLaws S} `{!Allocator S} `{!CallocLaws S} `{!KmallocLaws S} `{!KfreeLaws S} `{!Logger S} `{!LoggerLaws S}
  `{!FsGlobals} `{!TarfsGlobals} `{!VfsGlobals} `{!Regions S} `{!RegionsLaws S}.
Context (fuel chars : nat) (others : FsCalls S).

Local Notation calls := (fs_calls fuel chars others).
Context (a n0 : Z) (files : list (list Z * Z)) (lst : Z) (l : list (Z * Z)) (R : list region).
Context (v : Z) (j : nat) (f : list Z * Z) (U : region).

Local Notation file := (header_of_file a n0 files j + 512).
Local Notation all := (list_regions lst l ++ (v, SIZEOF_FS_NODE) :: R).

(** The state in which the file [f] of a mounted archive can be loaded: its node [v] is
    released afterwards, its segments go to the live region [U]. *)
Record loadable (c : nat) (root : Z) (s : S) : Prop := {
  lo_disk : disk a n0 files (Z.to_nat ((f.2 + SMALL - 1) / SMALL) + c) root lst l ((v, SIZEOF_FS_NODE) :: R) s;
  lo_archive : 0 <= a /\ a + archive_length a n0 files <= 4294967296 /\ (a, archive_length a n0 files) ∈ (v, SIZEOF_FS_NODE) :: R;
  lo_headers : (headers, 4 * NUM_TARFILES) ∈ (v, SIZEOF_FS_NODE) :: R;
  lo_file : files !! j = Some f /\ f.2 < 2147483648 /\ elf_image (mem s) file f.2;
  lo_node : v <> 0 /\ file_node (mem s) v (inode_of j) f /\ v ∈ l.*2;
  lo_root : (fs_root, 4) ∈ R /\ ld32 (mem s) fs_root <> v;
  lo_buffer p s1 : kmalloc_op f.2 s = Done (p, s1) -> KERN_BASE <= p /\ p + f.2 < 4294967296 /\ forall b, p <= b < p + f.2 -> ~ page_tables b;
  lo_area : U ∈ R /\ U <> (fs_root, 4) /\ placed_in (program_headers (mem s) file) [U];
  lo_tables r b : r ∈ (fs_root, 4) :: (v, SIZEOF_FS_NODE) :: list_regions lst l -> in_region b r -> ~ page_tables b;
}.

(** The buffer. *)
Lemma wp_elf_buffer c root s (Q : Z -> S -> Prop) :
  loadable c root s -> 0 < f.2 ->
  (forall p s1, heap_ok c ((p, f.2) :: all) s1 -> same_on (live all) (mem s) (mem s1) ->
     KERN_BASE <= p /\ p + f.2 < 4294967296 /\ (forall b, p <= b < p + f.2 -> ~ page_tables b) -> Q p s1) ->
  wp (kmalloc_op f.2) Q s.
Proof.
  intros Hlo Hpos HQ. pose proof (dk_list _ _ _ _ _ _ _ _ _ (lo_disk _ _ _ Hlo)) as [Hok _].
  assert (Hw : wp (kmalloc_op f.2) (fun p s1 => heap_ok c ((p, f.2) :: all) s1 /\ same_on (live all) (mem s) (mem s1)) s)
    by (eapply wp_kmalloc; [exact Hok | exact Hpos | done]).
  apply wp_run in Hw as (p & s1 & Hrun & Hok1 & Hs1). eapply wp_done; [exact Hrun|]. apply HQ; [done | done |]. by eapply lo_buffer.
Qed.

(** The bytes of the file in the buffer. *)
Lemma wp_elf_bytes c root p s s1 (Q : Z -> S -> Prop) :
  loadable c root s -> distinct_functions ->
  heap_ok c ((p, f.2) :: all) s1 -> same_on (live all) (mem s) (mem s1) ->
  (forall s2, heap_ok c ((p, f.2) :: all) s2 -> same_on (live all) (mem s) (mem s2) ->
     (forall i, 0 <= i < f.2 -> ld8 (mem s2) (p + i) = ld8 (mem s) (file + i)) -> Q f.2 s2) ->
  wp (@read_fs S _ calls v 0 f.2 p) Q s1.
Proof.
  intros [Hd (Ha & Ha32 & Har) Hhd (Hj & Hsz & Him) (Hv0 & Hn & _) _ _ _ _] Hdf Hok1 Hsame HQ.
  pose proof Hn as [_ (_ & Hino & Hlen) Hrd _]. pose proof (df_range Hdf tarfs_read_fn ltac:(elem)) as Hfn. rewrite u32_small in Hrd by lia.
  pose proof (dk_parsed _ _ _ _ _ _ _ _ _ Hd) as Hpa. destruct (pa_header _ _ _ _ Hpa j f Hj) as (Hslot & _).
  destruct (header_range _ _ _ _ j f Hpa Hj) as (Hr1 & Hr2 & Hr3 & Hr4).
  assert (Hin : forall r b, r ∈ (v, SIZEOF_FS_NODE) :: R -> in_region b r -> live all b)
    by (intros r b Hr Hb; apply live_app; right; by eapply live_in).
  assert (Hw : forall q, v <= q <= v + 172 -> ld32 (mem s1) q = ld32 (mem s) q).
  { intros q Hq. eapply ld32_same_on; [exact Hsame|]. intros b Hb. apply (Hin (v, SIZEOF_FS_NODE)); [left | unfold in_region, SIZEOF_FS_NODE; simpl; lia]. }
  assert (Hslot1 : ld32 (mem s1) (header_slot (inode_of j)) = header_of_file a n0 files j).
  { rewrite <- Hslot. eapply ld32_same_on; [exact Hsame|]. intros b Hb. apply (Hin (headers, 4 * NUM_TARFILES)); [exact Hhd|].
    unfold in_region, header_slot, inode_of in *. simpl. lia. }
  assert (Hap : apart (p, f.2) (a, archive_length a n0 files)).
  { pose proof (heap_ok_separate _ _ _ Hok1) as [Hap _]. apply Hap, elem_of_app. by right. }
  node_fields. unfold apart, disjoint in Hap. cbn [fst snd] in Hap.
  unfold read_fs. rewrite (proj2 (Z.eqb_neq v 0)) by done. mstep. mstep. node_fields. rewrite !Hw, Hrd, (proj2 (Z.eqb_neq _ 0)) by lia. cbn [negb].
  mstep. mstep. rewrite !Hw, Hrd by lia. cbn [call_read fs_calls]. rewrite Z.eqb_refl.
  assert (Hrda : readable (ld32 (mem s1) (fs_length v)) 0 f.2 = f.2) by (node_fields; rewrite Hw, Hlen by lia; unfold readable; lia).
  eapply wp_tarfs_read; rewrite ?Hrda; node_fields; rewrite ?(Hw (v + 132)), ?Hino, ?Hslot1 by lia; [lia | lia | lia | lia | lia | unfold disjoint; lia |].
  intros m Hm. apply HQ; rewrite ?mem_set_mem.
  - apply heap_ok_write; [exact Hok1|]. intros b Hb _. apply (proj2 Hm). destruct (decide (p <= b < p + f.2)) as [Hc|]; [|lia].
    destruct Hb. apply live_cons. by left.
  - intros b Hb. rewrite (proj2 Hm); [by apply Hsame|]. destruct (decide (p <= b < p + f.2)) as [Hc|]; [|lia]. destruct (separate_not_live (p, f.2) all b); [by eapply heap_ok_separate | exact Hc | exact Hb].
  - intros i Hi. rewrite (proj1 Hm) by done. apply Hsame. apply (Hin (a, archive_length a n0 files)); [exact Har | unfold in_region; simpl; lia].
Qed.

Local Notation img := (fun s : S => fun i => ld8 (mem s) (file + i)).
Local Notation phs := (fun s : S => program_headers (mem s) file).

(** The segments. *)
Lemma wp_elf_place k c root p s s1 (Q : Z -> S -> Prop) :
  loadable c root s -> KERN_BASE <= p /\ p + f.2 < 4294967296 /\ (forall b, p <= b < p + f.2 -> ~ page_tables b) ->
  (forall i, 0 <= i < f.2 -> ld8 (mem s1) (p + i) = ld8 (mem s) (file + i)) -> (Z.to_nat (ld16 (mem s) (e_phnum file)) < k)%nat ->
  (forall s2, let r := load_all (img s) (phs s) (ld8 (mem s1)) in agrees (mem s2) r.2 -> heap_kept (phs s) s1 s2 -> Q r.1 s2) ->
  wp (elf_relocate k p p) Q s1.
Proof.
  intros [Hd (Ha & Ha32 & _) _ (Hj & Hsz & Him) _ _ _ _ _] (Hp1 & Hp2 & Hp3) Hb Hk HQ.
  destruct (header_range _ _ _ _ j f (dk_parsed _ _ _ _ _ _ _ _ _ Hd) Hj) as (Hr1 & Hr2 & Hr3 & _). pose proof (ei_size _ _ _ Him) as H52.
  assert (Hrange : 0 <= file /\ file + f.2 <= 4294967296 /\ 0 <= p /\ p + f.2 <= 4294967296) by (unfold KERN_BASE in Hp1; lia).
  destruct (moved_counts _ _ _ _ _ Hb H52) as (Hc & _ & _).
  pose proof (moved_program_headers _ _ _ _ _ Hb H52 Him Hrange) as Hph.
  pose proof (ld16_range (mem s) (e_phnum file)) as Hn.
  assert (Hef : elf_file (mem s1) p f.2).
  { split; [lia | exact Hp3 | | rewrite Hph; exact (ei_segments _ _ _ Him)]. rewrite Hc. intros i Hi.
    destruct (header_offset _ _ _ _ _ Hb H52 Him Hrange i Hi) as (o & Ho1 & Ho2 & _ & ->). lia. }
  unfold elf_relocate. eapply (wp_elf_relocate_loop (img s) k p f.2 (mem s1) 0 (ld8 (mem s1))); rewrite ?Hc;
    [exact Hef | done | done | intros i Hi; by rewrite Hb | lia | by rewrite Z.sub_0_r |].
  rewrite Z.sub_0_r, Hph. intros s2. cbv zeta. replace ((fun i => header_of (mem s1) (header_addr (mem s1) p i)) <$> seqZ 0 (ld16 (mem s) (e_phnum file)))
    with (phs s) by (rewrite <- Hph; unfold program_headers; by rewrite Hc). apply HQ.
Qed.

(** [close_fs] and [kfree]. *)
Lemma wp_elf_release {A} (K : M S A) c p s (Q : A -> S -> Prop) :
  heap_ok c ((p, f.2) :: all) s -> v <> 0 -> ld32 (mem s) fs_root <> v -> ld32 (mem s) (fs_close v) = 0 ->
  (forall s1, heap_ok c (list_regions lst l ++ R) s1 -> same_on (live (list_regions lst l ++ R)) (mem s) (mem s1) -> wp K Q s1) ->
  wp (@close_fs S _ _ calls _ v;; kfree_op p;; K) Q s.
Proof.
  intros Hok Hv Hroot Hcl HQ. unfold close_fs. rewrite (proj2 (Z.eqb_neq v 0)) by done. wp_step. mstep. mstep.
  rewrite (proj2 (Z.eqb_neq v _)) by congruence. wp_step. mstep. mstep. rewrite Hcl. cbn [Z.eqb negb]. mstep.
  eapply (wp_kfree c v SIZEOF_FS_NODE ((p, f.2) :: list_regions lst l ++ R)).
  { eapply heap_ok_permute; [|exact Hok]. rewrite <- Permutation_middle. apply Permutation_swap. }
  intros s1 Hok1 Hs1. wp_step. eapply wp_kfree; [exact Hok1|]. intros s2 Hok2 Hs2. apply HQ; [exact Hok2|].
  intros b Hb. rewrite Hs2 by done. apply Hs1, live_cons. by right.
Qed.

(** What no segment and no page table covers keeps its bytes. *)
Lemma elf_unplaced c root s s1 s2 r b :
  loadable c root s -> same_on (live all) (mem s) (mem s1) ->
  agrees (mem s2) (load_all (img s) (phs s) (ld8 (mem s1))).2 ->
  r ∈ (fs_root, 4) :: (v, SIZEOF_FS_NODE) :: list_regions lst l -> in_region b r -> ld8 (mem s2) b = ld8 (mem s) b.
Proof.
  intros Hlo Hsame Hag Hr Hb. pose proof Hlo as [Hd _ _ _ _ [Hfr _] _ (HU & HUr & Hpl) Htab].
  pose proof (dk_list _ _ _ _ _ _ _ _ _ Hd) as [Hok _]. pose proof (heap_ok_separate _ _ _ Hok) as Hsep.
  assert (Hin : r ∈ all /\ apart r U).
  { assert (HvU : apart (v, SIZEOF_FS_NODE) U) by (destruct (separate_skip _ _ Hsep) as [Hx _]; by apply Hx).
    rewrite !elem_of_cons in Hr. destruct Hr as [->|[->|Hr]].
    - split; [apply elem_of_app; right; by right|]. eapply separate_elem; [exact (separate_skip _ _ Hsep) | by right | by right | congruence].
    - split; [elem | exact HvU].
    - split; [apply elem_of_app; by left|]. eapply separate_app; [exact Hsep | exact Hr | by right]. }
  destruct Hin as [Hin Hap]. rewrite (Hag b) by (by eapply Htab). rewrite load_all_outside; [apply Hsame; by eapply live_in|].
  intros g Hg Hacc. split; [by eapply program_header_filesz|]. intros Hc. destruct (Hpl g Hg Hacc b Hc) as (r' & Hr' & Hbr').
  apply list_elem_of_singleton in Hr' as ->. unfold apart, disjoint, in_region in *. lia.
Qed.

(** The whole of [elf_load]. *)
Lemma wp_elf_load k c root s (Q : Z -> S -> Prop) :
  loadable c root s -> distinct_functions -> (Z.to_nat (ld16 (mem s) (e_phnum file)) < k)%nat ->
  (forall s', heap_ok c (list_regions lst l ++ R) s' -> dlist (mem s') lst l ->
     (forall b, live R b -> ~ page_tables b -> ld8 (mem s') b = (load_result (mem s) file).2 b) ->
     Q (load_result (mem s) file).1 s') ->
  wp (@elf_load S _ _ _ calls _ _ k v) Q s.
Proof.
  intros Hlo Hdf Hk HQ. pose proof Hlo as [Hd _ _ (Hj & Hsz & Him) (Hv0 & Hn & _) [Hfr Hroot] _ _ _].
  pose proof Hn as [_ (_ & _ & Hlen) _ Hops]. pose proof (dk_list _ _ _ _ _ _ _ _ _ Hd) as [Hok Hdl]. pose proof (ei_size _ _ _ Him) as H52.
  assert (Hreg : forall s' r b, same_on (live all) (mem s) (mem s') -> r ∈ all -> in_region b r -> ld8 (mem s') b = ld8 (mem s) b)
    by (intros s' r b Hs' Hr Hb; apply Hs'; by eapply live_in).
  unfold elf_load. rewrite (proj2 (Z.eqb_neq v 0)) by done. wp_step. unfold open_fs. rewrite (proj2 (Z.eqb_neq v 0)) by done.
  mstep. mstep. rewrite (Hops fs_open) by elem. cbn [Z.eqb negb]. mstep. mstep. mstep. rewrite Hlen.
  wp_step. eapply wp_elf_buffer; [exact Hlo | lia |]. intros p s1 Hok1 Hs1 Hp. mstep. mstep.
  assert (Hlen1 : ld32 (mem s1) (fs_length v) = f.2).
  { rewrite <- Hlen. apply ld32_ext. intros b Hb. apply (Hreg s1 (v, SIZEOF_FS_NODE)); [done | elem | unfold in_region, fs_length, SIZEOF_FS_NODE in *; simpl; lia]. }
  rewrite Hlen1. wp_step. eapply wp_elf_bytes; [exact Hlo | exact Hdf | exact Hok1 | exact Hs1 |]. intros s2 Hok2 Hs2 Hb2.
  wp_step. eapply wp_done; [apply elf_check_header_decides|]. wp_step.
  assert (Hhd : elf_header (mem s2) p <-> elf_header (mem s) file) by (by eapply moved_elf_header).
  set (ret := if decide (elf_header (mem s) file) then 0 else -1).
  assert (Hcheck : forall Q' : Z -> S -> Prop, (forall s3, mem s3 = mem s2 -> heap_ok c ((p, f.2) :: all) s3 -> Q' ret s3) ->
    wp (if (if decide (elf_header (mem s2) p) then 255 else 0) =? 0 then klog_op LevelErr "ELF binary is not for this machine\n" [];; mret (-1) else mret 0) Q' s2).
  { intros Q' HQ'. unfold ret in HQ'. destruct (decide (elf_header (mem s2) p)), (decide (elf_header (mem s) file)); try tauto; cbn [Z.eqb].
    - mstep. by apply HQ'.
    - wp_step. apply wp_klog. intros s3 Hm3 Hok3. mstep. apply HQ'; [exact Hm3 | by apply Hok3]. }
  apply Hcheck. clear Hcheck. intros s3 Hm3 Hok3. wp_step. rewrite <- Hm3 in Hs2, Hb2.
  eapply wp_elf_place; [exact Hlo | exact Hp | exact Hb2 | exact Hk |]. intros s4. cbv zeta. intros Hag Hkept.
  assert (Hok4 : heap_ok c ((p, f.2) :: all) s4).
  { apply Hkept; [|exact Hok3]. intros g Hg Hacc b Hb. destruct (lo_area _ _ _ Hlo) as (HU & _ & Hpl).
    destruct (Hpl g Hg Hacc b Hb) as (r & ->%list_elem_of_singleton & Hbr). apply (live_in U); [|exact Hbr]. right. apply elem_of_app. right. by right. }
  assert (Hun : forall r b, r ∈ (fs_root, 4) :: (v, SIZEOF_FS_NODE) :: list_regions lst l -> in_region b r -> ld8 (mem s4) b = ld8 (mem s) b)
    by (intros r b Hr Hb; by eapply elf_unplaced).
  set (r := load_all (img s) (phs s) (ld8 (mem s3))) in *.
  assert (Hr1 : r.1 = (load_all (img s) (phs s) (ld8 (mem s))).1) by apply load_all_result.
  wp_step. assert (Hfail : forall Q' : Z -> S -> Prop, (forall s5, mem s5 = mem s4 -> heap_ok c ((p, f.2) :: all) s5 -> Q' (load_result (mem s) file).1 s5) ->
    wp (if negb (r.1 =? 0) then klog_op LevelErr "Failed to relocate ELF binary\n" [];; mret (-1) else mret ret) Q' s4).
  { intros Q' HQ'. unfold load_result in HQ'. cbv zeta in HQ'. cbn [fst] in HQ'. rewrite <- Hr1 in HQ'. unfold ret.
    destruct (load_all_codes (img s) (phs s) (ld8 (mem s3))) as [Hc|Hc]; fold r in Hc; rewrite Hc in *; cbn [Z.eqb negb].
    - mstep. apply HQ'; [done | exact Hok4].
    - wp_step. apply wp_klog. intros s5 Hm5 Hok5. mstep. destruct (decide (elf_header (mem s) file)); (apply HQ'; [exact Hm5 | by apply Hok5]). }
  apply Hfail. clear Hfail. intros s5 Hm5 Hok5. rewrite <- Hm5 in Hag, Hun.
  eapply wp_elf_release; [exact Hok5 | exact Hv0 | | |].
  { rewrite (ld32_ext (mem s5) (mem s)); [exact Hroot|]. intros b Hb. apply (Hun (fs_root, 4)); [left | exact Hb]. }
  { rewrite <- (Hops fs_close) by elem. apply ld32_ext. intros b Hb. apply (Hun (v, SIZEOF_FS_NODE)); [elem | unfold in_region, fs_close, SIZEOF_FS_NODE in *; simpl; lia]. }
  intros s6 Hok6 Hs6. mstep. apply HQ; [exact Hok6 | |].
  - eapply dlist_same; [|exact Hdl]. intros b (x & Hx & Hb). rewrite Hs6 by (apply live_app; left; by eapply live_in).
    apply (Hun x); [do 2 right; exact Hx | exact Hb].
  - intros b Hb Hpt. rewrite Hs6 by (apply live_app; by right). rewrite (Hag b Hpt). unfold load_result, r. cbn [snd]. apply load_all_at.
    apply Hs2, live_app. right. apply live_cons. by right.
Qed.
End load.

