(* ===== verification/Syscall.v ===== *)
(** * sys/syscall.c: the system call dispatcher

    The table of the system calls and the handler of interrupt 127, over the
    scheduler of Task.v. *)

From S2P Require Export Task.

(** ** include/sys/syscall.h *)

Definition SYS_GETTID : Z := 1.
Definition SYS_YIELD : Z := 2.
Definition SYS_EXIT : Z := 3.
Definition SYS_RPL3TEST : Z := 4.

(** [regs_t], besides the fields in Task.v. *)
Definition rg_edi (r : Z) : Z := r + 16.
Definition rg_esi (r : Z) : Z := r + 20.
Definition rg_ebx (r : Z) : Z := r + 32.
Definition rg_edx (r : Z) : Z := r + 36.
Definition rg_ecx (r : Z) : Z := r + 40.

(** The functions in the table. *)
Inductive syscall := Sys_gettid | Sys_yield | Sys_exit | Sys_rpl3test.

(** [syscall_table]: the index 0 is not initialised, that is, NULL. *)
Definition syscall_table : list (option syscall) :=
  [None; Some Sys_gettid; Some Sys_yield; Some Sys_exit; Some Sys_rpl3test].

(** ** The code *)

Section syscall_c.
Context {S : Type} `{HasMem S} `{!Allocator S} `{!Switching S} `{!Logger S} `{!TaskGlobals}.

Definition sys_rpl3test : M S Z := klog_op LevelPlain "hello from usermode (rpl=3)\n" [];; mret 0.

(** The call with five words on the stack: the first parameter is the word pushed
    last.  Only [sys_exit] has a parameter. *)
Definition call_syscall (fuel : nat) (esp : Z) (f : syscall) (a1 a2 a3 a4 a5 : Z) : M S Z :=
  match f with
  | Sys_gettid => sys_gettid
  | Sys_yield => sys_yield fuel esp
  | Sys_exit => sys_exit fuel esp (s32 a1)
  | Sys_rpl3test => sys_rpl3test
  end.

Definition syscall_dispatcher (fuel : nat) (esp r : Z) : M S unit :=
  cur ← load32 current_task;
  ifr ← load32 (tk_ifr cur);
  n ← load32 (rg_eax ifr);
  if (n <=? 0) || (Z.of_nat (length syscall_table) - 1 <? n) then
    klog_op LevelErr "Invalid syscall number: %d\n" [n];;
    store32 (rg_eax ifr) (u32 (-1))
  else
    match default None (syscall_table !! Z.to_nat n) with
    | None => klog_op LevelErr "Invalid syscall number: %d\n" [n];; store32 (rg_eax ifr) (u32 (-1))
    | Some location =>
        edi ← load32 (rg_edi ifr);
        esi ← load32 (rg_esi ifr);
        edx ← load32 (rg_edx ifr);
        ecx ← load32 (rg_ecx ifr);
        ebx ← load32 (rg_ebx ifr);
        ret ← call_syscall fuel esp location ebx ecx edx esi edi;
        store32 (rg_eax ifr) ret
    end.

(** The handler it installs. *)
Definition syscalls_init : M S (Z * string) :=
  klog_op LevelOk "Initializing syscall handler\n" [];;
  mret (0x7f, "syscall_dispatcher"%string).
End syscall_c.

(** ** Theorems *)

Section syscall_specs.
Context {S : Type} `{MemLaws S} `{!Allocator S} `{!CallocLaws S} `{!Switching S} `{!SwitchingLaws S}
  `{!Logger S} `{!LoggerLaws S} `{!TaskGlobals}.

(** What the dispatcher leaves in the registers of the caller. *)
Definition returns (ifr v : Z) (m m' : memory) : Prop := m' = st32 m (rg_eax ifr) v.

(** A number without a function. *)
Lemma wp_dispatch_invalid fuel esp r s (Q : unit -> S -> Prop) :
  let ifr := ld32 (mem s) (tk_ifr (ld32 (mem s) current_task)) in
  let nr := ld32 (mem s) (rg_eax ifr) in
  nr = 0 \/ 4 < nr -> (forall s', returns ifr (u32 (-1)) (mem s) (mem s') -> Q tt s') -> wp (syscall_dispatcher fuel esp r) Q s.
Proof.
  intros ifr nr Hb HQ. assert (Hc : (nr <=? 0) || (Z.of_nat (length syscall_table) - 1 <? nr) = true).
  { change (Z.of_nat (length syscall_table) - 1) with 4. apply orb_true_iff. destruct Hb; [left; apply Z.leb_le; lia | right; by apply Z.ltb_lt]. }
  unfold syscall_dispatcher. do 6 mstep. fold ifr nr. rewrite Hc. wp_step. apply wp_klog. intros s1 Hm _. mstep.
  apply HQ. unfold returns. by rewrite mem_set_mem, Hm.
Qed.

(** The others call the function of the table with the registers of the caller. *)
Lemma wp_dispatch_call fuel esp r f s (Q : unit -> S -> Prop) :
  let m := mem s in
  let ifr := ld32 m (tk_ifr (ld32 m current_task)) in
  let nr := ld32 m (rg_eax ifr) in
  1 <= nr <= 4 -> syscall_table !! Z.to_nat nr = Some (Some f) ->
  wp (call_syscall fuel esp f (ld32 m (rg_ebx ifr)) (ld32 m (rg_ecx ifr)) (ld32 m (rg_edx ifr)) (ld32 m (rg_esi ifr)) (ld32 m (rg_edi ifr)))
    (fun ret s' => Q tt (set_mem (st32 (mem s') (rg_eax ifr) ret) s')) s ->
  wp (syscall_dispatcher fuel esp r) Q s.
Proof.
  intros m ifr nr Hnr Hf HQ. assert (Hc : (nr <=? 0) || (Z.of_nat (length syscall_table) - 1 <? nr) = false).
  { change (Z.of_nat (length syscall_table) - 1) with 4. apply orb_false_iff. split; [apply Z.leb_gt; lia | apply Z.ltb_ge; lia]. }
  unfold syscall_dispatcher. do 6 mstep. fold m ifr nr. rewrite Hc, Hf. change (default None (Some (Some f))) with (Some f). cbv match. do 10 mstep. fold m. wp_step.
  eapply wp_mono; [exact HQ|]. intros ret s' HQ'. mstep. exact HQ'.
Qed.

End syscall_specs.
