(* ===== verification/Asm.v ===== *)
(** * The processor, as the assembly files use it

    An interpreter for the instructions of cpu/interrupt.asm,
    sys/context_switch.asm, sys/usermode.asm, entry.asm and userland/start.asm:
    registers, the stack in memory, flags, the delivery of an interrupt and
    [iret], as the manual of the processor describes them for flat segments in
    32-bit protected mode.  A program is a list of instructions with the labels
    between them; the C functions it calls are parameters.  The programs
    themselves are in Stubs.v. *)

From S2P Require Export Memory.

(** ** Registers *)

Inductive reg := EAX | ECX | EDX | EBX | ESP | EBP | ESI | EDI.
Inductive seg := ES | CS | SS | DS | FS | GS.
Inductive creg := CR0 | CR3 | CR4.

(** The numbers of the registers in the encoding of the instructions. *)
Definition reg_num (r : reg) : Z :=
  match r with EAX => 0 | ECX => 1 | EDX => 2 | EBX => 3 | ESP => 4 | EBP => 5 | ESI => 6 | EDI => 7 end.
Definition seg_num (r : seg) : Z :=
  match r with ES => 0 | CS => 1 | SS => 2 | DS => 3 | FS => 4 | GS => 5 end.
Definition creg_num (r : creg) : Z := match r with CR0 => 0 | CR3 => 3 | CR4 => 4 end.

#[export] Instance reg_eq_dec : EqDecision reg.
Proof. solve_decision. Defined.
#[export] Instance seg_eq_dec : EqDecision seg.
Proof. solve_decision. Defined.

Record proc := Proc {
  gp : reg -> Z;
  sg : seg -> Z;
  crg : creg -> Z;
  eflags : Z;
  eip : Z;
  p_mem : memory;
}.

Definition reg_upd (r : reg) (v : Z) (g : reg -> Z) (r' : reg) : Z := if reg_num r =? reg_num r' then v else g r'.
Definition seg_upd (r : seg) (v : Z) (g : seg -> Z) (r' : seg) : Z := if seg_num r =? seg_num r' then v else g r'.
Definition creg_upd (r : creg) (v : Z) (g : creg -> Z) (r' : creg) : Z := if creg_num r =? creg_num r' then v else g r'.

Definition set_gp (r : reg) (v : Z) (s : proc) : proc := Proc (reg_upd r v (gp s)) (sg s) (crg s) (eflags s) (eip s) (p_mem s).
Definition set_sg (r : seg) (v : Z) (s : proc) : proc :=
  Proc (gp s) (seg_upd r v (sg s)) (crg s) (eflags s) (eip s) (p_mem s).
Definition set_crg (r : creg) (v : Z) (s : proc) : proc :=
  Proc (gp s) (sg s) (creg_upd r v (crg s)) (eflags s) (eip s) (p_mem s).
Definition set_eflags (v : Z) (s : proc) : proc := Proc (gp s) (sg s) (crg s) v (eip s) (p_mem s).
Definition set_eip (v : Z) (s : proc) : proc := Proc (gp s) (sg s) (crg s) (eflags s) v (p_mem s).

#[export] Instance HasMem_proc : HasMem proc :=
  {| mem := p_mem; set_mem m s := Proc (gp s) (sg s) (crg s) (eflags s) (eip s) m |}.
#[export] Instance MemLaws_proc : MemLaws proc.
Proof. split; by intros; destruct s. Qed.

Lemma proc_eta s : s = Proc (gp s) (sg s) (crg s) (eflags s) (eip s) (p_mem s).
Proof. by destruct s. Qed.

Lemma wp_eta {A} (c : M proc A) (Q : A -> proc -> Prop) s :
  wp c Q (Proc (gp s) (sg s) (crg s) (eflags s) (eip s) (p_mem s)) -> wp c Q s.
Proof. by rewrite <- proc_eta. Qed.

(** The registers hold values of their width. *)
Record proc_ok (s : proc) : Prop := {
  ok_gp r : 0 <= gp s r < 4294967296;
  ok_sg r : 0 <= sg s r < 65536;
  ok_flags : 0 <= eflags s < 4294967296;
  ok_eip : 0 <= eip s < 4294967296;
}.

(** The current privilege level. *)
Definition cpl (s : proc) : Z := Z.land (sg s CS) 3.

(** ** Flags *)

Definition IF_BIT : Z := 9.
Definition DF_BIT : Z := 10.

(** Carry, parity, auxiliary carry, zero, sign and overflow. *)
Definition STATUS_FLAGS : Z := 0x8d5.

(** What an interrupt gate clears: trap, interrupt, nested task, resume and
    virtual-8086 flags. *)
Definition GATE_CLEARS : Z := 0x34300.

(** The resume and virtual-8086 flags, which [pushfd] does not store. *)
Definition PUSHF_CLEARS : Z := 0x30000.

Definition flag (b : bool) (i : Z) : Z := if b then 2 ^ i else 0.

Definition even_parity (v : Z) : bool :=
  negb (foldr (fun i => xorb (Z.testbit v i)) false [0; 1; 2; 3; 4; 5; 6; 7]).

Definition with_status (fl : Z) (cf af ovf : bool) (res : Z) : Z :=
  Z.lor (Z.ldiff fl STATUS_FLAGS)
    (flag cf 0 + flag (even_parity res) 2 + flag af 4 + flag (res =? 0) 6 + flag (Z.testbit res 31) 7 + flag ovf 11).

(** What the manual leaves open: whether a push of a segment register clears the
    upper half of the word or leaves it, and the auxiliary carry after [or]; the
    privilege level of a selector's descriptor; and the ring 0 stack in the task
    state segment. *)
Class Processor := {
  seg_push_clears : bool;
  or_aux : Z -> bool;
  dpl : Z -> Z;
  tss_ss0 : Z;
  tss_esp0 : Z;
}.

(** ** Instructions *)

Inductive operand := Imm (v : Z) | Reg (r : reg) | At (base : reg) (disp : Z) | Abs (a : Z).

(** [n] in the low half of [v]. *)
Definition mov16 (v n : Z) : Z := v - u16 v + n.

Lemma u16_mov16 v n : 0 <= n < 65536 -> u16 (mov16 v n) = n.
Proof. unfold mov16, u16. intros. word_lia. Qed.

(** [Label] stands for the definition of a label, [Mov16] for a move to the low half
    of a register, [Call] for a call of a C function. *)
Inductive instr (L : Type) :=
  | Label (l : L)
  | Push (o : operand) | PushSeg (r : seg) | Pop (r : reg) | PopSeg (r : seg)
  | Pusha | Popa | Pushf
  | Mov (r : reg) (o : operand) | Mov16 (r : reg) (v : Z) | Store (o : operand) (r : reg)
  | MovSeg (r : seg) (v : reg) | ReadCr (r : reg) (c : creg) | WriteCr (c : creg) (r : reg)
  | Lea (r : reg) (l : L)
  | Add (r : reg) (v : Z) | Sub (r : reg) (v : Z) | Or (r : reg) (v : Z)
  | Cli | Cld | Invlpg (a : Z) | Hlt
  | Jmp (l : L) | JmpReg (r : reg) | Call (f : string) | Ret | Iret.
Arguments Label {L} l.
Arguments Push {L} o.
Arguments PushSeg {L} r.
Arguments Pop {L} r.
Arguments PopSeg {L} r.
Arguments Pusha {L}.
Arguments Popa {L}.
Arguments Pushf {L}.
Arguments Mov {L} r o.
Arguments Mov16 {L} r v.
Arguments Store {L} o r.
Arguments MovSeg {L} r v.
Arguments ReadCr {L} r c.
Arguments WriteCr {L} c r.
Arguments Lea {L} r l.
Arguments Add {L} r v.
Arguments Sub {L} r v.
Arguments Or {L} r v.
Arguments Cli {L}.
Arguments Cld {L}.
Arguments Invlpg {L} a.
Arguments Hlt {L}.
Arguments Jmp {L} l.
Arguments JmpReg {L} r.
Arguments Call {L} f.
Arguments Ret {L}.
Arguments Iret {L}.

Notation program L := (list (instr L)).

(** How a run ends: control leaves the program through [ret] or [iret] to the
    address in [eip], or the processor halts. *)
Inductive ending := Leaves | Halts.

(** Where control goes after one instruction. *)
Inductive next (L : Type) := Falls | Goes (l : L) | Ends (e : ending).
Arguments Falls {L}.
Arguments Goes {L} l.
Arguments Ends {L} e.

Section machine.
Context `{!Processor}.

(** *** The stack *)

Definition push32 (v : Z) : M proc unit :=
  sp ← gets (fun s => gp s ESP);
  modify (set_gp ESP (sp -32 4));;
  store32 (sp -32 4) v.

Definition push_seg (v : Z) : M proc unit :=
  sp ← gets (fun s => gp s ESP);
  modify (set_gp ESP (sp -32 4));;
  if seg_push_clears then store32 (sp -32 4) v else store16 (sp -32 4) v.

Definition pop32 : M proc Z :=
  sp ← gets (fun s => gp s ESP);
  v ← load32 sp;
  modify (set_gp ESP (sp +32 4));;
  mret v.

Definition pop_seg : M proc Z :=
  sp ← gets (fun s => gp s ESP);
  v ← load16 sp;
  modify (set_gp ESP (sp +32 4));;
  mret v.

Definition operand_value (o : operand) : M proc Z :=
  match o with
  | Imm v => mret (u32 v)
  | Reg r => gets (fun s => gp s r)
  | At base disp => b ← gets (fun s => gp s base); load32 (b +32 disp)
  | Abs a => load32 a
  end.

Definition store_to (o : operand) (v : Z) : M proc unit :=
  match o with
  | At base disp => b ← gets (fun s => gp s base); store32 (b +32 disp) v
  | Abs a => store32 a v
  | _ => panic "not a memory operand"
  end.

(** [pusha] and [popa], which pushes the stack pointer from before and drops it. *)
Definition pusha : M proc unit :=
  sp ← gets (fun s => gp s ESP);
  s ← gets (fun s => gp s);
  push32 (s EAX);; push32 (s ECX);; push32 (s EDX);; push32 (s EBX);;
  push32 sp;; push32 (s EBP);; push32 (s ESI);; push32 (s EDI).

Definition pop_reg (r : reg) : M proc unit := v ← pop32; modify (set_gp r v).

Definition popa : M proc unit :=
  pop_reg EDI;; pop_reg ESI;; pop_reg EBP;; pop32;;
  pop_reg EBX;; pop_reg EDX;; pop_reg ECX;; pop_reg EAX.

(** *** Interrupts *)

(** On the way to a less privileged level a data segment register with a more
    privileged descriptor becomes null. *)
Definition drop_seg (level : Z) (r : seg) : M proc unit :=
  v ← gets (fun s => sg s r);
  if negb (v =? 0) && (dpl v <? level) then modify (set_sg r 0) else mret tt.

Definition iret : M proc unit :=
  level ← gets cpl;
  ip ← pop32;
  cs ← pop_seg;
  fl ← pop32;
  let to := Z.land cs 3 in
  if to <? level then panic "general protection"
  else if level <? to then
    sp ← pop32;
    ss ← pop_seg;
    modify (set_sg CS cs);; modify (set_sg SS ss);; modify (set_gp ESP sp);;
    modify (set_eflags fl);; modify (set_eip ip);;
    drop_seg to ES;; drop_seg to DS;; drop_seg to FS;; drop_seg to GS
  else modify (set_sg CS cs);; modify (set_eflags fl);; modify (set_eip ip).

(** The delivery of an interrupt through a gate of ring 0 with the given selector
    and offset; some exceptions come with an error code. *)
Definition deliver (error : option Z) (selector offset : Z) : M proc unit :=
  level ← gets cpl;
  fl ← gets eflags;
  ip ← gets eip;
  cs ← gets (fun s => sg s CS);
  (if 0 <? level then
     sp ← gets (fun s => gp s ESP);
     ss ← gets (fun s => sg s SS);
     modify (set_sg SS tss_ss0);; modify (set_gp ESP tss_esp0);;
     push_seg ss;; push32 sp
   else mret tt);;
  push32 fl;; push_seg cs;; push32 ip;;
  match error with Some e => push32 e | None => mret tt end;;
  modify (set_eflags (Z.ldiff fl GATE_CLEARS));;
  modify (set_sg CS selector);;
  modify (set_eip offset).

(** *** Programs *)

Section programs.
Context {L : Type} `{!EqDecision L}.

(** The addresses of the labels and of the instructions; the C functions. *)
Context (label_address : L -> Z) (address : nat -> Z) (c_function : string -> M proc unit).

(** The position of a label. *)
Fixpoint position (l : L) (p : program L) : option nat :=
  match p with
  | [] => None
  | i :: p' =>
      if match i with Label l' => bool_decide (l = l') | _ => false end then Some O
      else Datatypes.S <$> position l p'
  end.

(** The label at an address. *)
Fixpoint label_at (a : Z) (p : program L) : option L :=
  match p with
  | [] => None
  | Label l :: p' => if label_address l =? a then Some l else label_at a p'
  | _ :: p' => label_at a p'
  end.

(** The effect of the instruction at position [pc] of [p]. *)
Definition exec (p : program L) (pc : nat) (i : instr L) : M proc (next L) :=
  match i with
  | Label _ => mret Falls
  | Push o => v ← operand_value o; push32 v;; mret Falls
  | PushSeg r => v ← gets (fun s => sg s r); push_seg v;; mret Falls
  | Pop r => pop_reg r;; mret Falls
  | PopSeg r => v ← pop_seg; modify (set_sg r v);; mret Falls
  | Pusha => pusha;; mret Falls
  | Popa => popa;; mret Falls
  | Pushf => v ← gets eflags; push32 (Z.ldiff v PUSHF_CLEARS);; mret Falls
  | Mov r o => v ← operand_value o; modify (set_gp r v);; mret Falls
  | Mov16 r n => v ← gets (fun s => gp s r); modify (set_gp r (mov16 v n));; mret Falls
  | Store o r => v ← gets (fun s => gp s r); store_to o v;; mret Falls
  | MovSeg r v => x ← gets (fun s => gp s v); modify (set_sg r (u16 x));; mret Falls
  | ReadCr r c => v ← gets (fun s => crg s c); modify (set_gp r v);; mret Falls
  | WriteCr c r => v ← gets (fun s => gp s r); modify (set_crg c v);; mret Falls
  | Lea r l => modify (set_gp r (label_address l));; mret Falls
  | Add r v =>
      x ← gets (fun s => gp s r);
      let res := x +32 v in
      modify (fun s => set_eflags (with_status (eflags s) (4294967296 <=? x + v) (16 <=? x mod 16 + v mod 16)
        (negb (s32 x + s32 v =? s32 res)) res) s);;
      modify (set_gp r res);; mret Falls
  | Sub r v =>
      x ← gets (fun s => gp s r);
      let res := x -32 v in
      modify (fun s => set_eflags (with_status (eflags s) (x <? v) (x mod 16 <? v mod 16)
        (negb (s32 x - s32 v =? s32 res)) res) s);;
      modify (set_gp r res);; mret Falls
  | Or r v =>
      x ← gets (fun s => gp s r);
      let res := Z.lor x v in
      modify (fun s => set_eflags (with_status (eflags s) false (or_aux x) false res) s);;
      modify (set_gp r res);; mret Falls
  | Cli => modify (fun s => set_eflags (Z.ldiff (eflags s) (2 ^ IF_BIT)) s);; mret Falls
  | Cld => modify (fun s => set_eflags (Z.ldiff (eflags s) (2 ^ DF_BIT)) s);; mret Falls
  | Invlpg _ => mret Falls
  | Hlt => mret (Ends Halts)
  | Jmp l => mret (Goes l)
  | JmpReg r =>
      a ← gets (fun s => gp s r);
      match label_at a p with Some l => mret (Goes l) | None => modify (set_eip a);; mret (Ends Leaves) end
  | Call f =>
      push32 (address (Datatypes.S pc));;
      c_function f;;
      a ← pop32;
      if a =? u32 (address (Datatypes.S pc)) then mret Falls else modify (set_eip a);; mret (Ends Leaves)
  | Ret => a ← pop32; modify (set_eip a);; mret (Ends Leaves)
  | Iret => iret;; mret (Ends Leaves)
  end.

(** At most [fuel] instructions of [p] from position [pc] on. *)
Fixpoint run (fuel : nat) (p : program L) (pc : nat) : M proc ending :=
  match fuel with
  | O => out_of_fuel
  | Datatypes.S fuel' =>
      match p !! pc with
      | None => panic "control runs off the program"
      | Some i =>
          n ← exec p pc i;
          match n with
          | Falls => run fuel' p (Datatypes.S pc)
          | Goes l => match position l p with Some pc' => run fuel' p pc' | None => panic "no such label" end
          | Ends e => mret e
          end
      end
  end.

(** A run from a label. *)
Definition run_from (fuel : nat) (p : program L) (l : L) : M proc ending :=
  match position l p with Some pc => run fuel p pc | None => panic "no such label" end.
End programs.
End machine.

(** ** Symbolic execution *)

(** The part [c] of a program at position [pc]. *)
Definition code_at {L} (p : program L) (pc : nat) (c : program L) : Prop :=
  forall i x, c !! i = Some x -> p !! (i + pc)%nat = Some x.

Lemma code_at_tail {L} (p : program L) pc i c : code_at p pc (i :: c) -> code_at p (Datatypes.S pc) c.
Proof. intros Hc j x Hj. rewrite <- (Hc (Datatypes.S j) x Hj). f_equal. lia. Qed.

(** Consecutive words in memory. *)
Fixpoint words (m : memory) (a : Z) (ws : list Z) : Prop :=
  match ws with
  | [] => True
  | w :: ws' => ld32 m a = w /\ words m (a + 4) ws'
  end.

Lemma words_below m a ws m' : (forall b, a <= b -> ld8 m' b = ld8 m b) -> words m a ws -> words m' a ws.
Proof.
  revert a. induction ws as [|w ws IH]; intros a Hm Hw; [done|]. destruct Hw as [Hw Hws]. split.
  - rewrite <- Hw. apply ld32_ext. intros b Hb. apply Hm. lia.
  - apply IH; [|exact Hws]. intros b Hb. apply Hm. lia.
Qed.

(** A stack between [lo] and [top] that was empty in the memory [m0]: it holds [ws]
    from the stack pointer up, and memory outside of it is that of [m0]. *)
Record stk (m0 : memory) (lo top : Z) (m : memory) (sp : Z) (ws : list Z) : Prop := {
  stk_bounds : 0 <= lo /\ lo <= sp /\ sp + 4 * Z.of_nat (length ws) = top /\ top < 4294967296;
  stk_words : words m sp ws;
  stk_rest a : a < lo \/ top <= a -> ld8 m a = ld8 m0 a;
}.

Lemma stk_empty m lo top : 0 <= lo <= top -> top < 4294967296 -> stk m lo top m top [].
Proof. intros. split; [simpl; lia | done | done]. Qed.

Lemma stk_push m0 lo top m sp ws m' w :
  stk m0 lo top m sp ws -> lo + 4 <= sp -> ld32 m' (sp - 4) = w ->
  (forall a, a < sp - 4 \/ sp <= a -> ld8 m' a = ld8 m a) -> stk m0 lo top m' (sp - 4) (w :: ws).
Proof.
  intros [Hb Hw Hr] Hlo Hv Hm. split.
  - cbn [length]. lia.
  - split; [exact Hv|]. replace (sp - 4 + 4) with sp by lia. eapply words_below; [|exact Hw]. intros b Hb'. apply Hm. lia.
  - intros a Ha. rewrite Hm by lia. by apply Hr.
Qed.

Lemma stk_pop m0 lo top m sp w ws : stk m0 lo top m sp (w :: ws) -> stk m0 lo top m (sp + 4) ws /\ ld32 m sp = w /\ sp + 4 < 4294967296.
Proof. intros [Hb [Hw Hws] Hr]. cbn [length] in Hb. split_and!; [split; [lia | done | done] | done | lia]. Qed.

Lemma ld16_ld32 m a : ld16 m a = ld32 m a mod 65536.
Proof.
  unfold ld16, ld32. pose proof (ld8_range m a). pose proof (ld8_range m (a + 1)).
  pose proof (ld8_range m (a + 2)). pose proof (ld8_range m (a + 3)). Z.div_mod_to_equations. lia.
Qed.

(** Evaluates registers in the goal. *)
Ltac reg_simpl :=
  cbv beta delta [set_gp set_sg set_crg set_eflags set_eip];
  cbn [mem set_mem HasMem_proc reg_upd seg_upd creg_upd reg_num seg_num creg_num Z.eqb Pos.eqb];
  repeat match goal with
  | |- context [gp (Proc ?g ?x ?c ?f ?i ?m)] => change (gp (Proc g x c f i m)) with g
  | |- context [sg (Proc ?g ?x ?c ?f ?i ?m)] => change (sg (Proc g x c f i m)) with x
  | |- context [crg (Proc ?g ?x ?c ?f ?i ?m)] => change (crg (Proc g x c f i m)) with c
  | |- context [eflags (Proc ?g ?x ?c ?f ?i ?m)] => change (eflags (Proc g x c f i m)) with f
  | |- context [eip (Proc ?g ?x ?c ?f ?i ?m)] => change (eip (Proc g x c f i m)) with i
  | |- context [p_mem (Proc ?g ?x ?c ?f ?i ?m)] => change (p_mem (Proc g x c f i m)) with m
  end;
  cbn [reg_upd seg_upd creg_upd reg_num seg_num creg_num Z.eqb Pos.eqb].

Section rules.
Context `{!Processor}.

Lemma wp_push32 v (Q : unit -> proc -> Prop) m0 lo top m sp ws g x c f i :
  stk m0 lo top m sp ws -> g ESP = sp -> lo + 4 <= sp ->
  (forall m', stk m0 lo top m' (sp - 4) (u32 v :: ws) -> Q tt (Proc (reg_upd ESP (sp - 4) g) x c f i m')) ->
  wp (push32 v) Q (Proc g x c f i m).
Proof.
  intros Hst Hsp Hlo HQ. pose proof (stk_bounds _ _ _ _ _ _ Hst). unfold push32. repeat mstep. cbn [gp]. rewrite Hsp.
  rewrite (u32_small (sp - 4)) by lia. apply HQ. eapply stk_push; [exact Hst | exact Hlo | by mem_simpl |].
  intros a Ha. apply ld8_st32_ne. lia.
Qed.

Lemma wp_push_seg v (Q : unit -> proc -> Prop) m0 lo top m sp ws g x c f i :
  stk m0 lo top m sp ws -> g ESP = sp -> lo + 4 <= sp -> 0 <= v < 65536 ->
  (forall w m', w mod 65536 = v -> stk m0 lo top m' (sp - 4) (w :: ws) -> Q tt (Proc (reg_upd ESP (sp - 4) g) x c f i m')) ->
  wp (push_seg v) Q (Proc g x c f i m).
Proof.
  intros Hst Hsp Hlo Hv HQ. pose proof (stk_bounds _ _ _ _ _ _ Hst). unfold push_seg. do 4 mstep. cbn [gp]. rewrite Hsp.
  rewrite (u32_small (sp - 4)) by lia. destruct seg_push_clears; mstep; cbn.
  - eapply (HQ (u32 v)); [rewrite u32_small by lia; by apply Z.mod_small|].
    eapply stk_push; [exact Hst | exact Hlo | by mem_simpl |]. intros a Ha. apply ld8_st32_ne. lia.
  - eapply HQ; [|eapply stk_push; [exact Hst | exact Hlo | reflexivity |]; intros a Ha; apply ld8_st16_ne; lia].
    rewrite <- ld16_ld32, ld16_st16_eq. by rewrite !u16_small by (rewrite ?u16_small; lia).
Qed.

Lemma wp_pop32 (Q : Z -> proc -> Prop) sp g x c f i m :
  g ESP = sp -> 0 <= sp -> sp + 4 < 4294967296 ->
  Q (ld32 m sp) (Proc (reg_upd ESP (sp + 4) g) x c f i m) -> wp pop32 Q (Proc g x c f i m).
Proof. intros Hsp H0 H1 HQ. unfold pop32. repeat mstep. cbn. rewrite Hsp, u32_small by lia. exact HQ. Qed.

Lemma wp_pop_seg (Q : Z -> proc -> Prop) sp g x c f i m :
  g ESP = sp -> 0 <= sp -> sp + 4 < 4294967296 ->
  Q (ld16 m sp) (Proc (reg_upd ESP (sp + 4) g) x c f i m) -> wp pop_seg Q (Proc g x c f i m).
Proof. intros Hsp H0 H1 HQ. unfold pop_seg. repeat mstep. cbn. rewrite Hsp, u32_small by lia. exact HQ. Qed.

End rules.

(** The next push or pop. *)
Ltac push_next :=
  repeat mstep; reg_simpl;
  lazymatch goal with
  | Hst : stk _ _ _ ?m _ _ |- wp (push32 _) _ (Proc _ _ _ _ _ ?m) =>
      let m' := fresh "m" in
      eapply wp_push32; [exact Hst | reg_simpl; first [eassumption | reflexivity] | lia |];
      clear Hst; intros m' Hst; reg_simpl
  | Hst : stk _ _ _ ?m _ _ |- wp (push_seg _) _ (Proc _ _ _ _ _ ?m) =>
      let w := fresh "w" in let Hw := fresh "Hw" in let m' := fresh "m" in
      eapply wp_push_seg; [exact Hst | reg_simpl; first [eassumption | reflexivity] | lia | |];
      [ | clear Hst; intros w m' Hw Hst; reg_simpl]
  end.

Ltac pop_next :=
  repeat mstep; reg_simpl;
  lazymatch goal with
  | |- wp pop32 _ _ => eapply wp_pop32; [reg_simpl; first [eassumption | reflexivity] | lia | lia |]; reg_simpl
  | |- wp pop_seg _ _ => eapply wp_pop_seg; [reg_simpl; first [eassumption | reflexivity] | lia | lia |]; reg_simpl
  end.

Section sequences.
Context `{!Processor}.

Lemma wp_pusha (Q : unit -> proc -> Prop) m0 lo top m sp ws g x c f i :
  stk m0 lo top m sp ws -> g ESP = sp -> lo + 32 <= sp -> (forall r, 0 <= g r < 4294967296) ->
  (forall m' g', g' ESP = sp - 32 -> (forall r, r <> ESP -> g' r = g r) ->
     stk m0 lo top m' (sp - 32) (g EDI :: g ESI :: g EBP :: g ESP :: g EBX :: g EDX :: g ECX :: g EAX :: ws) -> Q tt (Proc g' x c f i m')) ->
  wp pusha Q (Proc g x c f i m).
Proof.
  intros Hst Hsp Hlo Hg HQ. unfold pusha. do 4 mstep. reg_simpl. repeat push_next. apply HQ.
  - reg_simpl. lia.
  - intros r Hr. by destruct r.
  - rewrite !u32_small in Hst by done. by replace (sp - 32) with (sp - 4 - 4 - 4 - 4 - 4 - 4 - 4 - 4) by lia.
Qed.

Lemma wp_popa (Q : unit -> proc -> Prop) sp g x c f i m :
  g ESP = sp -> 0 <= sp -> sp + 32 < 4294967296 ->
  (forall g', g' ESP = sp + 32 -> g' EDI = ld32 m sp -> g' ESI = ld32 m (sp + 4) -> g' EBP = ld32 m (sp + 8) -> g' EBX = ld32 m (sp + 16) ->
     g' EDX = ld32 m (sp + 20) -> g' ECX = ld32 m (sp + 24) -> g' EAX = ld32 m (sp + 28) -> Q tt (Proc g' x c f i m)) ->
  wp popa Q (Proc g x c f i m).
Proof.
  intros Hsp H0 H1 HQ. unfold popa, pop_reg. repeat pop_next. apply HQ; reg_simpl; try (f_equal; lia). lia.
Qed.

Lemma wp_iret_same (Q : unit -> proc -> Prop) sp g x c f i m :
  g ESP = sp -> 0 <= sp -> sp + 12 < 4294967296 -> Z.land (ld16 m (sp + 4)) 3 = Z.land (x CS) 3 ->
  (forall g', g' ESP = sp + 12 -> (forall r, r <> ESP -> g' r = g r) ->
     Q tt (Proc g' (seg_upd CS (ld16 m (sp + 4)) x) c (ld32 m (sp + 8)) (ld32 m sp) m)) ->
  wp iret Q (Proc g x c f i m).
Proof.
  intros Hsp H0 H1 Hcs HQ. unfold iret. mstep. wp_step. wp_step. eapply (wp_pop32 _ sp); [exact Hsp | lia | lia |].
  wp_step. eapply (wp_pop_seg _ (sp + 4)); [done | lia | lia |]. wp_step. eapply (wp_pop32 _ (sp + 4 + 4)); [done | lia | lia |].
  unfold cpl. cbn [sg]. rewrite Hcs, Z.ltb_irrefl. repeat mstep.
  replace (sp + 4 + 4) with (sp + 8) by lia. apply HQ; [cbn; lia|]. intros r Hr. by destruct r.
Qed.

(** Data segment registers that survive the return to a level. *)
Definition survives (level v : Z) : Prop := v = 0 \/ level <= dpl v.

Lemma wp_drop_seg level r (Q : unit -> proc -> Prop) s : survives level (sg s r) -> Q tt s -> wp (drop_seg level r) Q s.
Proof.
  intros Hs HQ. unfold drop_seg. repeat mstep. destruct Hs as [Hs|Hs]; [rewrite Hs; by cbn|].
  rewrite (proj2 (Z.ltb_ge _ _)) by done. rewrite andb_false_r. by mstep.
Qed.

Lemma wp_iret_outer (Q : unit -> proc -> Prop) sp g x c f i m :
  g ESP = sp -> 0 <= sp -> sp + 20 < 4294967296 -> Z.land (x CS) 3 < Z.land (ld16 m (sp + 4)) 3 ->
  (forall r, r ∈ [ES; DS; FS; GS] -> survives (Z.land (ld16 m (sp + 4)) 3) (x r)) ->
  (forall g', g' ESP = ld32 m (sp + 12) -> (forall r, r <> ESP -> g' r = g r) ->
     Q tt (Proc g' (seg_upd SS (ld16 m (sp + 16)) (seg_upd CS (ld16 m (sp + 4)) x)) c (ld32 m (sp + 8)) (ld32 m sp) m)) ->
  wp iret Q (Proc g x c f i m).
Proof.
  intros Hsp H0 H1 Hcs Hds HQ. unfold iret. mstep. wp_step. wp_step. eapply (wp_pop32 _ sp); [exact Hsp | lia | lia |].
  wp_step. eapply (wp_pop_seg _ (sp + 4)); [done | lia | lia |]. wp_step. eapply (wp_pop32 _ (sp + 4 + 4)); [done | lia | lia |].
  unfold cpl. cbn [sg]. rewrite (proj2 (Z.ltb_ge _ _)) by lia. rewrite (proj2 (Z.ltb_lt _ _)) by done.
  wp_step. eapply (wp_pop32 _ (sp + 4 + 4 + 4)); [done | lia | lia |]. wp_step. eapply (wp_pop_seg _ (sp + 4 + 4 + 4 + 4)); [done | lia | lia |].
  replace (sp + 4 + 4 + 4 + 4) with (sp + 16) by lia. replace (sp + 4 + 4 + 4) with (sp + 12) by lia. replace (sp + 4 + 4) with (sp + 8) by lia.
  repeat mstep. reg_simpl. apply wp_drop_seg; [apply (Hds ES); by left|]. wp_step. apply wp_drop_seg; [apply (Hds DS); right; by left|].
  wp_step. apply wp_drop_seg; [apply (Hds FS); do 2 right; by left|]. apply wp_drop_seg; [apply (Hds GS); do 3 right; by left|].
  apply HQ; [done|]. intros r Hr. by destruct r.
Qed.

Section run_rules.
Context {L : Type} `{!EqDecision L} (la : L -> Z) (ad : nat -> Z) (cf : string -> M proc unit).

Lemma wp_run_step fuel p pc i (c : program L) (Q : ending -> proc -> Prop) s :
  code_at p pc (i :: c) ->
  wp (exec la ad cf p pc i) (fun n s' =>
    match n with
    | Falls => code_at p (Datatypes.S pc) c -> wp (run la ad cf fuel p (Datatypes.S pc)) Q s'
    | Goes l => exists pc', position l p = Some pc' /\ wp (run la ad cf fuel p pc') Q s'
    | Ends e => Q e s'
    end) s ->
  wp (run la ad cf (Datatypes.S fuel) p pc) Q s.
Proof.
  intros Hc He. cbn [run]. assert (p !! pc = Some i) as -> by (by apply (Hc 0%nat)). apply wp_bind. eapply wp_mono; [exact He|].
  intros [|l|e] s' Hn.
  - apply Hn. by eapply code_at_tail.
  - destruct Hn as (pc' & -> & Hn). exact Hn.
  - apply wp_ret. exact Hn.
Qed.
End run_rules.
End sequences.

(** Runs the next instruction of the code that the context knows at the position. *)
Ltac asm_next :=
  lazymatch goal with
  | Hc : code_at ?p ?pc _ |- wp (run _ _ _ _ ?p ?pc) _ _ =>
      eapply wp_run_step; [exact Hc|]; clear Hc; cbn [exec operand_value store_to]; cbv beta delta [pop_reg]; repeat mstep
  end.
