(* ===== verification/Stubs.v ===== *)
(** * The assembly files of the kernel

    cpu/interrupt.asm, sys/context_switch.asm, sys/usermode.asm, entry.asm and
    userland/start.asm as programs of the processor of Asm.v, line by line. *)

From S2P Require Export Task Asm.

Inductive label :=
  | isr (n : Z) | irq (n : Z) | handle_isr_common | handle_irq_common
  | context_switch_asm | switch_to_user | start | higher_half | end_loop | user_start.

#[export] Instance label_eq_dec : EqDecision label.
Proof. solve_decision. Defined.

(** ** cpu/interrupt.asm *)

Definition ISR_ERROR_CODE (n : Z) : program label :=
  [Label (isr n); Push (Imm n); Jmp handle_isr_common].

Definition ISR_NO_ERROR_CODE (n : Z) : program label :=
  [Label (isr n); Push (Imm 0); Push (Imm n); Jmp handle_isr_common].

Definition IRQ (n v : Z) : program label :=
  [Label (irq n); Push (Imm 0); Push (Imm v); Jmp handle_irq_common].

(** The part both kinds of stubs share but for the function they call, whose
    address [f] they also load. *)
Definition common (l : label) (name : string) (f : Z) : program label :=
  [Label l; Pusha; PushSeg DS; PushSeg ES; PushSeg FS; PushSeg GS;
   Mov16 EAX 0x10; MovSeg DS EAX; MovSeg ES EAX; MovSeg FS EAX; MovSeg GS EAX;
   Mov EAX (Reg ESP); Push (Reg EAX);
   Mov EAX (Imm f); Call name;
   Pop EAX; PopSeg GS; PopSeg FS; PopSeg ES; PopSeg DS; Popa; Add ESP 8; Iret].

Definition error_code_stubs : list Z := [8; 10; 11; 12; 13; 14].
Definition isr_stubs : list Z := seqZ 0 32 ++ [127].
Definition irq_stubs : list Z := seqZ 0 16.

Definition isr_stub (n : Z) : program label :=
  if bool_decide (n ∈ error_code_stubs) then ISR_ERROR_CODE n else ISR_NO_ERROR_CODE n.

Definition interrupt_asm (isr_handler_at irq_handler_at : Z) : program label :=
  (isr_stubs ≫= isr_stub) ++ (irq_stubs ≫= fun n => IRQ n (32 + n)) ++
  common handle_isr_common "isr_handler" isr_handler_at ++
  common handle_irq_common "irq_handler" irq_handler_at.

(** ** sys/context_switch.asm *)

Definition context_switch_program `{!TaskGlobals} : program label :=
  [Label context_switch_asm; Pop EAX; Pushf; Push (Reg EAX);
   Push (Reg EBP); Push (Reg EDI); Push (Reg ESI); Push (Reg EBX);
   Cli;
   Mov EAX (Abs current_task); Store (At EAX 0) ESP;
   Mov EAX (At ESP 24); Store (Abs current_task) EAX;
   Mov ESP (At EAX 0);
   Pop EBX; Pop ESI; Pop EDI; Pop EBP;
   Pop EAX; PushSeg CS; Push (Reg EAX); Iret].

(** ** sys/usermode.asm *)

Definition usermode_asm : program label :=
  [Label switch_to_user; Cli;
   Mov16 EAX 0x23; MovSeg DS EAX; MovSeg ES EAX; MovSeg FS EAX; MovSeg GS EAX;
   Mov EAX (At ESP 4);
   Sub EAX 4; Mov EBX (At ESP 12); Store (At EAX 0) EBX;
   Mov EBX (At ESP 4);
   Push (Imm 0x23); Push (Reg EAX); Pushf;
   Pop EAX; Or EAX 0x200; Push (Reg EAX);
   Push (Imm 0x1b); Push (Reg EBX); Iret].

(** ** entry.asm *)

Definition KERNEL_VIRTUAL_BASE : Z := 0xc0000000.
Definition KERNEL_PAGE_NUMBER : Z := Z.shiftr KERNEL_VIRTUAL_BASE 22.

(** The header as words; its two 16-bit fields are 0. *)
Definition header_length : Z := 24.
Definition multiboot2_header : list Z :=
  [0xe85250d6; 0; header_length; u32 (- (0xe85250d6 + 0 + header_length)); 0; 8].

Definition boot_page_dir_words : list Z :=
  [0x83] ++ replicate (Z.to_nat (KERNEL_PAGE_NUMBER - 1)) 0 ++ [0x83] ++
  replicate (Z.to_nat (1024 - KERNEL_PAGE_NUMBER - 1)) 0.

Definition entry_asm (boot_page_dir stack_top : Z) : program label :=
  [Label start;
   Mov ECX (Imm (boot_page_dir - KERNEL_VIRTUAL_BASE)); WriteCr CR3 ECX;
   ReadCr ECX CR4; Or ECX 0x10; WriteCr CR4 ECX;
   ReadCr ECX CR0; Or ECX 0x80000000; WriteCr CR0 ECX;
   Lea ECX higher_half; JmpReg ECX;
   Label higher_half; Cli; Cld; Invlpg 0;
   Mov ESP (Imm stack_top);
   Add EBX KERNEL_VIRTUAL_BASE; Push (Reg EBX); Push (Reg EAX);
   Call "kernel_main"; Cli;
   Label end_loop; Hlt; Jmp end_loop].

(** ** userland/start.asm and init.c *)

Definition start_asm : program label :=
  [Label user_start; Pop EAX; Pop EBX; Pop ECX; Push (Reg ECX); Push (Reg EBX); Push (Reg EAX);
   Call "main"; Ret].

(** The program of init.c: an endless loop. *)
Fixpoint init_main {S} (fuel : nat) : M S Z :=
  match fuel with O => out_of_fuel | Datatypes.S fuel' => init_main fuel' end.
