(* ===== verification/IntStub.v ===== *)
(** * cpu/interrupt.asm: the interrupt stubs

    What the stubs of interrupt.asm hand to the C handlers and what they restore
    after them: the frame on the stack is the structure [regs_t] of
    include/system.h, filled with the registers of the interrupted code, and the
    code resumes with the registers the frame holds when the handler returns. *)

From S2P Require Export Syscall Stubs.

(** ** The structure [regs_t] *)

Definition rg_gs (r : Z) : Z := r.
Definition rg_fs (r : Z) : Z := r + 4.
Definition rg_es (r : Z) : Z := r + 8.
Definition rg_ds (r : Z) : Z := r + 12.
Definition rg_ebp (r : Z) : Z := r + 24.
Definition rg_esp (r : Z) : Z := r + 28.
Definition rg_int_no (r : Z) : Z := r + 48.
Definition rg_err_code (r : Z) : Z := r + 52.
Definition rg_eip (r : Z) : Z := r + 56.
Definition rg_cs (r : Z) : Z := r + 60.
Definition rg_eflags (r : Z) : Z := r + 64.
Definition rg_useresp (r : Z) : Z := r + 68.
Definition rg_ss (r : Z) : Z := r + 72.

(** The frame at [r] holds the registers of [s]. *)
Record frame_of (s : proc) (m : memory) (r : Z) : Prop := {
  fr_segs : ld16 m (rg_gs r) = sg s GS /\ ld16 m (rg_fs r) = sg s FS /\ ld16 m (rg_es r) = sg s ES /\ ld16 m (rg_ds r) = sg s DS;
  fr_gp : ld32 m (rg_edi r) = gp s EDI /\ ld32 m (rg_esi r) = gp s ESI /\ ld32 m (rg_ebp r) = gp s EBP /\ ld32 m (rg_ebx r) = gp s EBX /\
          ld32 m (rg_edx r) = gp s EDX /\ ld32 m (rg_ecx r) = gp s ECX /\ ld32 m (rg_eax r) = gp s EAX;
  fr_return : ld32 m (rg_eip r) = eip s /\ ld16 m (rg_cs r) = sg s CS /\ ld32 m (rg_eflags r) = eflags s;
  fr_user : 0 < cpl s -> ld32 m (rg_useresp r) = gp s ESP /\ ld16 m (rg_ss r) = sg s SS;
}.

(** Finds a word of the frame among the words of the stack. *)
Ltac from_words :=
  unfold rg_gs, rg_fs, rg_es, rg_ds, rg_edi, rg_esi, rg_ebp, rg_ebx, rg_edx, rg_ecx, rg_eax, rg_int_no, rg_err_code, rg_eip, rg_cs,
    rg_eflags, rg_useresp, rg_ss;
  match goal with
  | Hk : ld32 ?m ?a = ?k |- ld32 ?m ?b = ?k => replace b with a by lia; exact Hk
  | Hk : ld32 ?m ?a = ?w, Hq : ?w mod 65536 = ?q |- ld16 ?m ?b = ?q => replace b with a by lia; rewrite ld16_ld32, Hk; exact Hq
  end.

Section stubs.
Context `{!Processor}.
Context (la : label -> Z) (ad : nat -> Z) (cf : string -> M proc unit).

(** The top of the stack the interrupt uses, and the place of its frame. *)
Definition kernel_stack (s : proc) : Z := if 0 <? cpl s then tss_esp0 else gp s ESP.
Definition stack_segment (s : proc) : Z := if 0 <? cpl s then tss_ss0 else sg s SS.
Definition frame_at (s : proc) : Z := kernel_stack s - (if 0 <? cpl s then SIZEOF_REGS else SIZEOF_REGS - 8).

(** The state in which the handler starts, with its argument on the stack. *)
Record handler_entry (s : proc) (v e : Z) (s1 : proc) : Prop := {
  he_sp : gp s1 ESP = frame_at s - 8;
  he_arg : ld32 (mem s1) (frame_at s - 4) = frame_at s;
  he_frame : frame_of s (mem s1) (frame_at s);
  he_vector : ld32 (mem s1) (rg_int_no (frame_at s)) = v /\ ld32 (mem s1) (rg_err_code (frame_at s)) = e;
  he_segs : sg s1 CS = 0x08 /\ sg s1 SS = stack_segment s /\ forall r, r ∈ [DS; ES; FS; GS] -> sg s1 r = 0x10;
  he_memory a : a < frame_at s - 8 \/ kernel_stack s <= a -> ld8 (mem s1) a = ld8 (mem s) a;
}.

(** What the stub needs of a handler that leaves memory with [P]: it returns with
    the stack pointer, the code and stack segments and its return address as they
    were. *)
Definition handler_returns (h : M proc unit) (s : proc) (v e : Z) (P : memory -> Prop) : Prop :=
  forall s1, handler_entry s v e s1 ->
    wp h (fun _ s2 => gp s2 ESP = gp s1 ESP /\ (sg s2 CS = sg s1 CS /\ sg s2 SS = sg s1 SS) /\
      ld32 (mem s2) (gp s1 ESP) = ld32 (mem s1) (gp s1 ESP) /\ P (mem s2)) s1.

(** The level to which the frame returns is that of [s], with data segments it may
    use. *)
Definition returns_to_level (s : proc) (m : memory) : Prop :=
  Z.land (ld16 m (rg_cs (frame_at s))) 3 = cpl s /\
  (0 < cpl s -> forall f, f ∈ [rg_gs; rg_fs; rg_es; rg_ds] -> survives (cpl s) (ld16 m (f (frame_at s)))).

(** [s3] has the registers of the frame of [s] in memory, and the stack below it is
    released. *)
Record resumed (s s3 : proc) : Prop := {
  rs_frame : frame_of s3 (mem s3) (frame_at s);
  rs_level : cpl s3 = cpl s;
  rs_stack : cpl s = 0 -> gp s3 ESP = kernel_stack s /\ sg s3 SS = sg s SS;
}.

(** ** The common part *)

(** The stack when the common part starts. *)
Definition stub_words (s : proc) (ws : list Z) (v e csw : Z) (uw : list Z) : Prop :=
  ws = v :: e :: eip s :: csw :: eflags s :: uw /\ csw mod 65536 = sg s CS /\
  (if 0 <? cpl s then exists ssw, uw = [gp s ESP; ssw] /\ ssw mod 65536 = sg s SS else uw = []).

(** What is below the call in the common part. *)
Definition common_tail : program label :=
  [Pop EAX; PopSeg GS; PopSeg FS; PopSeg ES; PopSeg DS; Popa; Add ESP 8; Iret].

Definition data_segs : list seg := [DS; ES; FS; GS].

Lemma wp_common_call fuel p pc l name fa s lo ws v e csw uw g x c f i m (Q : ending -> proc -> Prop) :
  code_at p pc (common l name fa) -> proc_ok s -> 0 <= v < 4294967296 -> 0 <= e < 4294967296 ->
  stub_words s ws v e csw uw -> stk (mem s) lo (kernel_stack s) m (frame_at s + 48) ws -> lo + 8 <= frame_at s ->
  g ESP = frame_at s + 48 -> (forall r, r <> ESP -> g r = gp s r) ->
  (forall r, r ∈ data_segs -> x r = sg s r) -> x CS = 0x08 -> x SS = stack_segment s ->
  (forall pc' s1 gw fw ew dw spw, code_at p pc' (Call name :: common_tail) ->
     gp s1 ESP = frame_at s - 4 -> sg s1 CS = 0x08 -> sg s1 SS = stack_segment s -> (forall r, r ∈ data_segs -> sg s1 r = 0x10) ->
     gw mod 65536 = sg s GS -> fw mod 65536 = sg s FS -> ew mod 65536 = sg s ES -> dw mod 65536 = sg s DS ->
     stk (mem s) lo (kernel_stack s) (mem s1) (frame_at s - 4)
       (frame_at s :: gw :: fw :: ew :: dw :: gp s EDI :: gp s ESI :: gp s EBP :: spw :: gp s EBX :: gp s EDX :: gp s ECX :: gp s EAX :: ws) ->
     wp (run la ad cf fuel p pc') Q s1) ->
  wp (run la ad cf (14 + fuel) p pc) Q (Proc g x c f i m).
Proof.
  intros Hc Hs Hv He Hws Hst Hlo Hsp Hg Hx Hcs Hss HQ. pose proof (ok_gp _ Hs) as Hgp. pose proof (ok_sg _ Hs) as Hsg.
  set (r := frame_at s) in *. set (K := kernel_stack s) in *. pose proof (stk_bounds _ _ _ _ _ _ Hst) as Hb. cbn [plus].
  asm_next. intros Hc. asm_next.
  eapply wp_pusha; [exact Hst | exact Hsp | lia | intros q; destruct (decide (q = ESP)) as [->|Hq]; [lia | rewrite Hg by done; apply Hgp] |].
  clear Hst. intros m1 g1 Hsp1 Hg1 Hst. rewrite (Hg EDI), (Hg ESI), (Hg EBP), (Hg EBX), (Hg EDX), (Hg ECX), (Hg EAX) in Hst by done. mstep. intros Hc.
  do 4 (asm_next; push_next; [rewrite Hx by (unfold data_segs; elem); apply Hsg|]; mstep; intros Hc).
  do 6 (asm_next; reg_simpl; intros Hc).
  asm_next; reg_simpl. push_next. mstep. intros Hc. asm_next; reg_simpl. intros Hc.
  replace (r + 48 - 32 - 4 - 4 - 4 - 4) with r in Hst by lia. rewrite (u32_small r) in Hst by (pose proof (stk_bounds _ _ _ _ _ _ Hst); lia).
  assert (Hd : forall q, q ∈ data_segs -> x q = sg s q) by exact Hx. unfold data_segs in Hd.
  eapply (HQ _ _ w2 w1 w0 w (g ESP)); [exact Hc | reg_simpl; lia | exact Hcs | exact Hss | | rewrite <- Hd by elem.. |]; try done.
  intros q Hq. unfold data_segs in Hq. rewrite !elem_of_cons, elem_of_nil in Hq.
  destruct Hq as [->|[->|[->|[->|[]]]]]; by apply u16_mov16.
Qed.

Lemma handler_entry_intro s v e lo ws csw uw ret gw fw ew dw spw s1 :
  stub_words s ws v e csw uw -> gw mod 65536 = sg s GS -> fw mod 65536 = sg s FS -> ew mod 65536 = sg s ES -> dw mod 65536 = sg s DS ->
  lo + 8 <= frame_at s -> gp s1 ESP = frame_at s - 8 -> sg s1 CS = 0x08 -> sg s1 SS = stack_segment s -> (forall r, r ∈ data_segs -> sg s1 r = 0x10) ->
  (forall a, a < frame_at s - 8 -> ld8 (mem s1) a = ld8 (mem s) a) ->
  stk (mem s) lo (kernel_stack s) (mem s1) (frame_at s - 8)
    (ret :: frame_at s :: gw :: fw :: ew :: dw :: gp s EDI :: gp s ESI :: gp s EBP :: spw :: gp s EBX :: gp s EDX :: gp s ECX :: gp s EAX :: ws) ->
  handler_entry s v e s1.
Proof.
  intros [-> [Hcs Hu]] Hg Hf He Hd Hlo Hsp Hl Hss Hds Hlow Hst. set (r := frame_at s) in *.
  pose proof (stk_words _ _ _ _ _ _ Hst) as Hw. cbn [words] in Hw.
  repeat match goal with Hc : _ /\ _ |- _ => destruct Hc end.
  split; fold r.
  - exact Hsp.
  - from_words.
  - split.
    + split_and!; from_words.
    + split_and!; from_words.
    + split_and!; from_words.
    + intros Hl'. rewrite (proj2 (Z.ltb_lt _ _) Hl') in Hu. destruct Hu as (ssw & -> & Hssw). cbn [words] in *. destruct_and!.
      split; [from_words | from_words].
  - split; from_words.
  - done.
  - intros a [Ha|Ha]; [by apply Hlow | apply (stk_rest _ _ _ _ _ _ Hst); by right].
Qed.

Lemma resumed_intro s g y c fl ip m :
  let r := frame_at s in
  y GS = ld16 m r /\ y FS = ld16 m (r + 4) /\ y ES = ld16 m (r + 8) /\ y DS = ld16 m (r + 12) ->
  g EDI = ld32 m (r + 16) /\ g ESI = ld32 m (r + 20) /\ g EBP = ld32 m (r + 24) /\ g EBX = ld32 m (r + 32) /\
    g EDX = ld32 m (r + 36) /\ g ECX = ld32 m (r + 40) /\ g EAX = ld32 m (r + 44) ->
  ip = ld32 m (r + 56) /\ y CS = ld16 m (r + 60) /\ fl = ld32 m (r + 64) ->
  Z.land (y CS) 3 = cpl s -> (0 < cpl s -> g ESP = ld32 m (r + 68) /\ y SS = ld16 m (r + 72)) ->
  (cpl s = 0 -> g ESP = kernel_stack s /\ y SS = sg s SS) -> resumed s (Proc g y c fl ip m).
Proof.
  intros r (Hs1 & Hs2 & Hs3 & Hs4) (Hg1 & Hg2 & Hg3 & Hg4 & Hg5 & Hg6 & Hg7) (Hr1 & Hr2 & Hr3) Hl Hu Hk.
  split; [split|done|done]; cbn [gp sg eflags eip mem p_mem HasMem_proc]; fold r;
    unfold rg_gs, rg_fs, rg_es, rg_ds, rg_edi, rg_esi, rg_ebp, rg_ebx, rg_edx, rg_ecx, rg_eax, rg_eip, rg_cs, rg_eflags, rg_useresp, rg_ss;
    try (split_and!; congruence).
  unfold cpl at 1. cbn [sg]. rewrite Hl. intros Hu'. destruct (Hu Hu'). split; congruence.
Qed.

(** The registers the common part leaves after the call. *)
Lemma wp_common_tail fuel p pc s s2 (Q : ending -> proc -> Prop) :
  code_at p pc common_tail -> 8 <= frame_at s -> kernel_stack s < 4294967296 ->
  gp s2 ESP = frame_at s - 4 -> cpl s2 = 0 -> sg s2 SS = stack_segment s -> returns_to_level s (mem s2) ->
  (forall s3, mem s3 = mem s2 -> resumed s s3 -> Q Leaves s3) ->
  wp (run la ad cf (8 + fuel) p pc) Q s2.
Proof.
  intros Hc H8 HK Hsp Hl Hss [Hrl Hds] HQ. assert (HK' : frame_at s + SIZEOF_REGS - 8 <= kernel_stack s /\ (0 < cpl s -> frame_at s + SIZEOF_REGS <= kernel_stack s)).
  { unfold frame_at, SIZEOF_REGS. destruct (Z.ltb_spec 0 (cpl s)); lia. }
  unfold SIZEOF_REGS in HK'. assert (Hstk : cpl s = 0 -> kernel_stack s = frame_at s + 68).
  { unfold frame_at, SIZEOF_REGS. intros ->. cbn. lia. }
  revert HK' Hstk Hrl Hds. set (r := frame_at s) in *. intros HK' Hstk Hrl Hds. unfold common_tail in Hc. cbn [plus].
  destruct s2 as [g x c f i m]. reg_simpl. cbn [gp mem p_mem HasMem_proc] in Hsp, Hrl, Hds. unfold cpl in Hl. cbn [sg] in Hl, Hss.
  asm_next. pop_next. reg_simpl. intros Hc.
  asm_next. pop_next. mstep. reg_simpl. intros Hc. asm_next. pop_next. mstep. reg_simpl. intros Hc.
  asm_next. pop_next. mstep. reg_simpl. intros Hc. asm_next. pop_next. mstep. reg_simpl. intros Hc. 
  asm_next. eapply (wp_popa _ (r + 16)); [reg_simpl; lia | lia | lia |]. intros g' Hg1 Hg2 Hg3 Hg4 Hg5 Hg6 Hg7 Hg8. mstep. intros Hc.
  asm_next. reg_simpl. rewrite Hg1, u32_small by lia. intros Hc.
  replace (r - 4 + 4 + 4 + 4 + 4) with (r + 12) by lia. replace (r - 4 + 4 + 4 + 4) with (r + 8) by lia.
  replace (r - 4 + 4 + 4) with (r + 4) by lia. replace (r - 4 + 4) with r by lia.
  replace (r + 16 + 4) with (r + 20) in * by lia. replace (r + 16 + 8) with (r + 24) in * by lia. replace (r + 16 + 16) with (r + 32) in * by lia.
  replace (r + 16 + 20) with (r + 36) in * by lia. replace (r + 16 + 24) with (r + 40) in * by lia. replace (r + 16 + 28) with (r + 44) in * by lia.
  pose proof (Z.land_nonneg (sg s CS) 3) as Hl0. unfold cpl in *. asm_next.
  destruct (decide (0 < Z.land (sg s CS) 3)) as [Hu|Hu].
  - destruct HK' as [_ HK'%(fun f => f Hu)]. eapply (wp_iret_outer _ (r + 56)); [reg_simpl; lia | lia | lia | | |].
    + reg_simpl. replace (r + 56 + 4) with (rg_cs r) by (unfold rg_cs; lia). lia.
    + intros q Hq. replace (r + 56 + 4) with (rg_cs r) by (unfold rg_cs; lia). rewrite Hrl. rewrite !elem_of_cons, elem_of_nil in Hq.
      destruct Hq as [->|[->|[->|[->|[]]]]]; reg_simpl;
        [apply (Hds Hu rg_es) | apply (Hds Hu rg_ds) | apply (Hds Hu rg_fs) | apply (Hds Hu rg_gs)]; elem.
    + intros g2 Hsp2 Hg. replace (r + 56 + 4) with (r + 60) by lia. replace (r + 56 + 8) with (r + 64) by lia.
      replace (r + 56 + 12) with (r + 68) in Hsp2 by lia. replace (r + 56 + 16) with (r + 72) by lia.
      mstep. apply HQ; [done|]. apply resumed_intro; fold r; rewrite ?Hg by done; reg_simpl; first [done | unfold cpl; lia].
  - eapply (wp_iret_same _ (r + 56)); [reg_simpl; lia | lia | lia | |].
    + reg_simpl. replace (r + 56 + 4) with (rg_cs r) by (unfold rg_cs; lia). lia.
    + intros g2 Hsp2 Hg. replace (r + 56 + 4) with (r + 60) by lia. replace (r + 56 + 8) with (r + 64) by lia.
      mstep. apply HQ; [done|]. apply resumed_intro; fold r; rewrite ?Hg by done; reg_simpl; first [done | unfold cpl; lia | unfold cpl; lia | intros Hz; unfold stack_segment in Hss; unfold cpl in Hz; unfold cpl in Hss; rewrite Hz in Hss; rewrite Hstk by exact Hz; split; [lia | exact Hss]].
Qed.

(** The common part, with a handler that leaves memory with [P]. *)
Lemma wp_common fuel p pc l name fa s ws v e csw uw P g x c f i m (Q : ending -> proc -> Prop) :
  code_at p pc (common l name fa) -> proc_ok s -> 0 <= v < 4294967296 -> 0 <= e < 4294967296 ->
  stub_words s ws v e csw uw -> stk (mem s) (frame_at s - 8) (kernel_stack s) m (frame_at s + 48) ws ->
  g ESP = frame_at s + 48 -> (forall r, r <> ESP -> g r = gp s r) -> (forall r, r ∈ data_segs -> x r = sg s r) -> x CS = 0x08 -> x SS = stack_segment s ->
  handler_returns (cf name) s v e P -> (forall m', P m' -> returns_to_level s m') ->
  (forall s3, P (mem s3) -> resumed s s3 -> Q Leaves s3) ->
  wp (run la ad cf (23 + fuel) p pc) Q (Proc g x c f i m).
Proof.
  intros Hc Hs Hv He Hws Hst Hsp Hg Hx Hcs Hss Hh Hlev HQ. pose proof (stk_bounds _ _ _ _ _ _ Hst) as Hb.
  change (23 + fuel)%nat with (14 + (9 + fuel))%nat. eapply (wp_common_call (9 + fuel) p pc l name fa s (frame_at s - 8) ws v e csw uw); try done; [lia|]. clear Hst Hc.
  intros pc' [g1 x1 c1 f1 i1 m1] gw fw ew dw spw Hc' Hsp1 Hl1 Hss1 Hx1 Hgw Hfw Hew Hdw Hst. cbn [gp mem p_mem HasMem_proc] in Hsp1, Hst.
  cbn [plus]. asm_next. push_next. wp_step. replace (frame_at s - 4 - 4) with (frame_at s - 8) in * by lia.
  match goal with |- wp _ _ ?s' => set (s1 := s') end.
  assert (Hen : handler_entry s v e s1).
  { eapply handler_entry_intro with (lo := frame_at s - 8); [exact Hws | exact Hgw | exact Hfw | exact Hew | exact Hdw | lia | done | exact Hl1 | exact Hss1 | exact Hx1 | | exact Hst].
    intros a Ha. apply (stk_rest _ _ _ _ _ _ Hst). by left. }
  pose proof (proj1 (stk_words _ _ _ _ _ _ Hst)) as Hret. eapply wp_mono; [exact (Hh s1 Hen)|].
  intros [] [g2 x2 c2 f2 i2 m2] (Hsp2 & [Hcs2 Hss2] & Hret2 & HP). subst s1. cbn [gp sg mem p_mem HasMem_proc] in *. reg_simpl.
  cbn [reg_upd reg_num Z.eqb Pos.eqb] in Hsp2, Hret2.
  eapply wp_bind, (wp_pop32 _ (frame_at s - 8)); [done | lia | lia |]. rewrite Hret2, Hret, Z.eqb_refl. mstep. intros Hc.
  eapply (wp_common_tail _ _ _ s); [exact Hc | lia | lia | reg_simpl; lia | unfold cpl; cbn [sg] in *; by rewrite Hcs2, Hl1 | cbn [sg] in *; congruence | by apply Hlev |].
  intros s3 Hm3 Hrs. apply HQ; [change (P (mem s3)); by rewrite Hm3 | exact Hrs].
Qed.

(** ** The entries *)

(** The vectors with a stub, their labels and handlers. *)
Definition vectors : list Z := isr_stubs ++ seqZ 32 16.
Definition is_irq (v : Z) : bool := (32 <=? v) && (v <? 48).
Definition stub_label (v : Z) : label := if is_irq v then irq (v - 32) else isr v.
Definition stub_handler (v : Z) : string := if is_irq v then "irq_handler" else "isr_handler".
Definition stub_error (v : Z) : bool := bool_decide (v ∈ error_code_stubs).

Definition stub_entry (v : Z) : program label :=
  [Label (stub_label v)] ++ (if stub_error v then [] else [Push (Imm 0)]) ++
  [Push (Imm v); Jmp (if is_irq v then handle_irq_common else handle_isr_common)].

(** Decides that [c] is in [p] at [pc]. *)
Definition code_atb (p : program label) (pc : nat) (c : program label) : Prop := take (length c) (drop pc p) = c.

Lemma code_atb_at p pc c : code_atb p pc c -> code_at p pc c.
Proof.
  intros Hc i x Hi. rewrite <- Hc in Hi. apply lookup_take_Some in Hi as [Hi _]. rewrite lookup_drop in Hi. by rewrite Nat.add_comm.
Qed.

Lemma stub_code fi fq v : v ∈ vectors ->
  exists pc, position (stub_label v) (interrupt_asm fi fq) = Some pc /\ code_at (interrupt_asm fi fq) pc (stub_entry v).
Proof.
  intros Hv. assert (Hall : Forall (fun v => exists pc, position (stub_label v) (interrupt_asm fi fq) = Some pc /\
    code_atb (interrupt_asm fi fq) pc (stub_entry v)) vectors).
  { repeat (constructor; [eexists; split; reflexivity|]). constructor. }
  rewrite Forall_forall in Hall. destruct (Hall v Hv) as (pc & Hp & Hc). exists pc. split; [exact Hp | by apply code_atb_at].
Qed.

Lemma common_code fi fq v :
  exists pc l f, position (if is_irq v then handle_irq_common else handle_isr_common) (interrupt_asm fi fq) = Some pc /\
    code_at (interrupt_asm fi fq) pc (common l (stub_handler v) f).
Proof.
  unfold stub_handler. destruct (is_irq v).
  - eexists _, handle_irq_common, fq. split; [reflexivity | by apply code_atb_at].
  - eexists _, handle_isr_common, fi. split; [reflexivity | by apply code_atb_at].
Qed.

(** The stack as the processor leaves it: with an error code or without. *)
Definition delivered_words (s : proc) (v e csw : Z) (uw : list Z) : list Z :=
  (if stub_error v then [e] else []) ++ eip s :: csw :: eflags s :: uw.

Definition frame_error (v e : Z) : Z := if stub_error v then e else 0.

Lemma wp_stub fuel fi fq v e s csw uw P g x c f i m (Q : ending -> proc -> Prop) :
  v ∈ vectors -> proc_ok s -> 0 <= e < 4294967296 ->
  stub_words s (v :: frame_error v e :: eip s :: csw :: eflags s :: uw) v (frame_error v e) csw uw ->
  stk (mem s) (frame_at s - 8) (kernel_stack s) m (g ESP) (delivered_words s v e csw uw) ->
  (forall r, r <> ESP -> g r = gp s r) -> (forall r, r ∈ data_segs -> x r = sg s r) -> x CS = 0x08 -> x SS = stack_segment s ->
  handler_returns (cf (stub_handler v)) s v (frame_error v e) P -> (forall m', P m' -> returns_to_level s m') ->
  (forall s3, P (mem s3) -> resumed s s3 -> Q Leaves s3) ->
  wp (run_from la ad cf (27 + fuel) (interrupt_asm fi fq) (stub_label v)) Q (Proc g x c f i m).
Proof.
  intros Hv Hs He Hws Hst Hg Hx Hcs Hss Hh Hlev HQ.
  assert (Hv32 : 0 <= v < 4294967296).
  { unfold vectors, isr_stubs in Hv. rewrite !elem_of_app, !elem_of_seqZ, elem_of_cons, elem_of_nil in Hv. lia. }
  destruct (stub_code fi fq v Hv) as (pc & Hpc & Hc). destruct (common_code fi fq v) as (pc' & l & fa & Hpc' & Hc').
  unfold run_from. rewrite Hpc. pose proof (stk_bounds _ _ _ _ _ _ Hst) as Hb.
  assert (Hk : forall g' m' fuel', stk (mem s) (frame_at s - 8) (kernel_stack s) m' (g' ESP) (v :: frame_error v e :: eip s :: csw :: eflags s :: uw) ->
    (forall r, r <> ESP -> g' r = gp s r) -> (23 <= fuel')%nat -> wp (run la ad cf fuel' (interrupt_asm fi fq) pc') Q (Proc g' x c f i m')).
  { intros g' m' fuel' Hst' Hg' Hf. replace fuel' with (23 + (fuel' - 23))%nat by lia.
    assert (Hsp' : g' ESP = frame_at s + 48).
    { pose proof (stk_bounds _ _ _ _ _ _ Hst') as Hb'. destruct Hws as (_ & _ & Hu). unfold frame_at, SIZEOF_REGS in *. cbn [length] in Hb'.
      destruct (0 <? cpl s); [destruct Hu as (? & -> & _) | rewrite Hu in *]; cbn [length] in *; lia. }
    eapply wp_common; [exact Hc' | exact Hs | exact Hv32 | | exact Hws | rewrite <- Hsp'; exact Hst' | exact Hsp' | exact Hg' | done..].
    unfold frame_error. destruct (stub_error v); lia. }
  assert (Hlo : frame_at s - 8 + 8 <= g ESP).
  { destruct Hws as (_ & _ & Hu). unfold frame_at, SIZEOF_REGS, delivered_words in *. rewrite length_app in Hb. cbn [length] in Hb.
    destruct (0 <? cpl s); [destruct Hu as (? & -> & _) | rewrite Hu in *]; destruct (stub_error v); cbn [length] in *; lia. }
  unfold stub_entry in Hc. unfold delivered_words in Hst. unfold frame_error in Hk.
  destruct (stub_error v); cbn [app] in Hc, Hst; cbn [plus].
  - asm_next. intros Hc. asm_next. push_next. mstep. intros Hc. asm_next. eexists. split; [exact Hpc'|].
    apply Hk; [|intros r Hr; rewrite <- Hg by done; by destruct r | lia].
    rewrite !u32_small in Hst by (rewrite ?u32_small; lia). exact Hst.
  - asm_next. intros Hc. asm_next. push_next. mstep. intros Hc. asm_next. push_next. mstep. intros Hc. asm_next. eexists. split; [exact Hpc'|].
    apply Hk; [|intros r Hr; rewrite <- Hg by done; by destruct r | lia].
    change (u32 (u32 0)) with 0 in Hst. rewrite !u32_small in Hst by (rewrite ?u32_small; lia). exact Hst.
Qed.

(** ** From the interrupted code to the interrupted code *)

(** The way of a vector through the processor, its stub and its handler. *)
Definition interrupt (fuel : nat) (fi fq v e : Z) : M proc ending :=
  deliver (if stub_error v then Some e else None) 0x08 (la (stub_label v));;
  run_from la ad cf fuel (interrupt_asm fi fq) (stub_label v).

(** The words every delivery pushes, and the stub behind it. *)
Lemma wp_delivered fuel fi fq v e P s g x c f i m uw (Q : ending -> proc -> Prop) :
  v ∈ vectors -> proc_ok s -> 0 <= e < 4294967296 -> 8 <= frame_at s -> kernel_stack s < 4294967296 ->
  handler_returns (cf (stub_handler v)) s v (frame_error v e) P -> (forall m', P m' -> returns_to_level s m') ->
  (forall s3, P (mem s3) -> resumed s s3 -> Q Leaves s3) ->
  stk (mem s) (frame_at s - 8) (kernel_stack s) m (g ESP) uw ->
  (if 0 <? cpl s then exists ssw, uw = [gp s ESP; ssw] /\ ssw mod 65536 = sg s SS else uw = []) ->
  (forall r, r <> ESP -> g r = gp s r) -> (forall r, r ∈ data_segs -> x r = sg s r) -> x SS = stack_segment s ->
  wp (push32 (eflags s);; push_seg (sg s CS);; push32 (eip s);;
      match (if stub_error v then Some e else None) with Some e => push32 e | None => mret tt end;;
      modify (set_eflags (Z.ldiff (eflags s) GATE_CLEARS));;
      modify (set_sg CS 0x08);;
      modify (set_eip (la (stub_label v))))
     (fun _ s' => wp (run_from la ad cf (27 + fuel) (interrupt_asm fi fq) (stub_label v)) Q s') (Proc g x c f i m).
Proof.
  intros Hv Hs He H8 HK Hh Hlev HQ Hst Hu Hg Hx Hss. pose proof (ok_sg _ Hs) as Hsg. pose proof (ok_flags _ Hs) as Hfl. pose proof (ok_eip _ Hs) as Hip.
  pose proof (stk_bounds _ _ _ _ _ _ Hst) as Hb.
  assert (Hsp : g ESP = frame_at s + 68).
  { unfold frame_at, SIZEOF_REGS. destruct (0 <? cpl s); [destruct Hu as (ssw & -> & _) | rewrite Hu in *]; cbn [length] in Hb; lia. }
  push_next. push_next; [apply Hsg|]. push_next. rewrite !u32_small in Hst by done.
  assert (Hend : forall g' m', stk (mem s) (frame_at s - 8) (kernel_stack s) m' (g' ESP) (delivered_words s v e w uw) -> (forall r, r <> ESP -> g' r = gp s r) ->
    wp (run_from la ad cf (27 + fuel) (interrupt_asm fi fq) (stub_label v)) Q
      (Proc g' (seg_upd CS 0x08 x) c (Z.ldiff (eflags s) GATE_CLEARS) (la (stub_label v)) m')).
  { intros g' m' Hst' Hg'. eapply (wp_stub _ _ _ v e s w uw P); try done.
    intros r Hr. rewrite <- Hx by done. unfold data_segs in Hr. rewrite !elem_of_cons, elem_of_nil in Hr. by destruct Hr as [->|[->|[->|[->|[]]]]]. }
  unfold delivered_words in Hend. destruct (stub_error v).
  - mstep. push_next. rewrite u32_small in Hst by done. repeat mstep. reg_simpl. apply Hend; [exact Hst|]. intros r Hr. rewrite <- Hg by done. by destruct r.
  - repeat mstep. reg_simpl. apply Hend; [exact Hst|]. intros r Hr. rewrite <- Hg by done. by destruct r.
Qed.

Lemma wp_interrupt fuel fi fq v e P s (Q : ending -> proc -> Prop) :
  v ∈ vectors -> proc_ok s -> 0 <= e < 4294967296 -> 8 <= frame_at s -> kernel_stack s < 4294967296 ->
  handler_returns (cf (stub_handler v)) s v (frame_error v e) P -> (forall m', P m' -> returns_to_level s m') ->
  (27 <= fuel)%nat -> (forall s3, P (mem s3) -> resumed s s3 -> Q Leaves s3) -> wp (interrupt fuel fi fq v e) Q s.
Proof.
  intros Hv Hs He H8 HK Hh Hlev Hf HQ. replace fuel with (27 + (fuel - 27))%nat by lia. pose proof (ok_gp _ Hs) as Hgp. pose proof (ok_sg _ Hs) as Hsg.
  assert (Hfr : kernel_stack s = frame_at s + (if 0 <? cpl s then 76 else 68)) by (unfold frame_at, SIZEOF_REGS; destruct (0 <? cpl s); lia).
  pose proof (stk_empty (mem s) (frame_at s - 8) (kernel_stack s) ltac:(destruct (0 <? cpl s); lia) HK) as Hst.
  unfold interrupt, deliver. do 10 mstep. destruct (0 <? cpl s) eqn:Hl.
  - do 8 mstep. reg_simpl. assert (Hk : kernel_stack s = tss_esp0) by (unfold kernel_stack; by rewrite Hl).
    rewrite Hk in Hst at 2. change (mem s) with (p_mem s) in Hst at 2. push_next; [apply Hsg|]. push_next. rewrite u32_small in Hst by done.
    eapply (wp_delivered _ _ _ v e P s); [done..| exact Hst | rewrite Hl; by eexists | | |].
    + intros r Hr. by destruct r.
    + intros r Hr. unfold data_segs in Hr. rewrite !elem_of_cons, elem_of_nil in Hr. by destruct Hr as [->|[->|[->|[->|[]]]]].
    + unfold stack_segment. by rewrite Hl.
  - mstep. apply wp_eta.
    eapply (wp_delivered _ _ _ v e P s); [done..| | by rewrite Hl | done | done | unfold stack_segment; by rewrite Hl].
    unfold kernel_stack in Hst at 2. rewrite Hl in Hst. exact Hst.
Qed.

(** The registers the interrupted code gets back are those of the frame. *)
Lemma frame_registers s s3 m r :
  frame_of s m r -> frame_of s3 m r -> cpl s3 = cpl s ->
  (forall q, q <> ESP -> gp s3 q = gp s q) /\ (0 < cpl s -> gp s3 ESP = gp s ESP /\ sg s3 SS = sg s SS) /\
  (forall q, q <> SS -> sg s3 q = sg s q) /\ eip s3 = eip s /\ eflags s3 = eflags s.
Proof.
  intros [(Ha1 & Ha2 & Ha3 & Ha4) (Hb1 & Hb2 & Hb3 & Hb4 & Hb5 & Hb6 & Hb7) (Hc1 & Hc2 & Hc3) Hd]
    [(Ha1' & Ha2' & Ha3' & Ha4') (Hb1' & Hb2' & Hb3' & Hb4' & Hb5' & Hb6' & Hb7') (Hc1' & Hc2' & Hc3') Hd'] Hl. split_and!.
  - intros [] Hq; congruence.
  - intros Hu. destruct (Hd Hu). destruct (Hd' ltac:(by rewrite Hl)). split; congruence.
  - intros [] Hq; congruence.
  - congruence.
  - congruence.
Qed.

(** The data segments of user code may be used at its level. *)
Definition segments_usable (s : proc) : Prop := 0 < cpl s -> forall r, r ∈ data_segs -> survives (cpl s) (sg s r).

Lemma frame_returns s m : frame_of s m (frame_at s) -> segments_usable s -> returns_to_level s m.
Proof.
  intros [(Ha1 & Ha2 & Ha3 & Ha4) _ (_ & Hc & _) _] Hs. split; [by rewrite Hc|]. intros Hu f Hf.
  rewrite !elem_of_cons, elem_of_nil in Hf.
  destruct Hf as [->|[->|[->|[->|[]]]]]; [rewrite Ha1 | rewrite Ha2 | rewrite Ha3 | rewrite Ha4]; apply Hs; try done; unfold data_segs; elem.
Qed.

(** All registers of the interrupted code are those of the frame, so a handler that
    keeps the frame is transparent. *)
Lemma wp_interrupt_kept fuel fi fq v e P s (Q : ending -> proc -> Prop) :
  v ∈ vectors -> proc_ok s -> 0 <= e < 4294967296 -> segments_usable s ->
  8 <= frame_at s -> kernel_stack s < 4294967296 -> (27 <= fuel)%nat ->
  handler_returns (cf (stub_handler v)) s v (frame_error v e) (fun m => frame_of s m (frame_at s) /\ P m) ->
  (forall s3, P (mem s3) -> (forall r, gp s3 r = gp s r) -> (forall r, sg s3 r = sg s r) -> eip s3 = eip s -> eflags s3 = eflags s ->
     Q Leaves s3) ->
  wp (interrupt fuel fi fq v e) Q s.
Proof.
  intros Hv Hs He Hseg H8 HK Hf Hh HQ.
  eapply wp_interrupt; [exact Hv | exact Hs | exact He | exact H8 | exact HK | exact Hh | by intros m' [Hm _]; apply frame_returns | exact Hf |].
  intros s3 [Hfr HP] [Hfr3 Hl3 Hsp3].
  destruct (frame_registers _ _ _ _ Hfr Hfr3 Hl3) as (Hg & Hu & Hsg & Hip & Hfl).
  assert (Hst : gp s3 ESP = gp s ESP /\ sg s3 SS = sg s SS).
  { destruct (decide (0 < cpl s)) as [Hl|Hl]; [by apply Hu|]. unfold kernel_stack in Hsp3.
    rewrite (proj2 (Z.ltb_ge _ _)) in Hsp3 by lia. apply Hsp3. unfold cpl in *. pose proof (Z.land_nonneg (sg s CS) 3). lia. }
  apply HQ; [exact HP | | | exact Hip | exact Hfl].
  - intros r. destruct (decide (r = ESP)) as [->|Hr]; [apply Hst | by apply Hg].
  - intros r. destruct (decide (r = SS)) as [->|Hr]; [apply Hst | by apply Hsg].
Qed.

End stubs.

(** ** A system call *)

Section system_call.
Context `{!Processor} `{!Allocator proc} `{!Switching proc} `{!Logger proc} `{!TaskGlobals}.
Context (la : label -> Z) (ad : nat -> Z) (cf : string -> M proc unit).

(** [isr_handler] on the memory of the processor, for vector 127 with the dispatcher
    of sys/syscall.c installed. *)
Definition isr_handler_syscall (fuel : nat) : M proc unit :=
  sp ← gets (fun s => gp s ESP);
  r ← load32 (sp + 4);
  t ← load32 current_task;
  store32 (tk_ifr t) r;;
  syscall_dispatcher fuel sp r.

(** The task of the caller is outside of the stack the call uses. *)
Definition task_off_stack (s : proc) : Prop :=
  let t := ld32 (mem s) current_task in
  let clear a n := a + n <= frame_at s - 8 \/ kernel_stack s <= a in
  clear current_task 4 /\ clear t SIZEOF_TASK /\ disjoint (tk_ifr t) 4 current_task 4.

Lemma frame_of_eax s m m' r tid :
  (forall a, r <= a < rg_eax r -> ld8 m' a = ld8 m a) ->
  (forall a, rg_int_no r <= a < r + (if 0 <? cpl s then 76 else 68) -> ld8 m' a = ld8 m a) ->
  frame_of s m r -> ld32 m' (rg_eax r) = tid -> frame_of (set_gp EAX tid s) m' r.
Proof.
  intros Hlow Hhigh [Hsegs (Hg1 & Hg2 & Hg3 & Hg4 & Hg5 & Hg6 & Hg7) Hret Hu] Heax. unfold rg_eax, rg_int_no in *.
  assert (Hul : 0 < cpl s -> (0 <? cpl s) = true) by (intros Hl; by apply Z.ltb_lt). remember (0 <? cpl s) as user eqn:Huser. clear Huser.
  assert (H32 : forall a, r <= a <= r + 40 \/ r + 48 <= a <= r + (if user then 72 else 64) -> ld32 m' a = ld32 m a).
  { intros a Ha. apply ld32_ext. intros b Hb. destruct user, Ha; first [apply Hlow; lia | apply Hhigh; lia]. }
  assert (H16 : forall a, r <= a <= r + 40 \/ r + 48 <= a <= r + (if user then 72 else 64) -> ld16 m' a = ld16 m a)
    by (intros a Ha; by rewrite !ld16_ld32, H32).
  unfold rg_gs, rg_fs, rg_es, rg_ds, rg_edi, rg_esi, rg_ebp, rg_ebx, rg_edx, rg_ecx, rg_eip, rg_cs, rg_eflags, rg_useresp, rg_ss in *.
  split; [| | |intros Hl; change (0 < cpl s) in Hl; specialize (Hu Hl); rewrite (Hul Hl) in *];
    unfold rg_gs, rg_fs, rg_es, rg_ds, rg_edi, rg_esi, rg_ebp, rg_ebx, rg_edx, rg_ecx, rg_eax, rg_eip, rg_cs, rg_eflags, rg_useresp, rg_ss;
    try destruct user; rewrite ?H32, ?H16 by lia; done.
Qed.

(** The run of the handler: the frame with the identifier in eax. *)
Lemma gettid_handler fuel' s s1 :
  proc_ok s -> 8 <= frame_at s -> kernel_stack s < 4294967296 -> task_off_stack s -> gp s EAX = SYS_GETTID -> handler_entry s 127 0 s1 ->
  let t := ld32 (mem s) current_task in
  wp (isr_handler_syscall fuel') (fun _ s2 => gp s2 = gp s1 /\ sg s2 = sg s1 /\
    mem s2 = st32 (st32 (mem s1) (tk_ifr t) (frame_at s)) (rg_eax (frame_at s)) (ld32 (mem s) (tk_tid t))) s1.
Proof.
  intros Hs H8 HK (Hct & Hct' & Hd) Heax [Hsp Harg Hfr _ _ Hmem] t. fold t in Hct', Hd. set (r := frame_at s) in *.
  assert (Hr : r + 68 <= kernel_stack s) by (unfold r, frame_at, SIZEOF_REGS; destruct (0 <? cpl s); lia).
  assert (Hout : forall a, a + 4 <= r - 8 \/ kernel_stack s <= a -> ld32 (mem s1) a = ld32 (mem s) a).
  { intros a Ha. apply ld32_ext. intros b Hb. apply Hmem. lia. }
  unfold isr_handler_syscall. do 4 mstep. rewrite Hsp. replace (r - 8 + 4) with (r - 4) by lia. rewrite Harg. mstep. mstep.
  rewrite Hout by lia. fold t. mstep. mstep.
  assert (Hcur : ld32 (st32 (mem s1) (tk_ifr t) r) current_task = t) by (rewrite ld32_st32_ne by done; by rewrite Hout by lia).
  assert (Hifr : ld32 (st32 (mem s1) (tk_ifr t) r) (tk_ifr t) = r) by (rewrite ld32_st32_eq; apply u32_small; lia).
  assert (Hnr : ld32 (st32 (mem s1) (tk_ifr t) r) (rg_eax r) = 1).
  { rewrite ld32_st32_ne by (unfold disjoint, tk_ifr, rg_eax, SIZEOF_TASK in *; lia).
    destruct Hfr as [_ (_ & _ & _ & _ & _ & _ & Ha) _ _]. by rewrite Ha. }
  apply (wp_dispatch_call fuel' (r - 8) r Sys_gettid); rewrite ?mem_set_mem, ?Hcur, ?Hifr, ?Hnr; [lia | done |].
  unfold call_syscall, sys_gettid. repeat mstep. rewrite ?mem_set_mem, ?set_mem_set_mem, Hcur. cbn [gp sg set_mem HasMem_proc mem p_mem].
  split_and!; [done | done |]. f_equal. rewrite ld32_st32_ne by (unfold disjoint, tk_ifr, tk_tid; lia).
  apply Hout. unfold tk_tid, SIZEOF_TASK in *. lia.
Qed.

End system_call.
