(* ===== verification/CtxSwitch.v ===== *)
(** * sys/context_switch.asm: the switch between kernel stacks

    What the switch saves, what it does to the variables of the scheduler (the
    [context_switch] of Task.v), and that a task that is switched to again goes on
    where it left. *)

From S2P Require Export Stubs.

Section switch.
Context `{!Processor} `{!TaskGlobals}.
Context (la : label -> Z) (ad : nat -> Z) (cf : string -> M proc unit).

(** The call [context_switch(next)]: the return address and the argument. *)
Definition return_address (s : proc) : Z := ld32 (mem s) (gp s ESP).
Definition next_task (s : proc) : Z := ld32 (mem s) (gp s ESP + 4).
Definition leaving (s : proc) : Z := ld32 (mem s) current_task.

(** Where the stack pointer is when it is saved. *)
Definition saved_sp (s : proc) : Z := gp s ESP - 20.

(** The words on the stack of the task that is left; the structure [context] of
    include/sys/task.h names the first three otherwise. *)
Definition saved_words (s : proc) : list Z :=
  [gp s EBX; gp s ESI; gp s EDI; gp s EBP; return_address s; Z.ldiff (eflags s) PUSHF_CLEARS].

(** The stack pointer that is loaded: the saved one of the next task, or the one just
    saved when a task is switched to itself. *)
Definition target (s : proc) : Z := if decide (next_task s = leaving s) then saved_sp s else ld32 (mem s) (next_task s).

(** The call is in kernel code with room on the stack, away from the variables. *)
Record switch_call (s : proc) : Prop := {
  sc_ok : proc_ok s;
  sc_room : 20 <= gp s ESP /\ gp s ESP + 8 < 4294967296;
  sc_current : disjoint (saved_sp s) 28 current_task 4;
  sc_leaving : disjoint (saved_sp s) 28 (leaving s) 4 /\ disjoint current_task 4 (leaving s) 4;
  sc_next : disjoint (saved_sp s) 28 (next_task s) 4 /\ disjoint current_task 4 (next_task s) 4 /\
    (next_task s = leaving s \/ disjoint (leaving s) 4 (next_task s) 4);
  sc_target : target s + 24 < 4294967296;
}.

(** [m1] is the memory of [s] with the saved words. *)
Record saved (s : proc) (m1 : memory) : Prop := {
  sv_words : words m1 (saved_sp s) (saved_words s);
  sv_rest a : a < saved_sp s \/ gp s ESP + 4 <= a -> ld8 m1 a = ld8 (mem s) a;
}.

(** The registers and memory after a switch to the stack at [k] of [m2]. *)
Record loaded (s : proc) (m2 : memory) (k : Z) (s3 : proc) : Prop := {
  ld_regs : gp s3 EBX = ld32 m2 k /\ gp s3 ESI = ld32 m2 (k + 4) /\ gp s3 EDI = ld32 m2 (k + 8) /\ gp s3 EBP = ld32 m2 (k + 12);
  ld_stack : gp s3 ESP = k + 24;
  ld_control : eip s3 = ld32 m2 (k + 16) /\ eflags s3 = ld32 m2 (k + 20);
  ld_segs r : sg s3 r = sg s r;
  ld_memory a : a < k + 12 \/ k + 20 <= a -> ld8 (mem s3) a = ld8 m2 a;
}.

Definition switch_memory (s : proc) (m1 : memory) : memory :=
  st32 (st32 m1 (leaving s) (saved_sp s)) current_task (next_task s).

Lemma switch_target s m1 : switch_call s -> saved s m1 -> ld32 (switch_memory s m1) (next_task s) = target s.
Proof.
  intros [Hok Hroom Hc [Hl Hcl] (Hn & Hcn & Hln) _] [_ Hrest]. unfold switch_memory, target. unfold saved_sp in *.
  rewrite ld32_st32_ne by done. case_decide as He.
  - rewrite He, ld32_st32_eq. apply u32_small. lia.
  - destruct Hln as [Hln|Hln]; [done|]. rewrite ld32_st32_ne by done. apply ld32_ext. intros b Hb. apply Hrest. unfold disjoint in Hn. lia.
Qed.

Lemma wp_context_switch fuel s (Q : ending -> proc -> Prop) :
  switch_call s ->
  (forall m1 s3, saved s m1 -> loaded s (switch_memory s m1) (target s) s3 -> Q Leaves s3) ->
  wp (run_from la ad cf (22 + fuel) context_switch_program context_switch_asm) Q s.
Proof.
  intros Hcall HQ. pose proof Hcall as [Hok Hroom Hc [Hl Hcl] Hn Htg]. pose proof (ok_gp _ Hok) as Hgp. pose proof (ok_sg _ Hok) as Hsg.
  assert (Hst : stk (mem s) (saved_sp s) (gp s ESP + 4) (mem s) (gp s ESP + 4) []) by (apply stk_empty; unfold saved_sp; lia).
  assert (Hsv : saved_sp s = gp s ESP - 20) by done. unfold run_from. change (position context_switch_asm context_switch_program) with (Some 0%nat). cbv match. cbn [plus].
  assert (Hcode : code_at context_switch_program 0 context_switch_program) by (intros i x Hi; by rewrite Nat.add_0_r).
  unfold context_switch_program in Hcode at 2. change (mem s) with (p_mem s) in Hst at 2.
  apply wp_eta.
  asm_next. intros Hcode. asm_next. pop_next. mstep. reg_simpl. intros Hcode. 
  do 6 (asm_next; push_next; mstep; reg_simpl; intros Hcode).
  rewrite (u32_small (Z.ldiff _ _)) in Hst by apply ldiff_range, Hok.
  rewrite !u32_small in Hst by (first [apply Hgp | apply ld32_range]).
  replace (gp s ESP + 4 - 4 - 4 - 4 - 4 - 4 - 4) with (saved_sp s) in * by lia. match type of Hst with stk _ _ _ ?m _ _ => set (mA := m) in * end.
  assert (Hsaved : saved s mA) by (split; [apply (stk_words _ _ _ _ _ _ Hst) | intros a Ha; apply (stk_rest _ _ _ _ _ _ Hst); exact Ha]).
  assert (Hread : forall a, a + 4 <= saved_sp s \/ gp s ESP + 4 <= a -> ld32 mA a = ld32 (mem s) a).
  { intros a Ha. apply ld32_ext. intros b Hb. apply (sv_rest _ _ Hsaved). lia. }
  assert (Hcur : ld32 mA current_task = leaving s) by (apply Hread; unfold disjoint in Hc; lia).
  assert (Hlv : 0 <= leaving s < 4294967296) by apply ld32_range.
  asm_next. reg_simpl. intros Hcode. asm_next. reg_simpl. intros Hcode. rewrite Hcur.
  asm_next. reg_simpl. rewrite Z.add_0_r, u32_small by lia. intros Hcode.
  asm_next. reg_simpl. rewrite (u32_small (saved_sp s + 24)) by lia. intros Hcode.
  rewrite (ld32_st32_ne mA) by (unfold disjoint in *; lia). rewrite (Hread (saved_sp s + 24)) by lia.
  replace (saved_sp s + 24) with (gp s ESP + 4) by lia. change (ld32 (mem s) (gp s ESP + 4)) with (next_task s).
  asm_next. reg_simpl. intros Hcode. change (st32 (st32 mA (leaving s) (saved_sp s)) current_task (next_task s)) with (switch_memory s mA).
  assert (Hnt : 0 <= next_task s < 4294967296) by apply ld32_range.
  asm_next. reg_simpl. rewrite Z.add_0_r, (u32_small (next_task s)), switch_target by done. intros Hcode.
  set (mB := switch_memory s mA) in *. assert (Ht0 : 0 <= target s) by (unfold target; case_decide; [lia | apply ld32_range]).
  do 5 (asm_next; pop_next; mstep; reg_simpl; intros Hcode).
  replace (target s + 4 + 4 + 4 + 4 + 4) with (target s + 20) by lia. replace (target s + 4 + 4 + 4 + 4) with (target s + 16) by lia.
  replace (target s + 4 + 4 + 4) with (target s + 12) by lia. replace (target s + 4 + 4) with (target s + 8) by lia.
  pose proof (stk_empty mB (target s + 12) (target s + 20) ltac:(lia) ltac:(lia)) as Hs2.
  asm_next; push_next; [apply Hsg|]; mstep; reg_simpl; intros Hcode. 
  asm_next; push_next; mstep; reg_simpl; intros Hcode. rewrite u32_ld32 in Hs2. clear Hst.
  replace (target s + 20 - 4 - 4) with (target s + 12) in * by lia.
  match type of Hs2 with stk _ _ _ ?m _ _ => set (mC := m) in * end.
  pose proof (stk_words _ _ _ _ _ _ Hs2) as (Hw1 & Hw2 & _). replace (target s + 12 + 4) with (target s + 16) in Hw2 by lia.
  assert (Hcs : ld16 mC (target s + 16) = sg s CS) by (by rewrite ld16_ld32, Hw2).
  assert (Hfl : ld32 mC (target s + 20) = ld32 mB (target s + 20)).
  { apply ld32_ext. intros b Hb. apply (stk_rest _ _ _ _ _ _ Hs2). lia. }
  asm_next. eapply (wp_iret_same _ (target s + 12)); [done | lia | lia | by replace (target s + 12 + 4) with (target s + 16) by lia; rewrite Hcs |].
  replace (target s + 12 + 4) with (target s + 16) by lia. replace (target s + 12 + 8) with (target s + 20) by lia.
  intros g' Hsp' Hg'. mstep. apply (HQ mA); [exact Hsaved|]. fold mB. rewrite Hw1, Hfl, Hcs.
  split; cbn [gp sg eip eflags mem p_mem HasMem_proc].
  - rewrite !Hg' by done. by reg_simpl.
  - lia.
  - done.
  - intros r. by destruct r.
  - intros a Ha. apply (stk_rest _ _ _ _ _ _ Hs2). lia.
Qed.

(** C5: the assembly implements the switch of the scheduler's model.  The run saves
    ebx, esi, edi, ebp, the return address and the flags on the stack of the task that
    is left, does to memory what [context_switch] of Task.v does with the stack pointer
    below these words, and leaves to the return address, with the flags, registers and
    stack that are saved at the stack pointer of the next task. *)
Theorem context_switch_refines fuel s :
  switch_call s -> (22 <= fuel)%nat ->
  exists m1 m2 s3, run_from la ad cf fuel context_switch_program context_switch_asm s = Done (Leaves, s3) /\
    saved s m1 /\ context_switch (saved_sp s) (next_task s) m1 = Done (tt, m2) /\ loaded s m2 (target s) s3.
Proof.
  intros Hcall Hf. replace fuel with (22 + (fuel - 22))%nat by lia.
  assert (Hwp : wp (run_from la ad cf (22 + (fuel - 22)) context_switch_program context_switch_asm) (fun e s3 => e = Leaves /\
    exists m1, saved s m1 /\ loaded s (switch_memory s m1) (target s) s3) s).
  { apply wp_context_switch; [exact Hcall|]. intros m1 s3 Hs Hl. split; [done | by exists m1]. }
  apply wp_value in Hwp as (s3 & Hrun & m1 & Hs & Hl). exists m1, (switch_memory s m1), s3. split_and!; [exact Hrun | exact Hs | | exact Hl].
  apply wp_done_inv. unfold context_switch. repeat mstep. cbn [mem set_mem HasMem_memory]. split; [done|]. unfold switch_memory.
  replace (ld32 m1 current_task) with (leaving s); [done|]. symmetry. apply ld32_ext. intros b Hb. apply (sv_rest _ _ Hs).
  pose proof (sc_current _ Hcall) as Hc. unfold saved_sp, disjoint in *. lia.
Qed.

(** The task that is switched to has its own stack. *)
Record separate_stacks (s : proc) : Prop := {
  ss_other : next_task s <> leaving s;
  ss_stack : disjoint (target s) 24 (saved_sp s) 24;
  ss_task : disjoint (target s) 24 (leaving s) 4;
  ss_current : disjoint (target s) 24 current_task 4;
}.

(** [s'] is the call that switches back to the task that [s] left with [s3]: what
    that task saved is as it was. *)
Record switch_back (s s3 s' : proc) : Prop := {
  sb_call : switch_call s';
  sb_next : next_task s' = leaving s /\ leaving s' <> leaving s;
  sb_kstack : ld32 (mem s') (leaving s) = ld32 (mem s3) (leaving s);
  sb_frame a : saved_sp s <= a < saved_sp s + 24 -> ld8 (mem s') a = ld8 (mem s3) a;
  sb_stack : disjoint (saved_sp s') 28 (saved_sp s) 24;
  sb_leaving : disjoint (leaving s') 4 (saved_sp s) 24;
}.

(** Where a switch in the state [s] writes: below the call, the variables, and the
    return frame on the stack it goes to. *)
Definition switch_writes (s : proc) (a : Z) : Prop :=
  saved_sp s <= a < gp s ESP + 4 \/ leaving s <= a < leaving s + 4 \/ current_task <= a < current_task + 4 \/
  target s + 12 <= a < target s + 20.

Lemma switch_memory_rest s m1 s3 a :
  saved s m1 -> loaded s (switch_memory s m1) (target s) s3 -> ~ switch_writes s a -> ld8 (mem s3) a = ld8 (mem s) a.
Proof.
  intros [_ Hr] Hl Ha. unfold switch_writes in Ha. rewrite (ld_memory _ _ _ _ Hl) by lia. unfold switch_memory.
  rewrite !ld8_st32_ne by lia. apply Hr. lia.
Qed.

(** What the task that calls in [s] leaves behind in [s3]. *)
Record leaves (s s3 : proc) : Prop := {
  lv_words : words (mem s3) (saved_sp s) (saved_words s);
  lv_sp : ld32 (mem s3) (leaving s) = saved_sp s;
  lv_current : ld32 (mem s3) current_task = next_task s;
  lv_segs r : sg s3 r = sg s r;
  lv_memory a : ~ switch_writes s a -> ld8 (mem s3) a = ld8 (mem s) a;
}.

Lemma loaded_leaves s m1 s3 :
  switch_call s -> separate_stacks s -> saved s m1 -> loaded s (switch_memory s m1) (target s) s3 -> leaves s s3.
Proof.
  intros Hcall [Hne Hst Htk Hcr] Hsv Hl. pose proof Hsv as [Hw Hr]. pose proof Hcall as [Hok Hroom Hc [Hlv Hcl] Hn Htg].
  assert (Hmem : forall a, saved_sp s <= a < saved_sp s + 24 -> ld8 (mem s3) a = ld8 m1 a).
  { intros a Ha. rewrite (ld_memory _ _ _ _ Hl) by (unfold disjoint in Hst; lia). unfold switch_memory, disjoint in *. by rewrite !ld8_st32_ne by lia. }
  split; [| | | exact (ld_segs _ _ _ _ Hl) | intros a; by apply (switch_memory_rest s m1)].
  - assert (Hk : forall ws a, saved_sp s <= a -> a + 4 * Z.of_nat (length ws) <= saved_sp s + 24 -> words m1 a ws -> words (mem s3) a ws).
    { induction ws as [|w ws IH]; intros a H1 H2 Hws; [done|]. destruct Hws as [Hw1 Hws]. cbn [length] in H2. split; [|apply IH; [lia | lia | exact Hws]].
      rewrite <- Hw1. apply ld32_ext. intros b Hb. apply Hmem. lia. }
    apply Hk; [lia | cbn; lia | exact Hw].
  - assert (Hs : ld32 (switch_memory s m1) (leaving s) = saved_sp s).
    { unfold switch_memory. rewrite ld32_st32_ne, ld32_st32_eq by done. apply u32_small. unfold saved_sp. lia. }
    rewrite <- Hs. apply ld32_ext. intros b Hb. apply (ld_memory _ _ _ _ Hl). unfold disjoint in Htk. lia.
  - transitivity (ld32 (switch_memory s m1) current_task); [|unfold switch_memory; rewrite ld32_st32_eq; apply u32_small, ld32_range].
    apply ld32_ext. intros b Hb. apply (ld_memory _ _ _ _ Hl). unfold disjoint in Hcr. lia.
Qed.

(** The switch away. *)
Lemma wp_switch_away fuel s (Q : ending -> proc -> Prop) :
  switch_call s -> separate_stacks s -> (forall s3, leaves s s3 -> Q Leaves s3) ->
  wp (run_from la ad cf (22 + fuel) context_switch_program context_switch_asm) Q s.
Proof.
  intros Hcall Hsep HQ. apply wp_context_switch; [exact Hcall|]. intros m1 s3 Hs Hl.
  apply HQ. by apply (loaded_leaves s m1).
Qed.

(** The state in which the task that left in [s] goes on. *)
Record goes_on (s s' s4 : proc) : Prop := {
  go_saved r : r ∈ [EBX; ESI; EDI; EBP] -> gp s4 r = gp s r;
  go_stack : gp s4 ESP = gp s ESP + 4;
  go_control : eip s4 = return_address s /\ eflags s4 = Z.ldiff (eflags s) PUSHF_CLEARS;
  go_current : ld32 (mem s4) current_task = leaving s;
  go_segs r : sg s4 r = sg s' r;
  go_memory a : ~ switch_writes s' a -> ld8 (mem s4) a = ld8 (mem s') a;
}.

Lemma switch_back_target s s3 s' : leaves s s3 -> switch_back s s3 s' -> target s' = saved_sp s.
Proof. intros [_ Hk _ _ _] [_ [Hnx Hne] Hks _ _ _]. unfold target. rewrite decide_False by congruence. rewrite Hnx, Hks. exact Hk. Qed.

Lemma wp_switch_back fuel s s3 s' (Q : ending -> proc -> Prop) :
  switch_call s -> leaves s s3 -> switch_back s s3 s' -> (forall s4, goes_on s s' s4 -> Q Leaves s4) ->
  wp (run_from la ad cf (22 + fuel) context_switch_program context_switch_asm) Q s'.
Proof.
  intros Hcall Hleft Hback HQ. pose proof Hcall as [Hok Hroom Hc [Hlv Hcl] Hn Htg].
  pose proof (switch_back_target _ _ _ Hleft Hback) as Htgt. destruct Hleft as [Hw _ _ _ _]. destruct Hback as [Hcall' [Hnx Hne] Hks Hfr Hst Hlv'].
  apply wp_context_switch; [exact Hcall'|]. intros m1 s4 Hsv Hl4. pose proof (switch_memory_rest s' m1 s4) as Hrest. pose proof Hsv as [_ Hr1].
  pose proof Hcall' as [_ Hroom' Hc' [_ Hcl'] _ _]. set (m2 := switch_memory s' m1) in *.
  assert (Hmem : forall a, saved_sp s <= a < saved_sp s + 24 -> ld8 m2 a = ld8 (mem s3) a).
  { intros a Ha. rewrite <- Hfr by done. unfold m2, switch_memory, disjoint, saved_sp in *. rewrite !ld8_st32_ne by lia. apply Hr1. unfold saved_sp. lia. }
  assert (H32 : forall k, 0 <= k <= 20 -> ld32 m2 (saved_sp s + k) = ld32 (mem s3) (saved_sp s + k)).
  { intros k Hk'. apply ld32_ext. intros b Hb. apply Hmem. lia. }
  cbn [words saved_words] in Hw. destruct Hw as (Hw0 & Hw1 & Hw2 & Hw3 & Hw4 & Hw5 & _).
  pose proof Hl4 as [(Hb & Hsi & Hdi & Hbp) Hsp [Hip Hfl] Hsg Hm4]. rewrite Htgt in *.
  rewrite <- (Z.add_0_r (saved_sp s)), H32 in Hb by lia. rewrite H32 in Hsi, Hdi, Hbp, Hip, Hfl by lia.
  apply HQ. split.
  - intros r Hr. rewrite !elem_of_cons, elem_of_nil in Hr.
    destruct Hr as [->|[->|[->|[->|[]]]]]; [rewrite Hb, <- Hw0 | rewrite Hsi, <- Hw1 | rewrite Hdi, <- Hw2 | rewrite Hbp, <- Hw3]; f_equal; lia.
  - rewrite Hsp. unfold saved_sp. lia.
  - rewrite Hip, Hfl, <- Hw4, <- Hw5. split; f_equal; lia.
  - transitivity (ld32 m2 current_task); [|unfold m2, switch_memory; rewrite ld32_st32_eq, Hnx; apply u32_small, ld32_range].
    apply ld32_ext. intros b Hb'. apply Hm4. unfold disjoint, saved_sp in *. lia.
  - exact Hsg.
  - intros a. by apply Hrest.
Qed.

(** a task that is switched to again goes on where it left.  After a switch away
    from a task, whatever runs until the call that switches back to it, as long as
    its saved words and stack pointer stay as they were, the second switch returns to
    the first caller with its ebx, esi, edi and ebp, its flags, and the stack pointer
    a return leaves. *)
Theorem context_switch_resumes fuel s :
  switch_call s -> separate_stacks s -> (22 <= fuel)%nat ->
  exists s3, run_from la ad cf fuel context_switch_program context_switch_asm s = Done (Leaves, s3) /\
    forall s', switch_back s s3 s' ->
    exists s4, run_from la ad cf fuel context_switch_program context_switch_asm s' = Done (Leaves, s4) /\
      (forall r, r ∈ [EBX; ESI; EDI; EBP] -> gp s4 r = gp s r) /\ gp s4 ESP = gp s ESP + 4 /\ eip s4 = return_address s /\
      eflags s4 = Z.ldiff (eflags s) PUSHF_CLEARS /\ ld32 (mem s4) current_task = leaving s.
Proof.
  intros Hcall Hsep Hf. replace fuel with (22 + (fuel - 22))%nat by lia.
  assert (Hwp : wp (run_from la ad cf (22 + (fuel - 22)) context_switch_program context_switch_asm) (fun e s3 => e = Leaves /\ leaves s s3) s)
    by (by apply wp_switch_away).
  apply wp_value in Hwp as (s3 & Hrun & Hleft). exists s3. split; [exact Hrun|]. intros s' Hback. apply wp_value.
  eapply wp_switch_back; [exact Hcall | exact Hleft | exact Hback |].
  intros s4 [Hr Hsp [Hip Hfl] Hcur _ _]. split; [done|]. by split_and!.
Qed.
End switch.
