(* ===== verification/Preempt.v ===== *)
(** * Preemption: an interrupt whose handler switches to other tasks

    The composition of the stubs of interrupt.asm with the switch of
    context_switch.asm: the handler of a timer interrupt gives the processor away, and
    whatever runs until the task is switched to again, the interrupted code goes on
    with all of its registers. *)

From S2P Require Export IntStub CtxSwitch.

Section preempt.
Context `{!Processor} `{!TaskGlobals}.
(** Addresses and functions of the stubs and of the switch. *)
Context (la : label -> Z) (ad : nat -> Z) (cf : string -> M proc unit).

Definition call_switch : M proc unit :=
  run_from la ad cf 22 context_switch_program context_switch_asm;; mret tt.

(** The handler: C code up to the call of [context_switch], the switch away, the other
    tasks up to the call that switches back, that switch, and the C code behind. *)
Definition preempting (before : M proc unit) (others : proc -> proc) (after : M proc unit) : M proc unit :=
  before;; call_switch;; modify others;; call_switch;; after.

(** [m'] has the part of the kernel stack of [s] above the call of the handler. *)
Definition stack_kept (s : proc) (m m' : memory) : Prop :=
  forall a, frame_at s - 8 <= a < kernel_stack s -> ld8 m' a = ld8 m a.
Definition off_stack (s : proc) (b n : Z) : Prop := disjoint b n (frame_at s - 8) (kernel_stack s - (frame_at s - 8)).

(** The handler was entered with [s1] and calls [context_switch] in [c]: below its own
    frame, for another task, whose stack and structures are elsewhere. *)
Record gives_away (s s1 c : proc) : Prop := {
  ga_call : switch_call c;
  ga_separate : separate_stacks c;
  ga_below : gp c ESP + 4 <= frame_at s - 8;
  ga_stack : stack_kept s (mem s1) (mem c);
  ga_segs : sg c CS = sg s1 CS /\ sg c SS = sg s1 SS;
  ga_off : off_stack s (leaving c) 4 /\ off_stack s current_task 4 /\ off_stack s (target c + 12) 8;
}.

(** Another task switches back in [b], after the processor was left in [s3]. *)
Record gets_back (s c s3 b : proc) : Prop := {
  gb_back : switch_back c s3 b;
  gb_stack : stack_kept s (mem s3) (mem b);
  gb_segs : sg b CS = sg c CS /\ sg b SS = sg c SS;
  gb_off : off_stack s (saved_sp b) 24 /\ off_stack s (leaving b) 4;
}.

(** The C code of the handler keeps to the calling convention: it returns with the
    stack pointer and the segments of its entry and leaves the stack above alone. *)
Definition handler_resumes (s s1 : proc) (after : M proc unit) (P : memory -> Prop) (s4 : proc) : Prop :=
  wp after (fun _ s2 => gp s2 ESP = gp s1 ESP /\ (sg s2 CS = sg s1 CS /\ sg s2 SS = sg s1 SS) /\
    stack_kept s (mem s4) (mem s2) /\ P (mem s2)) s4.

Definition preempts (s : proc) (v e : Z) (before : M proc unit) (others : proc -> proc) (after : M proc unit) (P : memory -> Prop) : Prop :=
  forall s1, handler_entry s v e s1 ->
    wp before (fun _ c => gives_away s s1 c /\
      forall s3, leaves c s3 -> gets_back s c s3 (others s3) /\
        forall s4, goes_on c (others s3) s4 -> handler_resumes s s1 after P s4) s1.

Lemma stack_kept_trans s m1 m2 m3 : stack_kept s m1 m2 -> stack_kept s m2 m3 -> stack_kept s m1 m3.
Proof. intros H1 H2 a Ha. by rewrite H2, H1. Qed.

(** A switch elsewhere writes nothing of the stack above the handler's call. *)
Lemma switch_off_stack s x m :
  off_stack s (saved_sp x) 24 -> off_stack s (leaving x) 4 -> off_stack s current_task 4 -> off_stack s (target x + 12) 8 ->
  (forall a, ~ switch_writes x a -> ld8 m a = ld8 (mem x) a) -> stack_kept s (mem x) m.
Proof.
  intros H1 H2 H3 H4 Hm a Ha. apply Hm. unfold switch_writes, off_stack, disjoint, saved_sp in *. lia.
Qed.

Lemma frame_of_kept s m m' :
  frame_of s m (frame_at s) -> stack_kept s m m' -> frame_of s m' (frame_at s).
Proof.
  intros Hf Hk.
  assert (H32 : forall k, 0 <= k -> frame_at s + k + 4 <= kernel_stack s -> ld32 m' (frame_at s + k) = ld32 m (frame_at s + k))
    by (intros k Hk0 Hk1; apply ld32_ext; intros b Hb; apply Hk; lia).
  assert (H16 : forall k, 0 <= k -> frame_at s + k + 4 <= kernel_stack s -> ld16 m' (frame_at s + k) = ld16 m (frame_at s + k))
    by (intros k Hk0 Hk1; rewrite !ld16_ld32, H32 by done; done).
  assert (H16' : ld16 m' (frame_at s) = ld16 m (frame_at s)).
  { pose proof (H16 0 ltac:(lia)) as Hz. rewrite Z.add_0_r in Hz. apply Hz. unfold frame_at, SIZEOF_REGS. destruct (0 <? cpl s); lia. }
  destruct Hf as [(Ha1 & Ha2 & Ha3 & Ha4) (Hb1 & Hb2 & Hb3 & Hb4 & Hb5 & Hb6 & Hb7) (Hc1 & Hc2 & Hc3) Hd].
  assert (Hsz : frame_at s + 68 <= kernel_stack s /\ (0 < cpl s -> frame_at s + 76 <= kernel_stack s)).
  { unfold frame_at, SIZEOF_REGS. destruct (Z.ltb_spec 0 (cpl s)); split; intros; lia. }
  unfold rg_gs, rg_fs, rg_es, rg_ds, rg_edi, rg_esi, rg_ebp, rg_ebx, rg_edx, rg_ecx, rg_eax, rg_eip, rg_cs, rg_eflags, rg_useresp, rg_ss in *.
  split; unfold rg_gs, rg_fs, rg_es, rg_ds, rg_edi, rg_esi, rg_ebp, rg_ebx, rg_edx, rg_ecx, rg_eax, rg_eip, rg_cs, rg_eflags, rg_useresp, rg_ss.
  - rewrite H16', !H16 by lia. done.
  - rewrite !H32 by lia. done.
  - rewrite !H32, H16 by lia. done.
  - intros Hu. rewrite H32, H16 by lia. by apply Hd.
Qed.

(** A handler that switches away and back returns with the frame as it found it. *)
Lemma preempting_returns s v e before others after P :
  preempts s v e before others after P ->
  handler_returns (preempting before others after) s v e (fun m => frame_of s m (frame_at s) /\ P m).
Proof.
  intros Hpre s1 Hen. specialize (Hpre s1 Hen). unfold preempting. wp_step. eapply wp_mono; [exact Hpre|].
  intros [] c [[Hc Hsep Hbelow Hst Hseg (Ho1 & Ho2 & Ho3)] Hafter]. unfold call_switch. wp_step. wp_step.
  simple apply (wp_switch_away la ad cf 0); [exact Hc | exact Hsep |]. intros s3 Hl. wp_step.
  destruct (Hafter s3 Hl) as [[Hb Hbst Hbseg (Hb1 & Hb2)] Hres]. wp_step. wp_step. wp_step. wp_step.
  eapply (wp_switch_back la ad cf 0 c s3); [exact Hc | exact Hl | exact Hb |]. intros s4 Hgo. wp_step.
  pose proof (switch_back_target _ _ _ Hl Hb) as Htb.
  assert (Hoff : off_stack s (saved_sp c) 24) by (unfold off_stack, disjoint, saved_sp in *; lia).
  assert (Hk13 : stack_kept s (mem s1) (mem s3)) by (eapply stack_kept_trans; [exact Hst | apply (switch_off_stack s c); [done.. | exact (lv_memory _ _ Hl)]]).
  assert (Hk34 : stack_kept s (mem (others s3)) (mem s4)).
  { apply (switch_off_stack s (others s3)); [exact Hb1 | exact Hb2 | exact Ho2 | | exact (go_memory _ _ _ Hgo)].
    rewrite Htb. unfold off_stack, disjoint, saved_sp in *. lia. }
  assert (Hk14 : stack_kept s (mem s1) (mem s4)) by (eapply stack_kept_trans; [exact Hk13 | by eapply stack_kept_trans]).
  eapply wp_mono; [exact (Hres s4 Hgo)|]. intros [] s2 (H1 & H2 & H3 & H4).
  pose proof (stack_kept_trans _ _ _ _ Hk14 H3) as Hk12. split_and!; [exact H1 | apply H2 | apply H2 | | | exact H4].
  - apply ld32_ext. intros a Ha. apply Hk12. rewrite (he_sp _ _ _ _ Hen) in Ha. unfold frame_at, SIZEOF_REGS in *.
    destruct (0 <? cpl s); lia.
  - eapply frame_of_kept; [exact (he_frame _ _ _ _ Hen) | exact Hk12].
Qed.
End preempt.

(** C6: a preempted task goes on as if nothing had happened.  When the handler of an
    interrupt calls [context_switch] for another task, and a later call of
    [context_switch] by any other task switches back, with the kernel stack of the first
    task left alone in between, the interrupted code, in the kernel or in user mode,
    goes on with all of its registers, segments, flags and its stack pointer. *)
Theorem preempted_task_resumes `{!Processor} `{!TaskGlobals} la ad cf fuel fi fq v e before others after P s :
  v ∈ vectors -> proc_ok s -> 0 <= e < 4294967296 -> segments_usable s ->
  8 <= frame_at s -> kernel_stack s < 4294967296 -> (27 <= fuel)%nat ->
  preempts s v (frame_error v e) before others after P ->
  exists s5, interrupt la ad (fun _ => preempting la ad cf before others after) fuel fi fq v e s = Done (Leaves, s5) /\ P (mem s5) /\
    (forall r, gp s5 r = gp s r) /\ (forall r, sg s5 r = sg s r) /\ eip s5 = eip s /\ eflags s5 = eflags s.
Proof.
  intros Hv Hs He Hseg H8 HK Hf Hp. apply wp_value.
  eapply wp_interrupt_kept; [exact Hv | exact Hs | exact He | exact Hseg | exact H8 | exact HK | exact Hf | by apply preempting_returns |].
  intros s5 H1 H2 H3 H4 H5. by split_and!.
Qed.
