(* ===== verification/BootAsm.v ===== *)
(** * entry.asm, sys/usermode.asm and the start of user programs

    The way from the boot loader to [kernel_main] with the boot page directory, the
    way to user mode, and the start of a user program. *)

From S2P Require Export Stubs.

(** ** What the processor does with the boot page directory *)

(** The translation of an address by a directory of 4 MB pages. *)
Definition large_translate (dir : list Z) (va : Z) : option Z :=
  match dir !! Z.to_nat (va / 4194304) with
  | Some e => if Z.testbit e 0 && Z.testbit e 7 then Some (Z.land e 0xffc00000 + va mod 4194304) else None
  | None => None
  end.

(** C22: the boot page directory maps 4 MB twice.  With 4 MB pages it translates the
    first 4 MB of addresses to themselves, the 4 MB from the base of the kernel on to
    the same 4 MB of physical memory, and nothing else; and the words of the header
    for the boot loader add up to 0, with the length it gives. *)
Theorem boot_address_space va :
  0 <= va < 4294967296 ->
  large_translate boot_page_dir_words va =
    (if va <? 4194304 then Some va
     else if (KERNEL_VIRTUAL_BASE <=? va) && (va <? KERNEL_VIRTUAL_BASE + 4194304) then Some (va - KERNEL_VIRTUAL_BASE)
     else None) /\
  foldr Z.add 0 (take 4 multiboot2_header) mod 4294967296 = 0 /\ 4 * Z.of_nat (length multiboot2_header) = header_length /\
  length boot_page_dir_words = 1024%nat.
Proof.
  intros Hva. split; [|by vm_compute]. unfold large_translate, boot_page_dir_words. unfold KERNEL_VIRTUAL_BASE.
  change (Z.to_nat (KERNEL_PAGE_NUMBER - 1)) with 767%nat. change (Z.to_nat (1024 - KERNEL_PAGE_NUMBER - 1)) with 255%nat.
  destruct (Z.ltb_spec va 4194304) as [H0|H0].
  { rewrite Z.div_small, Z.mod_small by lia. done. }
  assert (Hq : 1 <= va / 4194304 < 1024) by (Z.div_mod_to_equations; lia).
  rewrite lookup_app_r by (cbn [length]; lia). cbn [length].
  destruct (decide (va / 4194304 < 768)) as [Hlow|Hlow].
  { rewrite lookup_app_l by (rewrite length_replicate; lia). rewrite lookup_replicate_2 by lia. cbn.
    replace (3221225472 <=? va) with false; [done|]. symmetry. apply Z.leb_gt. Z.div_mod_to_equations. lia. }
  rewrite lookup_app_r by (rewrite length_replicate; lia). rewrite length_replicate.
  destruct (decide (va / 4194304 = 768)) as [He|He].
  - replace (Z.to_nat (va / 4194304) - 1 - 767)%nat with 0%nat by lia. cbn [app lookup list_lookup].
    replace ((3221225472 <=? va) && (va <? 3221225472 + 4194304)) with true; [change (Z.testbit 131 0 && Z.testbit 131 7) with true; change (Z.land 131 4290772992) with 0; cbv match; f_equal; Z.div_mod_to_equations; lia|].
    symmetry. apply andb_true_iff. split; [apply Z.leb_le | apply Z.ltb_lt]; Z.div_mod_to_equations; lia.
  - rewrite lookup_app_r by (cbn [length]; lia). cbn [length]. rewrite lookup_replicate_2 by lia. cbn.
    replace (va <? 3221225472 + 4194304) with false; [by destruct (3221225472 <=? va)|]. symmetry. apply Z.ltb_ge. Z.div_mod_to_equations. lia.
Qed.

Section boot.
Context `{!Processor}.
Context (la : label -> Z) (ad : nat -> Z) (cf : string -> M proc unit).
Context (boot_page_dir stack_top : Z).

(** ** entry.asm *)

(** The state in which [kernel_main] is called: paging with 4 MB pages on the boot
    directory, interrupts off, and the magic number and the address of the boot
    information as arguments. *)
Record kernel_entry (s s1 : proc) : Prop := {
  ke_cr3 : crg s1 CR3 = boot_page_dir - KERNEL_VIRTUAL_BASE;
  ke_cr4 : crg s1 CR4 = Z.lor (crg s CR4) 0x10;
  ke_cr0 : crg s1 CR0 = Z.lor (crg s CR0) 0x80000000;
  ke_flags : Z.testbit (eflags s1) IF_BIT = false /\ Z.testbit (eflags s1) DF_BIT = false;
  ke_stack : gp s1 ESP = stack_top - 12;
  ke_magic : ld32 (mem s1) (stack_top - 8) = gp s EAX;
  ke_info : ld32 (mem s1) (stack_top - 4) = u32 (gp s EBX + KERNEL_VIRTUAL_BASE);
  ke_memory a : a < stack_top - 12 \/ stack_top <= a -> ld8 (mem s1) a = ld8 (mem s) a;
}.

Lemma testbit_with_status fl cf' af ovf res i :
  i = IF_BIT \/ i = DF_BIT -> Z.testbit (with_status fl cf' af ovf res) i = Z.testbit fl i.
Proof.
  intros Hi. unfold with_status. rewrite Z.lor_spec, Z.ldiff_spec.
  assert (Hst : Z.testbit STATUS_FLAGS i = false) by (by destruct Hi as [->| ->]).
  rewrite Hst. cbn [negb]. rewrite andb_true_r.
  match goal with |- _ || ?b = _ => assert (b = false) as ->; [|by rewrite orb_false_r] end.
  generalize (even_parity res) as b1, (res =? 0) as b2, (Z.testbit res 31) as b3. intros b3 b2 b1.
  by destruct Hi as [-> | ->], cf', af, ovf, b1, b2, b3.
Qed.

Lemma testbit_cleared fl i : 0 <= i -> Z.testbit (Z.ldiff fl (2 ^ i)) i = false.
Proof. intros Hi. rewrite Z.ldiff_spec, Z.pow2_bits_eqb, Z.eqb_refl by lia. apply andb_false_r. Qed.

Lemma testbit_kept fl i j : 0 <= i -> i <> j -> Z.testbit (Z.ldiff fl (2 ^ j)) i = Z.testbit fl i.
Proof.
  intros Hi Hne. rewrite Z.ldiff_spec. destruct (decide (0 <= j)); [|by rewrite Z.pow_neg_r, Z.testbit_0_l, andb_true_r by lia].
  rewrite Z.pow2_bits_eqb, (proj2 (Z.eqb_neq j i)) by lia. apply andb_true_r.
Qed.

(** the start code hands over to [kernel_main].  From any state of the processor
    it turns paging on with the boot directory and 4 MB pages, switches interrupts
    off, and calls [kernel_main] on the boot stack with the magic number of the boot
    loader and the address of its information above the base of the kernel; when
    [kernel_main] returns, the processor halts with interrupts off. *)
Theorem start_calls_kernel_main fuel s :
  proc_ok s -> la start <> la higher_half -> KERNEL_VIRTUAL_BASE <= boot_page_dir < 4294967296 -> 12 <= stack_top < 4294967296 ->
  (forall s1, kernel_entry s s1 -> wp (cf "kernel_main") (fun _ s2 => gp s2 ESP = gp s1 ESP /\
     ld32 (mem s2) (gp s1 ESP) = ld32 (mem s1) (gp s1 ESP)) s1) ->
  (25 <= fuel)%nat ->
  exists s3, run_from la ad cf fuel (entry_asm boot_page_dir stack_top) start s = Done (Halts, s3) /\ Z.testbit (eflags s3) IF_BIT = false.
Proof.
  intros Hs Hla Hdir Htop Hmain Hf. replace fuel with (25 + (fuel - 25))%nat by lia. apply wp_value. pose proof (ok_gp _ Hs) as Hgp.
  unfold run_from. change (position start (entry_asm boot_page_dir stack_top)) with (Some 0%nat). cbv match. cbn [plus].
  assert (Hj : label_at la (la higher_half) (entry_asm boot_page_dir stack_top) = Some higher_half).
  { cbn. rewrite (proj2 (Z.eqb_neq _ _) Hla). by rewrite Z.eqb_refl. }
  set (p := entry_asm boot_page_dir stack_top) in *.
  assert (Hcode : code_at p 0 (entry_asm boot_page_dir stack_top)) by (intros i x Hi; by rewrite Nat.add_0_r).
  assert (Hhigh : code_at p 11 (drop 11 (entry_asm boot_page_dir stack_top))) by (by intros i x Hi; rewrite lookup_drop in Hi; rewrite Nat.add_comm).
  assert (Hpos : position higher_half p = Some 11%nat) by reflexivity.
  apply wp_eta. unfold entry_asm in Hcode, Hhigh. cbn [drop] in Hhigh.
  asm_next. intros Hcode. do 9 (asm_next; reg_simpl; intros Hcode).
  asm_next. reg_simpl. rewrite Hj. mstep. exists 11%nat. split; [exact Hpos|]. rename Hhigh into Hcode.
  do 4 (asm_next; reg_simpl; intros Hcode). asm_next; reg_simpl. intros Hcode. asm_next; reg_simpl; intros Hcode.
  pose proof (stk_empty (p_mem s) (stack_top - 12) stack_top ltac:(lia) ltac:(lia)) as Hst. rewrite (u32_small stack_top) in * by lia.
  do 2 (asm_next; push_next; mstep; reg_simpl; intros Hcode). rewrite u32_idemp, (u32_small (gp s EAX)) in Hst by apply Hgp.
  asm_next; push_next; mstep; reg_simpl. replace (stack_top - 4 - 4 - 4) with (stack_top - 12) in * by lia.
  pose proof (stk_words _ _ _ _ _ _ Hst) as (Hw0 & Hw1 & Hw2 & _).
  match goal with |- wp _ _ ?s' => set (s1 := s') end.
  assert (Hen : kernel_entry s s1).
  { subst s1. split; cbn [gp sg crg eflags mem p_mem HasMem_proc]; reg_simpl; try done.
    - apply u32_small. unfold KERNEL_VIRTUAL_BASE in *. lia.
    - rewrite !testbit_with_status by auto. split; [|by apply testbit_cleared]. rewrite testbit_kept by done. by apply testbit_cleared.
    - rewrite <- Hw1. f_equal. lia.
    - rewrite <- Hw2. f_equal. lia.
    - intros a Ha. apply (stk_rest _ _ _ _ _ _ Hst). lia. }
  eapply wp_mono; [exact (Hmain s1 Hen)|]. intros [] [g2 x2 c2 f2 i2 m2] (Hsp2 & Hret). cbn [gp mem p_mem HasMem_proc] in *. subst s1.
  cbn [gp p_mem] in *. cbn [reg_upd reg_num Z.eqb Pos.eqb] in Hsp2, Hret.
  eapply wp_bind, (wp_pop32 _ (stack_top - 12)); [done | lia | lia |]. rewrite Hret, Hw0, Z.eqb_refl. mstep. intros Hcode.
  asm_next. reg_simpl. intros Hcode. asm_next. intros Hcode. asm_next. split; [done|]. by apply testbit_cleared.
Qed.

(** ** sys/usermode.asm *)

(** Where user code starts and what its stack holds. *)
Definition user_entry (s : proc) : Z := ld32 (mem s) (gp s ESP + 4).
Definition user_word (s : proc) : Z := ld32 (mem s) (gp s ESP + 12).

(** the way to user mode.  The run ends in user code at privilege level 3 with
    user segments and interrupts on, and with the third argument on the user stack;
    but the first argument is both the address at which user code starts and, less
    the 4 bytes of that word, its stack pointer, so the word and whatever is pushed
    next lie directly below the first instruction. *)
Theorem switch_to_user_enters fuel s :
  proc_ok s -> cpl s = 0 -> 3 <= dpl 0x23 -> 20 <= gp s ESP -> gp s ESP + 16 < 4294967296 -> 4 <= user_entry s ->
  disjoint (user_entry s - 4) 4 (gp s ESP - 20) 36 -> (22 <= fuel)%nat ->
  exists s3, run_from la ad cf fuel usermode_asm switch_to_user s = Done (Leaves, s3) /\
    eip s3 = user_entry s /\ gp s3 ESP = user_entry s - 4 /\ ld32 (mem s3) (gp s3 ESP) = user_word s /\
    cpl s3 = 3 /\ (forall r, r ∈ [SS; DS; ES; FS; GS] -> sg s3 r = 0x23) /\ Z.testbit (eflags s3) IF_BIT = true /\
    (forall a, a < gp s ESP - 20 \/ gp s ESP <= a -> a < user_entry s - 4 \/ user_entry s <= a -> ld8 (mem s3) a = ld8 (mem s) a).
Proof.
  intros Hs Hl Hdpl Hlo Hhi He Hd Hf. replace fuel with (22 + (fuel - 22))%nat by lia. apply wp_value. unfold cpl in Hl.
  assert (He32 : 0 <= user_entry s < 4294967296) by apply ld32_range. assert (Hw32 : 0 <= user_word s < 4294967296) by apply ld32_range.
  set (sp := gp s ESP) in *. set (m := st32 (mem s) (user_entry s - 4) (user_word s)).
  pose proof (stk_empty m (sp - 20) sp ltac:(lia) ltac:(lia)) as Hst. unfold run_from.
  change (position switch_to_user usermode_asm) with (Some 0%nat). cbv match. cbn [plus].
  assert (Hcode : code_at usermode_asm 0 usermode_asm) by (intros i x Hi; by rewrite Nat.add_0_r). unfold usermode_asm in Hcode at 2.
  apply wp_eta. asm_next; intros Hcode. do 6 (asm_next; reg_simpl; intros Hcode). rewrite !u16_mov16 by done.
  match goal with |- wp _ _ (Proc (reg_upd EAX ?v _) _ _ _ _ _) => generalize v as ax; intros ax end.
  asm_next; reg_simpl. fold sp. rewrite (u32_small (sp + 4)) by lia. change (ld32 (p_mem s) (sp + 4)) with (user_entry s). intros Hcode.
  asm_next; reg_simpl. rewrite (u32_small (user_entry s - 4)) by lia. intros Hcode.
  asm_next; reg_simpl. fold sp. rewrite (u32_small (sp + 12)) by lia. change (ld32 (p_mem s) (sp + 12)) with (user_word s). intros Hcode.
  asm_next; reg_simpl. rewrite Z.add_0_r, (u32_small (user_entry s - 4)) by lia. change (st32 (p_mem s) (user_entry s - 4) (user_word s)) with m. intros Hcode.
  asm_next; reg_simpl. fold sp. rewrite (u32_small (sp + 4)) by lia. intros Hcode.
  assert (Ha : ld32 m (sp + 4) = user_entry s) by (unfold m; rewrite ld32_st32_ne; [done | unfold disjoint in *; lia]). rewrite Ha.
  match goal with |- wp _ _ (Proc _ _ _ ?f _ _) => generalize f as fl; intros fl end.
  do 3 (asm_next; push_next; mstep; reg_simpl; intros Hcode). asm_next; pop_next. mstep. reg_simpl. intros Hcode.
  apply stk_pop in Hst as (Hst & Hfl & _). rewrite Hfl. generalize (u32 (Z.ldiff fl PUSHF_CLEARS)) as w. intros w.
  match type of Hst with stk _ _ _ ?m _ _ => clear Hfl end. asm_next; reg_simpl. intros Hcode.
  do 3 (asm_next; push_next; mstep; reg_simpl; intros Hcode). rewrite !u32_idemp in Hst.
  match type of Hst with stk _ _ _ ?m ?k _ => set (mE := m) in *; replace k with (sp - 20) in * by lia end.
  pose proof (stk_words _ _ _ _ _ _ Hst) as (Hw0 & Hw1 & Hw2 & Hw3 & Hw4 & _). rewrite (u32_small (user_entry s)) in Hw0 by lia.
  rewrite (u32_small (user_entry s - 4)) in Hw3 by lia.
  assert (Hcs : ld16 mE (sp - 20 + 4) = 0x1b) by (by rewrite ld16_ld32, Hw1).
  assert (Hss : ld16 mE (sp - 20 + 16) = 0x23) by (rewrite ld16_ld32; replace (sp - 20 + 16) with (sp - 20 + 4 + 4 + 4 + 4) by lia; by rewrite Hw4).
  asm_next. eapply (wp_iret_outer _ (sp - 20)); [reg_simpl; lia | lia | lia | rewrite Hcs; reg_simpl; rewrite Hl; done | |].
  { intros r Hr. rewrite Hcs, !elem_of_cons, elem_of_nil in *. right. destruct Hr as [->|[->|[->|[->|[]]]]]; exact Hdpl. }
  rewrite Hcs, Hss, Hw0. replace (sp - 20 + 8) with (sp - 20 + 4 + 4) by lia. replace (sp - 20 + 12) with (sp - 20 + 4 + 4 + 4) by lia. rewrite Hw2, Hw3.
  intros g' Hsp' Hg'. mstep. cbn [gp sg eip eflags mem p_mem HasMem_proc]. rewrite Hsp'.
  assert (Hout : forall a, a < sp - 20 \/ sp <= a -> ld8 mE a = ld8 m a) by (intros a Ha'; by apply (stk_rest _ _ _ _ _ _ Hst)).
  split_and!; try done.
  - transitivity (ld32 m (user_entry s - 4)); [|unfold m; rewrite ld32_st32_eq; by apply u32_small].
    apply ld32_ext. intros b Hb. apply Hout. unfold disjoint in Hd. lia.
  - intros r Hr. rewrite !elem_of_cons, elem_of_nil in Hr. by destruct Hr as [->|[->|[->|[->|[->|[]]]]]].
  - rewrite testbit_u32 by (unfold IF_BIT; lia). rewrite Z.lor_spec. by apply orb_true_r.
  - intros a Ha1 Ha2. rewrite Hout by done. unfold m. apply ld8_st32_ne. lia.
Qed.

(** ** userland/start.asm *)

(** The words on top of the user stack become the arguments of [main] as they are,
    and when [main] returns, control goes to the first of them. *)
Theorem user_start_calls_main fuel s w0 w1 w2 :
  words (mem s) (gp s ESP) [w0; w1; w2] -> 4 <= gp s ESP -> gp s ESP + 12 < 4294967296 ->
  (forall s1, gp s1 ESP = gp s ESP - 4 -> words (mem s1) (gp s ESP) [w0; w1; w2] ->
     wp (cf "main") (fun _ s2 => gp s2 ESP = gp s1 ESP /\ ld32 (mem s2) (gp s1 ESP) = ld32 (mem s1) (gp s1 ESP) /\
       ld32 (mem s2) (gp s ESP) = w0) s1) ->
  (9 <= fuel)%nat ->
  exists s3, run_from la ad cf fuel start_asm user_start s = Done (Leaves, s3) /\ eip s3 = w0 /\ gp s3 ESP = gp s ESP + 4.
Proof.
  intros (Hw0 & Hw1 & Hw2 & _) Hlo Hhi Hmain Hf. replace fuel with (9 + (fuel - 9))%nat by lia. apply wp_value. set (sp := gp s ESP) in *.
  assert (Hr : forall w a, ld32 (mem s) a = w -> u32 w = w) by (intros w a <-; apply u32_ld32).
  pose proof (stk_empty (p_mem s) (sp - 4) (sp + 12) ltac:(lia) ltac:(lia)) as Hst. unfold run_from.
  change (position user_start start_asm) with (Some 0%nat). cbv match. cbn [plus].
  assert (Hcode : code_at start_asm 0 start_asm) by (intros i x Hi; by rewrite Nat.add_0_r). unfold start_asm in Hcode at 2.
  apply wp_eta. asm_next; intros Hcode. do 3 (asm_next; pop_next; mstep; reg_simpl; intros Hcode).
  change (p_mem s) with (mem s). fold sp. rewrite Hw0, Hw1, Hw2.
  change (p_mem s) with (mem s) in Hst.
  replace (sp + 4 + 4 + 4) with (sp + 12) by lia. do 3 (asm_next; push_next; mstep; reg_simpl; intros Hcode).
  rewrite (Hr w0 _ Hw0), (Hr w1 _ Hw1), (Hr w2 _ Hw2) in Hst.
  asm_next; push_next; mstep; reg_simpl. replace (sp + 12 - 4 - 4 - 4 - 4) with (sp - 4) in * by lia.
  pose proof (stk_words _ _ _ _ _ _ Hst) as (Hv & Hv0 & Hv1 & Hv2 & _). replace (sp - 4 + 4) with sp in * by lia.
  match goal with |- wp _ _ ?s' => set (s1 := s') end.
  eapply wp_mono; [apply (Hmain s1); [done | split_and!; done]|]. intros [] [gZ xZ cZ fZ iZ mZ] (Hsp2 & Hret & Hfirst). subst s1.
  cbn [gp mem p_mem HasMem_proc] in *. cbn [reg_upd reg_num Z.eqb Pos.eqb] in *.
  eapply wp_bind, (wp_pop32 _ (sp - 4)); [done | lia | lia |]. rewrite Hret, Hv, Z.eqb_refl. mstep. intros Hcode.
  asm_next. eapply (wp_pop32 _ sp); [reg_simpl; lia | lia | lia |]. repeat mstep. cbn [gp eip]. reg_simpl. split_and!; [done | exact Hfirst | lia].
Qed.

Lemma init_main_stuck {S} fuel (s : S) : init_main fuel s = NoFuel.
Proof. by induction fuel. Qed.
End boot.
