(* ===== verification/Features.v ===== *)
(** * cpu/cpuid.c and cpu/fpu.c: processor features

    The feature words of the processor and their names, and the handler that
    switches the floating-point unit between tasks.  What the processor answers to
    [cpuid] and what its floating-point registers hold are parameters. *)

From S2P Require Export Task.
From Stdlib Require Import String.

(** ** cpuid.c *)

(** The answers of the processor to the leaf 1. *)
Record cpuid_leaf := Cpuid { cpuid_eax : Z; cpuid_ebx : Z; cpuid_ecx : Z; cpuid_edx : Z }.

Definition CPUID_FEAT_EDX_FPU : Z := Z.shiftl 1 0.

Definition check_ecx_feature (leaf : cpuid_leaf) (feature : Z) : Z := s32 (Z.land (cpuid_ecx leaf) feature).
Definition check_edx_feature (leaf : cpuid_leaf) (feature : Z) : Z := s32 (Z.land (cpuid_edx leaf) feature).

(** The words of [vendor_string] from the answers to the leaf 0, and the characters
    [print_cpu_vendor] prints of them: up to the first NUL. *)
Definition vendor_string (leaf0 : cpuid_leaf) : list Z := [cpuid_ebx leaf0; cpuid_edx leaf0; cpuid_ecx leaf0; 0].

Fixpoint until_nul (bs : list Z) : list Z :=
  match bs with
  | [] => []
  | b :: bs' => if b =? 0 then [] else b :: until_nul bs'
  end.

Definition print_cpu_vendor (leaf0 : cpuid_leaf) : list Z :=
  until_nul (vendor_string leaf0 ≫= (fun w => [u8 w; u8 (Z.shiftr w 8); u8 (Z.shiftr w 16); u8 (Z.shiftr w 24)])).

(** The vendor of the processors of Intel. *)
Example print_cpu_vendor_intel :
  print_cpu_vendor (Cpuid 0 0x756e6547 0x6c65746e 0x49656e69) = [71; 101; 110; 117; 105; 110; 101; 73; 110; 116; 101; 108].
Proof. reflexivity. Qed.

Local Open Scope string_scope.
Local Open Scope Z_scope.

(** The tables of names; the entries behind the last name are NULL. *)
Definition edx_feature_flags : list string :=
  ["fpu"; "vme"; "de"; "pse"; "tsc"; "msr"; "pae"; "mce"; "cx8"; "apic"; "sep"; "mtrr"; "pge"; "mca"; "cmov"; "pat"; "pse36";
   "psn"; "clflush"; "ds"; "acpi"; "mmx"; "fxsr"; "sse"; "sse2"; "ss"; "htt"; "tm"; "ia64"; "pbe"].
Definition ecx_feature_flags : list string :=
  ["sse3"; "pclmul"; "dtes64"; "monitor"; "ds_cpl"; "vmx"; "smx"; "est"; "tm2"; "ssse3"; "cid"; "sdbg"; "fma"; "cx16"; "xtpr";
   "pdcm"; "pcid"; "dca"; "sse4_1"; "sse4_2"; "x2apic"; "movbe"; "popcnt"; "tsc"; "aes"; "xsave"; "osxsave"; "avx"; "f16c";
   "rdrand"; "hypervisor"].

(** One of the two loops of [print_cpu_features]: the names that are printed, [None]
    where the entry is NULL. *)
Fixpoint print_flags (n : nat) (i word : Z) (names : list string) : list (option string) :=
  match n with
  | O => []
  | S n' =>
      (if negb (Z.land word (Z.shiftl 1 i) =? 0) then [names !! Z.to_nat i] else []) ++ print_flags n' (i + 1) word names
  end.

(** The format strings [kprintf] is called with, with the argument of a name. *)
Inductive feature_line := Header | Flag (name : option string) | Newline.

Definition print_cpu_features (leaf : cpuid_leaf) : list feature_line :=
  [Header] ++ (Flag <$> print_flags 31 0 (cpuid_edx leaf) edx_feature_flags) ++
  (Flag <$> print_flags 31 0 (cpuid_ecx leaf) ecx_feature_flags) ++ [Newline].

Lemma print_flags_elem n i word names x :
  0 <= i -> x ∈ print_flags n i word names <->
  exists j, i <= j < i + Z.of_nat n /\ Z.testbit word j = true /\ x = names !! Z.to_nat j.
Proof.
  revert i. induction n as [|n IH]; intros i Hi; cbn [print_flags].
  - rewrite elem_of_nil. split; [done | intros (j & Hj & _); lia].
  - rewrite elem_of_app, IH, land_bit_eqb, negb_involutive by lia. split.
    + intros [Hx|(j & Hj & Hb & ->)]; [|exists j; split; [lia | done]].
      destruct (Z.testbit word i) eqn:Eb; [|by apply not_elem_of_nil in Hx]. apply list_elem_of_singleton in Hx as ->. exists i. split; [lia | done].
    + intros (j & Hj & Hb & ->). destruct (decide (j = i)) as [->|Hne]; [left; rewrite Hb; by left | right; exists j; split; [lia | done]].
Qed.

(** The bits of the macros CPUID_FEAT_EDX_* and CPUID_FEAT_ECX_*, by the names of the
    tables. *)
Definition edx_feature_bits : list (string * Z) :=
  [("fpu", 0); ("vme", 1); ("de", 2); ("pse", 3); ("tsc", 4); ("msr", 5); ("pae", 6); ("mce", 7); ("cx8", 8); ("apic", 9);
   ("sep", 11); ("mtrr", 12); ("pge", 13); ("mca", 14); ("cmov", 15); ("pat", 16); ("pse36", 17); ("psn", 18); ("clflush", 19);
   ("ds", 21); ("acpi", 22); ("mmx", 23); ("fxsr", 24); ("sse", 25); ("sse2", 26); ("ss", 27); ("htt", 28); ("tm", 29);
   ("ia64", 30); ("pbe", 31)].
Definition ecx_feature_bits : list (string * Z) :=
  [("sse3", 0); ("pclmul", 1); ("dtes64", 2); ("monitor", 3); ("ds_cpl", 4); ("vmx", 5); ("smx", 6); ("est", 7); ("tm2", 8);
   ("ssse3", 9); ("cid", 10); ("sdbg", 11); ("fma", 12); ("cx16", 13); ("xtpr", 14); ("pdcm", 15);
   ("pcid", 17); ("dca", 18); ("sse4_1", 19); ("sse4_2", 20); ("x2apic", 21); ("movbe", 22); ("popcnt", 23); ("tsc", 24);
   ("aes", 25); ("xsave", 26); ("osxsave", 27); ("avx", 28); ("f16c", 29); ("rdrand", 30); ("hypervisor", 31)].

(** The name at the position of a feature is right exactly in front of the first
    reserved bit. *)
Definition named_right (flags : list string) (first : Z) (fb : string * Z) : bool :=
  Bool.eqb (bool_decide (flags !! Z.to_nat fb.2 = Some fb.1)) (fb.2 <? first).

Lemma feature_names_shifted fb :
  (fb ∈ edx_feature_bits -> edx_feature_flags !! Z.to_nat fb.2 = Some fb.1 <-> fb.2 < 10) /\
  (fb ∈ ecx_feature_bits -> ecx_feature_flags !! Z.to_nat fb.2 = Some fb.1 <-> fb.2 < 16).
Proof.
  assert (He : forallb (named_right edx_feature_flags 10) edx_feature_bits = true) by by vm_compute.
  assert (Hc : forallb (named_right ecx_feature_flags 16) ecx_feature_bits = true) by by vm_compute.
  rewrite forallb_forall in He, Hc. unfold named_right in *.
  split; intros Hin%list_elem_of_In; [specialize (He _ Hin) as Hx | specialize (Hc _ Hin) as Hx];
    apply Bool.eqb_prop in Hx; rewrite <- Z.ltb_lt, <- Hx, bool_decide_eq_true; done.
Qed.

(** the names printed for the feature words are those of the tables at the
    positions of the set bits below 31.  The tables leave out the reserved bits, so
    a feature is printed under its name exactly when its bit is below the first
    reserved one, 10 in one word and 16 in the other. *)
Theorem print_cpu_features_names leaf :
  (forall name, Flag name ∈ print_cpu_features leaf <->
    exists i, 0 <= i < 31 /\
      ((Z.testbit (cpuid_edx leaf) i = true /\ name = edx_feature_flags !! Z.to_nat i) \/
       (Z.testbit (cpuid_ecx leaf) i = true /\ name = ecx_feature_flags !! Z.to_nat i))) /\
  (forall fb, (fb ∈ edx_feature_bits -> edx_feature_flags !! Z.to_nat fb.2 = Some fb.1 <-> fb.2 < 10) /\
    (fb ∈ ecx_feature_bits -> ecx_feature_flags !! Z.to_nat fb.2 = Some fb.1 <-> fb.2 < 16)).
Proof.
  split; [|exact feature_names_shifted]. intros name.
  unfold print_cpu_features. rewrite !elem_of_app, !list_elem_of_fmap. setoid_rewrite print_flags_elem; [|lia..]. split.
  - intros [Hx|[(y & [= <-] & j & Hj & Hb & ->)|[(y & [= <-] & j & Hj & Hb & ->)|Hx]]].
    + by apply list_elem_of_singleton in Hx.
    + exists j. split; [lia | by left].
    + exists j. split; [lia | by right].
    + by apply list_elem_of_singleton in Hx.
  - intros (j & Hj & [[Hb ->]|[Hb ->]]); right; [left | right; left]; eexists; (split; [done|]); exists j; (split; [lia | done]).
Qed.

(** ** fpu.c *)

(** The floating-point unit: the contents of its registers, the contents that
    [fxsave] stored by address, and whether the next use raises an exception; next
    to it the state with the tasks and the static variable. *)
Section fpu_c.
Context {contents : Type} (initial : contents) `{!TaskGlobals}.

Record fpu := Fpu {
  fpu_mem : memory;
  fpu_regs : contents;
  fpu_saved : gmap Z contents;
  task_switched : bool;
  last_fpu_task : Z;
  fpu_cr0 : Z;
  fpu_cr4 : Z;
}.

#[export] Instance HasMem_fpu : HasMem fpu := {|
  mem := fpu_mem;
  set_mem m s := Fpu m (fpu_regs s) (fpu_saved s) (task_switched s) (last_fpu_task s) (fpu_cr0 s) (fpu_cr4 s);
|}.
#[export] Instance MemLaws_fpu : MemLaws fpu.
Proof. split; [done | by intros [] | done]. Qed.

Definition clts : M fpu unit := modify (fun s =>
  Fpu (fpu_mem s) (fpu_regs s) (fpu_saved s) false (last_fpu_task s) (fpu_cr0 s) (fpu_cr4 s)).
Definition fninit : M fpu unit := modify (fun s =>
  Fpu (fpu_mem s) initial (fpu_saved s) (task_switched s) (last_fpu_task s) (fpu_cr0 s) (fpu_cr4 s)).
Definition fxsave (a : Z) : M fpu unit := modify (fun s =>
  Fpu (fpu_mem s) (fpu_regs s) (<[a := fpu_regs s]> (fpu_saved s)) (task_switched s) (last_fpu_task s) (fpu_cr0 s) (fpu_cr4 s)).
(** What an address holds that nothing was saved at is taken as [initial]. *)
Definition fxrstor (a : Z) : M fpu unit := modify (fun s =>
  Fpu (fpu_mem s) (default initial (fpu_saved s !! a)) (fpu_saved s) (task_switched s) (last_fpu_task s) (fpu_cr0 s) (fpu_cr4 s)).

Definition fpu_exception_handler : M fpu unit :=
  clts;;
  last ← gets last_fpu_task;
  (if negb (last =? 0) then
     cur ← load32 current_task; a ← load32 (tk_fpu_state cur); fxsave a
   else mret tt);;
  cur ← load32 current_task;
  used ← load8 (tk_fpu_used cur);
  (if used =? 0 then
     fninit;;
     cur ← load32 current_task;
     a ← load32 (tk_fpu_state cur);
     fxsave a;;
     cur ← load32 current_task;
     store8 (tk_fpu_used cur) 1
   else
     cur ← load32 current_task;
     a ← load32 (tk_fpu_state cur);
     fxrstor a);;
  cur ← load32 current_task;
  modify (fun s => Fpu (fpu_mem s) (fpu_regs s) (fpu_saved s) (task_switched s) cur (fpu_cr0 s) (fpu_cr4 s)).

(** The messages and the installed handler, when the processor has the unit. *)
Definition fpu_init (leaf : cpuid_leaf) : M fpu (list string * option (Z * string)) :=
  let enabling := "Enabling floating-point unit\n" in
  if check_edx_feature leaf CPUID_FEAT_EDX_FPU =? 0 then mret ([enabling; "Builtin FPU not present\n"], None)
  else
    fninit;;
    modify (fun s => Fpu (fpu_mem s) (fpu_regs s) (fpu_saved s) (task_switched s) (last_fpu_task s) (Z.lor (fpu_cr0 s) 0x018) (fpu_cr4 s));;
    modify (fun s => Fpu (fpu_mem s) (fpu_regs s) (fpu_saved s) (task_switched s) (last_fpu_task s) (fpu_cr0 s) (Z.lor (fpu_cr4 s) 0x200));;
    mret ([enabling], Some (7, "fpu_exception_handler")).

(** the handler does not switch the registers.  After a task has used the unit,
    a second task that used it before gets the registers of the first one, not those
    that were saved for it, and they overwrite what was saved for it. *)
Theorem fpu_handler_leaks_registers s :
  let cur := ld32 (mem s) current_task in
  last_fpu_task s <> 0 -> ld8 (mem s) (tk_fpu_used cur) <> 0 ->
  exists s', fpu_exception_handler s = Done (tt, s') /\
    fpu_regs s' = fpu_regs s /\
    fpu_saved s' = <[ld32 (mem s) (tk_fpu_state cur) := fpu_regs s]> (fpu_saved s) /\
    task_switched s' = false /\ last_fpu_task s' = cur.
Proof.
  destruct s as [m regs saved ts last c0 c4]. unfold mem, HasMem_fpu. cbn [fpu_mem last_fpu_task fpu_regs fpu_saved].
  set (cur := ld32 m current_task). intros Hl%Z.eqb_neq Hu%Z.eqb_neq. set (a := ld32 m (tk_fpu_state cur)).
  exists (Fpu m regs (<[a := regs]> saved) false cur c0 c4). split; [|done].
  unfold fpu_exception_handler, clts, fxsave, fxrstor, load32, load8, modify, gets, mbind, M_bind, mret, M_ret, mem, HasMem_fpu.
  do 3 (cbv beta iota delta [fpu_mem last_fpu_task fpu_regs fpu_saved task_switched fpu_cr0 fpu_cr4 negb]; fold cur a; rewrite ?Hl, ?Hu).
  by rewrite lookup_insert_eq.
Qed.
End fpu_c.
