(* ===== verification/Boot.v ===== *)
(** * kernel.c: the order of initialisation

    [kernel_main] checks the boot information, finds the module that holds the
    initial file system and initialises the components in order.  The components
    have their own files and states; here a call of one is an operation of an
    interface, so that the order and the arguments of the calls can be stated. *)

From S2P Require Export Multiboot Vmm FsNode.

Definition MBOOT2_MAGIC : Z := 0x36d76289.
Definition module_mod_start (tag : Z) : Z := tag + 8.

(** include/memory/kheap.h *)
Definition KHEAP_START : Z := KERN_BASE + 0x00400000.
Definition KHEAP_MAX_ADDRESS : Z := KERN_BASE + 0x0FFFFFFF.

(** The calls of [kernel_main] and [stage2]. *)
Inductive boot_call :=
  | Serial_init | Gdt_init | Idt_init | Tss_init (num ss esp : Z)
  | Print_cpu_vendor | Print_cpu_features
  | Pmm_init (mb2 : Z) | Vmm_init | Kheap_init (start end_ max : Z)
  | Fpu_init | Timer_init (hz : Z) | Keyboard_init | Rtc_init
  | Vfs_init | Devfs_init | Tarfs_init (start end_ : Z)
  | Syscalls_init | Multitasking_init (func : Z)
  | Vga_clear | Vga_set_color (fg bg : Z).

Class Boot (S : Type) := { boot_op : boot_call -> M S unit }.

(** The addresses of [stage2] and of the banner, and whether TEXTMODE is defined. *)
Class BootGlobals := { stage2_fn : Z; welecome_banner : Z; VERSION_ALIAS : Z; TEXTMODE : bool }.

Section kernel_c.
Context {S : Type} `{HasMem S} `{!Logger S} `{!Boot S} `{!BootGlobals}.

(** The loop over the boot tags, with the values of [module_start] and
    [module_end]. *)
Fixpoint module_loop (fuel : nat) (tag module_start module_end : Z) : M S (Z * Z) :=
  match fuel with
  | O => out_of_fuel
  | Datatypes.S fuel' =>
      ty ← load32 (tag_type tag);
      bounds ← (if ty =? MBOOT2_TAG_MODULE then
                  a ← load32 (module_mod_start tag);
                  b ← load32 (module_mod_end tag);
                  mret (a +32 KERN_BASE, b +32 KERN_BASE)
                else mret (module_start, module_end));
      size ← load32 (tag_size tag);
      let tag := next_tag tag size in
      ty ← load32 (tag_type tag);
      if negb (ty =? MBOOT2_TAG_END) then module_loop fuel' tag bounds.1 bounds.2 else mret bounds
  end.

(** The calls behind the check. *)
Definition initialise (mb2 module_start module_end : Z) : list boot_call :=
  [Gdt_init; Idt_init; Tss_init 5 0x10 0; Print_cpu_vendor; Print_cpu_features;
   Pmm_init mb2; Vmm_init; Kheap_init KHEAP_START (KHEAP_START + KHEAP_INITIAL_SIZE) KHEAP_MAX_ADDRESS;
   Fpu_init; Timer_init 100; Keyboard_init; Rtc_init; Vfs_init; Devfs_init; Tarfs_init module_start module_end;
   Syscalls_init; Multitasking_init stage2_fn].

Fixpoint run_calls (l : list boot_call) : M S unit :=
  match l with
  | [] => mret tt
  | c :: l' => boot_op c;; run_calls l'
  end.

(** The calls in front of the check; the first two are compiled with TEXTMODE. *)
Definition open_output : list boot_call := (if TEXTMODE then [Vga_clear; Vga_set_color 15 0] else []) ++ [Serial_init].

Definition kernel_main (fuel : nat) (mboot2_magic mb2 : Z) : M S unit :=
  run_calls open_output;;
  if mboot2_magic =? MBOOT2_MAGIC then
    if negb (Z.land mb2 7 =? 0) then klog_op LevelErr "Multiboot2 info unaligned\n" []
    else
      bounds ← module_loop fuel (begin_tags mb2) 0 0;
      run_calls (initialise mb2 bounds.1 bounds.2)
  else klog_op LevelErr "Multiboot2 compatible bootloader not detected\n" [].

(** The task it starts: a banner, and then halting for ever. *)
Definition stage2 : M S unit :=
  boot_op (Vga_set_color 13 0);;
  klog_op LevelPlain "%s\t\t\t\tVersion %d.%d (%s)\n" [welecome_banner; 1; 0; VERSION_ALIAS];;
  out_of_fuel.
End kernel_c.

(** The bounds of the last module in a chain of tags, as virtual addresses. *)
Fixpoint last_module (m : memory) (l : list (Z * Z)) (bounds : Z * Z) : Z * Z :=
  match l with
  | [] => bounds
  | (p, t) :: l' =>
      last_module m l' (if t =? MBOOT2_TAG_MODULE
                        then (ld32 m (module_mod_start p) +32 KERN_BASE, ld32 m (module_mod_end p) +32 KERN_BASE) else bounds)
  end.

Section boot_specs.
Context {S : Type} `{MemLaws S} `{!Logger S} `{!Boot S} `{!BootGlobals}.

Lemma wp_module_loop fuel p l ms me (Q : Z * Z -> S -> Prop) s :
  tags (mem s) p l -> ld32 (mem s) (tag_type p) <> MBOOT2_TAG_END -> (length l <= fuel)%nat ->
  Q (last_module (mem s) l (ms, me)) s -> wp (module_loop fuel p ms me) Q s.
Proof.
  intros Hl. revert fuel ms me. induction Hl as [p Hp | p l Hp Hl IH]; intros fuel ms me Hne Hf HQ; [done|].
  destruct fuel as [|fuel]; cbn [length] in Hf; [lia|]. cbn [module_loop]. cbn [last_module] in HQ.
  set (b := if ld32 (mem s) (tag_type p) =? MBOOT2_TAG_MODULE
            then (ld32 (mem s) (module_mod_start p) +32 KERN_BASE, ld32 (mem s) (module_mod_end p) +32 KERN_BASE) else (ms, me)) in *.
  mstep. mstep. wp_step.
  assert (Hrest : wp (size ← load32 (tag_size p); ty ← load32 (tag_type (next_tag p size));
    if negb (ty =? MBOOT2_TAG_END) then module_loop fuel (next_tag p size) b.1 b.2 else mret b) Q s).
  { mstep. mstep. mstep. mstep. set (q := next_tag p (ld32 (mem s) (tag_size p))) in *.
    inversion Hl as [q' Hq | q' l' Hq Hl']; subst.
    - rewrite Hq. cbn [negb]. mstep. cbn [last_module] in HQ. exact HQ.
    - rewrite (proj2 (Z.eqb_neq _ _)) by done. cbn [negb]. destruct b as [b1 b2]. apply IH; [done | lia | exact HQ]. }
  destruct (ld32 (mem s) (tag_type p) =? MBOOT2_TAG_MODULE); repeat mstep; exact Hrest.
Qed.

(** with the magic number of the boot loader, aligned boot information and a
    chain of tags that does not start with the end tag, [kernel_main] initialises
    every component once, in the order in which they depend on each other, and
    hands the bounds of the last module to the tar file system; otherwise it only
    opens the console and the serial line and reports the error. *)
Theorem kernel_main_initialises fuel magic mb2 l s s1 :
  run_calls open_output s = Done (tt, s1) ->
  tags (mem s1) (begin_tags mb2) l -> ld32 (mem s1) (tag_type (begin_tags mb2)) <> MBOOT2_TAG_END -> (length l <= fuel)%nat ->
  kernel_main fuel magic mb2 s =
    (if negb (magic =? MBOOT2_MAGIC) then klog_op LevelErr "Multiboot2 compatible bootloader not detected\n" [] s1
     else if negb (Z.land mb2 7 =? 0) then klog_op LevelErr "Multiboot2 info unaligned\n" [] s1
     else let bounds := last_module (mem s1) l (0, 0) in run_calls (initialise mb2 bounds.1 bounds.2) s1).
Proof.
  intros Hs1 Hl Hne Hf. unfold kernel_main, mbind at 1, M_bind at 1. rewrite Hs1.
  destruct (magic =? MBOOT2_MAGIC); cbn [negb]; [|done]. destruct (Z.land mb2 7 =? 0); cbn [negb]; [|done].
  assert (Hrun : module_loop fuel (begin_tags mb2) 0 0 s1 = Done (last_module (mem s1) l (0, 0), s1)).
  { apply wp_done_inv. by eapply wp_module_loop. }
  unfold mbind, M_bind. by rewrite Hrun.
Qed.
End boot_specs.
