(* ===== verification/DescTables.v ===== *)
(** * cpu/gdt.c, cpu/idt.c, cpu/tss.c and cpu/isr.c: descriptor tables and interrupts

    The encoding of segment and gate descriptors and its decoding by the
    processor, the tables the initialisation builds, the programming of the
    interrupt controllers, and the dispatch of interrupts. *)

From S2P Require Export Io.

(** ** include/cpu/desc_tbls.h *)

Definition GDT_LEN : Z := 6.
Definition IDT_LEN : Z := 256.

Record gdt_descr := GdtDescr {
  g_limit_low : Z;
  g_base_low : Z;
  g_base_middle : Z;
  g_access : Z;
  g_granularity : Z;
  g_base_high : Z;
}.

Record idt_descr := IdtDescr {
  i_base_low : Z;
  i_seg_sel : Z;
  i_zero : Z;
  i_flags : Z;
  i_base_high : Z;
}.

(** [gdt_ptr_t] and [idt_ptr_t] *)
Record table_ptr := TablePtr { p_limit : Z; p_base : Z }.

(** The fields of [tss_entry_t] that the code writes; the others are 0. *)
Record tss_entry := Tss {
  tss_esp0 : Z; tss_ss0 : Z;
  tss_cs : Z; tss_ds : Z; tss_es : Z; tss_fs : Z; tss_gs : Z; tss_ss : Z;
}.

Definition SIZEOF_TSS : Z := 104.

(** The tables, the registers loaded from them ([lgdt], [lidt], [ltr]), the
    interrupt flag, and the state of isr.c: the addresses of the installed
    handlers by vector (0 where the map has none), the [ifr] of the current task
    and the unhandled interrupts that were logged.  An index of [gdt] from
    [GDT_LEN] on stands for the memory behind the table, which C does not keep
    the code from writing. *)
Record cpu := Cpu {
  c_io : io;
  gdt : gmap Z gdt_descr;
  idt : gmap Z idt_descr;
  tss : tss_entry;
  gdtr : option table_ptr;
  idtr : option table_ptr;
  task_register : option Z;
  interrupts_on : bool;
  interrupt_handlers : gmap Z Z;
  current_ifr : Z;
  unhandled : list (Z * Z);
}.

#[export] Instance HasIo_cpu : HasIo cpu := {|
  get_io := c_io;
  set_io i c := Cpu i (gdt c) (idt c) (tss c) (gdtr c) (idtr c) (task_register c) (interrupts_on c)
                  (interrupt_handlers c) (current_ifr c) (unhandled c);
|}.
#[export] Instance IoLaws_cpu : IoLaws cpu.
Proof. split; [done | done | by intros []]. Qed.

Definition set_gdt v c := Cpu (c_io c) v (idt c) (tss c) (gdtr c) (idtr c) (task_register c) (interrupts_on c) (interrupt_handlers c) (current_ifr c) (unhandled c).
Definition set_idt v c := Cpu (c_io c) (gdt c) v (tss c) (gdtr c) (idtr c) (task_register c) (interrupts_on c) (interrupt_handlers c) (current_ifr c) (unhandled c).
Definition set_tss v c := Cpu (c_io c) (gdt c) (idt c) v (gdtr c) (idtr c) (task_register c) (interrupts_on c) (interrupt_handlers c) (current_ifr c) (unhandled c).
Definition set_gdtr v c := Cpu (c_io c) (gdt c) (idt c) (tss c) v (idtr c) (task_register c) (interrupts_on c) (interrupt_handlers c) (current_ifr c) (unhandled c).
Definition set_idtr v c := Cpu (c_io c) (gdt c) (idt c) (tss c) (gdtr c) v (task_register c) (interrupts_on c) (interrupt_handlers c) (current_ifr c) (unhandled c).
Definition set_task_register v c := Cpu (c_io c) (gdt c) (idt c) (tss c) (gdtr c) (idtr c) v (interrupts_on c) (interrupt_handlers c) (current_ifr c) (unhandled c).
Definition set_interrupts v c := Cpu (c_io c) (gdt c) (idt c) (tss c) (gdtr c) (idtr c) (task_register c) v (interrupt_handlers c) (current_ifr c) (unhandled c).
Definition set_handlers v c := Cpu (c_io c) (gdt c) (idt c) (tss c) (gdtr c) (idtr c) (task_register c) (interrupts_on c) v (current_ifr c) (unhandled c).
Definition set_ifr v c := Cpu (c_io c) (gdt c) (idt c) (tss c) (gdtr c) (idtr c) (task_register c) (interrupts_on c) (interrupt_handlers c) v (unhandled c).
Definition set_unhandled v c := Cpu (c_io c) (gdt c) (idt c) (tss c) (gdtr c) (idtr c) (task_register c) (interrupts_on c) (interrupt_handlers c) (current_ifr c) v.

(** ** gdt.c *)

Definition gdt_encode (base limit access granularity : Z) : gdt_descr := {|
  g_base_low := u16 (Z.land base 0xFFFF);
  g_base_middle := u8 (Z.land (Z.shiftr base 16) 0xFF);
  g_base_high := u8 (Z.land (Z.shiftr base 24) 0xFF);
  g_limit_low := u16 (Z.land limit 0xFFFF);
  g_access := u8 access;
  g_granularity := u8 (Z.lor (Z.land (Z.shiftr limit 16) 0x0F) (Z.land granularity 0xF0));
|}.

Definition gdt_set_descr (index base limit access granularity : Z) : M cpu unit :=
  modify (fun c => set_gdt (<[u16 index := gdt_encode base limit access granularity]> (gdt c)) c).

Definition gdt_init (gdt_address : Z) : M cpu unit :=
  gdt_set_descr 0 0 0 0 0;;
  gdt_set_descr 1 0 0xFFFFFFFF 0x9A 0xCF;;
  gdt_set_descr 2 0 0xFFFFFFFF 0x92 0xCF;;
  gdt_set_descr 3 0 0xFFFFFFFF 0xFA 0xCF;;
  gdt_set_descr 4 0 0xFFFFFFFF 0xF2 0xCF;;
  modify (set_gdtr (Some (TablePtr (u16 (8 * GDT_LEN - 1)) (u32 gdt_address)))).

(** ** idt.c *)

Definition PIC1_CMD : Z := 0x20.
Definition PIC1_DATA : Z := 0x21.
Definition PIC2_CMD : Z := 0xA0.
Definition PIC2_DATA : Z := 0xA1.

Definition idt_encode (base flags : Z) : idt_descr := {|
  i_base_low := u16 (Z.land base 0xffff);
  i_base_high := u16 (Z.land (Z.shiftr base 16) 0xffff);
  i_seg_sel := 0x08;
  i_zero := 0;
  i_flags := u8 flags;
|}.

Definition idt_set_descr (num base flags : Z) : M cpu unit :=
  modify (fun c => set_idt (<[u8 num := idt_encode base flags]> (idt c)) c).

Definition pic_init : M cpu unit :=
  outb PIC1_CMD 0x11;;
  outb PIC2_CMD 0x11;;
  outb PIC1_DATA 0x20;;
  outb PIC2_DATA 0x28;;
  outb PIC1_DATA 0x04;;
  outb PIC2_DATA 0x02;;
  outb PIC1_DATA 0x01;;
  outb PIC2_DATA 0x01;;
  outb PIC1_DATA 0x00;;
  outb PIC2_DATA 0x00.

(** [isr n] and [irq n] are the addresses of the stubs [isr<n>] and [irq<n>] of
    interrupt.asm; [memset] leaves 256 gates of zero bytes, which the map leaves
    out. *)
Definition idt_init (idt_address : Z) (isr irq : Z -> Z) : M cpu unit :=
  modify (set_idt ∅);;
  pic_init;;
  for_loop 32 0 (fun n => idt_set_descr n (isr n) 0x8E);;
  idt_set_descr 127 (isr 127) 0x8E;;
  for_loop 16 0 (fun n => idt_set_descr (32 + n) (irq n) 0x8E);;
  modify (set_idtr (Some (TablePtr (u16 (8 * IDT_LEN - 1)) (u32 idt_address))));;
  modify (set_interrupts true).

(** ** tss.c *)

Definition tss_init (tss_address index kss kesp : Z) : M cpu unit :=
  gdt_set_descr index tss_address (tss_address +32 SIZEOF_TSS) 0xe9 0;;
  modify (set_tss {| tss_esp0 := u32 kesp; tss_ss0 := u16 kss; tss_cs := 0x0b; tss_ds := 0x13;
                     tss_es := 0x13; tss_fs := 0x13; tss_gs := 0x13; tss_ss := 0x13 |});;
  modify (set_task_register (Some (u16 (u16 index * 8)))).

Definition tss_set_stack (kss kesp : Z) : M cpu unit :=
  modify (fun c => let t := tss c in
    set_tss (Tss (u32 kesp) (u16 kss) (tss_cs t) (tss_ds t) (tss_es t) (tss_fs t) (tss_gs t) (tss_ss t)) c).

(** ** isr.c *)

Definition int_install_handler (num handler : Z) : M cpu unit :=
  modify (fun c => set_handlers (<[u8 num := handler]> (interrupt_handlers c)) c).

Definition int_unintstall_handler (num : Z) : M cpu unit :=
  modify (fun c => set_handlers (<[u8 num := 0]> (interrupt_handlers c)) c).

(** [interrupt_handlers[num]] *)
Definition handler_of (num : Z) (c : cpu) : Z := default 0 (interrupt_handlers c !! num).

Section isr.
(** The call of the handler at an address with the register frame [r]. *)
Context (call : Z -> Z -> M cpu unit).

Definition isr_handler (r int_no eip : Z) : M cpu unit :=
  modify (set_ifr r);;
  h ← gets (handler_of int_no);
  if negb (h =? 0) then handler ← gets (handler_of int_no); call handler r
  else modify (fun c => set_unhandled (unhandled c ++ [(int_no, eip)]) c).

Definition irq_handler (r int_no : Z) : M cpu unit :=
  modify (set_ifr r);;
  (if 40 <=? int_no then outb 0xa0 0x20 else mret tt);;
  outb 0x20 0x20;;
  h ← gets (handler_of int_no);
  if negb (h =? 0) then handler ← gets (handler_of int_no); call handler r
  else mret tt.
End isr.

(** ** What the processor reads *)

Definition gdt_base (d : gdt_descr) : Z := g_base_low d + 65536 * g_base_middle d + 16777216 * g_base_high d.
Definition gdt_limit (d : gdt_descr) : Z := g_limit_low d + 65536 * Z.land (g_granularity d) 0x0F.
Definition gdt_flags (d : gdt_descr) : Z := Z.land (g_granularity d) 0xF0.

(** The last byte of the segment: the limit counts pages when the granularity
    flag is set. *)
Definition segment_end (d : gdt_descr) : Z :=
  if Z.testbit (gdt_flags d) 7 then gdt_base d + 4096 * gdt_limit d + 4095 else gdt_base d + gdt_limit d.

Definition gate_offset (d : idt_descr) : Z := i_base_low d + 65536 * i_base_high d.
Definition gate_present (d : idt_descr) : bool := Z.testbit (i_flags d) 7.
Definition gate_dpl (d : idt_descr) : Z := Z.land (Z.shiftr (i_flags d) 5) 3.

(** ** Descriptors *)

Lemma land_ones_mod z n m : 0 <= n -> m = Z.ones n -> Z.land z m = z mod 2 ^ n.
Proof. intros Hn ->. by rewrite Z.land_ones. Qed.

Lemma granularity_bits limit g :
  0 <= limit -> 0 <= g ->
  let w := u8 (Z.lor (Z.land (Z.shiftr limit 16) 0x0F) (Z.land g 0xF0)) in
  Z.land w 0x0F = (limit / 65536) mod 16 /\ Z.land w 0xF0 = Z.land g 0xF0.
Proof.
  intros Hl Hg w.
  assert (Hw : forall i, 0 <= i -> Z.testbit w i =
    (i <? 8) && (Z.testbit limit (i + 16) && (i <? 4) || Z.testbit g i && Z.testbit 0xF0 i)).
  { intros i Hi. unfold w, u8. change 256 with (2 ^ 8). rewrite Z.testbit_mod_pow2 by lia.
    rewrite Z.lor_spec, !Z.land_spec. change 0x0F with (Z.ones 4). by rewrite Z.shiftr_spec, testbit_ones by lia. }
  split; apply Z.bits_inj'; intros i Hi; rewrite !Z.land_spec, ?Hw by lia.
  - change 0x0F with (Z.ones 4). rewrite testbit_ones by lia.
    change 65536 with (2 ^ 16). rewrite <- (Z.shiftr_div_pow2 limit 16) by lia.
    change (_ mod 16) with (Z.shiftr limit 16 mod 2 ^ 4). rewrite Z.testbit_mod_pow2, Z.shiftr_spec by lia.
    destruct (Z.ltb_spec i 4); [|by rewrite !andb_false_r].
    rewrite !andb_true_r, (proj2 (Z.ltb_lt i 8)) by lia. cbn [andb].
    assert (Hf : Z.testbit 0xF0 i = false) by (assert (i = 0 \/ i = 1 \/ i = 2 \/ i = 3) as [-> | [-> | [-> | ->]]] by lia; done).
    by rewrite Hf, andb_false_r, orb_false_r.
  - destruct (Z.ltb_spec i 8).
    + cbn [andb]. destruct (Z.ltb_spec i 4).
      * assert (Hf : Z.testbit 0xF0 i = false) by (assert (i = 0 \/ i = 1 \/ i = 2 \/ i = 3) as [-> | [-> | [-> | ->]]] by lia; done).
        by rewrite Hf, !andb_false_r.
      * rewrite andb_false_r. cbn [orb]. destruct (Z.testbit g i), (Z.testbit 0xF0 i); done.
    + by rewrite (testbit_high 0xF0 8), !andb_false_r by (done || lia).
Qed.

Lemma gdt_decode_limit base limit access granularity :
  0 <= limit < 4294967296 -> 0 <= granularity ->
  gdt_limit (gdt_encode base limit access granularity) = limit mod 1048576.
Proof.
  intros Hl Hg. destruct (granularity_bits limit granularity ltac:(lia) Hg) as [H1 H2].
  unfold gdt_limit. cbn [g_limit_low g_granularity gdt_encode].
  rewrite H1, !(land_ones_mod _ 16 0xFFFF) by done. change (2 ^ 16) with 65536. word_lia.
Qed.

Lemma gdt_decode_base base limit access granularity :
  0 <= base < 4294967296 -> gdt_base (gdt_encode base limit access granularity) = base.
Proof.
  intros Hb. unfold gdt_base. cbn [g_base_low g_base_middle g_base_high gdt_encode].
  rewrite !(land_ones_mod _ 16 0xFFFF), !(land_ones_mod _ 8 0xFF), !Z.shiftr_div_pow2 by (done || lia).
  change (2 ^ 16) with 65536. change (2 ^ 8) with 256. change (2 ^ 24) with 16777216. word_lia.
Qed.

(** the processor decodes from a segment descriptor the base, access byte
    and flags it was encoded with, and the limit modulo 2^20. *)
Theorem gdt_encode_decode base limit access granularity :
  0 <= base < 4294967296 -> 0 <= limit < 4294967296 -> 0 <= access < 256 -> 0 <= granularity ->
  let d := gdt_encode base limit access granularity in
  gdt_base d = base /\ gdt_limit d = limit mod 1048576 /\ g_access d = access /\
  gdt_flags d = Z.land granularity 0xF0.
Proof.
  intros Hb Hl Ha Hg d. split_and!.
  - by apply gdt_decode_base.
  - by apply gdt_decode_limit.
  - by apply u8_small.
  - apply (granularity_bits limit granularity ltac:(lia) Hg).
Qed.

(** [gdt_init] loads a table of six descriptors: a null one, and kernel and
    user code and data segments that each cover all 4 GB; the user segments
    have privilege level 3. *)
Theorem gdt_init_flat address c :
  exists c', gdt_init address c = Done (tt, c') /\
    gdtr c' = Some (TablePtr 47 (u32 address)) /\
    gdt c' !! 0 = Some (GdtDescr 0 0 0 0 0 0) /\
    (forall i, 1 <= i <= 4 -> exists d, gdt c' !! i = Some d /\ gdt_base d = 0 /\
       segment_end d = 4294967295 /\ Z.testbit (g_access d) 7 = true /\
       Z.land (Z.shiftr (g_access d) 5) 3 = (if i <=? 2 then 0 else 3) /\
       Z.testbit (g_access d) 3 = (i =? 1) || (i =? 3)) /\
    (forall i, 5 <= i -> gdt c' !! i = gdt c !! i).
Proof.
  eexists. split; [reflexivity|]. cbn [gdtr gdt set_gdtr set_gdt]. split_and!; [done | | |].
  - vm_compute u16. simplify_map_eq. done.
  - intros i Hi. assert (i = 1 \/ i = 2 \/ i = 3 \/ i = 4) as [-> | [-> | [-> | ->]]] by lia;
      (eexists; split; [vm_compute u16; simplify_map_eq; reflexivity | by vm_compute]).
  - intros i Hi. change (u16 0) with 0. change (u16 1) with 1. change (u16 2) with 2.
    change (u16 3) with 3. change (u16 4) with 4. by rewrite !lookup_insert_ne by lia.
Qed.

Lemma gate_offset_encode base flags : 0 <= base < 4294967296 -> gate_offset (idt_encode base flags) = base.
Proof.
  intros Hb. unfold gate_offset. cbn [i_base_low i_base_high idt_encode].
  rewrite !(land_ones_mod _ 16 0xffff), Z.shiftr_div_pow2 by (done || lia). change (2 ^ 16) with 65536. word_lia.
Qed.

(** The gates of a loop of [idt_set_descr]. *)
Lemma wp_gate_loop n base (num f : Z -> Z) c (Q : unit -> cpu -> Prop) :
  (forall i, num i = base + i) -> 0 <= base -> base + Z.of_nat n <= 256 ->
  (forall m, (forall v, m !! v = if decide (base <= v < base + Z.of_nat n)
      then Some (idt_encode (f (v - base)) 0x8E) else idt c !! v) -> Q tt (set_idt m c)) ->
  wp (for_loop n 0 (fun i => idt_set_descr (num i) (f i) 0x8E)) Q c.
Proof.
  intros Hnum Hb Hn HQ.
  apply (wp_for_loop (fun k c' => exists m, c' = set_idt m c /\ forall v, m !! v =
    if decide (base <= v < base + k) then Some (idt_encode (f (v - base)) 0x8E) else idt c !! v)).
  - exists (idt c). split; [by destruct c|]. intros v. by rewrite decide_False by lia.
  - intros i c' Hi (m & -> & Hm). unfold idt_set_descr. wp_step. eexists. split; [reflexivity|].
    intros v. rewrite Hnum. cbn [idt set_idt]. rewrite u8_small by lia.
    destruct (decide (v = base + i)) as [->|Hv].
    + rewrite lookup_insert_eq, decide_True by lia. by replace (base + i - base) with i by lia.
    + rewrite lookup_insert_ne, Hm by lia. repeat case_decide; (done || lia).
  - intros c' (m & -> & Hm). by apply HQ.
Qed.

(** The stub the gate of vector [v] leads to. *)
Definition stub (isr irq : Z -> Z) (v : Z) : option Z :=
  if decide (32 <= v < 48) then Some (irq (v - 32))
  else if decide (0 <= v < 32 \/ v = 127) then Some (isr v)
  else None.

(** The accesses that remap the interrupt controllers to the vectors from 32 and
    from 40 and unmask every line. *)
Definition pic_trace : list io_event :=
  [Out 0x20 0x11; Out 0xA0 0x11; Out 0x21 0x20; Out 0xA1 0x28; Out 0x21 4; Out 0xA1 2;
   Out 0x21 1; Out 0xA1 1; Out 0x21 0; Out 0xA1 0].

Lemma wp_pic_init (Q : unit -> cpu -> Prop) c :
  Q tt (set_io (Io (io_answers (c_io c)) (io_trace (c_io c) ++ pic_trace)) c) -> wp pic_init Q c.
Proof.
  intros HQ. unfold pic_init.
  unfold wp, mbind, M_bind, outb, modify. cbn -[app]. rewrite <- !app_assoc. exact HQ.
Qed.

(** C33: [idt_init] remaps the interrupt controllers, then loads a table in which
    exactly the vectors 0 to 47 and 127 have a gate: a present interrupt gate in
    the kernel code segment at the address of the vector's stub.  Every gate,
    that of vector 127 too, has privilege level 0. *)
Theorem idt_init_gates address isr irq c :
  (forall n, 0 <= isr n < 4294967296) -> (forall n, 0 <= irq n < 4294967296) ->
  exists c', idt_init address isr irq c = Done (tt, c') /\
    io_trace (c_io c') = io_trace (c_io c) ++ pic_trace /\
    idtr c' = Some (TablePtr 2047 (u32 address)) /\ interrupts_on c' = true /\
    forall v, match stub isr irq v, idt c' !! v with
      | Some a, Some g => gate_offset g = a /\ i_seg_sel g = 8 /\ gate_present g = true /\ gate_dpl g = 0
      | None, None => True
      | _, _ => False
      end.
Proof.
  intros Hisr Hirq. apply wp_unit. unfold idt_init. do 3 wp_step.
  simple apply wp_pic_init.
  wp_step. simple apply (wp_gate_loop _ 0); [done | lia | lia |]. intros m1 Hm1.
  wp_step. unfold idt_set_descr at 1. wp_step.
  wp_step. simple apply (wp_gate_loop _ 32); [done | lia | lia |]. intros m2 Hm2.
  do 3 wp_step. cbn [c_io io_trace idtr interrupts_on idt set_idt set_io set_idtr set_interrupts HasIo_cpu].
  split_and!; [done.. |]. intros v. rewrite Hm2. cbn [idt set_idt]. unfold stub.
  assert (Hg : forall a, 0 <= a < 4294967296 -> let g := idt_encode a 0x8E in
    gate_offset g = a /\ i_seg_sel g = 8 /\ gate_present g = true /\ gate_dpl g = 0).
  { intros a Ha. split; [by apply gate_offset_encode | done]. }
  change (32 + Z.of_nat 16) with 48. change (u8 127) with 127.
  destruct (decide (32 <= v < 48)); [by apply Hg|].
  destruct (decide (v = 127)) as [->|Hv]; [rewrite lookup_insert_eq; by apply Hg|].
  rewrite lookup_insert_ne, Hm1 by lia. change (0 + Z.of_nat 32) with 32. rewrite Z.sub_0_r.
  repeat case_decide; (lia || done || by apply Hg).
Qed.

(** ** tss.c *)

(** [tss_init] makes its descriptor a segment at the address of the task
    state with the selectors and the kernel stack it is given, but the limit it
    sets is the address of the end of the structure (modulo 2^20), where the last
    offset, 103, belongs. *)
Theorem tss_init_limit address index kss kesp c :
  0 <= address -> address + SIZEOF_TSS < 4294967296 ->
  0 <= index < 8192 -> 0 <= kss < 65536 -> 0 <= kesp < 4294967296 ->
  exists c' d, tss_init address index kss kesp c = Done (tt, c') /\
    gdt c' = <[index := d]> (gdt c) /\ task_register c' = Some (8 * index) /\
    tss_esp0 (tss c') = kesp /\ tss_ss0 (tss c') = kss /\
    gdt_base d = address /\ Z.testbit (g_access d) 7 = true /\
    gdt_limit d = (address + SIZEOF_TSS) mod 1048576 /\
    (gdt_limit d = SIZEOF_TSS - 1 <-> address mod 1048576 = 1048575).
Proof.
  intros Ha He Hi Hs Hk. unfold SIZEOF_TSS in *. eexists _, _. split; [reflexivity|].
  cbn [gdt task_register tss set_gdt set_tss set_task_register tss_esp0 tss_ss0].
  rewrite (u16_small index), (u32_small kesp), (u16_small kss), (u16_small (index * 8)) by lia.
  split_and!; [done | f_equal; lia | done | done | | done | |];
    unfold SIZEOF_TSS; rewrite (u32_small (address + 104)) by lia.
  - apply gdt_decode_base. lia.
  - by rewrite gdt_decode_limit by lia.
  - rewrite gdt_decode_limit by lia. Z.div_mod_to_equations. lia.
Qed.

(** ** isr.c *)

(** The state after the end-of-interrupt commands. *)
Definition acknowledged (r int_no : Z) (c : cpu) : cpu :=
  set_io (Io (io_answers (c_io c)) (io_trace (c_io c) ++
    (if 40 <=? int_no then [Out 0xa0 0x20] else []) ++ [Out 0x20 0x20])) (set_ifr r c).

Lemma irq_handler_run call r int_no c :
  irq_handler call r int_no c =
    if handler_of int_no c =? 0 then Done (tt, acknowledged r int_no c)
    else call (handler_of int_no c) r (acknowledged r int_no c).
Proof.
  unfold irq_handler, mbind, M_bind, modify, gets, outb, mret, M_ret, acknowledged.
  destruct (40 <=? int_no); cbn -[app handler_of]; rewrite <- ?app_assoc;
    fold (handler_of int_no c); change (handler_of int_no (Cpu _ _ _ _ _ _ _ _ _ _ _)) with (handler_of int_no c);
    by destruct (handler_of int_no c =? 0).
Qed.

(** [irq_handler] records the register frame and acknowledges the interrupt,
    at the second controller too for the vectors from 40, before it calls the
    handler [int_install_handler] put in place last for the vector; after
    [int_unintstall_handler] it returns without a call. *)
Theorem irq_handler_dispatch call r num h c :
  0 <= num < 256 -> h <> 0 ->
  let installed h := set_handlers (<[num := h]> (interrupt_handlers c)) c in
  (int_install_handler num h;; irq_handler call r num) c = call h r (acknowledged r num (installed h)) /\
  (int_install_handler num h;; int_unintstall_handler num;; irq_handler call r num) c =
    Done (tt, acknowledged r num (installed 0)).
Proof.
  intros Hn Hh installed. unfold int_install_handler, int_unintstall_handler. rewrite (u8_small num) by lia.
  assert (Hi : forall h', handler_of num (installed h') = h').
  { intros h'. unfold handler_of, installed. cbn [interrupt_handlers set_handlers]. by rewrite lookup_insert_eq. }
  split.
  - change (irq_handler call r num (installed h) = call h r (acknowledged r num (installed h))).
    by rewrite irq_handler_run, Hi, (proj2 (Z.eqb_neq h 0)).
  - assert (Hs : set_handlers (<[num := 0]> (interrupt_handlers (installed h))) (installed h) = installed 0).
    { unfold installed. cbn [interrupt_handlers set_handlers]. by rewrite insert_insert_eq. }
    change (irq_handler call r num (set_handlers (<[num := 0]> (interrupt_handlers (installed h))) (installed h)) =
      Done (tt, acknowledged r num (installed 0))).
    by rewrite Hs, irq_handler_run, Hi.
Qed.
