(* ===== verification/WitnessMem.v ===== *)
(** * Concrete runs of the memory managers

    The theorems on pmm.c, vmm.c and kheap.c applied to small concrete kernels,
    which shows that their hypotheses can hold together. *)

From S2P Require Export KheapRealloc Ksbrk VmmInit VmmCopy.

(** ** Concrete kernels *)

#[local] Instance demo_linker : Linker := {|
  kernel_end_phys := 0x200000;
  kernel_end_virt := 0xC0200000;
  boot_page_dir := 0xC0001000;
|}.

(** The memory with the given words at the given addresses, 0 elsewhere. *)
Definition words (l : list (Z * Z)) : memory := foldr (fun av m => st32 m av.1 av.2) ∅ l.

Definition no_pmm : pmm_globals := Pmm 0 0 0 0 0 0.
Definition no_vmm : vmm_globals := Vmm 0 0 0 0 0 0 0.
Definition no_heap : heap_globals := Heap 0 0 0 0 0 0 0 0 0.
Definition machine (m : memory) (p : pmm_globals) (v : vmm_globals) (h : heap_globals) : kernel :=
  Kernel m [] ∅ p v h.

Lemma ld8_empty a : ld8 ∅ a = 0.
Proof. unfold ld8. by rewrite lookup_empty. Qed.

Lemma ld32_empty a : ld32 ∅ a = 0.
Proof. unfold ld32. by rewrite !ld8_empty. Qed.

(** ** pmm.c *)

(** 64 blocks, of which the first three are marked. *)
Definition pmm_demo : kernel := machine (words [(0x8000, 7)]) (Pmm 64 3 262144 0 0x8000 8) no_vmm no_heap.

Lemma pmm_demo_inv : pmm_inv pmm_demo.
Proof. split; [simpl; lia | by vm_compute]. Qed.

Lemma pmm_alloc_lowest_witness :
  pmm_inv pmm_demo /\ exists b k', pmm_alloc_block pmm_demo = Done (b * PMM_BLOCK_SIZE, k') /\ lowest_free pmm_demo b.
Proof.
  split; [apply pmm_demo_inv|].
  destruct (pmm_alloc_lowest pmm_demo pmm_demo_inv ltac:(by vm_compute)) as (b & k' & H1 & H2 & _). eauto.
Defined.

Lemma pmm_alloc_free_roundtrip_witness :
  exists a k1 k2, pmm_alloc_block pmm_demo = Done (a, k1) /\ pmm_free_block a k1 = Done (tt, k2) /\ pmm_inv k2.
Proof.
  destruct (pmm_alloc_free_roundtrip pmm_demo pmm_demo_inv ltac:(by vm_compute)) as (a & k1 & k2 & H1 & H2 & _ & _ & H3).
  eauto 6.
Defined.

(** Releasing block 5, which is not marked, breaks the invariant. *)
Lemma pmm_free_block_witness : exists k', pmm_free_block 0x5000 pmm_demo = Done (tt, k') /\ ~ pmm_inv k'.
Proof.
  destruct (pmm_free_block_spec pmm_demo 0x5000 pmm_demo_inv ltac:(by vm_compute)) as (k' & H1 & _ & [H2 _]).
  exists k'. split; [done|]. intros Hk. by specialize (H2 Hk).
Defined.

(** 40 blocks, of which the 32 that are scanned are marked. *)
Definition pmm_full : kernel := machine (words [(0x8000, 0xffffffff)]) (Pmm 40 32 163840 0 0x8000 5) no_vmm no_heap.

Lemma pmm_alloc_exhausted_witness : exists k', pmm_alloc_block pmm_full = Done (0, k') /\ ~ pmm_inv k'.
Proof.
  destruct (pmm_alloc_exhausted pmm_full ltac:(split; [simpl; lia | by vm_compute]) ltac:(by vm_compute))
    as (k' & H1 & _ & _ & H2). eauto.
Defined.

(** A memory-information tag followed by the end tag, at 0x9008. *)
Definition boot_demo : kernel :=
  machine (words [(0x9008, 4); (0x900c, 16); (0x9010, 640); (0x9014, 65536)]) no_pmm no_vmm no_heap.

Lemma pmm_init_witness : exists k', pmm_init 2 0x9000 boot_demo = Done (tt, k') /\ pmm_inv k'.
Proof.
  destruct (pmm_init_establishes_inv 2 0x9000 [(0x9008, 4); (0x9018, 0)] boot_demo) as (k' & H1 & H2 & _).
  - change (0x9008, 4) with (0x9008, ld32 (mem boot_demo) (tag_type 0x9008)).
    apply tags_cons; [by vm_compute|]. apply (tags_end _ 0x9018). by vm_compute.
  - by vm_compute.
  - simpl. lia.
  - done.
  - by vm_compute.
  - eauto.
Defined.

(** ** vmm.c *)

(** A directory at 0x100000 with one table, at 0x110000 for the second 4 MB,
    whose page 3 is mapped to frame 7; 64 physical blocks, of which the first
    eight are marked. *)
Definition vmm_with (h : heap_globals) : kernel :=
  machine (words [(0x100000 + 4096 + 4, 0x110000); (0x110000 + 12, 0x7001); (0x8000, 255)])
    (Pmm 64 8 262144 0 0x8000 8) (Vmm 0 1 0x100000 0x100000 0 0 0) h.
Definition vmm_demo : kernel := vmm_with no_heap.

Lemma vmm_with_ref h i : 0 <= i < 1024 -> ref (vmm_with h) 0x100000 i = if i =? 1 then 0x110000 else 0.
Proof.
  intros Hi. unfold ref, dir_ref_tables. destruct (Z.eqb_spec i 1) as [->|Hne]; [by vm_compute|].
  unfold vmm_with, machine, words. cbn [mem HasMem_kernel k_mem foldr fst snd].
  rewrite !ld32_st32_ne by (unfold disjoint; lia). apply ld32_empty.
Qed.

Lemma vmm_with_layout h : vm_layout (vmm_with h) 0x100000.
Proof.
  split.
  - right. by vm_compute.
  - intros i Hi. rewrite vmm_with_ref by done. destruct (Z.eqb_spec i 1); [|done]. intros _. split; right; by vm_compute.
  - intros i j Hi Hj Hij. rewrite !vmm_with_ref by done.
    destruct (Z.eqb_spec i 1), (Z.eqb_spec j 1); (done || lia).
Qed.

Lemma virt2phys_witness : virt2phys 0x100000 0x403abc vmm_demo = Done (0x7abc, vmm_demo).
Proof. rewrite (virt2phys_translate vmm_demo 0x100000 0x403abc); [by vm_compute | done | done]. Defined.

Lemma pmm_ready_demo : pmm_ready vmm_demo 8.
Proof.
  split; [simpl; lia | simpl; lia |]. split.
  - by vm_compute.
  - by vm_compute.
  - intros b Hb. assert (Hall : forallb (fun n => blk_used vmm_demo (Z.of_nat n)) (seq 0 8) = true) by by vm_compute.
    rewrite forallb_forall in Hall. rewrite <- (Z2Nat.id b) by lia. apply Hall, in_seq. lia.
Qed.

Lemma allocate_page_witness :
  exists k', allocate_page (fun _ => mret 0) 0x100000 0x401000 0 1 1 vmm_demo = Done (tt, k') /\
    translate k' 0x100000 0x401000 = Some 0x8000.
Proof.
  destruct (allocate_page_maps (fun _ => mret 0) vmm_demo 0x100000 0x401000 0 8 1 1) as (k' & H1 & H2 & _).
  - done.
  - done.
  - done.
  - apply vmm_with_layout.
  - by vm_compute.
  - by vm_compute.
  - intros _. apply pmm_ready_demo.
  - eauto.
Defined.

Lemma free_page_witness :
  exists k', free_page 0x100000 0x403000 1 vmm_demo = Done (tt, k') /\ translate k' 0x100000 0x403000 = None.
Proof.
  destruct (free_page_unmaps vmm_demo 0x100000 0x403000 0x7000 1) as (k' & H1 & H2 & _).
  - by vm_compute.
  - done.
  - apply vmm_with_layout.
  - by vm_compute.
  - intros _. by vm_compute.
  - eauto.
Defined.

(** The directory at 0x100000 is the kernel's. *)
Lemma copy_directory_witness :
  exists k', copy_page_directory (fun _ => mret 0) 0x200000 0x100000 vmm_demo = Done (tt, k') /\
    translate k' 0x200000 0x403abc = translate vmm_demo 0x100000 0x403abc.
Proof.
  destruct (copy_page_directory_shares (fun _ => mret 0) 0x200000 0x100000 vmm_demo) as (k' & H1 & H2 & _).
  - done.
  - right. by vm_compute.
  - right. by vm_compute.
  - intros i Hi. change vmm_demo with (vmm_with no_heap). rewrite vmm_with_ref by done.
    destruct (Z.eqb_spec i 1); [|done]. intros _. right. by vm_compute.
  - exists k'. split; [exact H1 | apply H2; lia].
Defined.

(** 16 MB of memory and a cleared bitmap behind the kernel. *)
Definition before_demo : kernel := machine ∅ (Pmm 4096 0 16777216 0 0xC0200000 512) no_vmm no_heap.

Lemma before_demo_free c : blk_used before_demo c = false.
Proof. unfold blk_used. cbn [mem HasMem_kernel k_mem before_demo machine]. by rewrite ld32_empty, Z.testbit_0_l. Qed.

Lemma before_demo_ok : before_vmm before_demo.
Proof.
  split; [split | | | | | | |].
  - simpl. lia.
  - symmetry. apply countb_none. intros i _. exact (before_demo_free i).
  - intros c _. exact (before_demo_free c).
  - by vm_compute.
  - by vm_compute.
  - by vm_compute.
  - by vm_compute.
  - done.
  - done.
Qed.


Lemma allocate_region_witness :
  allocate_region (fun _ => mret 0) 10 0x100000 0xffffe000 0xffffffff 0 1 1 vmm_demo <> Done (tt, vmm_demo).
Proof. apply allocate_region_diverges; done. Defined.

(** ** kheap.c *)

(** A heap of 64 KB at 0x10000 whose break is [c] and whose free list starts at
    [f]. *)
Definition heap_demo (m : memory) (f c : Z) : kernel :=
  machine m no_pmm no_vmm (Heap f 0x30000 f 0x10000 0x20000 c 0x40000 1 0).

(** Two blocks on the free list: one of 64 bytes at 0x11000, marked free, and
    one of 32 bytes at 0x12000, marked free. *)
Definition two_blocks : kernel :=
  heap_demo (words [(0x11000, 65); (0x11004, 0); (0x11008, 0x12000); (0x12000, 33); (0x12004, 0x11000)]) 0x11000 0x13000.

Lemma two_blocks_list : free_list two_blocks [0x11000; 0x12000].
Proof. repeat split; by vm_compute. Qed.

Lemma two_headers a b : disjoint a SIZEOF_BLOCK b SIZEOF_BLOCK -> headers_disjoint [a; b].
Proof.
  unfold disjoint. intros Hd i j x y Hi Hj Hij. unfold disjoint.
  destruct i as [|[|i]], j as [|[|j]]; simplify_eq/=; lia.
Qed.

Lemma bestfit_witness : exists r, bestfit 3 48 two_blocks = Done (r, two_blocks) /\ r <> 0.
Proof.
  destruct (bestfit_least 3 48 [0x11000; 0x12000] two_blocks two_blocks_list ltac:(simpl; lia))
    as (r & H1 & [[-> H2]|[H2 _]]).
  - specialize (H2 0x11000 ltac:(by left)). by vm_compute in H2.
  - exists r. split; [done|]. intros ->.
    assert (Hz : forallb (fun b => negb (b =? 0)) [0x11000; 0x12000] = true) by reflexivity.
    rewrite forallb_forall in Hz. apply list_elem_of_In in H2. apply Hz in H2. discriminate H2.
Defined.

(** One block at 0x12000 on the list; the block at 0x11000 is pushed. *)
Definition one_block : kernel := heap_demo (words [(0x12000, 33)]) 0x12000 0x13000.

Lemma addNode_witness : exists k', addNodeToFreelist 0x11000 one_block = Done (tt, k') /\ free_list k' [0x11000; 0x12000].
Proof.
  destruct (addNodeToFreelist_push 0x11000 [0x12000] one_block) as (k' & H1 & H2 & _).
  - repeat split; by vm_compute.
  - done.
  - done.
  - apply two_headers. by left.
  - eauto.
Defined.

Lemma removeNode_witness : exists k', removeNodeFromFreelist 0x12000 two_blocks = Done (tt, k') /\ free_list k' [0x11000].
Proof.
  destruct (removeNodeFromFreelist_unlink 0x12000 [0x11000] [] two_blocks) as (k' & H1 & H2 & _).
  - apply two_blocks_list.
  - apply two_headers. by left.
  - eauto.
Defined.

(** A heap with an empty free list. *)
Definition no_blocks : kernel := heap_demo ∅ 0 0x10000.

Lemma malloc_fresh_witness : exists k', malloc 1 100 no_blocks = Done (0x10030, k') /\ extended no_blocks k' 112.
Proof.
  destruct (malloc_fresh 1 100 [] no_blocks) as (k' & H1 & H2).
  - split; [lia | done | by intros b Hb%elem_of_nil | done | split; by vm_compute | by vm_compute].
  - simpl. lia.
  - eauto.
Defined.

Lemma malloc_takes_witness :
  exists k', malloc 3 50 two_blocks = Done (0x11000 + 48, k') /\ free_list k' [0x12000].
Proof.
  destruct (malloc_takes_block 3 50 two_blocks [] 0x11000 [0x12000]) as (k' & H1 & [H2 _]).
  - lia.
  - split.
    + apply two_blocks_list.
    + apply two_headers. by left.
    + by vm_compute.
    + split; [split|]; by vm_compute.
    + by vm_compute.
    + intros x [->|[->|[]%not_elem_of_nil]%elem_of_cons]%elem_of_cons; [right | left]; by vm_compute.
  - intros x [->|[]%not_elem_of_nil]%elem_of_cons. by vm_compute.
  - simpl. lia.
  - eauto.
Defined.

Lemma kcalloc_small_witness : exists p k', kcalloc 1 4 3 no_blocks = Done (p, k') /\ small_heap 9 [(p, 12)] k'.
Proof.
  destruct (kcalloc_small 1 9 [] 4 3 no_blocks) as (p & k' & H1 & H2 & _).
  - split; [done | done | split; by vm_compute | by vm_compute | done | by intros r Hr%elem_of_nil].
  - lia.
  - lia.
  - lia.
  - lia.
  - eauto.
Defined.

(** The block at 0x110C0 is in use, between two free blocks. *)
Definition three_blocks : kernel :=
  machine (words [(0x11000, 33); (0x11004, 0x11180); (0x110B0, 33); (0x110C0, 32);
                  (0x11180, 33); (0x11188, 0x11000)])
    no_pmm no_vmm (Heap 0x11000 0x11180 0x11180 0x10000 0x20000 0x13000 0x40000 1 0).

Lemma free_witness :
  exists k', free 0x11150 three_blocks = Done (tt, k') /\ freed three_blocks k' 0x110C0 [0x11180; 0x11000].
Proof.
  destruct (free_coalesces 0x11150 [0x11180; 0x11000] three_blocks) as (k' & H1 & H2).
  - change (0x11150 -32 144) with 0x110C0.
    assert (Hp : prev_block three_blocks 0x110C0 = 0x11000) by by vm_compute.
    assert (Hn : next_block three_blocks 0x110C0 = 0x11180) by by vm_compute.
    assert (Hsv : survivor three_blocks 0x110C0 = 0x11000) by by vm_compute.
    assert (Hms : merged_size three_blocks 0x110C0 = 128) by by vm_compute.
    split; rewrite ?Hp, ?Hn, ?Hsv, ?Hms.
    + repeat split; by vm_compute.
    + clear. intros [|[|[|i]]] [|[|[|j]]] x y Hi Hj Hij; simplify_eq/=; unfold disjoint, SIZEOF_BLOCK; lia.
    + done.
    + by vm_compute.
    + intros _. right. by left.
    + intros _. by left.
    + done.
    + done.
    + intros x Hx. unfold disjoint, SIZEOF_BLOCK. repeat (apply elem_of_cons in Hx as [->|Hx]; [lia|]).
      by apply not_elem_of_nil in Hx.
  - eauto.
Defined.

(** The block at 0x11000 is in use, the one behind it is free. *)
Definition room_behind : kernel :=
  machine (words [(0x11000, 32); (0x110C0, 33)]) no_pmm no_vmm (Heap 0x11000 0x110C0 0x110C0 0x10000 0x20000 0x13000 0x40000 1 0).

Lemma realloc_witness :
  exists k', realloc 1 0x11090 40 room_behind = Done (0x1100C, k') /\ grown room_behind 0x11000 [0x110C0] k'.
Proof.
  destruct (realloc_grows_next 1 0x11090 40 [0x110C0] room_behind) as (k' & H1 & H2).
  - done.
  - done.
  - by vm_compute.
  - change (0x11090 -32 144) with 0x11000.
    assert (Hn : next_block room_behind 0x11000 = 0x110C0) by by vm_compute.
    assert (Hs : grown_size room_behind 0x11000 = 80) by by vm_compute.
    split; rewrite ?Hn, ?Hs.
    + repeat split; by vm_compute.
    + apply two_headers. by left.
    + done.
    + split; [by vm_compute | by left].
    + by vm_compute.
    + done.
    + intros x Hx. unfold disjoint, SIZEOF_BLOCK. repeat (apply elem_of_cons in Hx as [->|Hx]; [lia|]).
      by apply not_elem_of_nil in Hx.
  - eauto.
Defined.

Lemma kfree_witness :
  exists k', (p1 ← malloc 2 16; malloc 2 16;; malloc 2 16;; p4 ← malloc 2 16;
     kfree p4;; p5 ← malloc 2 16; mret (p1, p4, p5)) no_blocks = Done ((0x10030, 0x10090, 0x10030), k').
Proof.
  apply (kfree_releases_another_block 2 0x10000 0 no_blocks).
  - split; (done || by vm_compute || by split; vm_compute).
  - done.
  - lia.
Defined.

(** A larger heap: 4 MB at 0x1000000, and 16 MB with no page table behind it. *)
Definition large_heap : kernel :=
  machine ∅ no_pmm (Vmm 0 1 0x100000 0x100000 0 0 0) (Heap 0 0 0 0x1000000 0x1400000 0x1000000 0x2000000 1 0).

Lemma malloc_header_witness :
  exists p1 k1 p2 k2, malloc 1 24 large_heap = Done (p1, k1) /\ malloc 1 40 k1 = Done (p2, k2) /\
    exists a, p1 <= a /\ a + 4 <= p1 + 24 /\ ld32 (mem k2) a = 48.
Proof.
  apply (malloc_header_in_payload 1 24 40 large_heap); [done | lia | lia | done | split; by vm_compute | lia].
Defined.

(** The same heap with 4096 bytes left. *)
Definition full_heap : kernel := upd_heap (set_heap_curr 0x13ff000) large_heap.


(** ** ksbrk and kmalloc_a *)

(** The directory of [vmm_demo] with a heap in its second 4 MB, whose pages from
    0x404 on are not mapped. *)
Definition sbrk_demo : kernel :=
  vmm_with (Heap 0 0 0 0x400000 0x404000 0x403800 0x600000 1 0).

Lemma sbrk_demo_can_map : can_map sbrk_demo 0x100000 0x404 (page_above 0x405800).
Proof.
  split.
  - done.
  - apply vmm_with_layout.
  - intros n Hn. change (page_above 0x405800) with 0x406 in Hn.
    assert (n = 0x404 \/ n = 0x405) as [-> | ->] by lia; split; by vm_compute.
  - split; [simpl; lia | by vm_compute].
  - by vm_compute.
Qed.


Lemma ksbrk_negative_witness :
  ksbrk (fun _ => mret 0) 1 (-4096) large_heap =
    Done (0x1000000, upd_heap (set_heap_curr 0x1400000) large_heap) /\ 0x1000000 < 0x1400000.
Proof.
  apply (ksbrk_negative_grows (fun _ => mret 0) 1 (-4096) large_heap);
    [done | done | done | done | done | split; by vm_compute | by vm_compute | lia].
Defined.
