(* ===== verification/WitnessDev.v ===== *)
(** * Concrete runs of the lists and the device drivers

    The theorems on list.c, serial.c, display.c, keyboard.c and the descriptor
    tables applied to concrete states, which shows that their hypotheses can
    hold together.  The lists live in the reference allocator of Arena.v. *)

From S2P Require Export Arena Keyboard DescTables Display.

(** ** list.c *)

(** A list object at 0x1000 with the nodes 0x100c and 0x1018, which hold 5 and 6,
    in an arena with room for [n] more objects. *)
Definition two_nodes_mem : memory :=
  foldr (fun av m => st32 m av.1 av.2) ∅
    [(0x1000, 0x100c); (0x1004, 0x1018); (0x1008, 2);
     (0x100c, 0); (0x1010, 0x1018); (0x1014, 5);
     (0x1018, 0x100c); (0x101c, 0); (0x1020, 6)].
Definition two_nodes : arena := Arena two_nodes_mem 0x1024.

(** The same with one node. *)
Definition one_node : arena :=
  Arena (foldr (fun av m => st32 m av.1 av.2) ∅
    [(0x1000, 0x100c); (0x1004, 0x100c); (0x1008, 1); (0x100c, 0); (0x1010, 0); (0x1014, 5)]) 0x1018.

Lemma two_nodes_state : list_state 1 0x1000 [(0x100c, 5); (0x1018, 6)] [] two_nodes.
Proof.
  split.
  - split; [done | done | |].
    + split; [|split; [|split; [|done]]]; intros r Hr; apply list_elem_of_In in Hr; simpl in Hr;
        destruct_or?; subst; (done || by left).
    + intros r Hr. apply list_elem_of_In in Hr. simpl in Hr. destruct_or?; subst; (done || by split).
  - split; [by vm_compute | repeat split; by vm_compute | by vm_compute].
Qed.

Lemma one_node_state : list_state 1 0x1000 [(0x100c, 5)] [] one_node.
Proof.
  split.
  - split; [done | done | |].
    + split; [|split; [|done]]; intros r Hr; apply list_elem_of_In in Hr; simpl in Hr;
        destruct_or?; subst; (done || by left).
    + intros r Hr. apply list_elem_of_In in Hr. simpl in Hr. destruct_or?; subst; (done || by split).
  - split; [by vm_compute | repeat split; by vm_compute | by vm_compute].
Qed.

Lemma list_insert_front_witness :
  exists t s', list_insert_front 0x1000 7 two_nodes = Done (t, s') /\
    list_state 0 0x1000 [(t, 7); (0x100c, 5); (0x1018, 6)] [] s'.
Proof.
  destruct (list_insert_front_cons 0 0x1000 [(0x100c, 5); (0x1018, 6)] [] 7 two_nodes two_nodes_state ltac:(lia))
    as (t & s' & H1 & H2 & _). eauto.
Defined.

Lemma list_insert_back_witness :
  exists t s', list_insert_back 0x1000 7 two_nodes = Done (t, s') /\
    list_state 0 0x1000 [(0x100c, 5); (0x1018, 6); (t, 7)] [] s'.
Proof.
  destruct (list_insert_back_snoc 0 0x1000 [(0x100c, 5); (0x1018, 6)] [] 7 two_nodes two_nodes_state ltac:(done) ltac:(lia))
    as (t & s' & H1 & H2 & _). eauto.
Defined.


Lemma list_get_node_witness : list_get_node_by_index 3 0x1000 1 two_nodes = Done (0x1018, two_nodes).
Proof.
  apply (list_get_node_lookup 3 1 0x1000 [(0x100c, 5); (0x1018, 6)] [] 1 two_nodes two_nodes_state); simpl; lia.
Defined.

Lemma list_remove_back_witness :
  exists s', list_remove_back 0x1000 one_node = Done (5, s') /\
    ld32 (mem s') (l_size 0x1000) = 0 /\ ld32 (mem s') (l_head 0x1000) = 0x100c.
Proof.
  destruct (list_remove_back_dangling 1 0x1000 0x100c 5 [] one_node one_node_state) as (s' & H1 & _ & H2 & H3 & _). eauto.
Defined.

Lemma list_destroy_witness : exists s', list_destroy 3 0x1000 two_nodes = Done (tt, s') /\ heap_ok 1 [] s'.
Proof.
  destruct (list_destroy_releases 3 1 0x1000 [(0x100c, 5); (0x1018, 6)] [] two_nodes two_nodes_state ltac:(simpl; lia))
    as (s' & H1 & H2 & _). eauto.
Defined.

(** ** string.c *)

Lemma strcpy_witness :
  exists s', strcpy 4 0x200 0x100 (st_bytes ∅ 0x100 [97; 98; 99; 0]) = Done (0x200, s') /\
    cstr s' 0x200 [97; 98; 99] /\ strcmp 4 0x200 0x100 s' = Done (0, s').
Proof.
  destruct (strcpy_strcmp 4 0x200 0x100 [97; 98; 99] (st_bytes ∅ 0x100 [97; 98; 99; 0])) as (s' & H1 & H2 & _ & H3 & _);
    [repeat split; by vm_compute | simpl; lia | simpl; lia | by right |]. eauto.
Defined.

(** ** serial.c *)

(** A receive interrupt (identification 4) whose status register is polled once
    in vain; the byte is 65. *)
Definition serial_idle : serial := Serial (Io (4 :: [0] ++ 1 :: 65 :: []) []) ∅ ∅ (-1) (-1).
(** A full queue that starts at index 1. *)
Definition serial_full : serial := Serial (Io (4 :: [0] ++ 1 :: 65 :: []) []) ∅ ∅ 1 0.

Lemma serial_irq_witness :
  exists s', serial_irq_handler 2 serial_idle = Done (tt, s') /\ queue_list s' = [65].
Proof.
  destruct (serial_irq_enqueues 2 4 [0] 1 65 [] [] serial_idle) as (s' & H1 & H2 & _);
    [by left | done | done | done | by constructor | done | simpl; lia |]. eauto.
Defined.

Lemma serial_getc_witness :
  exists c s', serial_getc serial_full = Done (c, s') /\ queue_list serial_full = c :: queue_list s'.
Proof.
  destruct (serial_getc_dequeues serial_full) as (c & s' & H1 & _ & _ & [(H2 & _)|H2]).
  - right. split; by split.
  - by vm_compute in H2.
  - eauto.
Defined.

(** Two bytes arrive, one is read, one more arrives, and the rest is read. *)
Definition serial_session : list serial_event := [Receive 4 [0] 1 65; Receive 4 [] 1 66; Getc; Receive 4 [] 1 67; Getc; Getc; Getc].
Definition serial_busy : serial := Serial (Io (serial_session ≫= event_answers) []) ∅ ∅ (-1) (-1).

Lemma serial_queue_witness :
  exists s', serial_events 2 serial_session serial_busy = Done ([65; 66; 67; 0], s') /\ queue_list s' = [].
Proof.
  destruct (serial_queue_refines 2 serial_session [65; 66; 67; 0] [] [] serial_busy) as (s' & H1 & H2 & _);
    [by left | repeat (constructor; [split_and!; [done | by repeat constructor | done | simpl; lia] || done|]); constructor | done | by vm_compute |]. eauto.
Defined.

Lemma serial_overflow_witness :
  exists s', serial_irq_handler 2 serial_full = Done (tt, s') /\
    length (queue_list serial_full) = 1024%nat /\ queue_list s' = [65].
Proof.
  apply (serial_irq_overflow 2 4 [0] 1 65 [] [] serial_full);
    [right; split; by split | done | done | done | done | by constructor | done | simpl; lia].
Defined.

(** ** display.c *)

Lemma itoa_witness :
  exists s' cs, itoa 0x100 33 48879 16 0x200 ∅ = Done (tt, s') /\ cstr s' 0x200 cs /\ read 16 cs = 48879.
Proof.
  destruct (itoa_roundtrip 0x100 33 48879 16 0x200 ∅) as (s' & cs & H1 & H2 & H3 & _);
    [lia | lia | lia | by left |]. eauto.
Defined.

(** [kprintf("%s=%d", "x", -5)] with TEXTMODE: the format string lies at 0x100, the
    string at 0x200 and the two argument words at 0x300; the cursor is at the end of
    the last line. *)
Definition printing : tty :=
  Tty (Serial (Io (replicate 4 0x20) [])
    (st32 (st32 (st_bytes (st_bytes ∅ 0x100 (chars "%s=%d")) 0x200 (chars "x")) 0x300 0x200) 0x304 (-5)) ∅ (-1) (-1))
    0xF00 79 24.

Lemma off_low_area (p n : Z) : p + n <= 0xc00b8000 -> off_area (S := tty) p n.
Proof. intros H a Ha. unfold term_area. cbn. unfold in_video, screen_buffer. lia. Qed.

Lemma kprintf_witness :
  exists t', kprintf 0x400 0x500 41 6 0x100 0x300 printing = Done (1, t') /\
    sent (io_trace (s_io (t_serial t'))) = chars "x=-5" /\
    same_screen (shown (to_vga t')) (puts 0xF00 (chars "x=-5") (shown (to_vga printing))).
Proof.
  destruct (kprintf_textmode 0x400 0x500 41 6 0x100 0x300 (chars "%s=%d") [ArgStr (chars "x"); ArgInt (-5)]
    (chars "x=-5") printing) as (t' & H1 & H2 & H3 & _).
  - split.
    + split; [by left | split; by apply off_low_area].
    + simpl. lia.
    + split; [done | split; [by vm_compute | split; [by right | split; [by right | by apply off_low_area]]]].
    + assert (Hs : forall p n, p + n <= 0x400 -> stable (S := tty) 0x400 0x500 p n).
      { intros p n Hp. split; [right; lia | split; [right; lia | apply off_low_area; lia]]. }
      repeat split; try (apply Hs; by vm_compute); try (by right; vm_compute); try (by vm_compute); try (apply off_low_area; by vm_compute). simpl. lia.
    + split; [split; [by vm_compute | by repeat constructor] | by split].
  - by vm_compute.
  - eauto.
Defined.

(** ** keyboard.c *)

(** The key 0x1e is A; with SHIFT (1) it prints the capital letter. *)
Lemma scan_letters_witness : scan 1 0x1e = (1, Some 65).
Proof.
  rewrite (scan_letters 1 0x1e 97); [reflexivity | split; done | done | done | done | done | done].
Defined.

(** Pressing and releasing CAPSLOCK (0x3a) toggles its lock. *)
Lemma scan_press_witness : (scan (scan 0 0x3a).1 (Z.lor 0x3a 0x80)).1 = Z.lxor (Z.land 0 (Z.lnot (shiftcode 0x3a))) (togglecode 0x3a).
Proof. apply scan_press_release; [split; done | done | done]. Defined.

(** "a", shift and "b", caps lock, "c": typed with the locks off. *)
Definition strokes_demo : list stroke := [Plain 0x1e; Shifted 0x30; Caps; Plain 0x2e].
Definition no_polls : list Z := replicate 1000 0.
Definition keyboard_demo (polls : list Z) : keyboard := Keyboard (Io (keyboard_answers polls (strokes_demo ≫= scancodes)) []) 0 [].


(** ** The descriptor tables *)

Definition cpu_demo : cpu := Cpu (Io [] []) ∅ ∅ (Tss 0 0 0 0 0 0 0 0) None None None false ∅ 0 [].

Lemma gdt_encode_witness : gdt_limit (gdt_encode 0x12345678 0xFFFFFFFF 0x9A 0xCF) = 0xFFFFF.
Proof.
  destruct (gdt_encode_decode 0x12345678 0xFFFFFFFF 0x9A 0xCF) as (_ & -> & _); [lia | lia | lia | lia | reflexivity].
Defined.

Lemma idt_init_witness :
  exists c', idt_init 0x5000 (fun n => 0x100000 + 16 * (n mod 256)) (fun n => 0x101000 + 16 * (n mod 256)) cpu_demo = Done (tt, c') /\
    io_trace (c_io c') = pic_trace.
Proof.
  destruct (idt_init_gates 0x5000 (fun n => 0x100000 + 16 * (n mod 256)) (fun n => 0x101000 + 16 * (n mod 256)) cpu_demo)
    as (c' & H1 & H2 & _).
  - intros n. Z.div_mod_to_equations. lia.
  - intros n. Z.div_mod_to_equations. lia.
  - eauto.
Defined.

Lemma tss_init_witness :
  exists c' d, tss_init 0x6000 5 0x10 0 cpu_demo = Done (tt, c') /\ gdt c' = <[5 := d]> (gdt cpu_demo) /\ gdt_limit d = 0x6068.
Proof.
  destruct (tss_init_limit 0x6000 5 0x10 0 cpu_demo) as (c' & d & H1 & H2 & _ & _ & _ & _ & _ & H3 & _);
    [lia | done | lia | lia | lia |]. eauto.
Defined.

Lemma irq_handler_witness :
  (int_install_handler 33 0xC0101000;; irq_handler (fun _ _ => mret tt) 0x7000 33) cpu_demo =
    Done (tt, acknowledged 0x7000 33 (set_handlers (<[33 := 0xC0101000]> ∅) cpu_demo)).
Proof.
  destruct (irq_handler_dispatch (fun _ _ => mret tt) 0x7000 33 0xC0101000 cpu_demo) as [H _]; [lia | done | exact H].
Defined.
