(* ===== verification/WitnessFs.v ===== *)
(** * Concrete runs of the file systems, the trees and the scheduler

    The theorems on spinlock.c, vga.c, rtc.c, timer.c, the file systems, tree.c
    and task.c applied to concrete states.  Objects live in the reference
    allocator of Arena.v; logging and the switch of address spaces do nothing. *)

From S2P Require Export Arena Spinlock Vga Clock Rootfs Tarfs VfsMount DevFiles Tree Task.

(** ** Worlds *)

(** Words in memory below [next], where the free memory starts. *)
Definition world (next : Z) (l : list (Z * Z)) : arena := Arena (foldr (fun av m => st32 m av.1 av.2) ∅ l) next.

Definition apartb (r r' : region) : bool := (r.1 + r.2 <=? r'.1) || (r'.1 + r'.2 <=? r.1).

Fixpoint separateb (L : list region) : bool :=
  match L with [] => true | r :: L' => forallb (apartb r) L' && separateb L' end.

Definition arena_okb (n : nat) (L : list region) (s : arena) : bool :=
  (4 <=? a_next s) && (a_next s + SMALL * Z.of_nat n <=? 4294967296) && separateb L &&
  forallb (fun r : region => (4 <=? r.1) && (r.1 + r.2 <=? a_next s)) L.

Lemma separateb_separate L : separateb L = true -> separate L.
Proof.
  induction L as [|r L IH]; [done|]. cbn. rewrite andb_true_iff, forallb_forall. intros [Ha Hl]. split; [|by apply IH].
  intros r' Hr. specialize (Ha r' ltac:(by apply list_elem_of_In)). unfold apartb in Ha.
  rewrite orb_true_iff, !Z.leb_le in Ha. unfold apart, disjoint. lia.
Qed.

Lemma arena_okb_ok n L s : arena_okb n L s = true -> arena_ok n L s.
Proof.
  unfold arena_okb. rewrite !andb_true_iff, !Z.leb_le, forallb_forall. intros [[[? ?] Hs] Hr].
  split; [done | done | by apply separateb_separate |]. intros r Hin. apply list_elem_of_In in Hin. specialize (Hr r Hin).
  rewrite andb_true_iff, !Z.leb_le in Hr. lia.
Qed.

(** The list predicates on a concrete memory. *)
Ltac concrete_dlist := split; [by vm_compute | repeat split; by vm_compute | intros _; by vm_compute].
Ltac concrete_list := split; [apply arena_okb_ok; by vm_compute | concrete_dlist].
Ltac concrete_elem Hin := repeat (apply elem_of_cons in Hin as [Hin|Hin]); [.. | by apply not_elem_of_nil in Hin]; simplify_eq/=.

(** ** spinlock.c *)


Lemma rogue_unlock_witness :
  exists s', reachable 0x100 (fun t => t = 2%nat) (System ∅ (fun _ => Outside)) s' /\
    at_place s' 0%nat = Critical /\ at_place s' 1%nat = Critical.
Proof. apply (rogue_unlock_breaks_exclusion 0x100 ∅). by vm_compute. Defined.

(** ** vga.c *)

Definition vga_demo : vga := Vga (Io [] []) (st_bytes ∅ 0x100 [72; 10; 0]) 3840 79 24.

Lemma vga_puts_witness : exists v', vga_puts 3 0x100 vga_demo = Done (tt, v') /\ vga_wf v'.
Proof.
  destruct (vga_puts_refines 3 0x100 [72; 10] vga_demo) as (v' & H1 & H2 & _);
    [split; by vm_compute | repeat split; by vm_compute | left; by vm_compute | simpl; lia | eauto].
Defined.

(** ** timer.c *)

Lemma sleep_witness : sleep 5 3 (Ticker 10 [1%nat; 1%nat; 2%nat; 7%nat]) = Done (tt, Ticker 14 [7%nat]).
Proof.
  destruct (sleep_wakes 5 3 10 [1%nat; 1%nat] 2 [7%nat] ltac:(lia) ltac:(lia) ltac:(lia) ltac:(by right; vm_compute) ltac:(by vm_compute)
    ltac:(simpl; lia)) as [Hs _]. apply Hs. by vm_compute.
Defined.

(** ** rootfs.c and devfs.c *)

#[export] Instance fs_logger : Logger arena := {| klog_op _ _ _ := mret tt |}.
#[export] Instance fs_logger_laws : LoggerLaws arena.
Proof. split. intros lv fmt args Q s HQ. unfold wp, klog_op, fs_logger. cbn. by apply HQ. Qed.

#[export] Instance fs_globals : FsGlobals := {|
  root_nodes := 0x200; rootfs_lock := 0x204; root_files := 0x208;
  devlist := 0x200; devfs_dirent := 0x20c; devfs_lock := 0x204; dt := 0x300;
  rootfs_readdir_fn := 1; rootfs_finddir_fn := 2; devfs_readdir_fn := 3; devfs_finddir_fn := 4;
|}.

#[export] Instance vfs_globals : VfsGlobals := {| fs_root := 0x210 |}.

(** A directory with the node "a" at 0x2000; the node "b" at 0x2100 is not in it.  The
    node of the root directory itself is at 0x2200. *)
Definition one_file : arena :=
  world 0x3000 [(0x200, 0x1000); (0x208, 1); (0x1000, 0x100c); (0x1004, 0x100c); (0x1008, 1); (0x1014, 0x2000);
                (0x2000, 97); (0x2100, 98); (0x210, 0x2200); (fs_flags 0x2200, Z.lor FS_DIRECTORY FS_MOUNTPOINT); (fs_finddir 0x2200, 2)].
Definition file_names (v : Z) : list Z := if v =? 0x2000 then [97] else [98].
Definition one_file_list : list (Z * Z) := [(0x100c, 0x2000)].
Definition fs_regions : list region := [(0x200, 4); (0x204, 4); (0x208, 4); (0x2000, 176); (0x2100, 176); (0x210, 4); (0x2200, 176)].

Lemma one_file_directory n : (n <= 64)%nat -> directory n 0x200 0x204 file_names one_file_list fs_regions one_file.
Proof.
  intros Hn. split.
  - split; [|concrete_dlist]. assert (Hok : arena_okb 64 (list_regions 0x1000 one_file_list ++ fs_regions) one_file = true) by by vm_compute.
    apply arena_okb_ok in Hok as [H1 H2 H3 H4]. split; [done | unfold SMALL in *; lia | done | done].
  - split_and!; [elem | elem | done].
  - by vm_compute.
  - intros nv Hin. concrete_elem Hin. repeat split; by vm_compute.
  - intros nv Hin. concrete_elem Hin. split; [elem | done].
  - apply NoDup_singleton.
Qed.

Lemma one_file_root n : (n <= 64)%nat -> root_dir n file_names one_file_list fs_regions one_file.
Proof. intros Hn. split; [by apply one_file_directory | split_and!; [elem | done | done] | by vm_compute]. Qed.

Lemma fs_register_witness :
  exists s', fs_register 3 3 0x2100 one_file = Done (tt, s') /\
    (exists n' l', root_dir n' file_names l' fs_regions s' /\ entries file_names l' !! [98] = Some 0x2100).
Proof.
  destruct (fs_register_refines 3 3 10 file_names one_file_list fs_regions 0x2100 one_file) as (s' & n' & t & Hrun & Hd & _ & He & _).
  - apply one_file_root. lia.
  - split; [elem | repeat split; by vm_compute | done | simpl; lia].
  - simpl. lia.
  - exists s'. split; [exact Hrun|]. exists n', (registered file_names 0x2100 t one_file_list). split; [exact Hd|].
    rewrite He. vm_compute. done.
Defined.

Lemma one_file_chars nv : nv ∈ one_file_list -> (length (file_names nv.2) < 2)%nat.
Proof. intros Hin. concrete_elem Hin. unfold file_names. simpl. lia. Qed.

Lemma rootfs_readdir_witness :
  exists d s', rootfs_readdir 2 2 0 0 one_file = Done (d, s') /\ d <> 0.
Proof.
  destruct (rootfs_readdir_entry 2 2 10 file_names one_file_list fs_regions 0 0 one_file (one_file_root 19 ltac:(lia))
    ltac:(simpl; lia) ltac:(by vm_compute) ltac:(lia) one_file_chars) as (d & s' & Hrun & _ & _ & Hd). eauto.
Defined.

Lemma devfs_readdir_witness : exists s', devfs_readdir 2 2 0 0 one_file = Done (0, s') /\ cstr (mem s') 0 [97].
Proof.
  destruct (devfs_readdir_null 2 2 10 file_names one_file_list fs_regions 0 0 one_file (one_file_directory 10 ltac:(lia))
    one_file_chars ltac:(simpl; lia) ltac:(by vm_compute) ltac:(lia)) as (s' & Hrun & Hs);
    [by vm_compute | by vm_compute | by vm_compute | by right |].
  exists s'. split; [exact Hrun|]. apply Hs.
Defined.

(** ** tarfs.c *)

#[export] Instance tar_globals : TarfsGlobals := {|
  headers := 0x400; tarfs_files := 0x800; tarfs_root := 0x804; tarfs_read_fn := 5; tarfs_readdir_fn := 6; tarfs_finddir_fn := 7 |}.

(** An archive of one file of nine bytes. *)
Definition archive_demo : memory :=
  st_bytes (st8 ∅ 0x10000 97) (tar_size 0x10000) [48; 48; 48; 48; 48; 48; 48; 48; 48; 49; 49; 0].

Lemma tar_parse_witness :
  exists s', tar_parse 2 0x10000 0x20000 archive_demo = Done (tt, s') /\ ld32 s' tarfs_files = 1 /\ ld32 s' headers = 0x10000.
Proof.
  destruct (tar_parse_archive 2 0x10000 0x20000 [9] archive_demo) as (s' & Hrun & Hn & Hh & _).
  - split_and!; [by vm_compute | lia | lia | | by vm_compute].
    assert (Hall : forallb (fun i => ld8 archive_demo (tar_size 0x10000 + i) =? 48 + 9 / 8 ^ (10 - i) mod 8) (seqZ 0 11) = true) by by vm_compute.
    intros i Hi. rewrite forallb_forall in Hall. apply Z.eqb_eq, Hall, list_elem_of_In, elem_of_seqZ. lia.
  - split; [by left; vm_compute | by left; vm_compute | by left; vm_compute | by vm_compute].
  - by vm_compute.
  - by vm_compute.
  - simpl. lia.
  - exists s'. split; [exact Hrun|]. split; [exact Hn|]. apply (Hh 0%nat). simpl. lia.
Defined.

(** The ramdisk at 0x10000: a directory and the file "f" of three bytes.  The names a
    client asks for are at 0x2400 and 0x2410. *)
Definition tar_header_bytes (h name size_digit type : Z) (m : memory) : memory :=
  st8 (st_bytes (st8 m (tar_name h) name) (tar_size h) (replicate 10 48 ++ [size_digit; 0])) (tar_typeflag h) type.
Definition disk_demo : arena :=
  Arena (st_bytes (tar_header_bytes 0x10200 102 51 REGTYPE (tar_header_bytes 0x10000 46 48 53
    (st_bytes (st_bytes (a_mem one_file) 0x2400 initrd) 0x2410 [102]))) 0x10400 [97; 98; 99]) 0x30000.
Definition disk_files : list (list Z * Z) := [([102], 3)].
Definition disk_regions : list region := tar_regions 0x10000 0 disk_files ++ [(tarfs_root, 4)] ++ fs_regions.

Lemma octal_decide m p n : forallb (fun i => ld8 m (p + i) =? 48 + n / 8 ^ (10 - i) mod 8) (seqZ 0 11) = true -> octal_at m p n.
Proof. intros Hall i Hi. rewrite forallb_forall in Hall. apply Z.eqb_eq, Hall, list_elem_of_In, elem_of_seqZ. lia. Qed.

Lemma disk_demo_root n : (n <= 64)%nat -> root_dir n file_names one_file_list disk_regions disk_demo.
Proof.
  intros Hn. split; [|split_and!; [unfold disk_regions; elem | done | done] | by vm_compute]. split.
  - split; [|concrete_dlist]. assert (Hok : arena_okb 64 (list_regions 0x1000 one_file_list ++ disk_regions) disk_demo = true) by by vm_compute.
    apply arena_okb_ok in Hok as [H1 H2 H3 H4]. split; [done | unfold SMALL in *; lia | done | done].
  - split_and!; [unfold disk_regions; elem | unfold disk_regions; elem | done].
  - by vm_compute.
  - intros nv Hin. concrete_elem Hin. repeat split; by vm_compute.
  - intros nv Hin. concrete_elem Hin. split; [unfold disk_regions; elem | done].
  - apply NoDup_singleton.
Qed.

Lemma disk_demo_ramdisk : ramdisk 0x10000 0 disk_files (mem disk_demo) 0x20000 disk_regions.
Proof.
  split; [| | by vm_compute | apply NoDup_singleton | by vm_compute | |].
  - split_and!; [by vm_compute | lia | lia | apply octal_decide; by vm_compute |].
    split_and!; [by vm_compute | cbn; lia | cbn; lia | apply octal_decide; by vm_compute | by vm_compute].
  - intros [|j] f Hj; [|done]. simplify_eq/=. split; [|by vm_compute]. repeat split; by vm_compute.
  - intros r [->|Hr]%elem_of_cons; unfold disk_regions; elem.
  - by apply (bool_decide_unpack _); vm_compute.
Qed.


(** Calls of other functions do nothing. *)
Definition no_calls : FsCalls arena := {|
  call_open _ _ _ s := Done (tt, s); call_close _ _ s := Done (tt, s); call_read _ _ _ _ _ s := Done (0, s);
  call_write _ _ _ _ _ s := Done (0, s); call_readdir _ _ _ s := Done (0, s); call_finddir _ _ _ s := Done (0, s);
  call_ioctl _ _ _ _ s := Done (0, s) |}.

Lemma fs_distinct : distinct_functions.
Proof. split; [intros f Hf; concrete_elem Hf; lia | by vm_compute]. Qed.


(** A file of nine bytes at 0x10000, its node at 0x2000. *)
Definition read_demo : arena := world 0x30000 [(fs_length 0x2000, 9); (headers, 0x10000); (0x10200, 0x64636261); (0x10204, 0x68676665)].

Lemma tarfs_read_witness :
  exists s', tarfs_read 0x2000 4 4 0x5000 read_demo = Done (4, s') /\ ld8 (mem s') 0x5000 = 97.
Proof.
  destruct (tarfs_read_ignores_offset 0x2000 4 4 0x5000 read_demo) as (s' & Hrun & Hb & _);
    [lia | lia | lia | by vm_compute | by vm_compute | left; by vm_compute |].
  exists s'. split; [exact Hrun|]. change (ld8 (mem s') (0x5000 + 0) = 97). rewrite Hb by (by vm_compute). by vm_compute.
Defined.

(** ** The device files *)

Definition two_bytes : serial := Serial (Io [] []) ∅ (<[1 := 66]> (<[0 := 65]> ∅)) 0 1.

Lemma read_com_witness : exists s', read_com 0 0 3 0x100 two_bytes = Done (3, s') /\ queue_list s' = [] /\ ld8 (mem s') 0x101 = 66.
Proof.
  destruct (read_com_drains 0 0 3 0x100 two_bytes) as (s' & Hrun & _ & Hq & Hb & _); [by right; vm_compute | lia |].
  exists s'. split; [exact Hrun|]. split; [rewrite Hq; by vm_compute|]. change (ld8 (mem s') (0x100 + 1) = 66). rewrite (Hb 1) by lia. by vm_compute.
Defined.

Definition seeded : random := Random ∅ (<[1 := 12345]> ∅) 362436 0.

Lemma rand_witness : exists v s', rand seeded = Done (v, s') /\ random_wf s' /\ rnd_i s' = 1.
Proof.
  destruct (rand_cmwc seeded) as (v & x & s' & Hrun & Hwf & Hi & _).
  - split; [by vm_compute | by vm_compute |]. intros i. unfold Q_at, seeded, rnd_Q.
    destruct (decide (1 = i)) as [<-|Hne]; [rewrite lookup_insert_eq | rewrite lookup_insert_ne, lookup_empty by done]; simpl; lia.
  - exists v, s'. split; [exact Hrun|]. split; [exact Hwf|]. rewrite Hi. by vm_compute.
Defined.

#[export] Instance dev_globals : DevGlobals := {|
  read_com_fn := 11; write_com_fn := 12; read_null_fn := 13; write_null_fn := 14;
  read_port_fn := 15; write_port_fn := 16; read_random_fn := 17; write_random_fn := 18 |}.

Lemma device_create_witness :
  exists s', device_create 2 5 [110; 117; 108; 108] None 13 14 (mret tt) one_file = Done (tt, s').
Proof.
  destruct (device_create_registers 2 5 8 file_names one_file_list fs_regions [110; 117; 108; 108] 13 14 one_file)
    as (node & m0 & s' & n' & names' & l' & Hrun & _);
    [apply (one_file_directory 20); lia | repeat constructor | by vm_compute | simpl; lia | | simpl; lia | eauto].
  intros Hin. concrete_elem Hin.
Defined.

(** ** tree.c *)

(** A tree at 0x500 whose root at 0x1000 (value 5, children at 0x1100) has the child
    at 0x1200 (value 6, children at 0x1300). *)
Definition tree_demo : arena :=
  world 0x2000 [(0x500, 2); (0x504, 0x1000); (0x1000, 5); (0x1004, 0x1100); (0x1100, 0x1400); (0x1104, 0x1400); (0x1108, 1);
                (0x1408, 0x1200); (0x1200, 6); (0x1204, 0x1300); (0x1208, 0x1000)].
Definition tree_value : rtree := RNode 0x1000 5 0x1100 [(0x1400, RNode 0x1200 6 0x1300 [])].

Lemma tree_demo_at : tree_at (mem tree_demo) 0 tree_value.
Proof.
  split_and!; try done; try (by vm_compute).
  - intros n v Hin. concrete_elem Hin. done.
  - split; [|done]. split_and!; try done; try (by vm_compute). by intros n v Hin%not_elem_of_nil.
Qed.

Lemma tree_search_witness : tree_find_parent 3 0x500 0x1200 tree_demo = Done (0x1000, tree_demo).
Proof.
  destruct (tree_searches_preorder 3 0x500 tree_value 0 0x1200 (fun _ _ s => Done (0, s)) (fun _ => 0) tree_demo) as (_ & Hp & _);
    [done | by vm_compute | exact tree_demo_at | simpl; lia | rewrite Hp; f_equal].
Defined.

Lemma tree_insert_witness :
  exists out s', tree_node_insert_child 0x500 0x1000 9 tree_demo = Done (out, s') /\ ld32 (mem s') 0x500 = 3.
Proof.
  destruct (tree_insert_child_leaf 2 0x500 0 0x1000 5 0x1100 [(0x1400, RNode 0x1200 6 0x1300 [])] 9 [(0x500, 8)] tree_demo)
    as (x & out & cl' & s' & Hrun & _ & _ & Hn & _);
    [apply arena_okb_ok; by vm_compute | exact tree_demo_at | elem | lia |].
  exists out, s'. split; [exact Hrun|]. change (ld32 (mem s') (t_nodes 0x500) = 3). rewrite Hn. by vm_compute.
Defined.

(** The child is still in the list of its parent. *)
Lemma tree_break_off_witness :
  exists s', tree_break_off 2 0x500 0x1200 tree_demo = Done (tt, s') /\ ld32 (mem s') (l_head 0x1100) = 0x1400.
Proof.
  destruct (tree_break_off_keeps_child 2 0x500 0x1200 0x1000 0x1100 0x1400 [] [] tree_demo) as (m & Hrun & Hm);
    [by vm_compute | done | by vm_compute | concrete_dlist | | | by vm_compute | by vm_compute | done | simpl; lia |].
  - intros n v Hin. concrete_elem Hin. done.
  - intros nv Hin. concrete_elem Hin. by vm_compute.
  - rewrite Hrun. eexists. split; [done|]. unfold mem, HasMem_arena, set_mem. cbn [a_mem].
    rewrite ld32_st32_ne by (right; by vm_compute). rewrite (ld32_ext m (mem tree_demo)) by (intros a _; apply Hm). by vm_compute.
Defined.

(** ** task.c *)

#[export] Instance task_switching : Switching arena := {|
  tss_set_stack_op _ _ := mret tt; switch_page_directory_op _ := mret tt; copy_page_directory_op _ _ := mret tt |}.
#[export] Instance task_switching_laws : SwitchingLaws arena.
Proof. split; intros; unfold wp; cbn; eauto. Qed.

#[export] Instance task_globals : TaskGlobals := {|
  current_task := 0x600; task_list := 0x604; next_tid := 0x608; prev_ticks := 0x60c; curr_ticks := 0x610;
  timer_ticks_at := 0x614; current_page_dir_at := 0x618 |}.

(** The tasks at 0x2000 and 0x2100; the first one runs. *)
Definition two_tasks : arena :=
  world 0x3000 [(0x600, 0x2000); (0x604, 0x1000); (0x1000, 0x100c); (0x1004, 0x1018); (0x1008, 2);
                (0x1010, 0x1018); (0x1014, 0x2000); (0x1018, 0x100c); (0x1020, 0x2100);
                (tk_self 0x2000, 0x100c); (tk_self 0x2100, 0x1018)].
Definition two_tasks_list : list (Z * Z) := [(0x100c, 0x2000); (0x1018, 0x2100)].
Definition task_regions : list region :=
  [(0x600, 4); (0x604, 4); (0x60c, 4); (0x610, 4); (0x614, 4); (0x2000, 48); (0x2100, 48)].

Lemma two_tasks_queue : queue 0 0 two_tasks_list task_regions two_tasks.
Proof.
  split.
  - concrete_list.
  - split; [by apply (bool_decide_unpack (NoDup variables)); vm_compute|].
    intros g Hin. concrete_elem Hin; subst; elem.
  - intros x t Hin. concrete_elem Hin; (split_and!; [elem | by vm_compute | by vm_compute]).
  - by apply (bool_decide_unpack (NoDup two_tasks_list.*2)); vm_compute.
  - eexists. by vm_compute.
Qed.

Lemma schedule_fair_witness : exists s', timer_irqs 1 [0x7000] two_tasks = Done (tt, s') /\ ld32 (mem s') 0x600 = 0x2100.
Proof.
  destruct (schedule_fair 1 0 0 two_tasks_list task_regions two_tasks 1 0x1018 0x2100 [0x7000] two_tasks_queue ltac:(lia)
    ltac:(done) ltac:(done)) as (s' & Hrun & _ & Hc & _). exists s'. split; [exact Hrun | exact Hc].
Defined.

Lemma schedule_switches_witness : exists u s', schedule 1 0x7000 two_tasks = Done (tt, s') /\ ld32 (mem s') 0x600 = u.
Proof.
  destruct (schedule_switches 1 0 0 two_tasks_list task_regions two_tasks 0x7000 two_tasks_queue ltac:(lia)) as (x & u & s' & Hrun & _).
  eexists. exists s'. split; [exact Hrun | reflexivity].
Defined.

(** The task at 0x2100 is a zombie between the tasks at 0x2000 and 0x2200. *)
Definition zombie_demo : arena :=
  world 0x3000 [(0x600, 0x2000); (0x604, 0x1000); (0x1000, 0x100c); (0x1004, 0x1024); (0x1008, 3);
                (0x1010, 0x1018); (0x1014, 0x2000); (0x1018, 0x100c); (0x101c, 0x1024); (0x1020, 0x2100);
                (0x1024, 0x1018); (0x102c, 0x2200);
                (tk_self 0x2000, 0x100c); (tk_self 0x2100, 0x1018); (tk_state 0x2100, 2)].

