(* ===== verification/WitnessSys.v ===== *)
(** * Concrete runs of the remaining drivers and of the start of the kernel

    The theorems on vfs.c, pci.c, acpi/, elf.c, syscall.c, fpu.c and kernel.c
    applied to concrete states. *)

From S2P Require Export WitnessFs Board Acpi ElfLoad Syscall Features Boot.

(** ** vfs.c *)

(** A call of a stored function returns its address. *)
#[local] Instance calls_arena : FsCalls arena := {|
  call_open _ _ _ := mret tt; call_close _ _ := mret tt;
  call_read f _ _ _ _ := mret f; call_write f _ _ _ _ := mret f;
  call_readdir f _ _ := mret f; call_finddir f _ _ := mret f; call_ioctl f _ _ _ := mret f |}.

(** A character device whose readdir field was not initialised. *)
Definition device_demo : arena := world 0x3000 [(fs_flags 0x2000, FS_CHARDEVICE); (fs_readdir 0x2000, 0xdeadbeef)].

Lemma directory_dispatch_witness : readdir_fs 0x2000 0 device_demo = Done (0xdeadbeef, device_demo).
Proof.
  destruct (directory_dispatch 0x2000 CharDevice 0 0 device_demo) as [Hr _]; [done | by left; vm_compute |].
  rewrite Hr. by vm_compute.
Defined.

(** ** pci.c *)

#[local] Instance pci_globals : PciGlobals := {| pci_devices := 0x900; devs := 0x904; pci_drivers := 0x908; drivs := 0x90c |}.

(** A host bridge at the first address and nothing else. *)
Definition one_bridge : config := fun k => if k =? 0 then 0x12378086 else 0xffffffff.
Definition pci_demo : board arena :=
  Board (world 0x3000 [(0x900, 0x2000)]) (Io (probe_answers one_bridge (seqZ 0 65536) ++ [7]) []).

Lemma filter_none {A} (P : A -> Prop) `{!forall x, Decision (P x)} (l : list A) : (forall x, x ∈ l -> ~ P x) -> filter P l = [].
Proof.
  intros Hl. destruct (filter P l) as [|y l'] eqn:He; [done|]. exfalso.
  assert (Hy : y ∈ filter P l) by (rewrite He; left). apply list_elem_of_filter in Hy as [HP Hy]. by apply (Hl y).
Qed.

Lemma one_bridge_found : found one_bridge (seqZ 0 65536) = [0].
Proof.
  unfold found. rewrite seqZ_cons by lia. rewrite filter_cons_True by done. apply (f_equal (cons 0)).
  apply filter_none. intros k Hk%elem_of_seqZ Hab. unfold absent, vendor_of, one_bridge in Hab.
  by rewrite (proj2 (Z.eqb_neq k 0)) in Hab by lia.
Qed.

(** The words of the demonstration do not depend on the ports. *)
Lemma pci_demo_words io :
  ld32 (mem (Board (world 0x3000 [(0x900, 0x2000)]) io)) 0x904 = 0 /\ ld32 (mem (Board (world 0x3000 [(0x900, 0x2000)]) io)) 0x900 = 0x2000.
Proof. by vm_compute. Qed.

Lemma pci_demo_heap io : heap_ok 1 [(0x2000, 512); (0x900, 4); (0x904, 4)] (Board (world 0x3000 [(0x900, 0x2000)]) io).
Proof. apply (arena_okb_ok 1 _ (world 0x3000 [(0x900, 0x2000)])). by vm_compute. Qed.


(** ** acpi *)

#[local] Instance acpi_globals : AcpiGlobals := {|
  SMI_CMD := 0xa00; ACPI_ENABLE := 0xa04; ACPI_DISABLE := 0xa05; PM1a_CNT := 0xa08; PM1b_CNT := 0xa0c;
  SLP_TYPa := 0xa10; SLP_TYPb := 0xa12; SLP_EN := 0xa14; SCI_EN := 0xa16; PM1_CNT_LEN := 0xa18; s5_literal := 0xb00 |}.

(** A table at 0x2000 whose description block at 0x3000 has 40 bytes and no "_S5_". *)
Definition acpi_demo : board arena :=
  Board (world 0x4000 [(0xb00, 0x5f35535f); (fadt_dsdt_address 0x2000, 0x3000); (0x3004, 40); (0x3008, 216)]) (Io [] []).

Lemma acpi_parse_witness : exists s', acpi_parse_fadt 50 0x2000 acpi_demo = Done (tt, s') /\ ld16 (mem s') 0xa16 = 1.
Proof.
  destruct (acpi_parse_fadt_publishes 50 0x2000 acpi_demo) as (s' & Hrun & Hs).
  - unfold fadt_layout. rewrite !Forall_cons, Forall_nil. split_and!; (done || by (right; vm_compute)).
  - by vm_compute.
  - by vm_compute.
  - apply Nat.ltb_lt. by vm_compute.
  - by vm_compute.
  - match type of Hs with context [first_s5 ?m ?a ?n] => destruct (first_s5 m a n) as [j|] eqn:E end; [vm_compute in E; done|].
    exists s'. split; [exact Hrun | exact (proj2 Hs)].
Defined.

Lemma reboot_witness : exists s', reboot 3 (Board (world 0x4000 []) (Io [2; 1; 9] [])) = Done (tt, s') /\ io_answers (get_io s') = [9].
Proof.
  destruct (reboot_pulses_reset 3 [2] 1 [9] [] (Board (world 0x4000 []) (Io [2; 1; 9] []))) as (s' & Hrun & Hio).
  - intros lv fmt args s. by exists s.
  - done.
  - by repeat constructor.
  - done.
  - simpl. lia.
  - exists s'. split; [exact Hrun | by rewrite Hio].
Defined.

(** ** elf.c *)

(** Mapping a region changes nothing here. *)
#[export] Instance regions_arena : Regions arena := {| allocate_region_op _ _ _ _ _ := mret tt |}.
#[export] Instance regions_laws_arena : RegionsLaws arena.
Proof. refine {| page_tables _ := False |}. intros a b i k w Q s HQ. apply wp_ret. by apply HQ. Defined.

(** A file of 256 bytes at 0xd0000000 with one segment of four bytes, eight in
    memory, for the address 0x1000. *)
Definition elf_demo : arena :=
  world 0xe0000000 [(e_phoff 0xd0000000, 52); (0xd000002a, 0x10020); (p_type 0xd0000034, 1); (p_offset 0xd0000034, 200);
                    (p_vaddr 0xd0000034, 0x1000); (p_filesz 0xd0000034, 4); (p_memsz 0xd0000034, 8); (0xd00000c8, 0x64636261);
                    (0x1004, 0x11223344)].

Definition elf_result : Z * (Z -> Z) :=
  load_all (fun i => ld8 (mem elf_demo) (0xd0000000 + i)) (program_headers (mem elf_demo) 0xd0000000) (ld8 (mem elf_demo)).

Lemma elf_result_values : elf_result.1 = 0 /\ elf_result.2 0x1001 = 98 /\ elf_result.2 0x1005 = 0.
Proof. split; [|split]; vm_compute; reflexivity. Qed.


(** A mounted ramdisk at 0x10000 with the executable "f" of 88 bytes: one segment of four
    bytes, eight in memory, for the address 0x8000.  Its node is at 0x2000, that of the
    directory at 0x2200, and the heap grows from 0xd0000000. *)
Definition exec_bytes (b : Z) (m : memory) : memory :=
  foldr (fun av m => st32 m (b + av.1) av.2) m
    [(0, 0x464c457f); (4, 0x00010101); (16, 0x00030002); (28, 52); (42, 0x10020); (52, 1); (56, 84); (60, 0x8000); (68, 4); (72, 8); (84, 0x64636261)].

Definition node_words : list (Z * Z) :=
  [(0x210, 0x2200); (0x1000, 0x100c); (0x1004, 0x100c); (0x1008, 1); (0x1014, 0x2000); (0x404, 0x10200); (0x800, 2);
   (0x2000, 102); (fs_flags 0x2000, FS_FILE); (fs_inode 0x2000, 1); (fs_length 0x2000, 88); (fs_read 0x2000, 5);
   (fs_flags 0x2200, FS_DIRECTORY); (fs_inode 0x2200, 0x1000); (fs_readdir 0x2200, 6); (fs_finddir 0x2200, 7)].

Definition exec_demo : arena :=
  Arena (exec_bytes 0x10400 (st_bytes (tar_header_bytes 0x10200 102 48 REGTYPE (st_bytes (foldr (fun av m => st32 m av.1 av.2) ∅ node_words) 0x2200 initrd))
    (tar_size 0x10200) [48; 48; 48; 48; 48; 48; 48; 48; 49; 51; 48; 0])) 0xd0000000.

Definition exec_files : list (list Z * Z) := [([102], 88)].
Definition exec_regions : list region :=
  [(0x210, 4); (0x8000, 16); (0x400, 256); (0x800, 4); (0x10000, archive_length 0x10000 0 exec_files); (0x2200, 176)].

Lemma exec_demo_node : file_node (mem exec_demo) 0x2000 1 ([102], 88).
Proof.
  split; [split; [repeat split; by vm_compute | simpl; lia] | split_and!; by vm_compute | by vm_compute |].
  intros p Hp. concrete_elem Hp; by vm_compute.
Qed.

Lemma exec_demo_disk n : (n <= 64)%nat -> disk 0x10000 0 exec_files n 0x2200 0x1000 [(0x100c, 0x2000)] ((0x2000, SIZEOF_FS_NODE) :: exec_regions) exec_demo.
Proof.
  intros Hn. split.
  - split; [|concrete_dlist].
    assert (Hok : arena_okb 64 (list_regions 0x1000 [(0x100c, 0x2000)] ++ (0x2000, SIZEOF_FS_NODE) :: exec_regions) exec_demo = true) by by vm_compute.
    apply arena_okb_ok in Hok as [H1 H2 H3 H4]. split; [done | unfold SMALL in *; lia | done | done].
  - split; [repeat split; by vm_compute | split; by vm_compute | split; by vm_compute].
  - split_and!; [left | | done]. exists ([102], 88). split; [done | exact exec_demo_node].
  - split; [by vm_compute | | by vm_compute]. intros [|j] f Hj; [|done]. simplify_eq/=. split_and!; [by vm_compute | | by vm_compute..].
    split; [split; [repeat split; by vm_compute | simpl; lia] | by vm_compute | split; [apply octal_decide; by vm_compute | simpl; lia]].
Qed.


(** ** syscall.c *)

(** The first of two tasks calls SYS_GETTID, with its registers at 0x2800. *)
Definition call_demo : arena :=
  Arena (st32 (st32 (st32 (mem two_tasks) (tk_ifr 0x2000) 0x2800) (rg_eax 0x2800) 1) (tk_tid 0x2000) 42) 0x3000.
Definition call_regions : list region := (0x2800, 76) :: task_regions.

Lemma call_demo_queue : queue 0 0 two_tasks_list call_regions call_demo.
Proof.
  split.
  - concrete_list.
  - split; [by apply (bool_decide_unpack (NoDup variables)); vm_compute|].
    intros g Hin. concrete_elem Hin; subst; elem.
  - intros x t Hin. concrete_elem Hin; (split_and!; [elem | by vm_compute | by vm_compute]).
  - by apply (bool_decide_unpack (NoDup two_tasks_list.*2)); vm_compute.
  - eexists. by vm_compute.
Qed.


(** ** fpu.c *)

(** The task at 0x2000 ran before; the one at 0x2100, which saved 5, runs now. *)
Definition fpu_demo : fpu (contents := Z) :=
  Fpu (foldr (fun av m => st32 m av.1 av.2) ∅ [(0x600, 0x2100); (tk_fpu_state 0x2100, 0x5000); (tk_fpu_used 0x2100, 1)])
    9 (<[0x5000 := 5]> ∅) true 0x2000 0 0.

Lemma fpu_witness : exists s', fpu_exception_handler 0 fpu_demo = Done (tt, s') /\ fpu_regs s' = 9.
Proof.
  destruct (fpu_handler_leaks_registers 0 fpu_demo) as (s' & Hrun & Hr & _); [by vm_compute | by vm_compute |].
  exists s'. split; [exact Hrun | exact Hr].
Defined.

(** ** kernel.c *)

#[export] Instance boot_arena : Boot arena := {| boot_op _ := mret tt |}.
#[export] Instance boot_globals : BootGlobals := {| stage2_fn := 0x9000; welecome_banner := 0x9100; VERSION_ALIAS := 0x9200; TEXTMODE := true |}.

(** Boot information at 0x8000 with a module from 0x100000 to 0x180000. *)
Definition boot_info : arena := world 0xa000 [(0x8008, 3); (0x800c, 16); (0x8010, 0x100000); (0x8014, 0x180000)].

Lemma kernel_main_witness :
  kernel_main 2 MBOOT2_MAGIC 0x8000 boot_info = run_calls (initialise 0x8000 0xc0100000 0xc0180000) boot_info.
Proof.
  assert (Ht : tags (mem boot_info) (begin_tags 0x8000) [(0x8008, 3); (0x8018, 0)]).
  { assert (Hty : ld32 (mem boot_info) (tag_type 0x8008) = 3) by by vm_compute. rewrite <- Hty.
    apply (tags_cons (mem boot_info) 0x8008 [(0x8018, 0)]); [by vm_compute|].
    assert (Hq : next_tag 0x8008 (ld32 (mem boot_info) (tag_size 0x8008)) = 0x8018) by by vm_compute. rewrite Hq.
    apply (tags_end (mem boot_info) 0x8018). by vm_compute. }
  pose proof (kernel_main_initialises 2 MBOOT2_MAGIC 0x8000 [(0x8008, 3); (0x8018, 0)] boot_info boot_info eq_refl Ht
    ltac:(by vm_compute) ltac:(simpl; lia)) as Hrun.
  rewrite Hrun. cbv zeta. assert (Hb : last_module (mem boot_info) [(0x8008, 3); (0x8018, 0)] (0, 0) = (0xc0100000, 0xc0180000)) by by vm_compute.
  rewrite Hb. reflexivity.
Defined.
