(* ===== verification/WitnessAsm.v ===== *)
(** * Concrete runs of the assembly files

    The theorems on interrupt.asm, context_switch.asm, usermode.asm and entry.asm
    applied to concrete states of the processor. *)

From S2P Require Export IntStub CtxSwitch Preempt BootAsm.

#[local] Instance asm_processor : Processor := {|
  seg_push_clears := false; or_aux _ := false; dpl v := Z.land v 3; tss_ss0 := 0x10; tss_esp0 := 0x9000 |}.

(** Any addresses, and functions that return at once. *)
Definition la_demo (l : label) : Z := match l with isr n => 0x100 + n | irq n => 0x200 + n | start => 0x300 | _ => 0x400 end.
Definition ad_demo (n : nat) : Z := 0x1000 + Z.of_nat n.
Definition cf_demo (f : string) : M proc unit := mret tt.

(** The words [ws] in memory. *)
Definition memory_of (ws : list (Z * Z)) : memory := foldr (fun '(a, v) m => st32 m a v) ∅ ws.

(** ** interrupt.asm *)

(** User code with its stack at 0x5000. *)
Definition user_demo : proc :=
  Proc (fun r => match r with ESP => 0x5000 | EAX => 1 | _ => 7 end) (fun r => match r with CS => 0x1b | _ => 0x23 end)
    (fun _ => 0) 0x202 0x1234 (memory_of [(0x600, 0x2000); (0x2000 + 28, 5)]).

Lemma user_demo_ok : proc_ok user_demo.
Proof. split; [intros r; by destruct r | intros r; by destruct r | by vm_compute | by vm_compute]. Qed.

Lemma user_demo_segments : segments_usable user_demo.
Proof.
  intros _ r Hr. unfold data_segs in Hr. rewrite !elem_of_cons, elem_of_nil in Hr. right.
  destruct Hr as [->|[->|[->|[->|[]]]]]; by vm_compute.
Qed.


#[local] Instance asm_allocator : Allocator proc := {|
  kcalloc_op _ _ := mret 0; malloc_op _ := mret 0; kmalloc_op _ := mret 0; kmalloc_a_op _ := mret 0; kfree_op _ := mret tt;
  heap_ok _ _ _ := True |}.
#[local] Instance asm_switching : Switching proc := {|
  tss_set_stack_op _ _ := mret tt; switch_page_directory_op _ := mret tt; copy_page_directory_op _ _ := mret tt |}.
#[local] Instance asm_logger : Logger proc := {| klog_op _ _ _ := mret tt |}.
#[local] Instance asm_globals : TaskGlobals := {|
  current_task := 0x600; task_list := 0x604; next_tid := 0x608; prev_ticks := 0x60c; curr_ticks := 0x610;
  timer_ticks_at := 0x614; current_page_dir_at := 0x618 |}.


(** ** context_switch.asm *)

(** The task at 0x2000 switches to the task at 0x2100, whose stack is at 0x8000. *)
Definition kernel_regs (sp : Z) (r : reg) : Z := match r with ESP => sp | EBX => 11 | ESI => 12 | EDI => 13 | EBP => 14 | _ => 0 end.
Definition kernel_segs (r : seg) : Z := match r with CS => 0x08 | _ => 0x10 end.
Definition switch_demo : proc :=
  Proc (kernel_regs 0x7000) kernel_segs (fun _ => 0) 0x202 0
    (memory_of [(0x600, 0x2000); (0x2100, 0x8000); (0x7000, 0x4321); (0x7004, 0x2100); (0x8010, 0x5555); (0x8014, 0x202)]).

Ltac far := first [left; by vm_compute | right; by vm_compute].

Lemma switch_demo_call : switch_call switch_demo.
Proof.
  split; [|by vm_compute | far | split; far | split_and!; [far | far | right; far] | by vm_compute].
  split; [intros r; by destruct r | intros r; by destruct r | by vm_compute | by vm_compute].
Qed.

Lemma context_switch_refines_witness :
  exists (m1 m2 : memory) s3, run_from la_demo ad_demo cf_demo 22 context_switch_program context_switch_asm switch_demo = Done (Leaves, s3) /\
    context_switch 0x6fec 0x2100 m1 = Done (tt, m2) /\ eip s3 = 0x5555.
Proof.
  destruct (context_switch_refines la_demo ad_demo cf_demo 22 switch_demo switch_demo_call ltac:(lia)) as (m1 & m2 & s3 & Hrun & Hs & Hc & Hl).
  exists m1, m2, s3. split; [exact Hrun|]. split; [exact Hc|].
  assert (Hm2 : m2 = switch_memory switch_demo m1).
  { unfold switch_memory. unfold context_switch in Hc. injection Hc as <-. f_equal. f_equal.
    apply ld32_ext. intros b Hb. apply (sv_rest _ _ Hs). left. change (saved_sp switch_demo) with 0x6fec. unfold current_task, asm_globals in Hb. lia. }
  rewrite (proj1 (ld_control _ _ _ _ Hl)), Hm2. unfold switch_memory. change (target switch_demo + 16) with 0x8010.
  rewrite !ld32_st32_ne by (left; by vm_compute). rewrite <- (ld32_ext (mem switch_demo)); [by vm_compute|].
  intros b Hb. symmetry. apply (sv_rest _ _ Hs). right. change (gp switch_demo ESP) with 0x7000. lia.
Defined.

(** The task at 0x2100 switches back, with its stack at 0x7f00. *)
Definition after_switch : proc :=
  match run_from la_demo ad_demo cf_demo 22 context_switch_program context_switch_asm switch_demo with Done (_, s3) => s3 | _ => switch_demo end.
Definition back_demo : proc :=
  Proc (kernel_regs 0x7f00) kernel_segs (fun _ => 0) 0x202 0
    (st32 (st32 (mem after_switch) 0x7f00 0x6666) 0x7f04 0x2000).

Lemma back_demo_back : switch_back switch_demo after_switch back_demo.
Proof.
  split.
  - split; [|by vm_compute | far | split; far | split_and!; [far | far | right; far] | by vm_compute].
    split; [intros r; by destruct r | intros r; by destruct r | by vm_compute | by vm_compute].
  - split; [by vm_compute|]. intros He. vm_compute in He. done.
  - by vm_compute.
  - intros a Ha. change (saved_sp switch_demo) with 0x6fec in Ha. unfold back_demo. cbn [mem p_mem HasMem_proc]. by rewrite !ld8_st32_ne by lia.
  - far.
  - far.
Qed.

Lemma context_switch_resumes_witness :
  exists s4, run_from la_demo ad_demo cf_demo 22 context_switch_program context_switch_asm back_demo = Done (Leaves, s4) /\
    gp s4 EBX = 11 /\ eip s4 = 0x4321.
Proof.
  destruct (context_switch_resumes la_demo ad_demo cf_demo 22 switch_demo switch_demo_call) as (s3 & Hrun & Hback).
  - split; [intros He; vm_compute in He; done | far | far | far].
  - lia.
  - assert (Hs3 : after_switch = s3) by (unfold after_switch; by rewrite Hrun). rewrite <- Hs3 in Hback.
    destruct (Hback back_demo back_demo_back) as (s4 & Hrun4 & Hg & _ & Hip & _).
    exists s4. split; [exact Hrun4|]. split; [apply (Hg EBX); by left | exact Hip].
Defined.

(** ** entry.asm and usermode.asm *)

Lemma boot_address_space_witness : large_translate boot_page_dir_words 0xc0100000 = Some 0x100000.
Proof. exact (proj1 (boot_address_space 0xc0100000 ltac:(lia))). Defined.

Lemma start_calls_kernel_main_witness :
  exists s3, run_from la_demo ad_demo cf_demo 25 (entry_asm 0xc0105000 0xc0107000) start user_demo = Done (Halts, s3) /\
    Z.testbit (eflags s3) IF_BIT = false.
Proof.
  apply (start_calls_kernel_main la_demo ad_demo cf_demo 0xc0105000 0xc0107000 25 user_demo); [exact user_demo_ok | done | by vm_compute | lia | | lia].
  intros s1 Hen. apply wp_ret. done.
Defined.

(** [switch_to_user] called with 0x100000, an unused word and 0x77. *)
Definition to_user_demo : proc :=
  Proc (kernel_regs 0x7000) kernel_segs (fun _ => 0) 0x2 0 (memory_of [(0x7004, 0x100000); (0x700c, 0x77)]).

Lemma switch_to_user_witness :
  exists s3, run_from la_demo ad_demo cf_demo 22 usermode_asm switch_to_user to_user_demo = Done (Leaves, s3) /\
    eip s3 = 0x100000 /\ gp s3 ESP = 0xffffc /\ cpl s3 = 3.
Proof.
  destruct (switch_to_user_enters la_demo ad_demo cf_demo 22 to_user_demo) as (s3 & Hrun & Hip & Hsp & _ & Hl & _).
  - split; [intros r; by destruct r | intros r; by destruct r | by vm_compute | by vm_compute].
  - done.
  - done.
  - by vm_compute.
  - by vm_compute.
  - by vm_compute.
  - far.
  - lia.
  - exists s3. split; [exact Hrun|]. split; [exact Hip | split; [exact Hsp | exact Hl]].
Defined.

(** ** Preemption *)

(** The handler's call of [context_switch] with its stack at 0x8f00, for the task at
    0x2100; that task calls it back with its stack at 0x7f00. *)
Definition kernel_call (sp ret next : Z) (m : memory) : proc :=
  Proc (kernel_regs sp) kernel_segs (fun _ => 0) 0x202 0 (st32 (st32 m (sp + 4) next) sp ret).
Definition before_demo (s1 : proc) : proc := kernel_call 0x8f00 0x4321 0x2100 (st32 (mem s1) 0x2100 0x7e00).
Definition others_demo (s3 : proc) : proc := kernel_call 0x7f00 0x6666 0x2000 (mem s3).
Definition after_demo (s4 : proc) : proc := set_gp ESP 0x8fac s4.

Lemma kernel_call_ok sp ret next m : 0 <= sp < 4294967296 -> proc_ok (kernel_call sp ret next m).
Proof. intros Hsp. split; [intros r; destruct r; cbn; lia | intros r; destruct r; cbn; lia | cbn; lia | cbn; lia]. Qed.

Lemma next_task_kernel_call sp ret next m : 0 <= next < 4294967296 -> next_task (kernel_call sp ret next m) = next.
Proof. intros Hn. unfold next_task. cbn. rewrite ld32_st32_ne, ld32_st32_eq by (unfold disjoint; lia). by apply u32_small. Qed.

Ltac loads := rewrite ?ld32_st32_ne by (unfold disjoint; lia).

Lemma user_demo_frame : frame_at user_demo = 0x8fb4 /\ kernel_stack user_demo = 0x9000.
Proof. split; by vm_compute. Qed.

Lemma before_demo_call s1 :
  handler_entry user_demo 32 0 s1 ->
  leaving (before_demo s1) = 0x2000 /\ next_task (before_demo s1) = 0x2100 /\ target (before_demo s1) = 0x7e00.
Proof.
  intros Hen. destruct user_demo_frame as [Hfr Hks].
  assert (Hlv : leaving (before_demo s1) = 0x2000).
  { unfold leaving. cbn. loads. transitivity (ld32 (mem user_demo) 0x600); [|by vm_compute].
    apply ld32_ext. intros b Hb. apply (he_memory _ _ _ _ Hen). lia. }
  assert (Hnx : next_task (before_demo s1) = 0x2100) by (by apply next_task_kernel_call).
  split_and!; [exact Hlv | exact Hnx |]. unfold target. rewrite Hlv, Hnx, decide_False by lia. cbn. loads. by rewrite ld32_st32_eq.
Qed.

Lemma before_demo_gives s1 :
  handler_entry user_demo 32 0 s1 -> gives_away user_demo s1 (before_demo s1).
Proof.
  intros Hen. pose proof (he_segs _ _ _ _ Hen) as (Hcs & Hss & _). destruct user_demo_frame as [Hfr Hks].
  destruct (before_demo_call s1 Hen) as (Hlv & Hnx & Htg).
  assert (Hsp : gp (before_demo s1) ESP = 0x8f00 /\ saved_sp (before_demo s1) = 0x8eec) by done. destruct Hsp as [Hsp Hsv].
  split; rewrite ?Hsp, ?Hsv, ?Hfr.
  - split; rewrite ?Hsp, ?Hsv, ?Hlv, ?Hnx, ?Htg; change current_task with 0x600; unfold disjoint; [by apply kernel_call_ok | ..]; lia.
  - split; rewrite ?Hsp, ?Hsv, ?Hlv, ?Hnx, ?Htg; change current_task with 0x600; unfold disjoint; lia.
  - lia.
  - intros a Ha. rewrite Hfr, Hks in Ha. cbn. by rewrite !ld8_st32_ne by lia.
  - by rewrite Hcs, Hss.
  - unfold off_stack, disjoint. rewrite Hfr, Hks, Hlv, Htg. change current_task with 0x600. lia.
Qed.

Lemma others_demo_gets s1 s3 :
  handler_entry user_demo 32 0 s1 -> leaves (before_demo s1) s3 -> gets_back user_demo (before_demo s1) s3 (others_demo s3).
Proof.
  intros Hen [_ Hks Hcur _ _]. destruct (before_demo_call s1 Hen) as (Hlv & Hnx & Htg). destruct user_demo_frame as [Hfr Hkst].
  change current_task with 0x600 in *. rewrite Hnx in Hcur. rewrite Hlv in Hks.
  assert (Hsv : saved_sp (before_demo s1) = 0x8eec) by done. rewrite Hsv in Hks.
  assert (Hlvo : leaving (others_demo s3) = 0x2100) by (unfold leaving; cbn; by loads).
  assert (Hnxo : next_task (others_demo s3) = 0x2000) by (by apply next_task_kernel_call).
  assert (Hmem : forall a, a < 0x7f00 \/ 0x7f08 <= a -> ld8 (mem (others_demo s3)) a = ld8 (mem s3) a)
    by (intros a Ha; cbn; by rewrite !ld8_st32_ne by lia).
  assert (Hkso : ld32 (mem (others_demo s3)) 0x2000 = ld32 (mem s3) 0x2000) by (apply ld32_ext; intros b Hb; apply Hmem; lia).
  assert (Htgo : target (others_demo s3) = 0x8eec) by (unfold target; rewrite Hlvo, Hnxo, decide_False by lia; by rewrite Hkso).
  assert (Hsp : gp (others_demo s3) ESP = 0x7f00 /\ saved_sp (others_demo s3) = 0x7eec) by done. destruct Hsp as [Hsp Hsvo].
  split; [split | | done |].
  - split; rewrite ?Hsp, ?Hsvo, ?Hlvo, ?Hnxo, ?Htgo; change current_task with 0x600; unfold disjoint; [by apply kernel_call_ok | ..]; lia.
  - rewrite Hlvo, Hlv. done.
  - by rewrite Hlv.
  - rewrite Hsv. intros a Ha. apply Hmem. lia.
  - unfold disjoint. rewrite Hsvo, Hsv. lia.
  - unfold disjoint. rewrite Hlvo, Hsv. lia.
  - intros a Ha. rewrite Hfr, Hkst in Ha. apply Hmem. lia.
  - unfold off_stack, disjoint. rewrite Hfr, Hkst, Hsvo, Hlvo. lia.
Qed.

Lemma preempted_task_witness :
  exists s5, interrupt la_demo ad_demo (fun _ => preempting la_demo ad_demo cf_demo (modify before_demo) others_demo (modify after_demo)) 27 0 0 32 0
      user_demo = Done (Leaves, s5) /\ gp s5 ESP = 0x5000 /\ eip s5 = 0x1234.
Proof.
  destruct (preempted_task_resumes la_demo ad_demo cf_demo 27 0 0 32 0 (modify before_demo) others_demo (modify after_demo) (fun _ => True) user_demo)
    as (s5 & Hrun & _ & Hg & _ & Hip & _).
  - unfold vectors, isr_stubs. elem.
  - exact user_demo_ok.
  - lia.
  - exact user_demo_segments.
  - by vm_compute.
  - by vm_compute.
  - lia.
  - intros s1 Hen. mstep. split; [by apply before_demo_gives|]. intros s3 Hl. split; [by apply others_demo_gets|].
    intros s4 Hgo. unfold handler_resumes. mstep. destruct user_demo_frame as [Hfr _]. pose proof (he_sp _ _ _ _ Hen) as Hsp.
    pose proof (he_segs _ _ _ _ Hen) as (Hcs & Hss & _). rewrite Hsp, Hfr, Hcs, Hss. change (sg (after_demo s4)) with (sg s4).
    rewrite !(go_segs _ _ _ Hgo). by split_and!.
  - exists s5. split; [exact Hrun|]. split; [exact (Hg ESP) | exact Hip].
Defined.
